(* ===== verification/_CoqProject ===== *)
-Q . S2P
Prelude.v
Abi.v
Overload.v
Command.v
Crc32.v
Platform.v
Management.v
Retained.v
Health.v
Event.v
Scheduler.v
Portal.v
Firmware.v
Pipeline.v
PipelineInv.v
PipelineSteps.v
PipelineThms.v
Report.v
Mailbox.v
Services.v
Boot.v
Baremetal.v
Linux.v
DriverState.v
Driver.v
DriverApi.v
DriverIoctl.v
DriverProbe.v
DriverFrame.v
DriverInv.v
DriverMoves.v
DriverRefs.v
DriverRequests.v
DriverOps.v
DriverSubmit.v
DriverFiles.v
DriverBuffers.v
DriverTeardown.v
DriverProbeThms.v
DriverSystem.v
DriverThms.v
DriverReach.v
DriverProps.v
DriverFirmware.v
