(* ===== verification/Prelude.v ===== *)
(** * VAMS: a verification library for the Virtual Accelerator Management SoC

    ** The program

    VAMS is an accelerator behind PCIe with two pieces of software.  The Linux
    driver (src/kernel/vams_pci.c) gives processes a character device: they
    register buffers, submit commands and wait for results.  It writes 64-byte
    descriptors into a submission ring and takes 32-byte completions out of a
    completion ring.  The management firmware (src/firmware, a Zephyr
    application on a RV32 core) receives each descriptor through a one-deep
    command portal, validates it, schedules it by deadline, authorizes the
    engine, publishes one completion, and supervises itself with task epochs, a
    watchdog and a crash record that survives resets.  The two sides share the
    descriptor format (src/firmware/include/vams_abi.h and its generated
    copies); the device between them is a QEMU model, given as a patch.

    ** Files

    Shared
    - Prelude: machine integers, error codes, [result], word lemmas, the
      library's tactics and hint databases.
    - Abi: constants, submission and completion, their byte images.

    Firmware, leaf modules (one file per C file)
    - Overload: firmware/include/vams_overload.h and the compare-and-swap loops
      of main.c and vams_event.c under interference of other tasks.
    - Command: firmware/src/command/vams_command.c.
    - Crc32, Retained: firmware/src/recovery/vams_retained.c.
    - Platform: the classes that stand for Zephyr and the devices (clock, MMIO,
      message queues, memory slabs), with their documented laws and instances.
    - Management, Portal, Mailbox: the drivers in firmware/drivers.
    - Health: firmware/src/health/vams_health.c.
    - Event: firmware/src/logging/vams_event.c.
    - Scheduler: firmware/src/scheduler/vams_scheduler.c and
      [vams_scheduler_select] of main.c.

    Firmware, composition (firmware/src/main.c)
    - Firmware: the statics of main.c as one record and the helpers.
    - Pipeline: receiver, validator, scheduler, recovery manager and completion
      service as step functions; PipelineInv, PipelineSteps, PipelineThms: the
      ownership invariant, that every task step keeps it, and the theorems over
      all interleavings.
    - Report: the threads and [vams_report_resources].
    - Services: heartbeat producer and monitor, mailbox service, event logger,
      health monitor.  Boot: [main], with the creation and start of the threads.

    Bring-up firmware (firmware/baremetal)
    - Baremetal: main.c and the trap entry of start.S, over an abstract UART,
      timer and CPU.

    Driver (kernel/vams_pci.c, vams_regs.h, include/uapi/linux/vams.h)
    - Linux: the class [Kernel] of kernel services with its laws, XArrays,
      signed 32-bit atomics, sums over maps, the counting discipline.
    - DriverState: registers, objects, the state and the monad [K].
    - Driver: reference counting, rings, completion, reset, interrupts,
      submission.  DriverApi: file operations and ioctls.  DriverIoctl: the
      layout of the argument structures, the ioctl numbers and their dispatch.
      DriverProbe: probe with its error labels, and remove.
    - DriverFrame: which functions leave which part of the state alone.
      DriverInv, DriverMoves: the ownership invariant and the state changes that
      keep it.  DriverRefs, DriverRequests, DriverOps, DriverSubmit,
      DriverFiles, DriverBuffers, DriverTeardown, DriverProbeThms: each function
      keeps it, with what it returns.
    - DriverSystem: processes, interrupts, work items and removal as steps;
      DriverThms: the invariant of the system; DriverReach: reachable states and
      a concrete host to run the driver in; DriverProps: the theorems.
    - DriverFirmware: the driver's descriptors meet the firmware's validator.

    ** How the code is modelled

    Integers are [Z] with the wrap-around of their width written out; a null
    pointer is [None]; a C assertion that fails, an index out of range, a use
    after free, an access to an unmapped register window and a loop that runs
    out of fuel are the value [Fault] of [result], so that a theorem that code
    returns [Ok] excludes all of them.  Error returns are values.  Code that is
    not in this repository (Zephyr, Linux, the devices) is a class: its
    operations, and as laws what the code relies on.  Every law has a concrete
    instance, and the witnesses run the code in it.

    Concurrency is interleaving of steps.  A firmware task is cut at every
    operation on a queue, the pool or the pool's counter, and at every register
    access of the completion window, which three tasks write without a lock;
    between two steps devices and the other tasks may do anything to what they
    share.  A publication in the theorems is a [vams_command_complete] that
    returned 0; that the window then holds one task's words is not guaranteed by
    the code ([torn_completion]).

    A driver step is one critical section (under the file's mutex, the submit
    mutex or in an interrupt).  System calls that sleep or outlive a section are
    two steps, and so is [vams_poll], which takes no lock.  The reset work holds
    the submit mutex, but not what the interrupt handlers take, so its loop is
    cut at every move of the iterator, look at a request and removal.  In the
    other sections an interrupt may be taken as arriving before or after: what
    they read of objects the handlers change is either protected by [cq_lock]
    or covered by a reference they hold, and a new request is not known to the
    device before the ring's tail is written at the end of [vams_submit].

    What the theorems say of the hardware is said on its side of the registers:
    the watchdog counts the magic writes to its pet register, the mailbox host is
    handed what the response register holds when the doorbell rings, and the
    comparator's values are those a run of the stores leaves.  [wfi] may return
    early, any bounded number of times, and sleeps until the deadline otherwise.

    Fuel: polling loops get one round per millisecond of their timeout plus one;
    the completion ring gets its 16 slots; tracking has the 32 attempts of the
    code; the bring-up program reads its timer in two rounds and waits
    as often as [wfi] can return early, plus two.  The theorems show that this is enough.

    ** What is shown

    - Commands through the firmware (PipelineThms, Scheduler, Portal): each
      captured command is what the host posted and is answered once, with its own
      identity and outcome, on every interleaving; pool blocks have one owner;
      lifecycle states follow the documented graph, up to a SUCCESS result that
      overtakes an abort; only valid payload commands reach the engine; the
      tasks stop on one assertion only, the overflow of the running queue.
    - Validation (Command, DriverFirmware): the validator accepts exactly the
      well-formed descriptors, and accepts what the driver sends, up to the
      alignment of vector additions.
    - Crash record (Crc32, Retained): any one-word corruption is detected, and
      what was logged survives a reset.
    - Supervision (Health, Services, Event, Overload, Boot): the watchdog
      device is petted exactly while the tasks make progress, a stuck task
      starves it, no event or count is lost unnoticed, the crash record holds
      the last four events, and boot reaches the state these theorems start
      from.
    - Driver safety (DriverProps): no step of any run faults, except two reads
      without protection: the register read of a poll that races with removal,
      and the reset work's look at a request that was completed and freed since
      it was found; reference counts are exact; the buffers of a request stay mapped; nothing leaks after
      removal; probe and registration acquire everything or nothing.
    - Driver function (DriverProps): which entries a drain takes and which request each finishes, what reset
      and removal cancel, that a wait delivers once; that an ioctl number and
      the bytes at its argument reach the handler as the program's structure
      (DriverIoctl); what an accepted submission guarantees (DriverFirmware).
    - Bring-up (Baremetal): the 64-bit timer is read and armed without tearing;
      the program prints and waits as intended whenever it ends, and it ends if
      no early return of [wfi] falls just before the deadline.
    - Behaviours that are not what their callers expect:
      [poll_races_with_removal], [reset_races_with_completion],
      [orphaned_completion_stays_readable], [compat_submit_is_refused],
      [torn_completion] and [timer_wait_can_hang].

    ** Not modelled

    Firmware: the hooks [CONFIG_VAMS_OVERLOAD_TEST] and [CONFIG_VAMS_HEALTH_TEST]
    (off by default; the scheduler delay and watchdog expiry options are
    parameters), interrupt wiring.  Driver: the code under [CONFIG_VAMS_PCI_TESTING] except
    the probe fault injection, which is a parameter; locks as such, and so
    deadlock; saturation of reference counters; wake-ups; the memory of the
    rings, which lives as long as BAR0 is mapped.  Bring-up: the start-up code
    that clears .bss.  The generated ABI copies, the QEMU patch, scripts and
    tests. *)

From stdpp Require Export base tactics option list numbers gmap fin_maps.
From Stdlib Require Export ZArith Lia.

#[export] Set Default Goal Selector "!".
Open Scope Z_scope.

(** ** Notation scope and hint databases of the library *)

Declare Scope vams_scope.
Delimit Scope vams_scope with vams.

Create HintDb vams discriminated.
Create HintDb vams_word discriminated.

(** ** Machine integers

    A [w]-bit C integer is a [Z]; the wrap-around of unsigned arithmetic is
    written out with [u8], [u16], [u32] and [u64]. *)

Definition U8_MAX : Z := 255.
Definition U16_MAX : Z := 65535.
Definition U32_MAX : Z := 4294967295.
Definition U64_MAX : Z := 18446744073709551615.

Definition u8 (x : Z) : Z := x mod 256.
Definition u16 (x : Z) : Z := x mod 65536.
Definition u32 (x : Z) : Z := x mod 4294967296.
Definition u64 (x : Z) : Z := x mod 18446744073709551616.
(** Conversion to a signed 32-bit type. *)
Definition s32 (x : Z) : Z := (x + 2147483648) mod 4294967296 - 2147483648.

Definition is_u8 (x : Z) : Prop := 0 <= x < 256.
Definition is_u16 (x : Z) : Prop := 0 <= x < 65536.
Definition is_u32 (x : Z) : Prop := 0 <= x < 4294967296.
Definition is_u64 (x : Z) : Prop := 0 <= x < 18446744073709551616.

#[export] Instance is_u8_dec x : Decision (is_u8 x).
Proof. unfold is_u8; apply _. Defined.
#[export] Instance is_u16_dec x : Decision (is_u16 x).
Proof. unfold is_u16; apply _. Defined.
#[export] Instance is_u32_dec x : Decision (is_u32 x).
Proof. unfold is_u32; apply _. Defined.
#[export] Instance is_u64_dec x : Decision (is_u64 x).
Proof. unfold is_u64; apply _. Defined.

(** [word_lia] unfolds the width predicates and constants and calls [lia]. *)
Ltac word_unfold :=
  unfold is_u8, is_u16, is_u32, is_u64, U8_MAX, U16_MAX, U32_MAX, U64_MAX in *.
Ltac word_lia := word_unfold; lia.

Lemma u32_range x : is_u32 (u32 x).
Proof. unfold u32, is_u32. apply Z.mod_pos_bound. lia. Qed.
Lemma u64_range x : is_u64 (u64 x).
Proof. unfold u64, is_u64. apply Z.mod_pos_bound. lia. Qed.
Lemma u16_range x : is_u16 (u16 x).
Proof. unfold u16, is_u16. apply Z.mod_pos_bound. lia. Qed.
Lemma u8_range x : is_u8 (u8 x).
Proof. unfold u8, is_u8. apply Z.mod_pos_bound. lia. Qed.
Lemma u32_id x : is_u32 x -> u32 x = x.
Proof. intros; unfold u32; apply Z.mod_small; word_lia. Qed.
Lemma u64_id x : is_u64 x -> u64 x = x.
Proof. intros; unfold u64; apply Z.mod_small; word_lia. Qed.
Lemma u16_id x : is_u16 x -> u16 x = x.
Proof. intros; unfold u16; apply Z.mod_small; word_lia. Qed.
Lemma u8_id x : is_u8 x -> u8 x = x.
Proof. intros; unfold u8; apply Z.mod_small; word_lia. Qed.

#[export] Hint Resolve u8_range u16_range u32_range u64_range : vams_word.
#[export] Hint Extern 3 (is_u8 _) => word_lia : vams_word.
#[export] Hint Extern 3 (is_u16 _) => word_lia : vams_word.
#[export] Hint Extern 3 (is_u32 _) => word_lia : vams_word.
#[export] Hint Extern 3 (is_u64 _) => word_lia : vams_word.

(** [BIT(n)] of the sources, and the flag test [(x & BIT(n)) != 0]. *)
Definition BIT (n : Z) : Z := Z.shiftl 1 n.
Definition has_bits (x mask : Z) : bool := negb (Z.land x mask =? 0).

Lemma has_bits_BIT x n : 0 <= n -> has_bits x (BIT n) = Z.testbit x n.
Proof.
  intros Hn. unfold has_bits, BIT.
  destruct (Z.testbit x n) eqn:E.
  - destruct (Z.eqb_spec (Z.land x (Z.shiftl 1 n)) 0) as [H0|]; [|done].
    exfalso. apply (f_equal (fun z => Z.testbit z n)) in H0.
    rewrite Z.land_spec, Z.shiftl_1_l, Z.pow2_bits_true, E, Z.testbit_0_l in H0; done.
  - replace (Z.land x (Z.shiftl 1 n)) with 0; [done|].
    symmetry. apply Z.bits_inj'. intros i Hi.
    rewrite Z.land_spec, Z.shiftl_1_l, Z.testbit_0_l.
    destruct (Z.eq_dec i n) as [->|Hne]; [by rewrite E|].
    rewrite Z.pow2_bits_false by congruence. by rewrite andb_false_r.
Qed.

(** ** Boolean and propositional glue *)

Lemma orb_false_iff' a b : a || b = false <-> a = false /\ b = false.
Proof. destruct a, b; simpl; tauto. Qed.

(** Split boolean hypotheses into propositions over [Z]. *)
Ltac bool_to_prop :=
  repeat match goal with
  | H : _ && _ = true |- _ => apply andb_true_iff in H as [? ?]
  | H : _ || _ = false |- _ => apply orb_false_iff in H as [? ?]
  | H : negb _ = true |- _ => apply negb_true_iff in H
  | H : negb _ = false |- _ => apply negb_false_iff in H
  | H : (_ =? _) = true |- _ => apply Z.eqb_eq in H
  | H : (_ =? _) = false |- _ => apply Z.eqb_neq in H
  | H : (_ <? _) = true |- _ => apply Z.ltb_lt in H
  | H : (_ <? _) = false |- _ => apply Z.ltb_ge in H
  | H : (_ <=? _) = true |- _ => apply Z.leb_le in H
  | H : (_ <=? _) = false |- _ => apply Z.leb_gt in H
  end.

(** Prove [Forall P [x1; ...; xn]] elementwise from the context. *)
Ltac forall_list :=
  repeat (apply Forall_cons; split; [done|]); apply Forall_nil; exact I.

(** ** Checked results

    The firmware is built with [CONFIG_ASSERT=y]: a failing
    [__ASSERT_NO_MSG] stops it.  An operation that contains assertions, or an
    array access the code does not bound, returns [Ok] with its value, or
    [Fault] at the first assertion that does not hold or access that is out of
    bounds. *)

Inductive result (A : Type) : Type :=
| Ok (a : A)
| Fault.
Arguments Ok {A} a.
Arguments Fault {A}.

#[export] Instance result_ret : MRet result := fun A a => Ok a.
#[export] Instance result_bind : MBind result :=
  fun A B f m => match m with Ok a => f a | Fault => Fault end.
#[export] Instance result_fmap : FMap result :=
  fun A B f m => match m with Ok a => Ok (f a) | Fault => Fault end.

Definition ASSERT_NO_MSG (b : bool) : result unit :=
  if b then Ok tt else Fault.

Definition is_ok {A} (r : result A) : bool :=
  match r with Ok _ => true | Fault => false end.

Lemma result_bind_ok {A B} (m : result A) (f : A -> result B) b :
  m ≫= f = Ok b <-> exists a, m = Ok a /\ f a = Ok b.
Proof.
  split; [|by intros (a & -> & Hf)].
  destruct m as [a|]; [by exists a | done].
Qed.

Lemma ASSERT_ok b u : ASSERT_NO_MSG b = Ok u <-> b = true.
Proof. destruct b, u; simpl; split; congruence. Qed.

(** [res_inv] inverts successful runs of monadic code in the hypotheses. *)
Ltac res_inv :=
  repeat match goal with
  | H : (_ ≫= _) = Ok _ |- _ => apply result_bind_ok in H as (? & ? & ?)
  | H : ASSERT_NO_MSG _ = Ok _ |- _ => apply ASSERT_ok in H
  | H : Ok _ = Ok _ |- _ => injection H as H; subst
  | H : mret _ = Ok _ |- _ => unfold mret, result_ret in H
  | H : Fault = Ok _ |- _ => discriminate H
  | H : (_, _) = (_, _) |- _ => injection H as ? ?; subst
  end.

(** ** Reachability of a step relation *)

Section Reachability.
Context {S : Type} (init : S -> Prop) (step : S -> S -> Prop).

Inductive reachable : S -> Prop :=
| reach_init s : init s -> reachable s
| reach_step s s' : reachable s -> step s s' -> reachable s'.

Lemma reachable_invariant (I : S -> Prop) :
  (forall s, init s -> I s) ->
  (forall s s', I s -> step s s' -> I s') ->
  forall s, reachable s -> I s.
Proof. intros Hi Hs s; induction 1; eauto. Qed.
End Reachability.

(** ** Return codes

    A C [int] status of the sources is zero or a negated errno. *)

Inductive errno : Type :=
| EIO | EAGAIN | ENOMEM | EACCES | EFAULT | EBUSY | ENODEV | EINVAL | ENOTTY
| ENOSPC | ERANGE | ENOENT | ENOMSG | EPROTO | EPROTONOSUPPORT | EOPNOTSUPP
| EOVERFLOW | EALREADY | ECANCELED | ETIMEDOUT | ERESTARTSYS.

#[export] Instance errno_eq_dec : EqDecision errno.
Proof. solve_decision. Defined.

Inductive rc : Type :=
| rc_ok
| rc_err (e : errno).

#[export] Instance rc_eq_dec : EqDecision rc.
Proof. solve_decision. Defined.

Definition rc_is_ok (s : rc) : bool := bool_decide (s = rc_ok).
Definition rc_is (e : errno) (s : rc) : bool := bool_decide (s = rc_err e).

(** ** Little-endian byte strings

    Bytes are [Z] in [0, 256).  [le_bytes n x] is the [n]-byte little-endian
    image of [x]; [le_value] reads one back. *)

Fixpoint le_bytes (n : nat) (x : Z) : list Z :=
  match n with
  | O => []
  | S n' => x mod 256 :: le_bytes n' (x / 256)
  end.

Fixpoint le_value (bs : list Z) : Z :=
  match bs with
  | [] => 0
  | b :: bs' => b + 256 * le_value bs'
  end.

Lemma le_bytes_length n x : length (le_bytes n x) = n.
Proof. revert x; induction n; intros; simpl; auto. Qed.

Lemma le_bytes_range n x : Forall is_u8 (le_bytes n x).
Proof.
  revert x; induction n as [|n IH]; intros; simpl; constructor; auto.
  apply Z.mod_pos_bound; lia.
Qed.

Lemma le_value_bytes n x : le_value (le_bytes n x) = x mod 256 ^ Z.of_nat n.
Proof.
  revert x; induction n as [|n IH]; intros x; cbn [le_bytes le_value].
  - by rewrite Z.mod_1_r.
  - rewrite IH, Nat2Z.inj_succ, Z.pow_succ_r by lia.
    rewrite Z.rem_mul_r by (try apply Z.pow_nonzero; try apply Z.pow_pos_nonneg; lia).
    done.
Qed.

Lemma le_value_range bs :
  Forall is_u8 bs -> 0 <= le_value bs < 256 ^ Z.of_nat (length bs).
Proof.
  induction 1 as [|b bs Hb Hbs IH]; cbn [le_value length]; [done|].
  rewrite Nat2Z.inj_succ, Z.pow_succ_r by lia. unfold is_u8 in Hb. lia.
Qed.

Lemma le_bytes_value bs :
  Forall is_u8 bs -> le_bytes (length bs) (le_value bs) = bs.
Proof.
  induction 1 as [|b bs Hb Hbs IH]; cbn [le_value le_bytes length]; [done|].
  unfold is_u8 in Hb.
  replace (b + 256 * le_value bs) with (le_value bs * 256 + b) by lia.
  rewrite Z.div_add_l, (Z.div_small b), Z.add_0_r by lia.
  rewrite Z.add_comm, Z.mod_add, Z.mod_small by lia. by rewrite IH.
Qed.

Lemma take_insert_succ {A} (l : list A) i x :
  (i < length l)%nat -> take (S i) (<[i:=x]> l) = take i l ++ [x].
Proof.
  intros Hi. erewrite take_S_r; [|by apply list_lookup_insert_eq].
  by rewrite take_insert_ge by lia.
Qed.

(** ** Structure layouts

    A packed little-endian structure is a list of field widths (in bytes);
    [pack] and [unpack] are the memory image of its field values. *)

Fixpoint pack (layout : list nat) (fields : list Z) : list Z :=
  match layout, fields with
  | w :: ws, x :: xs => le_bytes w x ++ pack ws xs
  | _, _ => []
  end.

Fixpoint unpack (layout : list nat) (bs : list Z) : list Z :=
  match layout with
  | [] => []
  | w :: ws => le_value (take w bs) :: unpack ws (drop w bs)
  end.

Definition layout_size (layout : list nat) : nat := sum_list layout.

Definition fits (w : nat) (x : Z) : Prop := 0 <= x < 256 ^ Z.of_nat w.

Lemma pack_length layout fields :
  length fields = length layout -> length (pack layout fields) = layout_size layout.
Proof.
  revert fields; induction layout as [|w ws IH]; intros [|x xs] Hl;
    simplify_eq/=; [done..|].
  rewrite length_app, le_bytes_length, IH by done. done.
Qed.

Lemma pack_range layout fields : Forall is_u8 (pack layout fields).
Proof.
  revert fields; induction layout as [|w ws IH]; intros [|x xs]; simpl; try constructor.
  apply Forall_app; split; [apply le_bytes_range | apply IH].
Qed.

Lemma unpack_pack layout fields :
  Forall2 fits layout fields -> unpack layout (pack layout fields) = fields.
Proof.
  induction 1 as [|w x ws xs Hx Hxs IH]; [done|]; cbn [pack unpack].
  rewrite take_app_length', drop_app_length', IH by (by rewrite le_bytes_length).
  by rewrite le_value_bytes, Z.mod_small.
Qed.

Lemma pack_unpack layout bs :
  Forall is_u8 bs -> length bs = layout_size layout ->
  pack layout (unpack layout bs) = bs.
Proof.
  revert bs; induction layout as [|w ws IH]; intros bs Hbs Hl;
    unfold layout_size in *; cbn [unpack pack sum_list fmap list_fmap] in *.
  - by destruct bs.
  - assert (w <= length bs)%nat by (simpl in Hl; lia).
    rewrite IH; [|by apply Forall_drop|rewrite length_drop; simpl in Hl; lia].
    transitivity (take w bs ++ drop w bs); [|by rewrite take_drop].
    f_equal. rewrite <-(le_bytes_value (take w bs)) at 2 by (by apply Forall_take).
    rewrite length_take. f_equal. lia.
Qed.

Lemma unpack_fits layout bs :
  Forall is_u8 bs -> Forall2 fits layout (unpack layout bs).
Proof.
  revert bs; induction layout as [|w ws IH]; intros bs Hbs; simpl; constructor.
  - pose proof (le_value_range (take w bs) (Forall_take _ _ _ Hbs)) as [H1 H2].
    split; [done|]. eapply Z.lt_le_trans; [exact H2|].
    apply Z.pow_le_mono_r; [lia|]. rewrite length_take. lia.
  - apply IH. by apply Forall_drop.
Qed.
