(* ===== verification/Abi.v ===== *)
(** * The host-firmware ABI (firmware/include/vams_abi.h)

    The constants, the 64-byte submission and the 32-byte completion, and
    their memory images.  A record field holds the integer its little-endian
    bytes denote: the management CPU is a little-endian RV32, where Zephyr's
    [sys_le16_to_cpu], [sys_cpu_to_le32], ... are the identity, so they are not
    written in the models.  The round-trip theorems relate the records to the
    bytes and to the 32-bit words that cross the command portal. *)

From S2P Require Import Prelude.

(** ** Constants *)

Definition VAMS_DESC_VERSION_1 : Z := 1.
Definition VAMS_OP_NOP : Z := 0x0000.
Definition VAMS_OP_MEM_COPY : Z := 0x0001.
Definition VAMS_OP_MEM_FILL : Z := 0x0002.
Definition VAMS_OP_CRC32 : Z := 0x0003.
Definition VAMS_OP_VECTOR_ADD : Z := 0x0004.
Definition VAMS_SUB_F_VERIFY_CRC : Z := 0x0001.
Definition VAMS_STATUS_SUCCESS : Z := 0x0000.
Definition VAMS_STATUS_INVALID : Z := 0x0001.
Definition VAMS_STATUS_FAILED : Z := 0x0002.
Definition VAMS_STATUS_TIMED_OUT : Z := 0x0003.
Definition VAMS_STATUS_CANCELLED : Z := 0x0004.
Definition VAMS_STATUS_RESET : Z := 0x0005.
Definition VAMS_ERR_NONE : Z := 0x0000.
Definition VAMS_ERR_UNSUPPORTED_VERSION : Z := 0x0001.
Definition VAMS_ERR_INVALID_OPCODE : Z := 0x0002.
Definition VAMS_ERR_INVALID_FLAGS : Z := 0x0003.
Definition VAMS_ERR_RESERVED_NONZERO : Z := 0x0004.
Definition VAMS_ERR_DUPLICATE_ID : Z := 0x0005.
Definition VAMS_ERR_INVALID_LENGTH : Z := 0x0006.
Definition VAMS_ERR_INVALID_ALIGNMENT : Z := 0x0007.
Definition VAMS_ERR_ADDRESS_OVERFLOW : Z := 0x0008.
Definition VAMS_ERR_INVALID_ADDRESS : Z := 0x0009.
Definition VAMS_ERR_INVALID_TIMEOUT : Z := 0x000a.
Definition VAMS_ERR_DMA_READ : Z := 0x0010.
Definition VAMS_ERR_DMA_WRITE : Z := 0x0011.
Definition VAMS_ERR_ENGINE : Z := 0x0012.
Definition VAMS_ERR_TIMEOUT : Z := 0x0013.
Definition VAMS_ERR_CRC_MISMATCH : Z := 0x0014.
Definition VAMS_ERR_RESET : Z := 0x0015.
Definition VAMS_ERR_QUEUE_RESET : Z := 0x0016.
Definition VAMS_ERR_DEVICE_FATAL : Z := 0x0017.
Definition VAMS_SUBMISSION_SIZE : nat := 64.
Definition VAMS_COMPLETION_SIZE : nat := 32.

(** ** The descriptors *)

Record vams_submission : Type := {
  s_version : Z;          (* uint16_t *)
  s_opcode : Z;           (* uint8_t *)
  s_flags : Z;            (* uint8_t *)
  s_command_id : Z;       (* uint32_t *)
  s_source_dma : Z;       (* uint64_t *)
  s_destination_dma : Z;  (* uint64_t *)
  s_length : Z;           (* uint32_t *)
  s_timeout_ms : Z;       (* uint32_t *)
  s_user_cookie : Z;      (* uint64_t *)
  s_expected_crc : Z;     (* uint32_t *)
  s_reserved0 : Z;        (* uint32_t *)
  s_reserved1 : Z;        (* uint64_t *)
  s_reserved2 : Z;        (* uint64_t *)
}.

Record vams_completion : Type := {
  c_command_id : Z;       (* uint32_t *)
  c_status : Z;           (* uint16_t *)
  c_error_code : Z;       (* uint16_t *)
  c_bytes_processed : Z;  (* uint32_t *)
  c_result_crc : Z;       (* uint32_t *)
  c_user_cookie : Z;      (* uint64_t *)
  c_device_timestamp : Z; (* uint64_t *)
}.

#[export] Instance vams_submission_eq_dec : EqDecision vams_submission.
Proof. solve_decision. Defined.
#[export] Instance vams_completion_eq_dec : EqDecision vams_completion.
Proof. solve_decision. Defined.

(** The all-zero images written by [memset]. *)
Definition zero_submission : vams_submission :=
  Build_vams_submission 0 0 0 0 0 0 0 0 0 0 0 0 0.
Definition zero_completion : vams_completion :=
  Build_vams_completion 0 0 0 0 0 0 0.

(** ** Memory images *)

Definition submission_layout : list nat :=
  [2; 1; 1; 4; 8; 8; 4; 4; 8; 4; 4; 8; 8]%nat.
Definition completion_layout : list nat := [4; 2; 2; 4; 4; 8; 8]%nat.

Definition submission_fields (s : vams_submission) : list Z :=
  [s_version s; s_opcode s; s_flags s; s_command_id s; s_source_dma s;
   s_destination_dma s; s_length s; s_timeout_ms s; s_user_cookie s;
   s_expected_crc s; s_reserved0 s; s_reserved1 s; s_reserved2 s].

Definition completion_fields (c : vams_completion) : list Z :=
  [c_command_id c; c_status c; c_error_code c; c_bytes_processed c;
   c_result_crc c; c_user_cookie c; c_device_timestamp c].

Definition submission_of_fields (fs : list Z) : vams_submission :=
  match fs with
  | [v; o; f; i; s; d; l; t; k; e; r0; r1; r2] =>
      Build_vams_submission v o f i s d l t k e r0 r1 r2
  | _ => zero_submission
  end.

Definition completion_of_fields (fs : list Z) : vams_completion :=
  match fs with
  | [i; s; e; b; r; k; t] => Build_vams_completion i s e b r k t
  | _ => zero_completion
  end.

Definition submission_bytes (s : vams_submission) : list Z :=
  pack submission_layout (submission_fields s).
Definition completion_bytes (c : vams_completion) : list Z :=
  pack completion_layout (completion_fields c).
Definition submission_of_bytes (bs : list Z) : vams_submission :=
  submission_of_fields (unpack submission_layout bs).
Definition completion_of_bytes (bs : list Z) : vams_completion :=
  completion_of_fields (unpack completion_layout bs).

(** A descriptor whose fields fit their C types. *)
Definition wf_submission (s : vams_submission) : Prop :=
  Forall2 fits submission_layout (submission_fields s).
Definition wf_completion (c : vams_completion) : Prop :=
  Forall2 fits completion_layout (completion_fields c).

#[export] Instance fits_dec w x : Decision (fits w x).
Proof. unfold fits; apply _. Defined.
#[export] Instance wf_submission_dec s : Decision (wf_submission s).
Proof. unfold wf_submission; apply _. Defined.
#[export] Instance wf_completion_dec c : Decision (wf_completion c).
Proof. unfold wf_completion; apply _. Defined.

(** A buffer of [uint32_t] seen as bytes, and back: the [memcpy] between a
    word array and a descriptor in the portal and retention drivers. *)
Definition bytes_of_words (ws : list Z) : list Z := ws ≫= le_bytes 4.

Fixpoint words_of_bytes (bs : list Z) : list Z :=
  match bs with
  | b0 :: b1 :: b2 :: b3 :: rest => le_value [b0; b1; b2; b3] :: words_of_bytes rest
  | _ => []
  end.

(** ** Lemmas *)

Lemma wf_submission_ranges s :
  wf_submission s ->
  is_u16 (s_version s) /\ is_u8 (s_opcode s) /\ is_u8 (s_flags s) /\
  is_u32 (s_command_id s) /\ is_u64 (s_source_dma s) /\
  is_u64 (s_destination_dma s) /\ is_u32 (s_length s) /\
  is_u32 (s_timeout_ms s) /\ is_u64 (s_user_cookie s) /\
  is_u32 (s_expected_crc s) /\ is_u32 (s_reserved0 s) /\
  is_u64 (s_reserved1 s) /\ is_u64 (s_reserved2 s).
Proof.
  unfold wf_submission, submission_layout, submission_fields, fits.
  rewrite !Forall2_cons_iff. simpl. word_lia.
Qed.

Lemma wf_completion_ranges c :
  wf_completion c ->
  is_u32 (c_command_id c) /\ is_u16 (c_status c) /\ is_u16 (c_error_code c) /\
  is_u32 (c_bytes_processed c) /\ is_u32 (c_result_crc c) /\
  is_u64 (c_user_cookie c) /\ is_u64 (c_device_timestamp c).
Proof.
  unfold wf_completion, completion_layout, completion_fields, fits.
  rewrite !Forall2_cons_iff. simpl. word_lia.
Qed.

Lemma bytes_of_words_length ws : length (bytes_of_words ws) = (4 * length ws)%nat.
Proof.
  induction ws as [|w ws IH]; [done|].
  unfold bytes_of_words in *. rewrite bind_cons, length_app, IH, le_bytes_length.
  simpl. lia.
Qed.

Lemma bytes_of_words_range ws : Forall is_u8 (bytes_of_words ws).
Proof.
  induction ws as [|w ws IH]; [constructor|].
  unfold bytes_of_words in *. rewrite bind_cons.
  apply Forall_app; split; [apply le_bytes_range | done].
Qed.

Lemma words_of_bytes_of_words ws :
  Forall is_u32 ws -> words_of_bytes (bytes_of_words ws) = ws.
Proof.
  induction 1 as [|w ws Hw Hws IH]; [done|].
  unfold bytes_of_words in *. rewrite bind_cons.
  transitivity (le_value (le_bytes 4 w) :: words_of_bytes (ws ≫= le_bytes 4)); [done|].
  rewrite le_value_bytes, IH, Z.mod_small; [done|word_lia].
Qed.

Lemma bytes_of_words_of_bytes n bs :
  length bs = (4 * n)%nat -> Forall is_u8 bs ->
  bytes_of_words (words_of_bytes bs) = bs.
Proof.
  revert bs; induction n as [|n IH]; intros bs Hl Hb.
  - by destruct bs.
  - destruct bs as [|b0 [|b1 [|b2 [|b3 bs]]]]; simpl in Hl; try lia.
    rewrite !Forall_cons in Hb. destruct Hb as (H0 & H1 & H2 & H3 & Hb).
    cbn [words_of_bytes]. unfold bytes_of_words. rewrite bind_cons.
    fold (bytes_of_words (words_of_bytes bs)).
    rewrite IH by (try done; lia).
    pose proof (le_bytes_value [b0; b1; b2; b3] ltac:(forall_list)) as E.
    cbn [length] in E. by rewrite E.
Qed.

Lemma words_of_bytes_range n bs :
  length bs = (4 * n)%nat -> Forall is_u8 bs ->
  Forall is_u32 (words_of_bytes bs) /\ length (words_of_bytes bs) = n.
Proof.
  revert bs; induction n as [|n IH]; intros bs Hl Hb.
  - destruct bs; [by repeat constructor | done].
  - destruct bs as [|b0 [|b1 [|b2 [|b3 bs]]]]; simpl in Hl; try lia.
    rewrite !Forall_cons in Hb. destruct Hb as (H0 & H1 & H2 & H3 & Hb).
    destruct (IH bs ltac:(lia) Hb) as [Hr Hn].
    cbn [words_of_bytes length]. split; [|lia]. constructor; [|done].
    pose proof (le_value_range [b0; b1; b2; b3] ltac:(forall_list)).
    simpl in *. word_lia.
Qed.

Lemma submission_fields_of_bytes bs :
  submission_fields (submission_of_bytes bs) = unpack submission_layout bs.
Proof. done. Qed.

Lemma completion_fields_of_bytes bs :
  completion_fields (completion_of_bytes bs) = unpack completion_layout bs.
Proof. done. Qed.

Lemma submission_of_bytes_wf bs : Forall is_u8 bs -> wf_submission (submission_of_bytes bs).
Proof. intros. apply (unpack_fits submission_layout bs). done. Qed.

Lemma completion_of_bytes_wf bs : Forall is_u8 bs -> wf_completion (completion_of_bytes bs).
Proof. intros. apply (unpack_fits completion_layout bs). done. Qed.

Lemma submission_of_bytes_bytes s :
  wf_submission s -> submission_of_bytes (submission_bytes s) = s.
Proof.
  intros Hwf. unfold submission_of_bytes, submission_bytes.
  rewrite unpack_pack by done. by destruct s.
Qed.

Lemma completion_of_bytes_bytes c :
  wf_completion c -> completion_of_bytes (completion_bytes c) = c.
Proof.
  intros Hwf. unfold completion_of_bytes, completion_bytes.
  rewrite unpack_pack by done. by destruct c.
Qed.

Lemma submission_bytes_of_bytes bs :
  Forall is_u8 bs -> length bs = VAMS_SUBMISSION_SIZE ->
  submission_bytes (submission_of_bytes bs) = bs.
Proof.
  intros Hb Hl. unfold submission_bytes. rewrite submission_fields_of_bytes.
  by apply pack_unpack.
Qed.

Lemma completion_bytes_of_bytes bs :
  Forall is_u8 bs -> length bs = VAMS_COMPLETION_SIZE ->
  completion_bytes (completion_of_bytes bs) = bs.
Proof.
  intros Hb Hl. unfold completion_bytes. rewrite completion_fields_of_bytes.
  by apply pack_unpack.
Qed.

Lemma completion_bytes_length c : length (completion_bytes c) = VAMS_COMPLETION_SIZE.
Proof. unfold completion_bytes. by rewrite pack_length. Qed.

Lemma submission_bytes_length s : length (submission_bytes s) = VAMS_SUBMISSION_SIZE.
Proof. unfold submission_bytes. by rewrite pack_length. Qed.

(** ** Round trips *)

(** The little-endian integer of [width] bytes at [offset]. *)
Definition wire_field (offset width : nat) (bs : list Z) : Z := le_value (take width (drop offset bs)).

(** C34: the wire format of docs/descriptor-format.md.  Each field of a
    submission read from 64 bytes is the little-endian integer at the
    documented offset, and writing the submission gives the 64 bytes back;
    the same for the fields of a completion in its 32 bytes.  Conversely every
    descriptor whose fields fit their types is recovered from its image. *)
Theorem descriptor_roundtrip :
  (forall bs, Forall is_u8 bs -> length bs = 64%nat ->
     let s := submission_of_bytes bs in
     s_version s = wire_field 0x00 2 bs /\ s_opcode s = wire_field 0x02 1 bs /\
     s_flags s = wire_field 0x03 1 bs /\ s_command_id s = wire_field 0x04 4 bs /\
     s_source_dma s = wire_field 0x08 8 bs /\ s_destination_dma s = wire_field 0x10 8 bs /\
     s_length s = wire_field 0x18 4 bs /\ s_timeout_ms s = wire_field 0x1c 4 bs /\
     s_user_cookie s = wire_field 0x20 8 bs /\ s_expected_crc s = wire_field 0x28 4 bs /\
     s_reserved0 s = wire_field 0x2c 4 bs /\ s_reserved1 s = wire_field 0x30 8 bs /\
     s_reserved2 s = wire_field 0x38 8 bs /\
     wf_submission s /\ submission_bytes s = bs) /\
  (forall s, wf_submission s ->
     length (submission_bytes s) = 64%nat /\ submission_of_bytes (submission_bytes s) = s) /\
  (forall bs, Forall is_u8 bs -> length bs = 32%nat ->
     let c := completion_of_bytes bs in
     c_command_id c = wire_field 0x00 4 bs /\ c_status c = wire_field 0x04 2 bs /\
     c_error_code c = wire_field 0x06 2 bs /\ c_bytes_processed c = wire_field 0x08 4 bs /\
     c_result_crc c = wire_field 0x0c 4 bs /\ c_user_cookie c = wire_field 0x10 8 bs /\
     c_device_timestamp c = wire_field 0x18 8 bs /\
     wf_completion c /\ completion_bytes c = bs) /\
  (forall c, wf_completion c ->
     length (completion_bytes c) = 32%nat /\ completion_of_bytes (completion_bytes c) = c).
Proof.
  split_and!.
  - intros bs Hb Hl. cbv zeta. pose proof (submission_of_bytes_wf bs Hb) as Hwf.
    pose proof (submission_bytes_of_bytes bs Hb Hl) as Hbs. unfold wire_field.
    split_and!; try done; cbn [submission_of_bytes submission_of_fields unpack submission_layout
      s_version s_opcode s_flags s_command_id s_source_dma s_destination_dma s_length s_timeout_ms
      s_user_cookie s_expected_crc s_reserved0 s_reserved1 s_reserved2]; by rewrite ?drop_drop.
  - intros s Hwf. split; [apply submission_bytes_length|by apply submission_of_bytes_bytes].
  - intros bs Hb Hl. cbv zeta. pose proof (completion_of_bytes_wf bs Hb) as Hwf.
    pose proof (completion_bytes_of_bytes bs Hb Hl) as Hbs. unfold wire_field.
    split_and!; try done; cbn [completion_of_bytes completion_of_fields unpack completion_layout
      c_command_id c_status c_error_code c_bytes_processed c_result_crc c_user_cookie
      c_device_timestamp]; by rewrite ?drop_drop.
  - intros c Hwf. split; [apply completion_bytes_length|by apply completion_of_bytes_bytes].
Qed.

Definition counting_bytes : list Z := Z.of_nat <$> seq 1 64.

Lemma descriptor_roundtrip_witness :
  s_command_id (submission_of_bytes counting_bytes) = 0x08070605 /\
  submission_bytes (submission_of_bytes counting_bytes) = counting_bytes.
Proof.
  destruct descriptor_roundtrip as (H & _).
  destruct (H counting_bytes) as (_ & _ & _ & Hid & _ & _ & _ & _ & _ & _ & _ & _ & _ & _ & Hbs).
  - apply Forall_fmap, Forall_seq. intros j Hj. unfold compose. word_lia.
  - reflexivity.
  - split; [rewrite Hid; reflexivity|exact Hbs].
Defined.
