(* ===== verification/Overload.v ===== *)
(** * Overload policy and saturating counters
    (firmware/include/vams_overload.h and the compare-and-swap loops of
    firmware/src/main.c and firmware/src/logging/vams_event.c)

    The counters are 32-bit cells shared by every task.  A compare-and-swap
    loop is modelled with its interference: [env] lists, round by round, what
    the other tasks do to the cell between the loop's read and its
    compare-and-swap. *)

From S2P Require Import Prelude.

Definition vams_counter_increment (value : Z) : Z :=
  if value =? U32_MAX then U32_MAX else u32 (value + 1).

Definition vams_command_admission_allowed (portal_pending : bool) (pool_free : Z) : bool :=
  portal_pending && (0 <? pool_free).

(** One shared cell under interference: the effect of the other tasks in one
    round of a retry loop. *)
Definition interference : Type := Z -> Z.

(** [while (previous != UINT32_MAX && !atomic_cas(counter, previous,
    vams_counter_increment(previous))) previous = atomic_get(counter);]
    The swap succeeds when the cell still holds [previous]. *)
Fixpoint saturating_inc_loop (env : list interference) (cell previous : Z) : Z :=
  if previous =? U32_MAX then cell
  else
    match env with
    | [] => vams_counter_increment previous
    | f :: env' =>
        let cell' := f cell in
        if cell' =? previous then vams_counter_increment previous
        else saturating_inc_loop env' cell' cell'
    end.

Definition vams_saturating_atomic_inc (env : list interference) (cell : Z) : Z :=
  saturating_inc_loop env cell cell.

Definition vams_event_record_drop (env : list interference) (event_drop_count : Z) : Z :=
  saturating_inc_loop env event_drop_count event_drop_count.

(** [while (value > previous && !atomic_cas(high_water, previous, value))
    previous = atomic_get(high_water);] over signed [atomic_val_t]. *)
Fixpoint high_water_loop (env : list interference) (value cell previous : Z) : Z :=
  if value <=? previous then cell
  else
    match env with
    | [] => value
    | f :: env' =>
        let cell' := f cell in
        if cell' =? previous then value
        else high_water_loop env' value cell' cell'
    end.

Definition vams_record_high_water (env : list interference) (cell value : Z) : Z :=
  high_water_loop env value cell cell.

(** ** Lemmas *)

Lemma counter_increment_range v : is_u32 v -> is_u32 (vams_counter_increment v).
Proof.
  intros. unfold vams_counter_increment. destruct (v =? U32_MAX); [word_lia|].
  apply u32_range.
Qed.

Lemma counter_increment_min v :
  is_u32 v -> vams_counter_increment v = Z.min U32_MAX (v + 1).
Proof.
  intros. unfold vams_counter_increment.
  destruct (Z.eqb_spec v U32_MAX) as [->|]; [reflexivity|].
  rewrite u32_id by word_lia. word_lia.
Qed.

Lemma counter_increment_mono v : is_u32 v -> v <= vams_counter_increment v.
Proof. intros. rewrite counter_increment_min by done. word_lia. Qed.

Lemma counter_increment_pos v : is_u32 v -> 1 <= vams_counter_increment v.
Proof. intros. rewrite counter_increment_min by done. word_lia. Qed.

#[export] Hint Resolve counter_increment_range : vams_word.

(** Folding the interference of the first rounds into the cell. *)
Definition interfere (env : list interference) (cell : Z) : Z :=
  foldl (fun c f => f c) cell env.

Lemma saturating_inc_loop_nil cell :
  is_u32 cell -> saturating_inc_loop [] cell cell = Z.min U32_MAX (cell + 1).
Proof.
  intros Hc. rewrite <-counter_increment_min by done. unfold vams_counter_increment. simpl.
  destruct (Z.eqb_spec cell U32_MAX) as [->|]; [done|].
  unfold vams_counter_increment. by destruct (Z.eqb_spec cell U32_MAX).
Qed.

Lemma saturating_inc_loop_spec env cell :
  exists n, (n <= length env)%nat /\
    saturating_inc_loop env cell cell =
    vams_counter_increment (interfere (take n env) cell).
Proof.
  revert cell; induction env as [|f env IH]; intros cell; cbn [saturating_inc_loop].
  - exists 0%nat. split; [done|]. simpl. unfold vams_counter_increment.
    destruct (Z.eqb_spec cell U32_MAX) as [->|]; done.
  - destruct (Z.eqb_spec cell U32_MAX) as [->|Hne].
    + exists 0%nat. split; [lia|]. reflexivity.
    + destruct (Z.eqb_spec (f cell) cell) as [Heq|_].
      * exists 0%nat. split; [lia|]. reflexivity.
      * destruct (IH (f cell)) as (n & Hn & ->).
        exists (S n). split; [simpl; lia|]. reflexivity.
Qed.

Lemma high_water_loop_spec env value cell :
  Forall (fun f : interference => forall c, c <= f c) env ->
  value <= high_water_loop env value cell cell /\
  cell <= high_water_loop env value cell cell /\
  exists n, (n <= length env)%nat /\
    high_water_loop env value cell cell = Z.max value (interfere (take n env) cell).
Proof.
  intros Hmono. revert cell; induction Hmono as [|f env Hf _ IH]; intros cell;
    cbn [high_water_loop].
  - destruct (Z.leb_spec value cell); (split_and!; [lia..|]); exists 0%nat;
      (split; [done|]); simpl; lia.
  - destruct (Z.leb_spec value cell).
    { split_and!; [lia..|]. exists 0%nat. split; [lia|]. simpl. lia. }
    destruct (Z.eqb_spec (f cell) cell) as [Heq|_].
    { split_and!; [lia..|]. exists 0%nat. split; [lia|]. simpl. lia. }
    specialize (Hf cell). destruct (IH (f cell)) as (H1 & H2 & n & Hn & E).
    split_and!; [done|lia|]. exists (S n). split; [simpl; lia|]. done.
Qed.

(** ** Properties *)

(** The saturating counter never loses an increment to a concurrent task
    and never wraps: whatever the other tasks do to the cell between the read
    and the swap, the loop stops after at most one round per interference and
    leaves the saturated successor of the value the cell last held.  A counter
    that has reached [UINT32_MAX] stays there. *)
Theorem saturating_inc_no_lost_update (env : list interference) (cell : Z) :
  (exists n, (n <= length env)%nat /\
     vams_saturating_atomic_inc env cell =
     vams_counter_increment (interfere (take n env) cell)) /\
  (is_u32 cell -> vams_saturating_atomic_inc [] cell = Z.min U32_MAX (cell + 1)) /\
  vams_saturating_atomic_inc env U32_MAX = U32_MAX.
Proof.
  split_and!.
  - apply saturating_inc_loop_spec.
  - intros. unfold vams_saturating_atomic_inc. simpl.
    destruct (Z.eqb_spec cell U32_MAX) as [->|]; [reflexivity|].
    by apply counter_increment_min.
  - destruct env; reflexivity.
Qed.

(** the high-water mark is a maximum even under concurrent updates: with
    other tasks that only raise it, the loop leaves a value at least the new
    sample and at least the old mark, and equal to the larger of the sample
    and what the other tasks left. *)
Theorem high_water_is_max (env : list interference) (cell value : Z)
    (Hraise : Forall (fun f : interference => forall c, c <= f c) env) :
  value <= vams_record_high_water env cell value /\
  cell <= vams_record_high_water env cell value /\
  exists n, (n <= length env)%nat /\
    vams_record_high_water env cell value = Z.max value (interfere (take n env) cell).
Proof. by apply high_water_loop_spec. Qed.

Lemma high_water_is_max_witness :
  8 <= vams_record_high_water [fun c => c + 2; fun c => c + 1] 3 8.
Proof.
  apply (high_water_is_max [fun c => c + 2; fun c => c + 1] 3 8).
  repeat constructor; intros; lia.
Defined.

Lemma saturating_inc_witness : vams_saturating_atomic_inc [] 41 = Z.min U32_MAX (41 + 1).
Proof. apply (saturating_inc_no_lost_update [] 41). word_lia. Defined.

Lemma admission_allowed_iff pending free :
  vams_command_admission_allowed pending free = true <-> pending = true /\ 0 < free.
Proof. unfold vams_command_admission_allowed. rewrite andb_true_iff, Z.ltb_lt. done. Qed.
