(* ===== verification/Command.v ===== *)
(** * Descriptor validation (firmware/src/command/vams_command.c)

    The validator of the management firmware, as the cascade of early returns
    the code is, with its unsigned 64-bit arithmetic.  Against it stand

    - [valid_descriptor], the set of descriptors that may reach the engine, in
      terms of byte ranges and without machine arithmetic;
    - [doc_rules], the validation order docs/descriptor-format.md fixes. *)

From S2P Require Import Prelude Abi.

Definition VAMS_MAX_TIMEOUT_MS : Z := 60000.
Definition VAMS_MAX_TRANSFER_SIZE : Z := 0x01000000.

(** ** The code *)

Definition vams_range_overflows (address length : Z) : bool :=
  u64 (U64_MAX - u64 (length - 1)) <? address.

Definition vams_ranges_overlap (first second length : Z) : bool :=
  let first_end := u64 (first + length - 1) in
  let second_end := u64 (second + length - 1) in
  (first <=? second_end) && (second <=? first_end).

Definition vams_validate_command (submission : vams_submission) : Z :=
  let opcode := s_opcode submission in
  let length := s_length submission in
  let source := s_source_dma submission in
  let destination := s_destination_dma submission in
  if negb (s_version submission =? VAMS_DESC_VERSION_1) then
    VAMS_ERR_UNSUPPORTED_VERSION
  else if negb (opcode =? VAMS_OP_NOP) && negb (opcode =? VAMS_OP_MEM_COPY) &&
          negb (opcode =? VAMS_OP_MEM_FILL) && negb (opcode =? VAMS_OP_CRC32) &&
          negb (opcode =? VAMS_OP_VECTOR_ADD) then
    VAMS_ERR_INVALID_OPCODE
  else if ((opcode =? VAMS_OP_CRC32) &&
           has_bits (s_flags submission) (U32_MAX - VAMS_SUB_F_VERIFY_CRC)) ||
          (negb (opcode =? VAMS_OP_CRC32) && negb (s_flags submission =? 0)) then
    VAMS_ERR_INVALID_FLAGS
  else if (negb (opcode =? VAMS_OP_CRC32) ||
           negb (has_bits (s_flags submission) VAMS_SUB_F_VERIFY_CRC)) &&
          negb (s_expected_crc submission =? 0) then
    VAMS_ERR_RESERVED_NONZERO
  else if negb (s_reserved0 submission =? 0) || negb (s_reserved1 submission =? 0) ||
          negb (s_reserved2 submission =? 0) then
    VAMS_ERR_RESERVED_NONZERO
  else if VAMS_MAX_TIMEOUT_MS <? s_timeout_ms submission then
    VAMS_ERR_INVALID_TIMEOUT
  else if (opcode =? VAMS_OP_NOP) && negb (length =? 0) then
    VAMS_ERR_INVALID_LENGTH
  else if (opcode =? VAMS_OP_NOP) && (negb (source =? 0) || negb (destination =? 0)) then
    VAMS_ERR_INVALID_ADDRESS
  else if opcode =? VAMS_OP_MEM_COPY then
    if (length =? 0) || (VAMS_MAX_TRANSFER_SIZE <? length) then
      VAMS_ERR_INVALID_LENGTH
    else if vams_range_overflows source length ||
            vams_range_overflows destination length then
      VAMS_ERR_ADDRESS_OVERFLOW
    else if (source =? 0) || (destination =? 0) ||
            vams_ranges_overlap source destination length then
      VAMS_ERR_INVALID_ADDRESS
    else VAMS_ERR_NONE
  else if opcode =? VAMS_OP_MEM_FILL then
    if (length =? 0) || (VAMS_MAX_TRANSFER_SIZE <? length) then
      VAMS_ERR_INVALID_LENGTH
    else if vams_range_overflows destination length then
      VAMS_ERR_ADDRESS_OVERFLOW
    else if (source =? 0) || (destination =? 0) then
      VAMS_ERR_INVALID_ADDRESS
    else VAMS_ERR_NONE
  else if opcode =? VAMS_OP_CRC32 then
    if (length =? 0) || (VAMS_MAX_TRANSFER_SIZE <? length) then
      VAMS_ERR_INVALID_LENGTH
    else if vams_range_overflows source length then
      VAMS_ERR_ADDRESS_OVERFLOW
    else if (source =? 0) || negb (destination =? 0) then
      VAMS_ERR_INVALID_ADDRESS
    else VAMS_ERR_NONE
  else if opcode =? VAMS_OP_VECTOR_ADD then
    if (length <? 4) || (VAMS_MAX_TRANSFER_SIZE <? length) || has_bits length (4 - 1) then
      VAMS_ERR_INVALID_LENGTH
    else if (source =? 0) || (destination =? 0) then
      VAMS_ERR_INVALID_ADDRESS
    else if has_bits (Z.lor source destination) (4 - 1) then
      VAMS_ERR_INVALID_ALIGNMENT
    else if vams_range_overflows source length ||
            vams_range_overflows destination length then
      VAMS_ERR_ADDRESS_OVERFLOW
    else if vams_ranges_overlap source destination length then
      VAMS_ERR_INVALID_ADDRESS
    else VAMS_ERR_NONE
  else VAMS_ERR_NONE.

Definition vams_command_execute (submission : vams_submission) (timestamp : Z) : vams_completion :=
  let error := vams_validate_command submission in
  {| c_command_id := s_command_id submission;
     c_status := if error =? VAMS_ERR_NONE then VAMS_STATUS_SUCCESS else VAMS_STATUS_INVALID;
     c_error_code := error;
     c_bytes_processed := 0;
     c_result_crc := 0;
     c_user_cookie := s_user_cookie submission;
     c_device_timestamp := u64 timestamp |}.

(** ** Specification: the descriptors the engine may see *)

(** Byte [a] lies in the range of [length] bytes that starts at [base]. *)
Definition in_range (base length a : Z) : Prop := base <= a < base + length.

(** The range lies inside the 64-bit address space. *)
Definition range_fits (base length : Z) : Prop := base + length <= U64_MAX + 1.

Definition ranges_disjoint (first second length : Z) : Prop :=
  forall a, in_range first length a -> in_range second length a -> False.

Definition transfer_length (length : Z) : Prop := 1 <= length <= VAMS_MAX_TRANSFER_SIZE.

Definition payload_ok (s : vams_submission) : Prop :=
  let length := s_length s in
  let source := s_source_dma s in
  let destination := s_destination_dma s in
  (s_opcode s = VAMS_OP_NOP /\ length = 0 /\ source = 0 /\ destination = 0) \/
  (s_opcode s = VAMS_OP_MEM_COPY /\ transfer_length length /\
   source <> 0 /\ destination <> 0 /\
   range_fits source length /\ range_fits destination length /\
   ranges_disjoint source destination length) \/
  (s_opcode s = VAMS_OP_MEM_FILL /\ transfer_length length /\
   source <> 0 /\ destination <> 0 /\ range_fits destination length) \/
  (s_opcode s = VAMS_OP_CRC32 /\ transfer_length length /\
   source <> 0 /\ destination = 0 /\ range_fits source length) \/
  (s_opcode s = VAMS_OP_VECTOR_ADD /\ transfer_length length /\
   (4 | length) /\ (4 | source) /\ (4 | destination) /\
   source <> 0 /\ destination <> 0 /\
   range_fits source length /\ range_fits destination length /\
   ranges_disjoint source destination length).

Definition flags_ok (s : vams_submission) : Prop :=
  (s_opcode s = VAMS_OP_CRC32 /\ s_flags s = VAMS_SUB_F_VERIFY_CRC) \/
  (s_flags s = 0 /\ s_expected_crc s = 0).

Definition valid_descriptor (s : vams_submission) : Prop :=
  s_version s = VAMS_DESC_VERSION_1 /\
  flags_ok s /\
  s_reserved0 s = 0 /\ s_reserved1 s = 0 /\ s_reserved2 s = 0 /\
  s_timeout_ms s <= VAMS_MAX_TIMEOUT_MS /\
  payload_ok s.

(** ** Specification: the documented validation order *)

Fixpoint first_error (rules : list (bool * Z)) : Z :=
  match rules with
  | [] => VAMS_ERR_NONE
  | (fails, error) :: rest => if fails then error else first_error rest
  end.

Definition known_opcode (o : Z) : bool := (0 <=? o) && (o <=? VAMS_OP_VECTOR_ADD).

Definition uses_source (o : Z) : bool := known_opcode o && negb (o =? VAMS_OP_NOP).
Definition uses_destination (o : Z) : bool :=
  uses_source o && negb (o =? VAMS_OP_CRC32).

(** Bytes a source range of the opcode has: one for a fill, else [length]. *)
Definition source_span (s : vams_submission) : Z :=
  if s_opcode s =? VAMS_OP_MEM_FILL then 1 else s_length s.

Definition doc_length_bad (s : vams_submission) : bool :=
  if s_opcode s =? VAMS_OP_NOP then negb (s_length s =? 0)
  else (s_length s <? 1) || (VAMS_MAX_TRANSFER_SIZE <? s_length s) ||
       ((s_opcode s =? VAMS_OP_VECTOR_ADD) && negb (s_length s mod 4 =? 0)).

Definition doc_address_bad (s : vams_submission) : bool :=
  (if uses_source (s_opcode s) then s_source_dma s =? 0 else negb (s_source_dma s =? 0)) ||
  (if uses_destination (s_opcode s) then s_destination_dma s =? 0
   else negb (s_destination_dma s =? 0)).

Definition doc_alignment_bad (s : vams_submission) : bool :=
  (s_opcode s =? VAMS_OP_VECTOR_ADD) &&
  (negb (s_source_dma s mod 4 =? 0) || negb (s_destination_dma s mod 4 =? 0)).

Definition doc_overlap_bad (s : vams_submission) : bool :=
  ((s_opcode s =? VAMS_OP_MEM_COPY) || (s_opcode s =? VAMS_OP_VECTOR_ADD)) &&
  ((s_source_dma s <? s_destination_dma s + s_length s) &&
   (s_destination_dma s <? s_source_dma s + s_length s)).

Definition doc_overflow_bad (s : vams_submission) : bool :=
  (uses_source (s_opcode s) && (U64_MAX <? s_source_dma s + source_span s - 1)) ||
  (uses_destination (s_opcode s) && (U64_MAX <? s_destination_dma s + s_length s - 1)).

(** The rules 1 to 9 of "Validation order"; [outstanding] is the set of command
    ids not yet completed that rule 5 consults. *)
Definition doc_rules (outstanding : Z -> bool) (s : vams_submission) : list (bool * Z) :=
  [ (negb (s_version s =? 1), VAMS_ERR_UNSUPPORTED_VERSION);
    (negb (known_opcode (s_opcode s)), VAMS_ERR_INVALID_OPCODE);
    (negb ((s_flags s =? 0) || ((s_opcode s =? VAMS_OP_CRC32) && (s_flags s =? 1))),
       VAMS_ERR_INVALID_FLAGS);
    (negb ((s_reserved0 s =? 0) && (s_reserved1 s =? 0) && (s_reserved2 s =? 0) &&
           ((s_flags s =? 1) || (s_expected_crc s =? 0))), VAMS_ERR_RESERVED_NONZERO);
    (outstanding (s_command_id s), VAMS_ERR_DUPLICATE_ID);
    (60000 <? s_timeout_ms s, VAMS_ERR_INVALID_TIMEOUT);
    (doc_length_bad s, VAMS_ERR_INVALID_LENGTH);
    (doc_address_bad s, VAMS_ERR_INVALID_ADDRESS);
    (doc_alignment_bad s, VAMS_ERR_INVALID_ALIGNMENT);
    (doc_overlap_bad s, VAMS_ERR_INVALID_ADDRESS);
    (doc_overflow_bad s, VAMS_ERR_ADDRESS_OVERFLOW) ].

(** ** Lemmas *)

Lemma range_overflows_false address length :
  is_u64 address -> 1 <= length < 4294967296 ->
  vams_range_overflows address length = false <-> range_fits address length.
Proof.
  intros Ha Hl. unfold vams_range_overflows, range_fits.
  rewrite (u64_id (length - 1)) by word_lia.
  rewrite u64_id by word_lia. rewrite Z.ltb_ge. word_lia.
Qed.

Lemma ranges_overlap_false first second length :
  is_u64 first -> is_u64 second -> 1 <= length ->
  range_fits first length -> range_fits second length ->
  vams_ranges_overlap first second length = false <->
  ranges_disjoint first second length.
Proof.
  intros Hf Hs Hl Rf Rs. unfold vams_ranges_overlap, ranges_disjoint, in_range, range_fits in *.
  rewrite !u64_id by word_lia. rewrite andb_false_iff, !Z.leb_gt. split.
  - intros H a. lia.
  - intros H. destruct (Z.lt_ge_cases (second + length - 1) first); [by left|].
    right. destruct (Z.lt_ge_cases (first + length - 1) second); [done|].
    exfalso. apply (H (Z.max first second)); lia.
Qed.

Lemma has_bits_3 x : has_bits x 3 = negb (x mod 4 =? 0).
Proof.
  unfold has_bits. change 3 with (Z.ones 2). by rewrite Z.land_ones by lia.
Qed.

Lemma aligned_lor x y :
  0 <= x -> 0 <= y ->
  has_bits (Z.lor x y) 3 = false <-> (4 | x) /\ (4 | y).
Proof.
  intros Hx Hy. unfold has_bits. rewrite negb_false_iff, Z.eqb_eq, Z.land_lor_distr_l.
  change 3 with (Z.ones 2). rewrite !Z.land_ones by lia. change (2 ^ 2) with 4.
  rewrite <-!Z.mod_divide by lia. split.
  - intros H. apply Z.lor_eq_0_iff in H. done.
  - intros [-> ->]. done.
Qed.

Lemma flag_bit0 f : has_bits f VAMS_SUB_F_VERIFY_CRC = Z.odd f.
Proof. change VAMS_SUB_F_VERIFY_CRC with (BIT 0). rewrite has_bits_BIT by lia. apply Z.bit0_odd. Qed.

Lemma flag_others f :
  is_u8 f -> has_bits f (U32_MAX - VAMS_SUB_F_VERIFY_CRC) = false <-> f = 0 \/ f = 1.
Proof.
  intros Hf. unfold has_bits. rewrite negb_false_iff, Z.eqb_eq. split.
  - intros H. assert (f = Z.land f 1) as E.
    { apply Z.bits_inj'. intros i Hi.
      apply (f_equal (fun z => Z.testbit z i)) in H.
      rewrite Z.land_spec, Z.testbit_0_l in H. rewrite Z.land_spec.
      destruct (Z.testbit f i) eqn:Ef; [|done]. simpl in *.
      destruct (Z.eq_dec i 0) as [->|]; [done|]. exfalso.
      assert (i < 32) as Hi32.
      { destruct (Z.lt_ge_cases i 32); [done|].
        rewrite (Z.bits_above_log2 f i) in Ef; [done|word_lia|].
        destruct (Z.eq_dec f 0) as [->|]; [simpl; lia|].
        apply Z.log2_lt_pow2; [word_lia|].
        pose proof (Z.pow_le_mono_r 2 32 i ltac:(lia) ltac:(lia)). word_lia. }
      assert (In i (map Z.of_nat (seq 1 31))) as Hin.
      { apply in_map_iff. exists (Z.to_nat i). split; [lia|]. apply in_seq. lia. }
      clear -H Hin. simpl in Hin.
      repeat (destruct Hin as [<-|Hin]; [vm_compute in H; discriminate|]). done. }
    pose proof (Z.land_ones f 1 ltac:(lia)) as E2. change (Z.ones 1) with 1 in E2.
    rewrite E2 in E. pose proof (Z.mod_pos_bound f (2 ^ 1) ltac:(lia)). lia.
  - intros [-> | ->]; reflexivity.
Qed.

Lemma range_overflows_ltb address length :
  is_u64 address -> 1 <= length < 4294967296 ->
  vams_range_overflows address length = (U64_MAX <? address + length - 1).
Proof.
  intros Ha Hl. unfold vams_range_overflows.
  rewrite (u64_id (length - 1)), u64_id by word_lia. word_lia.
Qed.

Lemma ranges_overlap_ltb first second length :
  is_u64 first -> is_u64 second -> 1 <= length ->
  first + length - 1 <= U64_MAX -> second + length - 1 <= U64_MAX ->
  vams_ranges_overlap first second length =
  (first <? second + length) && (second <? first + length).
Proof.
  intros. unfold vams_ranges_overlap. rewrite !u64_id by word_lia. lia.
Qed.

Lemma aligned_lor_bits x y :
  has_bits (Z.lor x y) 3 = negb (x mod 4 =? 0) || negb (y mod 4 =? 0).
Proof.
  unfold has_bits. rewrite Z.land_lor_distr_l, <-negb_andb. f_equal.
  change 3 with (Z.ones 2). rewrite !Z.land_ones by lia. change (2 ^ 2) with 4.
  apply eq_bool_prop_intro. rewrite Is_true_true, Z.eqb_eq, Z.lor_eq_0_iff.
  rewrite Is_true_true, andb_true_iff, !Z.eqb_eq. done.
Qed.

Lemma flag_others_bits f :
  is_u8 f -> has_bits f (U32_MAX - VAMS_SUB_F_VERIFY_CRC) = negb ((f =? 0) || (f =? 1)).
Proof.
  intros Hf. apply flag_others in Hf.
  destruct (has_bits f _), (Z.eqb_spec f 0), (Z.eqb_spec f 1); simpl;
    try done; intuition congruence.
Qed.

(** The checks of the code as one ordered rule list; only the order of the
    address rules depends on the opcode. *)
Definition address_rules (s : vams_submission) : list (bool * Z) :=
  let overflow := (doc_overflow_bad s, VAMS_ERR_ADDRESS_OVERFLOW) in
  let address := (doc_address_bad s, VAMS_ERR_INVALID_ADDRESS) in
  let overlap := (doc_overlap_bad s, VAMS_ERR_INVALID_ADDRESS) in
  if s_opcode s =? VAMS_OP_VECTOR_ADD
  then [address; (doc_alignment_bad s, VAMS_ERR_INVALID_ALIGNMENT); overflow; overlap]
  else [overflow; address; overlap].

Definition code_rules (s : vams_submission) : list (bool * Z) :=
  [ (negb (s_version s =? VAMS_DESC_VERSION_1), VAMS_ERR_UNSUPPORTED_VERSION);
    (negb (known_opcode (s_opcode s)), VAMS_ERR_INVALID_OPCODE);
    (negb ((s_flags s =? 0) || ((s_opcode s =? VAMS_OP_CRC32) && (s_flags s =? 1))),
       VAMS_ERR_INVALID_FLAGS);
    (negb ((s_reserved0 s =? 0) && (s_reserved1 s =? 0) && (s_reserved2 s =? 0) &&
           ((s_flags s =? 1) || (s_expected_crc s =? 0))), VAMS_ERR_RESERVED_NONZERO);
    (VAMS_MAX_TIMEOUT_MS <? s_timeout_ms s, VAMS_ERR_INVALID_TIMEOUT);
    (doc_length_bad s, VAMS_ERR_INVALID_LENGTH) ] ++ address_rules s.

Lemma if_or {A} (a b : bool) (x y : A) :
  (if a then x else if b then x else y) = (if a || b then x else y).
Proof. by destruct a. Qed.

Ltac op_unfold :=
  unfold uses_destination, uses_source, known_opcode, VAMS_DESC_VERSION_1, VAMS_OP_NOP,
    VAMS_OP_MEM_COPY, VAMS_OP_MEM_FILL, VAMS_OP_CRC32, VAMS_OP_VECTOR_ADD,
    VAMS_MAX_TIMEOUT_MS, VAMS_MAX_TRANSFER_SIZE in *.

Lemma if_same_test {A} (a b : bool) (x y z : A) :
  a = b -> (b = false -> y = z) -> (if a then x else y) = (if b then x else z).
Proof. intros ->. destruct b; auto. Qed.

(** [same_test] walks two cascades of tests in step: the two tests are equal
    by [lia], and where they hold both sides return the same code. *)
Ltac same_test := apply if_same_test; [op_unfold; word_lia | intros ?].

Lemma opcode_cases s :
  known_opcode (s_opcode s) = true ->
  s_opcode s = 0 \/ s_opcode s = 1 \/ s_opcode s = 2 \/ s_opcode s = 3 \/ s_opcode s = 4.
Proof. op_unfold. lia. Qed.

Lemma validate_rules s :
  wf_submission s -> vams_validate_command s = first_error (code_rules s).
Proof.
  intros (Hv & Ho & Hf & _ & Hs & Hd & Hl & _)%wf_submission_ranges.
  unfold vams_validate_command, code_rules; cbn [app first_error]; cbv zeta.
  rewrite flag_others_bits, flag_bit0 by done. rewrite if_or.
  do 3 same_test.
  assert (Z.odd (s_flags s) = (s_flags s =? 1)) as ->.
  { assert (s_flags s = 0 \/ s_flags s = 1) as [->| ->] by lia; reflexivity. }
  do 2 same_test.
  change (4 - 1) with 3. rewrite aligned_lor_bits, has_bits_3.
  unfold address_rules, doc_length_bad, doc_address_bad, doc_alignment_bad,
    doc_overlap_bad, doc_overflow_bad, source_span.
  destruct (opcode_cases s) as [E|[E|[E|[E|E]]]]; [by apply negb_false_iff|..]; rewrite E;
    op_unfold; cbn [Z.eqb Pos.eqb Z.leb Z.compare Pos.compare Pos.compare_cont andb orb negb first_error CompOpp].
  - same_test. same_test. done.
  - same_test. rewrite !range_overflows_ltb by word_lia. same_test.
    rewrite ranges_overlap_ltb, if_or by word_lia. same_test. done.
  - same_test. rewrite !range_overflows_ltb by word_lia. do 2 same_test. done.
  - same_test. rewrite !range_overflows_ltb by word_lia. do 2 same_test. done.
  - pose proof (Z.mod_small (s_length s) 4).
    same_test. do 2 same_test. rewrite !range_overflows_ltb by word_lia. same_test.
    rewrite ranges_overlap_ltb by word_lia. same_test. done.
Qed.

(** ** Properties *)

Lemma first_error_none rules :
  Forall (fun r => r.2 <> VAMS_ERR_NONE) rules ->
  first_error rules = VAMS_ERR_NONE <-> Forall (fun r => r.1 = false) rules.
Proof.
  induction 1 as [|[b e] rules He _ IH]; cbn [first_error]; [by split|].
  rewrite Forall_cons, <-IH. simpl in *. destruct b; intuition congruence.
Qed.

Lemma ranges_disjoint_ltb first second length :
  (first <? second + length) && (second <? first + length) = false <->
  ranges_disjoint first second length.
Proof.
  unfold ranges_disjoint, in_range. split.
  - intros H a. lia.
  - intros H. destruct (_ && _) eqn:E; [|done]. exfalso.
    apply (H (Z.max first second)); lia.
Qed.

Lemma code_rules_nonzero s : Forall (fun r => r.2 <> VAMS_ERR_NONE) (code_rules s).
Proof.
  unfold code_rules, address_rules. cbv zeta.
  destruct (s_opcode s =? VAMS_OP_VECTOR_ADD); repeat constructor; discriminate.
Qed.

Lemma code_rules_pass s :
  wf_submission s ->
  Forall (fun r => r.1 = false) (code_rules s) <-> valid_descriptor s.
Proof.
  intros (Hv & Ho & Hf & _ & Hs & Hd & Hl & Ht & _)%wf_submission_ranges.
  unfold valid_descriptor, flags_ok, payload_ok, transfer_length, range_fits,
    code_rules, address_rules, doc_length_bad, doc_address_bad, doc_alignment_bad,
    doc_overlap_bad, doc_overflow_bad, source_span, VAMS_SUB_F_VERIFY_CRC.
  rewrite <-!Z.mod_divide, <-!ranges_disjoint_ltb by lia.
  destruct (known_opcode (s_opcode s)) eqn:Ek;
    [|rewrite !Forall_app, !Forall_cons, Forall_nil; cbn [fst]; op_unfold; lia].
  destruct (opcode_cases s Ek) as [E|[E|[E|[E|E]]]]; rewrite E; op_unfold;
    cbn [Z.eqb Pos.eqb Z.leb Z.compare Pos.compare Pos.compare_cont andb orb negb
         CompOpp app];
    rewrite !Forall_cons, Forall_nil; cbn [fst]; word_unfold;
    split; intros; destruct_and?; split_and?; lia.
Qed.

Lemma validate_none_valid s :
  wf_submission s -> vams_validate_command s = VAMS_ERR_NONE <-> valid_descriptor s.
Proof.
  intros. rewrite validate_rules, first_error_none by auto using code_rules_nonzero.
  by apply code_rules_pass.
Qed.

(** C5: the validator accepts exactly the well-formed work: it returns
    [VAMS_ERR_NONE] if and only if the descriptor is version 1 with legal
    flags, zero reserved fields and a timeout of at most 60 s, and its buffers
    are what its opcode needs: transfer lengths within 16 MiB, nonzero (or, for
    NOP and the CRC32 destination, zero) addresses, ranges that end inside the
    64-bit space, disjoint copy/add operands and 4-byte aligned vectors.  In
    particular no wrap-around of the unsigned address arithmetic lets a
    descriptor through. *)
Theorem validate_accepts_iff (s : vams_submission) (Hwf : wf_submission s) :
  vams_validate_command s = VAMS_ERR_NONE <-> valid_descriptor s.
Proof. by apply validate_none_valid. Qed.

(** A 16-byte copy that passes validation, used by the witnesses. *)
Definition sample_copy : vams_submission :=
  {| s_version := 1; s_opcode := VAMS_OP_MEM_COPY; s_flags := 0; s_command_id := 7;
     s_source_dma := 0x1000; s_destination_dma := 0x2000; s_length := 16;
     s_timeout_ms := 0; s_user_cookie := 0x1122334455667788; s_expected_crc := 0;
     s_reserved0 := 0; s_reserved1 := 0; s_reserved2 := 0 |}.

Lemma sample_copy_wf : wf_submission sample_copy.
Proof. by vm_compute; repeat constructor. Qed.

Lemma validate_accepts_iff_witness :
  vams_validate_command sample_copy = VAMS_ERR_NONE /\ valid_descriptor sample_copy.
Proof.
  split; [reflexivity|]. apply (validate_accepts_iff sample_copy);
    [apply sample_copy_wf | reflexivity].
Defined.

Lemma first_error_in rules :
  first_error rules = VAMS_ERR_NONE \/ exists b, In (b, first_error rules) rules.
Proof.
  induction rules as [|[[] e] rules IH]; simpl; [by left|right; by exists true; left|].
  destruct IH as [->|[b Hin]]; [by left | right; eauto].
Qed.

(** C35: the code and the documented validation order agree on which
    descriptors are accepted, and on the error code of a rejected one, except
    that the code reports [ADDRESS_OVERFLOW] for some descriptors the
    documented order calls [INVALID_ADDRESS] (the overflow check runs before
    the address and overlap checks).  The exception is real, and rule 5 of the
    document (a duplicate outstanding id) is never reported. *)
Theorem validate_vs_documented_order :
  (forall s, wf_submission s ->
     let code := vams_validate_command s in
     let doc := first_error (doc_rules (fun _ => false) s) in
     (code = VAMS_ERR_NONE <-> doc = VAMS_ERR_NONE) /\
     (code <> doc -> code = VAMS_ERR_ADDRESS_OVERFLOW /\ doc = VAMS_ERR_INVALID_ADDRESS)) /\
  (exists s, wf_submission s /\
     vams_validate_command s = VAMS_ERR_ADDRESS_OVERFLOW /\
     first_error (doc_rules (fun _ => false) s) = VAMS_ERR_INVALID_ADDRESS) /\
  (forall s, wf_submission s -> vams_validate_command s <> VAMS_ERR_DUPLICATE_ID).
Proof.
  split_and!.
  - intros s Hwf. cbv zeta. rewrite validate_rules by done.
    unfold code_rules, doc_rules, address_rules; cbv zeta; cbn [app first_error].
    change VAMS_DESC_VERSION_1 with 1. change VAMS_MAX_TIMEOUT_MS with 60000.
    repeat (case_match; [done|]).
    destruct (s_opcode s =? VAMS_OP_VECTOR_ADD) eqn:Eop; cbn [first_error].
    + repeat case_match; done.
    + unfold doc_alignment_bad. rewrite Eop. repeat case_match; done.
  - exists (Build_vams_submission 1 VAMS_OP_MEM_COPY 0 7 0 U64_MAX 2 0 0 0 0 0 0).
    split; [by vm_compute; repeat constructor | done].
  - intros s Hwf. rewrite validate_rules by done.
    destruct (first_error_in (code_rules s)) as [->|[b Hin]]; [done|].
    intros E. rewrite E in Hin. unfold code_rules, address_rules in Hin; cbv zeta in Hin.
    destruct (s_opcode s =? VAMS_OP_VECTOR_ADD); simpl in Hin;
      repeat destruct Hin as [Hin|Hin]; first [done | injection Hin; discriminate].
Qed.

Lemma validate_range s : is_u16 (vams_validate_command s).
Proof. unfold vams_validate_command; cbv zeta. repeat case_match; by vm_compute. Qed.

Lemma execute_success s t :
  c_status (vams_command_execute s t) = VAMS_STATUS_SUCCESS -> vams_validate_command s = VAMS_ERR_NONE.
Proof. simpl. by destruct (Z.eqb_spec (vams_validate_command s) VAMS_ERR_NONE). Qed.

Lemma execute_wf s t : wf_submission s -> wf_completion (vams_command_execute s t).
Proof.
  intros Hwf. apply wf_submission_ranges in Hwf as (_ & _ & _ & Hid & _ & _ & _ & _ & Hk & _).
  pose proof (validate_range s) as He. pose proof (u64_range t) as Ht.
  unfold wf_completion, vams_command_execute, completion_fields, completion_layout. simpl.
  rewrite !Forall2_cons_iff. unfold fits, VAMS_STATUS_SUCCESS, VAMS_STATUS_INVALID.
  simpl. split_and!; try constructor; try case_match; word_lia.
Qed.

(** The validator's completion identifies the command and nothing else:
    the captured id and cookie come back unchanged, no bytes and no CRC are
    reported, the status is SUCCESS exactly for valid descriptors and INVALID
    with the validation error otherwise, and every field fits its width. *)
Theorem execute_completion (s : vams_submission) (timestamp : Z) (Hwf : wf_submission s) :
  let c := vams_command_execute s timestamp in
  wf_completion c /\
  c_command_id c = s_command_id s /\ c_user_cookie c = s_user_cookie s /\
  c_bytes_processed c = 0 /\ c_result_crc c = 0 /\
  c_error_code c = vams_validate_command s /\
  (c_status c = VAMS_STATUS_SUCCESS <-> valid_descriptor s) /\
  (c_status c = VAMS_STATUS_SUCCESS <-> c_error_code c = VAMS_ERR_NONE) /\
  (c_status c <> VAMS_STATUS_SUCCESS -> c_status c = VAMS_STATUS_INVALID).
Proof.
  cbv zeta. split_and!; [by apply execute_wf|done..| | |]; simpl.
  - rewrite <-code_rules_pass, <-first_error_none, <-validate_rules
      by auto using code_rules_nonzero.
    destruct (Z.eqb_spec (vams_validate_command s) VAMS_ERR_NONE);
      split; intros; first [done | discriminate | congruence].
  - destruct (Z.eqb_spec (vams_validate_command s) VAMS_ERR_NONE);
      split; intros; first [done | discriminate | congruence].
  - by destruct (_ =? _).
Qed.

Lemma execute_completion_witness :
  c_command_id (vams_command_execute sample_copy 5) = 7 /\
  wf_completion (vams_command_execute sample_copy 5).
Proof.
  split; [reflexivity|].
  apply (execute_completion sample_copy 5). by vm_compute; repeat constructor.
Defined.

(** A copy whose source address is 0 and whose destination wraps: the code and
    the document disagree on its error, as the theorem allows. *)
Lemma validate_vs_documented_order_witness :
  let s := Build_vams_submission 1 VAMS_OP_MEM_COPY 0 7 0 U64_MAX 2 0 0 0 0 0 0 in
  vams_validate_command s <> first_error (doc_rules (fun _ => false) s) /\
  vams_validate_command s = VAMS_ERR_ADDRESS_OVERFLOW.
Proof.
  cbv zeta. split; [by vm_compute|].
  destruct validate_vs_documented_order as [Hagree _].
  apply (Hagree (Build_vams_submission 1 VAMS_OP_MEM_COPY 0 7 0 U64_MAX 2 0 0 0 0 0 0));
    [by vm_compute; repeat constructor | by vm_compute].
Defined.
