(* ===== verification/Crc32.v ===== *)
(** * The CRC-32 of the retained record
    (firmware/src/recovery/vams_retained.c, [vams_crc32_byte])

    The bitwise reflected CRC and the algebra the crash record relies on: one
    shift step is linear over exclusive-or and injective on 32-bit states, so
    the state after a little-endian word is a bijective image of the word. *)

From S2P Require Import Prelude Abi.

(** ** The code *)

(** Body of the bit loop: [mask = 0U - (crc & 1U);
    crc = (crc >> 1) ^ (0xedb88320 & mask);] *)
Definition crc32_bit (crc : Z) : Z :=
  let mask := u32 (0 - Z.land crc 1) in
  Z.lxor (Z.shiftr crc 1) (Z.land 0xedb88320 mask).

Definition vams_crc32_byte (crc value : Z) : Z :=
  Nat.iter 8 crc32_bit (Z.lxor crc value).

(** The loop of the callers: one call per byte, first byte first. *)
Definition crc32_bytes (crc : Z) (bytes : list Z) : Z :=
  foldl vams_crc32_byte crc bytes.

(** ** The shift step *)

Definition crc32_poly : Z := 0xedb88320.

Lemma land_1_odd x : Z.land x 1 = if Z.odd x then 1 else 0.
Proof.
  change 1 with (Z.ones 1) at 1. rewrite Z.land_ones, Z.pow_1_r by lia.
  rewrite Zmod_odd. done.
Qed.

Lemma crc32_bit_eq x :
  crc32_bit x = Z.lxor (Z.shiftr x 1) (if Z.odd x then crc32_poly else 0).
Proof. unfold crc32_bit. rewrite land_1_odd. by destruct (Z.odd x). Qed.

Lemma odd_lxor x y : Z.odd (Z.lxor x y) = xorb (Z.odd x) (Z.odd y).
Proof. rewrite <-!Z.bit0_odd. apply Z.lxor_spec. Qed.

Lemma crc32_bit_lxor x y :
  crc32_bit (Z.lxor x y) = Z.lxor (crc32_bit x) (crc32_bit y).
Proof.
  rewrite !crc32_bit_eq, odd_lxor, Z.shiftr_lxor.
  destruct (Z.odd x), (Z.odd y); simpl;
    rewrite ?Z.lxor_0_r; apply Z.bits_inj'; intros n Hn; rewrite !Z.lxor_spec;
    repeat match goal with |- context [Z.testbit ?a n] => destruct (Z.testbit a n) end; done.
Qed.

Lemma iter_crc32_lxor n x y :
  Nat.iter n crc32_bit (Z.lxor x y) = Z.lxor (Nat.iter n crc32_bit x) (Nat.iter n crc32_bit y).
Proof. induction n as [|n IH]; [done|]. rewrite !Nat.iter_succ. by rewrite IH, crc32_bit_lxor. Qed.

Lemma lxor_range w x y :
  0 <= w -> 0 <= x < 2 ^ w -> 0 <= y < 2 ^ w -> 0 <= Z.lxor x y < 2 ^ w.
Proof.
  intros Hw Hx Hy. assert (0 <= Z.lxor x y) as H0 by (apply Z.lxor_nonneg; lia).
  split; [done|].
  destruct (Z.eq_dec (Z.lxor x y) 0) as [->|Hne]; [lia|].
  apply Z.log2_lt_pow2; [lia|].
  eapply Z.le_lt_trans; [apply Z.log2_lxor; lia|].
  destruct (Z.eq_dec w 0) as [->|].
  { replace x with 0 in * by lia. by replace y with 0 in * by lia. }
  apply Z.max_lub_lt.
  - destruct (Z.eq_dec x 0) as [->|]; [simpl; lia|]. apply Z.log2_lt_pow2; lia.
  - destruct (Z.eq_dec y 0) as [->|]; [simpl; lia|]. apply Z.log2_lt_pow2; lia.
Qed.

Lemma shiftr1_range x : is_u32 x -> 0 <= Z.shiftr x 1 < 2 ^ 31.
Proof.
  intros Hx. rewrite Z.shiftr_div_pow2, Z.pow_1_r by lia. unfold is_u32 in Hx.
  split; [apply Z.div_pos; lia | apply Z.div_lt_upper_bound; lia].
Qed.

Lemma crc32_bit_range x : is_u32 x -> is_u32 (crc32_bit x).
Proof.
  intros Hx. rewrite crc32_bit_eq. pose proof (shiftr1_range x Hx).
  apply (lxor_range 32); [lia|lia|]. destruct (Z.odd x); [vm_compute; done | lia].
Qed.

(** The step has a trivial kernel: the polynomial sets bit 31, which a shifted
    32-bit state cannot have. *)
Lemma crc32_bit_zero x : is_u32 x -> crc32_bit x = 0 -> x = 0.
Proof.
  intros Hx. rewrite crc32_bit_eq. intros E. pose proof (shiftr1_range x Hx) as Hs.
  apply Z.lxor_eq in E. destruct (Z.odd x) eqn:Eo.
  - exfalso. rewrite E in Hs. unfold crc32_poly in Hs. lia.
  - rewrite Z.shiftr_div_pow2, Z.pow_1_r in E by lia.
    rewrite (Z.div_mod x 2), E, Zmod_odd, Eo by lia. done.
Qed.

Lemma iter_crc32_range n x : is_u32 x -> is_u32 (Nat.iter n crc32_bit x).
Proof. intros Hx. induction n; [done|]. by apply crc32_bit_range. Qed.

Lemma iter_crc32_zero n x : is_u32 x -> Nat.iter n crc32_bit x = 0 -> x = 0.
Proof.
  intros Hx. induction n as [|n IH]; [done|]. rewrite !Nat.iter_succ. intros E.
  apply IH. apply crc32_bit_zero; [by apply iter_crc32_range | done].
Qed.

Lemma iter_crc32_inj n x y :
  is_u32 x -> is_u32 y -> Nat.iter n crc32_bit x = Nat.iter n crc32_bit y -> x = y.
Proof.
  intros Hx Hy E. apply Z.lxor_eq. apply (iter_crc32_zero n).
  - apply (lxor_range 32); [lia|done..].
  - by rewrite iter_crc32_lxor, E, Z.lxor_nilpotent.
Qed.

(** Shifting out zero bits is a plain shift. *)
Lemma crc32_bit_double x : crc32_bit (2 * x) = x.
Proof.
  rewrite crc32_bit_eq, Z.odd_mul. simpl. rewrite Z.lxor_0_r.
  rewrite Z.shiftr_div_pow2, Z.pow_1_r, Z.mul_comm by lia. by rewrite Z.div_mul by lia.
Qed.

Lemma iter_crc32_shift n x : Nat.iter n crc32_bit (2 ^ Z.of_nat n * x) = x.
Proof.
  induction n as [|n IH]; [by rewrite Z.mul_1_l|].
  rewrite Nat.iter_succ_r, Nat2Z.inj_succ, Z.pow_succ_r by lia.
  by rewrite <-Z.mul_assoc, crc32_bit_double.
Qed.

(** ** Whole little-endian integers at once *)

Lemma lxor_low_high b x : is_u8 b -> b + 256 * x = Z.lxor b (2 ^ 8 * x).
Proof.
  intros Hb. change 256 with (2 ^ 8) at 1. rewrite Z.add_nocarry_lxor; [done|].
  apply Z.bits_inj'. intros i Hi.
  rewrite Z.land_spec, Z.testbit_0_l, Z.mul_comm.
  destruct (Z.lt_ge_cases i 8).
  - rewrite Z.mul_pow2_bits_low by lia. by rewrite andb_false_r.
  - assert (Z.testbit b i = false) as ->; [|done].
    destruct (Z.eq_dec b 0) as [->|]; [apply Z.testbit_0_l|].
    apply Z.bits_above_log2; [word_lia|]. apply Z.log2_lt_pow2; [word_lia|].
    pose proof (Z.pow_le_mono_r 2 8 i ltac:(lia) ltac:(lia)). word_lia.
Qed.

Lemma crc32_byte_low s b x :
  is_u8 b -> Nat.iter 8 crc32_bit (Z.lxor s (b + 256 * x)) = Z.lxor (vams_crc32_byte s b) x.
Proof.
  intros Hb. rewrite lxor_low_high, <-Z.lxor_assoc, iter_crc32_lxor by done.
  pose proof (iter_crc32_shift 8 x) as E. change (Z.of_nat 8) with 8 in E.
  rewrite E. unfold vams_crc32_byte. reflexivity.
Qed.

Lemma crc32_le_bytes n s x :
  0 <= x < 256 ^ Z.of_nat n ->
  crc32_bytes s (le_bytes n x) = Nat.iter (n * 8) crc32_bit (Z.lxor s x).
Proof.
  revert s x; induction n as [|n IH]; intros s x Hx.
  - simpl in *. replace x with 0 by lia. by rewrite Z.lxor_0_r.
  - rewrite Nat2Z.inj_succ, Z.pow_succ_r in Hx by lia.
    cbn [le_bytes]. unfold crc32_bytes in *. cbn [foldl].
    rewrite IH by (split; [apply Z.div_pos; lia | apply Z.div_lt_upper_bound; lia]).
    rewrite <-crc32_byte_low by (apply Z.mod_pos_bound; lia).
    rewrite Z.add_comm, <-Z.div_mod by lia.
    change (S n * 8)%nat with (8 + n * 8)%nat. rewrite Nat.add_comm.
    by rewrite Nat.iter_add.
Qed.

Lemma crc32_bytes_app s bs1 bs2 :
  crc32_bytes s (bs1 ++ bs2) = crc32_bytes (crc32_bytes s bs1) bs2.
Proof. apply foldl_app. Qed.

(** The state after a word, and after a buffer of words. *)
Definition crc32_word (s w : Z) : Z := Nat.iter 32 crc32_bit (Z.lxor s w).

Lemma crc32_bytes_of_words s ws :
  Forall is_u32 ws -> crc32_bytes s (bytes_of_words ws) = foldl crc32_word s ws.
Proof.
  intros Hws. revert s. induction Hws as [|w ws Hw _ IH]; intros s; [done|].
  unfold bytes_of_words in *. rewrite bind_cons, crc32_bytes_app, IH.
  cbn [foldl]. f_equal. apply (crc32_le_bytes 4). word_lia.
Qed.

Lemma lxor_u32 x y : is_u32 x -> is_u32 y -> is_u32 (Z.lxor x y).
Proof. unfold is_u32. change 4294967296 with (2 ^ 32). by apply lxor_range. Qed.

Lemma lxor_cancel_r x y z : Z.lxor x z = Z.lxor y z -> x = y.
Proof.
  intros E. apply (f_equal (fun v => Z.lxor v z)) in E.
  by rewrite !Z.lxor_assoc, Z.lxor_nilpotent, !Z.lxor_0_r in E.
Qed.

Lemma crc32_word_eq s w : crc32_word s w = Nat.iter 32 crc32_bit (Z.lxor s w).
Proof. reflexivity. Qed.

Lemma crc32_word_range s w : is_u32 s -> is_u32 w -> is_u32 (crc32_word s w).
Proof. intros. rewrite crc32_word_eq. apply iter_crc32_range. by apply lxor_u32. Qed.

Lemma crc32_word_lxor s s' w w' :
  is_u32 s -> is_u32 s' -> is_u32 w -> is_u32 w' ->
  crc32_word s w = crc32_word s' w' -> Z.lxor s w = Z.lxor s' w'.
Proof.
  intros Hs Hs' Hw Hw'. rewrite !crc32_word_eq. generalize 32%nat. intros n E.
  apply (iter_crc32_inj n); [by apply lxor_u32..|exact E].
Qed.

Lemma crc32_word_inj_state s s' w :
  is_u32 s -> is_u32 s' -> is_u32 w -> crc32_word s w = crc32_word s' w -> s = s'.
Proof. intros. by eapply lxor_cancel_r, crc32_word_lxor. Qed.

Lemma crc32_word_inj_word s w w' :
  is_u32 s -> is_u32 w -> is_u32 w' -> crc32_word s w = crc32_word s w' -> w = w'.
Proof.
  intros Hs Hw Hw' E. apply (lxor_cancel_r _ _ s). rewrite !(Z.lxor_comm _ s).
  by apply crc32_word_lxor.
Qed.

#[global] Opaque crc32_word.

Lemma crc32_words_range s ws :
  is_u32 s -> Forall is_u32 ws -> is_u32 (foldl crc32_word s ws).
Proof.
  intros Hs Hws. revert s Hs. induction Hws; intros s Hs; [done|].
  simpl. auto using crc32_word_range.
Qed.

Lemma crc32_words_inj_state s s' ws :
  is_u32 s -> is_u32 s' -> Forall is_u32 ws ->
  foldl crc32_word s ws = foldl crc32_word s' ws -> s = s'.
Proof.
  intros Hs Hs' Hws. revert s s' Hs Hs'. induction Hws as [|w ws Hw _ IH]; intros s s' Hs Hs' E.
  - done.
  - simpl in E. apply IH in E; [|by apply crc32_word_range..].
    exact (crc32_word_inj_state s s' w Hs Hs' Hw E).
Qed.

(** Two buffers that differ in one word have different states. *)
Lemma crc32_words_single_change s ws i w :
  is_u32 s -> Forall is_u32 ws -> is_u32 w -> (i < length ws)%nat ->
  foldl crc32_word s ws = foldl crc32_word s (<[i := w]> ws) -> ws !! i = Some w.
Proof.
  intros Hs Hws Hw Hi E. destruct (lookup_lt_is_Some_2 ws i Hi) as [x Hx].
  rewrite Hx. f_equal.
  assert (is_u32 x) by (eapply Forall_lookup_1; eauto).
  assert (<[i := w]> ws = take i ws ++ w :: drop (S i) ws) as E2.
  { by rewrite insert_take_drop. }
  rewrite <-(take_drop_middle ws i x Hx) in E at 1. rewrite E2, !foldl_app in E.
  cbn [foldl] in E.
  assert (is_u32 (foldl crc32_word s (take i ws))) by (apply crc32_words_range; auto using Forall_take).
  apply crc32_words_inj_state in E;
    [|by apply crc32_word_range..|by apply Forall_drop].
  revert E. by apply crc32_word_inj_word.
Qed.
