(* ===== verification/Platform.v ===== *)
(** * Interfaces of the platform under the firmware

    The firmware calls Zephyr (message queues, memory slabs, the clock, MMIO
    accessors) and reads devices.  None of that is code of this repository, so
    it enters the models as type classes: the operations, and the documented
    behaviour the firmware relies on as laws over ghost observations (the items
    of a queue, the free blocks of a slab, the uptime).  Concrete instances at
    the end of the file show that the laws can be met and drive the witnesses. *)

From S2P Require Import Prelude.

(** ** Clock and memory-mapped registers

    [W] is everything outside the firmware image: devices, host, clock.  Any
    operation may let it evolve. *)

Class Platform (W : Type) := {
  uptime : W -> Z;
  sys_read32 : Z -> W -> Z * W;
  sys_write32 : Z -> Z -> W -> W;              (* value, then address *)
  k_uptime_get : W -> Z * W;
  k_sleep_ms : Z -> W -> W;
  sys_timepoint_calc : Z -> W -> Z * W;        (* timeout in ms, 0 = K_NO_WAIT *)
  sys_timepoint_expired : Z -> W -> bool * W;
}.

Class PlatformLaws (W : Type) `{!Platform W} : Prop := {
  sys_read32_u32 a w : is_u32 (sys_read32 a w).1;
  uptime_nonneg w : 0 <= uptime w;
  uptime_read32 a w : uptime w <= uptime (sys_read32 a w).2;
  uptime_write32 v a w : uptime w <= uptime (sys_write32 v a w);
  uptime_get w : (k_uptime_get w).1 = uptime (k_uptime_get w).2;
  uptime_get_mono w : uptime w <= uptime (k_uptime_get w).2;
  uptime_sleep ms w : 0 <= ms -> uptime w + ms <= uptime (k_sleep_ms ms w);
  timepoint_calc t w :
    (sys_timepoint_calc t w).1 = uptime (sys_timepoint_calc t w).2 + t;
  timepoint_calc_mono t w : uptime w <= uptime (sys_timepoint_calc t w).2;
  timepoint_expired d w :
    (sys_timepoint_expired d w).1 = (d <=? uptime (sys_timepoint_expired d w).2);
  timepoint_expired_mono d w : uptime w <= uptime (sys_timepoint_expired d w).2;
}.

(** A Zephyr device handle: readiness and the [base] of its config. *)
Record device : Type := { dev_ready : bool; dev_base : Z }.

(** ** Register windows

    The loops [for (index = 0; index < n; index++)] of the drivers over
    consecutive 32-bit registers. *)

Section Windows.
Context {W : Type} `{Platform W}.

Fixpoint read_words (address : Z) (n : nat) (w : W) : list Z * W :=
  match n with
  | O => ([], w)
  | S n' =>
      let '(x, w1) := sys_read32 address w in
      let '(xs, w2) := read_words (address + 4) n' w1 in
      (x :: xs, w2)
  end.

Fixpoint write_words (address : Z) (words : list Z) (w : W) : W :=
  match words with
  | [] => w
  | x :: xs => write_words (address + 4) xs (sys_write32 x address w)
  end.

Lemma read_words_length a n w : length (read_words a n w).1 = n.
Proof.
  revert a w; induction n as [|n IH]; intros a w; [done|]. simpl.
  destruct (sys_read32 a w) as [x w1]. specialize (IH (a + 4) w1).
  destruct (read_words (a + 4) n w1). simpl in *. lia.
Qed.

Lemma read_words_u32 `{!PlatformLaws W} a n w : Forall is_u32 (read_words a n w).1.
Proof.
  revert a w; induction n as [|n IH]; intros a w; [constructor|]. simpl.
  pose proof (sys_read32_u32 a w) as Hx.
  destruct (sys_read32 a w) as [x w1]. specialize (IH (a + 4) w1).
  destruct (read_words (a + 4) n w1). simpl in *. by constructor.
Qed.

Lemma read_words_uptime `{!PlatformLaws W} a n w : uptime w <= uptime (read_words a n w).2.
Proof.
  revert a w; induction n as [|n IH]; intros a w; [done|]. simpl.
  pose proof (uptime_read32 a w) as Hx.
  destruct (sys_read32 a w) as [x w1]. specialize (IH (a + 4) w1).
  destruct (read_words (a + 4) n w1). simpl in *. lia.
Qed.
End Windows.

(** ** Bounded message queues ([K_MSGQ_DEFINE], non-blocking put and get)

    [k_msgq_get] returns [None] for a get that ends without a message. *)

Class Msgq (Q : Type -> Type) := {
  msgq_items {A} : Q A -> list A;
  msgq_limit {A} : Q A -> nat;
  k_msgq_put {A} : A -> Q A -> rc * Q A;
  k_msgq_get {A} : Q A -> option (A * Q A);
  k_msgq_num_used_get {A} : Q A -> Z;
  k_msgq_num_free_get {A} : Q A -> Z;
}.

Class MsgqLaws (Q : Type -> Type) `{!Msgq Q} : Prop := {
  msgq_put_ok {A} (x : A) (q : Q A) :
    (length (msgq_items q) < msgq_limit q)%nat ->
    (k_msgq_put x q).1 = rc_ok /\
    msgq_items (k_msgq_put x q).2 = msgq_items q ++ [x] /\
    msgq_limit (k_msgq_put x q).2 = msgq_limit q;
  msgq_put_full {A} (x : A) (q : Q A) :
    (msgq_limit q <= length (msgq_items q))%nat ->
    k_msgq_put x q = (rc_err ENOMSG, q);
  msgq_get_nil {A} (q : Q A) : msgq_items q = [] -> k_msgq_get q = None;
  msgq_get_cons {A} (q : Q A) x rest :
    msgq_items q = x :: rest ->
    exists q', k_msgq_get q = Some (x, q') /\ msgq_items q' = rest /\
               msgq_limit q' = msgq_limit q;
  msgq_num_used {A} (q : Q A) : k_msgq_num_used_get q = Z.of_nat (length (msgq_items q));
  msgq_num_free {A} (q : Q A) :
    k_msgq_num_free_get q = Z.of_nat (msgq_limit q - length (msgq_items q));
}.

(** ** Fixed-size memory slabs ([K_MEM_SLAB_DEFINE]); a block is its index *)

Class Slab (S : Type) := {
  slab_free : S -> gset nat;
  k_mem_slab_alloc : S -> option (nat * S);
  k_mem_slab_free : nat -> S -> S;
  k_mem_slab_num_free_get : S -> Z;
}.

Class SlabLaws (S : Type) `{!Slab S} : Prop := {
  slab_alloc_none s : k_mem_slab_alloc s = None <-> slab_free s = ∅;
  slab_alloc_some s b s' :
    k_mem_slab_alloc s = Some (b, s') ->
    b ∈ slab_free s /\ slab_free s' = slab_free s ∖ {[b]};
  slab_free_block b s :
    b ∉ slab_free s -> slab_free (k_mem_slab_free b s) = {[b]} ∪ slab_free s;
  slab_num_free s : k_mem_slab_num_free_get s = Z.of_nat (size (slab_free s));
}.

(** ** Consequences of the laws *)

Section QueueFacts.
Context {Q : Type -> Type} `{MsgqLaws Q}.

Lemma msgq_get_inv {A} (q : Q A) x q' :
  k_msgq_get q = Some (x, q') ->
  msgq_items q = x :: msgq_items q' /\ msgq_limit q' = msgq_limit q.
Proof.
  intros E. destruct (msgq_items q) as [|y rest] eqn:Ei.
  - by rewrite msgq_get_nil in E.
  - destruct (msgq_get_cons q y rest Ei) as (q2 & E2 & Hi & Hl).
    rewrite E in E2. injection E2 as -> ->. by rewrite Hi.
Qed.

Lemma msgq_put_inv {A} (x : A) (q : Q A) :
  (k_msgq_put x q).1 = rc_ok /\ (length (msgq_items q) < msgq_limit q)%nat /\
    msgq_items (k_msgq_put x q).2 = msgq_items q ++ [x] /\
    msgq_limit (k_msgq_put x q).2 = msgq_limit q \/
  k_msgq_put x q = (rc_err ENOMSG, q) /\ (msgq_limit q <= length (msgq_items q))%nat.
Proof.
  destruct (le_lt_dec (msgq_limit q) (length (msgq_items q))).
  - right. by split; [apply msgq_put_full|].
  - left. destruct (msgq_put_ok x q) as (? & ? & ?); auto.
Qed.
End QueueFacts.

Section SlabFacts.
Context {S : Type} `{SlabLaws S}.

Lemma slab_alloc_some_when s :
  0 < k_mem_slab_num_free_get s -> is_Some (k_mem_slab_alloc s).
Proof.
  intros Hn. destruct (k_mem_slab_alloc s) eqn:E; [eauto|].
  apply slab_alloc_none in E. rewrite slab_num_free, E, size_empty in Hn. lia.
Qed.
End SlabFacts.

(** ** Concrete instances *)

(** A queue as its list of items and its limit. *)
Record list_msgq (A : Type) : Type := { lq_items : list A; lq_limit : nat }.
Arguments Build_list_msgq {A}.
Arguments lq_items {A}.
Arguments lq_limit {A}.

#[export] Instance list_msgq_ops : Msgq list_msgq := {
  msgq_items A q := lq_items q;
  msgq_limit A q := lq_limit q;
  k_msgq_put A x q :=
    if (length (lq_items q) <? lq_limit q)%nat
    then (rc_ok, Build_list_msgq (lq_items q ++ [x]) (lq_limit q))
    else (rc_err ENOMSG, q);
  k_msgq_get A q :=
    match lq_items q with
    | [] => None
    | x :: rest => Some (x, Build_list_msgq rest (lq_limit q))
    end;
  k_msgq_num_used_get A q := Z.of_nat (length (lq_items q));
  k_msgq_num_free_get A q := Z.of_nat (lq_limit q - length (lq_items q));
}.

#[export] Instance list_msgq_laws : MsgqLaws list_msgq.
Proof.
  split; intros; simpl in *.
  - destruct (Nat.ltb_spec (length (lq_items q)) (lq_limit q)); [done | lia].
  - destruct (Nat.ltb_spec (length (lq_items q)) (lq_limit q)); [lia | done].
  - by destruct (lq_items q).
  - destruct (lq_items q); simplify_eq. eauto.
  - done.
  - done.
Qed.

(** A slab as its set of free blocks; the smallest free block is handed out. *)
Record set_slab : Type := { slab_set : gset nat }.

#[export] Instance set_slab_ops : Slab set_slab := {
  slab_free s := slab_set s;
  k_mem_slab_alloc s :=
    match elements (slab_set s) with
    | [] => None
    | b :: _ => Some (b, {| slab_set := slab_set s ∖ {[b]} |})
    end;
  k_mem_slab_free b s := {| slab_set := {[b]} ∪ slab_set s |};
  k_mem_slab_num_free_get s := Z.of_nat (size (slab_set s));
}.

#[export] Instance set_slab_laws : SlabLaws set_slab.
Proof.
  split; intros; simpl in *.
  - destruct (elements (slab_set s)) eqn:E.
    + split; [intros _|done]. by apply leibniz_equiv, elements_empty_inv.
    + split; [done|]. intros E2. by rewrite E2, elements_empty in E.
  - destruct (elements (slab_set s)) as [|x l] eqn:E; simplify_eq/=. split; [|done].
    apply elem_of_elements. rewrite E. by left.
  - done.
  - done.
Qed.

(** A register file with an arbitrary environment: before every operation the
    hardware and the host act through [hw] and [delay] milliseconds pass. *)
Record sim_world : Type := {
  sim_regs : gmap Z Z;
  sim_time : Z;
  sim_tick : nat;
}.

Section Sim.
Context (delay : nat -> nat) (hw : nat -> gmap Z Z -> gmap Z Z).

Definition sim_pass (ms : Z) (w : sim_world) : sim_world :=
  {| sim_regs := hw (sim_tick w) (sim_regs w);
     sim_time := sim_time w + ms + Z.of_nat (delay (sim_tick w));
     sim_tick := S (sim_tick w) |}.

Definition sim_platform : Platform sim_world := {|
  uptime w := Z.max 0 (sim_time w);
  sys_read32 a w :=
    let w' := sim_pass 0 w in (u32 (default 0 (sim_regs w' !! a)), w');
  sys_write32 v a w :=
    let w' := sim_pass 0 w in
    {| sim_regs := <[a := v]> (sim_regs w'); sim_time := sim_time w';
       sim_tick := sim_tick w' |};
  k_uptime_get w := let w' := sim_pass 0 w in (Z.max 0 (sim_time w'), w');
  k_sleep_ms ms w :=
    sim_pass ms {| sim_regs := sim_regs w; sim_time := Z.max 0 (sim_time w);
                   sim_tick := sim_tick w |};
  sys_timepoint_calc t w := let w' := sim_pass 0 w in (Z.max 0 (sim_time w') + t, w');
  sys_timepoint_expired d w :=
    let w' := sim_pass 0 w in (d <=? Z.max 0 (sim_time w'), w');
|}.

Lemma sim_platform_laws : @PlatformLaws sim_world sim_platform.
Proof.
  split; intros; simpl; try done; try lia. apply u32_range.
Qed.
End Sim.
