(* ===== verification/Management.v ===== *)
(** * Management control driver (firmware/drivers/vams_management.c)

    Watchdog, telemetry, reset request, boot snapshot and the 128-byte
    retention window, over any platform.  [RetentionLaws] is the documented
    contract of the window (docs/management-peripherals.md): it is plain
    memory that only writes to it change.  [WatchdogLaws] is the watchdog's side:
    a pet is a write of the magic to [WDT_PET]. *)

From S2P Require Import Prelude Platform.

(** ** Register map and data *)

Definition VAMS_CONTROL_WDT_TIMEOUT_MS : Z := 0x00.
Definition VAMS_CONTROL_WDT_CONTROL : Z := 0x04.
Definition VAMS_CONTROL_WDT_PET : Z := 0x08.
Definition VAMS_CONTROL_RESET_REQUEST : Z := 0x0c.
Definition VAMS_CONTROL_LAST_RESET_REASON : Z := 0x10.
Definition VAMS_CONTROL_WDT_RESET_COUNT : Z := 0x14.
Definition VAMS_CONTROL_FW_HEARTBEAT : Z := 0x18.
Definition VAMS_CONTROL_FW_UPTIME_LO : Z := 0x1c.
Definition VAMS_CONTROL_FW_UPTIME_HI : Z := 0x20.
Definition VAMS_CONTROL_FW_VERSION : Z := 0x24.
Definition VAMS_CONTROL_MAILBOX_RX_COUNT : Z := 0x28.
Definition VAMS_CONTROL_MAILBOX_TX_COUNT : Z := 0x2c.
Definition VAMS_CONTROL_RESET_GENERATION : Z := 0x30.
Definition VAMS_CONTROL_STATUS : Z := 0x34.
Definition VAMS_CONTROL_RESET_NOTIFY_COUNT : Z := 0x38.
Definition VAMS_CONTROL_RESET_NOTIFY_FAIL_COUNT : Z := 0x3c.
Definition VAMS_CONTROL_RESET_ACK_COUNT : Z := 0x40.
Definition VAMS_CONTROL_RESET_ACK_TIMEOUT_COUNT : Z := 0x44.
Definition VAMS_CONTROL_RESET_COALESCE_COUNT : Z := 0x4c.
Definition VAMS_CONTROL_TEST_FREEZE_TASK : Z := 0x50.
Definition VAMS_CONTROL_RETENTION_BASE : Z := 0x100.

Definition VAMS_WDT_ENABLE : Z := BIT 0.
Definition VAMS_WDT_PET_MAGIC : Z := 0x56414d53.
Definition VAMS_RESET_REQUEST_MANAGEMENT : Z := BIT 0.
Definition VAMS_MANAGEMENT_RETENTION_SIZE : Z := 128.

Definition VAMS_RESET_REASON_POWER_ON : Z := 0.
Definition VAMS_RESET_REASON_FIRMWARE : Z := 4.
Definition VAMS_RESET_REASON_WATCHDOG : Z := 5.

Record vams_management_snapshot : Type := {
  ms_reset_reason : Z;
  ms_watchdog_reset_count : Z;
  ms_reset_generation : Z;
  ms_reset_notify_count : Z;
  ms_reset_notify_fail_count : Z;
  ms_reset_ack_count : Z;
  ms_reset_ack_timeout_count : Z;
  ms_reset_coalesce_count : Z;
  ms_test_freeze_task : Z;
  ms_mailbox_rx_count : Z;
  ms_mailbox_tx_count : Z;
  ms_status : Z;
  ms_watchdog_enabled : bool;
}.

Section Management.
Context {W : Type} `{Platform W}.

(** ** Operations *)

Definition device_unusable (dev : option device) : bool :=
  match dev with None => true | Some d => negb (dev_ready d) end.

Definition vams_management_watchdog_start (dev : option device) (timeout_ms : Z) (w : W)
    : rc * W :=
  match dev with
  | None => (rc_err EINVAL, w)
  | Some d =>
      if negb (dev_ready d) then (rc_err EINVAL, w) else
      let base := dev_base d in
      let '(control, w) := sys_read32 (base + VAMS_CONTROL_WDT_CONTROL) w in
      if has_bits control VAMS_WDT_ENABLE then
        let '(current, w) := sys_read32 (base + VAMS_CONTROL_WDT_TIMEOUT_MS) w in
        (if current =? timeout_ms then rc_ok else rc_err EBUSY, w)
      else
        let w := sys_write32 timeout_ms (base + VAMS_CONTROL_WDT_TIMEOUT_MS) w in
        let '(current, w) := sys_read32 (base + VAMS_CONTROL_WDT_TIMEOUT_MS) w in
        if negb (current =? timeout_ms) then (rc_err EINVAL, w)
        else (rc_ok, sys_write32 VAMS_WDT_ENABLE (base + VAMS_CONTROL_WDT_CONTROL) w)
  end.

Definition vams_management_watchdog_pet (dev : option device) (w : W) : rc * W :=
  match dev with
  | None => (rc_err EINVAL, w)
  | Some d =>
      if negb (dev_ready d) then (rc_err EINVAL, w) else
      let base := dev_base d in
      let '(control, w) := sys_read32 (base + VAMS_CONTROL_WDT_CONTROL) w in
      if negb (has_bits control VAMS_WDT_ENABLE) then (rc_err EACCES, w)
      else (rc_ok, sys_write32 VAMS_WDT_PET_MAGIC (base + VAMS_CONTROL_WDT_PET) w)
  end.

Definition vams_management_publish (dev : device)
    (heartbeat uptime_ms firmware_version : Z) (w : W) : W :=
  let base := dev_base dev in
  let w := sys_write32 heartbeat (base + VAMS_CONTROL_FW_HEARTBEAT) w in
  let w := sys_write32 (u32 uptime_ms) (base + VAMS_CONTROL_FW_UPTIME_LO) w in
  let w := sys_write32 (u32 (Z.shiftr uptime_ms 32)) (base + VAMS_CONTROL_FW_UPTIME_HI) w in
  sys_write32 firmware_version (base + VAMS_CONTROL_FW_VERSION) w.

Definition read_snapshot (dev : device) (w : W) : vams_management_snapshot * W :=
  let base := dev_base dev in
  let '(reset_reason, w) := sys_read32 (base + VAMS_CONTROL_LAST_RESET_REASON) w in
  let '(watchdog_reset_count, w) := sys_read32 (base + VAMS_CONTROL_WDT_RESET_COUNT) w in
  let '(reset_generation, w) := sys_read32 (base + VAMS_CONTROL_RESET_GENERATION) w in
  let '(reset_notify_count, w) := sys_read32 (base + VAMS_CONTROL_RESET_NOTIFY_COUNT) w in
  let '(reset_notify_fail_count, w) :=
    sys_read32 (base + VAMS_CONTROL_RESET_NOTIFY_FAIL_COUNT) w in
  let '(reset_ack_count, w) := sys_read32 (base + VAMS_CONTROL_RESET_ACK_COUNT) w in
  let '(reset_ack_timeout_count, w) :=
    sys_read32 (base + VAMS_CONTROL_RESET_ACK_TIMEOUT_COUNT) w in
  let '(reset_coalesce_count, w) := sys_read32 (base + VAMS_CONTROL_RESET_COALESCE_COUNT) w in
  let '(test_freeze_task, w) := sys_read32 (base + VAMS_CONTROL_TEST_FREEZE_TASK) w in
  let '(mailbox_rx_count, w) := sys_read32 (base + VAMS_CONTROL_MAILBOX_RX_COUNT) w in
  let '(mailbox_tx_count, w) := sys_read32 (base + VAMS_CONTROL_MAILBOX_TX_COUNT) w in
  let '(status, w) := sys_read32 (base + VAMS_CONTROL_STATUS) w in
  let '(control, w) := sys_read32 (base + VAMS_CONTROL_WDT_CONTROL) w in
  ({| ms_reset_reason := reset_reason;
      ms_watchdog_reset_count := watchdog_reset_count;
      ms_reset_generation := reset_generation;
      ms_reset_notify_count := reset_notify_count;
      ms_reset_notify_fail_count := reset_notify_fail_count;
      ms_reset_ack_count := reset_ack_count;
      ms_reset_ack_timeout_count := reset_ack_timeout_count;
      ms_reset_coalesce_count := reset_coalesce_count;
      ms_test_freeze_task := test_freeze_task;
      ms_mailbox_rx_count := mailbox_rx_count;
      ms_mailbox_tx_count := mailbox_tx_count;
      ms_status := status;
      ms_watchdog_enabled := has_bits control VAMS_WDT_ENABLE |}, w).

Definition vams_management_reset (dev : device) (w : W) : W :=
  sys_write32 VAMS_RESET_REQUEST_MANAGEMENT (dev_base dev + VAMS_CONTROL_RESET_REQUEST) w.

(** [length] is in bytes; the data is its [uint32_t] view. *)
Definition vams_management_retention_read (dev : device) (length : Z) (w : W)
    : result (list Z * W) :=
  _ ← ASSERT_NO_MSG ((length <=? VAMS_MANAGEMENT_RETENTION_SIZE) && (length mod 4 =? 0));
  Ok (read_words (dev_base dev + VAMS_CONTROL_RETENTION_BASE) (Z.to_nat (length / 4)) w).

Definition vams_management_retention_write (dev : device) (words : list Z) (length : Z)
    (w : W) : result W :=
  _ ← ASSERT_NO_MSG ((length <=? VAMS_MANAGEMENT_RETENTION_SIZE) && (length mod 4 =? 0));
  Ok (write_words (dev_base dev + VAMS_CONTROL_RETENTION_BASE)
        (take (Z.to_nat (length / 4)) words) w).
End Management.

(** ** The retention window *)

Definition RETENTION_WORDS : nat := 32.

Class Retention (W : Type) `{!Platform W} := { retention : W -> list Z }.

Definition retention_address (dev : device) (i : nat) : Z :=
  dev_base dev + VAMS_CONTROL_RETENTION_BASE + 4 * Z.of_nat i.

Class RetentionLaws (W : Type) `{!Platform W, !Retention W} (dev : device) : Prop := {
  retention_length w : length (retention w) = RETENTION_WORDS;
  retention_read i w :
    (i < RETENTION_WORDS)%nat ->
    retention w !! i = Some (sys_read32 (retention_address dev i) w).1;
  retention_read_frame a w : retention (sys_read32 a w).2 = retention w;
  retention_write i v w :
    (i < RETENTION_WORDS)%nat -> is_u32 v ->
    retention (sys_write32 v (retention_address dev i) w) = <[i := v]> (retention w);
}.

Section RetentionFacts.
Context {W : Type} `{RetentionLaws W dev}.

Lemma read_words_retention i n w :
  (i + n <= RETENTION_WORDS)%nat ->
  (read_words (retention_address dev i) n w).1 = take n (drop i (retention w)) /\
  retention (read_words (retention_address dev i) n w).2 = retention w.
Proof.
  revert i w; induction n as [|n IH]; intros i w Hn; [by rewrite take_0|].
  cbn [read_words]. pose proof (retention_read i w ltac:(lia)) as Hi.
  pose proof (retention_read_frame (retention_address dev i) w) as Hf.
  replace (retention_address dev i + 4) with (retention_address dev (S i))
    by (unfold retention_address; lia).
  destruct (sys_read32 _ w) as [x w1]. simpl in *.
  destruct (IH (S i) w1 ltac:(lia)) as [IH1 IH2].
  destruct (read_words _ n w1) as [xs w2]. simpl in *. subst xs.
  rewrite IH2, Hf. split; [|done].
  by rewrite (drop_S _ _ _ Hi).
Qed.

Lemma write_words_retention i ws w :
  (i + length ws <= RETENTION_WORDS)%nat -> Forall is_u32 ws ->
  retention (write_words (retention_address dev i) ws w) =
  take i (retention w) ++ ws ++ drop (i + length ws) (retention w).
Proof.
  intros Hl Hws. revert i w Hl. induction Hws as [|x xs Hx _ IH]; intros i w Hl.
  - simpl. by rewrite Nat.add_0_r, take_drop.
  - cbn [write_words length] in *.
    replace (retention_address dev i + 4) with (retention_address dev (S i))
      by (unfold retention_address; lia).
    rewrite IH, retention_write by (try done; lia).
    pose proof (retention_length w) as Hr.
    rewrite take_insert_succ, drop_insert_lt by lia.
    rewrite <-app_assoc. cbn [app]. do 4 f_equal. lia.
Qed.
End RetentionFacts.

(** What writes to the window leave alone: an observation that no write from
    the window's first address on changes. *)
Section WindowFrame.
Context {W A : Type} `{!Platform W} (dev : device) (obs : W -> A).
Context (obs_write : forall v a w,
  dev_base dev + VAMS_CONTROL_RETENTION_BASE <= a -> obs (sys_write32 v a w) = obs w).

Lemma write_words_frame a ws w :
  dev_base dev + VAMS_CONTROL_RETENTION_BASE <= a -> obs (write_words a ws w) = obs w.
Proof using obs_write.
  revert a w. induction ws as [|x ws IH]; intros a w Ha; [done|]. cbn [write_words].
  rewrite IH, obs_write by lia. done.
Qed.

Lemma retention_write_frame words length w w' :
  vams_management_retention_write dev words length w = Ok w' -> obs w' = obs w.
Proof using obs_write.
  unfold vams_management_retention_write. intros E. apply result_bind_ok in E as (? & _ & [= <-]).
  apply write_words_frame. lia.
Qed.
End WindowFrame.

(** ** The watchdog

    What the device sees of the pets: the writes of the magic [0x56414d53] to
    register [0x08] of its block (docs/management-peripherals.md). *)

Class Watchdog (W : Type) := { watchdog_pets : W -> Z }.

Class WatchdogLaws (W : Type) `{!Platform W, !Watchdog W} (dev : device) : Prop := {
  pets_read a w : watchdog_pets (sys_read32 a w).2 = watchdog_pets w;
  pets_write v a w :
    watchdog_pets (sys_write32 v a w) =
    watchdog_pets w + (if (a =? dev_base dev + 0x08) && (v =? 0x56414d53) then 1 else 0);
  pets_uptime w : watchdog_pets (k_uptime_get w).2 = watchdog_pets w;
  pets_sleep ms w : watchdog_pets (k_sleep_ms ms w) = watchdog_pets w;
}.

Section WatchdogFacts.
Context {W : Type} `{WatchdogLaws W dev}.

Lemma pets_write_other v a w :
  a <> dev_base dev + 0x08 -> watchdog_pets (sys_write32 v a w) = watchdog_pets w.
Proof. intros Ha. rewrite pets_write, (proj2 (Z.eqb_neq _ _) Ha). simpl. lia. Qed.

Lemma publish_pets heartbeat uptime_ms version w :
  watchdog_pets (vams_management_publish dev heartbeat uptime_ms version w) = watchdog_pets w.
Proof.
  unfold vams_management_publish, VAMS_CONTROL_FW_HEARTBEAT, VAMS_CONTROL_FW_UPTIME_LO,
    VAMS_CONTROL_FW_UPTIME_HI, VAMS_CONTROL_FW_VERSION. cbv zeta.
  rewrite !pets_write_other by lia. done.
Qed.

Lemma pet_pets w w' :
  vams_management_watchdog_pet (Some dev) w = (rc_ok, w') -> watchdog_pets w' = watchdog_pets w + 1.
Proof.
  unfold vams_management_watchdog_pet. destruct (negb (dev_ready dev)); [done|].
  pose proof (pets_read (dev_base dev + VAMS_CONTROL_WDT_CONTROL) w) as Hr.
  destruct (sys_read32 _ w) as [control w1]. cbn [snd] in Hr. destruct (negb _); [done|].
  intros [= <-]. unfold VAMS_CONTROL_WDT_PET, VAMS_WDT_PET_MAGIC.
  by rewrite pets_write, !Z.eqb_refl, Hr.
Qed.
End WatchdogFacts.

(** A platform that counts the pets: any platform with a counter beside it. *)
Section CountPets.
Context {W : Type} (platform : Platform W) (dev : device).

Definition counted_platform : Platform (Z * W) := {|
  uptime w := uptime w.2;
  sys_read32 a w := let '(x, w') := sys_read32 a w.2 in (x, (w.1, w'));
  sys_write32 v a w :=
    (w.1 + (if (a =? dev_base dev + 0x08) && (v =? 0x56414d53) then 1 else 0),
     sys_write32 v a w.2);
  k_uptime_get w := let '(x, w') := k_uptime_get w.2 in (x, (w.1, w'));
  k_sleep_ms ms w := (w.1, k_sleep_ms ms w.2);
  sys_timepoint_calc t w := let '(x, w') := sys_timepoint_calc t w.2 in (x, (w.1, w'));
  sys_timepoint_expired d w := let '(x, w') := sys_timepoint_expired d w.2 in (x, (w.1, w'));
|}.

Definition counted_watchdog : Watchdog (Z * W) := {| watchdog_pets := fst |}.

Lemma counted_watchdog_laws : @WatchdogLaws (Z * W) counted_platform counted_watchdog dev.
Proof.
  split; cbn; intros; try done.
  - by destruct (sys_read32 a w.2).
  - by destruct (k_uptime_get w.2).
Qed.
End CountPets.

(** ** A concrete retention window

    The register file of [sim_platform], with hardware that leaves the window
    alone: its content is what its 32 registers hold. *)

Definition sim_window (dev : device) (regs : gmap Z Z) : list Z :=
  (fun i => u32 (default 0 (regs !! retention_address dev i))) <$> seq 0 32.
#[global] Arguments sim_window : simpl never.

Section SimRetention.
Context (delay : nat -> nat) (hw : nat -> gmap Z Z -> gmap Z Z) (dev : device).
Hypothesis hw_window : forall n regs i, (i < 32)%nat ->
  hw n regs !! retention_address dev i = regs !! retention_address dev i.

#[local] Instance sim_retention_platform : Platform sim_world := sim_platform delay hw.

Definition sim_retention : Retention sim_world := {|
  retention w := sim_window dev (sim_regs w)
|}.

Lemma sim_window_hw n regs : sim_window dev (hw n regs) = sim_window dev regs.
Proof.
  unfold sim_window. apply list_fmap_ext. intros j i Hi.
  apply list_elem_of_lookup_2, elem_of_seq in Hi. by rewrite hw_window by lia.
Qed.

Lemma sim_window_insert regs i v :
  (i < 32)%nat -> is_u32 v ->
  sim_window dev (<[retention_address dev i := v]> regs) = <[i := v]> (sim_window dev regs).
Proof.
  intros Hi Hv. unfold sim_window. apply list_eq. intros j. rewrite list_lookup_fmap.
  destruct (decide (j = i)) as [->|Hne].
  - rewrite list_lookup_insert_eq by by rewrite length_fmap, length_seq.
    rewrite lookup_seq_lt by done. cbn [fmap option_fmap option_map].
    rewrite lookup_insert_eq. simpl. by rewrite u32_id.
  - rewrite list_lookup_insert_ne, list_lookup_fmap by done.
    destruct (decide (j < 32)%nat).
    + rewrite lookup_seq_lt by done. cbn [fmap option_fmap option_map].
      rewrite lookup_insert_ne; [done|]. unfold retention_address. simpl. lia.
    + by rewrite lookup_seq_ge by lia.
Qed.

Lemma sim_retention_laws : @RetentionLaws sim_world _ sim_retention dev.
Proof.
  split; cbn [retention sim_retention sys_read32 sys_write32 sim_retention_platform sim_platform
              sim_pass sim_regs fst snd]; unfold RETENTION_WORDS.
  - done.
  - intros i w Hi. rewrite hw_window by done. unfold sim_window.
    by rewrite list_lookup_fmap, lookup_seq_lt by done.
  - intros a w. apply sim_window_hw.
  - intros i v w Hi Hv. rewrite sim_window_insert by done. by rewrite sim_window_hw.
Qed.
End SimRetention.

Definition quiet_hw (n : nat) (regs : gmap Z Z) : gmap Z Z := regs.
Definition quiet_platform (delay : nat -> nat) : Platform sim_world := sim_platform delay quiet_hw.
Lemma quiet_window dev n regs i :
  (i < 32)%nat ->
  quiet_hw n regs !! retention_address dev i = regs !! retention_address dev i.
Proof. done. Qed.
