(* ===== verification/Retained.v ===== *)
(** * Retained crash record (firmware/src/recovery/vams_retained.c)

    The CRC-protected record the firmware keeps in the retention window across
    management resets, its validation, and the operations that update and
    commit it.  The spinlock makes each operation atomic, so an operation is
    one function from the static [retained_record] and the platform to their
    new values. *)

From S2P Require Import Prelude Abi Overload Crc32 Platform Management.

(** ** Data *)

Definition VAMS_RETAINED_MAGIC : Z := 0x56414d52.
Definition VAMS_RETAINED_VERSION : Z := 1.
Definition VAMS_RETAINED_EVENT_COUNT : nat := 4.

Record vams_retained_event : Type := {
  re_event_id : Z;
  re_command_id : Z;
  re_generation : Z;
  re_timestamp_ms : Z;
}.

Record vams_retained_record : Type := {
  rr_magic : Z;                    (* uint32_t *)
  rr_version : Z;                  (* uint16_t *)
  rr_length : Z;                   (* uint16_t *)
  rr_crc32 : Z;                    (* uint32_t from here on *)
  rr_boot_count : Z;
  rr_reset_reason : Z;
  rr_reset_generation : Z;
  rr_last_stuck_task : Z;
  rr_health_failure_count : Z;
  rr_last_command_id : Z;
  rr_last_command_generation : Z;
  rr_last_assertion : Z;
  rr_stack_failure : Z;
  rr_event_head : Z;
  rr_event_count : Z;
  rr_events : list vams_retained_event;
}.

#[export] Instance vams_retained_event_eq_dec : EqDecision vams_retained_event.
Proof. solve_decision. Defined.
#[export] Instance vams_retained_record_eq_dec : EqDecision vams_retained_record.
Proof. solve_decision. Defined.

Definition zero_event : vams_retained_event := Build_vams_retained_event 0 0 0 0.

Definition retained_layout : list nat := [4; 2; 2; 4]%nat ++ replicate 27 4%nat.

(** [sizeof(struct vams_retained_record)] and [offsetof(..., crc32)]. *)
Definition retained_size : nat := layout_size retained_layout.
Definition retained_crc_offset : nat := 8.

Definition event_fields (e : vams_retained_event) : list Z :=
  [re_event_id e; re_command_id e; re_generation e; re_timestamp_ms e].

Definition record_head_fields (r : vams_retained_record) : list Z :=
  [rr_magic r; rr_version r; rr_length r].
Definition record_tail_fields (r : vams_retained_record) : list Z :=
  [rr_boot_count r; rr_reset_reason r; rr_reset_generation r; rr_last_stuck_task r;
   rr_health_failure_count r; rr_last_command_id r; rr_last_command_generation r;
   rr_last_assertion r; rr_stack_failure r; rr_event_head r; rr_event_count r]
  ++ (rr_events r ≫= event_fields).
Definition record_fields (r : vams_retained_record) : list Z :=
  record_head_fields r ++ rr_crc32 r :: record_tail_fields r.

Fixpoint events_of_fields (fs : list Z) : list vams_retained_event :=
  match fs with
  | i :: c :: g :: t :: rest => Build_vams_retained_event i c g t :: events_of_fields rest
  | _ => []
  end.

Definition record_of_fields (fs : list Z) : vams_retained_record :=
  match fs with
  | m :: v :: l :: crc :: bc :: rr :: rg :: st :: hf :: ci :: cg :: la :: sf :: eh :: ec
      :: evs => Build_vams_retained_record m v l crc bc rr rg st hf ci cg la sf eh ec
                  (events_of_fields evs)
  | _ => Build_vams_retained_record 0 0 0 0 0 0 0 0 0 0 0 0 0 0 0 []
  end.

(** Memory image of the record as bytes and as the [uint32_t] words the
    retention driver copies. *)
Definition record_bytes (r : vams_retained_record) : list Z :=
  pack retained_layout (record_fields r).
Definition record_words (r : vams_retained_record) : list Z :=
  words_of_bytes (record_bytes r).
Definition record_of_words (ws : list Z) : vams_retained_record :=
  record_of_fields (unpack retained_layout (bytes_of_words ws)).

Definition wf_record (r : vams_retained_record) : Prop :=
  Forall2 fits retained_layout (record_fields r) /\
  length (rr_events r) = VAMS_RETAINED_EVENT_COUNT.

(** ** Validation and formatting *)

Definition vams_retained_crc32 (record : vams_retained_record) : Z :=
  let bytes := record_bytes record in
  let crc :=
    crc32_bytes U32_MAX
      (imap (fun index b =>
         if (retained_crc_offset <=? index)%nat && (index <? retained_crc_offset + 4)%nat
         then 0 else b) bytes) in
  Z.lxor crc U32_MAX.

Definition vams_retained_validate (record : vams_retained_record) : bool :=
  (rr_magic record =? VAMS_RETAINED_MAGIC) &&
  (rr_version record =? VAMS_RETAINED_VERSION) &&
  (rr_length record =? Z.of_nat retained_size) &&
  (rr_crc32 record =? vams_retained_crc32 record).

Definition set_crc32 (crc : Z) (r : vams_retained_record) : vams_retained_record :=
  Build_vams_retained_record (rr_magic r) (rr_version r) (rr_length r) crc
    (rr_boot_count r) (rr_reset_reason r) (rr_reset_generation r) (rr_last_stuck_task r)
    (rr_health_failure_count r) (rr_last_command_id r) (rr_last_command_generation r)
    (rr_last_assertion r) (rr_stack_failure r) (rr_event_head r) (rr_event_count r)
    (rr_events r).

Definition vams_retained_format (reset_reason generation : Z) : vams_retained_record :=
  let record :=
    {| rr_magic := VAMS_RETAINED_MAGIC; rr_version := VAMS_RETAINED_VERSION;
       rr_length := Z.of_nat retained_size; rr_crc32 := 0; rr_boot_count := 1;
       rr_reset_reason := reset_reason; rr_reset_generation := generation;
       rr_last_stuck_task := 0; rr_health_failure_count := 0; rr_last_command_id := 0;
       rr_last_command_generation := 0; rr_last_assertion := 0; rr_stack_failure := 0;
       rr_event_head := 0; rr_event_count := 0;
       rr_events := replicate VAMS_RETAINED_EVENT_COUNT zero_event |} in
  set_crc32 (vams_retained_crc32 record) record.

(** ** The stateful operations *)

Definition set_boot (boot_count reset_reason generation : Z) (r : vams_retained_record) :=
  Build_vams_retained_record (rr_magic r) (rr_version r) (rr_length r) (rr_crc32 r)
    boot_count reset_reason generation (rr_last_stuck_task r)
    (rr_health_failure_count r) (rr_last_command_id r) (rr_last_command_generation r)
    (rr_last_assertion r) (rr_stack_failure r) (rr_event_head r) (rr_event_count r)
    (rr_events r).
Definition set_health (stuck_task failures : Z) (r : vams_retained_record) :=
  Build_vams_retained_record (rr_magic r) (rr_version r) (rr_length r) (rr_crc32 r)
    (rr_boot_count r) (rr_reset_reason r) (rr_reset_generation r) stuck_task
    failures (rr_last_command_id r) (rr_last_command_generation r)
    (rr_last_assertion r) (rr_stack_failure r) (rr_event_head r) (rr_event_count r)
    (rr_events r).
Definition set_command (command_id generation : Z) (r : vams_retained_record) :=
  Build_vams_retained_record (rr_magic r) (rr_version r) (rr_length r) (rr_crc32 r)
    (rr_boot_count r) (rr_reset_reason r) (rr_reset_generation r) (rr_last_stuck_task r)
    (rr_health_failure_count r) command_id generation
    (rr_last_assertion r) (rr_stack_failure r) (rr_event_head r) (rr_event_count r)
    (rr_events r).
Definition set_events (head count : Z) (events : list vams_retained_event)
    (r : vams_retained_record) :=
  Build_vams_retained_record (rr_magic r) (rr_version r) (rr_length r) (rr_crc32 r)
    (rr_boot_count r) (rr_reset_reason r) (rr_reset_generation r) (rr_last_stuck_task r)
    (rr_health_failure_count r) (rr_last_command_id r) (rr_last_command_generation r)
    (rr_last_assertion r) (rr_stack_failure r) head count events.

Section Operations.
Context {W : Type} `{Platform W} (retention_device : device).

Definition vams_retained_commit (r : vams_retained_record) (w : W)
    : result (vams_retained_record * W) :=
  let r := set_crc32 (vams_retained_crc32 r) r in
  w ← vams_management_retention_write retention_device (record_words r)
        (Z.of_nat retained_size) w;
  Ok (r, w).

(** Returns whether a valid record survived, the record and the platform. *)
Definition vams_retained_boot (reset_reason generation : Z) (w : W)
    : result (bool * vams_retained_record * W) :=
  '(words, w) ← vams_management_retention_read retention_device (Z.of_nat retained_size) w;
  let r := record_of_words words in
  if negb (vams_retained_validate r) then
    let r := vams_retained_format reset_reason generation in
    w ← vams_management_retention_write retention_device (record_words r)
          (Z.of_nat retained_size) w;
    Ok (false, r, w)
  else
    let r := set_boot (vams_counter_increment (rr_boot_count r)) reset_reason generation r in
    '(r, w) ← vams_retained_commit r w;
    Ok (true, r, w).

Definition vams_retained_note_health (stuck_task failures : Z)
    (r : vams_retained_record) (w : W) : result (vams_retained_record * W) :=
  vams_retained_commit (set_health stuck_task failures r) w.

Definition vams_retained_note_command (command_id generation : Z)
    (r : vams_retained_record) (w : W) : result (vams_retained_record * W) :=
  vams_retained_commit (set_command command_id generation r) w.

Definition vams_retained_clear_command (r : vams_retained_record) (w : W)
    : result (vams_retained_record * W) :=
  vams_retained_commit (set_command 0 0 r) w.

Definition vams_retained_note_event (event_id command_id generation timestamp_ms : Z)
    (r : vams_retained_record) (w : W) : result (vams_retained_record * W) :=
  let head := rr_event_head r in
  if (Z.to_nat head <? length (rr_events r))%nat then
    let event := Build_vams_retained_event event_id command_id generation timestamp_ms in
    let events := <[Z.to_nat head := event]> (rr_events r) in
    let head := u32 (head + 1) mod Z.of_nat VAMS_RETAINED_EVENT_COUNT in
    let count := if rr_event_count r <? Z.of_nat VAMS_RETAINED_EVENT_COUNT
                 then rr_event_count r + 1 else rr_event_count r in
    vams_retained_commit (set_events head count events r) w
  else Fault.
End Operations.

(** ** Lemmas: memory images *)

Definition RETAINED_WORDS : nat := 30.

Lemma unpack_length layout bs : length (unpack layout bs) = length layout.
Proof. revert bs; induction layout; intros; simpl; auto. Qed.

Lemma record_fields_of_fields fs :
  length fs = length retained_layout -> record_fields (record_of_fields fs) = fs.
Proof.
  intros Hl. change (length retained_layout) with 31%nat in Hl.
  do 31 (destruct fs as [|? fs]; [discriminate Hl|]; simpl in Hl).
  destruct fs; [reflexivity | discriminate Hl].
Qed.

Lemma record_of_fields_events fs :
  length fs = length retained_layout ->
  length (rr_events (record_of_fields fs)) = VAMS_RETAINED_EVENT_COUNT.
Proof.
  intros Hl. change (length retained_layout) with 31%nat in Hl.
  do 31 (destruct fs as [|? fs]; [discriminate Hl|]; simpl in Hl).
  destruct fs; [reflexivity | discriminate Hl].
Qed.

Lemma record_of_fields_fields r :
  length (rr_events r) = VAMS_RETAINED_EVENT_COUNT -> record_of_fields (record_fields r) = r.
Proof.
  intros Hl. destruct r as [? ? ? ? ? ? ? ? ? ? ? ? ? ? ? evs]; simpl in Hl.
  do 4 (destruct evs as [|[? ? ? ?] evs]; [discriminate Hl|]; simpl in Hl).
  destruct evs; [reflexivity | discriminate Hl].
Qed.

Lemma record_bytes_length r :
  wf_record r -> length (record_bytes r) = (4 * RETAINED_WORDS)%nat.
Proof.
  intros [Hf _]. unfold record_bytes. rewrite pack_length; [done|].
  symmetry. by eapply Forall2_length.
Qed.

Lemma record_words_u32 r :
  wf_record r -> Forall is_u32 (record_words r) /\ length (record_words r) = RETAINED_WORDS.
Proof.
  intros Hwf. apply words_of_bytes_range; [by apply record_bytes_length|apply pack_range].
Qed.

Lemma record_of_words_words r : wf_record r -> record_of_words (record_words r) = r.
Proof.
  intros Hwf. unfold record_of_words, record_words.
  rewrite (bytes_of_words_of_bytes RETAINED_WORDS)
    by (by apply record_bytes_length || apply pack_range).
  destruct Hwf as [Hf Hl]. unfold record_bytes. rewrite unpack_pack by done.
  by apply record_of_fields_fields.
Qed.

Lemma record_words_of_words ws :
  Forall is_u32 ws -> length ws = RETAINED_WORDS -> record_words (record_of_words ws) = ws.
Proof.
  intros Hu Hl. unfold record_words, record_bytes, record_of_words.
  rewrite record_fields_of_fields by apply unpack_length.
  rewrite pack_unpack.
  - by apply words_of_bytes_of_words.
  - apply bytes_of_words_range.
  - by rewrite bytes_of_words_length, Hl.
Qed.

Lemma record_of_words_wf ws : wf_record (record_of_words ws).
Proof.
  split.
  - unfold record_of_words. rewrite record_fields_of_fields by apply unpack_length.
    apply unpack_fits, bytes_of_words_range.
  - apply record_of_fields_events, unpack_length.
Qed.

(** ** Lemmas: the checksum over words *)

(** Bytes 8 to 11 are those of word 2. *)
Lemma crc_bytes_zeroed w0 w1 w2 rest :
  imap (fun index b =>
    if (retained_crc_offset <=? index)%nat && (index <? retained_crc_offset + 4)%nat
    then 0 else b) (bytes_of_words (w0 :: w1 :: w2 :: rest)) =
  bytes_of_words (w0 :: w1 :: 0 :: rest).
Proof.
  unfold bytes_of_words. rewrite !bind_cons. cbn [le_bytes app].
  cbn [imap]. simpl. do 12 f_equal.
  rewrite <-(list_fmap_id (rest ≫= le_bytes 4)) at 2. rewrite <-imap_const.
  apply imap_ext. intros i x _. simpl. by repeat case_match.
Qed.

Lemma record_bytes_words r : wf_record r -> record_bytes r = bytes_of_words (record_words r).
Proof.
  intros Hwf. unfold record_words.
  by rewrite (bytes_of_words_of_bytes RETAINED_WORDS)
    by (by apply record_bytes_length || apply pack_range).
Qed.

Definition words_crc32 (ws : list Z) : Z :=
  Z.lxor (foldl crc32_word U32_MAX (<[2%nat := 0]> ws)) U32_MAX.

Lemma retained_crc32_words r :
  wf_record r -> vams_retained_crc32 r = words_crc32 (record_words r).
Proof.
  intros Hwf. unfold vams_retained_crc32, words_crc32. f_equal.
  rewrite record_bytes_words by done.
  destruct (record_words_u32 r Hwf) as [Hu Hl].
  destruct (record_words r) as [|w0 [|w1 [|w2 rest]]]; [discriminate Hl..|].
  rewrite crc_bytes_zeroed, crc32_bytes_of_words; [done|].
  rewrite !Forall_cons in *. by destruct Hu as (? & ? & ? & ?).
Qed.

Lemma words_crc32_u32 ws : Forall is_u32 ws -> is_u32 (words_crc32 ws).
Proof.
  intros Hu. apply lxor_u32; [|word_lia]. apply crc32_words_range; [word_lia|].
  by apply Forall_insert.
Qed.

(** ** Lemmas: validation *)

Lemma record_words_crc r : wf_record r -> record_words r !! 2%nat = Some (rr_crc32 r).
Proof.
  intros Hwf. destruct (record_words_u32 r Hwf) as [Hu Hl].
  pose proof (record_of_words_words r Hwf) as E.
  destruct (record_words r) as [|w0 [|w1 [|w2 rest]]]; [discriminate Hl..|].
  rewrite !Forall_cons in Hu. destruct Hu as (_ & _ & Hw & _).
  rewrite <-E. change (Some w2 = Some (le_value (le_bytes 4 w2))).
  f_equal. rewrite le_value_bytes, Z.mod_small; [done|word_lia].
Qed.

(** A record is valid when its image has the right identification and word 2
    is the checksum of the other words. *)
Lemma validate_crc r :
  wf_record r -> vams_retained_validate r = true ->
  rr_crc32 r = words_crc32 (record_words r).
Proof.
  intros Hwf Hv. unfold vams_retained_validate in Hv. bool_to_prop.
  by rewrite <-retained_crc32_words.
Qed.

Lemma words_crc32_insert2 ws v : words_crc32 (<[2%nat := v]> ws) = words_crc32 ws.
Proof. unfold words_crc32. by rewrite list_insert_insert_eq. Qed.

Lemma words_crc32_change ws i v :
  Forall is_u32 ws -> is_u32 v -> (i < length ws)%nat -> i <> 2%nat ->
  words_crc32 (<[i := v]> ws) = words_crc32 ws -> ws !! i = Some v.
Proof.
  intros Hu Hv Hi Hne E. unfold words_crc32 in E. apply lxor_cancel_r in E.
  rewrite list_insert_insert_ne in E by done.
  symmetry in E. apply (crc32_words_single_change _ (<[2%nat := 0]> ws) i v) in E.
  - by rewrite list_lookup_insert_ne in E.
  - word_lia.
  - apply Forall_insert; [done|word_lia].
  - done.
  - by rewrite length_insert.
Qed.

(** Replacing the checksum keeps the shape and makes the record valid if its
    identification is. *)
Definition identified (r : vams_retained_record) : Prop :=
  rr_magic r = VAMS_RETAINED_MAGIC /\ rr_version r = VAMS_RETAINED_VERSION /\
  rr_length r = Z.of_nat retained_size.

Lemma set_crc32_wf c r : is_u32 c -> wf_record r -> wf_record (set_crc32 c r).
Proof.
  intros Hc [Hf Hl]. split; [|done].
  unfold record_fields, record_head_fields in *.
  change retained_layout with (4%nat :: 2%nat :: 2%nat :: 4%nat :: replicate 27 4%nat) in *.
  cbn [app] in *. rewrite !Forall2_cons_iff in *.
  destruct Hf as (? & ? & ? & ? & ?). by split_and!.
Qed.

Lemma set_crc32_crc c r : vams_retained_crc32 (set_crc32 c r) = vams_retained_crc32 r.
Proof.
  unfold vams_retained_crc32. f_equal.
Qed.

Lemma retained_crc32_u32 r : wf_record r -> is_u32 (vams_retained_crc32 r).
Proof.
  intros Hwf. rewrite retained_crc32_words by done. apply words_crc32_u32.
  by apply record_words_u32.
Qed.

Lemma sealed_valid r :
  identified r -> vams_retained_validate (set_crc32 (vams_retained_crc32 r) r) = true.
Proof.
  intros (Hm & Hv & Hl). unfold vams_retained_validate. rewrite set_crc32_crc.
  simpl rr_magic. simpl rr_version. simpl rr_length. simpl rr_crc32.
  by rewrite Hm, Hv, Hl, !Z.eqb_refl.
Qed.

Lemma validate_identified r : vams_retained_validate r = true -> identified r.
Proof. unfold vams_retained_validate. intros. by bool_to_prop. Qed.

(** ** Single-word corruption *)

(** C15: corruption of any one 32-bit word of a valid retained record, to any
    other value, is detected: the record read back does not validate.  (Bits
    of the checksum word itself included; up to 32 adjacent bits at once.) *)
Theorem retained_detects_word_corruption (r : vams_retained_record) (i : nat) (v : Z)
    (Hwf : wf_record r) (Hvalid : vams_retained_validate r = true)
    (Hi : (i < RETAINED_WORDS)%nat) (Hv : is_u32 v) (Hne : record_words r !! i <> Some v) :
  vams_retained_validate (record_of_words (<[i := v]> (record_words r))) = false.
Proof.
  destruct (record_words_u32 r Hwf) as [Hu Hl].
  set (ws' := <[i := v]> (record_words r)).
  assert (Hu' : Forall is_u32 ws') by by apply Forall_insert.
  assert (Hwords : record_words (record_of_words ws') = ws').
  { apply record_words_of_words; [done|]. unfold ws'. by rewrite length_insert. }
  destruct (vams_retained_validate (record_of_words ws')) eqn:Hv'; [exfalso|done].
  apply validate_crc in Hv'; [|apply record_of_words_wf]. rewrite Hwords in Hv'.
  pose proof (record_words_crc _ (record_of_words_wf ws')) as H2. rewrite Hwords in H2.
  apply validate_crc in Hvalid; [|done]. pose proof (record_words_crc r Hwf) as H2r.
  destruct (decide (i = 2%nat)) as [->|Hi2]; unfold ws' in *.
  - rewrite words_crc32_insert2, <-Hvalid in Hv'. rewrite list_lookup_insert_eq in H2 by lia.
    congruence.
  - rewrite list_lookup_insert_ne in H2 by done. apply Hne.
    apply words_crc32_change; [done..|by rewrite Hl|done|]. congruence.
Qed.

(** ** The record across resets *)

Section Persistence.
Context {W : Type} `{RetentionLaws W dev}.

(** The record a boot would read from the window. *)
Definition persisted (w : W) : vams_retained_record :=
  record_of_words (take RETAINED_WORDS (retention w)).

Lemma retention_write_record r w :
  wf_record r ->
  exists w', vams_management_retention_write dev (record_words r) (Z.of_nat retained_size) w
             = Ok w' /\ persisted w' = r.
Proof.
  intros Hwf. destruct (record_words_u32 r Hwf) as [Hu Hl].
  unfold vams_management_retention_write.
  change (Z.to_nat (Z.of_nat retained_size / 4)) with RETAINED_WORDS.
  eexists; split; [reflexivity|]. rewrite take_ge by lia. unfold persisted.
  replace (dev_base dev + VAMS_CONTROL_RETENTION_BASE) with (retention_address dev 0)
    by (unfold retention_address; lia).
  rewrite write_words_retention by (try done; rewrite Hl; compute; lia).
  rewrite take_0. cbn [app]. rewrite take_app_length' by done.
  by apply record_of_words_words.
Qed.

(** Every update ends with [vams_retained_commit], which cannot fail: the
    record in memory and the one in the window are then equal and valid. *)
Lemma commit_persists r w :
  wf_record r -> identified r ->
  exists w', vams_retained_commit dev r w = Ok (set_crc32 (vams_retained_crc32 r) r, w') /\
    persisted w' = set_crc32 (vams_retained_crc32 r) r /\
    wf_record (persisted w') /\ vams_retained_validate (persisted w') = true.
Proof.
  intros Hwf Hid. unfold vams_retained_commit.
  assert (wf_record (set_crc32 (vams_retained_crc32 r) r))
    by (apply set_crc32_wf; auto using retained_crc32_u32).
  destruct (retention_write_record (set_crc32 (vams_retained_crc32 r) r) w) as (w' & E & Hp);
    [done|]. cbv zeta. rewrite E. exists w'. rewrite Hp. simpl.
  auto using sealed_valid.
Qed.

Lemma retention_read_record w :
  exists w', vams_management_retention_read dev (Z.of_nat retained_size) w
             = Ok (take RETAINED_WORDS (retention w), w').
Proof.
  unfold vams_management_retention_read.
  change (Z.to_nat (Z.of_nat retained_size / 4)) with RETAINED_WORDS.
  replace (dev_base dev + VAMS_CONTROL_RETENTION_BASE) with (retention_address dev 0)
    by (unfold retention_address; lia).
  destruct (read_words_retention 0 RETAINED_WORDS w) as [E _];
    [unfold RETAINED_WORDS, RETENTION_WORDS; lia|].
  rewrite drop_0 in E. destruct (read_words _ _ w) as [ws w']. simpl in *. subst. eauto.
Qed.
End Persistence.

(** ** The event ring *)

(** Ring discipline of [event_head]/[event_count], and the events it holds,
    oldest first. *)
Definition ring_ok (r : vams_retained_record) : Prop :=
  0 <= rr_event_head r < 4 /\ 0 <= rr_event_count r <= 4 /\
  (rr_event_count r < 4 -> rr_event_head r = rr_event_count r).

#[export] Instance ring_ok_dec r : Decision (ring_ok r).
Proof. unfold ring_ok; apply _. Defined.

Definition ring_view (r : vams_retained_record) : list vams_retained_event :=
  if rr_event_count r <? 4 then take (Z.to_nat (rr_event_count r)) (rr_events r)
  else drop (Z.to_nat (rr_event_head r)) (rr_events r) ++
       take (Z.to_nat (rr_event_head r)) (rr_events r).

(** The last [n] elements of a list. *)
Definition lastn {A} (n : nat) (l : list A) : list A := drop (length l - n) l.

Lemma lastn_app_lastn {A} n (l1 l2 : list A) : lastn n (lastn n l1 ++ l2) = lastn n (l1 ++ l2).
Proof.
  unfold lastn. rewrite !length_app, length_drop, !drop_app, length_drop.
  rewrite drop_drop. f_equal; f_equal; lia.
Qed.

Lemma lastn_fmap {A B} (f : A -> B) n (l : list A) : lastn n (f <$> l) = f <$> lastn n l.
Proof. unfold lastn. by rewrite length_fmap, fmap_drop. Qed.

Lemma lastn_all {A} n (l : list A) : (length l <= n)%nat -> lastn n l = l.
Proof. intros. unfold lastn. by replace (length l - n)%nat with 0%nat by lia. Qed.

Lemma ring_view_length r :
  ring_ok r -> length (rr_events r) = VAMS_RETAINED_EVENT_COUNT ->
  length (ring_view r) = Z.to_nat (rr_event_count r).
Proof.
  intros (Hh & Hc & Hf) Hl. unfold ring_view, VAMS_RETAINED_EVENT_COUNT in *.
  destruct (Z.ltb_spec (rr_event_count r) 4).
  - rewrite length_take. lia.
  - rewrite length_app, length_take, length_drop. lia.
Qed.

Definition push_event (e : vams_retained_event) (r : vams_retained_record)
    : vams_retained_record :=
  set_events (u32 (rr_event_head r + 1) mod 4)
    (if rr_event_count r <? 4 then rr_event_count r + 1 else rr_event_count r)
    (<[Z.to_nat (rr_event_head r) := e]> (rr_events r)) r.

Lemma push_event_ring e r :
  ring_ok r -> length (rr_events r) = VAMS_RETAINED_EVENT_COUNT ->
  ring_ok (push_event e r) /\ ring_view (push_event e r) = lastn 4 (ring_view r ++ [e]).
Proof.
  intros (Hh & Hc & Hf) Hl.
  destruct r as [? ? ? ? ? ? ? ? ? ? ? ? ? head count evs]; simpl in *.
  do 4 (destruct evs as [|? evs]; [discriminate Hl|]; simpl in Hl).
  destruct evs; [|discriminate Hl]. clear Hl.
  assert (head = 0 \/ head = 1 \/ head = 2 \/ head = 3) as Hhead by lia.
  assert (count = head /\ count < 4 \/ count = 4) as Hcount by lia. clear Hh Hc Hf.
  destruct Hcount as [[-> _]| ->]; destruct Hhead as [->|[->|[->| ->]]];
    (split; [vm_compute; intuition congruence|reflexivity]).
Qed.

Definition wf_event (e : vams_retained_event) : Prop :=
  is_u32 (re_event_id e) /\ is_u32 (re_command_id e) /\ is_u32 (re_generation e) /\
  is_u32 (re_timestamp_ms e).

Lemma wf_record_iff r :
  wf_record r <->
  is_u32 (rr_magic r) /\ is_u16 (rr_version r) /\ is_u16 (rr_length r) /\
  is_u32 (rr_crc32 r) /\ is_u32 (rr_boot_count r) /\ is_u32 (rr_reset_reason r) /\
  is_u32 (rr_reset_generation r) /\ is_u32 (rr_last_stuck_task r) /\
  is_u32 (rr_health_failure_count r) /\ is_u32 (rr_last_command_id r) /\
  is_u32 (rr_last_command_generation r) /\ is_u32 (rr_last_assertion r) /\
  is_u32 (rr_stack_failure r) /\ is_u32 (rr_event_head r) /\ is_u32 (rr_event_count r) /\
  Forall wf_event (rr_events r) /\ length (rr_events r) = VAMS_RETAINED_EVENT_COUNT.
Proof.
  unfold wf_record, record_fields, record_head_fields, record_tail_fields.
  change retained_layout with
    ([4%nat; 2%nat; 2%nat; 4%nat] ++ replicate 11 4%nat ++ replicate 16 4%nat).
  destruct r as [? ? ? ? ? ? ? ? ? ? ? ? ? ? ? evs]; simpl.
  rewrite !Forall2_cons_iff.
  split; intros Hr.
  - destruct Hr as [Hr Hl]. split_and!; try apply Hr; try done.
    do 15 destruct Hr as [_ Hr].
    do 4 (destruct evs as [|[] evs]; [discriminate Hl|]; simpl in Hl).
    destruct evs; [|discriminate Hl]. simpl in Hr. rewrite !Forall2_cons_iff in Hr.
    repeat constructor; simpl; apply Hr.
  - destruct Hr as (? & ? & ? & ? & ? & ? & ? & ? & ? & ? & ? & ? & ? & ? & ? & Hev & Hl).
    split; [|done]. split_and!; try done.
    do 4 (destruct evs as [|[] evs]; [discriminate Hl|]; simpl in Hl).
    destruct evs; [|discriminate Hl]. rewrite !Forall_cons in Hev. unfold wf_event in Hev.
    simpl in *. rewrite !Forall2_cons_iff. split_and!; try apply Hev. constructor.
Qed.

Lemma push_event_wf e r :
  ring_ok r -> wf_event e -> wf_record r -> wf_record (push_event e r).
Proof.
  rewrite !wf_record_iff. intros Hr He Hwf.
  destruct (push_event_ring e r Hr ltac:(apply Hwf)) as [Hr' _]. unfold ring_ok in Hr'.
  destruct Hwf as (?&?&?&?&?&?&?&?&?&?&?&?&?&?&?&?&?). unfold push_event in *. simpl in *.
  split_and!; try done; try word_lia.
  - by apply Forall_insert.
  - by rewrite length_insert.
Qed.

(** ** Updates and resets, against an abstract crash log *)

(** What post-mortem analysis reads: the task that got stuck, the number of
    health failures, the command in flight and the last events. *)
Record crash_log : Type := {
  cl_health : Z * Z;
  cl_command : Z * Z;
  cl_events : list vams_retained_event;
}.

Inductive retained_op : Type :=
| note_health (stuck_task failures : Z)
| note_command (command_id generation : Z)
| clear_command
| note_event (e : vams_retained_event).

Definition log_op (op : retained_op) (l : crash_log) : crash_log :=
  match op with
  | note_health t f => {| cl_health := (t, f); cl_command := cl_command l;
                          cl_events := cl_events l |}
  | note_command i g => {| cl_health := cl_health l; cl_command := (i, g);
                           cl_events := cl_events l |}
  | clear_command => {| cl_health := cl_health l; cl_command := (0, 0);
                        cl_events := cl_events l |}
  | note_event e => {| cl_health := cl_health l; cl_command := cl_command l;
                       cl_events := lastn 4 (cl_events l ++ [e]) |}
  end.

Definition log_ops (ops : list retained_op) (l : crash_log) : crash_log :=
  foldl (fun l op => log_op op l) l ops.

Definition op_args_ok (op : retained_op) : Prop :=
  match op with
  | note_health a b | note_command a b => is_u32 a /\ is_u32 b
  | clear_command => True
  | note_event e => wf_event e
  end.

Definition crash_view (r : vams_retained_record) : crash_log :=
  {| cl_health := (rr_last_stuck_task r, rr_health_failure_count r);
     cl_command := (rr_last_command_id r, rr_last_command_generation r);
     cl_events := ring_view r |}.

(** The record after an update, before its checksum is renewed. *)
Definition op_record (op : retained_op) (r : vams_retained_record) : vams_retained_record :=
  match op with
  | note_health t f => set_health t f r
  | note_command i g => set_command i g r
  | clear_command => set_command 0 0 r
  | note_event e => push_event e r
  end.

Lemma op_record_spec op r :
  op_args_ok op -> wf_record r -> ring_ok r ->
  wf_record (op_record op r) /\ ring_ok (op_record op r) /\
  crash_view (op_record op r) = log_op op (crash_view r) /\
  rr_boot_count (op_record op r) = rr_boot_count r /\
  (identified r -> identified (op_record op r)).
Proof.
  intros Ha Hwf Hr. destruct op as [t f|i g| |e]; simpl in *.
  1-3: rewrite wf_record_iff in *; destruct_and?; simpl; split_and!; (done || word_lia).
  destruct (push_event_ring e r Hr) as [Hr' Hv]; [apply Hwf|].
  split_and!; auto using push_event_wf. unfold crash_view. by rewrite Hv.
Qed.

Section Updates.
Context {W : Type} `{!Platform W, !Retention W} (dev : device) `{!RetentionLaws W dev}.

Definition run_op (op : retained_op) (r : vams_retained_record) (w : W)
    : result (vams_retained_record * W) :=
  match op with
  | note_health t f => vams_retained_note_health dev t f r w
  | note_command i g => vams_retained_note_command dev i g r w
  | clear_command => vams_retained_clear_command dev r w
  | note_event e => vams_retained_note_event dev (re_event_id e) (re_command_id e)
                      (re_generation e) (re_timestamp_ms e) r w
  end.

Fixpoint run_ops (ops : list retained_op) (r : vams_retained_record) (w : W)
    : result (vams_retained_record * W) :=
  match ops with
  | [] => Ok (r, w)
  | op :: ops' => '(r, w) ← run_op op r w; run_ops ops' r w
  end.

(** The static record and the retention window agree. *)
Definition synced (r : vams_retained_record) (w : W) : Prop :=
  wf_record r /\ vams_retained_validate r = true /\ ring_ok r /\ persisted w = r.

Lemma run_op_commit op r w :
  ring_ok r -> wf_record r -> run_op op r w = vams_retained_commit dev (op_record op r) w.
Proof.
  intros (Hh & _) [_ Hl]. destruct op as [t f|i g| |[i c g t]]; [done..|]. simpl.
  unfold vams_retained_note_event. rewrite Hl.
  destruct (Nat.ltb_spec (Z.to_nat (rr_event_head r)) VAMS_RETAINED_EVENT_COUNT); [done|].
  unfold VAMS_RETAINED_EVENT_COUNT in *. lia.
Qed.

Lemma crash_view_set_crc32 c r : crash_view (set_crc32 c r) = crash_view r.
Proof. done. Qed.

Lemma run_op_spec op r w :
  synced r w -> op_args_ok op ->
  exists r' w', run_op op r w = Ok (r', w') /\ synced r' w' /\
    crash_view r' = log_op op (crash_view r) /\ rr_boot_count r' = rr_boot_count r.
Proof.
  intros (Hwf & Hv & Hr & Hp) Ha. rewrite run_op_commit by done.
  destruct (op_record_spec op r Ha Hwf Hr) as (Hwf' & Hr' & Hc & Hb & Hid).
  destruct (commit_persists (op_record op r) w Hwf') as (w' & E & Hp' & Hpw & Hpv);
    [by apply Hid, validate_identified|].
  eexists _, w'. split; [exact E|]. rewrite <-Hp'. unfold synced.
  split_and!; try done; rewrite Hp'; done.
Qed.

Lemma run_ops_spec ops r w :
  synced r w -> Forall op_args_ok ops ->
  exists r' w', run_ops ops r w = Ok (r', w') /\ synced r' w' /\
    crash_view r' = log_ops ops (crash_view r) /\ rr_boot_count r' = rr_boot_count r.
Proof.
  intros Hs Ha. revert r w Hs. induction Ha as [|op ops Hop _ IH]; intros r w Hs.
  - by exists r, w.
  - destruct (run_op_spec op r w Hs Hop) as (r1 & w1 & E & Hs1 & Hc1 & Hb1).
    destruct (IH r1 w1 Hs1) as (r2 & w2 & E2 & Hs2 & Hc2 & Hb2).
    exists r2, w2. cbn [run_ops]. rewrite E. simpl. rewrite E2, Hc2, Hc1, Hb2, Hb1. done.
Qed.

(** ** Boot *)

Lemma format_wf reason gen :
  is_u32 reason -> is_u32 gen -> wf_record (vams_retained_format reason gen).
Proof.
  intros Hr Hg. apply set_crc32_wf.
  - apply retained_crc32_u32, wf_record_iff. simpl. split_and!; try (done || word_lia).
    repeat constructor; simpl; word_lia.
  - apply wf_record_iff. simpl. split_and!; try (done || word_lia).
    repeat constructor; simpl; word_lia.
Qed.

Lemma format_spec reason gen :
  vams_retained_validate (vams_retained_format reason gen) = true /\
  ring_ok (vams_retained_format reason gen) /\
  crash_view (vams_retained_format reason gen) =
    {| cl_health := (0, 0); cl_command := (0, 0); cl_events := [] |}.
Proof. split_and!; [by apply sealed_valid|done..]. Qed.

Lemma boot_formats reason gen w :
  is_u32 reason -> is_u32 gen -> vams_retained_validate (persisted w) = false ->
  exists w', vams_retained_boot dev reason gen w
               = Ok (false, vams_retained_format reason gen, w') /\
             synced (vams_retained_format reason gen) w'.
Proof.
  intros Hr Hg Hv. unfold vams_retained_boot.
  destruct (retention_read_record w) as (w1 & E1). rewrite E1.
  cbn [mbind result_bind]. fold (persisted w). rewrite Hv. cbn [negb].
  destruct (retention_write_record (vams_retained_format reason gen) w1) as (w2 & E2 & Hp);
    [by apply format_wf|]. rewrite E2. exists w2. split; [done|].
  destruct (format_spec reason gen) as (? & ? & _). unfold synced. auto using format_wf.
Qed.

Lemma boot_valid reason gen w :
  is_u32 reason -> is_u32 gen -> vams_retained_validate (persisted w) = true ->
  exists r w', vams_retained_boot dev reason gen w = Ok (true, r, w') /\
    persisted w' = r /\ wf_record r /\ vams_retained_validate r = true /\
    crash_view r = crash_view (persisted w) /\ rr_reset_reason r = reason /\
    rr_reset_generation r = gen /\
    rr_boot_count r = vams_counter_increment (rr_boot_count (persisted w)) /\
    (ring_ok (persisted w) -> ring_ok r).
Proof.
  intros Hr Hg Hv. unfold vams_retained_boot.
  destruct (retention_read_record w) as (w1 & E1). rewrite E1.
  cbn [mbind result_bind]. fold (persisted w). rewrite Hv. cbn [negb].
  pose proof (record_of_words_wf (take RETAINED_WORDS (retention w))) as Hwf.
  fold (persisted w) in Hwf.
  set (r1 := set_boot _ _ _ (persisted w)).
  assert (Hwf1 : wf_record r1).
  { rewrite wf_record_iff in *. destruct_and?. simpl. split_and!; try done.
    by apply counter_increment_range. }
  destruct (commit_persists r1 w1 Hwf1) as (w2 & E2 & Hp & Hpw & Hpv);
    [exact (validate_identified _ Hv)|].
  rewrite E2. eexists _, w2. split; [done|]. rewrite Hp in *. by split_and!.
Qed.

Lemma boot_recovers reason gen w :
  is_u32 reason -> is_u32 gen -> vams_retained_validate (persisted w) = true ->
  ring_ok (persisted w) ->
  exists r w', vams_retained_boot dev reason gen w = Ok (true, r, w') /\ synced r w' /\
    crash_view r = crash_view (persisted w) /\ rr_reset_reason r = reason /\
    rr_reset_generation r = gen /\
    rr_boot_count r = vams_counter_increment (rr_boot_count (persisted w)).
Proof.
  intros Hr Hg Hv Hring.
  destruct (boot_valid reason gen w Hr Hg Hv) as (r & w' & ? & ? & ? & ? & ? & ? & ? & ? & ?).
  exists r, w'. unfold synced. split_and!; auto.
Qed.
End Updates.

(** ** Properties *)

Section Properties.
Context {W : Type} `{RetentionLaws W dev}.

(** C24: the crash log survives a reset.  From a record that is valid, equal
    to the window's content and has its ring indices in range ([synced]; the
    boot after a formatting establishes it, and every conclusion of this
    theorem again), any sequence of updates runs without an assertion failure
    or an out-of-bounds event slot.  Whatever a reset then does to the world,
    as long as it leaves the window alone, the boot that follows finds a valid
    record whose stuck task, failure count, in-flight command and last four events
    are exactly those of the abstract log after the sequence, with the boot
    counter incremented (saturating) and the new reset identity stored. *)
Theorem crash_log_survives_reset (ops : list retained_op) (reason gen : Z)
    (r : vams_retained_record) (w : W)
    (Hsync : synced r w) (Hargs : Forall op_args_ok ops)
    (Hreason : is_u32 reason) (Hgen : is_u32 gen) :
  exists r1 w1,
    run_ops dev ops r w = Ok (r1, w1) /\
    forall w', retention w' = retention w1 ->
    exists r2 w2,
      vams_retained_boot dev reason gen w' = Ok (true, r2, w2) /\ synced r2 w2 /\
      crash_view r2 = log_ops ops (crash_view r) /\
      rr_reset_reason r2 = reason /\ rr_reset_generation r2 = gen /\
      rr_boot_count r2 = Z.min U32_MAX (rr_boot_count r + 1).
Proof.
  destruct (run_ops_spec dev ops r w Hsync Hargs) as (r1 & w1 & E1 & Hs1 & Hc1 & Hb1).
  destruct Hs1 as (Hwf1 & Hv1 & Hr1 & Hp1). exists r1, w1. split; [exact E1|].
  intros w' Hw'. assert (Hp' : persisted w' = r1) by (unfold persisted; by rewrite Hw').
  destruct (boot_recovers dev reason gen w') as (r2 & w2 & E2 & Hs2 & Hc2 & Hrr & Hrg & Hb2);
    [done..|by rewrite Hp'|by rewrite Hp'|].
  rewrite Hp' in *. exists r2, w2. split_and!; try done.
  - congruence.
  - rewrite Hb2, Hb1, counter_increment_min; [done|].
    rewrite <-Hb1. apply wf_record_iff in Hwf1. tauto.
Qed.

(** C25: boot never trusts a bad record and never fails on one: whatever the
    window holds, boot returns the validation verdict on it; on a bad record
    the retained record is freshly formatted (boot count 1, empty log), and
    in both cases memory and window end equal, well-formed and valid. *)
Theorem boot_validates_window (reason gen : Z) (w : W)
    (Hreason : is_u32 reason) (Hgen : is_u32 gen) :
  exists r w',
    vams_retained_boot dev reason gen w = Ok (vams_retained_validate (persisted w), r, w') /\
    persisted w' = r /\ wf_record r /\ vams_retained_validate r = true /\
    (vams_retained_validate (persisted w) = false ->
       rr_boot_count r = 1 /\ ring_ok r /\
       crash_view r = {| cl_health := (0, 0); cl_command := (0, 0); cl_events := [] |}) /\
    (vams_retained_validate (persisted w) = true ->
       rr_boot_count r = vams_counter_increment (rr_boot_count (persisted w)) /\
       crash_view r = crash_view (persisted w)).
Proof.
  destruct (vams_retained_validate (persisted w)) eqn:Hv.
  - destruct (boot_valid dev reason gen w) as (r & w' & E & Hp & Hwf & Hvr & Hc & _ & _ & Hb & _);
      [done..|]. exists r, w'. split_and!; auto; discriminate.
  - destruct (boot_formats dev reason gen w) as (w' & E & Hwf & Hvf & Hr & Hp); [done..|].
    eexists _, w'. split; [exact E|].
    destruct (format_spec reason gen) as (_ & _ & ?). split_and!; auto; discriminate.
Qed.
End Properties.

(** ** Witnesses *)

Definition zero_record : vams_retained_record :=
  Build_vams_retained_record 0 0 0 0 0 0 0 0 0 0 0 0 0 0 0
    (replicate VAMS_RETAINED_EVENT_COUNT zero_event).
Definition sample_record : vams_retained_record := vams_retained_format 4 9.

Lemma retained_detects_word_corruption_witness :
  vams_retained_validate (record_of_words (<[5%nat := 7]> (record_words sample_record))) = false.
Proof.
  apply (retained_detects_word_corruption sample_record 5 7).
  - apply format_wf; word_lia.
  - apply format_spec.
  - unfold RETAINED_WORDS. lia.
  - word_lia.
  - vm_compute. discriminate.
Defined.

Definition sample_device : device := {| dev_ready := true; dev_base := 0x10002000 |}.
Definition blank_world : sim_world := {| sim_regs := ∅; sim_time := 0; sim_tick := 0 |}.
Definition sample_delay (n : nat) : nat := 1.

(** The world after the first boot on a blank window. *)
Definition formatted_world : sim_world :=
  match @vams_retained_boot _ (quiet_platform sample_delay) sample_device 4 9 blank_world with
  | Ok (_, _, w) => w
  | Fault => blank_world
  end.

Lemma crash_log_survives_reset_witness :
  exists r1 w1 r2 w2,
    @run_ops _ (quiet_platform sample_delay) sample_device
      [note_command 17 9; note_health 4 1;
       note_event (Build_vams_retained_event 12 0 9 500)] sample_record formatted_world
      = Ok (r1, w1) /\
    @vams_retained_boot _ (quiet_platform sample_delay) sample_device 5 10 w1
      = Ok (true, r2, w2) /\
    crash_view r2 = {| cl_health := (4, 1); cl_command := (17, 9);
                       cl_events := [Build_vams_retained_event 12 0 9 500] |} /\
    rr_boot_count r2 = 2.
Proof.
  destruct (@crash_log_survives_reset _ (quiet_platform sample_delay)
              (sim_retention sample_delay quiet_hw sample_device) sample_device
              (sim_retention_laws sample_delay quiet_hw sample_device (quiet_window sample_device))
              [note_command 17 9; note_health 4 1;
               note_event (Build_vams_retained_event 12 0 9 500)] 5 10
              sample_record formatted_world)
    as (r1 & w1 & E1 & Hboot).
  - split; [apply format_wf; word_lia|]. split; [apply format_spec|].
    split; [apply format_spec|]. vm_compute. reflexivity.
  - repeat constructor; simpl; word_lia.
  - word_lia.
  - word_lia.
  - destruct (Hboot w1 eq_refl) as (r2 & w2 & E2 & _ & Hc & _ & _ & Hb).
    exists r1, w1, r2, w2. split; [exact E1|]. split; [exact E2|]. by rewrite Hc, Hb.
Defined.

Lemma boot_validates_window_witness :
  exists r w', @vams_retained_boot _ (quiet_platform sample_delay) sample_device 0 0 blank_world
    = Ok (false, r, w') /\ rr_boot_count r = 1.
Proof.
  destruct (@boot_validates_window _ (quiet_platform sample_delay)
              (sim_retention sample_delay quiet_hw sample_device) sample_device
              (sim_retention_laws sample_delay quiet_hw sample_device (quiet_window sample_device)) 0 0 blank_world)
    as (r & w' & E & _ & _ & _ & Hb & _); [word_lia..|].
  exists r, w'. split; [exact E|]. apply Hb. vm_compute. reflexivity.
Defined.
