(* ===== verification/Health.v ===== *)
(** * Task health tracker (firmware/src/health/vams_health.c)

    The tracker compares the progress epochs of the eight monitored tasks with
    the previous sample and declares the first task without progress for
    [miss_limit] samples stuck.  The theorems relate it to the history of
    samples it was given. *)

From S2P Require Import Prelude Overload.

(** ** Data *)

Definition VAMS_HEALTH_TASK_NONE : Z := 0.
Definition VAMS_HEALTH_TASK_PRODUCER : Z := 1.
Definition VAMS_HEALTH_TASK_MONITOR : Z := 2.
Definition VAMS_HEALTH_TASK_MAILBOX : Z := 3.
Definition VAMS_HEALTH_TASK_RECEIVER : Z := 4.
Definition VAMS_HEALTH_TASK_VALIDATOR : Z := 5.
Definition VAMS_HEALTH_TASK_SCHEDULER : Z := 6.
Definition VAMS_HEALTH_TASK_RECOVERY : Z := 7.
Definition VAMS_HEALTH_TASK_COMPLETION : Z := 8.
Definition VAMS_HEALTH_TASK_COUNT : nat := 8.

Record vams_health_tracker : Type := {
  ht_last_epoch : list Z;          (* uint32_t[VAMS_HEALTH_TASK_COUNT] *)
  ht_missed : list Z;              (* uint32_t[VAMS_HEALTH_TASK_COUNT] *)
  ht_failure_count : Z;
  ht_stuck_task : Z;
  ht_startup_grace : Z;
  ht_miss_limit : Z;
  ht_failure_latched : bool;
}.

(** ** Operations *)

Definition vams_health_tracker_init (epochs : list Z) (startup_grace miss_limit : Z)
    : vams_health_tracker :=
  {| ht_last_epoch := epochs;
     ht_missed := replicate VAMS_HEALTH_TASK_COUNT 0;
     ht_failure_count := 0;
     ht_stuck_task := 0;
     ht_startup_grace := startup_grace;
     ht_miss_limit := miss_limit;
     ht_failure_latched := false |}.

(** The loop [for (index = 0; index < VAMS_HEALTH_TASK_COUNT; index++)] from
    [index] on: the rest of [last_epoch] and [missed], and [stuck_task]. *)
Fixpoint health_scan (index miss_limit : Z) (epochs last_epoch missed : list Z) (stuck_task : Z)
    : list Z * list Z * Z :=
  match epochs, last_epoch, missed with
  | e :: epochs', l :: last', m :: missed' =>
      if negb (e =? l) then
        let '(ls, ms, st) :=
          health_scan (index + 1) miss_limit epochs' last' missed' stuck_task in
        (e :: ls, 0 :: ms, st)
      else
        let m := vams_counter_increment m in
        let stuck_task :=
          if (stuck_task =? VAMS_HEALTH_TASK_NONE) && (miss_limit <=? m)
          then index + 1 else stuck_task in
        let '(ls, ms, st) :=
          health_scan (index + 1) miss_limit epochs' last' missed' stuck_task in
        (l :: ls, m :: ms, st)
  | _, _, _ => (last_epoch, missed, stuck_task)
  end.

Definition vams_health_tracker_update (t : vams_health_tracker) (epochs : list Z)
    : bool * vams_health_tracker :=
  if 0 <? ht_startup_grace t then
    (true,
     {| ht_last_epoch := epochs; ht_missed := ht_missed t;
        ht_failure_count := ht_failure_count t; ht_stuck_task := ht_stuck_task t;
        ht_startup_grace := ht_startup_grace t - 1; ht_miss_limit := ht_miss_limit t;
        ht_failure_latched := ht_failure_latched t |})
  else
    let '(last_epoch, missed, stuck_task) :=
      health_scan 0 (ht_miss_limit t) epochs (ht_last_epoch t) (ht_missed t)
        VAMS_HEALTH_TASK_NONE in
    let next failure_count failure_latched :=
      {| ht_last_epoch := last_epoch; ht_missed := missed;
         ht_failure_count := failure_count; ht_stuck_task := stuck_task;
         ht_startup_grace := ht_startup_grace t; ht_miss_limit := ht_miss_limit t;
         ht_failure_latched := failure_latched |} in
    if stuck_task =? VAMS_HEALTH_TASK_NONE then (true, next (ht_failure_count t) false)
    else if negb (ht_failure_latched t) then
      (false, next (vams_counter_increment (ht_failure_count t)) true)
    else (false, next (ht_failure_count t) (ht_failure_latched t)).

(** ** Specification over the history of samples *)

(** For one task, newest sample first: how many of the latest samples in a row
    showed no progress. *)
Fixpoint stall_of (h : list Z) : Z :=
  match h with
  | x :: ((y :: _) as t) => if x =? y then stall_of t + 1 else 0
  | _ => 0
  end.

(** The samples of task [i], and the stalls of all the tasks. *)
Definition column (i : nat) (hist : list (list Z)) : list Z := (fun v => v !!! i) <$> hist.
Definition stalls (hist : list (list Z)) : list Z :=
  (fun i => stall_of (column i hist)) <$> seq 0 VAMS_HEALTH_TASK_COUNT.

(** The first task that is stalled for at least [limit] samples, from 1;
    0 when there is none. *)
Fixpoint first_stuck (index limit : Z) (ss : list Z) : Z :=
  match ss with
  | [] => VAMS_HEALTH_TASK_NONE
  | s :: ss' => if (1 <=? s) && (limit <=? s) then index + 1
                else first_stuck (index + 1) limit ss'
  end.

(** The samples the verdict is based on: the startup grace replaces the
    baseline instead of judging; newest first. *)
Definition observed (grace : nat) (e0 : list Z) (es : list (list Z)) : list (list Z) :=
  reverse (drop (grace `min` length es)%nat (e0 :: es)).

(** A whole run: the verdicts, oldest first, and the final tracker. *)
Fixpoint health_run (t : vams_health_tracker) (es : list (list Z))
    : list bool * vams_health_tracker :=
  match es with
  | [] => ([], t)
  | e :: es' =>
      let '(v, t) := vams_health_tracker_update t e in
      let '(vs, t) := health_run t es' in (v :: vs, t)
  end.

(** Verdicts that start a failure episode. *)
Fixpoint episodes (healthy : bool) (vs : list bool) : Z :=
  match vs with
  | [] => 0
  | v :: vs' => (if healthy && negb v then 1 else 0) + episodes v vs'
  end.

(** ** Lemmas *)

Definition next_stalls (epochs last ss : list Z) : list Z :=
  zip_with (fun p s => if p.1 =? p.2 then s + 1 else 0) (zip epochs last) ss.

Definition sat (s : Z) : Z := Z.min U32_MAX s.

Lemma sat_increment s : 0 <= s -> vams_counter_increment (sat s) = sat (s + 1).
Proof.
  intros Hs. unfold sat. rewrite counter_increment_min by word_lia. word_lia.
Qed.

Lemma sat_limit limit s : is_u32 limit -> (limit <=? sat s) = (limit <=? s).
Proof. intros Hl. unfold sat. destruct (Z.leb_spec limit s), (Z.leb_spec limit (Z.min U32_MAX s)); word_lia. Qed.

Lemma health_scan_spec limit epochs last ss index stuck :
  is_u32 limit -> 0 <= index -> Forall (fun s => 0 <= s) ss ->
  length last = length epochs -> length ss = length epochs ->
  health_scan index limit epochs last (sat <$> ss) stuck =
  (epochs, sat <$> next_stalls epochs last ss,
   if stuck =? 0 then first_stuck index limit (next_stalls epochs last ss) else stuck).
Proof.
  intros Hlim. revert last ss index stuck.
  induction epochs as [|e epochs IH]; intros [|l last] [|s ss] index stuck Hi Hss Hl1 Hl2;
    simplify_eq/=; [by destruct (Z.eqb_spec stuck 0) as [->|]|].
  apply Forall_cons in Hss as [Hs Hss]. unfold next_stalls. cbn [zip_with fst snd fmap list_fmap].
  fold (next_stalls epochs last ss).
  destruct (Z.eqb_spec e l) as [->|Hne]; cbn [negb].
  - rewrite sat_increment, sat_limit, IH by (done || lia).
    replace (1 <=? s + 1) with true by lia. cbn [andb].
    unfold VAMS_HEALTH_TASK_NONE in *.
    destruct (Z.eqb_spec stuck 0) as [->|]; simpl.
    + destruct (limit <=? s + 1); [|done].
      by replace (index + 1 =? 0) with false by lia.
    + by replace (stuck =? 0) with false by lia.
  - rewrite IH by (done || lia). done.
Qed.

Definition sample (v : list Z) : Prop := length v = VAMS_HEALTH_TASK_COUNT.

Lemma stall_of_nonneg h : 0 <= stall_of h.
Proof.
  induction h as [|x [|y t] IH]; [done..|]. cbn [stall_of] in *.
  destruct (x =? y); lia.
Qed.

Lemma stalls_nonneg hist : Forall (fun s => 0 <= s) (stalls hist).
Proof. apply Forall_fmap, Forall_true. intros i. apply stall_of_nonneg. Qed.

Lemma stalls_length hist : length (stalls hist) = VAMS_HEALTH_TASK_COUNT.
Proof. unfold stalls. by rewrite length_fmap, length_seq. Qed.

Lemma stalls_cons e h hist :
  sample e -> sample h -> stalls (e :: h :: hist) = next_stalls e h (stalls (h :: hist)).
Proof.
  intros He Hh. unfold next_stalls, sample in *. apply list_eq. intros i.
  rewrite lookup_zip_with. unfold stalls at 1. rewrite list_lookup_fmap.
  destruct (decide (i < VAMS_HEALTH_TASK_COUNT)%nat) as [Hi|Hi].
  - destruct (lookup_lt_is_Some_2 e i ltac:(lia)) as [x Hx].
    destruct (lookup_lt_is_Some_2 h i ltac:(lia)) as [y Hy].
    rewrite lookup_zip_with, Hx, Hy. unfold stalls. rewrite list_lookup_fmap.
    rewrite lookup_seq_lt by done. simpl. f_equal.
    by rewrite (list_lookup_total_correct _ _ _ Hx), (list_lookup_total_correct _ _ _ Hy).
  - rewrite lookup_seq_ge by lia. rewrite lookup_zip_with.
    by rewrite (lookup_ge_None_2 e i) by lia.
Qed.

Lemma stalls_single e : stalls [e] = replicate VAMS_HEALTH_TASK_COUNT 0.
Proof. done. Qed.

Lemma health_run_snoc t es e :
  health_run t (es ++ [e]) =
  (let '(vs, t1) := health_run t es in
   let '(v, t2) := vams_health_tracker_update t1 e in (vs ++ [v], t2)).
Proof.
  revert t; induction es as [|e1 es IH]; intros t; simpl.
  - by destruct (vams_health_tracker_update t e).
  - destruct (vams_health_tracker_update t e1) as [v1 t1]. rewrite IH.
    destruct (health_run t1 es) as [vs t2].
    by destruct (vams_health_tracker_update t2 e).
Qed.

Lemma observed_snoc grace e0 es e :
  observed grace e0 (es ++ [e]) =
  if (length es <? grace)%nat then [e] else e :: observed grace e0 es.
Proof.
  unfold observed. rewrite length_app. cbn [length].
  change (e0 :: es ++ [e]) with ((e0 :: es) ++ [e]).
  destruct (Nat.ltb_spec (length es) grace).
  - replace (grace `min` (length es + 1))%nat with (length (e0 :: es)) by (simpl; lia).
    by rewrite drop_app_length.
  - replace (grace `min` (length es + 1))%nat with grace by lia.
    replace (grace `min` length es)%nat with grace by lia.
    rewrite drop_app_le by (simpl; lia). by rewrite reverse_snoc.
Qed.

Lemma observed_cons grace e0 es :
  exists h rest, observed grace e0 es = h :: rest /\ h ∈ e0 :: es.
Proof.
  induction es as [|e es _] using rev_ind.
  - exists e0, []. unfold observed. rewrite Nat.min_0_r. split; [done|by left].
  - rewrite observed_snoc. destruct (length es <? grace)%nat; eexists e, _;
      (split; [done|]); set_solver.
Qed.

Lemma episodes_snoc h vs v :
  episodes h (vs ++ [v]) =
  episodes h vs + (if default h (last vs) && negb v then 1 else 0).
Proof.
  revert h; induction vs as [|v1 vs IH]; intros h; cbn [episodes app].
  - simpl. lia.
  - rewrite IH, last_cons. destruct (last vs); simpl; lia.
Qed.

Lemma episodes_nonneg h vs : 0 <= episodes h vs.
Proof. revert h; induction vs as [|v vs IH]; intros h; simpl; [done|]. specialize (IH v). destruct (h && negb v); lia. Qed.

(** What the tracker knows after the samples of [hist] and the verdicts [vs]. *)
Record tracks (limit grace : Z) (hist : list (list Z)) (vs : list bool)
    (t : vams_health_tracker) : Prop := {
  tk_last : head hist = Some (ht_last_epoch t);
  tk_missed : ht_missed t = sat <$> stalls hist;
  tk_failures : ht_failure_count t = sat (episodes true vs);
  tk_stuck : ht_stuck_task t = first_stuck 0 limit (stalls hist);
  tk_grace : ht_startup_grace t = grace;
  tk_limit : ht_miss_limit t = limit;
  tk_latched : ht_failure_latched t = negb (default true (last vs));
}.

Definition verdict (limit : Z) (hist : list (list Z)) : bool :=
  first_stuck 0 limit (stalls hist) =? VAMS_HEALTH_TASK_NONE.

Lemma first_stuck_zeros limit n i : first_stuck i limit (replicate n 0) = VAMS_HEALTH_TASK_NONE.
Proof. revert i; induction n; intros; simpl; auto. Qed.

Lemma update_grace_tracks limit grace hist vs t e :
  0 < grace -> stalls hist = stalls [e] -> default true (last vs) = true ->
  tracks limit grace hist vs t ->
  exists t', vams_health_tracker_update t e = (verdict limit [e], t') /\
    tracks limit (grace - 1) [e] (vs ++ [verdict limit [e]]) t'.
Proof.
  intros Hg Hs Hl [Hla Hm Hf Hst Hgr Hli Hlt]. unfold vams_health_tracker_update.
  rewrite Hgr. replace (0 <? grace) with true by lia.
  assert (verdict limit [e] = true) as ->.
  { unfold verdict. by rewrite stalls_single, first_stuck_zeros. }
  eexists; split; [done|]. split; simpl; try done.
  - by rewrite Hm, Hs.
  - by rewrite Hf, episodes_snoc, andb_false_r, Z.add_0_r.
  - by rewrite Hst, Hs.
  - by rewrite last_snoc, Hlt, Hl.
Qed.

Lemma update_tracks limit h hist vs t e :
  is_u32 limit -> sample e -> sample h -> tracks limit 0 (h :: hist) vs t ->
  exists t', vams_health_tracker_update t e = (verdict limit (e :: h :: hist), t') /\
    tracks limit 0 (e :: h :: hist) (vs ++ [verdict limit (e :: h :: hist)]) t'.
Proof.
  intros Hlim He Hh [Hla Hm Hf Hst Hgr Hli Hlt]. simpl in Hla. injection Hla as Hla.
  unfold vams_health_tracker_update. rewrite Hgr, Hli, Hm, <-Hla. cbn [Z.ltb Z.compare].
  rewrite health_scan_spec by (auto using stalls_nonneg; unfold sample in *;
    rewrite ?stalls_length; (lia || word_lia)).
  rewrite <-stalls_cons by done. change (VAMS_HEALTH_TASK_NONE =? 0) with true. cbv iota.
  fold (verdict limit (e :: h :: hist)).
  destruct (verdict limit (e :: h :: hist)) eqn:Ev;
    [|destruct (ht_failure_latched t) eqn:El]; cbn [negb];
    (eexists; split; [done|]; split; simpl; try done);
    rewrite ?episodes_snoc, ?last_snoc, ?andb_false_r, ?Z.add_0_r; try done.
  - rewrite Hf. destruct (default true (last vs)); [done|].
    simpl. by rewrite Z.add_0_r.
  - rewrite Hf, sat_increment by apply episodes_nonneg.
    by destruct (default true (last vs)).
Qed.

(** The verdicts of a run, oldest first. *)
Definition verdicts (limit : Z) (grace : nat) (e0 : list Z) (es : list (list Z)) : list bool :=
  (fun k => verdict limit (observed grace e0 (take (S k) es))) <$> seq 0 (length es).

Lemma verdicts_snoc limit grace e0 es e :
  verdicts limit grace e0 (es ++ [e]) =
  verdicts limit grace e0 es ++ [verdict limit (observed grace e0 (es ++ [e]))].
Proof.
  unfold verdicts. rewrite length_app, seq_app, fmap_app. simpl. f_equal.
  - apply list_fmap_ext. intros j k Hk. apply list_elem_of_lookup_2, elem_of_seq in Hk.
    by rewrite take_app_le by lia.
  - by rewrite take_ge by (rewrite length_app; simpl; lia).
Qed.

(** While the grace lasts there is nothing to judge. *)
Lemma observed_grace grace e0 es :
  (length es <= grace)%nat -> exists e, observed grace e0 es = [e].
Proof.
  destruct es as [|e es _] using rev_ind; intros Hl.
  - exists e0. unfold observed. by rewrite Nat.min_0_r.
  - rewrite length_app in Hl. simpl in Hl. exists e. rewrite observed_snoc.
    by destruct (Nat.ltb_spec (length es) grace); [|lia].
Qed.

Lemma verdict_single limit e : verdict limit [e] = true.
Proof. unfold verdict. by rewrite stalls_single, first_stuck_zeros. Qed.

Lemma verdicts_last_grace limit grace e0 es :
  (length es <= grace)%nat -> default true (last (verdicts limit grace e0 es)) = true.
Proof.
  intros Hl. destruct es as [|e es _] using rev_ind; [done|].
  rewrite verdicts_snoc, last_snoc. simpl.
  destruct (observed_grace grace e0 (es ++ [e]) Hl) as [e' ->]. apply verdict_single.
Qed.

Lemma health_run_tracks e0 grace limit es :
  is_u32 limit -> sample e0 -> Forall sample es ->
  exists t, health_run (vams_health_tracker_init e0 (Z.of_nat grace) limit) es
            = (verdicts limit grace e0 es, t) /\
    tracks limit (Z.of_nat (grace - length es)) (observed grace e0 es)
      (verdicts limit grace e0 es) t.
Proof.
  intros Hlim H0 Hes. induction es as [|e es IH] using rev_ind.
  - eexists; split; [done|]. unfold observed. rewrite Nat.min_0_r.
    split; try done; simpl; try by rewrite Nat.sub_0_r.
  - apply Forall_app in Hes as [Hes He]. apply Forall_cons in He as [He _].
    destruct (IH Hes) as (t & E & Ht). rewrite health_run_snoc, E, verdicts_snoc.
    rewrite observed_snoc, length_app. cbn [length].
    destruct (Nat.ltb_spec (length es) grace) as [Hlt|Hge].
    + destruct (observed_grace grace e0 es ltac:(lia)) as [e' Eo].
      destruct (update_grace_tracks limit (Z.of_nat (grace - length es)) (observed grace e0 es)
                  (verdicts limit grace e0 es) t e) as (t' & E' & Ht');
        [lia|by rewrite Eo|apply verdicts_last_grace; lia|done|].
      rewrite E'. exists t'. split; [done|].
      by replace (Z.of_nat (grace - (length es + 1))) with (Z.of_nat (grace - length es) - 1) by lia.
    + destruct (observed_cons grace e0 es) as (h & rest & Eo & Hin). rewrite Eo in *.
      assert (sample h).
      { apply elem_of_cons in Hin as [->|Hin]; [done|]. by eapply Forall_forall in Hes. }
      replace (Z.of_nat (grace - length es)) with 0 in Ht by lia.
      destruct (update_tracks limit h rest (verdicts limit grace e0 es) t e)
        as (t' & E' & Ht'); [done..|].
      rewrite E'. exists t'. split; [done|].
      by replace (Z.of_nat (grace - (length es + 1))) with 0 by lia.
Qed.

Lemma first_stuck_bound limit ss index i s :
  0 <= index -> ss !! i = Some s -> 1 <= s -> limit <= s ->
  index < first_stuck index limit ss <= index + Z.of_nat i + 1.
Proof.
  revert index i. induction ss as [|s1 ss IH]; intros index i Hi Hs H1 H2; [done|].
  simpl. destruct ((1 <=? s1) && (limit <=? s1)) eqn:E; [lia|].
  destruct i as [|i]; simplify_eq/=; [exfalso; lia|].
  specialize (IH (index + 1) i ltac:(lia) Hs H1 H2). lia.
Qed.

Lemma stalls_lookup hist i :
  (i < VAMS_HEALTH_TASK_COUNT)%nat -> stalls hist !! i = Some (stall_of (column i hist)).
Proof. intros Hi. unfold stalls. by rewrite list_lookup_fmap, lookup_seq_lt by done. Qed.

(** Three equal samples in a row, after the grace. *)
Lemma stalled_first_stuck e0 s1 s2 s3 es i :
  (1 <= length es)%nat -> (i < VAMS_HEALTH_TASK_COUNT)%nat ->
  s2 !!! i = s1 !!! i -> s3 !!! i = s2 !!! i ->
  1 <= first_stuck 0 2 (stalls (observed 2 e0 (es ++ [s1; s2; s3]))) <= Z.of_nat i + 1.
Proof.
  intros Hgrace Hi H12 H23.
  assert (observed 2 e0 (es ++ [s1; s2; s3]) = s3 :: s2 :: observed 2 e0 (es ++ [s1])) as ->.
  { change [s1; s2; s3] with ([s1] ++ [s2] ++ [s3]). rewrite !app_assoc, !observed_snoc.
    rewrite !length_app. cbn [length].
    repeat match goal with |- context [(?a <? 2)%nat] =>
      destruct (Nat.ltb_spec a 2); [exfalso; lia|] end. done. }
  destruct (observed_cons 2 e0 (es ++ [s1])) as (h & rest & Eh & _).
  assert (h = s1) as ->.
  { rewrite observed_snoc in Eh. destruct (length es <? 2)%nat; by simplify_eq. }
  rewrite Eh.
  pose proof (first_stuck_bound 2 (stalls (s3 :: s2 :: s1 :: rest)) 0 i _ ltac:(lia)
                (stalls_lookup _ i Hi)) as Hb.
  pose proof (stall_of_nonneg (column i (s1 :: rest))) as Hn.
  cbn [column fmap list_fmap stall_of] in Hb, Hn. rewrite H23, H12, Z.eqb_refl in Hb.
  fold (column i rest) in Hb, Hn. specialize (Hb ltac:(lia) ltac:(lia)). lia.
Qed.

Lemma stalled_verdict e0 s1 s2 s3 es i :
  (1 <= length es)%nat -> (i < VAMS_HEALTH_TASK_COUNT)%nat ->
  s2 !!! i = s1 !!! i -> s3 !!! i = s2 !!! i ->
  verdict 2 (observed 2 e0 (es ++ [s1; s2; s3])) = false.
Proof.
  intros. unfold verdict, VAMS_HEALTH_TASK_NONE.
  pose proof (stalled_first_stuck e0 s1 s2 s3 es i). apply Z.eqb_neq. intuition lia.
Qed.

(** ** Properties *)

(** C28: the tracker implements its history specification.  On any sequence of
    samples, every verdict is "healthy" exactly when no task's latest
    [miss_limit] samples (after the startup grace) showed no progress; the
    reported task is the first such task; the per-task miss counters are the
    lengths of the current stalls; and the failure counter is the number of
    failure episodes, counted once each; counters saturate at 32 bits. *)
Theorem health_tracker_refines_history (e0 : list Z) (es : list (list Z)) (grace : nat)
    (limit : Z) (Hlimit : is_u32 limit) (H0 : sample e0) (Hes : Forall sample es) :
  exists t,
    health_run (vams_health_tracker_init e0 (Z.of_nat grace) limit) es
      = (verdicts limit grace e0 es, t) /\
    ht_stuck_task t = first_stuck 0 limit (stalls (observed grace e0 es)) /\
    ht_missed t = sat <$> stalls (observed grace e0 es) /\
    ht_failure_count t = sat (episodes true (verdicts limit grace e0 es)).
Proof.
  destruct (health_run_tracks e0 grace limit es) as (t & E & [? ? ? ? ? ? ?]); [done..|].
  by exists t.
Qed.

(** Detection latency with the firmware's parameters (grace 2, limit 2).
    Once the grace is over, a task whose epoch is the same in three samples in
    a row makes the third verdict "unhealthy", with that task or an earlier
    one reported stuck, whatever the other tasks do. *)
Theorem stopped_task_is_reported (e0 s1 s2 s3 : list Z) (es : list (list Z)) (i : nat)
    (H0 : sample e0) (Hes : Forall sample (es ++ [s1; s2; s3]))
    (Hgrace : (1 <= length es)%nat) (Hi : (i < VAMS_HEALTH_TASK_COUNT)%nat)
    (H12 : s2 !!! i = s1 !!! i) (H23 : s3 !!! i = s2 !!! i) :
  exists vs t,
    health_run (vams_health_tracker_init e0 2 2) (es ++ [s1; s2; s3]) = (vs ++ [false], t) /\
    1 <= ht_stuck_task t <= Z.of_nat i + 1.
Proof.
  destruct (health_run_tracks e0 2 2 (es ++ [s1; s2; s3])) as (t & E & Ht); [word_lia|done..|].
  pose proof (stalled_first_stuck e0 s1 s2 s3 es i Hgrace Hi H12 H23) as Hb.
  destruct Ht as [_ _ _ Hst _ _ _].
  eexists _, t. split; [|rewrite Hst; exact Hb]. change 2 with (Z.of_nat 2) at 1. rewrite E. f_equal.
  change [s1; s2; s3] with ([s1; s2] ++ [s3]). rewrite app_assoc, verdicts_snoc, <-app_assoc.
  cbn [app]. do 2 f_equal. by apply (stalled_verdict e0 s1 s2 s3 es i).
Qed.

(** ** Witnesses *)

Definition epochs_at (n : Z) : list Z := replicate 8 n.
(** Task 4 (the receiver) stops after epoch 3. *)
Definition stopped_receiver (n : Z) : list Z := <[3%nat := 3]> (epochs_at n).

Lemma health_tracker_refines_history_witness :
  exists t, health_run (vams_health_tracker_init (epochs_at 0) (Z.of_nat 2) 2)
              [epochs_at 1; epochs_at 2; epochs_at 3; stopped_receiver 4; stopped_receiver 5]
            = ([true; true; true; true; false], t) /\
    ht_stuck_task t = 4 /\ ht_failure_count t = 1.
Proof.
  destruct (health_tracker_refines_history (epochs_at 0)
              [epochs_at 1; epochs_at 2; epochs_at 3; stopped_receiver 4; stopped_receiver 5]
              2 2) as (t & E & Hs & _ & Hf); [word_lia|done|by repeat constructor|].
  exists t. by rewrite E, Hs, Hf.
Defined.

Lemma stopped_task_is_reported_witness :
  exists vs t, health_run (vams_health_tracker_init (epochs_at 0) 2 2)
                 ([epochs_at 1; epochs_at 2] ++
                  [epochs_at 3; stopped_receiver 4; stopped_receiver 5]) = (vs ++ [false], t) /\
    1 <= ht_stuck_task t <= Z.of_nat 3 + 1.
Proof.
  apply (stopped_task_is_reported (epochs_at 0) (epochs_at 3) (stopped_receiver 4)
           (stopped_receiver 5) [epochs_at 1; epochs_at 2] 3).
  - done.
  - by repeat constructor.
  - simpl; lia.
  - unfold VAMS_HEALTH_TASK_COUNT; lia.
  - done.
  - done.
Defined.
