(* ===== verification/Event.v ===== *)
(** * Deferred event log (firmware/src/logging/vams_event.c)

    Every task reports through [vams_event_emit]: the event goes to the crash
    record first and then, if there is room, to a queue of 32 events that a
    low-priority logger drains.  [log_env] is the part of the firmware state
    every emitting task touches. *)

From S2P Require Import Prelude Overload Platform Management Retained.

(** ** Data *)

Definition VAMS_EVENT_TRANSITION : Z := 1.
Definition VAMS_EVENT_PUBLISHED : Z := 2.
Definition VAMS_EVENT_HEARTBEAT : Z := 3.
Definition VAMS_EVENT_MAILBOX : Z := 4.
Definition VAMS_EVENT_ABORT_REQUEST : Z := 5.
Definition VAMS_EVENT_ABORT_ESCALATED : Z := 6.
Definition VAMS_EVENT_RESULT_MISMATCH : Z := 7.
Definition VAMS_EVENT_COMMAND_COMPLETE : Z := 8.
Definition VAMS_EVENT_TELEMETRY : Z := 9.
Definition VAMS_EVENT_WATCHDOG_WITHHELD : Z := 10.
Definition VAMS_EVENT_OVERLOAD_TEST : Z := 11.
Definition VAMS_EVENT_HEALTH_STUCK : Z := 12.
Definition VAMS_EVENT_QUEUE_DEPTH : nat := 32.

Record vams_event : Type := {
  ev_timestamp_ms : Z;
  ev_value : Z;
  ev_command_id : Z;
  ev_generation : Z;
  ev_arg0 : Z;
  ev_arg1 : Z;
  ev_arg2 : Z;
  ev_id : Z;
  ev_reserved : Z;
}.

#[export] Instance vams_event_eq_dec : EqDecision vams_event.
Proof. solve_decision. Defined.

(** The devices and clock, the static [retained_record], [vams_event_queue]
    and [event_drop_count]. *)
Record log_env (W : Type) (Q : Type -> Type) : Type := {
  le_world : W;
  le_retained : vams_retained_record;
  le_queue : Q vams_event;
  le_drops : Z;
}.
Arguments Build_log_env {W Q}.
Arguments le_world {W Q}.
Arguments le_retained {W Q}.
Arguments le_queue {W Q}.
Arguments le_drops {W Q}.

Section Event.
Context {W : Type} {Q : Type -> Type} `{!Platform W, !Msgq Q} (management : device).

(** ** Operations *)

Definition with_world (w : W) (env : log_env W Q) : log_env W Q :=
  Build_log_env w (le_retained env) (le_queue env) (le_drops env).

Definition vams_event_emit (id command_id generation arg0 arg1 arg2 value : Z)
    (env : log_env W Q) : result (log_env W Q) :=
  let '(now, w) := k_uptime_get (le_world env) in
  let event :=
    {| ev_timestamp_ms := u64 now; ev_value := value; ev_command_id := command_id;
       ev_generation := generation; ev_arg0 := arg0; ev_arg1 := arg1; ev_arg2 := arg2;
       ev_id := u16 id; ev_reserved := 0 |} in
  '(r, w) ← vams_retained_note_event management id command_id generation
              (u32 (ev_timestamp_ms event)) (le_retained env) w;
  let '(status, q) := k_msgq_put event (le_queue env) in
  Ok (Build_log_env w r q
        (if rc_is_ok status then le_drops env else vams_event_record_drop [] (le_drops env))).

Definition vams_event_receive (env : log_env W Q) : option (vams_event * log_env W Q) :=
  match k_msgq_get (le_queue env) with
  | None => None
  | Some (event, q) =>
      Some (event, Build_log_env (le_world env) (le_retained env) q (le_drops env))
  end.

Definition vams_event_drop_count (env : log_env W Q) : Z := u32 (le_drops env).

(** ** Lemmas *)

(** What emitting needs: the record's event slots are in bounds. *)
Definition log_ok (env : log_env W Q) : Prop :=
  wf_record (le_retained env) /\ ring_ok (le_retained env) /\
  identified (le_retained env) /\ is_u32 (le_drops env).

Lemma commit_ok r (w : W) :
  exists w', vams_retained_commit management r w = Ok (set_crc32 (vams_retained_crc32 r) r, w').
Proof. eexists. reflexivity. Qed.

Lemma note_event_ok e r (w : W) :
  ring_ok r -> wf_record r ->
  let r' := push_event e r in
  exists w', vams_retained_note_event management (re_event_id e) (re_command_id e)
    (re_generation e) (re_timestamp_ms e) r w
    = Ok (set_crc32 (vams_retained_crc32 r') r', w').
Proof.
  intros Hr Hwf. cbv zeta. pose proof (run_op_commit management (note_event e) r w Hr Hwf) as E.
  simpl in E. rewrite E. apply commit_ok.
Qed.

(** The arguments of an emission, and their image in the queue. *)
Record emission : Type := {
  em_id : Z; em_command_id : Z; em_generation : Z;
  em_arg0 : Z; em_arg1 : Z; em_arg2 : Z; em_value : Z;
}.

Definition emit (m : emission) (env : log_env W Q) : result (log_env W Q) :=
  vams_event_emit (em_id m) (em_command_id m) (em_generation m)
    (em_arg0 m) (em_arg1 m) (em_arg2 m) (em_value m) env.

Definition emission_ok (m : emission) : Prop :=
  is_u16 (em_id m) /\ is_u32 (em_command_id m) /\ is_u32 (em_generation m).

Definition strip (e : vams_event) : emission :=
  {| em_id := ev_id e; em_command_id := ev_command_id e; em_generation := ev_generation e;
     em_arg0 := ev_arg0 e; em_arg1 := ev_arg1 e; em_arg2 := ev_arg2 e;
     em_value := ev_value e |}.

Definition retained_image (m : emission) (t : Z) : vams_retained_event :=
  Build_vams_retained_event (em_id m) (em_command_id m) (em_generation m) t.

Context `{!MsgqLaws Q}.

Lemma emit_spec m env :
  log_ok env -> emission_ok m ->
  exists env' e, emit m env = Ok env' /\ log_ok env' /\ strip e = m /\
    msgq_limit (le_queue env') = msgq_limit (le_queue env) /\
    ring_view (le_retained env') =
      lastn 4 (ring_view (le_retained env) ++ [retained_image m (u32 (ev_timestamp_ms e))]) /\
    ((length (msgq_items (le_queue env)) < msgq_limit (le_queue env))%nat /\
       msgq_items (le_queue env') = msgq_items (le_queue env) ++ [e] /\
       le_drops env' = le_drops env \/
     (msgq_limit (le_queue env) <= length (msgq_items (le_queue env)))%nat /\
       msgq_items (le_queue env') = msgq_items (le_queue env) /\
       le_drops env' = Z.min U32_MAX (le_drops env + 1)).
Proof.
  intros (Hwf & Hring & Hid & Hd) (Hi & Hc & Hg). unfold emit, vams_event_emit.
  destruct (k_uptime_get (le_world env)) as [now w]. cbn [ev_timestamp_ms].
  set (e := Build_vams_event _ _ _ _ _ _ _ _ _).
  set (re := retained_image m (u32 (u64 now))).
  assert (Hre : wf_event re) by (split_and!; simpl; auto with vams_word; word_lia).
  destruct (note_event_ok re (le_retained env) w Hring Hwf) as (w' & E).
  cbn [re retained_image re_event_id re_command_id re_generation re_timestamp_ms] in E.
  rewrite E. cbn [mbind result_bind]. clear E.
  pose proof (push_event_wf re (le_retained env) Hring Hre Hwf) as Hwf'.
  destruct (push_event_ring re (le_retained env) Hring) as [Hring' Hview]; [apply Hwf|].
  assert (Hes : strip e = m) by (unfold strip, e; simpl; rewrite u16_id by done; by destruct m).
  destruct (msgq_put_inv e (le_queue env)) as [(E & Hl & Hit & Hli)|[E Hl]].
  - destruct (k_msgq_put e (le_queue env)) as [st q]. simpl in *. subst st.
    eexists _, e. split; [done|]. simpl. rewrite Hit, Hli. split_and!; auto.
    unfold log_ok. simpl. split_and!; auto using set_crc32_wf, retained_crc32_u32.
  - rewrite E. eexists _, e. split; [done|]. simpl.
    assert (vams_event_record_drop [] (le_drops env) = Z.min U32_MAX (le_drops env + 1)) as ->.
    { unfold vams_event_record_drop. by apply saturating_inc_loop_nil. }
    split_and!; auto. unfold log_ok. simpl.
    split_and!; auto using set_crc32_wf, retained_crc32_u32. word_lia.
Qed.

(** ** Runs of the log *)

(** [None] is one receive of the logger. *)
Fixpoint log_run (steps : list (option emission)) (env : log_env W Q)
    : result (list vams_event * log_env W Q) :=
  match steps with
  | [] => Ok ([], env)
  | Some m :: rest => env ← emit m env; log_run rest env
  | None :: rest =>
      match vams_event_receive env with
      | None => log_run rest env
      | Some (e, env) => '(es, env) ← log_run rest env; Ok (e :: es, env)
      end
  end.

Definition emitted (steps : list (option emission)) : list emission := omap id steps.

(** What the crash record keeps of an event besides the time. *)
Definition kept (e : vams_retained_event) : Z * Z * Z :=
  (re_event_id e, re_command_id e, re_generation e).

End Event.

(** ** Witness *)

Definition sample_emission (n : Z) : emission := Build_emission VAMS_EVENT_HEARTBEAT 0 9 n 0 0 0.
Definition sample_log_env : log_env sim_world list_msgq :=
  Build_log_env blank_world sample_record (Build_list_msgq [] 2) 0.

Lemma sample_log_ok : log_ok sample_log_env.
Proof.
  split_and!; [apply format_wf; word_lia|apply format_spec|done|simpl; word_lia].
Qed.

