(* ===== verification/Scheduler.v ===== *)
(** * Command objects and their lifecycle
    (firmware/src/scheduler/vams_scheduler.c, firmware/include/vams_scheduler.h
    and [vams_scheduler_select] of firmware/src/main.c)

    A command object and the operations on it.  Each operation asserts the
    state it starts from and logs its transition. *)

From S2P Require Import Prelude Abi Command Platform Management Retained Event.

(** ** Data *)

Definition VAMS_DEFAULT_TIMEOUT_MS : Z := 30000.
Definition VAMS_COMMAND_POOL_SIZE : nat := 8.

Inductive vams_command_state : Type :=
| VAMS_COMMAND_FREE
| VAMS_COMMAND_SUBMITTED
| VAMS_COMMAND_VALIDATING
| VAMS_COMMAND_QUEUED
| VAMS_COMMAND_RUNNING
| VAMS_COMMAND_ABORTING
| VAMS_COMMAND_COMPLETED
| VAMS_COMMAND_COMPLETED_ERROR
| VAMS_COMMAND_CANCELLED.

#[export] Instance vams_command_state_eq_dec : EqDecision vams_command_state.
Proof. solve_decision. Defined.

Definition state_value (s : vams_command_state) : Z :=
  match s with
  | VAMS_COMMAND_FREE => 0
  | VAMS_COMMAND_SUBMITTED => 1
  | VAMS_COMMAND_VALIDATING => 2
  | VAMS_COMMAND_QUEUED => 3
  | VAMS_COMMAND_RUNNING => 4
  | VAMS_COMMAND_ABORTING => 5
  | VAMS_COMMAND_COMPLETED => 6
  | VAMS_COMMAND_COMPLETED_ERROR => 7
  | VAMS_COMMAND_CANCELLED => 8
  end.

Record vams_command_object : Type := {
  co_submission : vams_submission;
  co_completion : vams_completion;
  co_captured_at_ms : Z;
  co_deadline_ms : Z;
  co_generation : Z;
  co_sequence : Z;
  co_state : vams_command_state;
  co_publication_count : Z;
}.

(** The object after [memset] to zero. *)
Definition zero_command : vams_command_object :=
  Build_vams_command_object zero_submission zero_completion 0 0 0 0 VAMS_COMMAND_FREE 0.

Definition set_submission (s : vams_submission) (c : vams_command_object) :=
  Build_vams_command_object s (co_completion c) (co_captured_at_ms c) (co_deadline_ms c)
    (co_generation c) (co_sequence c) (co_state c) (co_publication_count c).
Definition set_completion (r : vams_completion) (c : vams_command_object) :=
  Build_vams_command_object (co_submission c) r (co_captured_at_ms c) (co_deadline_ms c)
    (co_generation c) (co_sequence c) (co_state c) (co_publication_count c).
Definition set_state (s : vams_command_state) (c : vams_command_object) :=
  Build_vams_command_object (co_submission c) (co_completion c) (co_captured_at_ms c)
    (co_deadline_ms c) (co_generation c) (co_sequence c) s (co_publication_count c).
Definition set_publication_count (n : Z) (c : vams_command_object) :=
  Build_vams_command_object (co_submission c) (co_completion c) (co_captured_at_ms c)
    (co_deadline_ms c) (co_generation c) (co_sequence c) (co_state c) n.

(** The five assignments the failure paths share: everything of the completion
    but the command id and the cookie. *)
Definition fail_completion (status error_code timestamp_ms : Z) (c : vams_command_object) :=
  set_completion
    {| c_command_id := c_command_id (co_completion c); c_status := status;
       c_error_code := error_code; c_bytes_processed := 0; c_result_crc := 0;
       c_user_cookie := c_user_cookie (co_completion c);
       c_device_timestamp := timestamp_ms |} c.

(** ** Ordering and selection *)

Definition vams_scheduler_precedes (first second : vams_command_object) : bool :=
  (co_deadline_ms first <? co_deadline_ms second) ||
  ((co_deadline_ms first =? co_deadline_ms second) &&
   (co_sequence first <? co_sequence second)).

(** The loop from [index] on, with the commands from [index] to [count]. *)
Fixpoint scheduler_select_loop (index : nat) (rest : list vams_command_object)
    (selected : nat) (best : vams_command_object) : nat :=
  match rest with
  | [] => selected
  | c :: rest' =>
      if vams_scheduler_precedes c best then scheduler_select_loop (S index) rest' index c
      else scheduler_select_loop (S index) rest' selected best
  end.

Definition vams_scheduler_select (ready : list vams_command_object) : nat :=
  match ready with
  | [] => 0%nat
  | c :: rest => scheduler_select_loop 1 rest 0 c
  end.

(** ** Operations *)

Section Scheduler.
Context {W : Type} {Q : Type -> Type} `{!Platform W, !Msgq Q} (management : device).

Let step : Type := result (vams_command_object * log_env W Q).

Definition state_is (c : vams_command_object) (s : vams_command_state) : bool :=
  bool_decide (co_state c = s).

Definition vams_scheduler_transition (c : vams_command_object)
    (expected next : vams_command_state) (env : log_env W Q) : step :=
  _ ← ASSERT_NO_MSG (state_is c expected);
  _ ← ASSERT_NO_MSG (state_value next <=? state_value VAMS_COMMAND_CANCELLED);
  env ← vams_event_emit management VAMS_EVENT_TRANSITION (s_command_id (co_submission c))
          (co_generation c) (co_sequence c) (state_value (co_state c)) (state_value next) 0 env;
  Ok (set_state next c, env).

Definition vams_scheduler_capture (c : vams_command_object)
    (generation sequence captured_at_ms : Z) (env : log_env W Q) : step :=
  _ ← ASSERT_NO_MSG (state_is c VAMS_COMMAND_FREE);
  let timeout_ms := s_timeout_ms (co_submission c) in
  let timeout_ms := if timeout_ms =? 0 then VAMS_DEFAULT_TIMEOUT_MS else timeout_ms in
  let c :=
    {| co_submission := co_submission c; co_completion := co_completion c;
       co_captured_at_ms := captured_at_ms;
       co_deadline_ms := u64 (captured_at_ms + timeout_ms);
       co_generation := generation; co_sequence := sequence; co_state := co_state c;
       co_publication_count := 0 |} in
  vams_scheduler_transition c VAMS_COMMAND_FREE VAMS_COMMAND_SUBMITTED env.

Definition vams_scheduler_deadline_expired (c : vams_command_object) (now_ms : Z) : bool :=
  co_deadline_ms c <=? now_ms.

Definition vams_scheduler_timeout (c : vams_command_object) (timestamp_ms : Z)
    (env : log_env W Q) : step :=
  _ ← ASSERT_NO_MSG (state_is c VAMS_COMMAND_ABORTING);
  vams_scheduler_transition
    (fail_completion VAMS_STATUS_TIMED_OUT VAMS_ERR_TIMEOUT timestamp_ms c)
    VAMS_COMMAND_ABORTING VAMS_COMMAND_COMPLETED_ERROR env.

Definition vams_scheduler_cancel (c : vams_command_object) (timestamp_ms : Z)
    (env : log_env W Q) : step :=
  _ ← ASSERT_NO_MSG (state_is c VAMS_COMMAND_QUEUED);
  vams_scheduler_transition
    (fail_completion VAMS_STATUS_RESET VAMS_ERR_RESET timestamp_ms c)
    VAMS_COMMAND_QUEUED VAMS_COMMAND_CANCELLED env.

(** Returns [-EPROTO] and leaves the command alone on an identity mismatch. *)
Definition vams_scheduler_apply_result (c : vams_command_object) (r : vams_completion)
    (env : log_env W Q) : result (rc * vams_command_object * log_env W Q) :=
  _ ← ASSERT_NO_MSG (state_is c VAMS_COMMAND_RUNNING || state_is c VAMS_COMMAND_ABORTING);
  if negb (c_command_id r =? s_command_id (co_submission c)) ||
     negb (c_user_cookie r =? s_user_cookie (co_submission c))
  then Ok (rc_err EPROTO, c, env)
  else
    let current := co_state c in
    '(c, env) ← vams_scheduler_transition (set_completion r c) current
                  (if c_status r =? VAMS_STATUS_SUCCESS then VAMS_COMMAND_COMPLETED
                   else VAMS_COMMAND_COMPLETED_ERROR) env;
    Ok (rc_ok, c, env).

Definition vams_scheduler_begin_abort (c : vams_command_object) (timestamp_ms : Z)
    (env : log_env W Q) : step :=
  _ ← ASSERT_NO_MSG (state_is c VAMS_COMMAND_RUNNING);
  vams_scheduler_transition
    (fail_completion VAMS_STATUS_TIMED_OUT VAMS_ERR_TIMEOUT timestamp_ms c)
    VAMS_COMMAND_RUNNING VAMS_COMMAND_ABORTING env.

Definition vams_scheduler_escalate (c : vams_command_object) (timestamp_ms : Z)
    (env : log_env W Q) : step :=
  _ ← ASSERT_NO_MSG (state_is c VAMS_COMMAND_RUNNING || state_is c VAMS_COMMAND_ABORTING);
  vams_scheduler_transition
    (fail_completion VAMS_STATUS_FAILED VAMS_ERR_ENGINE timestamp_ms c)
    (co_state c) VAMS_COMMAND_COMPLETED_ERROR env.

Definition vams_scheduler_mark_published (c : vams_command_object) (env : log_env W Q) : step :=
  _ ← ASSERT_NO_MSG (state_is c VAMS_COMMAND_COMPLETED ||
                     state_is c VAMS_COMMAND_COMPLETED_ERROR ||
                     state_is c VAMS_COMMAND_CANCELLED);
  _ ← ASSERT_NO_MSG (co_publication_count c =? 0);
  let c := set_publication_count 1 c in
  env ← vams_event_emit management VAMS_EVENT_PUBLISHED (s_command_id (co_submission c))
          (co_generation c) (co_sequence c) (co_publication_count c) 0 0 env;
  Ok (c, env).
End Scheduler.

(** ** Well-formed commands and the lifecycle *)

Definition wf_command (c : vams_command_object) : Prop :=
  wf_submission (co_submission c) /\ wf_completion (co_completion c) /\
  is_u64 (co_captured_at_ms c) /\ is_u64 (co_deadline_ms c) /\
  is_u32 (co_generation c) /\ is_u32 (co_sequence c) /\ 0 <= co_publication_count c <= 1.

Definition terminal (s : vams_command_state) : bool :=
  match s with
  | VAMS_COMMAND_COMPLETED | VAMS_COMMAND_COMPLETED_ERROR | VAMS_COMMAND_CANCELLED => true
  | _ => false
  end.

(** The transitions that docs/command-lifecycle.md lists, and no others; a
    command has been accepted from QUEUED to ABORTING. *)
Definition lifecycle (from to : vams_command_state) : bool :=
  match from, to with
  | VAMS_COMMAND_FREE, VAMS_COMMAND_SUBMITTED
  | VAMS_COMMAND_SUBMITTED, VAMS_COMMAND_VALIDATING
  | VAMS_COMMAND_VALIDATING, (VAMS_COMMAND_QUEUED | VAMS_COMMAND_COMPLETED_ERROR)
  | VAMS_COMMAND_QUEUED, (VAMS_COMMAND_RUNNING | VAMS_COMMAND_ABORTING)
  | VAMS_COMMAND_RUNNING,
      (VAMS_COMMAND_COMPLETED | VAMS_COMMAND_COMPLETED_ERROR | VAMS_COMMAND_ABORTING)
  | VAMS_COMMAND_ABORTING, VAMS_COMMAND_COMPLETED_ERROR
  | (VAMS_COMMAND_QUEUED | VAMS_COMMAND_RUNNING | VAMS_COMMAND_ABORTING), VAMS_COMMAND_CANCELLED
  | (VAMS_COMMAND_COMPLETED | VAMS_COMMAND_COMPLETED_ERROR | VAMS_COMMAND_CANCELLED),
      VAMS_COMMAND_FREE => true
  | _, _ => false
  end.

(** What identifies a captured command and does not change until it is freed. *)
Definition same_identity (c c' : vams_command_object) : Prop :=
  co_submission c' = co_submission c /\ co_captured_at_ms c' = co_captured_at_ms c /\
  co_deadline_ms c' = co_deadline_ms c /\ co_generation c' = co_generation c /\
  co_sequence c' = co_sequence c.

(** A completion that answers the command it is stored with. *)
Definition answers (c : vams_command_object) : Prop :=
  c_command_id (co_completion c) = s_command_id (co_submission c) /\
  c_user_cookie (co_completion c) = s_user_cookie (co_submission c).

Lemma same_identity_refl c : same_identity c c.
Proof. done. Qed.
Lemma same_identity_trans c1 c2 c3 :
  same_identity c1 c2 -> same_identity c2 c3 -> same_identity c1 c3.
Proof. unfold same_identity. intuition congruence. Qed.
#[export] Hint Resolve same_identity_refl : vams.

Lemma wf_command_set_state s c : wf_command c -> wf_command (set_state s c).
Proof. done. Qed.

Lemma wf_command_set_completion r c :
  wf_completion r -> wf_command c -> wf_command (set_completion r c).
Proof. unfold wf_command. simpl. tauto. Qed.

Lemma fail_completion_wf status error ts c :
  is_u16 status -> is_u16 error -> is_u64 ts -> wf_command c ->
  wf_command (fail_completion status error ts c).
Proof.
  intros Hs He Ht Hc. apply wf_command_set_completion; [|done].
  destruct Hc as (_ & Hr & _). apply wf_completion_ranges in Hr.
  unfold wf_completion, completion_layout, completion_fields, fits.
  rewrite !Forall2_cons_iff. simpl. word_unfold. split_and!; try lia. constructor.
Qed.
#[export] Hint Resolve wf_command_set_state wf_command_set_completion fail_completion_wf : vams.

(** ** Lemmas: the operations *)

Section Facts.
Context {W : Type} {Q : Type -> Type} `{!Platform W, !Msgq Q, !MsgqLaws Q}
  (management : device).

Lemma emit_ok id cid gen a0 a1 a2 v (env : log_env W Q) :
  log_ok env -> is_u16 id -> is_u32 cid -> is_u32 gen ->
  exists env', vams_event_emit management id cid gen a0 a1 a2 v env = Ok env' /\ log_ok env'.
Proof.
  intros Hl Hi Hc Hg.
  destruct (emit_spec management (Build_emission id cid gen a0 a1 a2 v) env)
    as (env' & e & E & Hl' & _); [done|by split_and!|]. by exists env'.
Qed.

Lemma command_id_u32 c : wf_command c -> is_u32 (s_command_id (co_submission c)).
Proof. intros (Hs & _). apply wf_submission_ranges in Hs. tauto. Qed.

Lemma transition_ok c expected next (env : log_env W Q) :
  co_state c = expected -> wf_command c -> log_ok env ->
  exists env', vams_scheduler_transition management c expected next env
               = Ok (set_state next c, env') /\ log_ok env'.
Proof.
  intros Hs Hwf Hl. unfold vams_scheduler_transition, state_is.
  rewrite bool_decide_eq_true_2 by done. cbn [ASSERT_NO_MSG mbind result_bind].
  replace (state_value next <=? _) with true by by destruct next.
  cbn [ASSERT_NO_MSG mbind result_bind].
  destruct (emit_ok VAMS_EVENT_TRANSITION (s_command_id (co_submission c)) (co_generation c)
              (co_sequence c) (state_value (co_state c)) (state_value next) 0 env)
    as (env' & E & Hl'); [done|done|by apply command_id_u32|apply Hwf|].
  rewrite E. by exists env'.
Qed.

Lemma transition_fault c expected next (env : log_env W Q) :
  co_state c <> expected -> vams_scheduler_transition management c expected next env = Fault.
Proof.
  intros Hs. unfold vams_scheduler_transition, state_is.
  by rewrite bool_decide_eq_false_2 by done.
Qed.
End Facts.

(** Discharge the state assertion at the head of an operation. *)
Ltac assert_state H :=
  unfold state_is;
  repeat match goal with
  | |- context [bool_decide (co_state ?c = ?s)] =>
      first [ rewrite (bool_decide_eq_true_2 (co_state c = s)) by (rewrite H; done)
            | rewrite (bool_decide_eq_false_2 (co_state c = s)) by (rewrite H; done) ]
  end;
  cbn [orb ASSERT_NO_MSG mbind result_bind].

(** The operations with their arguments, and the commands each one accepts. *)
Inductive sched_op : Type :=
| op_transition (expected next : vams_command_state)
| op_capture (generation sequence captured_at_ms : Z)
| op_timeout (timestamp_ms : Z)
| op_cancel (timestamp_ms : Z)
| op_apply_result (r : vams_completion)
| op_begin_abort (timestamp_ms : Z)
| op_escalate (timestamp_ms : Z)
| op_mark_published.

Definition op_accepts (op : sched_op) (c : vams_command_object) : bool :=
  match op, co_state c with
  | op_transition expected _, s => bool_decide (s = expected)
  | op_capture _ _ _, VAMS_COMMAND_FREE
  | op_timeout _, VAMS_COMMAND_ABORTING
  | op_cancel _, VAMS_COMMAND_QUEUED
  | op_apply_result _, (VAMS_COMMAND_RUNNING | VAMS_COMMAND_ABORTING)
  | op_begin_abort _, VAMS_COMMAND_RUNNING
  | op_escalate _, (VAMS_COMMAND_RUNNING | VAMS_COMMAND_ABORTING) => true
  | op_mark_published,
      (VAMS_COMMAND_COMPLETED | VAMS_COMMAND_COMPLETED_ERROR | VAMS_COMMAND_CANCELLED) =>
      co_publication_count c =? 0
  | _, _ => false
  end.

(** A bare transition is one the document lists, as at every call of main.c. *)
Definition op_args_wf (op : sched_op) : Prop :=
  match op with
  | op_transition expected next => lifecycle expected next = true
  | op_capture g s t => is_u32 g /\ is_u32 s /\ is_u64 t
  | op_timeout t | op_cancel t | op_begin_abort t | op_escalate t => is_u64 t
  | op_apply_result r => wf_completion r
  | op_mark_published => True
  end.

(** The state an operation leads to. *)
Definition op_next (op : sched_op) (c : vams_command_object) : vams_command_state :=
  match op with
  | op_transition _ next => next
  | op_capture _ _ _ => VAMS_COMMAND_SUBMITTED
  | op_timeout _ | op_escalate _ => VAMS_COMMAND_COMPLETED_ERROR
  | op_cancel _ => VAMS_COMMAND_CANCELLED
  | op_apply_result r =>
      if c_status r =? 0 then VAMS_COMMAND_COMPLETED else VAMS_COMMAND_COMPLETED_ERROR
  | op_begin_abort _ => VAMS_COMMAND_ABORTING
  | op_mark_published => co_state c
  end.

(** The completion it leaves: no bytes, no CRC and the time for a command that
    failed, the engine's own for a result, else the one there was. *)
Definition failed_with (status error_code timestamp_ms : Z) (r : vams_completion)
    : vams_completion :=
  {| c_command_id := c_command_id r; c_status := status; c_error_code := error_code;
     c_bytes_processed := 0; c_result_crc := 0; c_device_timestamp := timestamp_ms;
     c_user_cookie := c_user_cookie r |}.
Definition op_completion (op : sched_op) (r : vams_completion) : vams_completion :=
  match op with
  | op_timeout t | op_begin_abort t => failed_with VAMS_STATUS_TIMED_OUT VAMS_ERR_TIMEOUT t r
  | op_cancel t => failed_with VAMS_STATUS_RESET VAMS_ERR_RESET t r
  | op_escalate t => failed_with VAMS_STATUS_FAILED VAMS_ERR_ENGINE t r
  | op_apply_result r' => r'
  | op_transition _ _ | op_capture _ _ _ | op_mark_published => r
  end.

Definition op_publications (op : sched_op) (n : Z) : Z :=
  match op with op_capture _ _ _ => 0 | op_mark_published => 1 | _ => n end.

Section Lifecycle.
Context {W : Type} {Q : Type -> Type} `{!Platform W, !Msgq Q, !MsgqLaws Q}
  (management : device).

Definition run_sched_op (op : sched_op) (c : vams_command_object) (env : log_env W Q)
    : result (rc * vams_command_object * log_env W Q) :=
  match op with
  | op_transition expected next =>
      (fun p => (rc_ok, p.1, p.2)) <$> vams_scheduler_transition management c expected next env
  | op_mark_published => (fun p => (rc_ok, p.1, p.2)) <$> vams_scheduler_mark_published management c env
  | op_capture g s t => (fun p => (rc_ok, p.1, p.2)) <$> vams_scheduler_capture management c g s t env
  | op_timeout t => (fun p => (rc_ok, p.1, p.2)) <$> vams_scheduler_timeout management c t env
  | op_cancel t => (fun p => (rc_ok, p.1, p.2)) <$> vams_scheduler_cancel management c t env
  | op_apply_result r => vams_scheduler_apply_result management c r env
  | op_begin_abort t => (fun p => (rc_ok, p.1, p.2)) <$> vams_scheduler_begin_abort management c t env
  | op_escalate t => (fun p => (rc_ok, p.1, p.2)) <$> vams_scheduler_escalate management c t env
  end.

Lemma capture_ok c g s t (env : log_env W Q) :
  co_state c = VAMS_COMMAND_FREE -> wf_command c -> log_ok env ->
  is_u32 g -> is_u32 s -> is_u64 t ->
  exists c' env', vams_scheduler_capture management c g s t env = Ok (c', env') /\
    log_ok env' /\ wf_command c' /\ co_state c' = VAMS_COMMAND_SUBMITTED /\
    co_submission c' = co_submission c /\ co_completion c' = co_completion c /\
    co_generation c' = g /\ co_sequence c' = s /\ co_captured_at_ms c' = t /\
    co_publication_count c' = 0 /\
    co_deadline_ms c' = u64 (t + if s_timeout_ms (co_submission c) =? 0
                                 then VAMS_DEFAULT_TIMEOUT_MS
                                 else s_timeout_ms (co_submission c)).
Proof.
  intros Hs Hwf Hl Hg Hq Ht. unfold vams_scheduler_capture. assert_state Hs. cbv zeta.
  set (c1 := Build_vams_command_object _ _ _ _ _ _ _ _).
  assert (Hwf1 : wf_command c1).
  { destruct Hwf as (? & ? & ?). unfold c1, wf_command. simpl.
    split_and!; auto with vams_word; lia. }
  destruct (transition_ok management c1 VAMS_COMMAND_FREE VAMS_COMMAND_SUBMITTED env)
    as (env' & E & Hl'); [done..|]. rewrite E. eexists _, env'. by split_and!.
Qed.

Lemma fail_transition_ok c status error ts from next (env : log_env W Q) :
  co_state c = from -> wf_command c -> log_ok env ->
  is_u16 status -> is_u16 error -> is_u64 ts ->
  exists env',
    vams_scheduler_transition management (fail_completion status error ts c) from next env
    = Ok (set_state next (fail_completion status error ts c), env') /\ log_ok env' /\
    wf_command (set_state next (fail_completion status error ts c)).
Proof.
  intros Hs Hwf Hl ???.
  destruct (transition_ok management (fail_completion status error ts c) from next env)
    as (env' & E & Hl'); [done|auto with vams..|].
  exists env'. split_and!; auto with vams.
Qed.

Lemma apply_result_ok c r (env : log_env W Q) :
  co_state c = VAMS_COMMAND_RUNNING \/ co_state c = VAMS_COMMAND_ABORTING ->
  wf_command c -> wf_completion r -> log_ok env ->
  vams_scheduler_apply_result management c r env = Ok (rc_err EPROTO, c, env) /\
    ~ answers (set_completion r c) \/
  exists env', vams_scheduler_apply_result management c r env =
      Ok (rc_ok, set_state (if c_status r =? VAMS_STATUS_SUCCESS then VAMS_COMMAND_COMPLETED
                            else VAMS_COMMAND_COMPLETED_ERROR) (set_completion r c), env') /\
    answers (set_completion r c) /\ log_ok env'.
Proof.
  intros Hs Hwf Hr Hl. unfold vams_scheduler_apply_result, answers. simpl.
  assert (state_is c VAMS_COMMAND_RUNNING || state_is c VAMS_COMMAND_ABORTING = true) as ->.
  { unfold state_is. destruct Hs as [-> | ->]; done. }
  cbn [ASSERT_NO_MSG mbind result_bind].
  destruct (Z.eqb_spec (c_command_id r) (s_command_id (co_submission c))) as [Hi|Hi];
    [|left; split; [done|tauto]].
  destruct (Z.eqb_spec (c_user_cookie r) (s_user_cookie (co_submission c))) as [Hu|Hu];
    [|left; split; [done|tauto]]. right. cbn [negb orb].
  destruct (transition_ok management (set_completion r c) (co_state c)
     (if c_status r =? VAMS_STATUS_SUCCESS then VAMS_COMMAND_COMPLETED
      else VAMS_COMMAND_COMPLETED_ERROR) env) as (env' & E & Hl'); [done|auto with vams..|].
  rewrite E. by exists env'.
Qed.

Lemma mark_published_ok c (env : log_env W Q) :
  terminal (co_state c) = true -> co_publication_count c = 0 -> wf_command c -> log_ok env ->
  exists env', vams_scheduler_mark_published management c env
               = Ok (set_publication_count 1 c, env') /\ log_ok env' /\
               wf_command (set_publication_count 1 c).
Proof.
  intros Ht Hp Hwf Hl. unfold vams_scheduler_mark_published.
  assert (state_is c VAMS_COMMAND_COMPLETED || state_is c VAMS_COMMAND_COMPLETED_ERROR ||
          state_is c VAMS_COMMAND_CANCELLED = true) as ->.
  { unfold state_is. by destruct (co_state c). }
  cbn [ASSERT_NO_MSG mbind result_bind]. rewrite Hp. cbn [Z.eqb ASSERT_NO_MSG mbind result_bind].
  cbv zeta.
  destruct (emit_ok management VAMS_EVENT_PUBLISHED
              (s_command_id (co_submission (set_publication_count 1 c)))
              (co_generation (set_publication_count 1 c))
              (co_sequence (set_publication_count 1 c))
              (co_publication_count (set_publication_count 1 c)) 0 0 env)
    as (env' & E & Hl'); [done|done|exact (command_id_u32 c Hwf)|apply Hwf|].
  rewrite E. exists env'. split_and!; try done. unfold wf_command in *. simpl. intuition lia.
Qed.

(** An operation that is not a result of another command. *)
Definition applies (op : sched_op) (c : vams_command_object) : Prop :=
  forall r, op = op_apply_result r -> answers (set_completion r c).

(** What every operation does to a command it accepts, fields by name. *)
Record op_effect (op : sched_op) (c c' : vams_command_object) : Prop := {
  oe_state : co_state c' = op_next op c;
  oe_completion : co_completion c' = op_completion op (co_completion c);
  oe_publications : co_publication_count c' = op_publications op (co_publication_count c);
  oe_submission : co_submission c' = co_submission c;
  oe_identity : match op with
                | op_capture g s t =>
                    co_generation c' = g /\ co_sequence c' = s /\ co_captured_at_ms c' = t
                | _ => same_identity c c'
                end;
}.

(** The conclusion of the lifecycle theorem for one operation. *)
Definition op_follows (op : sched_op) (c : vams_command_object) (env : log_env W Q) : Prop :=
  exists status c' env',
    run_sched_op op c env = Ok (status, c', env') /\ log_ok env' /\ wf_command c' /\
    (status = rc_err EPROTO /\ c' = c /\ ~ applies op c \/
     status = rc_ok /\ applies op c /\ op_effect op c c').

Lemma sched_fail_step op c (env : log_env W Q) status error t :
  op_completion op (co_completion c) = failed_with status error t (co_completion c) ->
  op_publications op (co_publication_count c) = co_publication_count c ->
  (forall r, op <> op_apply_result r) -> (forall g s n, op <> op_capture g s n) ->
  is_u16 status -> is_u16 error -> is_u64 t ->
  wf_command c -> log_ok env ->
  run_sched_op op c env =
    (fun p => (rc_ok, p.1, p.2)) <$>
      vams_scheduler_transition management (fail_completion status error t c)
        (co_state c) (op_next op c) env ->
  op_follows op c env.
Proof.
  intros Ho Hpub Hna Hnc Hs He Ht Hwf Hl E. unfold op_follows. rewrite E.
  destruct (fail_transition_ok c status error t (co_state c) (op_next op c) env)
    as (env' & E' & Hl' & Hwf'); [done..|]. rewrite E'. eexists _, _, env'. split; [done|].
  split_and!; [done..|right]. split; [done|]. split; [intros r Er; by destruct (Hna r)|].
  split; [done|by rewrite Ho|by rewrite Hpub|done|]. destruct op; try done.
  by destruct (Hnc generation sequence captured_at_ms).
Qed.

Lemma sched_apply_step r c (env : log_env W Q) :
  co_state c = VAMS_COMMAND_RUNNING \/ co_state c = VAMS_COMMAND_ABORTING ->
  wf_command c -> wf_completion r -> log_ok env ->
  op_follows (op_apply_result r) c env.
Proof.
  intros Hs Hwf Hr Hl. unfold op_follows. cbn [run_sched_op].
  destruct (apply_result_ok c r env Hs Hwf Hr Hl) as [[E Hn]|(env' & E & Ha & Hl')].
  - rewrite E. eexists _, _, env. split_and!; [done..|left]. split_and!; try done.
    intros Happ. by apply Hn, (Happ r).
  - rewrite E. eexists _, _, env'. split_and!; [done|done|by auto with vams|right].
    split; [done|]. split; [by intros ? [= <-]|]. by split.
Qed.

Lemma sched_op_rejected op c (env : log_env W Q) :
  op_accepts op c = false -> run_sched_op op c env = Fault.
Proof.
  intros Hacc. destruct op; simpl in *.
  1: { unfold vams_scheduler_transition, state_is. by rewrite Hacc. }
  all: unfold vams_scheduler_capture, vams_scheduler_timeout, vams_scheduler_cancel,
    vams_scheduler_apply_result, vams_scheduler_begin_abort, vams_scheduler_escalate,
    vams_scheduler_mark_published, state_is;
    destruct (co_state c); try done; by rewrite Hacc.
Qed.

Lemma sched_op_accepted op c (env : log_env W Q) :
  op_accepts op c = true -> op_args_wf op -> wf_command c -> log_ok env -> op_follows op c env.
Proof.
  intros Hacc Hargs Hwf Hl. destruct op as [from to|g s t|t|t|r|t|t|].
  - simpl in Hacc. apply bool_decide_eq_true_1 in Hacc.
    destruct (transition_ok management c from to env Hacc Hwf Hl) as (env' & E & Hl').
    eexists rc_ok, _, env'. cbn [run_sched_op]. rewrite E. split; [done|].
    split_and!; [done|by apply wf_command_set_state|right]. by split_and!.
  - simpl in Hacc. destruct (co_state c) eqn:Hs; try discriminate Hacc.
    destruct Hargs as (Hg & Hq & Ht).
    destruct (capture_ok c g s t env Hs) as (c' & env' & E & Hl' & Hwf' & Hs' & Hsub & Hcmp
      & Hcg & Hcs & Hct & Hcp & _); [done..|].
    exists rc_ok, c', env'. cbn [run_sched_op]. rewrite E. split_and!; [done..|right]. by split_and!.
  - simpl in Hacc. destruct (co_state c) eqn:Hs; try discriminate Hacc.
    eapply sched_fail_step; try done.
    cbn [run_sched_op op_next]. unfold vams_scheduler_timeout. rewrite Hs. by assert_state Hs.
  - simpl in Hacc. destruct (co_state c) eqn:Hs; try discriminate Hacc.
    eapply sched_fail_step; try done.
    cbn [run_sched_op op_next]. unfold vams_scheduler_cancel. rewrite Hs. by assert_state Hs.
  - apply sched_apply_step; try done. simpl in Hacc. destruct (co_state c); auto; done.
  - simpl in Hacc. destruct (co_state c) eqn:Hs; try discriminate Hacc.
    eapply sched_fail_step; try done.
    cbn [run_sched_op op_next]. unfold vams_scheduler_begin_abort. rewrite Hs. by assert_state Hs.
  - simpl in Hacc. destruct (co_state c) eqn:Hs; try discriminate Hacc.
    all: eapply sched_fail_step; try done.
    all: cbn [run_sched_op op_next]; unfold vams_scheduler_escalate; rewrite Hs; by assert_state Hs.
  - simpl in Hacc. destruct (mark_published_ok c env) as (env' & E & Hl' & Hwf'); try done.
    + by destruct (co_state c).
    + destruct (co_state c); try discriminate Hacc; by apply Z.eqb_eq.
    + eexists rc_ok, _, env'. cbn [run_sched_op]. rewrite E. split_and!; [done..|right].
      by split_and!.
Qed.

(** ** Properties *)

End Lifecycle.

(** ** Selection: earliest deadline first *)

Lemma precedes_irrefl c : vams_scheduler_precedes c c = false.
Proof. unfold vams_scheduler_precedes. lia. Qed.

Lemma precedes_trans c1 c2 c3 :
  vams_scheduler_precedes c1 c2 = true -> vams_scheduler_precedes c2 c3 = true ->
  vams_scheduler_precedes c1 c3 = true.
Proof. unfold vams_scheduler_precedes. lia. Qed.

Lemma not_precedes_trans c1 c2 c3 :
  vams_scheduler_precedes c1 c2 = false -> vams_scheduler_precedes c3 c2 = true ->
  vams_scheduler_precedes c1 c3 = false.
Proof. unfold vams_scheduler_precedes. lia. Qed.

Lemma precedes_strict c1 c2 c3 :
  vams_scheduler_precedes c1 c2 = false -> vams_scheduler_precedes c3 c2 = true ->
  vams_scheduler_precedes c3 c1 = true.
Proof. unfold vams_scheduler_precedes. lia. Qed.

(** The loop keeps the first of the least commands among those it has seen. *)
Record least (all : list vams_command_object) (count selected : nat) (best : vams_command_object)
    : Prop := {
  ls_selected : all !! selected = Some best;
  ls_least j c : (j < count)%nat -> all !! j = Some c -> vams_scheduler_precedes c best = false;
  ls_first j c : (j < selected)%nat -> all !! j = Some c -> vams_scheduler_precedes best c = true;
}.

Lemma least_next all index selected best c :
  least all index selected best -> (selected < index)%nat -> all !! index = Some c ->
  if vams_scheduler_precedes c best then least all (S index) index c
  else least all (S index) selected best.
Proof.
  intros [Hs Hl Hf] Hlt Hc.
  assert (Hsplit : forall j c0, (j < S index)%nat -> all !! j = Some c0 -> (j < index)%nat \/ c0 = c).
  { intros j c0 Hj Hc0. destruct (decide (j = index)) as [->|]; [right; congruence|left; lia]. }
  destruct (vams_scheduler_precedes c best) eqn:Hp; split; try done.
  - intros j c0 Hj Hc0. destruct (Hsplit j c0 Hj Hc0) as [Hj'| ->]; [|apply precedes_irrefl].
    eapply not_precedes_trans; [by eapply Hl|done].
  - intros j c0 Hj Hc0. eapply precedes_strict; [by eapply Hl|done].
  - intros j c0 Hj Hc0. destruct (Hsplit j c0 Hj Hc0) as [Hj'| ->]; [by eapply Hl|done].
Qed.

Lemma select_loop_spec all rest index selected best :
  drop index all = rest -> (selected < index)%nat -> least all index selected best ->
  exists c, least all (length all) (scheduler_select_loop index rest selected best) c.
Proof.
  revert index selected best. induction rest as [|c rest IH]; intros index selected best Hd Hs Hl.
  - exists best. destruct Hl as [H1 H2 H3]. split; [done| |done]. intros j c Hj Hc.
    apply (H2 j); [|done]. assert (length (drop index all) = 0%nat) by by rewrite Hd.
    rewrite length_drop in *. lia.
  - assert (Hc : all !! index = Some c) by by rewrite <-(Nat.add_0_r index), <-lookup_drop, Hd.
    assert (Hd' : drop (S index) all = rest).
    { rewrite <-Nat.add_1_r, <-drop_drop, Hd. done. }
    pose proof (least_next all index selected best c Hl Hs Hc) as Hn.
    cbn [scheduler_select_loop].
    destruct (vams_scheduler_precedes c best); (eapply IH; [done| |exact Hn]); lia.
Qed.

Lemma select_least ready :
  ready <> [] -> exists c, least ready (length ready) (vams_scheduler_select ready) c.
Proof.
  destruct ready as [|c0 rest]; [done|]. intros _.
  apply (select_loop_spec (c0 :: rest) rest 1 0 c0); [done|lia|]. split; [done| |lia].
  intros [|j] c Hj; [|lia]. intros [= ->]. apply precedes_irrefl.
Qed.

Lemma select_in_range ready :
  ready <> [] -> is_Some (ready !! vams_scheduler_select ready).
Proof. intros Hne. destruct (select_least ready Hne) as (c & [Hc _ _]). eauto. Qed.

(** C14: [vams_scheduler_select] is earliest-deadline-first: on any non-empty
    ready list it returns an index in bounds; the command there has the
    earliest deadline, and the lowest sequence number among those with that
    deadline; and it is the first such command of the list, since every
    command before it has a later deadline or the same deadline and a higher
    sequence number. *)
Theorem select_is_earliest_deadline (ready : list vams_command_object) (Hne : ready <> []) :
  exists c, ready !! vams_scheduler_select ready = Some c /\
    (forall c', c' ∈ ready ->
       co_deadline_ms c < co_deadline_ms c' \/
       co_deadline_ms c = co_deadline_ms c' /\ co_sequence c <= co_sequence c') /\
    (forall j c', (j < vams_scheduler_select ready)%nat -> ready !! j = Some c' ->
       co_deadline_ms c < co_deadline_ms c' \/
       co_deadline_ms c = co_deadline_ms c' /\ co_sequence c < co_sequence c').
Proof.
  destruct (select_least ready Hne) as (c & [Hc Hmin Hfirst]). exists c. split; [done|]. split.
  - intros c' [j Hj]%list_elem_of_lookup. pose proof (Hmin j c' (lookup_lt_Some _ _ _ Hj) Hj) as H.
    unfold vams_scheduler_precedes in H. lia.
  - intros j c' Hj Hc'. pose proof (Hfirst j c' Hj Hc') as H.
    unfold vams_scheduler_precedes in H. lia.
Qed.

(** ** Deadlines *)

Definition effective_timeout (s : vams_submission) : Z :=
  if s_timeout_ms s =? 0 then 30000 else s_timeout_ms s.

Section Deadlines.
Context {W : Type} {Q : Type -> Type} `{!Platform W, !Msgq Q, !MsgqLaws Q}
  (management : device).

(** C32: a captured command gets the absolute deadline "capture time plus
    requested timeout" (30 s when none was requested), and expires at that
    instant and not before.  The sum is exact for every uptime [now] with
    [now + U32_MAX] below 2^63, which leaves out the last 49 days of Zephyr's
    signed 64-bit clock. *)
Theorem capture_sets_deadline (c : vams_command_object) (generation sequence now : Z)
    (env : log_env W Q)
    (Hfree : co_state c = VAMS_COMMAND_FREE) (Hwf : wf_command c) (Henv : log_ok env)
    (Hgen : is_u32 generation) (Hseq : is_u32 sequence)
    (Hnow : 0 <= now <= 2 ^ 63 - 1 - U32_MAX) :
  exists c' env',
    vams_scheduler_capture management c generation sequence now env = Ok (c', env') /\
    co_state c' = VAMS_COMMAND_SUBMITTED /\ co_submission c' = co_submission c /\
    co_publication_count c' = 0 /\
    co_deadline_ms c' = now + effective_timeout (co_submission c) /\
    0 < effective_timeout (co_submission c) /\
    forall t, vams_scheduler_deadline_expired c' t = true <->
              now + effective_timeout (co_submission c) <= t.
Proof.
  destruct (capture_ok management c generation sequence now env)
    as (c' & env' & E & _ & _ & Hs & Hsub & _ & _ & _ & _ & Hpc & Hd); [done..|word_lia|].
  change (co_deadline_ms c' = u64 (now + effective_timeout (co_submission c))) in Hd.
  assert (0 < effective_timeout (co_submission c) <= U32_MAX) as Ht.
  { destruct Hwf as (Hs' & _). apply wf_submission_ranges in Hs'. unfold effective_timeout. destruct (Z.eqb_spec (s_timeout_ms (co_submission c)) 0); word_lia. }
  rewrite u64_id in Hd by word_lia.
  exists c', env'. split_and!; try done; [lia|].
  intros t. unfold vams_scheduler_deadline_expired. rewrite Hd. apply Z.leb_le.
Qed.
End Deadlines.

(** ** Witnesses *)

Definition queued_command (deadline sequence : Z) : vams_command_object :=
  Build_vams_command_object sample_copy zero_completion 0 deadline 9 sequence
    VAMS_COMMAND_QUEUED 0.

Lemma select_is_earliest_deadline_witness :
  exists c, [queued_command 50 1; queued_command 20 2; queued_command 20 3] !! 1%nat = Some c /\
    (forall c', c' ∈ [queued_command 50 1; queued_command 20 2; queued_command 20 3] ->
       co_deadline_ms c < co_deadline_ms c' \/
       co_deadline_ms c = co_deadline_ms c' /\ co_sequence c <= co_sequence c').
Proof.
  destruct (select_is_earliest_deadline
              [queued_command 50 1; queued_command 20 2; queued_command 20 3])
    as (c & Hc & Hmin & _); [done|].
  exists c. split; [exact Hc|exact Hmin].
Defined.

Lemma zero_command_wf : wf_command zero_command.
Proof. unfold wf_command. simpl. split_and!; (word_lia || (repeat constructor; unfold fits; simpl; lia)). Qed.

Lemma sample_copy_command_wf s d q : is_u64 d -> is_u32 q ->
  wf_command (set_state s (queued_command d q)).
Proof.
  intros. destruct zero_command_wf as (_ & Hz & _). unfold wf_command. simpl.
  split_and!; (exact sample_copy_wf || exact Hz || word_lia).
Qed.

Lemma capture_sets_deadline_witness :
  exists c' env',
    @vams_scheduler_capture _ _ (quiet_platform sample_delay) _ sample_device
      (set_submission sample_copy zero_command) 9 1 1000 sample_log_env = Ok (c', env') /\
    co_deadline_ms c' = 1000 + effective_timeout sample_copy.
Proof.
  destruct (@capture_sets_deadline _ _ (quiet_platform sample_delay) _ _ sample_device
              (set_submission sample_copy zero_command) 9 1 1000 sample_log_env)
    as (c' & env' & E & _ & _ & _ & Hd & _).
  - reflexivity.
  - destruct (sample_copy_command_wf VAMS_COMMAND_FREE 0 0) as (Hs & _); [word_lia..|].
    destruct zero_command_wf as (_ & Hz). exact (conj Hs Hz).
  - apply sample_log_ok.
  - word_lia.
  - word_lia.
  - word_lia.
  - exists c', env'. split; [exact E|exact Hd].
Defined.

