(* ===== verification/Portal.v ===== *)
(** * Command portal driver (firmware/drivers/vams_command_portal.c)

    The firmware's polling access to the one-deep descriptor, completion and
    engine-result windows.  The polling loops carry fuel; [Fault] also stands
    for fuel that ran out, and the theorems show that one round per
    millisecond of timeout, plus one, is always enough.  [send_step] cuts the two
    functions that write the completion window at their register accesses. *)

From S2P Require Import Prelude Abi Platform.

(** ** Register map *)

Definition VAMS_COMMAND_STATUS : Z := 0x00.
Definition VAMS_COMMAND_FW_ACK : Z := 0x08.
Definition VAMS_COMMAND_FW_COMPLETE : Z := 0x0c.
Definition VAMS_COMMAND_RESULT_ACK : Z := 0x1c.
Definition VAMS_COMMAND_FW_ABORT : Z := 0x24.
Definition VAMS_COMMAND_SUBMISSION : Z := 0x100.
Definition VAMS_COMMAND_COMPLETION : Z := 0x200.
Definition VAMS_COMMAND_RESULT : Z := 0x300.

Definition VAMS_COMMAND_H2F_PENDING : Z := BIT 0.
Definition VAMS_COMMAND_F2H_PENDING : Z := BIT 1.
Definition VAMS_COMMAND_RESULT_PENDING : Z := BIT 5.
Definition VAMS_COMMAND_WORDS : nat := (VAMS_SUBMISSION_SIZE / 4)%nat.
Definition VAMS_COMPLETION_WORDS : nat := (VAMS_COMPLETION_SIZE / 4)%nat.

(** [memcpy] between a structure and its array of words. *)
Definition submission_of_words (ws : list Z) : vams_submission :=
  submission_of_bytes (bytes_of_words ws).
Definition completion_of_words (ws : list Z) : vams_completion :=
  completion_of_bytes (bytes_of_words ws).
Definition submission_words (s : vams_submission) : list Z :=
  words_of_bytes (submission_bytes s).
Definition completion_words (c : vams_completion) : list Z :=
  words_of_bytes (completion_bytes c).

Section Portal.
Context {W : Type} `{!Platform W}.

(** ** Operations *)

Definition vams_command_pending (dev : device) (w : W) : bool * W :=
  let '(status, w) := sys_read32 (dev_base dev + VAMS_COMMAND_STATUS) w in
  (has_bits status VAMS_COMMAND_H2F_PENDING, w).

(** [while ((sys_read32(STATUS) & mask) == 0) { if (sys_timepoint_expired(deadline))
    return -EAGAIN; k_sleep(K_MSEC(1)); }]; the result tells pending from
    expired. *)
Fixpoint portal_wait (fuel : nat) (dev : device) (mask deadline : Z) (w : W)
    : result (bool * W) :=
  match fuel with
  | O => Fault
  | S fuel' =>
      let '(status, w) := sys_read32 (dev_base dev + VAMS_COMMAND_STATUS) w in
      if negb (Z.land status mask =? 0) then Ok (true, w) else
      let '(expired, w) := sys_timepoint_expired deadline w in
      if expired then Ok (false, w)
      else portal_wait fuel' dev mask deadline (k_sleep_ms 1 w)
  end.

Definition wait_fuel (timeout_ms : Z) : nat := S (Z.to_nat timeout_ms).

(** The out parameter is a buffer, [None] for a null pointer. *)
Definition vams_command_receive (dev : device) (submission : option vams_submission)
    (timeout_ms : Z) (w : W) : result (rc * option vams_submission * W) :=
  let '(deadline, w) := sys_timepoint_calc timeout_ms w in
  match submission with
  | None => Ok (rc_err EINVAL, None, w)
  | Some _ =>
      '(pending, w) ← portal_wait (wait_fuel timeout_ms) dev VAMS_COMMAND_H2F_PENDING deadline w;
      if negb pending then Ok (rc_err EAGAIN, submission, w) else
      let '(words, w) :=
        read_words (dev_base dev + VAMS_COMMAND_SUBMISSION) VAMS_COMMAND_WORDS w in
      Ok (rc_ok, Some (submission_of_words words),
          sys_write32 1 (dev_base dev + VAMS_COMMAND_FW_ACK) w)
  end.

Definition vams_command_complete (dev : device) (completion : option vams_completion) (w : W)
    : rc * W :=
  match completion with
  | None => (rc_err EINVAL, w)
  | Some c =>
      let '(status, w) := sys_read32 (dev_base dev + VAMS_COMMAND_STATUS) w in
      if has_bits status VAMS_COMMAND_F2H_PENDING then (rc_err EBUSY, w) else
      let w := write_words (dev_base dev + VAMS_COMMAND_COMPLETION) (completion_words c) w in
      (rc_ok, sys_write32 1 (dev_base dev + VAMS_COMMAND_FW_COMPLETE) w)
  end.

Definition vams_command_abort (dev : device) (request : option vams_completion) (w : W)
    : rc * W :=
  match request with
  | None => (rc_err EINVAL, w)
  | Some c =>
      let '(status, w) := sys_read32 (dev_base dev + VAMS_COMMAND_STATUS) w in
      if has_bits status VAMS_COMMAND_RESULT_PENDING then (rc_err EBUSY, w) else
      let w := write_words (dev_base dev + VAMS_COMMAND_COMPLETION) (completion_words c) w in
      (rc_ok, sys_write32 1 (dev_base dev + VAMS_COMMAND_FW_ABORT) w)
  end.

(** The two functions that put a completion in the window take no lock, and three
    tasks call them.  This is a task in the middle of one, between two register
    accesses: before it reads the status, or before it writes word [i] (the
    doorbell after the last). *)
Inductive send_pc : Type := send_check | send_word (i : nat).

Definition send_step (dev : device) (busy doorbell : Z) (c : vams_completion) (pc : send_pc) (w : W)
    : (send_pc + rc) * W :=
  match pc with
  | send_check =>
      let '(status, w) := sys_read32 (dev_base dev + VAMS_COMMAND_STATUS) w in
      if has_bits status busy then (inr (rc_err EBUSY), w) else (inl (send_word 0), w)
  | send_word i =>
      match completion_words c !! i with
      | Some x =>
          (inl (send_word (S i)),
           sys_write32 x (dev_base dev + VAMS_COMMAND_COMPLETION + 4 * Z.of_nat i) w)
      | None => (inr rc_ok, sys_write32 1 (dev_base dev + doorbell) w)
      end
  end.

Definition complete_step (dev : device) := send_step dev VAMS_COMMAND_F2H_PENDING VAMS_COMMAND_FW_COMPLETE.
Definition abort_step (dev : device) := send_step dev VAMS_COMMAND_RESULT_PENDING VAMS_COMMAND_FW_ABORT.

(** At most [n] steps, with nothing in between. *)
Fixpoint send_steps (n : nat) (dev : device) (busy doorbell : Z) (c : vams_completion) (pc : send_pc)
    (w : W) : (send_pc + rc) * W :=
  match n with
  | O => (inl pc, w)
  | S n' =>
      match send_step dev busy doorbell c pc w with
      | (inl pc, w) => send_steps n' dev busy doorbell c pc w
      | done => done
      end
  end.

Definition vams_command_result_receive (dev : device) (result : option vams_completion)
    (timeout_ms : Z) (w : W) : Prelude.result (rc * option vams_completion * W) :=
  let '(deadline, w) := sys_timepoint_calc timeout_ms w in
  match result with
  | None => Ok (rc_err EINVAL, None, w)
  | Some _ =>
      '(pending, w) ← portal_wait (wait_fuel timeout_ms) dev VAMS_COMMAND_RESULT_PENDING deadline w;
      if negb pending then Ok (rc_err EAGAIN, result, w) else
      let '(words, w) :=
        read_words (dev_base dev + VAMS_COMMAND_RESULT) VAMS_COMPLETION_WORDS w in
      Ok (rc_ok, Some (completion_of_words words),
          sys_write32 1 (dev_base dev + VAMS_COMMAND_RESULT_ACK) w)
  end.

(** ** Lemmas: the wait loops end *)

Context `{!PlatformLaws W}.

Lemma portal_wait_ends fuel dev mask deadline w :
  deadline - uptime w <= Z.of_nat fuel ->
  exists b w', portal_wait (S fuel) dev mask deadline w = Ok (b, w') /\
    uptime w <= uptime w' /\ (b = false -> deadline <= uptime w').
Proof.
  revert w. induction fuel as [|fuel IH]; intros w Hf; cbn [portal_wait];
    pose proof (uptime_read32 (dev_base dev + VAMS_COMMAND_STATUS) w) as H1;
    destruct (sys_read32 _ w) as [status w1]; simpl in H1;
    pose proof (timepoint_expired deadline w1) as He;
    pose proof (timepoint_expired_mono deadline w1) as Hm;
    destruct (sys_timepoint_expired deadline w1) as [expired w2]; simpl in He, Hm;
    (destruct (negb (Z.land status mask =? 0)); [by exists true, w1; split_and!|]);
    subst expired; destruct (Z.leb_spec deadline (uptime w2)).
  1, 3: exists false, w2; split_and!; try done; lia.
  - lia.
  - pose proof (uptime_sleep 1 w2 ltac:(lia)) as Hs.
    destruct (IH (k_sleep_ms 1 w2)) as (b & w' & E & Hu & Hb); [clear IH; lia|].
    exists b, w'. split_and!; [exact E|lia|done].
Qed.

(** The wait with the deadline of a timeout, as both receive operations
    start it. *)
Lemma portal_wait_timeout dev mask t w :
  0 <= t ->
  let '(deadline, w1) := sys_timepoint_calc t w in
  exists b w', portal_wait (wait_fuel t) dev mask deadline w1 = Ok (b, w') /\
    uptime w <= uptime w' /\ (b = false -> uptime w + t <= uptime w').
Proof.
  intros Ht. pose proof (timepoint_calc t w) as Hc. pose proof (timepoint_calc_mono t w) as Hm.
  destruct (sys_timepoint_calc t w) as [deadline w1]. simpl in *.
  destruct (portal_wait_ends (Z.to_nat t) dev mask deadline w1) as (b & w' & E & Hu & Hb); [lia|].
  exists b, w'. split_and!; [exact E|lia|]. intros Hf. specialize (Hb Hf). lia.
Qed.

Lemma submission_of_words_wf ws : wf_submission (submission_of_words ws).
Proof. apply submission_of_bytes_wf, bytes_of_words_range. Qed.
Lemma completion_of_words_wf ws : wf_completion (completion_of_words ws).
Proof. apply completion_of_bytes_wf, bytes_of_words_range. Qed.

(** A result poll always comes back: with a well-formed result, or with
    [-EAGAIN] once the timeout has passed. *)
Lemma result_receive_ends dev r t w :
  0 <= t ->
  exists status r' w', vams_command_result_receive dev (Some r) t w = Ok (status, Some r', w') /\
    uptime w <= uptime w' /\
    (status = rc_ok /\ wf_completion r' \/
     status = rc_err EAGAIN /\ r' = r /\ uptime w + t <= uptime w').
Proof.
  intros Ht. unfold vams_command_result_receive.
  pose proof (portal_wait_timeout dev VAMS_COMMAND_RESULT_PENDING t w Ht) as Hw.
  destruct (sys_timepoint_calc t w) as [deadline w1].
  destruct Hw as (b & w2 & E & Hu & Hb). rewrite E. cbn [mbind result_bind].
  destruct b; cbn [negb].
  - pose proof (read_words_uptime (dev_base dev + VAMS_COMMAND_RESULT) VAMS_COMPLETION_WORDS w2) as H2.
    destruct (read_words _ _ w2) as [ws w3]. simpl in H2.
    pose proof (uptime_write32 1 (dev_base dev + VAMS_COMMAND_RESULT_ACK) w3) as H3.
    eexists _, _, _. split; [done|]. split; [lia|]. left. auto using completion_of_words_wf.
  - eexists _, _, _. split; [done|]. split; [lia|]. right. auto.
Qed.

(** The same for a descriptor. *)
Lemma command_receive_ends dev s t w :
  0 <= t ->
  exists status s' w', vams_command_receive dev (Some s) t w = Ok (status, Some s', w') /\
    uptime w <= uptime w' /\
    (status = rc_ok /\ wf_submission s' \/
     status = rc_err EAGAIN /\ s' = s /\ uptime w + t <= uptime w').
Proof.
  intros Ht. unfold vams_command_receive.
  pose proof (portal_wait_timeout dev VAMS_COMMAND_H2F_PENDING t w Ht) as Hw.
  destruct (sys_timepoint_calc t w) as [deadline w1].
  destruct Hw as (b & w2 & E & Hu & Hb). rewrite E. cbn [mbind result_bind].
  destruct b; cbn [negb].
  - pose proof (read_words_uptime (dev_base dev + VAMS_COMMAND_SUBMISSION) VAMS_COMMAND_WORDS w2) as H2.
    destruct (read_words _ _ w2) as [ws w3]. simpl in H2.
    pose proof (uptime_write32 1 (dev_base dev + VAMS_COMMAND_FW_ACK) w3) as H3.
    eexists _, _, _. split; [done|]. split; [lia|]. left. auto using submission_of_words_wf.
  - eexists _, _, _. split; [done|]. split; [lia|]. right. auto.
Qed.

(** Without interruption the steps are the functions. *)
Lemma send_words_steps dev busy doorbell c i ws w :
  drop i (completion_words c) = ws ->
  send_steps (S (length ws)) dev busy doorbell c (send_word i) w
  = (inr rc_ok, sys_write32 1 (dev_base dev + doorbell)
      (write_words (dev_base dev + VAMS_COMMAND_COMPLETION + 4 * Z.of_nat i) ws w)).
Proof.
  revert i w. induction ws as [|x ws IH]; intros i w Hd.
  - cbn [send_steps length send_step write_words].
    assert (Hn : completion_words c !! i = None).
    { rewrite <-(Nat.add_0_r i), <-lookup_drop, Hd. done. }
    by rewrite Hn.
  - assert (Hx : completion_words c !! i = Some x).
    { rewrite <-(Nat.add_0_r i), <-lookup_drop, Hd. done. }
    change (length (x :: ws)) with (S (length ws)). remember (S (length ws)) as n.
    cbn [send_steps send_step]. rewrite Hx. subst n. rewrite IH.
    + cbn [write_words].
      by replace (dev_base dev + VAMS_COMMAND_COMPLETION + 4 * Z.of_nat (S i))
        with (dev_base dev + VAMS_COMMAND_COMPLETION + 4 * Z.of_nat i + 4) by lia.
    + rewrite (drop_S _ _ _ Hx) in Hd. by injection Hd.
Qed.

Lemma completion_words_length c : length (completion_words c) = 8%nat.
Proof.
  apply (words_of_bytes_range 8); [by rewrite completion_bytes_length|apply pack_range].
Qed.

Lemma complete_steps dev c w :
  send_steps 10 dev VAMS_COMMAND_F2H_PENDING VAMS_COMMAND_FW_COMPLETE c send_check w
  = (inr (vams_command_complete dev (Some c) w).1, (vams_command_complete dev (Some c) w).2).
Proof.
  unfold vams_command_complete. remember 9%nat as n. cbn [send_steps send_step]. subst n.
  destruct (sys_read32 _ w) as [status w1]. destruct (has_bits _ _); [done|].
  pose proof (send_words_steps dev VAMS_COMMAND_F2H_PENDING VAMS_COMMAND_FW_COMPLETE c 0
    (completion_words c) w1 eq_refl) as E. rewrite completion_words_length in E. rewrite E.
  by rewrite Z.add_0_r.
Qed.

Lemma abort_steps dev c w :
  send_steps 10 dev VAMS_COMMAND_RESULT_PENDING VAMS_COMMAND_FW_ABORT c send_check w
  = (inr (vams_command_abort dev (Some c) w).1, (vams_command_abort dev (Some c) w).2).
Proof.
  unfold vams_command_abort. remember 9%nat as n. cbn [send_steps send_step]. subst n.
  destruct (sys_read32 _ w) as [status w1]. destruct (has_bits _ _); [done|].
  pose proof (send_words_steps dev VAMS_COMMAND_RESULT_PENDING VAMS_COMMAND_FW_ABORT c 0
    (completion_words c) w1 eq_refl) as E. rewrite completion_words_length in E. rewrite E.
  by rewrite Z.add_0_r.
Qed.

Lemma send_step_cases dev busy doorbell c pc w :
  exists r w', send_step dev busy doorbell c pc w = (r, w') /\
    (r = inr rc_ok \/ r = inr (rc_err EBUSY) \/ exists pc', r = inl pc').
Proof.
  destruct pc as [|i]; cbn [send_step].
  - destruct (sys_read32 _ w) as [status w1]. destruct (has_bits status busy); eauto 10.
  - destruct (completion_words c !! i); eauto 10.
Qed.
End Portal.

(** ** The device behind the driver

    The contract of docs/management-peripherals.md: a descriptor the host
    posted stays in the submission window until the firmware acknowledges it;
    the completion window is memory; writing [FW_COMPLETE] while no descriptor
    and no completion is pending hands the window to the host. *)

Class PortalDevice (W : Type) := {
  portal_h2f : W -> option (list Z);     (* words of the pending descriptor *)
  portal_f2h : W -> option (list Z);     (* words of the pending completion *)
  portal_window : W -> list Z;           (* the completion staging window *)
}.

Class PortalDeviceLaws (W : Type) `{!Platform W, !PortalDevice W} (dev : device) : Prop := {
  h2f_shape w ws :
    portal_h2f w = Some ws -> length ws = VAMS_COMMAND_WORDS /\ Forall is_u32 ws;
  h2f_status w :
    Z.testbit (sys_read32 (dev_base dev + VAMS_COMMAND_STATUS) w).1 0 =
    bool_decide (is_Some (portal_h2f (sys_read32 (dev_base dev + VAMS_COMMAND_STATUS) w).2));
  h2f_held_read a w ws : portal_h2f w = Some ws -> portal_h2f (sys_read32 a w).2 = Some ws;
  h2f_held_calc t w ws : portal_h2f w = Some ws -> portal_h2f (sys_timepoint_calc t w).2 = Some ws;
  h2f_word i w ws x :
    portal_h2f w = Some ws -> ws !! i = Some x ->
    (sys_read32 (dev_base dev + VAMS_COMMAND_SUBMISSION + 4 * Z.of_nat i) w).1 = x;
  h2f_ack w : portal_h2f (sys_write32 1 (dev_base dev + VAMS_COMMAND_FW_ACK) w) = None;
  f2h_status w :
    Z.testbit (sys_read32 (dev_base dev + VAMS_COMMAND_STATUS) w).1 1 =
    bool_decide (is_Some (portal_f2h (sys_read32 (dev_base dev + VAMS_COMMAND_STATUS) w).2));
  f2h_idle_write i v w :
    portal_f2h w = None ->
    portal_f2h (sys_write32 v (dev_base dev + VAMS_COMMAND_COMPLETION + 4 * Z.of_nat i) w) = None;
  window_length w : length (portal_window w) = VAMS_COMPLETION_WORDS;
  window_write i v w :
    (i < VAMS_COMPLETION_WORDS)%nat -> is_u32 v ->
    portal_window (sys_write32 v (dev_base dev + VAMS_COMMAND_COMPLETION + 4 * Z.of_nat i) w)
    = <[i := v]> (portal_window w);
  f2h_publish w :
    let w' := sys_write32 1 (dev_base dev + VAMS_COMMAND_FW_COMPLETE) w in
    portal_f2h w = None -> portal_h2f w' = None -> portal_f2h w' = Some (portal_window w);
}.

Section Delivery.
Context {W : Type} `{!Platform W, !PlatformLaws W, !PortalDevice W} (dev : device)
  `{!PortalDeviceLaws W dev}.

Lemma read_submission_words i n w ws :
  portal_h2f w = Some ws -> (i + n <= length ws)%nat ->
  (read_words (dev_base dev + VAMS_COMMAND_SUBMISSION + 4 * Z.of_nat i) n w).1
    = take n (drop i ws).
Proof.
  revert i w; induction n as [|n IH]; intros i w Hh Hn; [by rewrite take_0|].
  destruct (lookup_lt_is_Some_2 ws i ltac:(lia)) as [x Hx]. cbn [read_words].
  pose proof (h2f_word i w ws x Hh Hx) as E.
  pose proof (h2f_held_read (dev_base dev + VAMS_COMMAND_SUBMISSION + 4 * Z.of_nat i) w ws Hh) as Hh'.
  destruct (sys_read32 _ w) as [y w1]. simpl in E, Hh'. subst y.
  replace (dev_base dev + VAMS_COMMAND_SUBMISSION + 4 * Z.of_nat i + 4)
    with (dev_base dev + VAMS_COMMAND_SUBMISSION + 4 * Z.of_nat (S i)) by lia.
  specialize (IH (S i) w1 Hh' ltac:(lia)).
  destruct (read_words _ n w1) as [xs w2]. simpl in *. rewrite IH.
  by rewrite (drop_S _ _ _ Hx).
Qed.

Lemma write_completion_words i ws w :
  (i + length ws <= VAMS_COMPLETION_WORDS)%nat -> Forall is_u32 ws -> portal_f2h w = None ->
  let w' := write_words (dev_base dev + VAMS_COMMAND_COMPLETION + 4 * Z.of_nat i) ws w in
  portal_f2h w' = None /\
  portal_window w' = take i (portal_window w) ++ ws ++ drop (i + length ws) (portal_window w).
Proof.
  intros Hl Hws. revert i w Hl. induction Hws as [|x xs Hx _ IH]; intros i w Hl Hf; cbv zeta.
  - simpl. by rewrite Nat.add_0_r, take_drop.
  - cbn [write_words length] in *.
    replace (dev_base dev + VAMS_COMMAND_COMPLETION + 4 * Z.of_nat i + 4)
      with (dev_base dev + VAMS_COMMAND_COMPLETION + 4 * Z.of_nat (S i)) by lia.
    set (w1 := sys_write32 x _ w).
    destruct (IH (S i) w1) as [IH1 IH2]; [lia|by apply f2h_idle_write|].
    split; [done|]. rewrite IH2. unfold w1. rewrite window_write by (done || lia).
    pose proof (window_length w) as Hr.
    rewrite take_insert_succ, drop_insert_lt by lia.
    rewrite <-app_assoc. cbn [app]. do 4 f_equal. lia.
Qed.

Lemma completion_words_shape c :
  Forall is_u32 (completion_words c) /\ length (completion_words c) = VAMS_COMPLETION_WORDS.
Proof.
  apply words_of_bytes_range; [by rewrite completion_bytes_length|apply pack_range].
Qed.

(** Reading the window while a descriptor is pending gives its words. *)
Lemma read_pending w ws :
  portal_h2f w = Some ws ->
  (read_words (dev_base dev + VAMS_COMMAND_SUBMISSION) VAMS_COMMAND_WORDS w).1 = ws /\
  submission_words (submission_of_words ws) = ws.
Proof.
  intros H2. destruct (h2f_shape w ws H2) as [Hl Hu]. split.
  - pose proof (read_submission_words 0 VAMS_COMMAND_WORDS w ws H2 ltac:(lia)) as Hr.
    replace (dev_base dev + VAMS_COMMAND_SUBMISSION + 4 * Z.of_nat 0)
      with (dev_base dev + VAMS_COMMAND_SUBMISSION) in Hr by lia.
    by rewrite drop_0, take_ge in Hr by lia.
  - unfold submission_words, submission_of_words. rewrite submission_bytes_of_bytes.
    + by apply words_of_bytes_of_words.
    + apply bytes_of_words_range.
    + by rewrite bytes_of_words_length, Hl.
Qed.

(** A pending descriptor is received as it is. *)
Lemma receive_pending (w : W) (ws : list Z) (buf : vams_submission) (t : Z) :
  portal_h2f w = Some ws ->
  exists s w',
    vams_command_receive dev (Some buf) t w = Ok (rc_ok, Some s, w') /\
    submission_words s = ws /\ wf_submission s /\ portal_h2f w' = None.
Proof.
  intros Hpending. unfold vams_command_receive. pose proof (h2f_held_calc t w ws Hpending) as H1.
  destruct (sys_timepoint_calc t w) as [deadline w1]. simpl in H1.
  unfold wait_fuel. cbn [portal_wait].
  pose proof (h2f_status w1) as Hst.
  pose proof (h2f_held_read (dev_base dev + VAMS_COMMAND_STATUS) w1 ws H1) as H2.
  destruct (sys_read32 (dev_base dev + VAMS_COMMAND_STATUS) w1) as [status w2]. cbn [fst snd] in Hst, H2.
  rewrite H2, bool_decide_eq_true_2 in Hst by eauto.
  fold (has_bits status VAMS_COMMAND_H2F_PENDING). unfold VAMS_COMMAND_H2F_PENDING.
  rewrite has_bits_BIT, Hst by lia. cbn [mbind result_bind negb].
  destruct (read_pending w2 ws H2) as [Hr Hs]. destruct (read_words _ _ w2) as [words w3].
  simpl in Hr. subst words. eexists _, _.
  split; [done|]. split_and!; [exact Hs|apply submission_of_words_wf|apply h2f_ack].
Qed.

(** What an immediate poll returns is the descriptor pending when its status
    read found one. *)
Lemma receive_now (w w' : W) (buf s : vams_submission) :
  vams_command_receive dev (Some buf) 0 w = Ok (rc_ok, Some s, w') ->
  portal_h2f (sys_read32 (dev_base dev + VAMS_COMMAND_STATUS) (sys_timepoint_calc 0 w).2).2
  = Some (submission_words s).
Proof.
  unfold vams_command_receive. destruct (sys_timepoint_calc 0 w) as [deadline w1].
  cbn [wait_fuel Z.to_nat portal_wait snd]. pose proof (h2f_status w1) as Hst.
  destruct (sys_read32 (dev_base dev + VAMS_COMMAND_STATUS) w1) as [status w2]. cbn [fst snd] in *.
  fold (has_bits status VAMS_COMMAND_H2F_PENDING). unfold VAMS_COMMAND_H2F_PENDING.
  rewrite has_bits_BIT, Hst by lia.
  destruct (portal_h2f w2) as [ws|] eqn:Eh; cbn [mbind result_bind negb].
  - rewrite bool_decide_eq_true_2 by eauto. cbn [mbind result_bind negb].
    destruct (read_pending w2 ws Eh) as [Hr Hs]. destruct (read_words _ _ w2) as [words w3].
    simpl in Hr. subst words. intros [= <- _]. by rewrite Hs.
  - rewrite bool_decide_eq_false_2 by (intros [? [=]]). cbn [mbind result_bind].
    destruct (sys_timepoint_expired _ _) as [[|] w3]; cbn [mbind result_bind negb]; done.
Qed.

(** C29: what the host posts is what the firmware captures.  When a descriptor
    is pending, a receive with any timeout returns success with exactly the
    descriptor whose words are in the window, and leaves the window free for
    the next one; when the buffer held [s], its word image is the window. *)
Theorem portal_delivers_submission (w : W) (ws : list Z) (buf : vams_submission) (t : Z)
    (Hpending : portal_h2f w = Some ws) (Ht : 0 <= t) :
  exists s w',
    vams_command_receive dev (Some buf) t w = Ok (rc_ok, Some s, w') /\
    submission_words s = ws /\ wf_submission s /\ portal_h2f w' = None.
Proof. by apply receive_pending. Qed.

(** Publication is all or nothing.  [vams_command_complete] returns
    -EBUSY exactly when the status it read shows an unconsumed completion,
    and then writes nothing; otherwise it returns 0 and, if no descriptor is
    waiting when the doorbell takes effect, the host gets exactly the eight
    words of the completion. *)
Theorem portal_publishes_completion (w : W) (c : vams_completion) :
  let w1 := (sys_read32 (dev_base dev + VAMS_COMMAND_STATUS) w).2 in
  match portal_f2h w1 with
  | Some _ => vams_command_complete dev (Some c) w = (rc_err EBUSY, w1)
  | None =>
      exists w', vams_command_complete dev (Some c) w = (rc_ok, w') /\
        (portal_h2f w' = None -> portal_f2h w' = Some (completion_words c))
  end.
Proof.
  cbv zeta. unfold vams_command_complete, VAMS_COMMAND_F2H_PENDING.
  pose proof (f2h_status w) as Hst.
  destruct (sys_read32 (dev_base dev + VAMS_COMMAND_STATUS) w) as [status w1]. cbn [fst snd] in *.
  rewrite has_bits_BIT, Hst by lia.
  destruct (portal_f2h w1) as [ws|] eqn:Hf; [done|]. cbn [is_Some].
  rewrite bool_decide_eq_false_2 by (by apply is_Some_None).
  eexists; split; [done|]. intros Hh.
  destruct (completion_words_shape c) as [Hu Hl].
  destruct (write_completion_words 0 (completion_words c) w1) as [Hw1 Hw2]; [lia|done..|].
  replace (dev_base dev + VAMS_COMMAND_COMPLETION + 4 * Z.of_nat 0)
    with (dev_base dev + VAMS_COMMAND_COMPLETION) in Hw1, Hw2 by lia.
  rewrite f2h_publish by done. f_equal. rewrite Hw2, Hl. rewrite take_0. cbn [app Nat.add].
  pose proof (window_length w1) as Hwl. rewrite drop_ge by lia. by rewrite app_nil_r.
Qed.
End Delivery.

(** ** A concrete portal *)

Record portal_world : Type := {
  pw_h2f : option (nat -> Z);
  pw_f2h : option (list Z);
  pw_window : gmap nat Z;
  pw_time : Z;
}.

Definition pw_submission (w : portal_world) : option (list Z) :=
  (fun f => (fun i => u32 (f i)) <$> seq 0 VAMS_COMMAND_WORDS) <$> pw_h2f w.
Definition pw_staged (w : portal_world) : list Z :=
  (fun i => u32 (default 0 (pw_window w !! i))) <$> seq 0 VAMS_COMPLETION_WORDS.
#[global] Arguments pw_submission : simpl never.
#[global] Arguments pw_staged : simpl never.

Definition portal_dev : device := {| dev_ready := true; dev_base := 0 |}.

Definition pw_read (a : Z) (w : portal_world) : Z :=
  if a =? VAMS_COMMAND_STATUS then
    match pw_h2f w with Some _ => 1 | None => 0 end +
    match pw_f2h w with Some _ => 2 | None => 0 end
  else match pw_submission w ≫= (.!! Z.to_nat ((a - VAMS_COMMAND_SUBMISSION) / 4)) with
       | Some x => u32 x
       | None => 0
       end.

Definition pw_write (v a : Z) (w : portal_world) : portal_world :=
  if a =? VAMS_COMMAND_FW_ACK then
    {| pw_h2f := None; pw_f2h := pw_f2h w; pw_window := pw_window w; pw_time := pw_time w |}
  else if a =? VAMS_COMMAND_FW_COMPLETE then
    match pw_h2f w, pw_f2h w with
    | None, None => {| pw_h2f := None; pw_f2h := Some (pw_staged w);
                       pw_window := pw_window w; pw_time := pw_time w |}
    | _, _ => w
    end
  else if (VAMS_COMMAND_COMPLETION <=? a) && (a <? VAMS_COMMAND_RESULT) then
    {| pw_h2f := pw_h2f w; pw_f2h := pw_f2h w;
       pw_window := <[Z.to_nat ((a - VAMS_COMMAND_COMPLETION) / 4) := v]> (pw_window w);
       pw_time := pw_time w |}
  else w.

#[export] Instance portal_platform : Platform portal_world := {|
  uptime w := Z.max 0 (pw_time w);
  sys_read32 a w := (pw_read a w, w);
  sys_write32 v a w := pw_write v a w;
  k_uptime_get w := (Z.max 0 (pw_time w), w);
  k_sleep_ms ms w := {| pw_h2f := pw_h2f w; pw_f2h := pw_f2h w; pw_window := pw_window w;
                        pw_time := Z.max 0 (pw_time w) + ms |};
  sys_timepoint_calc t w := (Z.max 0 (pw_time w) + t, w);
  sys_timepoint_expired d w := (d <=? Z.max 0 (pw_time w), w);
|}.

#[export] Instance portal_device : PortalDevice portal_world := {|
  portal_h2f := pw_submission;
  portal_f2h := pw_f2h;
  portal_window := pw_staged;
|}.

Lemma pw_write_window i v w :
  let w' := pw_write v (dev_base portal_dev + VAMS_COMMAND_COMPLETION + 4 * Z.of_nat i) w in
  pw_f2h w' = pw_f2h w /\
  ((i < VAMS_COMPLETION_WORDS)%nat -> pw_window w' = <[i := v]> (pw_window w)).
Proof.
  cbv zeta. unfold pw_write, VAMS_COMMAND_FW_ACK, VAMS_COMMAND_FW_COMPLETE,
    VAMS_COMMAND_COMPLETION, VAMS_COMMAND_RESULT.
  cbn [dev_base portal_dev]. set (a := 0 + 512 + 4 * Z.of_nat i).
  assert (Ha : a = 512 + Z.of_nat i * 4) by lia. clearbody a.
  replace (a =? 8) with false by (symmetry; apply Z.eqb_neq; lia).
  replace (a =? 12) with false by (symmetry; apply Z.eqb_neq; lia).
  destruct ((512 <=? a) && (a <? 768)) eqn:Er; (split; [done|]); intros Hi.
  - simpl. replace (a - 512) with (Z.of_nat i * 4) by lia.
    by rewrite Z.div_mul, Nat2Z.id by lia.
  - change VAMS_COMPLETION_WORDS with 8%nat in Hi. exfalso.
    apply andb_false_iff in Er as [Er|Er]; [apply Z.leb_gt in Er|apply Z.ltb_ge in Er]; lia.
Qed.

#[export] Instance portal_device_laws : PortalDeviceLaws portal_world portal_dev.
Proof.
  split; cbn [portal_h2f portal_f2h portal_window portal_device sys_read32 sys_write32
              sys_timepoint_calc portal_platform fst snd]; try done.
  - intros w ws. unfold pw_submission. destruct (pw_h2f w) as [f|]; [|done].
    intros Hw. apply (inj Some) in Hw. subst ws. split; [done|].
    apply Forall_fmap, Forall_true. intros i. apply u32_range.
  - intros w. unfold pw_submission. unfold pw_read. simpl. by destruct (pw_h2f w), (pw_f2h w).
  - intros i w ws x Hw Hx. unfold pw_read. rewrite Hw. cbn [mbind option_bind].
    unfold VAMS_COMMAND_STATUS, VAMS_COMMAND_SUBMISSION. cbn [dev_base portal_dev].
    replace (0 + 256 + 4 * Z.of_nat i =? 0) with false by (symmetry; apply Z.eqb_neq; lia).
    replace (0 + 256 + 4 * Z.of_nat i - 256) with (Z.of_nat i * 4) by lia.
    rewrite Z.div_mul, Nat2Z.id, Hx by lia. apply u32_id.
    unfold pw_submission in Hw. destruct (pw_h2f w) as [f|]; [|done]. apply (inj Some) in Hw. subst ws.
    apply list_lookup_fmap_Some in Hx as (j & -> & _). apply u32_range.
  - intros w. unfold pw_read. simpl. by destruct (pw_h2f w), (pw_f2h w).
  - intros i v w Hw. by rewrite (proj1 (pw_write_window i v w)).
  - intros i v w Hi Hv. unfold pw_staged. rewrite (proj2 (pw_write_window i v w) Hi).
    apply list_eq. intros j. rewrite list_lookup_fmap.
    destruct (decide (j = i)) as [->|Hne].
    + rewrite list_lookup_insert_eq by by rewrite length_fmap, length_seq.
      rewrite lookup_seq_lt by done. cbn [fmap option_fmap option_map].
      rewrite lookup_insert_eq. simpl. by rewrite u32_id.
    + rewrite list_lookup_insert_ne, list_lookup_fmap by done.
      destruct (decide (j < VAMS_COMPLETION_WORDS)%nat).
      * rewrite lookup_seq_lt by done. cbn [fmap option_fmap option_map].
        by rewrite lookup_insert_ne.
      * by rewrite lookup_seq_ge by lia.
  - intros w Hf. unfold pw_write, pw_submission. simpl. rewrite Hf.
    destruct (pw_h2f w) as [f|] eqn:Eh; [|done]. by rewrite Eh.
Qed.

#[export] Instance portal_platform_laws : PlatformLaws portal_world.
Proof.
  split; simpl; intros; try lia.
  - unfold pw_read. repeat case_match; try word_lia; apply u32_range.
  - unfold pw_write. repeat case_match; simpl; lia.
Qed.

(** ** Witness *)

Definition posted_world : portal_world :=
  {| pw_h2f := Some (fun i => Z.of_nat i + 1); pw_f2h := None; pw_window := ∅; pw_time := 5 |}.

Lemma portal_delivers_submission_witness :
  exists s w', vams_command_receive portal_dev (Some zero_submission) 0 posted_world
      = Ok (rc_ok, Some s, w') /\ submission_words s = (fun i => Z.of_nat i + 1) <$> seq 0 16 /\
    portal_h2f w' = None.
Proof.
  destruct (portal_delivers_submission portal_dev posted_world
              ((fun i => Z.of_nat i + 1) <$> seq 0 16) zero_submission 0)
    as (s & w' & E & Hs & _ & Hh); [reflexivity|lia|].
  exists s, w'. split; [exact E|]. split; [exact Hs|exact Hh].
Defined.

(** The completion a host of [posted_world] receives once its descriptor has
    been acknowledged. *)
Definition acked_world : portal_world := pw_write 1 VAMS_COMMAND_FW_ACK posted_world.
Definition sample_completion : vams_completion :=
  {| c_command_id := 7; c_status := VAMS_STATUS_SUCCESS; c_error_code := VAMS_ERR_NONE;
     c_bytes_processed := 16; c_result_crc := 0x1234; c_device_timestamp := 99;
     c_user_cookie := 0x1122334455667788 |}.

Lemma portal_publishes_completion_witness :
  exists w', vams_command_complete portal_dev (Some sample_completion) acked_world = (rc_ok, w') /\
    portal_f2h w' = Some (completion_words sample_completion).
Proof.
  destruct (portal_publishes_completion portal_dev acked_world sample_completion)
    as (w' & E & Hf).
  exists w'. split; [exact E|]. apply Hf.
  vm_compute in E. injection E as <-. reflexivity.
Defined.

(** The completion window has no lock: an abort request written while the
    completion service is half way through publishing leaves the host a
    completion that nobody wrote. *)
Definition sample_abort : vams_completion :=
  {| c_command_id := 8; c_status := VAMS_STATUS_TIMED_OUT; c_error_code := VAMS_ERR_TIMEOUT;
     c_bytes_processed := 0; c_result_crc := 0; c_device_timestamp := 100; c_user_cookie := 5 |}.

Definition torn_world : portal_world :=
  let send n busy doorbell c pc w := send_steps n portal_dev busy doorbell c pc w in
  let '(_, w) := send 4%nat VAMS_COMMAND_F2H_PENDING VAMS_COMMAND_FW_COMPLETE
                   sample_completion send_check acked_world in
  let '(_, w) := send 10%nat VAMS_COMMAND_RESULT_PENDING VAMS_COMMAND_FW_ABORT
                   sample_abort send_check w in
  let '(_, w) := send 6%nat VAMS_COMMAND_F2H_PENDING VAMS_COMMAND_FW_COMPLETE
                   sample_completion (send_word 3) w in
  w.

Example torn_completion :
  portal_f2h torn_world
  = Some (take 3 (completion_words sample_abort) ++ drop 3 (completion_words sample_completion)) /\
  portal_f2h torn_world <> Some (completion_words sample_completion).
Proof. split; [reflexivity|]. vm_compute. discriminate. Qed.
