(* ===== verification/Firmware.v ===== *)
(** * Shared firmware state (the statics of firmware/src/main.c)

    The atomics, queues, command pool and task-local states of main.c in one
    record, the helpers every task uses ([vams_queue_put],
    [vams_task_progress], the portal publication with its overload reset), and
    their lemmas.  The test-only Kconfig hooks [CONFIG_VAMS_OVERLOAD_TEST] and
    [CONFIG_VAMS_HEALTH_TEST] default to [n] and are compiled out of the
    modelled configuration. *)

From S2P Require Import Prelude Abi Overload Command Platform Management Retained Event.
From S2P Require Import Scheduler Portal.

Definition VAMS_COMPLETION_PUBLISH_TIMEOUT_MS : Z := 100.
Definition VAMS_ABORT_ACK_TIMEOUT_MS : Z := 100.
Definition VAMS_SERVICE_POLL_MS : Z := 100.

(** ** Atomics *)

Inductive atomic_var : Type :=
| producer_epoch | monitor_epoch | mailbox_epoch | receiver_epoch | validator_epoch
| scheduler_epoch | recovery_epoch | completion_epoch
| command_objects_in_use | command_pool_high_water | validation_queue_high_water
| ready_queue_high_water | running_queue_high_water | completion_queue_high_water
| recovery_attempt_count | recovery_escalation_count | admission_defer_count
| heartbeat_drop_count | queue_overload_count | portal_stall_count
| overload_reset_requested | health_failure_count | health_stuck_task.

#[export] Instance atomic_var_eq_dec : EqDecision atomic_var.
Proof. solve_decision. Defined.

(** The cells, as 32-bit values. *)
Definition atomics : Type := atomic_var -> Z.

Definition atomic_set (v : atomic_var) (x : Z) (a : atomics) : atomics :=
  fun v' => if decide (v' = v) then x else a v'.
Definition atomic_inc (v : atomic_var) (a : atomics) : atomics := atomic_set v (u32 (a v + 1)) a.
Definition atomic_dec (v : atomic_var) (a : atomics) : atomics := atomic_set v (u32 (a v - 1)) a.
Definition saturating_inc (v : atomic_var) (a : atomics) : atomics :=
  atomic_set v (vams_saturating_atomic_inc [] (a v)) a.
Definition record_high_water (v : atomic_var) (x : Z) (a : atomics) : atomics :=
  atomic_set v (vams_record_high_water [] (a v) x) a.

(** ** Task-local states

    Where each command task is in its loop, with the command it holds (a
    command pointer is the index of its pool block). *)

Inductive receiver_pc : Type :=
| rx_loop
| rx_admitted
| rx_reserved (b : nat)    (* taken from the pool, not counted yet *)
| rx_allocated (b : nat)
| rx_freed                 (* given back, still counted *)
| rx_captured (b : nat).

Inductive validator_pc : Type :=
| va_loop
| va_received (b : nat)
| va_validated (b : nat) (accepted : bool).

(** In [vams_publish_portal_completion]: its deadline, and where it is in
    [vams_command_complete]. *)
Inductive publish_pc : Type := publishing (deadline : Z) (p : send_pc).

Inductive scheduler_pc : Type :=
| sc_loop
| sc_drain
| sc_dispatch (b : nat)
| sc_authorize (b : nat)
| sc_authorizing (b : nat) (p : publish_pc)
| sc_running (b : nat)
| sc_finish (b : nat)
| sc_reset (b : nat).

Inductive recovery_pc : Type :=
| re_loop
| re_waiting (b : nat) (now_ms : Z)
| re_abort (b : nat)
| re_requesting (b : nat) (p : send_pc)        (* in [vams_command_abort] *)
| re_answer (b : nat) (timeout_ms : Z)
| re_escalate (b : nat)
| re_apply (b : nat) (r : vams_completion)
| re_finish (b : nat).

Inductive completion_pc : Type :=
| cp_loop
| cp_publish (b : nat)
| cp_publishing (b : nat) (terminal_state : vams_command_state) (p : publish_pc)
| cp_published (b : nat) (terminal_state : vams_command_state)
| cp_freed                                     (* the block is free, still counted *)
| cp_reset (b : nat).

(** ** The state *)

Record fw (W : Type) (Q : Type -> Type) (S : Type) : Type := {
  f_env : log_env W Q;
  f_atomics : atomics;
  f_pool : S;                                  (* vams_command_pool *)
  f_objects : gmap nat vams_command_object;    (* the memory of its blocks *)
  f_validation : Q nat;
  f_ready : Q nat;
  f_running : Q nat;
  f_completion : Q nat;
  f_sequence : Z;                              (* command_sequence *)
  f_rx : receiver_pc;
  f_va : validator_pc;
  f_sc : scheduler_pc;
  f_sc_ready : list nat;                       (* ready[0 .. ready_count) *)
  f_re : recovery_pc;
  f_cp : completion_pc;
}.
Arguments Build_fw {W Q S}.
Arguments f_env {W Q S}.
Arguments f_atomics {W Q S}.
Arguments f_pool {W Q S}.
Arguments f_objects {W Q S}.
Arguments f_validation {W Q S}.
Arguments f_ready {W Q S}.
Arguments f_running {W Q S}.
Arguments f_completion {W Q S}.
Arguments f_sequence {W Q S}.
Arguments f_rx {W Q S}.
Arguments f_va {W Q S}.
Arguments f_sc {W Q S}.
Arguments f_sc_ready {W Q S}.
Arguments f_re {W Q S}.
Arguments f_cp {W Q S}.

Section Setters.
Context {W : Type} {Q : Type -> Type} {S : Type}.
Definition set_f_env (x : log_env W Q) (s : fw W Q S) : fw W Q S :=
  Build_fw x (f_atomics s) (f_pool s) (f_objects s) (f_validation s) (f_ready s)
    (f_running s) (f_completion s) (f_sequence s) (f_rx s) (f_va s) (f_sc s)
    (f_sc_ready s) (f_re s) (f_cp s).
Definition set_f_atomics (x : atomics) (s : fw W Q S) : fw W Q S :=
  Build_fw (f_env s) x (f_pool s) (f_objects s) (f_validation s) (f_ready s)
    (f_running s) (f_completion s) (f_sequence s) (f_rx s) (f_va s) (f_sc s)
    (f_sc_ready s) (f_re s) (f_cp s).
Definition set_f_pool (x : S) (s : fw W Q S) : fw W Q S :=
  Build_fw (f_env s) (f_atomics s) x (f_objects s) (f_validation s) (f_ready s)
    (f_running s) (f_completion s) (f_sequence s) (f_rx s) (f_va s) (f_sc s)
    (f_sc_ready s) (f_re s) (f_cp s).
Definition set_f_objects (x : gmap nat vams_command_object) (s : fw W Q S) : fw W Q S :=
  Build_fw (f_env s) (f_atomics s) (f_pool s) x (f_validation s) (f_ready s)
    (f_running s) (f_completion s) (f_sequence s) (f_rx s) (f_va s) (f_sc s)
    (f_sc_ready s) (f_re s) (f_cp s).
Definition set_f_validation (x : Q nat) (s : fw W Q S) : fw W Q S :=
  Build_fw (f_env s) (f_atomics s) (f_pool s) (f_objects s) x (f_ready s) (f_running
    s) (f_completion s) (f_sequence s) (f_rx s) (f_va s) (f_sc s) (f_sc_ready s) (f_re
    s) (f_cp s).
Definition set_f_ready (x : Q nat) (s : fw W Q S) : fw W Q S :=
  Build_fw (f_env s) (f_atomics s) (f_pool s) (f_objects s) (f_validation s) x
    (f_running s) (f_completion s) (f_sequence s) (f_rx s) (f_va s) (f_sc s)
    (f_sc_ready s) (f_re s) (f_cp s).
Definition set_f_running (x : Q nat) (s : fw W Q S) : fw W Q S :=
  Build_fw (f_env s) (f_atomics s) (f_pool s) (f_objects s) (f_validation s) (f_ready
    s) x (f_completion s) (f_sequence s) (f_rx s) (f_va s) (f_sc s) (f_sc_ready s)
    (f_re s) (f_cp s).
Definition set_f_completion (x : Q nat) (s : fw W Q S) : fw W Q S :=
  Build_fw (f_env s) (f_atomics s) (f_pool s) (f_objects s) (f_validation s) (f_ready
    s) (f_running s) x (f_sequence s) (f_rx s) (f_va s) (f_sc s) (f_sc_ready s) (f_re
    s) (f_cp s).
Definition set_f_sequence (x : Z) (s : fw W Q S) : fw W Q S :=
  Build_fw (f_env s) (f_atomics s) (f_pool s) (f_objects s) (f_validation s) (f_ready
    s) (f_running s) (f_completion s) x (f_rx s) (f_va s) (f_sc s) (f_sc_ready s)
    (f_re s) (f_cp s).
Definition set_f_rx (x : receiver_pc) (s : fw W Q S) : fw W Q S :=
  Build_fw (f_env s) (f_atomics s) (f_pool s) (f_objects s) (f_validation s) (f_ready
    s) (f_running s) (f_completion s) (f_sequence s) x (f_va s) (f_sc s) (f_sc_ready
    s) (f_re s) (f_cp s).
Definition set_f_va (x : validator_pc) (s : fw W Q S) : fw W Q S :=
  Build_fw (f_env s) (f_atomics s) (f_pool s) (f_objects s) (f_validation s) (f_ready
    s) (f_running s) (f_completion s) (f_sequence s) (f_rx s) x (f_sc s) (f_sc_ready
    s) (f_re s) (f_cp s).
Definition set_f_sc (x : scheduler_pc) (s : fw W Q S) : fw W Q S :=
  Build_fw (f_env s) (f_atomics s) (f_pool s) (f_objects s) (f_validation s) (f_ready
    s) (f_running s) (f_completion s) (f_sequence s) (f_rx s) (f_va s) x (f_sc_ready
    s) (f_re s) (f_cp s).
Definition set_f_sc_ready (x : list nat) (s : fw W Q S) : fw W Q S :=
  Build_fw (f_env s) (f_atomics s) (f_pool s) (f_objects s) (f_validation s) (f_ready
    s) (f_running s) (f_completion s) (f_sequence s) (f_rx s) (f_va s) (f_sc s) x
    (f_re s) (f_cp s).
Definition set_f_re (x : recovery_pc) (s : fw W Q S) : fw W Q S :=
  Build_fw (f_env s) (f_atomics s) (f_pool s) (f_objects s) (f_validation s) (f_ready
    s) (f_running s) (f_completion s) (f_sequence s) (f_rx s) (f_va s) (f_sc s)
    (f_sc_ready s) x (f_cp s).
Definition set_f_cp (x : completion_pc) (s : fw W Q S) : fw W Q S :=
  Build_fw (f_env s) (f_atomics s) (f_pool s) (f_objects s) (f_validation s) (f_ready
    s) (f_running s) (f_completion s) (f_sequence s) (f_rx s) (f_va s) (f_sc s)
    (f_sc_ready s) (f_re s) x.
End Setters.

(** ** Helpers of main.c *)

(** [vams_task_progress] without the test hook. *)
Definition vams_task_progress (epoch : atomic_var) (a : atomics) : atomics := atomic_inc epoch a.

Definition vams_health_epochs (a : atomics) : list Z :=
  [u32 (a producer_epoch); u32 (a monitor_epoch); u32 (a mailbox_epoch); u32 (a receiver_epoch);
   u32 (a validator_epoch); u32 (a scheduler_epoch); u32 (a recovery_epoch);
   u32 (a completion_epoch)].

Definition vams_queue_put {Q : Type -> Type} `{!Msgq Q} {A : Type} (queue : Q A) (data : A)
    (high_water : atomic_var) (a : atomics) : rc * Q A * atomics :=
  let used_before := k_msgq_num_used_get queue in
  let capacity := u32 (used_before + k_msgq_num_free_get queue) in
  let '(status, queue) := k_msgq_put data queue in
  (status, queue,
   if rc_is_ok status then record_high_water high_water (Z.min (u32 (used_before + 1)) capacity) a
   else saturating_inc queue_overload_count a).

Definition vams_is_payload_opcode (opcode : Z) : bool :=
  (opcode =? VAMS_OP_MEM_COPY) || (opcode =? VAMS_OP_MEM_FILL) ||
  (opcode =? VAMS_OP_CRC32) || (opcode =? VAMS_OP_VECTOR_ADD).

Section Publish.
Context {W : Type} `{!Platform W} (command_portal management : device).

(** The [do ... while (status == -EBUSY)] loop. *)
Fixpoint publish_loop (fuel : nat) (c : vams_completion) (deadline : Z) (a : atomics) (w : W)
    : result (rc * atomics * W) :=
  match fuel with
  | O => Fault
  | S fuel' =>
      let '(status, w) := vams_command_complete command_portal (Some c) w in
      if rc_is EBUSY status then
        let '(now, w) := k_uptime_get w in
        if deadline <=? now then Ok (rc_err ETIMEDOUT, saturating_inc portal_stall_count a, w)
        else publish_loop fuel' c deadline a (k_sleep_ms 1 w)
      else Ok (status, a, w)
  end.

Definition publish_fuel : nat := S (Z.to_nat VAMS_COMPLETION_PUBLISH_TIMEOUT_MS).

Definition vams_publish_portal_completion (c : vams_completion) (a : atomics) (w : W)
    : result (rc * atomics * W) :=
  let '(now, w) := k_uptime_get w in
  publish_loop publish_fuel c (now + VAMS_COMPLETION_PUBLISH_TIMEOUT_MS) a w.

(** The same from one register access to the next: the deadline, then attempts
    with a sleep after each that finds the window taken. *)
Definition publish_start (w : W) : publish_pc * W :=
  let '(now, w) := k_uptime_get w in
  (publishing (now + VAMS_COMPLETION_PUBLISH_TIMEOUT_MS) send_check, w).

Definition publish_step (c : vams_completion) (pc : publish_pc) (a : atomics) (w : W)
    : (publish_pc + rc) * atomics * W :=
  let '(publishing deadline p) := pc in
  match complete_step command_portal c p w with
  | (inl p, w) => (inl (publishing deadline p), a, w)
  | (inr status, w) =>
      if rc_is EBUSY status then
        let '(now, w) := k_uptime_get w in
        if deadline <=? now then (inr (rc_err ETIMEDOUT), saturating_inc portal_stall_count a, w)
        else (inl (publishing deadline send_check), a, k_sleep_ms 1 w)
      else (inr status, a, w)
  end.

(** Up to the endless [k_sleep] loop, which [overload_reset_wait] iterates. *)
Definition vams_request_overload_reset (a : atomics) (w : W) : atomics * W :=
  (atomic_set overload_reset_requested 1 a, vams_management_reset management w).
Definition overload_reset_wait (w : W) : W := k_sleep_ms 10 w.

(** ** Lemmas *)

Context `{!PlatformLaws W}.

(** [n] steps with nothing in between. *)
Fixpoint publish_steps (n : nat) (c : vams_completion) (pc : publish_pc) (a : atomics) (w : W)
    : (publish_pc + rc) * atomics * W :=
  match n with
  | O => (inl pc, a, w)
  | S n' =>
      match publish_step c pc a w with
      | (inl pc, a, w) => publish_steps n' c pc a w
      | done => done
      end
  end.

Lemma publish_steps_app n m c pc a w :
  publish_steps (n + m) c pc a w =
  match publish_steps n c pc a w with
  | (inl pc, a, w) => publish_steps m c pc a w
  | done => done
  end.
Proof.
  revert pc a w. induction n as [|n IH]; intros pc a w; [done|]. cbn [publish_steps plus].
  destruct (publish_step c pc a w) as [[[pc'|status] a'] w']; [apply IH|done].
Qed.

(** One attempt. *)
Lemma publish_attempt n c deadline p a w status w' :
  send_steps n command_portal VAMS_COMMAND_F2H_PENDING VAMS_COMMAND_FW_COMPLETE c p w
    = (inr status, w') ->
  exists m, publish_steps (S m) c (publishing deadline p) a w =
    if rc_is EBUSY status then
      let '(now, w) := k_uptime_get w' in
      if deadline <=? now then (inr (rc_err ETIMEDOUT), saturating_inc portal_stall_count a, w)
      else (inl (publishing deadline send_check), a, k_sleep_ms 1 w)
    else (inr status, a, w').
Proof.
  revert p w. induction n as [|n IH]; intros p w; cbn [send_steps]; [done|].
  destruct (send_step command_portal _ _ c p w) as [[p'|status'] w1] eqn:E.
  - intros E'. destruct (IH p' w1 E') as [m Hm]. exists (S m). remember (S m) as m'.
    cbn [publish_steps publish_step]. unfold complete_step. by rewrite E.
  - intros [= -> ->]. exists O. cbn [publish_steps publish_step]. unfold complete_step. rewrite E.
    destruct (rc_is EBUSY status); [|done]. destruct (k_uptime_get w') as [now w2].
    by destruct (deadline <=? now).
Qed.

(** The steps are the function. *)
Lemma publish_loop_steps fuel c deadline a w status a' w' :
  publish_loop fuel c deadline a w = Ok (status, a', w') ->
  exists n, publish_steps n c (publishing deadline send_check) a w = (inr status, a', w').
Proof.
  revert w. induction fuel as [|fuel IH]; intros w; cbn [publish_loop]; [done|].
  pose proof (complete_steps command_portal c w) as Es.
  destruct (vams_command_complete command_portal (Some c) w) as [st w1]. cbn [fst snd] in Es.
  destruct (publish_attempt _ c deadline send_check a w st w1 Es) as [m Hm].
  destruct (rc_is EBUSY st); [|intros [= <- <- <-]; by exists (S m)].
  destruct (k_uptime_get w1) as [now w2].
  destruct (deadline <=? now); [intros [= <- <- <-]; by exists (S m)|].
  intros E. destruct (IH _ E) as [n Hn]. exists (S m + n)%nat. by rewrite publish_steps_app, Hm.
Qed.

Lemma publish_run_steps c a w status a' w' :
  vams_publish_portal_completion c a w = Ok (status, a', w') ->
  let '(pc, w1) := publish_start w in
  exists n, publish_steps n c pc a w1 = (inr status, a', w').
Proof.
  unfold vams_publish_portal_completion, publish_start. destruct (k_uptime_get w) as [now w1].
  apply publish_loop_steps.
Qed.

Lemma publish_step_cases c pc a w :
  exists r a' w', publish_step c pc a w = (r, a', w') /\
    (r = inr rc_ok /\ a' = a \/
     r = inr (rc_err ETIMEDOUT) /\ a' = saturating_inc portal_stall_count a \/
     exists pc', r = inl pc' /\ a' = a).
Proof.
  destruct pc as [deadline p]. unfold publish_step, complete_step.
  destruct (send_step_cases command_portal VAMS_COMMAND_F2H_PENDING VAMS_COMMAND_FW_COMPLETE c p w)
    as (r & w1 & E & [->|[->|[p' ->]]]); rewrite E; [by eauto 10| |by eauto 10].
  change (rc_is EBUSY (rc_err EBUSY)) with true. cbv iota.
  destruct (k_uptime_get w1) as [now w2]. destruct (deadline <=? now); eauto 10.
Qed.

Lemma write_words_uptime address ws w : uptime w <= uptime (write_words address ws w).
Proof.
  revert address w; induction ws as [|x ws IH]; intros address w; [done|]. simpl.
  pose proof (uptime_write32 x address w). specialize (IH (address + 4) (sys_write32 x address w)).
  lia.
Qed.

Lemma complete_cases c w :
  exists w', uptime w <= uptime w' /\
    (vams_command_complete command_portal (Some c) w = (rc_ok, w') \/
     vams_command_complete command_portal (Some c) w = (rc_err EBUSY, w')).
Proof.
  unfold vams_command_complete.
  pose proof (uptime_read32 (dev_base command_portal + VAMS_COMMAND_STATUS) w) as H1.
  destruct (sys_read32 _ w) as [status w1]. cbn [fst snd] in H1.
  destruct (has_bits status VAMS_COMMAND_F2H_PENDING); [by exists w1; auto|].
  set (w2 := write_words _ _ w1).
  pose proof (write_words_uptime (dev_base command_portal + VAMS_COMMAND_COMPLETION)
                (completion_words c) w1) as H2.
  pose proof (uptime_write32 1 (dev_base command_portal + VAMS_COMMAND_FW_COMPLETE) w2) as H3.
  eexists. split; [|by left]. unfold w2 in *. lia.
Qed.

Lemma publish_loop_ends fuel c deadline a w :
  deadline - uptime w <= Z.of_nat fuel ->
  exists a' w', publish_loop (S fuel) c deadline a w = Ok (rc_ok, a', w') /\ a' = a \/
    publish_loop (S fuel) c deadline a w = Ok (rc_err ETIMEDOUT, a', w') /\
    a' = saturating_inc portal_stall_count a /\ deadline <= uptime w'.
Proof.
  revert w. induction fuel as [|fuel IH]; intros w Hf; cbn [publish_loop];
    destruct (complete_cases c w) as (w1 & H1 & [E|E]); rewrite E;
    try (exists a, w1; by left);
    (change (rc_is EBUSY (rc_err EBUSY)) with true; cbv iota);
    pose proof (uptime_get w1) as Hg; pose proof (uptime_get_mono w1) as Hm;
    destruct (k_uptime_get w1) as [now w2]; cbn [fst snd] in Hg, Hm; subst now;
    (destruct (Z.leb_spec deadline (uptime w2)); [by eexists _, w2; right|]).
  - lia.
  - pose proof (uptime_sleep 1 w2 ltac:(lia)).
    destruct (IH (k_sleep_ms 1 w2)) as (a' & w' & E'); [clear IH; lia|]. by exists a', w'.
Qed.

(** Publication ends within its 100 ms budget: either the portal took the
    completion, or the stall is counted and -ETIMEDOUT is returned. *)
Lemma publish_ends c a w :
  exists status a' w', vams_publish_portal_completion c a w = Ok (status, a', w') /\
    (status = rc_ok /\ a' = a \/
     status = rc_err ETIMEDOUT /\ a' = saturating_inc portal_stall_count a /\
     uptime w + VAMS_COMPLETION_PUBLISH_TIMEOUT_MS <= uptime w').
Proof.
  unfold vams_publish_portal_completion, publish_fuel.
  pose proof (uptime_get w) as Hg. pose proof (uptime_get_mono w) as Hm.
  destruct (k_uptime_get w) as [now w1]. cbn [fst snd] in Hg, Hm.
  destruct (publish_loop_ends (Z.to_nat VAMS_COMPLETION_PUBLISH_TIMEOUT_MS) c
              (now + VAMS_COMPLETION_PUBLISH_TIMEOUT_MS) a w1) as (a' & w' & [[E ?]|[E [? ?]]]);
    [unfold VAMS_COMPLETION_PUBLISH_TIMEOUT_MS in *; lia| |];
    eexists _, a', w'; (split; [exact E|]); [by left|right; split_and!; try done; lia].
Qed.
End Publish.

Section QueuePut.
Context {Q : Type -> Type} `{!Msgq Q, !MsgqLaws Q}.

Lemma queue_put_spec {A} (q : Q A) x hw a :
  (length (msgq_items q) < msgq_limit q)%nat ->
  exists q' a', vams_queue_put q x hw a = (rc_ok, q', a') /\
    msgq_items q' = msgq_items q ++ [x] /\ msgq_limit q' = msgq_limit q /\
    (forall v, v <> hw -> a' v = a v).
Proof.
  intros Hl. unfold vams_queue_put. destruct (msgq_put_ok x q Hl) as (E & Hi & Hli).
  destruct (k_msgq_put x q) as [status q']. cbn [fst snd] in *. subst status.
  eexists q', _. split_and!; try done. intros v Hv. simpl. unfold record_high_water, atomic_set.
  by rewrite decide_False.
Qed.

Lemma queue_put_full {A} (q : Q A) x hw a :
  (msgq_limit q <= length (msgq_items q))%nat ->
  vams_queue_put q x hw a = (rc_err ENOMSG, q, saturating_inc queue_overload_count a).
Proof. intros Hl. unfold vams_queue_put. by rewrite msgq_put_full. Qed.
End QueuePut.
