(* ===== verification/Pipeline.v ===== *)
(** * The command pipeline (the five command tasks of firmware/src/main.c)

    Receiver, validator, scheduler, recovery manager and completion service as
    step functions over the shared state.  A step runs a task from one point
    of its loop to the next; it contains at most one operation on a queue, on
    the pool, on the pool's counter or on the completion window, which the
    scheduler, the recovery manager and the completion service write word by
    word without a lock, so interleavings of steps are the interleavings of
    the tasks.  [step] adds everything else that may happen between two steps:
    other tasks log events and commit health evidence, the logger drains the
    queue, hardware and host change the devices. *)

From S2P Require Import Prelude Abi Overload Command Platform Management Retained Event.
From S2P Require Import Scheduler Portal Firmware.

(** Observable events of a command's life. *)
Inductive label : Type :=
| l_capture (b : nat) (s : vams_submission)
| l_authorize (b : nat) (opcode : Z) (c : vams_completion)
| l_publish (b : nat) (c : vams_completion).

Section Tasks.
Context {W : Type} {Q : Type -> Type} {S : Type} `{!Platform W, !Msgq Q, !Slab S}.
Context (command_portal management : device) (command_generation scheduler_test_delay_ms : Z).

Let state : Type := fw W Q S.
Let outcome : Type := result (option label * state).

Definition world (s : state) : W := le_world (f_env s).
Definition set_world (w : W) (s : state) : state := set_f_env (with_world w (f_env s)) s.
Definition command_at (b : nat) (s : state) : vams_command_object :=
  default zero_command (f_objects s !! b).
Definition store (b : nat) (c : vams_command_object) (s : state) : state :=
  set_f_objects (<[b := c]> (f_objects s)) s.
Definition update_atomics (f : atomics -> atomics) (s : state) : state :=
  set_f_atomics (f (f_atomics s)) s.
Definition clock (s : state) : Z * state :=
  let '(now, w) := k_uptime_get (world s) in (now, set_world w s).
Definition sleep (ms : Z) (s : state) : state := set_world (k_sleep_ms ms (world s)) s.
Definition silent (s : state) : outcome := Ok (None, s).

(** Run a lifecycle operation on the object of block [b]. *)
Definition on_command (b : nat)
    (op : vams_command_object -> log_env W Q -> result (vams_command_object * log_env W Q))
    (s : state) : result state :=
  '(c, env) ← op (command_at b s) (f_env s);
  Ok (store b c (set_f_env env s)).

Definition emit_event (id command_id generation arg0 arg1 arg2 value : Z) (s : state)
    : result state :=
  env ← vams_event_emit management id command_id generation arg0 arg1 arg2 value (f_env s);
  Ok (set_f_env env s).

Definition retained (op : vams_retained_record -> W -> result (vams_retained_record * W))
    (s : state) : result state :=
  let env := f_env s in
  '(r, w) ← op (le_retained env) (le_world env);
  Ok (set_f_env (Build_log_env w r (le_queue env) (le_drops env)) s).

(** ** Receiver *)

Definition vams_command_receiver (s : state) : outcome :=
  match f_rx s with
  | rx_loop =>
      let s := update_atomics (vams_task_progress receiver_epoch) s in
      let '(pending, w) := vams_command_pending command_portal (world s) in
      let s := set_world w s in
      if negb (vams_command_admission_allowed pending (k_mem_slab_num_free_get (f_pool s))) then
        let '(pending, w) := vams_command_pending command_portal (world s) in
        let s := set_world w s in
        let s := if pending then update_atomics (saturating_inc admission_defer_count) s else s in
        silent (sleep 1 s)
      else
        silent (set_f_rx rx_admitted s)
  | rx_admitted =>
      match k_mem_slab_alloc (f_pool s) with
      | None =>
          let s := update_atomics (saturating_inc admission_defer_count) s in
          silent (set_f_rx rx_loop (sleep 1 s))
      | Some (b, pool) => silent (set_f_rx (rx_reserved b) (set_f_pool pool s))
      end
  | rx_reserved b =>
      let in_use := f_atomics s command_objects_in_use in
      let s := update_atomics (atomic_inc command_objects_in_use) s in
      let s := update_atomics
                 (record_high_water command_pool_high_water (u32 (in_use + 1))) s in
      silent (set_f_rx (rx_allocated b) (store b zero_command s))
  | rx_allocated b =>
      '(status, submission, w) ←
        vams_command_receive command_portal (Some (co_submission (command_at b s))) 0 (world s);
      let s := set_world w s in
      if negb (rc_is_ok status) then
        silent (set_f_rx rx_freed (set_f_pool (k_mem_slab_free b (f_pool s)) s))
      else
      let submission := default zero_submission submission in
      let s := store b (set_submission submission (command_at b s)) s in
      let s := set_f_sequence (u32 (f_sequence s + 1)) s in
      let '(now, s) := clock s in
      s ← on_command b (fun c =>
            vams_scheduler_capture management c command_generation (f_sequence s) (u64 now)) s;
      s ← retained (vams_retained_note_command management (s_command_id submission)
            command_generation) s;
      Ok (Some (l_capture b submission), set_f_rx (rx_captured b) s)
  | rx_freed =>
      silent (set_f_rx rx_loop (update_atomics (atomic_dec command_objects_in_use) s))
  | rx_captured b =>
      let '(status, q, a) :=
        vams_queue_put (f_validation s) b validation_queue_high_water (f_atomics s) in
      _ ← ASSERT_NO_MSG (rc_is_ok status);
      silent (set_f_rx rx_loop (set_f_validation q (set_f_atomics a s)))
  end.

(** ** Validator *)

Definition vams_command_validator (s : state) : outcome :=
  match f_va s with
  | va_loop =>
      let got := k_msgq_get (f_validation s) in
      let s := update_atomics (vams_task_progress validator_epoch) s in
      match got with
      | None => silent s
      | Some (b, q) => silent (set_f_va (va_received b) (set_f_validation q s))
      end
  | va_received b =>
      s ← on_command b (fun c => vams_scheduler_transition management c
            VAMS_COMMAND_SUBMITTED VAMS_COMMAND_VALIDATING) s;
      let '(now, s) := clock s in
      let c := command_at b s in
      let s := store b (set_completion (vams_command_execute (co_submission c) (u64 now)) c) s in
      if negb (c_status (co_completion (command_at b s)) =? VAMS_STATUS_SUCCESS) then
        s ← on_command b (fun c => vams_scheduler_transition management c
              VAMS_COMMAND_VALIDATING VAMS_COMMAND_COMPLETED_ERROR) s;
        silent (set_f_va (va_validated b false) s)
      else
        s ← on_command b (fun c => vams_scheduler_transition management c
              VAMS_COMMAND_VALIDATING VAMS_COMMAND_QUEUED) s;
        silent (set_f_va (va_validated b true) s)
  | va_validated b false =>
      let '(status, q, a) :=
        vams_queue_put (f_completion s) b completion_queue_high_water (f_atomics s) in
      _ ← ASSERT_NO_MSG (rc_is_ok status);
      silent (set_f_va va_loop (set_f_completion q (set_f_atomics a s)))
  | va_validated b true =>
      let '(status, q, a) :=
        vams_queue_put (f_ready s) b ready_queue_high_water (f_atomics s) in
      _ ← ASSERT_NO_MSG (rc_is_ok status);
      silent (set_f_va va_loop (set_f_ready q (set_f_atomics a s)))
  end.

(** ** Scheduler *)

(** [ready_count--; ready[selected] = ready[ready_count];] *)
Definition remove_ready (selected : nat) (ready : list nat) : list nat :=
  let count := (length ready - 1)%nat in
  match ready !! count with
  | Some last => take count (<[selected := last]> ready)
  | None => []
  end.

(** One step of [vams_publish_portal_completion] on the completion of block
    [b]; when it returns, the overload reset on a timeout and the assertion.
    The flag tells whether the task goes on. *)
Definition publish_or_reset (b : nat) (pc : publish_pc) (s : state)
    : result ((publish_pc + bool) * state) :=
  let '(r, a, w) :=
    publish_step command_portal (co_completion (command_at b s)) pc (f_atomics s) (world s) in
  let s := set_world w (set_f_atomics a s) in
  match r with
  | inl pc => Ok (inl pc, s)
  | inr status =>
      if rc_is ETIMEDOUT status then
        let '(a, w) := vams_request_overload_reset management (f_atomics s) (world s) in
        Ok (inr false, set_world w (set_f_atomics a s))
      else
        _ ← ASSERT_NO_MSG (rc_is_ok status);
        Ok (inr true, s)
  end.

Definition vams_command_scheduler (s : state) : outcome :=
  match f_sc s with
  | sc_loop =>
      let s := update_atomics (vams_task_progress scheduler_epoch) s in
      match f_sc_ready s with
      | [] =>
          match k_msgq_get (f_ready s) with
          | None => silent s
          | Some (b, q) =>
              silent (set_f_sc sc_drain (set_f_sc_ready [b] (set_f_ready q s)))
          end
      | _ :: _ => silent (set_f_sc sc_drain s)
      end
  | sc_drain =>
      let select s :=
        let ready := f_sc_ready s in
        let selected := vams_scheduler_select ((fun b => command_at b s) <$> ready) in
        match ready !! selected with
        | None => Fault
        | Some b =>
            silent (set_f_sc (sc_dispatch b) (set_f_sc_ready (remove_ready selected ready) s))
        end in
      if (length (f_sc_ready s) <? VAMS_COMMAND_POOL_SIZE)%nat then
        match k_msgq_get (f_ready s) with
        | Some (b, q) => silent (set_f_sc_ready (f_sc_ready s ++ [b]) (set_f_ready q s))
        | None => select s
        end
      else select s
  | sc_dispatch b =>
      let s := if 0 <? scheduler_test_delay_ms then sleep scheduler_test_delay_ms s else s in
      if negb (co_generation (command_at b s) =? command_generation) then
        let '(now, s) := clock s in
        s ← on_command b (fun c => vams_scheduler_cancel management c (u64 now)) s;
        silent (set_f_sc (sc_finish b) s)
      else
        let '(now, s) := clock s in
        if vams_scheduler_deadline_expired (command_at b s) (u64 now) then
          s ← on_command b (fun c => vams_scheduler_transition management c
                VAMS_COMMAND_QUEUED VAMS_COMMAND_ABORTING) s;
          let '(now, s) := clock s in
          s ← on_command b (fun c => vams_scheduler_timeout management c (u64 now)) s;
          silent (set_f_sc (sc_finish b) s)
        else
          s ← on_command b (fun c => vams_scheduler_transition management c
                VAMS_COMMAND_QUEUED VAMS_COMMAND_RUNNING) s;
          if vams_is_payload_opcode (s_opcode (co_submission (command_at b s))) then
            silent (set_f_sc (sc_authorize b) s)
          else
            s ← on_command b (fun c => vams_scheduler_transition management c
                  VAMS_COMMAND_RUNNING VAMS_COMMAND_COMPLETED) s;
            silent (set_f_sc (sc_finish b) s)
  | sc_authorize b =>
      let '(pc, w) := publish_start (world s) in
      silent (set_f_sc (sc_authorizing b pc) (set_world w s))
  | sc_authorizing b pc =>
      '(r, s) ← publish_or_reset b pc s;
      match r with
      | inl pc => silent (set_f_sc (sc_authorizing b pc) s)
      | inr false => silent (set_f_sc (sc_reset b) s)
      | inr true =>
          Ok (Some (l_authorize b (s_opcode (co_submission (command_at b s)))
                      (co_completion (command_at b s))),
              set_f_sc (sc_running b) s)
      end
  | sc_running b =>
      let '(status, q, a) :=
        vams_queue_put (f_running s) b running_queue_high_water (f_atomics s) in
      _ ← ASSERT_NO_MSG (rc_is_ok status);
      silent (set_f_sc sc_loop (set_f_running q (set_f_atomics a s)))
  | sc_finish b =>
      let '(status, q, a) :=
        vams_queue_put (f_completion s) b completion_queue_high_water (f_atomics s) in
      _ ← ASSERT_NO_MSG (rc_is_ok status);
      silent (set_f_sc sc_loop (set_f_completion q (set_f_atomics a s)))
  | sc_reset b => silent (set_world (overload_reset_wait (world s)) s)
  end.

(** ** Recovery manager *)

(** One round of the [do ... while] loop that waits for the engine: the
    result poll with its 100 ms slices, the progress mark and the clock. *)
Definition recovery_poll (b : nat) (now_ms : Z) (s : state)
    : result (rc * vams_completion * Z * state) :=
  let deadline := co_deadline_ms (command_at b s) in
  let remaining_ms := if now_ms <? deadline then deadline - now_ms else 0 in
  let poll_ms := Z.min remaining_ms VAMS_SERVICE_POLL_MS in
  '(status, r, w) ←
    vams_command_result_receive command_portal (Some zero_completion) poll_ms (world s);
  let s := update_atomics (vams_task_progress recovery_epoch) (set_world w s) in
  let '(now, s) := clock s in
  Ok (status, default zero_completion r, u64 now, s).

Definition command_id_at (b : nat) (s : state) : Z := s_command_id (co_submission (command_at b s)).
Definition generation_at (b : nat) (s : state) : Z := co_generation (command_at b s).

Definition vams_recovery_manager (s : state) : outcome :=
  match f_re s with
  | re_loop =>
      let got := k_msgq_get (f_running s) in
      let s := update_atomics (vams_task_progress recovery_epoch) s in
      match got with
      | None => silent s
      | Some (b, q) =>
          let '(now, s) := clock (set_f_running q s) in
          silent (set_f_re (re_waiting b (u64 now)) s)
      end
  | re_waiting b now_ms =>
      '(status, r, now_ms, s) ← recovery_poll b now_ms s;
      if rc_is EAGAIN status && (now_ms <? co_deadline_ms (command_at b s)) then
        silent (set_f_re (re_waiting b now_ms) s)
      else if rc_is EAGAIN status then silent (set_f_re (re_abort b) s)
      else
        _ ← ASSERT_NO_MSG (rc_is_ok status);
        silent (set_f_re (re_apply b r) s)
  | re_abort b =>
      let s := update_atomics (saturating_inc recovery_attempt_count) s in
      let '(now, s) := clock s in
      s ← on_command b (fun c => vams_scheduler_begin_abort management c (u64 now)) s;
      s ← emit_event VAMS_EVENT_ABORT_REQUEST (command_id_at b s) (generation_at b s)
            (f_atomics s recovery_attempt_count) 0 0 0 s;
      silent (set_f_re (re_requesting b send_check) s)
  | re_requesting b pc =>
      let '(r, w) := abort_step command_portal (co_completion (command_at b s)) pc (world s) in
      let s := set_world w s in
      match r with
      | inl pc => silent (set_f_re (re_requesting b pc) s)
      | inr status =>
          if rc_is_ok status then silent (set_f_re (re_answer b VAMS_ABORT_ACK_TIMEOUT_MS) s)
          else if rc_is EBUSY status then silent (set_f_re (re_answer b 0) s)
          else if rc_is EAGAIN status then silent (set_f_re (re_escalate b) s)
          else Fault
      end
  | re_answer b timeout_ms =>
      '(status, r, w) ←
        vams_command_result_receive command_portal (Some zero_completion) timeout_ms (world s);
      let s := set_world w s in
      if rc_is EAGAIN status then silent (set_f_re (re_escalate b) s)
      else
        _ ← ASSERT_NO_MSG (rc_is_ok status);
        silent (set_f_re (re_apply b (default zero_completion r)) s)
  | re_escalate b =>
      let s := update_atomics (saturating_inc recovery_escalation_count) s in
      let '(now, s) := clock s in
      s ← on_command b (fun c => vams_scheduler_escalate management c (u64 now)) s;
      s ← emit_event VAMS_EVENT_ABORT_ESCALATED (command_id_at b s) (generation_at b s)
            (f_atomics s recovery_escalation_count) 0 0 0 s;
      silent (set_f_re (re_finish b) s)
  | re_apply b r =>
      '(status, c, env) ← vams_scheduler_apply_result management (command_at b s) r (f_env s);
      let s := store b c (set_f_env env s) in
      if rc_is EPROTO status then
        let s := update_atomics (saturating_inc recovery_escalation_count) s in
        let '(now, s) := clock s in
        s ← on_command b (fun c => vams_scheduler_escalate management c (u64 now)) s;
        s ← emit_event VAMS_EVENT_RESULT_MISMATCH (command_id_at b s) (generation_at b s)
              0 0 0 0 s;
        silent (set_f_re (re_finish b) s)
      else
        _ ← ASSERT_NO_MSG (rc_is_ok status);
        silent (set_f_re (re_finish b) s)
  | re_finish b =>
      let '(status, q, a) :=
        vams_queue_put (f_completion s) b completion_queue_high_water (f_atomics s) in
      _ ← ASSERT_NO_MSG (rc_is_ok status);
      silent (set_f_re re_loop (set_f_completion q (set_f_atomics a s)))
  end.

(** ** Completion service *)

Definition vams_command_completion (s : state) : outcome :=
  match f_cp s with
  | cp_loop =>
      let got := k_msgq_get (f_completion s) in
      let s := update_atomics (vams_task_progress completion_epoch) s in
      match got with
      | None => silent s
      | Some (b, q) => silent (set_f_cp (cp_publish b) (set_f_completion q s))
      end
  | cp_publish b =>
      let terminal_state := co_state (command_at b s) in
      let '(pc, w) := publish_start (world s) in
      silent (set_f_cp (cp_publishing b terminal_state pc) (set_world w s))
  | cp_publishing b terminal_state pc =>
      '(r, s) ← publish_or_reset b pc s;
      match r with
      | inl pc => silent (set_f_cp (cp_publishing b terminal_state pc) s)
      | inr false => silent (set_f_cp (cp_reset b) s)
      | inr true =>
          Ok (Some (l_publish b (co_completion (command_at b s))),
              set_f_cp (cp_published b terminal_state) s)
      end
  | cp_published b terminal_state =>
      s ← on_command b (vams_scheduler_mark_published management) s;
      let c := co_completion (command_at b s) in
      s ← emit_event VAMS_EVENT_COMMAND_COMPLETE (c_command_id c) (generation_at b s)
            (c_status c) (c_error_code c) 0 (c_user_cookie c) s;
      s ← on_command b (fun c => vams_scheduler_transition management c terminal_state
            VAMS_COMMAND_FREE) s;
      s ← retained (vams_retained_clear_command management) s;
      let s := store b zero_command s in
      silent (set_f_cp cp_freed (set_f_pool (k_mem_slab_free b (f_pool s)) s))
  | cp_freed =>
      silent (set_f_cp cp_loop (update_atomics (atomic_dec command_objects_in_use) s))
  | cp_reset b => silent (set_world (overload_reset_wait (world s)) s)
  end.

(** ** Interleavings *)

Inductive task : Type := t_receiver | t_validator | t_scheduler | t_recovery | t_completion.

Definition task_step (t : task) (s : state) : outcome :=
  match t with
  | t_receiver => vams_command_receiver s
  | t_validator => vams_command_validator s
  | t_scheduler => vams_command_scheduler s
  | t_recovery => vams_recovery_manager s
  | t_completion => vams_command_completion s
  end.

(** [step s tr s']: from [s], emitting the labels [tr]. *)
Inductive step : state -> list label -> state -> Prop :=
| step_task t s l s' : task_step t s = Ok (l, s') -> step s (option_list l) s'
| step_world w s : step s [] (set_world w s)
| step_log m env' s :
    emission_ok m -> emit management m (f_env s) = Ok env' -> step s [] (set_f_env env' s)
| step_logger e env' s :
    vams_event_receive (f_env s) = Some (e, env') -> step s [] (set_f_env env' s)
| step_health a b s s' :
    is_u32 a -> is_u32 b -> retained (vams_retained_note_health management a b) s = Ok s' ->
    step s [] s'
| step_other_atomics a s :
    a command_objects_in_use = f_atomics s command_objects_in_use ->
    step s [] (set_f_atomics a s).

Inductive run : state -> list label -> state -> Prop :=
| run_refl s : run s [] s
| run_step s1 tr1 s2 tr2 s3 : run s1 tr1 s2 -> step s2 tr2 s3 -> run s1 (tr1 ++ tr2) s3.
End Tasks.
