(* ===== verification/PipelineInv.v ===== *)
(** * Ownership invariant of the command pipeline

    Every pool block is either free or in exactly one place (a queue or a
    task's hands), and the command in it is in the lifecycle state of that
    place.  [inv_step] shows that no task step breaks this or runs into an
    assertion, with one exception that the queue capacities leave open: a
    second command put on the one-deep running queue. *)

From S2P Require Import Prelude Abi Overload Command Platform Management Retained Event.
From S2P Require Import Scheduler Portal Firmware Pipeline.

(** ** Places *)

Inductive place : Type :=
| pl_raw                                     (* taken from the pool, not set up yet *)
| pl_blank                                   (* counted and zeroed *)
| pl_submitted
| pl_queued
| pl_authorize
| pl_running
| pl_aborting
| pl_result (r : vams_completion)            (* running or aborting, result in hand *)
| pl_terminal
| pl_publishing (terminal_state : vams_command_state)
| pl_published (terminal_state : vams_command_state).

(** Life of one block in a trace: [Some None] before capture and after
    publication, [Some (Some s)] while [s] awaits its publication, [None] when
    a capture or a publication is out of turn or answers another command. *)
Definition block_event (b : nat) (l : label) (st : option (option vams_submission))
    : option (option vams_submission) :=
  match l with
  | l_capture b' s =>
      if decide (b' = b) then
        match st with
        | Some None => if decide (wf_submission s) then Some (Some s) else None
        | _ => None
        end
      else st
  | l_authorize b' opcode c =>
      if decide (b' = b) then
        match st with
        | Some (Some s) =>
            if decide (c_command_id c = s_command_id s /\ c_user_cookie c = s_user_cookie s /\
                       c_status c = VAMS_STATUS_SUCCESS /\
                       s_opcode s = opcode /\ 1 <= opcode <= 4 /\
                       vams_validate_command s = VAMS_ERR_NONE)
            then st else None
        | _ => None
        end
      else st
  | l_publish b' c =>
      if decide (b' = b) then
        match st with
        | Some (Some s) =>
            if decide (c_command_id c = s_command_id s /\ c_user_cookie c = s_user_cookie s)
            then Some None else None
        | _ => None
        end
      else st
  end.

Definition block_trace (b : nat) (tr : list label) : option (option vams_submission) :=
  foldl (fun st l => block_event b l st) (Some None) tr.

Lemma block_trace_app b tr1 tr2 :
  block_trace b (tr1 ++ tr2) = foldl (fun st l => block_event b l st) (block_trace b tr1) tr2.
Proof. apply foldl_app. Qed.

(** The outcome stored with a terminal command matches its state. *)
Definition outcome_ok (c : vams_command_object) : Prop :=
  match co_state c with
  | VAMS_COMMAND_COMPLETED => c_status (co_completion c) = VAMS_STATUS_SUCCESS
  | VAMS_COMMAND_COMPLETED_ERROR => c_status (co_completion c) <> VAMS_STATUS_SUCCESS
  | _ => False
  end.

Definition place_state (generation : Z) (p : place) (c : vams_command_object) : Prop :=
  match p with
  | pl_raw => True
  | pl_blank => c = zero_command
  | pl_submitted => co_state c = VAMS_COMMAND_SUBMITTED /\ co_generation c = generation
  | pl_queued => co_state c = VAMS_COMMAND_QUEUED /\ co_generation c = generation /\ answers c /\
      c_status (co_completion c) = VAMS_STATUS_SUCCESS /\
      vams_validate_command (co_submission c) = VAMS_ERR_NONE
  | pl_authorize => co_state c = VAMS_COMMAND_RUNNING /\ co_generation c = generation /\
      answers c /\ c_status (co_completion c) = VAMS_STATUS_SUCCESS /\
      1 <= s_opcode (co_submission c) <= 4 /\
      vams_validate_command (co_submission c) = VAMS_ERR_NONE
  | pl_running => co_state c = VAMS_COMMAND_RUNNING /\ co_generation c = generation /\ answers c
  | pl_aborting => co_state c = VAMS_COMMAND_ABORTING /\ co_generation c = generation /\ answers c
  | pl_result r => (co_state c = VAMS_COMMAND_RUNNING \/ co_state c = VAMS_COMMAND_ABORTING) /\
      co_generation c = generation /\ answers c /\ wf_completion r
  | pl_terminal => outcome_ok c /\ co_generation c = generation /\ answers c
  | pl_publishing ts => outcome_ok c /\ co_state c = ts /\ co_generation c = generation /\ answers c
  | pl_published ts => outcome_ok c /\ co_state c = ts /\ answers c
  end.

Definition place_ok (generation : Z) (tr : list label) (b : nat) (p : place)
    (c : vams_command_object) : Prop :=
  match p with
  | pl_raw => block_trace b tr = Some None
  | _ =>
      wf_command c /\ co_publication_count c = 0 /\ place_state generation p c /\
      block_trace b tr = Some (match p with
                               | pl_blank | pl_published _ => None
                               | _ => Some (co_submission c)
                               end)
  end.

Section Invariant.
Context {W : Type} {Q : Type -> Type} {S : Type}
  `{!Platform W, !PlatformLaws W, !Msgq Q, !MsgqLaws Q, !Slab S, !SlabLaws S}.
Context (generation : Z).

Let state : Type := fw W Q S.

Definition at_place (p : place) (bs : list nat) : list (nat * place) := (fun b => (b, p)) <$> bs.

Definition rx_places (pc : receiver_pc) : list (nat * place) :=
  match pc with
  | rx_loop | rx_admitted | rx_freed => []
  | rx_reserved b => [(b, pl_raw)]
  | rx_allocated b => [(b, pl_blank)]
  | rx_captured b => [(b, pl_submitted)]
  end.
Definition va_places (pc : validator_pc) : list (nat * place) :=
  match pc with
  | va_loop => []
  | va_received b => [(b, pl_submitted)]
  | va_validated b true => [(b, pl_queued)]
  | va_validated b false => [(b, pl_terminal)]
  end.
Definition sc_places (pc : scheduler_pc) : list (nat * place) :=
  match pc with
  | sc_loop | sc_drain => []
  | sc_dispatch b => [(b, pl_queued)]
  | sc_authorize b | sc_authorizing b _ => [(b, pl_authorize)]
  | sc_running b | sc_reset b => [(b, pl_running)]
  | sc_finish b => [(b, pl_terminal)]
  end.
Definition re_places (pc : recovery_pc) : list (nat * place) :=
  match pc with
  | re_loop => []
  | re_waiting b _ | re_abort b => [(b, pl_running)]
  | re_requesting b _ | re_answer b _ | re_escalate b => [(b, pl_aborting)]
  | re_apply b r => [(b, pl_result r)]
  | re_finish b => [(b, pl_terminal)]
  end.
Definition cp_places (pc : completion_pc) : list (nat * place) :=
  match pc with
  | cp_loop | cp_freed => []
  | cp_publish b | cp_reset b => [(b, pl_terminal)]
  | cp_publishing b ts _ => [(b, pl_publishing ts)]
  | cp_published b ts => [(b, pl_published ts)]
  end.

Definition places (s : state) : list (nat * place) :=
  at_place pl_submitted (msgq_items (f_validation s)) ++
  at_place pl_queued (msgq_items (f_ready s)) ++
  at_place pl_running (msgq_items (f_running s)) ++
  at_place pl_terminal (msgq_items (f_completion s)) ++
  at_place pl_queued (f_sc_ready s) ++
  rx_places (f_rx s) ++ va_places (f_va s) ++ sc_places (f_sc s) ++
  re_places (f_re s) ++ cp_places (f_cp s).

(** The blocks in use, with repetitions if there were any. *)
Definition owned (s : state) : list nat := (places s).*1.

(** The pool and its counter are two objects: the counter lags behind the pool
    for a block a task has just taken, and leads for one it has just given back. *)
Definition rx_uncounted (pc : receiver_pc) : Z :=
  match pc with rx_reserved _ => -1 | rx_freed => 1 | _ => 0 end.
Definition cp_uncounted (pc : completion_pc) : Z :=
  match pc with cp_freed => 1 | _ => 0 end.
Definition uncounted (s : state) : Z := rx_uncounted (f_rx s) + cp_uncounted (f_cp s).
Definition counted (s : state) : Z := f_atomics s command_objects_in_use - uncounted s.

Record inv (tr : list label) (s : state) : Prop := {
  inv_partition : owned s ++ elements (slab_free (f_pool s)) ≡ₚ seq 0 VAMS_COMMAND_POOL_SIZE;
  inv_places : Forall (fun '(b, p) => place_ok generation tr b p (command_at b s)) (places s);
  inv_idle : forall b, b ∉ owned s -> block_trace b tr = Some None;
  inv_in_use : counted s = Z.of_nat (length (places s));
  inv_limits :
    msgq_limit (f_validation s) = VAMS_COMMAND_POOL_SIZE /\
    msgq_limit (f_ready s) = VAMS_COMMAND_POOL_SIZE /\
    msgq_limit (f_running s) = 1%nat /\
    msgq_limit (f_completion s) = VAMS_COMMAND_POOL_SIZE;
  inv_log : log_ok (f_env s);
  inv_drain : f_sc s = sc_drain -> f_sc_ready s <> [];
  inv_answer : forall b t, f_re s = re_answer b t -> 0 <= t;
  inv_generation : is_u32 generation;
  inv_sequence : is_u32 (f_sequence s);
}.

(** ** Moving a block *)

(** What a step leaves alone, whatever block it moves. *)
Record frame (s s' : state) : Prop := {
  fr_limits :
    msgq_limit (f_validation s') = msgq_limit (f_validation s) /\
    msgq_limit (f_ready s') = msgq_limit (f_ready s) /\
    msgq_limit (f_running s') = msgq_limit (f_running s) /\
    msgq_limit (f_completion s') = msgq_limit (f_completion s);
  fr_log : log_ok (f_env s');
  fr_drain : f_sc s' = sc_drain -> f_sc_ready s' <> [];
  fr_answer : forall b t, f_re s' = re_answer b t -> 0 <= t;
  fr_sequence : is_u32 (f_sequence s');
}.

Lemma inv_nodup tr s : inv tr s -> NoDup (owned s ++ elements (slab_free (f_pool s))).
Proof. intros [Hp]. rewrite Hp. apply NoDup_seq. Qed.

Lemma inv_length tr s :
  inv tr s -> (length (places s) + size (slab_free (f_pool s)) = VAMS_COMMAND_POOL_SIZE)%nat.
Proof.
  intros [Hp]. apply Permutation_length in Hp. unfold owned, size, set_size in *. simpl.
  rewrite length_app, length_fmap, length_seq in Hp. done.
Qed.

Lemma Forall_places_change (P P' : nat -> place -> Prop) b p p' rest :
  NoDup ((b, p) :: rest).*1 ->
  Forall (fun '(b', q) => P b' q) ((b, p) :: rest) ->
  P' b p' -> (forall b' q, b' <> b -> P b' q -> P' b' q) ->
  Forall (fun '(b', q) => P' b' q) ((b, p') :: rest).
Proof.
  intros Hnd Hf Hb Hother. apply Forall_cons in Hf as [_ Hf]. constructor; [done|].
  apply NoDup_cons in Hnd as [Hnin _]. fold (rest.*1) in Hnin.
  rewrite Forall_forall in *. intros [b' q] Hin. apply Hother; [|by apply (Hf (b', q))].
  intros ->. apply Hnin. apply list_elem_of_fmap. by exists (b, q).
Qed.

Lemma inv_move tr l s s' b p p' rest :
  inv tr s -> places s ≡ₚ (b, p) :: rest -> places s' ≡ₚ (b, p') :: rest ->
  frame s s' -> f_pool s' = f_pool s -> counted s' = counted s ->
  (forall b', b' <> b -> command_at b' s' = command_at b' s) ->
  (forall b', b' <> b -> block_trace b' (tr ++ l) = block_trace b' tr) ->
  (place_ok generation tr b p (command_at b s) ->
   place_ok generation (tr ++ l) b p' (command_at b s')) ->
  inv (tr ++ l) s'.
Proof.
  intros Hinv Hp Hp' [Hfl Hflog Hfd Hfa Hfs] Hpool Hin Hcmd Htr Hok.
  pose proof (inv_nodup tr s Hinv) as Hnd. destruct Hinv as [Hpart Hpl Hidle Huse Hlim Hlog Hdr Han Hg Hs].
  assert (owned s' ≡ₚ owned s) as Ho by (unfold owned; by rewrite Hp, Hp').
  unfold owned in Hnd. rewrite Hp in Hnd, Hpl.
  apply NoDup_app in Hnd as (Hnd & _ & _).
  split; try done.
  - by rewrite Ho, Hpool.
  - rewrite Hp'. apply Forall_places_change with
      (P := fun b p => place_ok generation tr b p (command_at b s)) (p := p); [done..| |].
    + apply Forall_cons in Hpl as [Hb _]. by apply Hok.
    + intros b' q Hne. unfold place_ok. by rewrite Hcmd, Htr.
  - intros b' Hb'. rewrite Ho in Hb'. rewrite Htr; [by apply Hidle|].
    intros ->. apply Hb'. unfold owned. rewrite Hp. by left.
  - rewrite Hin, Huse. f_equal. by rewrite Hp, Hp'.
  - by destruct Hfl as (-> & -> & -> & ->).
Qed.

Lemma counting_same s s' :
  f_atomics s' command_objects_in_use = f_atomics s command_objects_in_use ->
  rx_uncounted (f_rx s') = rx_uncounted (f_rx s) ->
  cp_uncounted (f_cp s') = cp_uncounted (f_cp s) -> counted s' = counted s.
Proof. intros H1 H2 H3. unfold counted, uncounted. by rewrite H1, H2, H3. Qed.

(** A step that moves no block and touches no command. *)
Lemma inv_stay tr s s' :
  inv tr s -> places s' ≡ₚ places s -> frame s s' -> f_pool s' = f_pool s ->
  counted s' = counted s ->
  f_objects s' = f_objects s -> inv tr s'.
Proof.
  intros [Hpart Hpl Hidle Huse Hlim Hlog Hdr Han Hg Hs] Hp [Hfl Hflog Hfd Hfa Hfs] Hpool Hin Hobj.
  split; try done.
  - unfold owned. by rewrite Hp, Hpool.
  - rewrite Hp. unfold command_at. by rewrite Hobj.
  - intros b. unfold owned. rewrite Hp. apply Hidle.
  - by rewrite Hin, Huse, Hp.
  - by destruct Hfl as (-> & -> & -> & ->).
Qed.

Lemma u32_small n : 0 <= n <= 10 -> u32 n = n.
Proof. intros. apply u32_id. word_lia. Qed.

Lemma inv_alloc tr s s' b :
  inv tr s -> places s' ≡ₚ (b, pl_raw) :: places s -> frame s s' ->
  b ∈ slab_free (f_pool s) -> slab_free (f_pool s') = slab_free (f_pool s) ∖ {[b]} ->
  counted s' = counted s + 1 -> f_objects s' = f_objects s -> inv tr s'.
Proof.
  intros Hinv Hp [Hfl Hflog Hfd Hfa Hfs] Hb Hfree Hin Hobj.
  pose proof (inv_nodup tr s Hinv) as Hnd.
  destruct Hinv as [Hpart Hpl Hidle Huse Hlim Hlog Hdr Han Hg Hs].
  assert (b ∉ owned s) as Hnb.
  { apply NoDup_app in Hnd as (_ & Hd & _). intros Hin'. by apply (Hd b), elem_of_elements. }
  split; try done.
  - unfold owned. rewrite Hp, Hfree. cbn [fmap list_fmap fst app].
    rewrite <-Hpart, Permutation_middle. apply Permutation_app_head.
    rewrite <-elements_union_singleton
      by (apply not_elem_of_difference; right; by apply elem_of_singleton).
    apply elements_proper. rewrite <-union_difference_singleton_L; done.
  - rewrite Hp. unfold command_at. rewrite Hobj. constructor; [by apply Hidle|done].
  - intros b'. unfold owned. rewrite Hp. simpl. intros Hn. apply Hidle.
    intros Hin'. apply Hn. by right.
  - rewrite Hin, Huse, Hp. cbn [length]. lia.
  - by destruct Hfl as (-> & -> & -> & ->).
Qed.

Lemma inv_release tr s s' b p :
  inv tr s -> places s ≡ₚ (b, p) :: places s' -> frame s s' ->
  block_trace b tr = Some None ->
  slab_free (f_pool s') = {[b]} ∪ slab_free (f_pool s) ->
  counted s' = counted s - 1 ->
  (forall b', b' <> b -> command_at b' s' = command_at b' s) -> inv tr s'.
Proof.
  intros Hinv Hp [Hfl Hflog Hfd Hfa Hfs] Htr Hfree Hin Hcmd.
  pose proof (inv_nodup tr s Hinv) as Hnd.
  destruct Hinv as [Hpart Hpl Hidle Huse Hlim Hlog Hdr Han Hg Hs].
  unfold owned in Hnd. rewrite Hp in Hnd, Hpl. cbn [fmap list_fmap fst app] in Hnd.
  apply NoDup_cons in Hnd as [Hnb Hnd]. rewrite elem_of_app in Hnb.
  split; try done.
  - rewrite <-Hpart. unfold owned. rewrite Hp, Hfree. cbn [fmap list_fmap fst app].
    rewrite elements_union_singleton; [by rewrite Permutation_middle|].
    intros Hb. apply Hnb. right. by apply elem_of_elements.
  - apply Forall_cons in Hpl as [_ Hpl]. rewrite Forall_forall in *.
    intros [b' q] Hin'. rewrite Hcmd; [apply (Hpl (b', q) Hin')|].
    intros ->. apply Hnb. left. apply list_elem_of_fmap. by exists (b, q).
  - intros b' Hb'. destruct (decide (b' = b)) as [->|Hne]; [done|]. apply Hidle.
    unfold owned. rewrite Hp. cbn [fmap list_fmap fst]. by apply not_elem_of_cons.
  - apply Permutation_length in Hp. simpl in Hp. lia.
  - by destruct Hfl as (-> & -> & -> & ->).
Qed.

(** The counter stays in a range where its 32-bit updates are exact. *)
Lemma inv_counter tr s :
  inv tr s ->
  let use := f_atomics s command_objects_in_use in
  (forall b, f_rx s = rx_reserved b -> u32 (use + 1) = use + 1) /\
  (f_rx s = rx_freed \/ f_cp s = cp_freed -> u32 (use - 1) = use - 1).
Proof.
  intros Hinv. cbv zeta. pose proof (inv_length tr s Hinv) as Hlen.
  pose proof (inv_in_use tr s Hinv) as Huse. unfold counted, uncounted in Huse.
  assert (Hrx : (length (rx_places (f_rx s)) <= length (places s))%nat).
  { unfold places. rewrite !length_app. lia. }
  unfold VAMS_COMMAND_POOL_SIZE in Hlen. split.
  - intros b E. rewrite E in *. simpl in *. apply u32_small. destruct (f_cp s); simpl in *; lia.
  - intros H. apply u32_small. destruct H as [E|E]; rewrite E in *; simpl in *.
    + destruct (f_cp s); simpl in *; lia.
    + destruct (f_rx s); simpl in *; lia.
Qed.

(** [inv_move] with the moved block found by inclusion. *)
Lemma inv_moves tr l s s' b p p' :
  inv tr s -> [(b, p)] ⊆+ places s -> (b, p') :: places s ≡ₚ (b, p) :: places s' ->
  frame s s' -> f_pool s' = f_pool s -> counted s' = counted s ->
  (forall b', b' <> b -> command_at b' s' = command_at b' s) ->
  (forall b', b' <> b -> block_trace b' (tr ++ l) = block_trace b' tr) ->
  (place_ok generation tr b p (command_at b s) ->
   place_ok generation (tr ++ l) b p' (command_at b s')) ->
  inv (tr ++ l) s'.
Proof.
  intros Hinv Hsub Hperm. apply submseteq_Permutation in Hsub as [rest Hrest].
  apply (inv_move tr l s s' b p p' rest Hinv); [done|].
  rewrite Hrest in Hperm. simpl in Hperm. apply (Permutation_cons_inv (a := (b, p))).
  rewrite <-Hperm. constructor.
Qed.

Lemma inv_lookup tr s b p :
  inv tr s -> [(b, p)] ⊆+ places s -> place_ok generation tr b p (command_at b s).
Proof.
  intros Hinv Hsub. pose proof (inv_places tr s Hinv) as Hpl. rewrite Forall_forall in Hpl.
  apply (Hpl (b, p)). apply singleton_submseteq_l in Hsub. done.
Qed.

(** ** Step outcomes *)

(** A step outcome that keeps the invariant. *)
Definition keeps (tr : list label) (o : result (option label * state)) : Prop :=
  exists l s', o = Ok (l, s') /\ inv (tr ++ option_list l) s'.

Lemma keeps_silent tr s : inv tr s -> keeps tr (silent s).
Proof. intros H. exists None, s. split; [done|]. simpl. by rewrite app_nil_r. Qed.

Lemma keeps_label tr l s : inv (tr ++ [l]) s -> keeps tr (Ok (Some l, s)).
Proof. intros H. by exists (Some l), s. Qed.

(** Room in a queue of eight for a block held elsewhere. *)
Lemma inv_room tr (s : state) p bs b pb :
  inv tr s -> at_place p bs ++ [(b, pb)] ⊆+ places s ->
  (length bs < VAMS_COMMAND_POOL_SIZE)%nat.
Proof.
  intros Hinv Hsub. pose proof (inv_length tr s Hinv) as Hlen.
  apply submseteq_length in Hsub. unfold at_place in Hsub.
  rewrite length_app, length_fmap in Hsub. simpl in Hsub. lia.
Qed.

Lemma trace_silent b tr : block_trace b (tr ++ []) = block_trace b tr.
Proof. by rewrite app_nil_r. Qed.

(** A silent move: as [inv_moves] with no label. *)
Lemma inv_moves_silent tr (s s' : state) b p p' :
  inv tr s -> [(b, p)] ⊆+ places s -> (b, p') :: places s ≡ₚ (b, p) :: places s' ->
  frame s s' -> f_pool s' = f_pool s -> counted s' = counted s ->
  (forall b', b' <> b -> command_at b' s' = command_at b' s) ->
  (place_ok generation tr b p (command_at b s) ->
   place_ok generation tr b p' (command_at b s')) ->
  keeps tr (silent s').
Proof.
  intros Hinv Hsub Hp Hf Hpool Hin Hcmd Hok. apply keeps_silent.
  rewrite <-(app_nil_r tr). apply (inv_moves tr [] s s' b p p'); auto.
  - intros. apply trace_silent.
  - rewrite app_nil_r. done.
Qed.

Lemma delete_store b c (s : state) : delete b (f_objects (store b c s)) = delete b (f_objects s).
Proof. apply delete_insert_eq. Qed.

(** A step that only rewrites the contents of the block it moves. *)
Lemma keeps_store tr (s s' : state) b p p' c :
  inv tr s -> [(b, p)] ⊆+ places s -> (b, p') :: places s ≡ₚ (b, p) :: places s' ->
  frame s s' -> f_pool s' = f_pool s -> counted s' = counted s ->
  f_objects s' !! b = Some c -> delete b (f_objects s') = delete b (f_objects s) ->
  place_ok generation tr b p' c -> keeps tr (silent s').
Proof.
  intros Hinv Hsub Hp Hf Hpool Hin Hb Hrest Hok.
  apply (inv_moves_silent tr s s' b p p' Hinv Hsub Hp Hf Hpool Hin).
  - intros b' Hne. unfold command_at. f_equal.
    by rewrite <-(lookup_delete_ne (f_objects s') b b'), Hrest, lookup_delete_ne.
  - intros _. unfold command_at. by rewrite Hb.
Qed.
End Invariant.

(** Solve goals about the places of two states. *)
Ltac solve_places :=
  unfold places, at_place; simpl;
  repeat match goal with
  | H : msgq_items ?q = _ |- context [msgq_items ?q] => rewrite H
  | H : f_rx ?s = _ |- context [f_rx ?s] => rewrite H
  | H : f_va ?s = _ |- context [f_va ?s] => rewrite H
  | H : f_sc ?s = _ |- context [f_sc ?s] => rewrite H
  | H : f_re ?s = _ |- context [f_re ?s] => rewrite H
  | H : f_cp ?s = _ |- context [f_cp ?s] => rewrite H
  end;
  rewrite ?fmap_app; simpl;
  first [ solve_Permutation | solve_submseteq ].

(** The step leaves the pool counter as it is, by [tac], and the task is not
    between the pool and the counter before or after. *)
Ltac same_count tac :=
  apply counting_same; [tac|..]; simpl;
  repeat match goal with
  | H : f_rx ?s = _ |- context [f_rx ?s] => rewrite H
  | H : f_cp ?s = _ |- context [f_cp ?s] => rewrite H
  end; done.

Ltac solve_frame :=
  split; simpl; (done || congruence || auto).

(** Nothing moves. *)
Ltac stay_step Hinv :=
  apply keeps_silent; eapply inv_stay; [exact Hinv|solve_places| |done|same_count done|done];
  destruct Hinv; solve_frame.

(** A task takes a block off queue [q], where it was at place [p], or finds
    the queue empty and goes round. *)
Ltac take_step Hinv q p :=
  let b := fresh "b" in let q' := fresh "q" in let Eg := fresh "Eg" in
  let Hi := fresh "Hi" in let Hlim := fresh "Hlim" in
  destruct (k_msgq_get q) as [[b q']|] eqn:Eg;
  [apply msgq_get_inv in Eg as [Hi Hlim];
   match type of Hinv with inv ?g ?tr ?s =>
     eapply (inv_moves_silent g tr s _ b p p);
       [exact Hinv|solve_places|solve_places| |done|same_count done|done|done];
     destruct Hinv; solve_frame
   end
  |stay_step Hinv].

(** Block [b] goes from place [p] to [p'] with new contents, which the last
    goal is about. *)
Ltac store_step Hinv Hsub b p p' :=
  match type of Hinv with inv ?g ?tr ?s =>
    eapply (keeps_store g tr s _ b p p');
    [exact Hinv|exact Hsub|solve_places|destruct Hinv; solve_frame|done|same_count done
    |exact (lookup_insert_eq _ _ _)
    |repeat (etransitivity; [exact (delete_store b _ _)|]); reflexivity
    |unfold place_ok, place_state; split_and!; try done]
  end.

(** The puts on the queues of eight: [b] moves from place [p] into queue [q]. *)
Ltac put_step Hinv lim q hw b p :=
  let E := fresh "E" in let Hi := fresh "Hi" in let Hlim := fresh "Hlim" in let Ha := fresh "Ha" in
  let q' := fresh "q" in let a' := fresh "a" in
  match type of Hinv with inv ?g ?tr ?s =>
    destruct (queue_put_spec q b hw (f_atomics s)) as (q' & a' & E & Hi & Hlim & Ha);
    [ rewrite lim; apply (inv_room g tr s p _ b p Hinv); solve_places |];
    rewrite E; change (rc_is_ok rc_ok) with true; cbn [ASSERT_NO_MSG mbind result_bind];
    eapply (inv_moves_silent g tr s _ b p p);
      [exact Hinv|solve_places|solve_places| |done|same_count ltac:(by apply Ha)|done|done];
    destruct Hinv; solve_frame
  end.
