(* ===== verification/PipelineSteps.v ===== *)
(** * The tasks preserve the pipeline invariant

    One lemma per task: from a state with the invariant the task's step
    succeeds and the invariant holds again for the extended trace.  The
    scheduler's lemma has the running-queue overflow as its only alternative. *)

From S2P Require Import Prelude Abi Overload Command Platform Management Retained Event.
From S2P Require Import Scheduler Portal Firmware Pipeline PipelineInv.

Section Steps.
Context {W : Type} {Q : Type -> Type} {S : Type}
  `{!Platform W, !PlatformLaws W, !Msgq Q, !MsgqLaws Q, !Slab S, !SlabLaws S}.
Context (command_portal management : device) (generation delay : Z).

Let state : Type := fw W Q S.

(** ** Frames *)

Lemma log_ok_world w (env : log_env W Q) : log_ok env -> log_ok (with_world w env).
Proof. done. Qed.

Lemma frame_refl tr (s : state) : inv generation tr s -> frame s s.
Proof. intros [? ? ? ? ? ? ? ? ? ?]. by split. Qed.

(** Atomics the tasks touch besides the pool's counter. *)
Lemma atomics_frame v x (a : atomics) :
  v <> command_objects_in_use -> atomic_set v x a command_objects_in_use = a command_objects_in_use.
Proof. intros Hv. unfold atomic_set. by rewrite decide_False. Qed.

Lemma command_at_store b c (s : state) : command_at b (store b c s) = c.
Proof. unfold command_at, store. simpl. by rewrite lookup_insert_eq. Qed.
Lemma command_at_store_ne b b' c (s : state) :
  b' <> b -> command_at b' (store b c s) = command_at b' s.
Proof. intros. unfold command_at, store. simpl. by rewrite lookup_insert_ne. Qed.

Lemma command_at_world b w (s : state) : command_at b (set_world w s) = command_at b s.
Proof. done. Qed.

Lemma clock_spec (s : state) :
  exists now w, clock s = (now, set_world w s).
Proof. unfold clock. destruct (k_uptime_get (world s)) as [now w]. eauto. Qed.

Lemma set_world_twice w1 w2 (s : state) : set_world w2 (set_world w1 s) = set_world w2 s.
Proof. done. Qed.

(** ** Operations in context *)

Lemma on_command_ok b op (s : state) c' env' :
  op (command_at b s) (f_env s) = Ok (c', env') ->
  on_command b op s = Ok (store b c' (set_f_env env' s)).
Proof. intros E. unfold on_command. by rewrite E. Qed.

Lemma on_transition_ok b from next (s : state) :
  co_state (command_at b s) = from -> wf_command (command_at b s) -> log_ok (f_env s) ->
  exists env', on_command b (fun c => vams_scheduler_transition management c from next) s
               = Ok (store b (set_state next (command_at b s)) (set_f_env env' s)) /\ log_ok env'.
Proof.
  intros Hs Hwf Hl.
  destruct (transition_ok management (command_at b s) from next (f_env s)) as (env' & E & Hl');
    [done..|]. exists env'. split; [|done]. by apply on_command_ok.
Qed.

(** The failing operations: what they leave in the block. *)
Lemma on_fail_ok b op from status error ts next (s : state) :
  (forall env, op (command_at b s) env =
     vams_scheduler_transition management (fail_completion status error ts (command_at b s))
       from next env) ->
  co_state (command_at b s) = from -> wf_command (command_at b s) -> log_ok (f_env s) ->
  is_u16 status -> is_u16 error -> is_u64 ts ->
  let c' := set_state next (fail_completion status error ts (command_at b s)) in
  exists env', on_command b op s = Ok (store b c' (set_f_env env' s)) /\ log_ok env' /\
               wf_command c'.
Proof.
  intros Hop Hs Hwf Hl H1 H2 H3. cbv zeta.
  destruct (fail_transition_ok management (command_at b s) status error ts from next (f_env s))
    as (env' & E & Hl' & Hwf'); [done..|]. exists env'. split_and!; try done.
  apply on_command_ok. by rewrite Hop.
Qed.

Lemma emit_event_ok id cid g a0 a1 a2 v (s : state) :
  log_ok (f_env s) -> is_u16 id -> is_u32 cid -> is_u32 g ->
  exists env', emit_event management id cid g a0 a1 a2 v s = Ok (set_f_env env' s) /\ log_ok env'.
Proof.
  intros. unfold emit_event.
  destruct (emit_ok management id cid g a0 a1 a2 v (f_env s)) as (env' & E & Hl); [done..|].
  rewrite E. by exists env'.
Qed.

Lemma retained_ok op (s : state) :
  log_ok (f_env s) -> op_args_ok op ->
  exists env', retained (run_op management op) s = Ok (set_f_env env' s) /\ log_ok env'.
Proof.
  intros (Hwf & Hr & Hid & Hd) Ha. unfold retained. rewrite run_op_commit by done.
  destruct (op_record_spec op (le_retained (f_env s)) Ha Hwf Hr) as (Hwf' & Hr' & _ & _ & Hid').
  destruct (commit_ok management (op_record op (le_retained (f_env s))) (le_world (f_env s)))
    as (w' & E). rewrite E. eexists. split; [done|]. unfold log_ok. simpl.
  split_and!; auto using set_crc32_wf, retained_crc32_u32.
Qed.

Lemma note_command_ok i g (s : state) :
  log_ok (f_env s) -> is_u32 i -> is_u32 g ->
  exists env', retained (vams_retained_note_command management i g) s = Ok (set_f_env env' s) /\
    log_ok env'.
Proof. intros Hl Hi Hg. exact (retained_ok (note_command i g) s Hl (conj Hi Hg)). Qed.

Lemma clear_command_ok (s : state) :
  log_ok (f_env s) ->
  exists env', retained (vams_retained_clear_command management) s = Ok (set_f_env env' s) /\
    log_ok env'.
Proof. intros Hl. exact (retained_ok clear_command s Hl I). Qed.

Lemma inv_not_free tr (s : state) b p :
  inv generation tr s -> [(b, p)] ⊆+ places s -> b ∉ slab_free (f_pool s).
Proof.
  intros Hinv Hsub Hin. pose proof (inv_nodup generation tr s Hinv) as Hnd.
  apply NoDup_app in Hnd as (_ & Hd & _). apply (Hd b); [|by apply elem_of_elements].
  apply singleton_submseteq_l in Hsub. apply list_elem_of_fmap. by exists (b, p).
Qed.

(** ** Receiver *)

Lemma receiver_loop_keeps tr (s : state) :
  inv generation tr s -> f_rx s = rx_loop ->
  keeps generation tr (vams_command_receiver command_portal management generation s).
Proof.
  intros Hinv Hpc. unfold vams_command_receiver. rewrite Hpc. cbv zeta.
  destruct (vams_command_pending command_portal _) as [pending w1]. destruct (negb _).
  - destruct (vams_command_pending command_portal _) as [[|] w2]; stay_step Hinv.
  - stay_step Hinv.
Qed.

Lemma receiver_alloc_keeps tr (s : state) :
  inv generation tr s -> f_rx s = rx_admitted ->
  keeps generation tr (vams_command_receiver command_portal management generation s).
Proof.
  intros Hinv Hpc. unfold vams_command_receiver. rewrite Hpc. cbv zeta.
  destruct (k_mem_slab_alloc _) as [[b pool]|] eqn:Ea; [|stay_step Hinv].
  apply keeps_silent. apply slab_alloc_some in Ea as [Hb Hfree].
  eapply (inv_alloc generation tr s _ b); [exact Hinv|solve_places| |exact Hb|exact Hfree| |done].
  - destruct Hinv; solve_frame.
  - unfold counted, uncounted. simpl. rewrite Hpc. simpl. lia.
Qed.

Lemma receiver_count_keeps tr (s : state) b :
  inv generation tr s -> f_rx s = rx_reserved b ->
  keeps generation tr (vams_command_receiver command_portal management generation s).
Proof.
  intros Hinv Hpc. unfold vams_command_receiver. rewrite Hpc. cbv zeta.
  destruct (inv_counter generation tr s Hinv) as [Hc _]. specialize (Hc b Hpc).
  eapply (inv_moves_silent generation tr s _ b pl_raw pl_blank);
    [exact Hinv|solve_places|solve_places| |done| | |].
  - destruct Hinv; solve_frame.
  - unfold counted, uncounted. rewrite Hpc. simpl.
    unfold record_high_water, atomic_inc, atomic_set. simpl. rewrite Hc. lia.
  - intros b' Hne. exact (command_at_store_ne b b' zero_command s Hne).
  - intros Htr. unfold place_ok, place_state.
    change (command_at b _) with (command_at b (store b zero_command s)).
    rewrite command_at_store. split_and!; try done. apply zero_command_wf.
Qed.

Lemma receiver_uncount_keeps tr (s : state) :
  inv generation tr s -> f_rx s = rx_freed ->
  keeps generation tr (vams_command_receiver command_portal management generation s).
Proof.
  intros Hinv Hpc. unfold vams_command_receiver. rewrite Hpc. cbv zeta.
  destruct (inv_counter generation tr s Hinv) as [_ Hc]. specialize (Hc (or_introl Hpc)).
  apply keeps_silent. eapply inv_stay; [exact Hinv|solve_places| |done| |done].
  - destruct Hinv; solve_frame.
  - unfold counted, uncounted. rewrite Hpc. simpl.
    unfold atomic_dec, atomic_set. simpl. rewrite Hc. lia.
Qed.

(** Capturing the received descriptor [sub] into the blank block [b]. *)
Lemma capture_step (s : state) b sub now :
  log_ok (f_env s) -> is_u32 generation -> is_u32 (f_sequence s) -> wf_submission sub ->
  command_at b s = set_submission sub zero_command ->
  exists c' env1 env2,
    on_command b (fun c => vams_scheduler_capture management c generation (f_sequence s) (u64 now)) s
      = Ok (store b c' (set_f_env env1 s)) /\
    retained (vams_retained_note_command management (s_command_id sub) generation)
      (store b c' (set_f_env env1 s)) = Ok (set_f_env env2 (store b c' (set_f_env env1 s))) /\
    log_ok env2 /\ wf_command c' /\ co_submission c' = sub /\
    co_state c' = VAMS_COMMAND_SUBMITTED /\ co_generation c' = generation /\
    co_publication_count c' = 0.
Proof.
  intros Hl Hg Hq Hsub Hc.
  destruct (capture_ok management (command_at b s) generation (f_sequence s) (u64 now) (f_env s))
    as (c' & env1 & E1 & Hl1 & Hwf1 & Hst1 & Hsb1 & _ & Hg1 & _ & _ & Hpc1 & _).
  { by rewrite Hc. }
  { rewrite Hc. destruct zero_command_wf as (_ & ?). by split. }
  { done. } { done. } { done. } { auto with vams_word. }
  destruct (note_command_ok (s_command_id sub) generation (store b c' (set_f_env env1 s)))
    as (env2 & E2 & Hl2); [done| |done|].
  { apply wf_submission_ranges in Hsub. tauto. }
  exists c', env1, env2. rewrite Hc in Hsb1. split_and!; try done. by apply on_command_ok.
Qed.

Lemma receiver_capture_keeps tr (s : state) b :
  inv generation tr s -> f_rx s = rx_allocated b ->
  keeps generation tr (vams_command_receiver command_portal management generation s).
Proof.
  intros Hinv Hpc. unfold vams_command_receiver. rewrite Hpc.
  assert (Hsub : [(b, pl_blank)] ⊆+ places s) by solve_places.
  destruct (inv_lookup generation tr s b pl_blank Hinv Hsub) as (_ & _ & Hz & Htr).
  simpl in Hz. rewrite Hz.
  destruct (command_receive_ends command_portal (co_submission zero_command) 0 (world s))
    as (status & sub & w & E & _ & [[-> Hsub']|(-> & _)]); [lia| |]; rewrite E;
    cbn [mbind result_bind].
  - change (negb (rc_is_ok rc_ok)) with false. cbv iota. cbn [default from_option]. unfold id.
    set (s1 := set_f_sequence _ _). destruct (clock_spec s1) as (now & w2 & Ec). rewrite Ec.
    set (s2 := set_world w2 s1).
    destruct (capture_step s2 b sub now)
      as (c' & env1 & env2 & E1 & E2 & Hl & Hwf & Hsb & Hst & Hg & Hpub);
      [apply Hinv|apply Hinv|simpl; auto with vams_word|done| |].
    { unfold s2, s1. etransitivity; [apply command_at_store|].
      change (command_at b (set_world w s)) with (command_at b s). by rewrite Hz. }
    rewrite E1. cbn [mbind result_bind]. rewrite E2. cbn [mbind result_bind].
    apply keeps_label. eapply (inv_moves generation tr _ s _ b pl_blank pl_submitted);
      [exact Hinv|exact Hsub|solve_places| |done|same_count done| | |].
    + destruct Hinv; solve_frame. simpl. auto with vams_word.
    + intros b' Hne. etransitivity; [by apply command_at_store_ne|].
      exact (command_at_store_ne b b' _ (set_world w s) Hne).
    + intros b' Hne. rewrite block_trace_app. simpl. by rewrite decide_False.
    + intros _. change (command_at b _) with (command_at b (store b c' (set_f_env env1 s2))).
      rewrite command_at_store. unfold place_ok, place_state. split_and!; try done.
      rewrite block_trace_app. simpl. rewrite decide_True, Htr, Hsb by done.
      by rewrite decide_True.
  - change (negb (rc_is_ok (rc_err EAGAIN))) with true. cbv iota. apply keeps_silent.
    pose proof (inv_not_free tr s b _ Hinv Hsub) as Hfree.
    eapply (inv_release generation tr s _ b pl_blank);
      [exact Hinv|solve_places| |exact Htr|exact (slab_free_block b (f_pool s) Hfree)| |done].
    + destruct Hinv; solve_frame.
    + unfold counted, uncounted. simpl. rewrite Hpc. simpl. lia.
Qed.

Lemma receiver_keeps tr (s : state) :
  inv generation tr s ->
  keeps generation tr (vams_command_receiver command_portal management generation s).
Proof.
  intros Hinv. destruct (f_rx s) as [| |b|b| |b] eqn:Hpc;
    [by apply receiver_loop_keeps|by apply receiver_alloc_keeps|by eapply receiver_count_keeps
    |by eapply receiver_capture_keeps|by apply receiver_uncount_keeps|].
  unfold vams_command_receiver. rewrite Hpc.
  destruct (inv_limits generation tr s Hinv) as (Hlim & _).
  put_step Hinv Hlim (f_validation s) validation_queue_high_water b pl_submitted.
Qed.

(** ** Validator *)

Lemma validator_check_keeps tr (s : state) b :
  inv generation tr s -> f_va s = va_received b ->
  keeps generation tr (vams_command_validator management s).
Proof.
  intros Hinv Hpc. unfold vams_command_validator. rewrite Hpc.
  assert (Hsub : [(b, pl_submitted)] ⊆+ places s) by solve_places.
  destruct (inv_lookup generation tr s b pl_submitted Hinv Hsub) as (Hwf & Hpub & [Hst Hg] & Htr).
  destruct (on_transition_ok b VAMS_COMMAND_SUBMITTED VAMS_COMMAND_VALIDATING s)
    as (env1 & E1 & Hl1); [done|done|apply Hinv|].
  rewrite E1. cbn [mbind result_bind].
  destruct (clock_spec (store b (set_state VAMS_COMMAND_VALIDATING (command_at b s))
              (set_f_env env1 s))) as (now & w & Ec). rewrite Ec. cbv zeta.
  rewrite !command_at_world, !command_at_store.
  set (c1 := set_completion _ (set_state VAMS_COMMAND_VALIDATING (command_at b s))).
  set (s2 := store b c1 _). assert (Hc2 : command_at b s2 = c1) by apply command_at_store.
  assert (Hwf1 : wf_command c1).
  { apply wf_command_set_completion; [|done]. apply execute_wf, Hwf. }
  assert (Ha1 : answers c1) by done.
  set (next := if negb (c_status (co_completion c1) =? VAMS_STATUS_SUCCESS)
               then VAMS_COMMAND_COMPLETED_ERROR else VAMS_COMMAND_QUEUED).
  destruct (on_transition_ok b VAMS_COMMAND_VALIDATING next s2) as (env2 & E2 & Hl2);
    [by rewrite Hc2|by rewrite Hc2|done|]. rewrite Hc2 in E2. unfold next in *. clear next.
  destruct (Z.eqb_spec (c_status (co_completion c1)) VAMS_STATUS_SUCCESS) as [Hs|Hs];
    cbn [negb] in *; rewrite E2; cbn [mbind result_bind].
  - store_step Hinv Hsub b pl_submitted pl_queued.
    exact (execute_success (co_submission (command_at b s)) (u64 now) Hs).
  - store_step Hinv Hsub b pl_submitted pl_terminal.
Qed.

Lemma validator_keeps tr (s : state) :
  inv generation tr s -> keeps generation tr (vams_command_validator management s).
Proof.
  intros Hinv. destruct (f_va s) as [|b|b [|]] eqn:Hpc; [|by eapply validator_check_keeps|..].
  all: unfold vams_command_validator; rewrite Hpc; cbv zeta.
  - take_step Hinv (f_validation s) pl_submitted.
  - destruct (inv_limits generation tr s Hinv) as (_ & Hlim & _).
    put_step Hinv Hlim (f_ready s) ready_queue_high_water b pl_queued.
  - destruct (inv_limits generation tr s Hinv) as (_ & _ & _ & Hlim).
    put_step Hinv Hlim (f_completion s) completion_queue_high_water b pl_terminal.
Qed.

(** ** Scheduler *)

Lemma remove_ready_spec selected ready b :
  ready !! selected = Some b -> ready ≡ₚ b :: remove_ready selected ready.
Proof.
  intros Hb. destruct ready as [|last l _] using rev_ind; [done|]. unfold remove_ready.
  rewrite length_app. simpl. replace (length l + 1 - 1)%nat with (length l) by lia.
  rewrite list_lookup_middle by done.
  destruct (decide (selected = length l)) as [->|Hne].
  - rewrite list_lookup_middle in Hb by done. injection Hb as <-.
    rewrite insert_app_r_alt, Nat.sub_diag by lia. simpl. rewrite take_app_length.
    by rewrite Permutation_app_comm.
  - apply lookup_lt_Some in Hb as Hl. rewrite length_app in Hl. simpl in Hl.
    rewrite lookup_app_l in Hb by lia. rewrite insert_app_l by lia.
    rewrite take_app_length' by by rewrite length_insert.
    rewrite insert_take_drop by lia. rewrite <-(take_drop_middle l selected b Hb) at 1.
    solve_Permutation.
Qed.

Lemma delay_spec (s : state) :
  exists w, (if 0 <? delay then sleep delay s else s) = set_world w s.
Proof.
  destruct (0 <? delay); [by eexists|]. exists (world s).
  destruct s as [[] ? ? ? ? ? ? ? ? ? ? ? ? ? ?]. done.
Qed.

Lemma publish_or_reset_ok b pc (s : state) :
  exists r w a, publish_or_reset command_portal management b pc s
      = Ok (r, set_world w (set_f_atomics a s)) /\
    a command_objects_in_use = f_atomics s command_objects_in_use.
Proof.
  unfold publish_or_reset.
  destruct (publish_step_cases command_portal (co_completion (command_at b s)) pc (f_atomics s)
              (world s)) as (r & a & w & E & [[-> ->]|[[-> ->]|(pc' & -> & ->)]]); rewrite E.
  - by exists (inr true), w, (f_atomics s).
  - change (rc_is ETIMEDOUT (rc_err ETIMEDOUT)) with true. cbv iota.
    by eexists (inr false), _, _.
  - by exists (inl pc'), w, (f_atomics s).
Qed.

Lemma payload_opcode opcode : vams_is_payload_opcode opcode = true -> 1 <= opcode <= 4.
Proof.
  unfold vams_is_payload_opcode, VAMS_OP_MEM_COPY, VAMS_OP_MEM_FILL, VAMS_OP_CRC32,
    VAMS_OP_VECTOR_ADD. lia.
Qed.

(** The one assertion the queue sizes do not rule out. *)
Definition running_overflow (s : state) : Prop :=
  exists b, f_sc s = sc_running b /\ msgq_items (f_running s) <> [].

Lemma drain_keeps tr (s : state) :
  inv generation tr s -> f_sc s = sc_drain ->
  let ready := f_sc_ready s in
  let selected := vams_scheduler_select ((fun b => command_at b s) <$> ready) in
  keeps generation tr
    match ready !! selected with
    | None => Fault
    | Some b =>
        silent (set_f_sc (sc_dispatch b) (set_f_sc_ready (remove_ready selected ready) s))
    end.
Proof.
  intros Hinv Hpc. cbv zeta. pose proof (inv_drain generation tr s Hinv Hpc) as Hne.
  destruct (select_in_range ((fun b => command_at b s) <$> f_sc_ready s)) as [c Hc].
  { by intros E%fmap_nil_inv. }
  rewrite list_lookup_fmap in Hc. apply fmap_Some in Hc as (b & Hb & _). rewrite Hb.
  pose proof (remove_ready_spec _ _ _ Hb) as Hperm.
  set (rest := remove_ready _ _) in *. clearbody rest.
  eapply (inv_moves_silent generation tr s _ b pl_queued pl_queued);
    [exact Hinv| | | |done|same_count done|done|done].
  - unfold places, at_place. rewrite Hperm. simpl. solve_submseteq.
  - unfold places, at_place. simpl. rewrite Hperm, Hpc. simpl. solve_Permutation.
  - destruct Hinv; solve_frame.
Qed.

(** A queued command whose deadline has passed is aborted and timed out. *)
Lemma expire_step (s : state) b :
  co_state (command_at b s) = VAMS_COMMAND_QUEUED -> wf_command (command_at b s) ->
  log_ok (f_env s) ->
  exists s2 now w c env,
    on_command b (fun c => vams_scheduler_transition management c VAMS_COMMAND_QUEUED
                             VAMS_COMMAND_ABORTING) s = Ok s2 /\
    clock s2 = (now, set_world w s2) /\
    on_command b (fun c => vams_scheduler_timeout management c (u64 now)) (set_world w s2)
      = Ok (store b c (set_f_env env (set_world w s2))) /\
    s2 = store b (command_at b s2) (set_f_env (f_env s2) s) /\ log_ok env /\ wf_command c /\
    c = set_state VAMS_COMMAND_COMPLETED_ERROR
          (fail_completion VAMS_STATUS_TIMED_OUT VAMS_ERR_TIMEOUT (u64 now)
             (set_state VAMS_COMMAND_ABORTING (command_at b s))).
Proof.
  intros Hst Hwf Hl.
  destruct (on_transition_ok b VAMS_COMMAND_QUEUED VAMS_COMMAND_ABORTING s) as (env1 & E1 & Hl1);
    [done..|].
  set (s2 := store b _ _) in E1. assert (Hc2 : command_at b s2 = _) by apply command_at_store.
  destruct (clock_spec s2) as (now & w & Ec).
  destruct (on_fail_ok b (fun c => vams_scheduler_timeout management c (u64 now))
              VAMS_COMMAND_ABORTING VAMS_STATUS_TIMED_OUT VAMS_ERR_TIMEOUT (u64 now)
              VAMS_COMMAND_COMPLETED_ERROR (set_world w s2)) as (env2 & E2 & Hl2 & Hwf2);
    rewrite ?command_at_world, ?Hc2; try done; [auto with vams_word|].
  rewrite command_at_world, Hc2 in E2, Hwf2.
  eexists s2, now, w, _, env2. split_and!; try done. by rewrite Hc2.
Qed.

Lemma dispatch_keeps tr (s : state) b :
  inv generation tr s -> f_sc s = sc_dispatch b ->
  keeps generation tr (vams_command_scheduler command_portal management generation delay s).
Proof.
  intros Hinv Hpc. unfold vams_command_scheduler. rewrite Hpc.
  assert (Hsub : [(b, pl_queued)] ⊆+ places s) by solve_places.
  destruct (inv_lookup generation tr s b pl_queued Hinv Hsub)
    as (Hwf & Hpub & (Hst & Hg & Ha & Hss & Hv) & Htr).
  destruct (delay_spec s) as (w0 & ->). cbv zeta.
  rewrite command_at_world, Hg, Z.eqb_refl. cbn [negb].
  destruct (clock_spec (set_world w0 s)) as (now & w & Ec). rewrite Ec, set_world_twice.
  rewrite command_at_world. set (s1 := set_world w s).
  assert (Hc1 : command_at b s1 = command_at b s) by done.
  destruct (vams_scheduler_deadline_expired (command_at b s) (u64 now)).
  - destruct (expire_step s1 b) as (s2 & now2 & w2 & c & env & E1 & E2 & E3 & Hs2 & Hl & Hwf2 & Hc);
      [done|done|apply Hinv|].
    rewrite E1. cbn [mbind result_bind]. rewrite E2, E3. cbn [mbind result_bind].
    rewrite Hs2. subst c. store_step Hinv Hsub b pl_queued pl_terminal.
  - destruct (on_transition_ok b VAMS_COMMAND_QUEUED VAMS_COMMAND_RUNNING s1)
      as (env1 & E1 & Hl1); [done|done|apply Hinv|].
    rewrite E1. cbn [mbind result_bind].
    set (s2 := store b _ _). assert (Hc2 : command_at b s2 = _) by apply command_at_store.
    destruct (vams_is_payload_opcode _) eqn:Hop.
    { rewrite Hc2 in Hop. apply payload_opcode in Hop as [? ?].
      by store_step Hinv Hsub b pl_queued pl_authorize. }
    destruct (on_transition_ok b VAMS_COMMAND_RUNNING VAMS_COMMAND_COMPLETED s2)
      as (env2 & E2 & Hl2); [by rewrite Hc2|by rewrite Hc2|done|].
    rewrite E2. cbn [mbind result_bind]. rewrite Hc2.
    store_step Hinv Hsub b pl_queued pl_terminal.
Qed.

Lemma scheduler_loop_keeps tr (s : state) :
  inv generation tr s -> f_sc s = sc_loop ->
  keeps generation tr (vams_command_scheduler command_portal management generation delay s).
Proof.
  intros Hinv Hpc. unfold vams_command_scheduler. rewrite Hpc. cbv zeta. simpl.
  destruct (f_sc_ready s) as [|b0 ready] eqn:Er.
  - destruct (k_msgq_get (f_ready s)) as [[b q]|] eqn:Eg; [|stay_step Hinv].
    apply msgq_get_inv in Eg as [Hi Hlim].
    eapply (inv_moves_silent generation tr s _ b pl_queued pl_queued);
      [exact Hinv|solve_places| | |done|same_count done|done|done].
    + unfold places, at_place. simpl. rewrite Hi, Hpc, Er. simpl. solve_Permutation.
    + destruct Hinv; solve_frame.
  - apply keeps_silent. eapply inv_stay; [exact Hinv|solve_places| |done|same_count done|done].
    destruct Hinv; split; simpl; try done. by rewrite Er.
Qed.

Lemma authorize_keeps tr (s : state) b :
  inv generation tr s -> f_sc s = sc_authorize b ->
  keeps generation tr (vams_command_scheduler command_portal management generation delay s).
Proof.
  intros Hinv Hpc. unfold vams_command_scheduler. rewrite Hpc. cbv zeta.
  destruct (publish_start (world s)) as [pc w]. stay_step Hinv.
Qed.

Lemma authorizing_keeps tr (s : state) b pc :
  inv generation tr s -> f_sc s = sc_authorizing b pc ->
  keeps generation tr (vams_command_scheduler command_portal management generation delay s).
Proof.
  intros Hinv Hpc. unfold vams_command_scheduler. rewrite Hpc. cbv zeta.
  assert (Hsub : [(b, pl_authorize)] ⊆+ places s) by solve_places.
  destruct (inv_lookup generation tr s b pl_authorize Hinv Hsub)
    as (Hwf & Hpub & (Hst & Hg & [Ha1 Ha2] & Hss & Hop & Hv) & Htr).
  destruct (publish_or_reset_ok b pc s) as (r & w & a & E & Ha).
  rewrite E. cbn [mbind result_bind]. destruct r as [pc'|[|]].
  - apply keeps_silent. eapply inv_stay;
      [exact Hinv|solve_places| |done|same_count ltac:(exact Ha)|done].
    destruct Hinv; solve_frame.
  - apply keeps_label. eapply (inv_moves generation tr _ s _ b pl_authorize pl_running);
      [exact Hinv|exact Hsub|solve_places| |done|same_count ltac:(exact Ha)|done| |].
    + destruct Hinv; solve_frame.
    + intros b' Hne. rewrite block_trace_app. simpl. by rewrite decide_False.
    + intros _. unfold place_ok, place_state. split_and!; try done.
      rewrite block_trace_app. simpl. rewrite decide_True, Htr by done.
      by rewrite decide_True.
  - eapply (inv_moves_silent generation tr s _ b pl_authorize pl_running);
      [exact Hinv|exact Hsub|solve_places| |done|same_count ltac:(exact Ha)|done|].
    + destruct Hinv; solve_frame.
    + intros _. unfold place_ok, place_state. by split_and!.
Qed.

Lemma scheduler_keeps tr (s : state) :
  inv generation tr s -> ~ running_overflow s ->
  keeps generation tr (vams_command_scheduler command_portal management generation delay s).
Proof.
  intros Hinv Hno. destruct (f_sc s) as [| |b|b|b pc|b|b|b] eqn:Hpc;
    [by apply scheduler_loop_keeps| |by eapply dispatch_keeps|by eapply authorize_keeps
    |by eapply authorizing_keeps|..].
  all: unfold vams_command_scheduler; rewrite Hpc; cbv zeta.
  - destruct (length (f_sc_ready s) <? VAMS_COMMAND_POOL_SIZE)%nat;
      [|by apply drain_keeps].
    destruct (k_msgq_get (f_ready s)) as [[b q]|] eqn:Eg; [|by apply drain_keeps].
    apply msgq_get_inv in Eg as [Hi Hlim].
    eapply (inv_moves_silent generation tr s _ b pl_queued pl_queued);
      [exact Hinv|solve_places|solve_places| |done|same_count done|done|done].
    destruct Hinv; split; simpl; try done. by destruct (f_sc_ready s).
  - destruct (inv_limits generation tr s Hinv) as (_ & _ & Hlim & _).
    assert (Hempty : msgq_items (f_running s) = []).
    { destruct (msgq_items (f_running s)) eqn:Ei; [done|]. exfalso. apply Hno.
      exists b. split; [done|]. by rewrite Ei. }
    destruct (queue_put_spec (f_running s) b running_queue_high_water (f_atomics s))
      as (q & a & E & Hi & Hl & Ha); [rewrite Hempty, Hlim; simpl; lia|].
    rewrite E. change (rc_is_ok rc_ok) with true. cbn [ASSERT_NO_MSG mbind result_bind].
    eapply (inv_moves_silent generation tr s _ b pl_running pl_running);
      [exact Hinv|solve_places|solve_places| |done|same_count ltac:(by apply Ha)|done|done].
    destruct Hinv; solve_frame.
  - destruct (inv_limits generation tr s Hinv) as (_ & _ & _ & Hlim).
    put_step Hinv Hlim (f_completion s) completion_queue_high_water b pl_terminal.
  - stay_step Hinv.
Qed.

(** ** Recovery manager *)

Lemma recovery_poll_ok b now (s : state) :
  exists status r now' w a,
    recovery_poll command_portal b now s = Ok (status, r, now', set_world w (set_f_atomics a s)) /\
    a command_objects_in_use = f_atomics s command_objects_in_use /\
    (status = rc_ok /\ wf_completion r \/ status = rc_err EAGAIN).
Proof.
  unfold recovery_poll. cbv zeta. set (poll := Z.min _ _).
  assert (0 <= poll).
  { unfold poll, VAMS_SERVICE_POLL_MS. destruct (Z.ltb_spec now (co_deadline_ms (command_at b s))); lia. }
  destruct (result_receive_ends command_portal zero_completion poll (world s))
    as (status & r & w & E & _ & Hcase); [done|]. rewrite E. cbn [mbind result_bind].
  set (s1 := update_atomics _ _). destruct (clock_spec s1) as (now' & w' & Ec). rewrite Ec.
  eexists status, _, _, w', _. split; [done|]. split; [done|].
  destruct Hcase as [[-> ?]|(-> & _)]; auto.
Qed.

(** Giving up on a command: the error completion and the event that reports it. *)
Lemma escalate_step (s : state) b id arg :
  co_state (command_at b s) = VAMS_COMMAND_RUNNING \/
    co_state (command_at b s) = VAMS_COMMAND_ABORTING ->
  wf_command (command_at b s) -> log_ok (f_env s) -> is_u16 id ->
  exists now w c env1 env2,
    clock s = (now, set_world w s) /\
    on_command b (fun c => vams_scheduler_escalate management c (u64 now)) (set_world w s)
      = Ok (store b c (set_f_env env1 (set_world w s))) /\
    emit_event management id (s_command_id (co_submission c)) (co_generation c) arg 0 0 0
      (store b c (set_f_env env1 (set_world w s)))
      = Ok (set_f_env env2 (store b c (set_f_env env1 (set_world w s)))) /\
    log_ok env2 /\ wf_command c /\
    c = set_state VAMS_COMMAND_COMPLETED_ERROR
          (fail_completion VAMS_STATUS_FAILED VAMS_ERR_ENGINE (u64 now) (command_at b s)).
Proof.
  intros Hst Hwf Hl Hid. destruct (clock_spec s) as (now & w & Ec).
  destruct (on_fail_ok b (fun c => vams_scheduler_escalate management c (u64 now))
              (co_state (command_at b s)) VAMS_STATUS_FAILED VAMS_ERR_ENGINE (u64 now)
              VAMS_COMMAND_COMPLETED_ERROR (set_world w s)) as (env1 & E1 & Hl1 & Hwf1);
    rewrite ?command_at_world; try done; [|auto with vams_word|].
  { intros env. unfold vams_scheduler_escalate, state_is. by destruct Hst as [-> | ->]. }
  rewrite command_at_world in E1, Hwf1. set (c := set_state _ _) in *.
  destruct (emit_event_ok id (s_command_id (co_submission c)) (co_generation c) arg 0 0 0
              (store b c (set_f_env env1 (set_world w s)))) as (env2 & E2 & Hl2);
    [done|done|exact (command_id_u32 c Hwf1)|apply Hwf1|].
  by exists now, w, c, env1, env2.
Qed.

Lemma apply_keeps tr (s : state) b r :
  inv generation tr s -> f_re s = re_apply b r ->
  keeps generation tr (vams_recovery_manager command_portal management s).
Proof.
  intros Hinv Hpc. unfold vams_recovery_manager. rewrite Hpc.
  assert (Hsub : [(b, pl_result r)] ⊆+ places s) by solve_places.
  destruct (inv_lookup generation tr s b (pl_result r) Hinv Hsub)
    as (Hwf & Hpub & (Hst & Hg & Ha & Hr) & Htr).
  destruct (apply_result_ok management (command_at b s) r (f_env s) Hst Hwf Hr)
    as [[E _]|(env' & E & Hans & Hl)]; [apply Hinv| |]; rewrite E; cbn [mbind result_bind].
  - change (rc_is EPROTO (rc_err EPROTO)) with true. cbv iota zeta.
    set (s1 := update_atomics _ _). assert (Hc1 : command_at b s1 = command_at b s).
    { exact (command_at_store b (command_at b s) _). }
    destruct (escalate_step s1 b VAMS_EVENT_RESULT_MISMATCH 0)
      as (now & w & c & env1 & env2 & E1 & E2 & E3 & Hl & Hwf2 & Hc);
      rewrite ?Hc1; try done; [apply Hinv|].
    rewrite E1, E2. cbn [mbind result_bind]. unfold command_id_at, generation_at.
    rewrite command_at_store, E3. cbn [mbind result_bind]. rewrite Hc1 in Hc. subst c.
    store_step Hinv Hsub b (pl_result r) pl_terminal.
  - change (rc_is EPROTO rc_ok) with false. change (rc_is_ok rc_ok) with true. cbv iota zeta.
    cbn [ASSERT_NO_MSG mbind result_bind].
    store_step Hinv Hsub b (pl_result r) pl_terminal; [by auto with vams|].
    unfold outcome_ok. simpl. by destruct (Z.eqb_spec (c_status r) VAMS_STATUS_SUCCESS).
Qed.

(** Asking the engine to stop: the abort is logged and the command aborting. *)
Lemma begin_abort_step (s : state) b arg :
  co_state (command_at b s) = VAMS_COMMAND_RUNNING -> wf_command (command_at b s) ->
  log_ok (f_env s) ->
  exists now w c env1 env2,
    clock s = (now, set_world w s) /\
    on_command b (fun c => vams_scheduler_begin_abort management c (u64 now)) (set_world w s)
      = Ok (store b c (set_f_env env1 (set_world w s))) /\
    emit_event management VAMS_EVENT_ABORT_REQUEST (s_command_id (co_submission c))
      (co_generation c) arg 0 0 0 (store b c (set_f_env env1 (set_world w s)))
      = Ok (set_f_env env2 (store b c (set_f_env env1 (set_world w s)))) /\
    log_ok env2 /\ wf_command c /\
    c = set_state VAMS_COMMAND_ABORTING
          (fail_completion VAMS_STATUS_TIMED_OUT VAMS_ERR_TIMEOUT (u64 now) (command_at b s)).
Proof.
  intros Hst Hwf Hl. destruct (clock_spec s) as (now & w & Ec).
  destruct (on_fail_ok b (fun c => vams_scheduler_begin_abort management c (u64 now))
              VAMS_COMMAND_RUNNING VAMS_STATUS_TIMED_OUT VAMS_ERR_TIMEOUT (u64 now)
              VAMS_COMMAND_ABORTING (set_world w s)) as (env1 & E1 & Hl1 & Hwf1);
    rewrite ?command_at_world; try done; [|auto with vams_word|].
  { intros env. unfold vams_scheduler_begin_abort, state_is. by rewrite Hst. }
  rewrite command_at_world in E1, Hwf1. set (c := set_state _ _) in *.
  destruct (emit_event_ok VAMS_EVENT_ABORT_REQUEST (s_command_id (co_submission c))
              (co_generation c) arg 0 0 0 (store b c (set_f_env env1 (set_world w s))))
    as (env2 & E2 & Hl2); [done|done|exact (command_id_u32 c Hwf1)|apply Hwf1|].
  by exists now, w, c, env1, env2.
Qed.

Lemma abort_keeps tr (s : state) b :
  inv generation tr s -> f_re s = re_abort b ->
  keeps generation tr (vams_recovery_manager command_portal management s).
Proof.
  intros Hinv Hpc. unfold vams_recovery_manager. rewrite Hpc. cbv zeta.
  assert (Hsub : [(b, pl_running)] ⊆+ places s) by solve_places.
  destruct (inv_lookup generation tr s b pl_running Hinv Hsub)
    as (Hwf & Hpub & (Hst & Hg & Ha) & Htr).
  set (s1 := update_atomics _ s). assert (Hc1 : command_at b s1 = command_at b s) by done.
  destruct (begin_abort_step s1 b (f_atomics s1 recovery_attempt_count))
    as (now & w & c & env1 & env2 & E1 & E2 & E3 & Hl2 & Hwf2 & Hc);
    rewrite ?Hc1; try done; [apply Hinv|].
  rewrite E1, E2. cbn [mbind result_bind]. unfold command_id_at, generation_at.
  rewrite command_at_store. set (s2 := store b c _) in *.
  change (f_atomics s2) with (f_atomics s1). rewrite E3. cbn [mbind result_bind].
  rewrite Hc1 in Hc. subst c. store_step Hinv Hsub b pl_running pl_aborting.
Qed.

Lemma requesting_keeps tr (s : state) b pc :
  inv generation tr s -> f_re s = re_requesting b pc ->
  keeps generation tr (vams_recovery_manager command_portal management s).
Proof.
  intros Hinv Hpc. unfold vams_recovery_manager. rewrite Hpc. cbv zeta. unfold abort_step.
  destruct (send_step_cases command_portal VAMS_COMMAND_RESULT_PENDING VAMS_COMMAND_FW_ABORT
              (co_completion (command_at b s)) pc (world s)) as (r & w & E & H). rewrite E.
  destruct H as [->|[->|[pc' ->]]].
  - change (rc_is_ok rc_ok) with true. cbv iota. stay_step Hinv. by intros ? ? [= _ <-].
  - change (rc_is_ok (rc_err EBUSY)) with false. change (rc_is EBUSY (rc_err EBUSY)) with true.
    cbv iota. stay_step Hinv. by intros ? ? [= _ <-].
  - stay_step Hinv.
Qed.

Lemma answer_keeps tr (s : state) b timeout_ms :
  inv generation tr s -> f_re s = re_answer b timeout_ms ->
  keeps generation tr (vams_recovery_manager command_portal management s).
Proof.
  intros Hinv Hpc. pose proof (inv_answer generation tr s Hinv b timeout_ms Hpc) as Ht.
  unfold vams_recovery_manager. rewrite Hpc. cbv zeta.
  assert (Hsub : [(b, pl_aborting)] ⊆+ places s) by solve_places.
  destruct (result_receive_ends command_portal zero_completion timeout_ms (world s) Ht)
    as (status & r & w & E & _ & [[-> Hr]|(-> & _)]); rewrite E; cbn [mbind result_bind].
  - change (rc_is EAGAIN rc_ok) with false. change (rc_is_ok rc_ok) with true.
    cbv iota. cbn [ASSERT_NO_MSG mbind result_bind default from_option]. unfold id.
    eapply (inv_moves_silent generation tr s _ b pl_aborting (pl_result r));
      [exact Hinv|exact Hsub|solve_places| |done|same_count done|done|].
    + destruct Hinv; solve_frame.
    + intros (? & ? & (? & ? & ?) & ?). unfold place_ok, place_state.
      split_and!; try done. by right.
  - change (rc_is EAGAIN (rc_err EAGAIN)) with true. cbv iota. stay_step Hinv.
Qed.

Lemma escalate_keeps tr (s : state) b :
  inv generation tr s -> f_re s = re_escalate b ->
  keeps generation tr (vams_recovery_manager command_portal management s).
Proof.
  intros Hinv Hpc. unfold vams_recovery_manager. rewrite Hpc. cbv zeta.
  assert (Hsub : [(b, pl_aborting)] ⊆+ places s) by solve_places.
  destruct (inv_lookup generation tr s b pl_aborting Hinv Hsub)
    as (Hwf & Hpub & (Hst & Hg & Ha) & Htr).
  set (s1 := update_atomics _ s). assert (Hc1 : command_at b s1 = command_at b s) by done.
  destruct (escalate_step s1 b VAMS_EVENT_ABORT_ESCALATED (f_atomics s1 recovery_escalation_count))
    as (now & w & c & env1 & env2 & E1 & E2 & E3 & Hl & Hwf2 & Hc);
    rewrite ?Hc1; try done; [by right|apply Hinv|].
  rewrite E1, E2. cbn [mbind result_bind]. unfold command_id_at, generation_at.
  rewrite command_at_store. set (s2 := store b c _) in *.
  change (f_atomics s2) with (f_atomics s1). rewrite E3. cbn [mbind result_bind].
  rewrite Hc1 in Hc. subst c. store_step Hinv Hsub b pl_aborting pl_terminal.
Qed.

Lemma recovery_keeps tr (s : state) :
  inv generation tr s -> keeps generation tr (vams_recovery_manager command_portal management s).
Proof.
  intros Hinv. destruct (f_re s) as [|b now|b|b pc|b t|b|b r|b] eqn:Hpc;
    [| |by eapply abort_keeps|by eapply requesting_keeps|by eapply answer_keeps
    |by eapply escalate_keeps|by eapply apply_keeps|].
  all: unfold vams_recovery_manager; rewrite Hpc; cbv zeta.
  - destruct (k_msgq_get (f_running s)) as [[b q]|] eqn:Eg.
    + apply msgq_get_inv in Eg as [Hi Hlim].
      destruct (clock_spec (set_f_running q (update_atomics (vams_task_progress recovery_epoch) s)))
        as (now & w & Ec). rewrite Ec.
      eapply (inv_moves_silent generation tr s _ b pl_running pl_running);
        [exact Hinv|solve_places|solve_places| |done|same_count done|done|done].
      destruct Hinv; solve_frame.
    + stay_step Hinv.
  - assert (Hsub : [(b, pl_running)] ⊆+ places s) by solve_places.
    destruct (recovery_poll_ok b now s) as (status & r & now' & w & a & E & Ha & Hcase).
    rewrite E. cbn [mbind result_bind].
    assert (frame s (set_world w (set_f_atomics a s))) by (destruct Hinv; solve_frame).
    destruct Hcase as [[-> Hr]| ->].
    + change (rc_is EAGAIN rc_ok) with false. change (rc_is_ok rc_ok) with true.
      cbn [andb ASSERT_NO_MSG mbind result_bind].
      eapply (inv_moves_silent generation tr s _ b pl_running (pl_result r));
        [exact Hinv|exact Hsub|solve_places| |done|same_count ltac:(exact Ha)|done|].
      * destruct Hinv; solve_frame.
      * intros (? & ? & (? & ? & ?) & ?). unfold place_ok, place_state.
        split_and!; try done. by left.
    + change (rc_is EAGAIN (rc_err EAGAIN)) with true. cbn [andb].
      destruct (now' <? _).
      all: eapply (inv_moves_silent generation tr s _ b pl_running pl_running);
        [exact Hinv|exact Hsub|solve_places| |done|same_count ltac:(exact Ha)|done|done].
      all: destruct Hinv; solve_frame.
  - destruct (inv_limits generation tr s Hinv) as (_ & _ & _ & Hlim).
    put_step Hinv Hlim (f_completion s) completion_queue_high_water b pl_terminal.
Qed.

(** ** Completion service *)

Lemma outcome_terminal c : outcome_ok c -> terminal (co_state c) = true.
Proof. unfold outcome_ok. by destruct (co_state c). Qed.

(** Publishing, logging and freeing the object of block [b]. *)
Lemma retire_ok b (s : state) :
  let c := command_at b s in
  wf_command c -> co_publication_count c = 0 -> outcome_ok c -> log_ok (f_env s) ->
  exists env1 env2 env3 env4 c1,
    on_command b (vams_scheduler_mark_published management) s
      = Ok (store b c1 (set_f_env env1 s)) /\
    co_completion c1 = co_completion c /\ co_generation c1 = co_generation c /\
    emit_event management VAMS_EVENT_COMMAND_COMPLETE (c_command_id (co_completion c))
      (co_generation c) (c_status (co_completion c)) (c_error_code (co_completion c)) 0
      (c_user_cookie (co_completion c)) (store b c1 (set_f_env env1 s))
      = Ok (set_f_env env2 (store b c1 s)) /\
    on_command b (fun c0 => vams_scheduler_transition management c0 (co_state c)
                              VAMS_COMMAND_FREE) (set_f_env env2 (store b c1 s))
      = Ok (store b (set_state VAMS_COMMAND_FREE c1) (set_f_env env3 (store b c1 s))) /\
    retained (vams_retained_clear_command management)
      (store b (set_state VAMS_COMMAND_FREE c1) (set_f_env env3 (store b c1 s)))
      = Ok (set_f_env env4 (store b (set_state VAMS_COMMAND_FREE c1) (store b c1 s))) /\
    log_ok env4.
Proof.
  cbv zeta. intros Hwf Hpub Hout Hl.
  destruct (mark_published_ok management (command_at b s) (f_env s)) as (env1 & E1 & Hl1 & Hwf1);
    [by apply outcome_terminal|done..|].
  set (c1 := set_publication_count 1 (command_at b s)) in *.
  destruct (emit_event_ok VAMS_EVENT_COMMAND_COMPLETE
              (c_command_id (co_completion (command_at b s))) (co_generation (command_at b s))
              (c_status (co_completion (command_at b s)))
              (c_error_code (co_completion (command_at b s))) 0
              (c_user_cookie (co_completion (command_at b s)))
              (store b c1 (set_f_env env1 s))) as (env2 & E2 & Hl2); [done|done| |apply Hwf|].
  { destruct Hwf as (_ & Hc & _). apply wf_completion_ranges in Hc. tauto. }
  assert (Hc2 : command_at b (set_f_env env2 (store b c1 s)) = c1) by apply command_at_store.
  destruct (on_transition_ok b (co_state (command_at b s)) VAMS_COMMAND_FREE
              (set_f_env env2 (store b c1 s))) as (env3 & E3 & Hl3);
    [by rewrite Hc2|by rewrite Hc2|done|]. rewrite Hc2 in E3.
  destruct (clear_command_ok (store b (set_state VAMS_COMMAND_FREE c1)
              (set_f_env env3 (store b c1 s)))) as (env4 & E4 & Hl4); [done|].
  exists env1, env2, env3, env4, c1. split_and!; try done. by apply on_command_ok.
Qed.

Lemma published_keeps tr (s : state) b ts :
  inv generation tr s -> f_cp s = cp_published b ts ->
  keeps generation tr (vams_command_completion command_portal management s).
Proof.
  intros Hinv Hpc. unfold vams_command_completion. rewrite Hpc. cbv zeta.
  assert (Hsub : [(b, pl_published ts)] ⊆+ places s) by solve_places.
  destruct (inv_lookup generation tr s b (pl_published ts) Hinv Hsub)
    as (Hwf & Hpub & (Hout & <- & _) & Htr).
  destruct (retire_ok b s Hwf Hpub Hout) as (env1 & env2 & env3 & env4 & c1 & E1 & Hcc & Hcg
    & E2 & E3 & E4 & Hl4); [apply Hinv|].
  rewrite E1. cbn [mbind result_bind]. unfold generation_at. rewrite command_at_store, Hcc, Hcg.
  rewrite E2. cbn [mbind result_bind]. rewrite E3. cbn [mbind result_bind].
  rewrite E4. cbn [mbind result_bind]. apply keeps_silent.
  pose proof (inv_not_free tr s b _ Hinv Hsub) as Hfree.
  eapply (inv_release generation tr s _ b);
    [exact Hinv|solve_places| |exact Htr|exact (slab_free_block b (f_pool s) Hfree)| |].
  - destruct Hinv; solve_frame.
  - unfold counted, uncounted. simpl. rewrite Hpc. simpl. lia.
  - intros b' Hne. etransitivity; [exact (command_at_store_ne b b' zero_command _ Hne)|].
    etransitivity; [exact (command_at_store_ne b b' _ _ Hne)|].
    exact (command_at_store_ne b b' c1 _ Hne).
Qed.

Lemma publish_keeps tr (s : state) b :
  inv generation tr s -> f_cp s = cp_publish b ->
  keeps generation tr (vams_command_completion command_portal management s).
Proof.
  intros Hinv Hpc. unfold vams_command_completion. rewrite Hpc. cbv zeta.
  destruct (publish_start (world s)) as [pc w].
  eapply (inv_moves_silent generation tr s _ b pl_terminal
            (pl_publishing (co_state (command_at b s))));
    [exact Hinv|solve_places|solve_places| |done|same_count done|done|].
  - destruct Hinv; solve_frame.
  - intros (? & ? & (? & ? & ?) & ?). unfold place_ok, place_state. by split_and!.
Qed.

Lemma publishing_keeps tr (s : state) b ts pc :
  inv generation tr s -> f_cp s = cp_publishing b ts pc ->
  keeps generation tr (vams_command_completion command_portal management s).
Proof.
  intros Hinv Hpc. unfold vams_command_completion. rewrite Hpc. cbv zeta.
  assert (Hsub : [(b, pl_publishing ts)] ⊆+ places s) by solve_places.
  destruct (inv_lookup generation tr s b (pl_publishing ts) Hinv Hsub)
    as (Hwf & Hpub & (Hout & Hts & Hg & [Ha1 Ha2]) & Htr).
  destruct (publish_or_reset_ok b pc s) as (r & w & a & E & Ha).
  rewrite E. cbn [mbind result_bind]. destruct r as [pc'|[|]].
  - apply keeps_silent. eapply inv_stay;
      [exact Hinv|solve_places| |done|same_count ltac:(exact Ha)|done].
    destruct Hinv; solve_frame.
  - apply keeps_label. eapply (inv_moves generation tr _ s _ b (pl_publishing ts) (pl_published ts));
      [exact Hinv|exact Hsub|solve_places| |done|same_count ltac:(exact Ha)|done| |].
    + destruct Hinv; solve_frame.
    + intros b' Hne. rewrite block_trace_app. simpl. by rewrite decide_False.
    + intros _. unfold place_ok, place_state. split_and!; try done.
      rewrite block_trace_app. simpl. rewrite decide_True, Htr by done. by rewrite decide_True.
  - eapply (inv_moves_silent generation tr s _ b (pl_publishing ts) pl_terminal);
      [exact Hinv|exact Hsub|solve_places| |done|same_count ltac:(exact Ha)|done|].
    + destruct Hinv; solve_frame.
    + intros _. unfold place_ok, place_state. by split_and!.
Qed.

Lemma completion_uncount_keeps tr (s : state) :
  inv generation tr s -> f_cp s = cp_freed ->
  keeps generation tr (vams_command_completion command_portal management s).
Proof.
  intros Hinv Hpc. unfold vams_command_completion. rewrite Hpc. cbv zeta.
  destruct (inv_counter generation tr s Hinv) as [_ Hc]. specialize (Hc (or_intror Hpc)).
  apply keeps_silent. eapply inv_stay; [exact Hinv|solve_places| |done| |done].
  - destruct Hinv; solve_frame.
  - unfold counted, uncounted. rewrite Hpc. simpl.
    unfold atomic_dec, atomic_set. simpl. rewrite Hc. lia.
Qed.

Lemma completion_keeps tr (s : state) :
  inv generation tr s -> keeps generation tr (vams_command_completion command_portal management s).
Proof.
  intros Hinv. destruct (f_cp s) as [|b|b ts pc|b ts| |b] eqn:Hpc;
    [|by eapply publish_keeps|by eapply publishing_keeps|by eapply published_keeps
    |by apply completion_uncount_keeps|].
  all: unfold vams_command_completion; rewrite Hpc; cbv zeta.
  - take_step Hinv (f_completion s) pl_terminal.
  - stay_step Hinv.
Qed.

(** ** All tasks *)

Lemma task_keeps t tr (s : state) :
  inv generation tr s -> ~ (t = t_scheduler /\ running_overflow s) ->
  keeps generation tr (task_step command_portal management generation delay t s).
Proof.
  intros Hinv Hno. destruct t; simpl.
  - by apply receiver_keeps.
  - by apply validator_keeps.
  - apply scheduler_keeps; [done|]. intros ?. by apply Hno.
  - by apply recovery_keeps.
  - by apply completion_keeps.
Qed.

Lemma decide_overflow t (s : state) :
  ~ (t = t_scheduler /\ running_overflow s) \/
  t = t_scheduler /\ exists b, f_sc s = sc_running b /\ msgq_items (f_running s) <> [].
Proof.
  unfold running_overflow. destruct t; try (left; by intros [? _]).
  destruct (f_sc s) as [| | | | |b| |] eqn:Hpc; try (left; by intros (_ & ? & ? & _)).
  destruct (msgq_items (f_running s)) eqn:Ei; [left; by intros (_ & ? & _ & ?)|right].
  split; [done|]. by exists b.
Qed.

Lemma overflow_faults tr (s : state) b :
  inv generation tr s -> f_sc s = sc_running b -> msgq_items (f_running s) <> [] ->
  vams_command_scheduler command_portal management generation delay s = Fault.
Proof.
  intros Hinv Hpc Hne. unfold vams_command_scheduler. rewrite Hpc.
  destruct (inv_limits generation tr s Hinv) as (_ & _ & Hlim & _).
  rewrite queue_put_full; [done|]. rewrite Hlim. destruct (msgq_items (f_running s)); [done|].
  simpl. lia.
Qed.
End Steps.
