(* ===== verification/PipelineThms.v ===== *)
(** * Correctness of the command pipeline

    The theorems about every interleaving of the five command tasks from boot,
    with arbitrary hardware, host and logging activity in between. *)

From S2P Require Import Prelude Abi Overload Command Platform Management Retained Event.
From S2P Require Import Scheduler Portal Firmware Pipeline PipelineInv PipelineSteps.

(** The branches of a task step that return what [H] says. *)
Ltac label_inv H :=
  unfold silent in H;
  repeat first
    [ match type of H with
      | (_ ≫= _) = Ok _ =>
          let x := fresh "x" in let E := fresh "E" in apply result_bind_ok in H as (x & E & H)
      end
    | progress simplify_eq
    | progress (cbn [negb] in H)
    | match type of H with context [match ?x with _ => _ end] => destruct x end ];
  try done.

Section Theorems.
Context {W : Type} {Q : Type -> Type} {S : Type}
  `{!Platform W, !PlatformLaws W, !Msgq Q, !MsgqLaws Q, !Slab S, !SlabLaws S}.
Context (command_portal management : device) (generation delay : Z).

Let state : Type := fw W Q S.

(** ** Boot *)

(** The state [main] starts the tasks in: empty queues of the declared
    depths, all pool blocks free, a usable crash record. *)
Record booted (s : state) : Prop := {
  bt_pool : slab_free (f_pool s) = list_to_set (seq 0 VAMS_COMMAND_POOL_SIZE);
  bt_queues :
    msgq_items (f_validation s) = [] /\ msgq_items (f_ready s) = [] /\
    msgq_items (f_running s) = [] /\ msgq_items (f_completion s) = [];
  bt_limits :
    msgq_limit (f_validation s) = VAMS_COMMAND_POOL_SIZE /\
    msgq_limit (f_ready s) = VAMS_COMMAND_POOL_SIZE /\
    msgq_limit (f_running s) = 1%nat /\
    msgq_limit (f_completion s) = VAMS_COMMAND_POOL_SIZE;
  bt_tasks :
    f_rx s = rx_loop /\ f_va s = va_loop /\ f_sc s = sc_loop /\ f_sc_ready s = [] /\
    f_re s = re_loop /\ f_cp s = cp_loop;
  bt_in_use : f_atomics s command_objects_in_use = 0;
  bt_sequence : f_sequence s = 0;
  bt_log : log_ok (f_env s);
  bt_generation : is_u32 generation;
}.

Lemma booted_places (s : state) : booted s -> places s = [].
Proof.
  intros [_ (E1 & E2 & E3 & E4) _ (E5 & E6 & E7 & E8 & E9 & E10) _ _ _ _]. unfold places.
  by rewrite E1, E2, E3, E4, E5, E6, E7, E8, E9, E10.
Qed.

Lemma booted_inv (s : state) : booted s -> inv generation [] s.
Proof.
  intros Hb. pose proof (booted_places s Hb) as Hp.
  destruct Hb as [Hfree _ Hlim (Hrx & _ & Hsc & _ & Hre & Hcp) Huse Hseq Hlog Hgen].
  split; try done; unfold owned; rewrite ?Hp; try done.
  - rewrite Hfree. apply elements_list_to_set, NoDup_seq.
  - unfold counted, uncounted. by rewrite Hrx, Hcp, Huse.
  - by rewrite Hsc.
  - by rewrite Hre.
  - rewrite Hseq. word_lia.
Qed.

(** ** Every step *)

Let step := step (W := W) (Q := Q) (S := S) command_portal management generation delay.
Let run := run (W := W) (Q := Q) (S := S) command_portal management generation delay.

Lemma inv_set_env tr (s : state) env :
  inv generation tr s -> log_ok env -> inv generation tr (set_f_env env s).
Proof.
  intros Hinv Hl. eapply inv_stay; [exact Hinv|done| |done|same_count done|done].
  destruct Hinv; solve_frame.
Qed.

Lemma step_inv tr s tr' s' : inv generation tr s -> step s tr' s' -> inv generation (tr ++ tr') s'.
Proof.
  intros Hinv Hstep. destruct Hstep as [t s l s' E|w s|m env' s Hm E|e env' s E|a b s s' Ha Hb E|a s Ha].
  all: rewrite ?app_nil_r.
  - destruct (decide_overflow t s) as [Hno|(-> & b & Hpc & Hne)].
    + destruct (task_keeps command_portal management generation delay t tr s Hinv Hno)
        as (l' & s1 & E' & Hinv'). rewrite E in E'. by simplify_eq.
    + exfalso. eapply overflow_faults in Hne; [|done..]. simpl in E. by rewrite Hne in E.
  - apply inv_set_env; [done|]. apply log_ok_world, Hinv.
  - apply inv_set_env; [done|].
    destruct (emit_spec management m (f_env s)) as (env1 & e & E1 & Hl & _); [apply Hinv|done|].
    rewrite E in E1. by simplify_eq.
  - apply inv_set_env; [done|]. unfold vams_event_receive in E.
    destruct (k_msgq_get _) as [[e' q]|]; simplify_eq. apply Hinv.
  - destruct (retained_ok management (note_health a b) s) as (env1 & E1 & Hl); [apply Hinv|done|].
    change (retained (vams_retained_note_health management a b) s = Ok (set_f_env env1 s)) in E1.
    rewrite E in E1. simplify_eq. by apply inv_set_env.
  - eapply inv_stay; [exact Hinv|done| |done|same_count ltac:(exact Ha)|done]. destruct Hinv; solve_frame.
Qed.

Lemma run_inv s tr s' : booted s -> run s tr s' -> inv generation tr s'.
Proof.
  intros Hb Hrun. induction Hrun as [s|s1 tr1 s2 tr2 s3 Hrun IH Hstep]; [by apply booted_inv|].
  eapply step_inv; eauto.
Qed.

(** ** Reading traces *)

Definition is_capture (b : nat) (l : label) : bool :=
  match l with l_capture b' _ => bool_decide (b' = b) | _ => false end.
Definition is_publish (b : nat) (l : label) : bool :=
  match l with l_publish b' _ => bool_decide (b' = b) | _ => false end.
Definition count (p : label -> bool) (tr : list label) : nat :=
  length (filter (fun l => p l = true) tr).

(** The command captured last in block [b], and not published since. *)
Definition awaiting (b : nat) (tr : list label) (s : vams_submission) : Prop :=
  exists tr1 tr2, tr = tr1 ++ l_capture b s :: tr2 /\ wf_submission s /\
    Forall (fun l => is_capture b l = false /\ is_publish b l = false) tr2.

Lemma count_app p tr1 tr2 : count p (tr1 ++ tr2) = (count p tr1 + count p tr2)%nat.
Proof. unfold count. by rewrite filter_app, length_app. Qed.

Lemma count_single p l : count p [l] = if p l then 1%nat else 0%nat.
Proof. unfold count. rewrite filter_cons. by destruct (p l); case_decide. Qed.

Lemma block_fold_none b tr : foldl (fun st l => block_event b l st) None tr = None.
Proof. induction tr as [|l tr IH]; [done|]. simpl. destruct l; simpl; by repeat case_match. Qed.

Lemma block_trace_prefix b tr1 tr2 st :
  block_trace b (tr1 ++ tr2) = Some st -> exists st1, block_trace b tr1 = Some st1.
Proof.
  rewrite block_trace_app. destruct (block_trace b tr1) eqn:E; [eauto|].
  by rewrite block_fold_none.
Qed.

Lemma awaiting_other b tr l s :
  awaiting b tr s -> is_capture b l = false -> is_publish b l = false -> awaiting b (tr ++ [l]) s.
Proof.
  intros (tr1 & tr2 & -> & Hwf & Hf) H1 H2. exists tr1, (tr2 ++ [l]).
  split; [by rewrite <-app_assoc|]. split; [done|]. apply Forall_app. auto.
Qed.

Lemma block_trace_reads b tr st :
  block_trace b tr = Some st ->
  (forall s, st = Some s -> awaiting b tr s) /\
  (count (is_capture b) tr =
   count (is_publish b) tr + match st with Some _ => 1 | None => 0 end)%nat.
Proof.
  revert st. induction tr as [|l tr IH] using rev_ind; intros st Hst.
  - unfold block_trace in Hst. simpl in Hst. simplify_eq. by split.
  - rewrite block_trace_app in Hst. rewrite !count_app, !count_single.
    destruct (block_trace b tr) as [st0|] eqn:E; [|by rewrite block_fold_none in Hst].
    destruct (IH st0 eq_refl) as [IH1 IH2].
    destruct l as [b' s|b' o c|b' c]; simpl in Hst;
      (destruct (decide (b' = b)) as [->|Hne];
       [|simplify_eq; simpl; rewrite ?bool_decide_eq_false_2 by done; split;
         [intros s' ->; apply awaiting_other; auto; simpl; by rewrite ?bool_decide_eq_false_2
         |simpl; lia]]).
    + destruct st0 as [s0|]; [done|]. case_decide; simplify_eq. split.
      * intros s' [= <-]. by exists tr, [].
      * simpl. rewrite bool_decide_eq_true_2 by done. simpl. lia.
    + destruct st0 as [s0|]; [|done]. case_decide; simplify_eq. split.
      * intros s' [= <-]. by apply awaiting_other; auto.
      * simpl. lia.
    + destruct st0 as [s0|]; [|done]. case_decide; simplify_eq. split; [done|].
      simpl. rewrite bool_decide_eq_true_2 by done. simpl. lia.
Qed.

Lemma place_not_cancelled p c :
  place_state generation p c -> p <> pl_raw -> co_state c <> VAMS_COMMAND_CANCELLED.
Proof.
  intros H Hraw E. destruct p; simpl in H; unfold outcome_ok in H; rewrite ?E in H;
    [done|by subst c|intuition discriminate..].
Qed.

Lemma raw_place (s : state) b : (b, pl_raw) ∈ places s -> f_rx s = rx_reserved b.
Proof.
  assert (Forall (fun '(b, p) => p = pl_raw -> f_rx s = rx_reserved b) (places s)) as Hall.
  { unfold places, at_place. rewrite !Forall_app, !Forall_fmap.
    split_and!; try (by apply Forall_true).
    - destruct (f_rx s); repeat constructor; done.
    - destruct (f_va s) as [| |? [|]]; repeat constructor; done.
    - destruct (f_sc s); repeat constructor; done.
    - destruct (f_re s); repeat constructor; done.
    - destruct (f_cp s); repeat constructor; done. }
  rewrite Forall_forall in Hall. intros Hin. by apply (Hall _ Hin).
Qed.

Lemma block_trace_total tr (s : state) b :
  inv generation tr s -> exists st, block_trace b tr = Some st /\ (st <> None -> b ∈ owned s).
Proof.
  intros Hinv. destruct (decide (b ∈ owned s)) as [Hin|Hout].
  - apply list_elem_of_fmap in Hin as ([b' p] & -> & Hin).
    pose proof (inv_places _ _ _ Hinv) as Hpl. rewrite Forall_forall in Hpl.
    pose proof (Hpl (b', p) Hin) as Hok.
    assert (exists st, block_trace b' tr = Some st) as [st Htr].
    { destruct p; [by eexists|by destruct Hok as (_ & _ & _ & Htr); eexists..]. }
    exists st. split; [exact Htr|]. intros _. apply list_elem_of_fmap. by exists (b', p).
  - exists None. split; [|done]. by apply (inv_idle _ _ _ Hinv).
Qed.

(** ** Properties *)

(** C2: exclusive ownership.  In every reachable state each of the eight
    pool blocks is in exactly one place: free, in one of the four queues, in
    the scheduler's ready array or held by one task; no block is lost or
    visible twice.  The in-use counter is the number of blocks not free,
    except while a task is between the pool and the counter: one less for the
    block the receiver has taken and not counted yet, one more for a block the
    receiver or the completion service has given back and not uncounted yet. *)
Theorem pool_blocks_have_one_owner (s0 s : state) (tr : list label)
    (Hboot : booted s0) (Hrun : run s0 tr s) :
  NoDup (owned s) /\
  (forall b, b ∈ owned s -> b ∉ slab_free (f_pool s)) /\
  (forall b, (b < VAMS_COMMAND_POOL_SIZE)%nat <-> b ∈ owned s \/ b ∈ slab_free (f_pool s)) /\
  Z.of_nat (length (owned s))
    = Z.of_nat VAMS_COMMAND_POOL_SIZE - k_mem_slab_num_free_get (f_pool s) /\
  f_atomics s command_objects_in_use
    = Z.of_nat (length (owned s))
      - (match f_rx s with rx_reserved _ => 1 | _ => 0 end)
      + (match f_rx s with rx_freed => 1 | _ => 0 end)
      + (match f_cp s with cp_freed => 1 | _ => 0 end).
Proof.
  pose proof (run_inv s0 tr s Hboot Hrun) as Hinv.
  pose proof (inv_nodup generation tr s Hinv) as Hnd.
  pose proof (inv_length generation tr s Hinv) as Hlen.
  destruct Hinv as [Hpart _ _ Huse _ _ _ _ _ _].
  assert (Hown : length (owned s) = length (places s)) by apply length_fmap.
  apply NoDup_app in Hnd as (Hnd & Hdis & _). split_and!.
  - done.
  - intros b Hb Hf. by apply (Hdis b Hb), elem_of_elements.
  - intros b. rewrite <-(elem_of_elements (slab_free _)), <-elem_of_app, Hpart, elem_of_seq. lia.
  - rewrite Hown, slab_num_free. lia.
  - rewrite Hown. unfold counted, uncounted in Huse.
    destruct (f_rx s), (f_cp s); simpl in *; lia.
Qed.

(** C10: a command is in the lifecycle state of the place it is in: SUBMITTED
    on the validation queue, QUEUED (and valid, with a SUCCESS completion
    that answers it) on the ready queue, RUNNING on the running queue,
    terminal with a completion that answers it on the completion queue; and
    never CANCELLED (the block the receiver has taken from the pool and not
    zeroed yet is no command). *)
Theorem commands_match_their_place (s0 s : state) (tr : list label)
    (Hboot : booted s0) (Hrun : run s0 tr s) :
  Forall (fun '(b, p) => place_state generation p (command_at b s)) (places s) /\
  Forall (fun b => co_state (command_at b s) = VAMS_COMMAND_SUBMITTED)
    (msgq_items (f_validation s)) /\
  Forall (fun b => co_state (command_at b s) = VAMS_COMMAND_QUEUED /\
                   valid_descriptor (co_submission (command_at b s)))
    (msgq_items (f_ready s)) /\
  Forall (fun b => co_state (command_at b s) = VAMS_COMMAND_RUNNING) (msgq_items (f_running s)) /\
  Forall (fun b => answers (command_at b s) /\
                   (co_state (command_at b s) = VAMS_COMMAND_COMPLETED <->
                    c_status (co_completion (command_at b s)) = VAMS_STATUS_SUCCESS))
    (msgq_items (f_completion s)) /\
  Forall (fun b => f_rx s = rx_reserved b \/ co_state (command_at b s) <> VAMS_COMMAND_CANCELLED)
    (owned s).
Proof.
  pose proof (inv_places _ _ _ (run_inv s0 tr s Hboot Hrun)) as Hpl.
  assert (Hq : forall p bs (P : nat -> Prop), at_place p bs ⊆+ places s ->
    (forall b, place_ok generation tr b p (command_at b s) -> P b) -> Forall P bs).
  { intros p bs P Hsub HP. rewrite Forall_forall in Hpl. apply Forall_forall. intros b Hb.
    apply HP, (Hpl (b, p)). eapply elem_of_submseteq; [|exact Hsub].
    apply list_elem_of_fmap. by exists b. }
  split_and!.
  - eapply Forall_impl; [exact Hpl|]. intros [b p] Hok.
    destruct p; [done|by destruct Hok as (_ & _ & Hst & _)..].
  - apply (Hq pl_submitted); [unfold places; solve_submseteq|]. intros b (_ & _ & [? _] & _). done.
  - apply (Hq pl_queued); [unfold places; solve_submseteq|].
    intros b ((Hwf & _) & _ & (? & _ & _ & _ & Hv) & _). split; [done|].
    by apply validate_none_valid.
  - apply (Hq pl_running); [unfold places; solve_submseteq|]. intros b (_ & _ & [? _] & _). done.
  - apply (Hq pl_terminal); [unfold places; solve_submseteq|].
    intros b (_ & _ & (Ho & _ & Ha) & _). split; [done|]. unfold outcome_ok in Ho.
    by destruct (co_state (command_at b s)).
  - rewrite Forall_forall in Hpl. apply Forall_forall. intros b Hb.
    apply list_elem_of_fmap in Hb as ([b' p] & -> & Hin). pose proof (Hpl _ Hin) as Hok.
    destruct p; [left; by apply (raw_place s b')|right; simpl..].
    all: destruct Hok as (_ & _ & Hst & _); by apply (place_not_cancelled _ _ Hst).
Qed.

(** C11: the tasks never stop on an assertion, an out-of-range index or a
    stuck wait, whatever the interleaving, the hardware and the host do, with
    exactly one exception: the scheduler authorizing a payload command while
    an earlier one is still on the one-deep running queue. *)
Theorem tasks_fault_only_on_running_overflow (s0 s : state) (tr : list label) (t : task)
    (Hboot : booted s0) (Hrun : run s0 tr s) :
  task_step command_portal management generation delay t s = Fault <->
  t = t_scheduler /\ running_overflow s.
Proof.
  pose proof (run_inv s0 tr s Hboot Hrun) as Hinv. split.
  - intros Hf. destruct (decide_overflow t s) as [Hno|(-> & b & ?)]; [|by split; [|exists b]].
    destruct (task_keeps command_portal management generation delay t tr s Hinv Hno)
      as (l & s' & E & _). by rewrite Hf in E.
  - intros [-> (b & Hpc & Hne)]. by eapply overflow_faults.
Qed.

(** C12: the engine is authorized for valid work only.  Every authorization
    the scheduler publishes is a SUCCESS completion for the descriptor
    captured last in that block and not yet published; that descriptor is one
    of the four payload commands, with opcode 1 (copy), 2 (fill), 3 (CRC32) or
    4 (vector add), and satisfies the validation rules ([valid_descriptor]). *)
Theorem engine_runs_only_valid_commands (s0 s : state) (tr tr1 tr2 : list label) (b : nat)
    (opcode : Z) (c : vams_completion) (Hboot : booted s0) (Hrun : run s0 tr s)
    (Htr : tr = tr1 ++ l_authorize b opcode c :: tr2) :
  exists sub, awaiting b tr1 sub /\ valid_descriptor sub /\
    s_opcode sub = opcode /\ opcode ∈ [1; 2; 3; 4] /\
    c_status c = VAMS_STATUS_SUCCESS /\
    c_command_id c = s_command_id sub /\ c_user_cookie c = s_user_cookie sub.
Proof.
  pose proof (run_inv s0 tr s Hboot Hrun) as Hinv.
  destruct (block_trace_total tr s b Hinv) as (st & Hst & _).
  subst tr. replace (tr1 ++ l_authorize b opcode c :: tr2) with ((tr1 ++ [l_authorize b opcode c]) ++ tr2) in Hst
    by by rewrite <-app_assoc.
  apply block_trace_prefix in Hst as [st1 Hst]. rewrite block_trace_app in Hst. simpl in Hst.
  rewrite decide_True in Hst by done.
  destruct (block_trace b tr1) as [[sub|]|] eqn:E1; [|done..].
  case_decide as Hm; [|done]. destruct Hm as (? & ? & ? & ? & Hop & Hv).
  apply block_trace_reads in E1 as [Hreads _]. specialize (Hreads sub eq_refl).
  exists sub. split_and!; try done.
  - apply validate_none_valid; [|done]. by destruct Hreads as (_ & _ & _ & ? & _).
  - assert (opcode = 1 \/ opcode = 2 \/ opcode = 3 \/ opcode = 4) as Ho by lia.
    rewrite !elem_of_cons. tauto.
Qed.

(** ** Executing a schedule *)

Fixpoint run_tasks (ts : list task) (s : state) : result (list label * state) :=
  match ts with
  | [] => Ok ([], s)
  | t :: ts' =>
      '(l, s) ← task_step command_portal management generation delay t s;
      '(tr, s) ← run_tasks ts' s;
      Ok (option_list l ++ tr, s)
  end.

Lemma run_trans s1 tr1 s2 tr2 s3 : run s1 tr1 s2 -> run s2 tr2 s3 -> run s1 (tr1 ++ tr2) s3.
Proof.
  intros H1 H2. induction H2 as [s|s2 tra sa trb sb _ IH Hstep]; [by rewrite app_nil_r|].
  rewrite app_assoc. eapply run_step; [by apply IH|done].
Qed.

Lemma run_tasks_run ts s tr s' : run_tasks ts s = Ok (tr, s') -> run s tr s'.
Proof.
  revert s tr. induction ts as [|t ts IH]; intros s tr E; cbn [run_tasks] in E.
  - simplify_eq. constructor.
  - apply result_bind_ok in E as ([l s1] & E1 & E).
    apply result_bind_ok in E as ([tr2 s2] & E2 & E). simplify_eq.
    eapply run_trans; [|by apply IH].
    rewrite <-(app_nil_l (option_list l)). eapply run_step; [constructor|].
    by eapply step_task.
Qed.

(** ** The descriptors behind the captures *)

(** The step of a run that emitted a label. *)
Lemma run_label s0 tr1 l tr2 s :
  run s0 (tr1 ++ l :: tr2) s ->
  exists s1 t s2, run s0 tr1 s1 /\
    task_step command_portal management generation delay t s1 = Ok (Some l, s2).
Proof.
  intros Hrun. remember (tr1 ++ l :: tr2) as tr eqn:E.
  induction Hrun as [s|s1 tra s2 trb s3 Hrun IH Hstep] in tr2, E |- *; [by destruct tr1|].
  destruct tr2 as [|x tr2' _] using rev_ind.
  - destruct Hstep as [t s l' s' Et| | | | |];
      [destruct l' as [l'|]; simpl in E|rewrite app_nil_r in E; by eapply IH..].
    + apply app_inj_tail in E as [-> ->]. eauto.
    + rewrite app_nil_r in E. by eapply IH.
  - destruct Hstep as [t s l' s' Et| | | | |];
      [destruct l' as [l'|]; simpl in E|rewrite app_nil_r in E; by eapply IH..].
    + rewrite app_comm_cons, app_assoc in E. apply app_inj_tail in E as [-> _]. by eapply IH.
    + rewrite app_nil_r in E. by eapply IH.
Qed.

Section Posted.
Context `{!PortalDevice W, !PortalDeviceLaws W command_portal}.

(** Only the receiver captures, and what it captures is what the portal held
    when its status read found a descriptor. *)
Lemma capture_source t b sub (s s' : state) :
  task_step command_portal management generation delay t s = Ok (Some (l_capture b sub), s') ->
  t = t_receiver /\
  vams_command_receiver command_portal management generation s
    = Ok (Some (l_capture b sub), s') /\
  portal_h2f (sys_read32 (dev_base command_portal + VAMS_COMMAND_STATUS)
                (sys_timepoint_calc 0 (world s)).2).2 = Some (submission_words sub).
Proof.
  intros E. assert (t = t_receiver) as ->.
  { destruct t; [done|exfalso..]; simpl in E.
    - unfold vams_command_validator in E. label_inv E.
    - unfold vams_command_scheduler in E. label_inv E.
    - unfold vams_recovery_manager in E. label_inv E.
    - unfold vams_command_completion in E. label_inv E. }
  simpl in E. split; [done|]. split; [exact E|]. unfold vams_command_receiver in E.
  destruct (f_rx s) as [| |b'|b'| |b'] eqn:Hpc; try (exfalso; by label_inv E).
  destruct (command_receive_ends command_portal (co_submission (command_at b' s)) 0 (world s))
    as (status & sub' & w & Er & _ & [[-> _]|(-> & _)]); [lia| |]; rewrite Er in E;
    cbn [mbind result_bind] in E; [|exfalso; label_inv E].
  assert (sub' = sub) as <-; [|by apply (receive_now command_portal _ w _ sub') in Er].
  by label_inv E.
Qed.

(** C1: exactly-once publication.  Every captured submission is word for word
    the descriptor the host had posted in the portal when the receiver's
    status read found one.  In the trace of any run, captures and
    publications of a block alternate: every publication, that is every
    [vams_command_complete] of the completion service that returns 0, carries the id
    and cookie of the descriptor captured last in that block and not yet
    published, and at any time at most one captured command per block is
    unpublished, which is then still owned by the pipeline. *)
Theorem published_exactly_once (s0 s : state) (tr : list label)
    (Hboot : booted s0) (Hrun : run s0 tr s) :
  (forall tr1 tr2 b sub, tr = tr1 ++ l_capture b sub :: tr2 ->
     exists s1 s2, run s0 tr1 s1 /\
       vams_command_receiver command_portal management generation s1
         = Ok (Some (l_capture b sub), s2) /\
       portal_h2f (sys_read32 (dev_base command_portal + VAMS_COMMAND_STATUS)
                     (sys_timepoint_calc 0 (world s1)).2).2 = Some (submission_words sub)) /\
  (forall tr1 tr2 b c, tr = tr1 ++ l_publish b c :: tr2 ->
     exists sub, awaiting b tr1 sub /\
       c_command_id c = s_command_id sub /\ c_user_cookie c = s_user_cookie sub) /\
  (forall b, (count (is_publish b) tr <= count (is_capture b) tr <= count (is_publish b) tr + 1)%nat) /\
  (forall b, count (is_capture b) tr <> count (is_publish b) tr -> b ∈ owned s).
Proof.
  pose proof (run_inv s0 tr s Hboot Hrun) as Hinv.
  pose proof (fun b => block_trace_total tr s b Hinv) as Hall.
  split_and!.
  - intros tr1 tr2 b sub ->. apply run_label in Hrun as (s1 & t & s2 & Hrun1 & E).
    exists s1, s2. apply capture_source in E as (-> & E & Hw). by split_and!.
  - intros tr1 tr2 b c ->. destruct (Hall b) as (st & Htr & _).
    replace (tr1 ++ l_publish b c :: tr2) with ((tr1 ++ [l_publish b c]) ++ tr2) in Htr
      by by rewrite <-app_assoc.
    apply block_trace_prefix in Htr as [st1 Htr]. rewrite block_trace_app in Htr. simpl in Htr.
    rewrite decide_True in Htr by done.
    destruct (block_trace b tr1) as [[sub|]|] eqn:E1; [|done..].
    case_decide as Hm; [|done]. destruct Hm as [? ?]. exists sub.
    split; [|done]. apply block_trace_reads in E1 as [Hreads _]. by apply Hreads.
  - intros b. destruct (Hall b) as (st & Htr & _). apply block_trace_reads in Htr as [_ Hc].
    destruct st; lia.
  - intros b Hne. destruct (Hall b) as (st & Htr & Hown). apply block_trace_reads in Htr as [_ Hc].
    destruct st; [by apply Hown|lia].
Qed.
End Posted.

End Theorems.

(** ** Witnesses: a NOP and a copy command on the concrete portal *)

Definition sample_nop : vams_submission :=
  {| s_version := 1; s_opcode := VAMS_OP_NOP; s_flags := 0; s_command_id := 41;
     s_source_dma := 0; s_destination_dma := 0; s_length := 0; s_timeout_ms := 50;
     s_user_cookie := 0xabcd; s_expected_crc := 0; s_reserved0 := 0; s_reserved1 := 0;
     s_reserved2 := 0 |}.

Definition world_with (sub : vams_submission) : portal_world :=
  {| pw_h2f := Some (fun i => default 0 (submission_words sub !! i)); pw_f2h := None;
     pw_window := ∅; pw_time := 5 |}.

Definition boot_state (w : portal_world) : fw portal_world list_msgq set_slab :=
  {| f_env := Build_log_env w sample_record (Build_list_msgq [] 32) 0;
     f_atomics := fun _ => 0;
     f_pool := {| slab_set := list_to_set (seq 0 8) |};
     f_objects := ∅;
     f_validation := Build_list_msgq [] 8;
     f_ready := Build_list_msgq [] 8;
     f_running := Build_list_msgq [] 1;
     f_completion := Build_list_msgq [] 8;
     f_sequence := 0;
     f_rx := rx_loop; f_va := va_loop; f_sc := sc_loop; f_sc_ready := []; f_re := re_loop;
     f_cp := cp_loop |}.

Lemma boot_state_booted w : booted 9 (boot_state w).
Proof.
  split; try done.
  split_and!; [apply format_wf; word_lia|apply format_spec|done|simpl; word_lia].
Qed.

(** Receiver, validator, scheduler and completion service take one command
    each from end to end: the ten register accesses of a publication follow
    the read of the clock that starts it. *)
Definition front : list task :=
  replicate 5 t_receiver ++ replicate 3 t_validator ++ replicate 3 t_scheduler.
Definition nop_schedule : list task := front ++ t_scheduler :: replicate 12 t_completion.
Definition copy_schedule : list task := front ++ replicate 11 t_scheduler.

Definition demo (ts : list task) (sub : vams_submission)
    : result (list label * fw portal_world list_msgq set_slab) :=
  run_tasks portal_dev sample_device 9 0 ts (boot_state (world_with sub)).

Definition demo_trace (ts : list task) (sub : vams_submission) : list label :=
  match demo ts sub with Ok (tr, _) => tr | Fault => [] end.
Definition demo_state (ts : list task) (sub : vams_submission)
    : fw portal_world list_msgq set_slab :=
  match demo ts sub with Ok (_, s) => s | Fault => boot_state (world_with sub) end.

Lemma demo_run ts sub :
  is_ok (demo ts sub) = true ->
  run portal_dev sample_device 9 0 (boot_state (world_with sub)) (demo_trace ts sub)
    (demo_state ts sub).
Proof.
  unfold demo_trace, demo_state. destruct (demo ts sub) as [[tr s]|] eqn:E; [|done].
  intros _. by eapply run_tasks_run.
Qed.

Lemma pool_blocks_have_one_owner_witness :
  NoDup (owned (demo_state copy_schedule sample_copy)) /\
  f_atomics (demo_state copy_schedule sample_copy) command_objects_in_use = 1.
Proof.
  destruct (pool_blocks_have_one_owner portal_dev sample_device 9 0
              (boot_state (world_with sample_copy)) (demo_state copy_schedule sample_copy)
              (demo_trace copy_schedule sample_copy))
    as (Hnd & _ & _ & _ & Huse).
  - apply boot_state_booted.
  - apply demo_run. vm_compute. reflexivity.
  - split; [exact Hnd|]. rewrite Huse. vm_compute. reflexivity.
Defined.

Lemma commands_match_their_place_witness :
  Forall (fun '(b, p) => place_state 9 p (command_at b (demo_state copy_schedule sample_copy)))
    (places (demo_state copy_schedule sample_copy)) /\
  length (places (demo_state copy_schedule sample_copy)) = 1%nat.
Proof.
  destruct (commands_match_their_place portal_dev sample_device 9 0
              (boot_state (world_with sample_copy)) (demo_state copy_schedule sample_copy)
              (demo_trace copy_schedule sample_copy)) as (Hpl & _).
  - apply boot_state_booted.
  - apply demo_run. vm_compute. reflexivity.
  - split; [exact Hpl|]. vm_compute. reflexivity.
Defined.

Lemma tasks_fault_only_on_running_overflow_witness :
  task_step portal_dev sample_device 9 0 t_recovery (demo_state copy_schedule sample_copy) = Fault
  <-> t_recovery = t_scheduler /\ running_overflow (demo_state copy_schedule sample_copy).
Proof.
  apply (tasks_fault_only_on_running_overflow portal_dev sample_device 9 0
           (boot_state (world_with sample_copy)) (demo_state copy_schedule sample_copy)
           (demo_trace copy_schedule sample_copy) t_recovery).
  - apply boot_state_booted.
  - apply demo_run. vm_compute. reflexivity.
Defined.

Lemma published_exactly_once_witness :
  exists sub c, awaiting 6 [l_capture 6 sample_nop] sub /\ c_command_id c = s_command_id sub /\
    c_command_id c = 41.
Proof.
  destruct (published_exactly_once portal_dev sample_device 9 0
              (boot_state (world_with sample_nop)) (demo_state nop_schedule sample_nop)
              (demo_trace nop_schedule sample_nop)) as (_ & Hpub & _).
  - apply boot_state_booted.
  - apply demo_run. vm_compute. reflexivity.
  - set (c := vams_command_execute sample_nop 5).
    destruct (Hpub [l_capture 6 sample_nop] [] 6%nat c) as (sub & Haw & Hid & _).
    + vm_compute. reflexivity.
    + exists sub, c. split; [exact Haw|]. split; [exact Hid|reflexivity].
Defined.

Lemma engine_runs_only_valid_commands_witness :
  exists sub, awaiting 6 [l_capture 6 sample_copy] sub /\ valid_descriptor sub.
Proof.
  destruct (engine_runs_only_valid_commands portal_dev sample_device 9 0
              (boot_state (world_with sample_copy)) (demo_state copy_schedule sample_copy)
              (demo_trace copy_schedule sample_copy) [l_capture 6 sample_copy] [] 6 1
              (vams_command_execute sample_copy 5)) as (sub & Haw & Hv & _).
  - apply boot_state_booted.
  - apply demo_run. vm_compute. reflexivity.
  - vm_compute. reflexivity.
  - exists sub. split; [exact Haw|exact Hv].
Defined.
