(* ===== verification/Report.v ===== *)
(** * Threads and the resource report (firmware/src/main.c)

    The ten threads of the firmware with their stacks, the Zephyr calls on
    them as an interface, and [vams_report_resources], the one report the
    health monitor prints when the firmware has been healthy for a second. *)

From stdpp Require Import strings.
From S2P Require Import Prelude Overload Platform Management Retained Event.
From S2P Require Import Scheduler Firmware.

Definition VAMS_WATCHDOG_TIMEOUT_MS : Z := 1000.
Definition VAMS_TASK_STACK_SIZE : Z := 1024.
Definition VAMS_COMMAND_STACK_SIZE : Z := 1536.
Definition VAMS_VALIDATOR_STACK_SIZE : Z := 2048.

(** ** Threads *)

Inductive vams_thread : Type :=
| vams_producer_thread | vams_monitor_thread | vams_mailbox_thread | vams_receiver_thread
| vams_validator_thread | vams_scheduler_thread | vams_recovery_thread
| vams_completion_thread | vams_health_thread | vams_event_thread.

#[export] Instance vams_thread_eq_dec : EqDecision vams_thread.
Proof. solve_decision. Defined.

(** The sizes given to [K_THREAD_STACK_DEFINE]. *)
Definition vams_stack_size (thread : vams_thread) : Z :=
  match thread with
  | vams_receiver_thread | vams_scheduler_thread | vams_recovery_thread
  | vams_completion_thread => VAMS_COMMAND_STACK_SIZE
  | vams_validator_thread => VAMS_VALIDATOR_STACK_SIZE
  | _ => VAMS_TASK_STACK_SIZE
  end.

(** What the firmware asks Zephyr about a thread; the laws are the documented
    results for a thread whose stack is instrumented. *)
Class Threads (W : Type) := {
  K_THREAD_STACK_SIZEOF : vams_thread -> Z;
  k_thread_stack_space_get : vams_thread -> W -> rc * Z;
  k_thread_name_set : vams_thread -> string -> rc;
}.

Class ThreadsLaws (W : Type) `{!Threads W} : Prop := {
  stack_sizeof t : vams_stack_size t <= K_THREAD_STACK_SIZEOF t <= U32_MAX;
  stack_space t (w : W) :
    (k_thread_stack_space_get t w).1 = rc_ok /\
    0 <= (k_thread_stack_space_get t w).2 <= K_THREAD_STACK_SIZEOF t;
  name_set t name : k_thread_name_set t name = rc_ok;
}.

(** The linker symbols [_image_ram_start] and [_image_ram_end] and the memory
    size of the board in KiB. *)
Record ram_image : Type := {
  image_ram_start : Z;
  image_ram_end : Z;
  CONFIG_SRAM_SIZE : Z;
}.

(** ** The report *)

Record resource_report : Type := {
  rp_static_sram : Z * Z;                        (* value, limit *)
  rp_pool_high : Z * nat;
  rp_validation_high : Z * nat;
  rp_ready_high : Z * nat;
  rp_running_high : Z * nat;
  rp_completion_high : Z * nat;
  rp_recovery_attempts : Z;
  rp_recovery_escalations : Z;
  rp_admission_defers : Z;
  rp_heartbeat_drops : Z;
  rp_queue_overloads : Z;
  rp_portal_stalls : Z;
  rp_event_drops : Z;
  rp_health_failures : Z;
  rp_stuck_task : Z;
  rp_stacks : list (vams_thread * Z * Z);        (* thread, used, capacity *)
  rp_watchdog_timeout_ms : Z;
  rp_watchdog_max_interval_ms : Z;
  rp_watchdog_margin_ms : Z;
}.

(** The threads in the order of the "Stacks:" line. *)
Definition reported_threads : list vams_thread :=
  [vams_producer_thread; vams_monitor_thread; vams_mailbox_thread; vams_receiver_thread;
   vams_validator_thread; vams_scheduler_thread; vams_recovery_thread; vams_completion_thread;
   vams_health_thread; vams_event_thread].

Definition watchdog_margin_ms (watchdog_max_interval_ms : Z) : Z :=
  if watchdog_max_interval_ms <? VAMS_WATCHDOG_TIMEOUT_MS
  then VAMS_WATCHDOG_TIMEOUT_MS - watchdog_max_interval_ms else 0.

Section Report.
Context {W : Type} {Q : Type -> Type} `{!Threads W}.
Context (image : ram_image).

Definition vams_stack_used (thread : vams_thread) (capacity : Z) (w : W) : result Z :=
  let '(status, unused) := k_thread_stack_space_get thread w in
  _ ← ASSERT_NO_MSG (rc_is_ok status);
  Ok (u32 (capacity - unused)).

Definition stack_entry (w : W) (thread : vams_thread) : result (vams_thread * Z * Z) :=
  used ← vams_stack_used thread (K_THREAD_STACK_SIZEOF thread) w;
  Ok (thread, used, K_THREAD_STACK_SIZEOF thread).

Definition vams_report_resources (watchdog_max_interval_ms : Z) (a : atomics)
    (env : log_env W Q) : result resource_report :=
  stacks ← mapM (stack_entry (le_world env)) reported_threads;
  Ok {| rp_static_sram :=
          (u32 (image_ram_end image - image_ram_start image), u32 (CONFIG_SRAM_SIZE image * 1024));
        rp_pool_high := (s32 (a command_pool_high_water), VAMS_COMMAND_POOL_SIZE);
        rp_validation_high := (s32 (a validation_queue_high_water), VAMS_COMMAND_POOL_SIZE);
        rp_ready_high := (s32 (a ready_queue_high_water), VAMS_COMMAND_POOL_SIZE);
        rp_running_high := (s32 (a running_queue_high_water), 1%nat);
        rp_completion_high := (s32 (a completion_queue_high_water), VAMS_COMMAND_POOL_SIZE);
        rp_recovery_attempts := s32 (a recovery_attempt_count);
        rp_recovery_escalations := s32 (a recovery_escalation_count);
        rp_admission_defers := u32 (a admission_defer_count);
        rp_heartbeat_drops := u32 (a heartbeat_drop_count);
        rp_queue_overloads := u32 (a queue_overload_count);
        rp_portal_stalls := u32 (a portal_stall_count);
        rp_event_drops := vams_event_drop_count env;
        rp_health_failures := u32 (a health_failure_count);
        rp_stuck_task := u32 (a health_stuck_task);
        rp_stacks := stacks;
        rp_watchdog_timeout_ms := VAMS_WATCHDOG_TIMEOUT_MS;
        rp_watchdog_max_interval_ms := watchdog_max_interval_ms;
        rp_watchdog_margin_ms := watchdog_margin_ms watchdog_max_interval_ms |}.

(** ** Lemmas *)

Context `{!ThreadsLaws W}.

Lemma mapM_Ok {A B} (f : A -> result B) (P : A -> B -> Prop) xs :
  (forall x, exists y, f x = Ok y /\ P x y) -> exists ys, mapM f xs = Ok ys /\ Forall2 P xs ys.
Proof.
  intros Hf. induction xs as [|x xs (ys & E & H)]; [by exists []; split; [|constructor]|].
  destruct (Hf x) as (y & Ey & Hy). exists (y :: ys). simpl. rewrite Ey. simpl. rewrite E.
  by split; [|constructor].
Qed.

(** No stack reports more bytes in use than it has. *)
Lemma stack_entry_ok (w : W) thread :
  exists entry, stack_entry w thread = Ok entry /\
    entry.1.1 = thread /\ 0 <= entry.1.2 <= entry.2.
Proof.
  unfold stack_entry, vams_stack_used.
  pose proof (stack_space thread w) as [Hs Hu]. pose proof (stack_sizeof thread) as Hc.
  destruct (k_thread_stack_space_get thread w) as [status unused]. cbn [fst snd] in *. subst status.
  eexists. split; [reflexivity|]. cbn [fst snd]. split; [done|].
  unfold u32. rewrite Z.mod_small; unfold U32_MAX in Hc; lia.
Qed.

(** The report is complete: no assertion fails, there is one stack entry per
    thread, each within its stack, and the printed margin and the longest pet
    interval account for the timeout unless it was exceeded. *)
Lemma report_ok watchdog_max_interval_ms (a : atomics) (env : log_env W Q) :
  exists r, vams_report_resources watchdog_max_interval_ms a env = Ok r /\
    Forall2 (fun thread entry => entry.1.1 = thread /\ 0 <= entry.1.2 <= entry.2)
      reported_threads (rp_stacks r) /\
    rp_watchdog_margin_ms r = Z.max 0 (VAMS_WATCHDOG_TIMEOUT_MS - watchdog_max_interval_ms).
Proof.
  destruct (mapM_Ok (stack_entry (le_world env)) _ reported_threads (stack_entry_ok (le_world env)))
    as (stacks & E & H).
  unfold vams_report_resources. rewrite E. eexists. split; [reflexivity|]. split; [exact H|].
  cbn [rp_watchdog_margin_ms]. unfold watchdog_margin_ms.
  destruct (Z.ltb_spec watchdog_max_interval_ms VAMS_WATCHDOG_TIMEOUT_MS); lia.
Qed.
End Report.

(** A platform whose stacks are all half used. *)
Definition sample_threads (W : Type) : Threads W := {|
  K_THREAD_STACK_SIZEOF := vams_stack_size;
  k_thread_stack_space_get t _ := (rc_ok, vams_stack_size t / 2);
  k_thread_name_set _ _ := rc_ok;
|}.

Lemma sample_threads_laws (W : Type) : @ThreadsLaws W (sample_threads W).
Proof.
  constructor; [intros []|intros [] w|done]; vm_compute; split_and!; congruence.
Qed.

Definition sample_image : ram_image :=
  {| image_ram_start := 0x80000000; image_ram_end := 0x80008000; CONFIG_SRAM_SIZE := 256 |}.
