(* ===== verification/Mailbox.v ===== *)
(** * Mailbox driver (firmware/drivers/vams_mailbox.c)

    The interrupt handler moves one 32-bit request from the device into a
    four-entry queue; the service task takes requests from the queue and posts
    one response at a time.  [MailboxHost] is the host's end: whether a response
    waits to be read, and those it was handed so far. *)

From S2P Require Import Prelude Platform Management.

Definition VAMS_MAILBOX_MESSAGE : Z := 0x00.
Definition VAMS_MAILBOX_ACK : Z := 0x04.
Definition VAMS_MAILBOX_RESPONSE : Z := 0x08.
Definition VAMS_MAILBOX_RESPONSE_DOORBELL : Z := 0x0c.
Definition VAMS_MAILBOX_STATUS : Z := 0x10.
Definition VAMS_MAILBOX_H2F_PENDING : Z := BIT 0.
Definition VAMS_MAILBOX_F2H_PENDING : Z := BIT 1.
Definition VAMS_MAILBOX_PING : Z := 0x00000001.
Definition VAMS_MAILBOX_PING_RESPONSE : Z := 0x80000001.
Definition VAMS_MAILBOX_UNSUPPORTED : Z := 0xffffffff.
Definition MAILBOX_RX_DEPTH : nat := 4.

Section Mailbox.
Context {W : Type} {Q : Type -> Type} `{!Platform W, !Msgq Q}.

(** The result of [k_msgq_put] is ignored: a request that finds the queue
    full is acknowledged and lost. *)
Definition vams_mailbox_isr (dev : device) (rx : Q Z) (w : W) : Q Z * W :=
  let '(status, w) := sys_read32 (dev_base dev + VAMS_MAILBOX_STATUS) w in
  if Z.land status VAMS_MAILBOX_H2F_PENDING =? 0 then (rx, w) else
  let '(message, w) := sys_read32 (dev_base dev + VAMS_MAILBOX_MESSAGE) w in
  let w := sys_write32 1 (dev_base dev + VAMS_MAILBOX_ACK) w in
  ((k_msgq_put message rx).2, w).

(** [message] is [None] for a null pointer; the status and the new buffer. *)
Definition vams_mailbox_receive (dev : option device) (message : option Z) (rx : Q Z)
    : rc * option Z * Q Z :=
  if device_unusable dev || negb (bool_decide (is_Some message)) then
    (rc_err EINVAL, message, rx)
  else
    match k_msgq_get rx with
    | None => (rc_err EAGAIN, message, rx)
    | Some (m, rx) => (rc_ok, Some m, rx)
    end.

Definition vams_mailbox_respond (dev : option device) (response : Z) (w : W) : rc * W :=
  match dev with
  | None => (rc_err EINVAL, w)
  | Some d =>
      if negb (dev_ready d) then (rc_err EINVAL, w) else
      let '(status, w) := sys_read32 (dev_base d + VAMS_MAILBOX_STATUS) w in
      if negb (Z.land status VAMS_MAILBOX_F2H_PENDING =? 0) then (rc_err EBUSY, w) else
      let w := sys_write32 response (dev_base d + VAMS_MAILBOX_RESPONSE) w in
      (rc_ok, sys_write32 1 (dev_base d + VAMS_MAILBOX_RESPONSE_DOORBELL) w)
  end.

(** [k_msgq_init] gives the empty queue [rx]; a request posted before the
    interrupt was wired is consumed by calling the handler once. *)
Definition vams_mailbox_init (dev : device) (rx : Q Z) (w : W) : Q Z * W :=
  vams_mailbox_isr dev rx w.

Context `{!MsgqLaws Q}.

(** The handler appends at most one request, and only when there is room. *)
Lemma mailbox_isr_spec dev rx w :
  let rx' := (vams_mailbox_isr dev rx w).1 in
  msgq_limit rx' = msgq_limit rx /\
  (msgq_items rx' = msgq_items rx \/
   exists m, msgq_items rx' = msgq_items rx ++ [m] /\
             (length (msgq_items rx) < msgq_limit rx)%nat).
Proof.
  cbv zeta. unfold vams_mailbox_isr. destruct (sys_read32 _ w) as [status w1].
  destruct (_ =? 0); [by split; [|left]|]. destruct (sys_read32 _ w1) as [m w2]. simpl.
  destruct (msgq_put_inv m rx) as [(_ & ? & ? & ?)|[-> ?]]; [|by split; [|left]].
  split; [done|]. right. by exists m.
Qed.
End Mailbox.

(** ** The host's side of the mailbox

    The contract of docs/management-peripherals.md: the response register is
    memory, the response doorbell hands its word to the host unless a response
    is still waiting, and only the doorbell does. *)

Class MailboxHost (W : Type) := {
  mailbox_posted : W -> list Z;      (* the responses handed to the host so far *)
  mailbox_waiting : W -> bool;       (* the last of them is not read yet *)
  mailbox_staged : W -> Z;           (* the response register *)
}.

Class MailboxHostLaws (W : Type) `{!Platform W, !MailboxHost W} (dev : device) : Prop := {
  posted_read a w : mailbox_posted (sys_read32 a w).2 = mailbox_posted w;
  posted_uptime w : mailbox_posted (k_uptime_get w).2 = mailbox_posted w;
  posted_write v a w :
    a <> dev_base dev + 0x0c -> mailbox_posted (sys_write32 v a w) = mailbox_posted w;
  posted_doorbell w :
    mailbox_waiting w = false ->
    mailbox_posted (sys_write32 1 (dev_base dev + 0x0c) w)
    = mailbox_posted w ++ [mailbox_staged w];
  waiting_status w :
    Z.testbit (sys_read32 (dev_base dev + 0x10) w).1 1
    = mailbox_waiting (sys_read32 (dev_base dev + 0x10) w).2;
  waiting_read a w : mailbox_waiting w = false -> mailbox_waiting (sys_read32 a w).2 = false;
  waiting_write v a w :
    a <> dev_base dev + 0x0c -> mailbox_waiting w = false ->
    mailbox_waiting (sys_write32 v a w) = false;
  staged_write v w : mailbox_staged (sys_write32 v (dev_base dev + 0x08) w) = v;
}.

Section Respond.
Context {W : Type} `{MailboxHostLaws W dev}.

(** A response reaches the host unless one is waiting. *)
Lemma respond_posts response w :
  dev_ready dev = true -> mailbox_waiting w = false ->
  exists w', vams_mailbox_respond (Some dev) response w = (rc_ok, w') /\
    mailbox_posted w' = mailbox_posted w ++ [response].
Proof.
  intros Hready Hw. unfold vams_mailbox_respond. rewrite Hready. cbn [negb].
  unfold VAMS_MAILBOX_STATUS, VAMS_MAILBOX_RESPONSE, VAMS_MAILBOX_RESPONSE_DOORBELL.
  pose proof (waiting_status w) as Hs. pose proof (posted_read (dev_base dev + 0x10) w) as Hp.
  rewrite waiting_read in Hs by done. pose proof (waiting_read (dev_base dev + 0x10) w Hw) as Hr.
  destruct (sys_read32 _ w) as [status w1]. cbn [fst snd] in *.
  fold (has_bits status VAMS_MAILBOX_F2H_PENDING). unfold VAMS_MAILBOX_F2H_PENDING.
  rewrite has_bits_BIT, Hs by lia. eexists. split; [done|].
  rewrite posted_doorbell by (apply waiting_write; [lia|done]).
  by rewrite posted_write, staged_write, Hp by lia.
Qed.

Lemma respond_busy response w :
  dev_ready dev = true -> mailbox_waiting (sys_read32 (dev_base dev + 0x10) w).2 = true ->
  (vams_mailbox_respond (Some dev) response w).1 = rc_err EBUSY.
Proof.
  intros Hready Hw. unfold vams_mailbox_respond. rewrite Hready. cbn [negb].
  unfold VAMS_MAILBOX_STATUS. rewrite <-waiting_status in Hw.
  destruct (sys_read32 _ w) as [status w1]. cbn [fst snd] in *.
  fold (has_bits status VAMS_MAILBOX_F2H_PENDING). unfold VAMS_MAILBOX_F2H_PENDING.
  by rewrite has_bits_BIT, Hw by lia.
Qed.
End Respond.

(** A platform with such a mailbox: any platform, with a host that reads every
    response at once beside it. *)
Section HostMailbox.
Context {W : Type} (platform : Platform W) (dev : device).

Definition host_platform : Platform (list Z * Z * W) := {|
  uptime w := uptime w.2;
  sys_read32 a w :=
    if a =? dev_base dev + 0x10 then (0, w)
    else let '(x, w') := sys_read32 a w.2 in (x, (w.1, w'));
  sys_write32 v a w :=
    if a =? dev_base dev + 0x0c then (w.1.1 ++ [w.1.2], w.1.2, w.2)
    else if a =? dev_base dev + 0x08 then (w.1.1, v, w.2)
    else (w.1, sys_write32 v a w.2);
  k_uptime_get w := let '(x, w') := k_uptime_get w.2 in (x, (w.1, w'));
  k_sleep_ms ms w := (w.1, k_sleep_ms ms w.2);
  sys_timepoint_calc t w := let '(x, w') := sys_timepoint_calc t w.2 in (x, (w.1, w'));
  sys_timepoint_expired d w := let '(x, w') := sys_timepoint_expired d w.2 in (x, (w.1, w'));
|}.

Definition host_mailbox : MailboxHost (list Z * Z * W) := {|
  mailbox_posted w := w.1.1;
  mailbox_waiting _ := false;
  mailbox_staged w := w.1.2;
|}.

Lemma host_mailbox_laws : @MailboxHostLaws _ host_platform host_mailbox dev.
Proof.
  split; cbn; intros; try done.
  - case_match; [done|]. by destruct (sys_read32 a w.2).
  - by destruct (k_uptime_get w.2).
  - rewrite (proj2 (Z.eqb_neq _ _)) by done. by case_match.
  - by rewrite Z.eqb_refl.
  - by rewrite Z.eqb_refl.
  - rewrite (proj2 (Z.eqb_neq _ _)) by lia. by rewrite Z.eqb_refl.
Qed.
End HostMailbox.
