(* ===== verification/Services.v ===== *)
(** * Service tasks (heartbeat, mailbox service, event logger and health
    monitor of firmware/src/main.c)

    One function per loop body.  The tasks share the atomics, the event log
    and the devices with the command pipeline; between two iterations of a
    task the rest of the firmware may change all of them. *)

From S2P Require Import Prelude Overload Platform Management Retained Health Event Scheduler.
From S2P Require Import Firmware Report Mailbox.

Definition VAMS_HEARTBEAT_PERIOD_MS : Z := 250.
Definition VAMS_HEALTH_STARTUP_GRACE : Z := 2.
Definition VAMS_HEALTH_MISS_LIMIT : Z := 2.
Definition VAMS_FIRMWARE_VERSION : Z := 0x00010000.
Definition HEARTBEAT_QUEUE_DEPTH : nat := 4.

Record vams_heartbeat : Type := { hb_sequence : Z; hb_uptime_ms : Z }.

Record svc (W : Type) (Q : Type -> Type) : Type := {
  v_env : log_env W Q;
  v_atomics : atomics;
  v_heartbeats : Q vams_heartbeat;         (* vams_heartbeat_queue *)
  v_mailbox_rx : Q Z;                      (* vams_mailbox_rx_queue *)
  v_producer_sequence : Z;                 (* [sequence] of vams_producer *)
}.
Arguments Build_svc {W Q}.
Arguments v_env {W Q}.
Arguments v_atomics {W Q}.
Arguments v_heartbeats {W Q}.
Arguments v_mailbox_rx {W Q}.
Arguments v_producer_sequence {W Q}.

(** Locals of [vams_health_monitor]. *)
Record health_locals : Type := {
  hl_tracker : vams_health_tracker;
  hl_heartbeat : Z;
  hl_reported_failure_count : Z;
  hl_expiry_announced : bool;
  hl_resources_reported : bool;
  hl_last_pet_ms : Z;
  hl_watchdog_max_interval_ms : Z;
}.

(** The [printk] lines of the event logger. *)
Inductive log_line : Type :=
| line_transition (sequence command generation from to : Z)
| line_published (sequence command generation publications : Z)
| line_heartbeat (sequence uptime_ms : Z)
| line_mailbox (request response : Z)
| line_abort_request (command attempt : Z)
| line_abort_escalated (command escalations : Z)
| line_result_mismatch (command : Z)
| line_command_complete (command status error cookie : Z)
| line_telemetry (heartbeat uptime_ms : Z)
| line_watchdog_withheld
| line_overload_test (index : Z)
| line_health_stuck (stuck_task failures : Z).

Definition event_line (e : vams_event) : option log_line :=
  if ev_id e =? VAMS_EVENT_TRANSITION then
    Some (line_transition (ev_arg0 e) (ev_command_id e) (ev_generation e) (ev_arg1 e) (ev_arg2 e))
  else if ev_id e =? VAMS_EVENT_PUBLISHED then
    Some (line_published (ev_arg0 e) (ev_command_id e) (ev_generation e) (ev_arg1 e))
  else if ev_id e =? VAMS_EVENT_HEARTBEAT then Some (line_heartbeat (ev_arg0 e) (ev_value e))
  else if ev_id e =? VAMS_EVENT_MAILBOX then Some (line_mailbox (ev_arg0 e) (ev_arg1 e))
  else if ev_id e =? VAMS_EVENT_ABORT_REQUEST then
    Some (line_abort_request (ev_command_id e) (ev_arg0 e))
  else if ev_id e =? VAMS_EVENT_ABORT_ESCALATED then
    Some (line_abort_escalated (ev_command_id e) (ev_arg0 e))
  else if ev_id e =? VAMS_EVENT_RESULT_MISMATCH then Some (line_result_mismatch (ev_command_id e))
  else if ev_id e =? VAMS_EVENT_COMMAND_COMPLETE then
    Some (line_command_complete (ev_command_id e) (ev_arg0 e) (ev_arg1 e) (ev_value e))
  else if ev_id e =? VAMS_EVENT_TELEMETRY then Some (line_telemetry (ev_arg0 e) (ev_value e))
  else if ev_id e =? VAMS_EVENT_WATCHDOG_WITHHELD then Some line_watchdog_withheld
  else if ev_id e =? VAMS_EVENT_OVERLOAD_TEST then Some (line_overload_test (ev_arg0 e))
  else if ev_id e =? VAMS_EVENT_HEALTH_STUCK then
    Some (line_health_stuck (ev_arg0 e) (ev_arg1 e))
  else None.

Section Services.
Context {W : Type} {Q : Type -> Type} `{!Platform W, !Msgq Q}.
Context (mailbox management : device) (command_generation : Z).
Context (watchdog_expiry_test : bool) (boot_snapshot : vams_management_snapshot).
Context `{!Threads W} (image : ram_image).

#[local] Abbreviation state := (svc W Q).

Definition v_set_env (x : log_env W Q) (s : state) : state :=
  Build_svc x (v_atomics s) (v_heartbeats s) (v_mailbox_rx s) (v_producer_sequence s).
Definition v_set_world (w : W) (s : state) : state := v_set_env (with_world w (v_env s)) s.
Definition v_update_atomics (f : atomics -> atomics) (s : state) : state :=
  Build_svc (v_env s) (f (v_atomics s)) (v_heartbeats s) (v_mailbox_rx s)
    (v_producer_sequence s).
Definition v_set_heartbeats (q : Q vams_heartbeat) (s : state) : state :=
  Build_svc (v_env s) (v_atomics s) q (v_mailbox_rx s) (v_producer_sequence s).
Definition v_set_mailbox_rx (q : Q Z) (s : state) : state :=
  Build_svc (v_env s) (v_atomics s) (v_heartbeats s) q (v_producer_sequence s).
Definition v_set_sequence (n : Z) (s : state) : state :=
  Build_svc (v_env s) (v_atomics s) (v_heartbeats s) (v_mailbox_rx s) n.
Definition v_clock (s : state) : Z * state :=
  let '(now, w) := k_uptime_get (le_world (v_env s)) in (now, v_set_world w s).
Definition v_sleep (ms : Z) (s : state) : state :=
  v_set_world (k_sleep_ms ms (le_world (v_env s))) s.
Definition v_emit (id command_id generation arg0 arg1 arg2 value : Z) (s : state)
    : result state :=
  env ← vams_event_emit management id command_id generation arg0 arg1 arg2 value (v_env s);
  Ok (v_set_env env s).

(** ** Heartbeat *)

Definition vams_producer (s : state) : state :=
  let '(now, s) := v_clock s in
  let heartbeat := {| hb_sequence := v_producer_sequence s; hb_uptime_ms := now |} in
  let '(status, q) := k_msgq_put heartbeat (v_heartbeats s) in
  let s := v_set_heartbeats q s in
  let s := if negb (rc_is_ok status)
           then v_update_atomics (saturating_inc heartbeat_drop_count) s else s in
  let s := v_update_atomics (vams_task_progress producer_epoch) s in
  let s := v_set_sequence (u32 (v_producer_sequence s + 1)) s in
  v_sleep VAMS_HEARTBEAT_PERIOD_MS s.

Definition vams_monitor (s : state) : result state :=
  let got := k_msgq_get (v_heartbeats s) in
  let s := v_update_atomics (vams_task_progress monitor_epoch) s in
  match got with
  | None => Ok s
  | Some (heartbeat, q) =>
      v_emit VAMS_EVENT_HEARTBEAT 0 command_generation (hb_sequence heartbeat) 0 0
        (u64 (hb_uptime_ms heartbeat)) (v_set_heartbeats q s)
  end.

(** ** Mailbox service *)

Definition mailbox_response (message : Z) : Z :=
  if message =? VAMS_MAILBOX_PING then VAMS_MAILBOX_PING_RESPONSE else VAMS_MAILBOX_UNSUPPORTED.

Definition vams_mailbox_service (s : state) : result state :=
  let '(status, message, rx) := vams_mailbox_receive (Some mailbox) (Some 0) (v_mailbox_rx s) in
  let s := v_update_atomics (vams_task_progress mailbox_epoch) (v_set_mailbox_rx rx s) in
  if rc_is EAGAIN status then Ok s else
  _ ← ASSERT_NO_MSG (rc_is_ok status);
  let message := default 0 message in
  let response := mailbox_response message in
  let '(status, w) := vams_mailbox_respond (Some mailbox) response (le_world (v_env s)) in
  let s := v_set_world w s in
  _ ← ASSERT_NO_MSG (rc_is_ok status);
  v_emit VAMS_EVENT_MAILBOX 0 command_generation message response 0 0 s.

(** ** Event logger *)

(** [None]: blocked, the queue is empty. *)
Definition vams_event_logger (s : state) : option (option log_line * state) :=
  match vams_event_receive (v_env s) with
  | None => None
  | Some (event, env) => Some (event_line event, v_set_env env s)
  end.

(** ** Health monitor *)

Definition health_start (s : state) : health_locals * state :=
  let '(now, s) := v_clock s in
  ({| hl_tracker := vams_health_tracker_init (vams_health_epochs (v_atomics s))
                      VAMS_HEALTH_STARTUP_GRACE VAMS_HEALTH_MISS_LIMIT;
      hl_heartbeat := 0; hl_reported_failure_count := 0; hl_expiry_announced := false;
      hl_resources_reported := false; hl_last_pet_ms := u64 now;
      hl_watchdog_max_interval_ms := 0 |}, s).

(** The four parts of a loop body.  A new stall is recorded and logged once. *)
Definition health_note (tracker : vams_health_tracker) (s : state) : result state :=
  '(r, w) ← vams_retained_note_health management (ht_stuck_task tracker)
              (ht_failure_count tracker) (le_retained (v_env s)) (le_world (v_env s));
  v_emit VAMS_EVENT_HEALTH_STUCK 0 command_generation (ht_stuck_task tracker)
    (ht_failure_count tracker) 0 0
    (v_set_env (Build_log_env w r (le_queue (v_env s)) (le_drops (v_env s))) s).

(** Telemetry of a healthy sample. *)
Definition health_publish (heartbeat uptime_ms : Z) (s : state) : result state :=
  let w := vams_management_publish management heartbeat uptime_ms VAMS_FIRMWARE_VERSION
             (le_world (v_env s)) in
  v_emit VAMS_EVENT_TELEMETRY 0 command_generation heartbeat 0 0 uptime_ms (v_set_world w s).

Definition health_withhold : bool :=
  watchdog_expiry_test && (ms_watchdog_reset_count boot_snapshot =? 0).

Definition health_pet (s : state) : result state :=
  let '(status, w) := vams_management_watchdog_pet (Some management) (le_world (v_env s)) in
  _ ← ASSERT_NO_MSG (rc_is_ok status);
  Ok (v_set_world w s).

(** One loop body, with the report if this iteration printed it. *)
Definition vams_health_monitor (l : health_locals) (s : state)
    : result (option resource_report * health_locals * state) :=
  let s := v_sleep VAMS_HEARTBEAT_PERIOD_MS s in
  let '(now, s) := v_clock s in
  let uptime_ms := u64 now in
  let '(healthy, tracker) :=
    vams_health_tracker_update (hl_tracker l) (vams_health_epochs (v_atomics s)) in
  let s := v_update_atomics (fun a =>
             atomic_set health_stuck_task (ht_stuck_task tracker)
               (atomic_set health_failure_count (ht_failure_count tracker) a)) s in
  let stalled := negb healthy &&
                 negb (ht_failure_count tracker =? hl_reported_failure_count l) in
  s ← (if stalled then health_note tracker s else Ok s);
  let reported := if stalled then ht_failure_count tracker else hl_reported_failure_count l in
  let heartbeat := if healthy then u32 (hl_heartbeat l + 1) else hl_heartbeat l in
  s ← (if healthy then health_publish heartbeat uptime_ms s else Ok s);
  s ← (if health_withhold && negb (hl_expiry_announced l) then
         v_emit VAMS_EVENT_WATCHDOG_WITHHELD 0 command_generation 0 0 0 0 s
       else Ok s);
  let pet := negb health_withhold &&
             (healthy && (v_atomics s overload_reset_requested =? 0)) in
  s ← (if pet then health_pet s else Ok s);
  let pet_interval_ms := u64 (uptime_ms - hl_last_pet_ms l) in
  let max_interval :=
    if pet && (hl_watchdog_max_interval_ms l <? pet_interval_ms) then pet_interval_ms
    else hl_watchdog_max_interval_ms l in
  report ← (if negb (hl_resources_reported l) && (4 <=? heartbeat) then
              r ← vams_report_resources image max_interval (v_atomics s) (v_env s); Ok (Some r)
            else Ok None);
  Ok (report,
      {| hl_tracker := tracker; hl_heartbeat := heartbeat;
         hl_reported_failure_count := reported;
         hl_expiry_announced := hl_expiry_announced l || health_withhold;
         hl_resources_reported := hl_resources_reported l || (4 <=? heartbeat);
         hl_last_pet_ms := if pet then uptime_ms else hl_last_pet_ms l;
         hl_watchdog_max_interval_ms := max_interval |}, s).

(** ** Lemmas *)

(** What committing the crash record and logging leave alone. *)
Section Frame.
Context {A : Type} (obs : W -> A).
Context (obs_write : forall v a w,
  dev_base management + VAMS_CONTROL_RETENTION_BASE <= a -> obs (sys_write32 v a w) = obs w).

Lemma commit_frame r r' (w w' : W) :
  vams_retained_commit management r w = Ok (r', w') -> obs w' = obs w.
Proof using obs_write.
  unfold vams_retained_commit. intros E. apply result_bind_ok in E as (w1 & E & [= _ <-]).
  by apply (retention_write_frame management obs obs_write) in E.
Qed.

Lemma v_emit_frame id cid g a0 a1 a2 v (s s' : state) :
  (forall w, obs (k_uptime_get w).2 = obs w) ->
  v_emit id cid g a0 a1 a2 v s = Ok s' -> obs (le_world (v_env s')) = obs (le_world (v_env s)).
Proof using obs_write.
  unfold v_emit, vams_event_emit, vams_retained_note_event. intros Hu.
  rewrite <-(Hu (le_world (v_env s))). destruct (k_uptime_get _) as [now w]. cbn [snd]. intros E.
  apply result_bind_ok in E as (env & E & [= <-]). apply result_bind_ok in E as ([r w'] & E & E').
  destruct (_ <? _)%nat; [|done]. apply commit_frame in E.
  destruct (k_msgq_put _ _) as [status q]. by injection E' as <-.
Qed.
End Frame.

Context `{!MsgqLaws Q, !ThreadsLaws W, !Watchdog W, !WatchdogLaws W management}.

Definition pets (s : state) : Z := watchdog_pets (le_world (v_env s)).

Lemma pets_window v a (w : W) :
  dev_base management + VAMS_CONTROL_RETENTION_BASE <= a ->
  watchdog_pets (sys_write32 v a w) = watchdog_pets w.
Proof. unfold VAMS_CONTROL_RETENTION_BASE. intros. apply pets_write_other. lia. Qed.

Lemma v_emit_ok id cid g a0 a1 a2 v (s : state) :
  log_ok (v_env s) -> is_u16 id -> is_u32 cid -> is_u32 g ->
  exists env', v_emit id cid g a0 a1 a2 v s = Ok (v_set_env env' s) /\ log_ok env'.
Proof.
  intros. unfold v_emit.
  destruct (emit_ok management id cid g a0 a1 a2 v (v_env s)) as (env' & E & Hl); [done..|].
  rewrite E. by exists env'.
Qed.

Lemma first_stuck_range limit ss index :
  0 <= index -> 0 <= first_stuck index limit ss <= index + Z.of_nat (length ss).
Proof.
  revert index. induction ss as [|x ss IH]; intros index Hi; cbn [first_stuck length];
    [unfold VAMS_HEALTH_TASK_NONE; lia|].
  destruct (_ && _); [lia|]. specialize (IH (index + 1) ltac:(lia)). lia.
Qed.

Lemma tracks_u32 limit grace hist vs t :
  tracks limit grace hist vs t -> is_u32 (ht_stuck_task t) /\ is_u32 (ht_failure_count t).
Proof.
  intros [_ _ Hf Hs _ _ _]. rewrite Hf, Hs. split.
  - pose proof (first_stuck_range limit (stalls hist) 0 ltac:(lia)) as Hr.
    rewrite stalls_length in Hr. unfold VAMS_HEALTH_TASK_COUNT in Hr. word_lia.
  - pose proof (episodes_nonneg true vs). unfold sat. word_lia.
Qed.

(** The verdict of this iteration decides on the pet. *)
Definition pet_due (healthy : bool) (s : state) : bool :=
  negb health_withhold && (healthy && (v_atomics s overload_reset_requested =? 0)).

(** A part of the loop body that only touches the event log and the devices,
    and pets the watchdog [n] times. *)
Definition logs (n : Z) (m : state -> result state) : Prop :=
  forall s, log_ok (v_env s) ->
  exists env', m s = Ok (v_set_env env' s) /\ log_ok env' /\
    watchdog_pets (le_world env') = pets s + n.

Lemma logs_if (b : bool) n m s :
  logs n m -> log_ok (v_env s) ->
  exists env', (if b then m s else Ok s) = Ok (v_set_env env' s) /\ log_ok env' /\
    watchdog_pets (le_world env') = pets s + (if b then n else 0).
Proof.
  intros Hm Hl. destruct b; [by apply Hm|]. exists (v_env s). rewrite Z.add_0_r. by destruct s.
Qed.

Lemma v_emit_logs id cid g a0 a1 a2 v :
  is_u16 id -> is_u32 cid -> is_u32 g -> logs 0 (v_emit id cid g a0 a1 a2 v).
Proof.
  intros H1 H2 H3 s Hl. destruct (v_emit_ok id cid g a0 a1 a2 v s Hl H1 H2 H3) as (env' & E & Hl').
  exists env'. split_and!; [done..|]. apply (v_emit_frame watchdog_pets pets_window) in E;
    [|apply pets_uptime]. unfold pets. simpl in E. lia.
Qed.

Lemma note_logs t :
  is_u32 command_generation -> is_u32 (ht_stuck_task t) -> is_u32 (ht_failure_count t) ->
  logs 0 (health_note t).
Proof.
  intros Hg Hst Hfc s (Hwf & Hr & Hid & Hd).
  destruct (op_record_spec (note_health (ht_stuck_task t) (ht_failure_count t))
              (le_retained (v_env s)) (conj Hst Hfc) Hwf Hr) as (Hwf' & Hr' & _ & _ & Hid').
  unfold health_note, vams_retained_note_health.
  destruct (commit_ok management (set_health (ht_stuck_task t) (ht_failure_count t)
              (le_retained (v_env s))) (le_world (v_env s))) as (w2 & E). rewrite E.
  apply (commit_frame watchdog_pets pets_window) in E. cbn [mbind result_bind]. set (s2 := v_set_env _ s).
  destruct (v_emit_logs VAMS_EVENT_HEALTH_STUCK 0 command_generation (ht_stuck_task t)
              (ht_failure_count t) 0 0 ltac:(done) ltac:(word_lia) Hg s2)
    as (env2 & -> & Hl2 & Hp).
  - unfold log_ok, s2. simpl in *. split_and!; auto using set_crc32_wf, retained_crc32_u32.
  - exists env2. split_and!; [done..|]. rewrite Hp. unfold pets, s2. simpl. by rewrite E.
Qed.

Lemma publish_logs heartbeat uptime_ms :
  is_u32 command_generation -> logs 0 (health_publish heartbeat uptime_ms).
Proof.
  intros Hg s Hl. unfold health_publish. set (s' := v_set_world _ s).
  destruct (v_emit_logs VAMS_EVENT_TELEMETRY 0 command_generation heartbeat 0 0 uptime_ms
              ltac:(done) ltac:(word_lia) Hg s' Hl) as (env' & -> & Hl' & Hp).
  exists env'. split_and!; [done..|]. rewrite Hp. unfold pets, s'. simpl.
  by rewrite publish_pets.
Qed.

Lemma withheld_logs :
  is_u32 command_generation ->
  logs 0 (v_emit VAMS_EVENT_WATCHDOG_WITHHELD 0 command_generation 0 0 0 0).
Proof. intros Hg. by apply v_emit_logs; [|word_lia|]. Qed.

Lemma pet_logs :
  (forall w : W, (vams_management_watchdog_pet (Some management) w).1 = rc_ok) ->
  logs 1 health_pet.
Proof.
  intros Hpet s Hl. unfold health_pet. pose proof (Hpet (le_world (v_env s))) as Hok.
  destruct (vams_management_watchdog_pet _ _) as [status w] eqn:E. simpl in Hok. subst status.
  apply pet_pets in E. by exists (with_world w (v_env s)).
Qed.

(** Runs the next optional part, given that it only logs; [Hp] accumulates the pets. *)
Ltac run_part H Hp :=
  match type of H with logs ?n ?m =>
    match goal with
    | Hl : log_ok _ |- context [if ?b then ?X else Ok ?s] =>
        let env := fresh "env" in let Hl' := fresh Hl in let Hp' := fresh Hp in
        unify X (m s);
        destruct (logs_if b n m s H Hl) as (env & E & Hl' & Hp');
        cbv beta in E; rewrite E; clear E Hl; rename Hl' into Hl; cbn [mbind result_bind];
        rewrite Hp in Hp'; clear Hp; rename Hp' into Hp;
        change (watchdog_pets (le_world env)) with (pets (v_set_env env s)) in Hp
    end
  end.

Lemma health_iteration l (s : state) :
  log_ok (v_env s) -> is_u32 command_generation ->
  (forall w : W, (vams_management_watchdog_pet (Some management) w).1 = rc_ok) ->
  let '(healthy, t) :=
    vams_health_tracker_update (hl_tracker l) (vams_health_epochs (v_atomics s)) in
  is_u32 (ht_stuck_task t) /\ is_u32 (ht_failure_count t) ->
  let heartbeat := if healthy then u32 (hl_heartbeat l + 1) else hl_heartbeat l in
  exists report l' s', vams_health_monitor l s = Ok (report, l', s') /\
    pets s' = pets s + (if pet_due healthy s then 1 else 0) /\
    hl_tracker l' = t /\ hl_heartbeat l' = heartbeat /\
    hl_resources_reported l' = hl_resources_reported l || (4 <=? heartbeat) /\
    bool_decide (is_Some report) = negb (hl_resources_reported l) && (4 <=? heartbeat).
Proof.
  intros Hl Hg Hpet. unfold vams_health_monitor, v_clock, v_sleep.
  cbn [v_env v_set_world v_set_env with_world le_world].
  set (w0 := k_sleep_ms _ _). pose proof (pets_uptime w0) as Hu.
  destruct (k_uptime_get w0) as [now w1]. cbn [snd] in Hu. unfold w0 in Hu.
  rewrite pets_sleep in Hu.
  change (v_atomics (v_set_world w1 _)) with (v_atomics s).
  destruct (vams_health_tracker_update _ _) as [healthy t]. intros [Hst Hfc]. cbv zeta.
  set (s1 := v_update_atomics _ _). assert (Hp : pets s1 = pets s) by exact Hu.
  assert (Hl1 : log_ok (v_env s1)) by exact Hl. clear Hl.
  run_part (note_logs t Hg Hst Hfc) Hp.
  run_part (publish_logs (if healthy then u32 (hl_heartbeat l + 1) else hl_heartbeat l) (u64 now) Hg) Hp.
  run_part (withheld_logs Hg) Hp.
  run_part (pet_logs Hpet) Hp.
  assert (Hz : forall b : bool, (if b then 0 else 0) = 0) by (by intros []).
  rewrite !Hz, !Z.add_0_r in Hp. clear Hz.
  set (heartbeat := if healthy then _ else _).
  destruct (negb (hl_resources_reported l) && (4 <=? heartbeat)).
  - match goal with |- context [vams_report_resources ?i ?m ?a ?e] =>
      destruct (report_ok i m a e) as (r & -> & _) end.
    eexists (Some r), _, _. by split_and!.
  - eexists None, _, _. by split_and!.
Qed.
End Services.

(** ** The health monitor over time *)

Section HealthLoop.
Context {W : Type} {Q : Type -> Type} `{!Platform W, !Msgq Q, !MsgqLaws Q}.
Context (management : device) (command_generation : Z).
Context (watchdog_expiry_test : bool) (boot_snapshot : vams_management_snapshot).
Context `{!Threads W, !ThreadsLaws W} (image : ram_image).
Context `{!Watchdog W, !WatchdogLaws W management}.

#[local] Abbreviation state := (svc W Q).
#[local] Abbreviation monitor :=
  (vams_health_monitor management command_generation watchdog_expiry_test boot_snapshot image).

(** Each iteration starts from the state the rest of the firmware left; the
    states they end in, one per iteration, and the reports printed. *)
Fixpoint health_loop (samples : list state) (l : health_locals)
    : result (list state * list resource_report * health_locals) :=
  match samples with
  | [] => Ok ([], [], l)
  | s :: rest =>
      '(report, l, s') ← monitor l s;
      '(outs, reports, l) ← health_loop rest l;
      Ok (s' :: outs, option_list report ++ reports, l)
  end.

(** What the firmware reports as the progress of its eight tasks, and in that
    order. *)
Definition task_counters : list atomic_var :=
  [producer_epoch; monitor_epoch; mailbox_epoch; receiver_epoch; validator_epoch;
   scheduler_epoch; recovery_epoch; completion_epoch].
Definition epochs_of (samples : list state) : list (list Z) :=
  (fun s => (fun v => u32 (v_atomics s v)) <$> task_counters) <$> samples.

(** How often each iteration petted the watchdog. *)
Definition petted (samples outs : list state) : list Z :=
  zip_with (fun s s' => pets s' - pets s) samples outs.

Lemma health_loop_app samples1 samples2 l outs1 reports1 l1 :
  health_loop samples1 l = Ok (outs1, reports1, l1) ->
  health_loop (samples1 ++ samples2) l =
    ('(outs2, reports2, l2) ← health_loop samples2 l1;
     Ok (outs1 ++ outs2, reports1 ++ reports2, l2)).
Proof.
  revert l outs1 reports1. induction samples1 as [|s rest IH]; intros l outs1 reports1 E; simpl in *.
  - simplify_eq. by destruct (health_loop samples2 l1) as [[[? ?] ?]|].
  - destruct (monitor l s) as [[[report l2] s2]|]; [|done]. simpl in *.
    destruct (health_loop rest l2) as [[[outs reports] l3]|] eqn:E2; [|done].
    simpl in E. simplify_eq. rewrite (IH l2 outs reports E2).
    destruct (health_loop samples2 l1) as [[[? ?] ?]|]; [|done]. simpl. by rewrite app_assoc.
Qed.

(** The pets of a run, one per iteration. *)
Definition expected_pets (e0 : list Z) (samples : list state) : list bool :=
  imap (fun k s => pet_due watchdog_expiry_test boot_snapshot
                     (verdict 2 (observed 2 e0 (take (S k) (epochs_of samples)))) s) samples.

Lemma expected_pets_snoc e0 samples s :
  expected_pets e0 (samples ++ [s]) =
  expected_pets e0 samples ++
    [pet_due watchdog_expiry_test boot_snapshot
       (verdict 2 (observed 2 e0 (epochs_of (samples ++ [s])))) s].
Proof.
  unfold expected_pets. rewrite imap_app. f_equal.
  - apply imap_ext. intros k x Hk. apply lookup_lt_Some in Hk.
    unfold epochs_of. by rewrite fmap_app, take_app_le by (rewrite length_fmap; lia).
  - simpl. rewrite Nat.add_0_r, take_ge; [done|].
    unfold epochs_of. rewrite length_fmap, length_app. simpl. lia.
Qed.

(** The healthy iterations so far, and the reports they allow. *)
Definition healthy_count (e0 : list Z) (samples : list state) : Z :=
  Z.of_nat (count_occ Bool.bool_dec (verdicts 2 2 e0 (epochs_of samples)) true).

Definition reports_due (n : Z) : nat := if 4 <=? n then 1%nat else 0%nat.

(** The heartbeat counter wraps, the flag does not forget. *)
Lemma report_step (n : Z) (v : bool) :
  0 <= n ->
  let heartbeat := if v then u32 (u32 n + 1) else u32 n in
  let n' := n + (if v then 1 else 0) in
  heartbeat = u32 n' /\ (4 <=? n) || (4 <=? heartbeat) = (4 <=? n') /\
  (reports_due n + (if (negb (4 <=? n) && (4 <=? heartbeat))%Z then 1 else 0))%nat = reports_due n'.
Proof.
  intros Hn. cbv zeta. unfold reports_due.
  assert ((if v then u32 (u32 n + 1) else u32 n) = u32 (n + (if v then 1 else 0))) as ->.
  { destruct v; unfold u32; [apply Zplus_mod_idemp_l|]. by rewrite Z.add_0_r. }
  split; [done|]. destruct (Z.leb_spec 4 n) as [H4|H4].
  - rewrite (proj2 (Z.leb_le 4 (n + (if v then 1 else 0)))) by (destruct v; lia). done.
  - unfold u32. rewrite Z.mod_small by (destruct v; lia). cbn [negb andb orb].
    by destruct (4 <=? n + (if v then 1 else 0)).
Qed.

Lemma health_loop_spec (s0 : state) samples :
  Forall (fun s => log_ok (v_env s)) samples -> is_u32 command_generation ->
  (forall w : W, (vams_management_watchdog_pet (Some management) w).1 = rc_ok) ->
  let l0 := (health_start s0).1 in
  let e0 := vams_health_epochs (v_atomics s0) in
  let n := healthy_count e0 samples in
  exists outs reports l, health_loop samples l0 = Ok (outs, reports, l) /\
    length outs = length samples /\
    petted samples outs = (fun b : bool => if b then 1 else 0) <$> expected_pets e0 samples /\
    health_run (vams_health_tracker_init e0 2 2) (epochs_of samples) =
      (verdicts 2 2 e0 (epochs_of samples), hl_tracker l) /\
    hl_heartbeat l = u32 n /\ hl_resources_reported l = (4 <=? n) /\
    length reports = reports_due n.
Proof.
  intros Hok Hg Hpet. cbv zeta. set (e0 := vams_health_epochs (v_atomics s0)).
  induction samples as [|s samples IH] using rev_ind.
  - unfold health_start, v_clock. destruct (k_uptime_get _) as [now w]. by eexists [], [], _.
  - apply Forall_app in Hok as [Hok Hs]. apply Forall_cons in Hs as [Hs _].
    destruct (IH Hok) as (outs & reports & l & E & Hout & Hpets & Er & Hhb & Hrep & Hlen).
    assert (Hsamples : Forall sample (epochs_of (samples ++ [s])))
      by (by apply Forall_fmap, Forall_true).
    destruct (health_run_tracks e0 2 2 (epochs_of (samples ++ [s]))) as (t & Et & Ht);
      [word_lia|done..|].
    assert (Ees : epochs_of (samples ++ [s]) =
                  epochs_of samples ++ [vams_health_epochs (v_atomics s)])
      by (unfold epochs_of; by rewrite fmap_app).
    change (Z.of_nat 2) with 2 in Et. pose proof Et as Et'. rewrite Ees in Et.
    rewrite health_run_snoc, Er in Et.
    pose proof (health_iteration management command_generation watchdog_expiry_test
                  boot_snapshot image l s Hs Hg Hpet) as Hit.
    destruct (vams_health_tracker_update (hl_tracker l) (vams_health_epochs (v_atomics s)))
      as [v t2]. injection Et as Ev ->.
    destruct Hit as (report & l' & s' & E' & Hp' & Hl' & Hhb' & Hrep' & Hsome);
      [by eapply tracks_u32|].
    rewrite Hhb in Hhb', Hrep', Hsome. rewrite Hrep in Hrep', Hsome.
    rewrite verdicts_snoc in Ev. apply app_inj_tail in Ev as [_ Ev].
    assert (Hn : healthy_count e0 (samples ++ [s]) =
                 healthy_count e0 samples + (if v then 1 else 0)).
    { unfold healthy_count. rewrite Ees, verdicts_snoc, count_occ_app, <-Ev.
      destruct v; simpl; lia. }
    destruct (report_step (healthy_count e0 samples) v) as (R1 & R2 & R3);
      [unfold healthy_count; lia|].
    exists (outs ++ [s']), (reports ++ option_list report ++ []), l'.
    rewrite (health_loop_app samples [s] _ _ _ _ E). cbn [health_loop].
    rewrite E'. cbn [mbind result_bind].
    split_and!; [done|by rewrite !length_app, Hout| |by rewrite Et', Hl'|congruence|congruence|].
    + unfold petted in *. rewrite zip_with_app, Hpets, expected_pets_snoc, fmap_app by done.
      f_equal. simpl. rewrite Hp', Ees, <-Ev. f_equal. lia.
    + rewrite Hn, <-R3, <-Hsome, app_nil_r, length_app, Hlen. by destruct report.
Qed.

(** What one iteration did to the watchdog. *)
Lemma petted_at samples outs bs k s s' (b : bool) :
  petted samples outs = (fun b : bool => if b then 1 else 0) <$> bs ->
  samples !! k = Some s -> outs !! k = Some s' -> bs !! k = Some b ->
  pets s' = pets s + (if b then 1 else 0).
Proof.
  intros Hp Hs Hs' Hb.
  assert (petted samples outs !! k = Some (pets s' - pets s)) as E.
  { unfold petted. rewrite lookup_zip_with, Hs, Hs'. done. }
  rewrite Hp, list_lookup_fmap, Hb in E. injection E. lia.
Qed.


(** C27: a stuck task starves the watchdog.  Once the startup grace is over,
    an iteration that finds the progress counter of any of the eight tasks
    where the two iterations before it found it does not write [WDT_PET],
    whatever the other tasks do; so a task that stops for good gets at most
    two more pets and the one-second watchdog resets the firmware. *)
Theorem stuck_task_starves_watchdog (s0 : state) (before : list state) (sa sb sc : state)
    (after : list state) (counter : atomic_var)
    (Hlog : Forall (fun s => log_ok (v_env s)) (before ++ [sa; sb; sc] ++ after))
    (Hgen : is_u32 command_generation)
    (Hwatchdog : forall w : W, (vams_management_watchdog_pet (Some management) w).1 = rc_ok)
    (Hgrace : (1 <= length before)%nat)
    (Htask : counter ∈ [producer_epoch; monitor_epoch; mailbox_epoch; receiver_epoch;
                        validator_epoch; scheduler_epoch; recovery_epoch; completion_epoch])
    (Hab : v_atomics sb counter = v_atomics sa counter)
    (Hbc : v_atomics sc counter = v_atomics sb counter) :
  exists outs reports l s',
    health_loop (before ++ [sa; sb; sc] ++ after) (health_start s0).1 = Ok (outs, reports, l) /\
    outs !! (length before + 2)%nat = Some s' /\
    watchdog_pets (le_world (v_env s')) = watchdog_pets (le_world (v_env sc)).
Proof.
  destruct (health_loop_spec s0 _ Hlog Hgen Hwatchdog) as (outs & reports & l & E & Hout & Hp & _).
  set (k := (length before + 2)%nat).
  assert (Hk : (before ++ [sa; sb; sc] ++ after) !! k = Some sc).
  { rewrite lookup_app_r by lia. unfold k.
    by replace (length before + 2 - length before)%nat with 2%nat by lia. }
  destruct (lookup_lt_is_Some_2 outs k) as [s' Hs'].
  { rewrite Hout. by eapply lookup_lt_Some. }
  exists outs, reports, l, s'. split; [exact E|]. split; [exact Hs'|].
  change (pets s' = pets sc). rewrite <-(Z.add_0_r (pets sc)).
  refine (petted_at _ _ _ _ _ _ false Hp Hk Hs' _).
  unfold expected_pets. rewrite list_lookup_imap, Hk.
  cbn [fmap option_fmap option_map]. f_equal. unfold pet_due.
  assert (take (S k) (epochs_of (before ++ [sa; sb; sc] ++ after)) =
          epochs_of before ++ epochs_of [sa; sb; sc]) as ->.
  { unfold epochs_of. rewrite !fmap_app, app_assoc. apply take_app_length'.
    rewrite length_app, !length_fmap. unfold k. simpl. lia. }
  apply list_elem_of_lookup_1 in Htask as [i Hi].
  pose proof (lookup_lt_Some _ _ _ Hi) as Hlt.
  assert (Hat : forall s : state, vams_health_epochs (v_atomics s) !!! i = u32 (v_atomics s counter)).
  { intros s. apply list_lookup_total_correct.
    change (vams_health_epochs (v_atomics s))
      with ((fun v : atomic_var => u32 (v_atomics s v)) <$> task_counters).
    rewrite list_lookup_fmap. unfold task_counters. by rewrite Hi. }
  change (epochs_of [sa; sb; sc]) with [vams_health_epochs (v_atomics sa);
    vams_health_epochs (v_atomics sb); vams_health_epochs (v_atomics sc)].
  rewrite (stalled_verdict _ _ _ _ (epochs_of before) i);
    [by rewrite andb_false_r|unfold epochs_of; by rewrite length_fmap|done|..];
    rewrite !Hat; congruence.
Qed.
End HealthLoop.

(** ** Mailbox service *)

Section MailboxService.
Context {W : Type} {Q : Type -> Type} `{!Platform W, !Msgq Q, !MsgqLaws Q}.
Context (mailbox management : device) (command_generation : Z).
Context `{!MailboxHost W, !MailboxHostLaws W mailbox}.
#[local] Abbreviation state := (svc W Q).

(** The mailbox block lies below the management block, as in the memory map. *)
Context (Hmap : dev_base mailbox + 0x0c < dev_base management).
Context (Hready : dev_ready mailbox = true) (Hgen : is_u32 command_generation).

(** Iterations of the service task, each in the world the rest of the system
    left, and the worlds they end in. *)
Fixpoint mailbox_run (worlds : list W) (s : state) : result (list W * state) :=
  match worlds with
  | [] => Ok ([], s)
  | w :: rest =>
      s ← vams_mailbox_service mailbox management command_generation (v_set_world w s);
      '(outs, s') ← mailbox_run rest s;
      Ok (le_world (v_env s) :: outs, s')
  end.

Lemma posted_window v a (w : W) :
  dev_base management + VAMS_CONTROL_RETENTION_BASE <= a ->
  mailbox_posted (sys_write32 v a w) = mailbox_posted w.
Proof using Hmap MailboxHostLaws0.
  unfold VAMS_CONTROL_RETENTION_BASE. intros. apply posted_write. lia.
Qed.

(** One request. *)
Lemma mailbox_service_step (s : state) m rest :
  log_ok (v_env s) -> msgq_items (v_mailbox_rx s) = m :: rest ->
  mailbox_waiting (le_world (v_env s)) = false ->
  exists s', vams_mailbox_service mailbox management command_generation s = Ok s' /\
    msgq_items (v_mailbox_rx s') = rest /\ log_ok (v_env s') /\
    mailbox_posted (le_world (v_env s')) =
      mailbox_posted (le_world (v_env s)) ++ [mailbox_response m].
Proof using All.
  intros Hl Hrx Hw. unfold vams_mailbox_service, vams_mailbox_receive.
  cbn [device_unusable]. rewrite Hready. cbn [negb orb].
  rewrite bool_decide_eq_true_2 by eauto. cbn [negb].
  destruct (msgq_get_cons (v_mailbox_rx s) m rest Hrx) as (rx & -> & Hrest & _).
  change (rc_is EAGAIN rc_ok) with false. change (rc_is_ok rc_ok) with true.
  cbn [ASSERT_NO_MSG mbind result_bind default from_option]. unfold id. cbv zeta.
  change (le_world (v_env (v_update_atomics _ _))) with (le_world (v_env s)).
  destruct (respond_posts (mailbox_response m) (le_world (v_env s)) Hready Hw) as (w' & -> & Hp).
  change (rc_is_ok rc_ok) with true. cbn [ASSERT_NO_MSG mbind result_bind].
  set (s1 := v_set_world w' _).
  destruct (v_emit_ok management VAMS_EVENT_MAILBOX 0 command_generation m (mailbox_response m)
              0 0 s1) as (env' & E & Hl'); [done|done|word_lia|done|].
  exists (v_set_env env' s1). split; [exact E|]. split; [exact Hrest|]. split; [exact Hl'|].
  apply (v_emit_frame _ mailbox_posted posted_window) in E; [|apply posted_uptime].
  rewrite E. exact Hp.
Qed.

(** C33: requests are answered in order.  With the requests [ms] at the head
    of the queue and every response read by the host before the next one,
    iterations of the service consume exactly these requests, and each hands
    one response to the host: 0x80000001 for a ping (1), 0xffffffff for
    anything else.  If the status shows that the host has not read the last
    response, the driver answers -EBUSY and the service's assertion stops the
    firmware. *)
Theorem mailbox_service_answers (s : state) (ms rest : list Z) (worlds : list W)
    (Hlog : log_ok (v_env s)) (Hrx : msgq_items (v_mailbox_rx s) = ms ++ rest)
    (Hlen : length worlds = length ms)
    (Hread : Forall (fun w => mailbox_waiting w = false) worlds) :
  (exists outs s', mailbox_run worlds s = Ok (outs, s') /\
     msgq_items (v_mailbox_rx s') = rest /\ length outs = length ms /\
     forall k m w w', ms !! k = Some m -> worlds !! k = Some w -> outs !! k = Some w' ->
       mailbox_posted w' = mailbox_posted w ++ [if m =? 1 then 0x80000001 else 0xffffffff]) /\
  (forall w, msgq_items (v_mailbox_rx s) <> [] ->
     mailbox_waiting (sys_read32 (dev_base mailbox + 0x10) w).2 = true ->
     vams_mailbox_service mailbox management command_generation (v_set_world w s) = Fault).
Proof using All.
  split.
  - revert s ms Hlog Hrx Hlen. induction Hread as [|w worlds Hw Hread IH]; intros s ms Hlog Hrx Hlen.
    + destruct ms; [|done]. by exists [], s.
    + destruct ms as [|m ms]; [done|].
      destruct (mailbox_service_step (v_set_world w s) m (ms ++ rest)) as (s1 & E & Hrx1 & Hl1 & Hp);
        [done..|].
      destruct (IH s1 ms) as (outs & s' & E' & Hrest & Hout & Hposted); [done|done|by injection Hlen|].
      exists (le_world (v_env s1) :: outs), s'. cbn [mailbox_run]. rewrite E. cbn [mbind result_bind].
      rewrite E'. split; [done|]. split; [done|]. split; [simpl; by rewrite Hout|].
      intros [|k] m' w1 w1' Hm Hw1 Hw1'; simpl in *; [|by eapply Hposted].
      simplify_eq. exact Hp.
  - intros w Hne Hbusy. destruct (msgq_items (v_mailbox_rx s)) as [|m ms'] eqn:Ems; [done|].
    unfold vams_mailbox_service, vams_mailbox_receive. cbn [device_unusable]. rewrite Hready.
    cbn [negb orb]. rewrite bool_decide_eq_true_2 by eauto. cbn [negb].
    destruct (msgq_get_cons (v_mailbox_rx (v_set_world w s)) m ms' Ems) as (rx & -> & _).
    change (rc_is EAGAIN rc_ok) with false. change (rc_is_ok rc_ok) with true.
    cbn [ASSERT_NO_MSG mbind result_bind default from_option]. unfold id. cbv zeta.
    change (le_world (v_env (v_update_atomics _ _))) with w.
    pose proof (respond_busy (mailbox_response m) w Hready Hbusy) as Hb.
    destruct (vams_mailbox_respond _ _ w) as [status w1]. cbn [fst] in Hb. by subst status.
Qed.
End MailboxService.

(** ** Witnesses *)

(** A device whose watchdog is enabled with the firmware's timeout. *)
Definition armed_hw (n : nat) (regs : gmap Z Z) : gmap Z Z :=
  <[dev_base sample_device + VAMS_CONTROL_WDT_CONTROL := VAMS_WDT_ENABLE]>
    (<[dev_base sample_device + VAMS_CONTROL_WDT_TIMEOUT_MS := VAMS_WATCHDOG_TIMEOUT_MS]> regs).
Definition armed_platform : Platform sim_world := sim_platform sample_delay armed_hw.

Lemma armed_control w :
  (@sys_read32 _ armed_platform (dev_base sample_device + VAMS_CONTROL_WDT_CONTROL) w).1
  = VAMS_WDT_ENABLE.
Proof.
  unfold armed_platform, armed_hw. cbn [sys_read32 sim_platform fst sim_regs sim_pass].
  by rewrite lookup_insert_eq.
Qed.

Lemma armed_timeout w :
  (@sys_read32 _ armed_platform (dev_base sample_device + VAMS_CONTROL_WDT_TIMEOUT_MS) w).1
  = VAMS_WATCHDOG_TIMEOUT_MS.
Proof.
  unfold armed_platform, armed_hw. cbn [sys_read32 sim_platform fst sim_regs sim_pass].
  rewrite lookup_insert_ne by done. by rewrite lookup_insert_eq.
Qed.

(** The same, counting its pets. *)
Definition dog_platform : Platform (Z * sim_world) := counted_platform armed_platform sample_device.
#[local] Existing Instance dog_platform.
#[local] Instance dog_watchdog : Watchdog (Z * sim_world) := counted_watchdog.
#[local] Instance dog_laws : WatchdogLaws (Z * sim_world) sample_device :=
  counted_watchdog_laws armed_platform sample_device.

Lemma armed_pet (w : Z * sim_world) :
  (vams_management_watchdog_pet (Some sample_device) w).1 = rc_ok.
Proof.
  unfold vams_management_watchdog_pet. cbn [sys_read32 dog_platform counted_platform].
  pose proof (armed_control w.2) as Hc. destruct (sys_read32 _ w.2) as [control w1].
  cbn [fst] in Hc. by subst control.
Qed.

Definition sample_svc (n : Z) : svc (Z * sim_world) list_msgq :=
  {| v_env := Build_log_env (0, blank_world) sample_record (Build_list_msgq [] 2) 0;
     v_atomics := fun v => if decide (v = receiver_epoch) then 3 else
                           if decide (v = overload_reset_requested) then 0 else n;
     v_heartbeats := Build_list_msgq [] 4;
     v_mailbox_rx := Build_list_msgq [VAMS_MAILBOX_PING] 4;
     v_producer_sequence := 1 |}.

Definition sample_snapshot : vams_management_snapshot :=
  Build_vams_management_snapshot 0 0 9 0 0 0 0 0 0 0 0 0 false.

Lemma sample_svcs_ok ns : Forall (fun s => log_ok (v_env s)) (sample_svc <$> ns).
Proof. apply Forall_fmap, Forall_true. intros n. exact sample_log_ok. Qed.

#[local] Existing Instance sample_threads.
#[local] Existing Instance sample_threads_laws.


Lemma stuck_task_starves_watchdog_witness :
  exists outs reports l s',
    health_loop sample_device 9 false sample_snapshot sample_image
      ((sample_svc <$> [1]) ++ [sample_svc 2; sample_svc 3; sample_svc 4] ++ [])
      (health_start (sample_svc 0)).1 = Ok (outs, reports, l) /\
    outs !! 3%nat = Some s' /\ (le_world (v_env s')).1 = 0.
Proof.
  destruct (stuck_task_starves_watchdog sample_device 9 false
              sample_snapshot sample_image (sample_svc 0) (sample_svc <$> [1]) (sample_svc 2)
              (sample_svc 3) (sample_svc 4) [] receiver_epoch)
    as (outs & reports & l & s' & E & Hs & Hp).
  - apply (sample_svcs_ok [1; 2; 3; 4]).
  - word_lia.
  - apply armed_pet.
  - simpl. lia.
  - apply list_elem_of_In. simpl. tauto.
  - reflexivity.
  - reflexivity.
  - exists outs, reports, l, s'. split; [exact E|]. split; [exact Hs|exact Hp].
Defined.

(** A mailbox below [sample_device]. *)
Definition sample_mailbox : device :=
  {| dev_ready := true; dev_base := dev_base sample_device - 0x1000 |}.
#[local] Instance mail_platform : Platform (list Z * Z * sim_world) :=
  host_platform (quiet_platform sample_delay) sample_mailbox.
#[local] Instance mail_host : MailboxHost (list Z * Z * sim_world) := host_mailbox.
#[local] Instance mail_laws : MailboxHostLaws (list Z * Z * sim_world) sample_mailbox :=
  host_mailbox_laws (quiet_platform sample_delay) sample_mailbox.

Definition sample_mail_svc : svc (list Z * Z * sim_world) list_msgq :=
  {| v_env := Build_log_env ([], 0, blank_world) sample_record (Build_list_msgq [] 2) 0;
     v_atomics := fun _ => 0;
     v_heartbeats := Build_list_msgq [] 4;
     v_mailbox_rx := Build_list_msgq [1; 5] 4;
     v_producer_sequence := 1 |}.

Lemma mailbox_service_answers_witness :
  exists outs s' w, mailbox_run sample_mailbox sample_device 9
      [([], 0, blank_world); ([7], 3, blank_world)] sample_mail_svc = Ok (outs, s') /\
    outs !! 1%nat = Some w /\ w.1.1 = [7; 0xffffffff].
Proof.
  destruct (mailbox_service_answers sample_mailbox sample_device 9 ltac:(simpl; lia) eq_refl
              ltac:(word_lia) sample_mail_svc [1; 5] []
              [([], 0, blank_world); ([7], 3, blank_world)])
    as [(outs & s' & E & _ & Hlen & Hp) _].
  - exact sample_log_ok.
  - reflexivity.
  - reflexivity.
  - repeat constructor.
  - destruct outs as [|w0 [|w1 [|]]]; try discriminate Hlen.
    exists [w0; w1], s', w1. split; [exact E|]. split; [reflexivity|].
    exact (Hp 1%nat 5 ([7], 3, blank_world) w1 eq_refl eq_refl eq_refl).
Defined.
