(* ===== verification/Boot.v ===== *)
(** * Firmware start-up ([main] of firmware/src/main.c)

    [main] checks the devices, takes the reset snapshot, recovers or formats
    the crash record, arms the watchdog, creates the ten threads suspended and
    starts them.  The theorem connects it to the pipeline: what it starts is a
    [booted] state, so the pipeline theorems hold from there on. *)

From stdpp Require Import strings.
From S2P Require Import Prelude Abi Overload Platform Management Retained Event Scheduler.
From S2P Require Import Firmware Pipeline PipelineThms Report Services.

Definition VAMS_TASK_PRIORITY : Z := 5.
Definition VAMS_HEALTH_PRIORITY : Z := 4.
Definition VAMS_RECEIVER_PRIORITY : Z := 1.
Definition VAMS_VALIDATOR_PRIORITY : Z := 2.
Definition VAMS_COMPLETION_PRIORITY : Z := 2.
Definition VAMS_RECOVERY_PRIORITY : Z := 0.
Definition VAMS_SCHEDULER_PRIORITY : Z := 3.

(** ** Threads *)

Inductive thread_entry : Type :=
| entry_producer | entry_monitor | entry_mailbox_service | entry_command_receiver
| entry_command_validator | entry_command_scheduler | entry_recovery_manager
| entry_command_completion | entry_health_monitor | entry_event_logger.

(** The arguments of [k_thread_create] that vary: stack size, entry point,
    first argument and priority. *)
Record thread_block : Type := {
  th_stack : Z;
  th_entry : thread_entry;
  th_arg1 : option vams_management_snapshot;
  th_priority : Z;
}.

(** The threads created with [K_FOREVER], and those started since, in order. *)
Record thread_table : Type := {
  tt_created : list (vams_thread * thread_block);
  tt_started : list vams_thread;
}.

(** A thread control block is initialized by its creation: starting a thread
    that was not created is undefined. *)
Definition k_thread_start (t : vams_thread) (tt : thread_table) : result thread_table :=
  if bool_decide (t ∈ (tt_created tt).*1)
  then Ok {| tt_created := tt_created tt; tt_started := tt_started tt ++ [t] |}
  else Fault.

(** ** Console *)

Inductive boot_line : Type :=
| line_booting
| line_kernel
| line_reset (reason watchdog_count generation notifications notification_failures
              reset_acks reset_ack_timeouts reset_coalesced : Z)
| line_retained (valid : bool) (boots reset_reason generation stuck_task health_failures
                 last_command events crc : Z)
| line_watchdog_reset
| line_tasks
| line_services.

Definition reset_line (s : vams_management_snapshot) : boot_line :=
  line_reset (ms_reset_reason s) (ms_watchdog_reset_count s) (ms_reset_generation s)
    (ms_reset_notify_count s) (ms_reset_notify_fail_count s) (ms_reset_ack_count s)
    (ms_reset_ack_timeout_count s) (ms_reset_coalesce_count s).

Definition retained_line (valid : bool) (r : vams_retained_record) : boot_line :=
  line_retained valid (rr_boot_count r) (rr_reset_reason r) (rr_reset_generation r)
    (rr_last_stuck_task r) (rr_health_failure_count r) (rr_last_command_id r)
    (rr_event_count r) (rr_crc32 r).

(** What [main] leaves. *)
Record boot_result (W : Type) (Q : Type -> Type) (S : Type) : Type := {
  br_snapshot : vams_management_snapshot;      (* and command_generation *)
  br_retained_valid : bool;
  br_console : list boot_line;
  br_threads : thread_table;
  br_state : fw W Q S;
}.
Arguments br_snapshot {W Q S}.
Arguments br_retained_valid {W Q S}.
Arguments br_console {W Q S}.
Arguments br_threads {W Q S}.
Arguments br_state {W Q S}.

Section Boot.
Context {W : Type} {Q : Type -> Type} {S : Type} `{!Platform W, !Msgq Q, !Slab S, !Threads W}.
Context (mailbox management command_portal : device).

(** [k_thread_create] followed by the checked [k_thread_name_set]. *)
Definition create_thread (t : vams_thread) (entry : thread_entry)
    (arg1 : option vams_management_snapshot) (priority : Z) (name : string) (tt : thread_table)
    : result thread_table :=
  let block := {| th_stack := K_THREAD_STACK_SIZEOF t; th_entry := entry; th_arg1 := arg1;
                  th_priority := priority |} in
  _ ← ASSERT_NO_MSG (rc_is_ok (k_thread_name_set t name));
  Ok {| tt_created := tt_created tt ++ [(t, block)]; tt_started := tt_started tt |}.

Definition create_threads (boot_snapshot : vams_management_snapshot) (tt : thread_table)
    : result thread_table :=
  tt ← create_thread vams_event_thread entry_event_logger None (VAMS_TASK_PRIORITY + 1)
         "vams_event" tt;
  tt ← create_thread vams_monitor_thread entry_monitor None VAMS_TASK_PRIORITY "vams_monitor" tt;
  tt ← create_thread vams_producer_thread entry_producer None VAMS_TASK_PRIORITY
         "vams_producer" tt;
  tt ← create_thread vams_mailbox_thread entry_mailbox_service None VAMS_TASK_PRIORITY
         "vams_mailbox" tt;
  tt ← create_thread vams_completion_thread entry_command_completion None
         VAMS_COMPLETION_PRIORITY "vams_completion" tt;
  tt ← create_thread vams_recovery_thread entry_recovery_manager None VAMS_RECOVERY_PRIORITY
         "vams_recovery" tt;
  tt ← create_thread vams_scheduler_thread entry_command_scheduler None VAMS_SCHEDULER_PRIORITY
         "vams_scheduler" tt;
  tt ← create_thread vams_validator_thread entry_command_validator None VAMS_VALIDATOR_PRIORITY
         "vams_validator" tt;
  tt ← create_thread vams_receiver_thread entry_command_receiver None VAMS_RECEIVER_PRIORITY
         "vams_receiver" tt;
  create_thread vams_health_thread entry_health_monitor (Some boot_snapshot)
    VAMS_HEALTH_PRIORITY "vams_health" tt.

Definition start_threads (tt : thread_table) : result thread_table :=
  tt ← k_thread_start vams_event_thread tt;
  tt ← k_thread_start vams_monitor_thread tt;
  tt ← k_thread_start vams_producer_thread tt;
  tt ← k_thread_start vams_mailbox_thread tt;
  tt ← k_thread_start vams_completion_thread tt;
  tt ← k_thread_start vams_recovery_thread tt;
  tt ← k_thread_start vams_scheduler_thread tt;
  tt ← k_thread_start vams_validator_thread tt;
  tt ← k_thread_start vams_receiver_thread tt;
  k_thread_start vams_health_thread tt.

(** [statics] is the state the loader and the device drivers leave.
    [k_msgq_init] of the heartbeat queue, which only the service tasks use,
    is in their state; CONFIG_VAMS_OVERLOAD_TEST is off. *)
Definition firmware_main (statics : fw W Q S) : result (boot_result W Q S) :=
  _ ← ASSERT_NO_MSG (dev_ready mailbox);
  _ ← ASSERT_NO_MSG (dev_ready management);
  _ ← ASSERT_NO_MSG (dev_ready command_portal);
  let env := f_env statics in
  let '(boot_snapshot, w) := read_snapshot management (le_world env) in
  '(retained_valid, r, w) ←
    vams_retained_boot management (ms_reset_reason boot_snapshot)
      (ms_reset_generation boot_snapshot) w;
  let console :=
    [line_booting; line_kernel; reset_line boot_snapshot; retained_line retained_valid r] ++
    (if ms_reset_reason boot_snapshot =? VAMS_RESET_REASON_WATCHDOG
     then [line_watchdog_reset] else []) in
  let '(status, w) :=
    vams_management_watchdog_start (Some management) VAMS_WATCHDOG_TIMEOUT_MS w in
  _ ← ASSERT_NO_MSG (rc_is_ok status);
  tt ← create_threads boot_snapshot {| tt_created := []; tt_started := [] |};
  tt ← start_threads tt;
  Ok {| br_snapshot := boot_snapshot;
        br_retained_valid := retained_valid;
        br_console := console ++ [line_tasks; line_services];
        br_threads := tt;
        br_state := set_f_env (Build_log_env w r (le_queue env) (le_drops env)) statics |}.

(** The zero-initialized statics and statically defined queues and pool. *)
Record pristine (s : fw W Q S) : Prop := {
  pr_pool : slab_free (f_pool s) = list_to_set (seq 0 VAMS_COMMAND_POOL_SIZE);
  pr_queues :
    msgq_items (f_validation s) = [] /\ msgq_items (f_ready s) = [] /\
    msgq_items (f_running s) = [] /\ msgq_items (f_completion s) = [];
  pr_limits :
    msgq_limit (f_validation s) = VAMS_COMMAND_POOL_SIZE /\
    msgq_limit (f_ready s) = VAMS_COMMAND_POOL_SIZE /\
    msgq_limit (f_running s) = 1%nat /\
    msgq_limit (f_completion s) = VAMS_COMMAND_POOL_SIZE;
  pr_tasks :
    f_rx s = rx_loop /\ f_va s = va_loop /\ f_sc s = sc_loop /\ f_sc_ready s = [] /\
    f_re s = re_loop /\ f_cp s = cp_loop;
  pr_in_use : f_atomics s command_objects_in_use = 0;
  pr_sequence : f_sequence s = 0;
  pr_drops : le_drops (f_env s) = 0;
}.

Context `{!PlatformLaws W, !Retention W, !RetentionLaws W management, !ThreadsLaws W}.

(** The thread that runs an entry point, and its priority (lower first). *)
Definition entry_of (t : vams_thread) : thread_entry :=
  match t with
  | vams_producer_thread => entry_producer
  | vams_monitor_thread => entry_monitor
  | vams_mailbox_thread => entry_mailbox_service
  | vams_receiver_thread => entry_command_receiver
  | vams_validator_thread => entry_command_validator
  | vams_scheduler_thread => entry_command_scheduler
  | vams_recovery_thread => entry_recovery_manager
  | vams_completion_thread => entry_command_completion
  | vams_health_thread => entry_health_monitor
  | vams_event_thread => entry_event_logger
  end.

(** Every thread runs once, with its own entry point and stack; only the
    health monitor gets the snapshot; the command tasks are more urgent (a
    lower number) than the health monitor and the services. *)
Record all_started (snapshot : vams_management_snapshot) (tt : thread_table) : Prop := {
  as_started : tt_started tt ≡ₚ reported_threads;
  as_created : (tt_created tt).*1 ≡ₚ reported_threads;
  as_blocks t block : (t, block) ∈ tt_created tt ->
    th_entry block = entry_of t /\ vams_stack_size t <= th_stack block /\
    th_arg1 block = (if decide (t = vams_health_thread) then Some snapshot else None);
  as_priorities t1 t2 block1 block2 :
    (t1, block1) ∈ tt_created tt -> (t2, block2) ∈ tt_created tt ->
    t1 ∈ [vams_receiver_thread; vams_validator_thread; vams_scheduler_thread;
          vams_recovery_thread; vams_completion_thread] ->
    t2 ∈ [vams_health_thread; vams_producer_thread; vams_monitor_thread;
          vams_mailbox_thread; vams_event_thread] ->
    th_priority block1 < th_priority block2;
}.

Lemma create_thread_ok t entry arg1 priority name tt :
  create_thread t entry arg1 priority name tt =
    Ok {| tt_created := tt_created tt ++
            [(t, {| th_stack := K_THREAD_STACK_SIZEOF t; th_entry := entry; th_arg1 := arg1;
                    th_priority := priority |})];
          tt_started := tt_started tt |}.
Proof. unfold create_thread. by rewrite name_set. Qed.

Lemma threads_started snapshot :
  exists tt0 tt,
    create_threads snapshot {| tt_created := []; tt_started := [] |} = Ok tt0 /\
    start_threads tt0 = Ok tt /\ all_started snapshot tt.
Proof.
  unfold create_threads.
  repeat (rewrite create_thread_ok; cbn [mbind result_bind tt_created tt_started app]).
  eexists _, _. split; [done|]. split; [reflexivity|]. split; simpl.
  - by apply (bool_decide_unpack _); vm_compute.
  - by apply (bool_decide_unpack _); vm_compute.
  - intros t block Hin. pose proof (stack_sizeof t) as [Hs _].
    set_unfold. by repeat destruct Hin as [[= -> ->]|Hin].
  - intros t1 t2 b1 b2 H1 H2 M1 M2. set_unfold.
    repeat destruct M1 as [->|M1]; try done; repeat destruct M2 as [->|M2]; try done;
    repeat destruct H1 as [[= ->]|H1]; try done; repeat destruct H2 as [[= ->]|H2]; done.
Qed.

(** Reading the snapshot: every field is a 32-bit register, the window stays. *)
Lemma read_snapshot_spec w :
  let '(snapshot, w') := read_snapshot management w in
  is_u32 (ms_reset_reason snapshot) /\ is_u32 (ms_reset_generation snapshot) /\
  retention w' = retention w.
Proof.
  unfold read_snapshot.
  repeat match goal with
  | |- context [sys_read32 ?a ?v] =>
      let H1 := fresh in let H2 := fresh in
      pose proof (sys_read32_u32 a v) as H1; pose proof (retention_read_frame a v) as H2;
      destruct (sys_read32 a v) as [? ?]; cbn [fst snd] in H1, H2
  end.
  simpl. split_and!; try done. congruence.
Qed.

(** C30: start-up leads into the verified pipeline.  With the three devices
    ready, the watchdog accepting the firmware's timeout, and a crash record
    that is either invalid or has its event ring in range (as every record
    the firmware writes has), [main] fails no assertion and the state it
    starts the tasks in is [booted]: pool free, queues empty, event log
    usable, for the reset generation just read.  Every thread is created before
    it is started and started once, on its own entry point with a stack of at
    least the declared size, and every command task is more urgent than the
    health monitor and the services. *)
Theorem main_boots_pipeline (statics : fw W Q S)
    (Hmailbox : dev_ready mailbox = true) (Hmanagement : dev_ready management = true)
    (Hportal : dev_ready command_portal = true) (Hstatics : pristine statics)
    (Hwatchdog : forall w : W,
       (vams_management_watchdog_start (Some management) VAMS_WATCHDOG_TIMEOUT_MS w).1 = rc_ok)
    (Hrecord : vams_retained_validate (persisted (le_world (f_env statics))) = true ->
               ring_ok (persisted (le_world (f_env statics)))) :
  exists b,
    firmware_main statics = Ok b /\
    br_retained_valid b = vams_retained_validate (persisted (le_world (f_env statics))) /\
    booted (ms_reset_generation (br_snapshot b)) (br_state b) /\
    all_started (br_snapshot b) (br_threads b).
Proof.
  unfold firmware_main. rewrite Hmailbox, Hmanagement, Hportal.
  cbn [ASSERT_NO_MSG mbind result_bind]. cbv zeta.
  pose proof (read_snapshot_spec (le_world (f_env statics))) as Hs.
  destruct (read_snapshot management (le_world (f_env statics))) as [snapshot w1].
  destruct Hs as (Hr & Hg & Hw).
  assert (Hp : persisted w1 = persisted (le_world (f_env statics))).
  { unfold persisted. by rewrite Hw. }
  rewrite <-Hp in Hrecord |- *.
  assert (exists r w2, vams_retained_boot management (ms_reset_reason snapshot)
            (ms_reset_generation snapshot) w1 = Ok (vams_retained_validate (persisted w1), r, w2) /\
            synced r w2) as (r & w2 & E & Hwf & Hv & Hring & _).
  { destruct (vams_retained_validate (persisted w1)) eqn:Ev.
    - destruct (boot_recovers management (ms_reset_reason snapshot)
        (ms_reset_generation snapshot) w1) as (r & w2 & E & Hsync & _); [by auto..|].
      by exists r, w2.
    - destruct (boot_formats management (ms_reset_reason snapshot)
        (ms_reset_generation snapshot) w1) as (w2 & E & Hsync); [done..|].
      by eexists _, w2. }
  rewrite E. cbn [mbind result_bind]. pose proof (Hwatchdog w2) as Hst.
  destruct (vams_management_watchdog_start _ _ w2) as [status w3]. simpl in Hst. subst status.
  change (rc_is_ok rc_ok) with true. cbn [ASSERT_NO_MSG mbind result_bind].
  destruct (threads_started snapshot) as (tt0 & tt & -> & E2 & Htt).
  cbn [mbind result_bind]. rewrite E2. eexists. split; [reflexivity|]. split; [done|].
  split; [|exact Htt]. destruct Hstatics.
  split; simpl; try done. unfold log_ok. simpl.
  split_and!; try done; [by apply validate_identified|]. rewrite pr_drops0. word_lia.
Qed.
End Boot.

(** ** Witness *)

Definition sample_statics : fw sim_world list_msgq set_slab :=
  {| f_env := Build_log_env blank_world zero_record (Build_list_msgq [] 32) 0;
     f_atomics := fun _ => 0;
     f_pool := {| slab_set := list_to_set (seq 0 8) |};
     f_objects := ∅;
     f_validation := Build_list_msgq [] 8;
     f_ready := Build_list_msgq [] 8;
     f_running := Build_list_msgq [] 1;
     f_completion := Build_list_msgq [] 8;
     f_sequence := 0;
     f_rx := rx_loop; f_va := va_loop; f_sc := sc_loop; f_sc_ready := []; f_re := re_loop;
     f_cp := cp_loop |}.

Lemma armed_window n regs i :
  (i < 32)%nat ->
  armed_hw n regs !! retention_address sample_device i = regs !! retention_address sample_device i.
Proof.
  intros Hi. unfold armed_hw.
  rewrite !lookup_insert_ne; [done|..]; unfold retention_address, VAMS_CONTROL_RETENTION_BASE,
    VAMS_CONTROL_WDT_CONTROL, VAMS_CONTROL_WDT_TIMEOUT_MS; simpl; lia.
Qed.

Lemma armed_start w :
  (@vams_management_watchdog_start _ armed_platform (Some sample_device)
     VAMS_WATCHDOG_TIMEOUT_MS w).1 = rc_ok.
Proof.
  unfold vams_management_watchdog_start. cbn [dev_ready sample_device negb].
  pose proof (armed_control w) as Hc. destruct (sys_read32 _ w) as [control w1].
  cbn [fst] in Hc. subst control. change (has_bits VAMS_WDT_ENABLE VAMS_WDT_ENABLE) with true.
  cbv iota. pose proof (armed_timeout w1) as Ht. destruct (sys_read32 _ w1) as [current w2].
  cbn [fst] in Ht. by subst current.
Qed.

#[local] Existing Instance sample_threads.
#[local] Existing Instance sample_threads_laws.

Lemma main_boots_pipeline_witness :
  exists b,
    @firmware_main _ _ _ armed_platform _ sample_device sample_device sample_device sample_statics
      = Ok b /\ br_retained_valid b = false /\
    booted (ms_reset_generation (br_snapshot b)) (br_state b).
Proof.
  destruct (@main_boots_pipeline _ _ _ armed_platform _ _ _ sample_device sample_device sample_device
              (sim_platform_laws sample_delay armed_hw)
              (sim_retention sample_delay armed_hw sample_device)
              (sim_retention_laws sample_delay armed_hw sample_device armed_window)
              _ sample_statics) as (b & E & Hv & Hb & _).
  - reflexivity.
  - reflexivity.
  - reflexivity.
  - split; try reflexivity; try (repeat split; reflexivity).
  - apply armed_start.
  - vm_compute. discriminate.
  - exists b. split; [exact E|]. split; [exact Hv|exact Hb].
Defined.
