(* ===== verification/Baremetal.v ===== *)
(** * Bare-metal bring-up firmware (firmware/baremetal/main.c, start.S)

    The program that runs before the Zephyr firmware exists: it prints over the
    UART, checks the SRAM it was linked for, and takes one timer interrupt.
    The hardware under it (UART, ACLINT timer, SRAM, [wfi]) is the class [Soc];
    the registers of the CPU the program writes are in the record [cpu].

    Every access and instruction may take time.  Interrupts are taken at the
    instruction boundaries where the program has them enabled, which is in its
    waiting loop. *)

From Stdlib Require Import String Ascii.
From S2P Require Import Prelude.

(** ** Platform constants (firmware/include/vams_platform.h) *)

Definition VAMS_ACLINT_MTIMER_BASE : Z := 0x02004000.
Definition VAMS_ACLINT_MTIMECMP : Z := VAMS_ACLINT_MTIMER_BASE + 0x0000.
Definition VAMS_ACLINT_MTIME : Z := VAMS_ACLINT_MTIMER_BASE + 0x7ff8.
Definition VAMS_UART_BASE : Z := 0x10000000.
Definition VAMS_SRAM_BASE : Z := 0x80000000.
Definition VAMS_SRAM_SIZE : Z := 0x00080000.
Definition VAMS_UART_THR : Z := 0x0.
Definition VAMS_UART_LSR : Z := 0x5.
Definition VAMS_UART_LSR_THRE : Z := 0x20.
Definition VAMS_MCAUSE_TIMER : Z := 0x80000007.
Definition VAMS_MIE_MTIE : Z := Z.shiftl 1 7.
Definition VAMS_MSTATUS_MIE : Z := Z.shiftl 1 3.

(** ** The hardware *)

Class Soc (W : Type) := {
  load8 : Z -> W -> Z * W;
  store8 : Z -> Z -> W -> W;             (* value, then address *)
  load32 : Z -> W -> Z * W;
  store32 : Z -> Z -> W -> W;
  execute : W -> W;                      (* an instruction without a device access *)
  wfi : W -> option W;                   (* None: sleeps for ever *)
  timer_pending : W -> bool;
  sram_load : W -> Z * W;                (* the word vams_sram_probe *)
  sram_store : Z -> W -> W;
}.

(** What can be observed of it: the clock, the comparator, the bytes sent, for
    how many more polls the transmitter is busy, and how many more times [wfi]
    will return before the timer interrupt is pending. *)
Class SocView (W : Type) := {
  mtime : W -> Z;
  mtimecmp : W -> Z;
  uart_out : W -> list Z;
  uart_busy : W -> nat;
  early_wakes : W -> nat;
}.

Section Elapsed.
Context {W : Type} `{!SocView W}.
(** At most [ticks] pass. *)
Definition elapsed (ticks : Z) (w w' : W) : Prop := mtime w <= mtime w' <= mtime w + ticks.
(** ... and the comparator and the output stay. *)
Definition quiet (ticks : Z) (w w' : W) : Prop :=
  elapsed ticks w w' /\ mtimecmp w' = mtimecmp w /\ uart_out w' = uart_out w.
End Elapsed.

(** The hardware the program is written for, with the time [ticks] one access
    or instruction takes at most, the number of polls [polls] the UART
    transmitter is busy at most, and the number of early returns [wakes] of
    [wfi].  Timer and [wfi]: RISC-V privileged architecture and ACLINT; UART:
    16550.  [wfi] may return at any time; with a timer interrupt to come it
    does return. *)
Class SocLaws (W : Type) `{!Soc W, !SocView W} (ticks : Z) (polls wakes : nat) : Prop := {
  mtime_nonneg w : 0 <= mtime w;   (* ticks since reset *)
  cmp_range w : is_u64 (mtimecmp w);
  pending_spec w : timer_pending w = (mtimecmp w <=? mtime w);
  load8_quiet a w : quiet ticks w (load8 a w).2;
  load32_quiet a w : quiet ticks w (load32 a w).2;
  execute_quiet w : quiet ticks w (execute w);
  sram_load_quiet w : quiet ticks w (sram_load w).2;
  sram_store_quiet v w : quiet ticks w (sram_store v w);
  mtime_low w : (load32 VAMS_ACLINT_MTIME w).1 = mtime (load32 VAMS_ACLINT_MTIME w).2 mod 2 ^ 32;
  mtime_high w :
    (load32 (VAMS_ACLINT_MTIME + 4) w).1 =
    (mtime (load32 (VAMS_ACLINT_MTIME + 4) w).2 / 2 ^ 32) mod 2 ^ 32;
  store32_elapsed v a w : elapsed ticks w (store32 v a w);
  store32_out v a w : uart_out (store32 v a w) = uart_out w;
  cmp_low v w : is_u32 v ->
    mtimecmp (store32 v VAMS_ACLINT_MTIMECMP w) = mtimecmp w / 2 ^ 32 * 2 ^ 32 + v;
  cmp_high v w : is_u32 v ->
    mtimecmp (store32 v (VAMS_ACLINT_MTIMECMP + 4) w) = v * 2 ^ 32 + mtimecmp w mod 2 ^ 32;
  uart_ready w :
    has_bits (load8 (VAMS_UART_BASE + VAMS_UART_LSR) w).1 VAMS_UART_LSR_THRE =
    bool_decide (uart_busy w = 0%nat);
  uart_polled w :
    uart_busy (load8 (VAMS_UART_BASE + VAMS_UART_LSR) w).2 = pred (uart_busy w);
  uart_bounded w : (uart_busy w <= polls)%nat;
  store8_elapsed v a w : elapsed ticks w (store8 v a w);
  store8_cmp v a w : mtimecmp (store8 v a w) = mtimecmp w;
  uart_sent v w : uart_busy w = 0%nat -> is_u8 v ->
    uart_out (store8 v (VAMS_UART_BASE + VAMS_UART_THR) w) = uart_out w ++ [v];
  wfi_frame w w' : wfi w = Some w' ->
    mtime w <= mtime w' /\ mtimecmp w' = mtimecmp w /\ uart_out w' = uart_out w;
  wfi_wakes w : mtimecmp w < 2 ^ 63 ->
    exists w', wfi w = Some w' /\
      (mtimecmp w <= mtime w' \/ (early_wakes w' < early_wakes w)%nat);
  execute_wakes w : (early_wakes (execute w) <= early_wakes w)%nat;
  wakes_bounded w : (early_wakes w <= wakes)%nat;
  sram_works v w : (sram_load (sram_store v w)).1 = v;
}.

(** ** The program *)

Record cpu (W : Type) : Type := {
  c_world : W;
  c_mtvec : Z;
  c_mie : Z;
  c_mstatus : Z;
  c_timer_fired : Z;   (* vams_timer_fired *)
}.
Arguments Build_cpu {W}.
Arguments c_world {W}.
Arguments c_mtvec {W}.
Arguments c_mie {W}.
Arguments c_mstatus {W}.
Arguments c_timer_fired {W}.

Inductive halt : Type := halt_sram_error | halt_ready.

Definition text (s : string) : list Z := (fun c => Z.of_N (N_of_ascii c)) <$> list_ascii_of_string s.
Definition line (s : string) : list Z := text s ++ [10].

Section Program.
Context {W : Type} `{!Soc W}.
(** The rounds granted to the UART poll and to the wait for the timer;
    addresses the linker assigns. *)
Context (uart_fuel timer_fuel : nat) (trap_address sram_start sram_end : Z).
Implicit Types (w : W) (c : cpu W).

Definition set_world (w : W) (c : cpu W) : cpu W :=
  Build_cpu w (c_mtvec c) (c_mie c) (c_mstatus c) (c_timer_fired c).
Definition set_mtvec (x : Z) (c : cpu W) : cpu W :=
  Build_cpu (c_world c) x (c_mie c) (c_mstatus c) (c_timer_fired c).
Definition set_mie (x : Z) (c : cpu W) : cpu W :=
  Build_cpu (c_world c) (c_mtvec c) x (c_mstatus c) (c_timer_fired c).
Definition set_mstatus (x : Z) (c : cpu W) : cpu W :=
  Build_cpu (c_world c) (c_mtvec c) (c_mie c) x (c_timer_fired c).
Definition set_timer_fired (x : Z) (c : cpu W) : cpu W :=
  Build_cpu (c_world c) (c_mtvec c) (c_mie c) (c_mstatus c) x.

Definition vams_mmio_read8 (address : Z) (w : W) : Z * W := load8 address w.
Definition vams_mmio_write8 (address value : Z) (w : W) : W := store8 value address w.
Definition vams_mmio_read32 (address : Z) (w : W) : Z * W := load32 address w.
Definition vams_mmio_write32 (address value : Z) (w : W) : W := store32 value address w.

Fixpoint uart_wait_loop (fuel : nat) (w : W) : result W :=
  match fuel with
  | O => Fault
  | S fuel' =>
      let '(lsr, w) := vams_mmio_read8 (VAMS_UART_BASE + VAMS_UART_LSR) w in
      if negb (has_bits lsr VAMS_UART_LSR_THRE) then uart_wait_loop fuel' w else Ok w
  end.

Definition vams_uart_putc (value : Z) (w : W) : result W :=
  w ← uart_wait_loop uart_fuel w;
  Ok (vams_mmio_write8 (VAMS_UART_BASE + VAMS_UART_THR) (u8 value) w).

Fixpoint vams_uart_puts (string : list Z) (w : W) : result W :=
  match string with
  | [] => Ok w
  | value :: rest =>
      w ← (if value =? 10 then vams_uart_putc 13 w else Ok w);
      w ← vams_uart_putc value w;
      vams_uart_puts rest w
  end.

Fixpoint mtime_read_loop (fuel : nat) (w : W) : result (Z * W) :=
  match fuel with
  | O => Fault
  | S fuel' =>
      let '(high_before, w) := vams_mmio_read32 (VAMS_ACLINT_MTIME + 4) w in
      let '(low, w) := vams_mmio_read32 VAMS_ACLINT_MTIME w in
      let '(high_after, w) := vams_mmio_read32 (VAMS_ACLINT_MTIME + 4) w in
      if negb (high_before =? high_after) then mtime_read_loop fuel' w
      else Ok (Z.lor (u64 (Z.shiftl high_after 32)) low, w)
  end.

Definition vams_mtime_read (w : W) : result (Z * W) := mtime_read_loop 2 w.

Definition vams_mtimecmp_write (value : Z) (w : W) : W :=
  let w := vams_mmio_write32 (VAMS_ACLINT_MTIMECMP + 4) U32_MAX w in
  let w := vams_mmio_write32 VAMS_ACLINT_MTIMECMP (u32 value) w in
  vams_mmio_write32 (VAMS_ACLINT_MTIMECMP + 4) (u32 (Z.shiftr value 32)) w.

(** [vams_trap_entry] of start.S; another cause is waited out for ever. *)
Definition vams_trap_entry (mcause : Z) (c : cpu W) : result (cpu W) :=
  if negb (mcause =? VAMS_MCAUSE_TIMER) then Fault else
  let w := vams_mmio_write32 VAMS_ACLINT_MTIMECMP U32_MAX (c_world c) in
  let w := vams_mmio_write32 (VAMS_ACLINT_MTIMECMP + 4) U32_MAX w in
  Ok (set_world w (set_timer_fired 1 c)).

(** An instruction boundary: a pending and enabled timer interrupt is taken. *)
Definition interrupt (c : cpu W) : result (cpu W) :=
  if has_bits (c_mstatus c) VAMS_MSTATUS_MIE && has_bits (c_mie c) VAMS_MIE_MTIE &&
     timer_pending (c_world c)
  then if c_mtvec c =? trap_address then vams_trap_entry VAMS_MCAUSE_TIMER c else Fault
  else Ok c.

(** [while (vams_timer_fired == 0U) wfi]: an interrupt may come before the test
    and between the test and the [wfi]. *)
Fixpoint timer_wait (fuel : nat) (c : cpu W) : result (cpu W) :=
  match fuel with
  | O => Fault
  | S fuel' =>
      c ← interrupt c;
      if negb (c_timer_fired c =? 0) then Ok c else
      c ← interrupt (set_world (execute (c_world c)) c);
      match wfi (c_world c) with
      | None => Fault
      | Some w => timer_wait fuel' (set_world w c)
      end
  end.

Definition vams_timer_interrupt_test (c : cpu W) : result (cpu W) :=
  '(now, w) ← vams_mtime_read (c_world c);
  let deadline := u64 (now + 10000) in
  let c := set_mtvec trap_address (set_timer_fired 0 (set_world w c)) in
  let c := set_world (vams_mtimecmp_write deadline (c_world c)) c in
  let c := set_mie (Z.lor (c_mie c) VAMS_MIE_MTIE) c in
  let c := set_mstatus (Z.lor (c_mstatus c) VAMS_MSTATUS_MIE) c in
  c ← timer_wait timer_fuel c;
  Ok (set_mie (Z.land (c_mie c) (Z.lnot VAMS_MIE_MTIE)) c).

Definition vams_sram_test (w : W) : bool * W :=
  if negb (sram_start =? VAMS_SRAM_BASE) || negb (u32 (sram_end - sram_start) =? VAMS_SRAM_SIZE)
  then (false, w) else
  let w := sram_store 0xa5c35a3c w in
  let '(probe, w) := sram_load w in
  if negb (probe =? 0xa5c35a3c) then (false, w) else
  (true, sram_store 0 w).

(** Up to the final [wfi] loop, and which one it is. *)
Definition vams_main (c : cpu W) : result (halt * cpu W) :=
  w ← vams_uart_puts (line "Virtual Accelerator Management SoC firmware booting") (c_world c);
  w ← vams_uart_puts (line "CPU: RV32") w;
  let '(ok, w) := vams_sram_test w in
  if negb ok then
    w ← vams_uart_puts (line "SRAM: error") w;
    Ok (halt_sram_error, set_world w c)
  else
    w ← vams_uart_puts (line "SRAM: detected") w;
    c ← vams_timer_interrupt_test (set_world w c);
    w ← vams_uart_puts (line "UART: ready") (c_world c);
    Ok (halt_ready, set_world w c).
End Program.

(** ** Printing *)

(** What [vams_uart_puts] sends: a carriage return before every newline. *)
Fixpoint crlf (string : list Z) : list Z :=
  match string with
  | [] => []
  | value :: rest => (if value =? 10 then [13; value] else [value]) ++ crlf rest
  end.

Section Proofs.
Context {W : Type} `{!Soc W, !SocView W} (ticks : Z) (polls wakes : nat) `{!SocLaws W ticks polls wakes}.
Context (trap_address sram_start sram_end : Z).
Implicit Types (w : W) (c : cpu W).

(** [bs] is sent, nothing else changes, and at most [n] ticks pass. *)
Definition sends (n : Z) (bs : list Z) (w w' : W) : Prop :=
  elapsed n w w' /\ mtimecmp w' = mtimecmp w /\ uart_out w' = uart_out w ++ bs.

Lemma sends_nil w w' : quiet ticks w w' -> sends ticks [] w w'.
Proof. intros (? & ? & ?). unfold sends. by rewrite app_nil_r. Qed.

Lemma sends_refl w : sends 0 [] w w.
Proof. unfold sends, elapsed. rewrite app_nil_r. split_and!; [lia..|done|done]. Qed.

Lemma sends_trans n m l1 l2 w1 w2 w3 :
  sends n l1 w1 w2 -> sends m l2 w2 w3 -> sends (n + m) (l1 ++ l2) w1 w3.
Proof.
  intros (H1 & H2 & H3) (H4 & H5 & H6). unfold sends, elapsed in *. rewrite H6, H5, H3, H2, app_assoc.
  split_and!; [lia..|done|done].
Qed.

Lemma sends_weaken n m bs w w' : sends n bs w w' -> n <= m -> sends m bs w w'.
Proof. intros (H1 & H2 & H3) Hn. unfold sends, elapsed in *. split_and!; [lia..|done|done]. Qed.

Lemma ticks_nonneg w : 0 <= ticks.
Proof. destruct (execute_quiet w) as ([H1 H2] & _). lia. Qed.

Lemma uart_wait_ok fuel w :
  (uart_busy w < fuel)%nat ->
  exists w', uart_wait_loop fuel w = Ok w' /\ uart_busy w' = 0%nat /\
    sends (Z.of_nat fuel * ticks) [] w w'.
Proof.
  revert w. induction fuel as [|fuel IH]; intros w Hf; [lia|]. cbn [uart_wait_loop].
  unfold vams_mmio_read8. set (a := VAMS_UART_BASE + VAMS_UART_LSR).
  pose proof (load8_quiet (SocLaws:=_) a w) as Hq. pose proof (uart_ready w) as Hr.
  pose proof (uart_polled w) as Hp. fold a in Hr, Hp. pose proof (ticks_nonneg w).
  destruct (load8 a w) as [lsr w1]. simpl in *. rewrite Hr. case_bool_decide as Hb; cbn [negb].
  - exists w1. rewrite Hp, Hb. split_and!; [done..|].
    eapply sends_weaken; [by apply sends_nil|nia].
  - destruct (IH w1) as (w' & E & Hb' & Hs); [lia|]. exists w'. split_and!; [done..|].
    pose proof (sends_trans _ _ _ _ _ _ _ (sends_nil _ _ Hq) Hs) as Hs'.
    eapply sends_weaken; [exact Hs'|nia].
Qed.

(** The time one character takes. *)
Definition char_ticks : Z := (Z.of_nat polls + 2) * ticks.

Lemma putc_ok value w :
  is_u8 value -> exists w', vams_uart_putc (S polls) value w = Ok w' /\ sends char_ticks [value] w w'.
Proof.
  intros Hv. unfold vams_uart_putc.
  destruct (uart_wait_ok (S polls) w) as (w1 & -> & Hb & H1); [pose proof (uart_bounded w); lia|].
  eexists. split; [done|].
  apply (sends_weaken (Z.of_nat (S polls) * ticks + ticks)); [|unfold char_ticks; nia].
  apply (sends_trans _ _ [] [value] w w1); [done|].
  assert (Eu : u8 value = value) by (unfold u8; by apply Z.mod_small). rewrite Eu.
  unfold vams_mmio_write8, sends. rewrite store8_cmp, uart_sent by done.
  by pose proof (store8_elapsed value (VAMS_UART_BASE + VAMS_UART_THR) w1).
Qed.

Lemma puts_ok string w :
  Forall is_u8 string ->
  exists w', vams_uart_puts (S polls) string w = Ok w' /\
    sends (Z.of_nat (length (crlf string)) * char_ticks) (crlf string) w w'.
Proof.
  intros Hs. revert w. induction Hs as [|value rest Hv Hs IH]; intros w.
  { exists w. split; [done|]. apply sends_refl. }
  cbn [vams_uart_puts crlf].
  assert (Hcr : exists w1, (if value =? 10 then vams_uart_putc (S polls) 13 w else Ok w) = Ok w1 /\
    sends (if value =? 10 then char_ticks else 0) (if value =? 10 then [13] else []) w w1).
  { destruct (value =? 10); [by apply putc_ok|]. exists w. split; [done|]. apply sends_refl. }
  destruct Hcr as (w1 & -> & H1). simpl.
  destruct (putc_ok value w1 Hv) as (w2 & -> & H2). simpl.
  destruct (IH w2) as (w3 & -> & H3). exists w3. split; [done|].
  pose proof (sends_trans _ _ _ _ _ _ _ (sends_trans _ _ _ _ _ _ _ H1 H2) H3) as H.
  rewrite length_app. destruct (value =? 10); (eapply sends_weaken; [exact H|simpl length; lia]).
Qed.

(** ** Reading the timer *)

Lemma join_halves high low : 0 <= high < 2 ^ 31 -> is_u32 low ->
  Z.lor (u64 (Z.shiftl high 32)) low = high * 2 ^ 32 + low.
Proof.
  intros Hh Hl. assert (E : u64 (Z.shiftl high 32) = Z.shiftl high 32).
  { rewrite Z.shiftl_mul_pow2 by lia. unfold u64. apply Z.mod_small. lia. }
  assert (Hz : Z.land (Z.shiftl high 32) low = 0).
  { apply Z.bits_inj'. intros n Hn. rewrite Z.land_spec, Z.bits_0, Z.shiftl_spec by done.
    destruct (Z.lt_ge_cases n 32).
    - by rewrite Z.testbit_neg_r by lia.
    - rewrite (Z.bits_above_log2 low n), andb_false_r; [done|unfold is_u32 in *; lia|].
      destruct (Z.eq_dec low 0) as [->|]; [simpl; lia|].
      apply Z.log2_lt_pow2; [unfold is_u32 in *; lia|].
      pose proof (Z.pow_le_mono_r 2 32 n). unfold is_u32 in *. lia. }
  rewrite E, <-Z.lxor_lor, <-Z.add_nocarry_lxor by done. by rewrite Z.shiftl_mul_pow2.
Qed.

(** One round of the loop at the three times it reads the timer. *)
Lemma mtime_read_round fuel w :
  mtime w + 3 * ticks < 2 ^ 63 ->
  exists w1 w2 w3, quiet ticks w w1 /\ quiet ticks w1 w2 /\ quiet ticks w2 w3 /\
    mtime_read_loop (S fuel) w =
      if mtime w1 / 2 ^ 32 =? mtime w3 / 2 ^ 32 then Ok (mtime w2, w3) else mtime_read_loop fuel w3.
Proof.
  intros Hmax. cbn [mtime_read_loop]. unfold vams_mmio_read32.
  pose proof (mtime_high (W:=W) w) as E1. pose proof (load32_quiet (VAMS_ACLINT_MTIME + 4) w) as Q1.
  destruct (load32 (VAMS_ACLINT_MTIME + 4) w) as [high_before w1].
  pose proof (mtime_low (W:=W) w1) as E2. pose proof (load32_quiet VAMS_ACLINT_MTIME w1) as Q2.
  destruct (load32 VAMS_ACLINT_MTIME w1) as [low w2].
  pose proof (mtime_high (W:=W) w2) as E3. pose proof (load32_quiet (VAMS_ACLINT_MTIME + 4) w2) as Q3.
  destruct (load32 (VAMS_ACLINT_MTIME + 4) w2) as [high_after w3]. simpl in *.
  exists w1, w2, w3. split_and!; [done..|].
  assert (Hsmall : forall u, 0 <= mtime u < 2 ^ 63 -> (mtime u / 2 ^ 32) mod 2 ^ 32 = mtime u / 2 ^ 32).
  { intros u Hu. apply Z.mod_small. split; [apply Z.div_pos; lia|]. apply Z.div_lt_upper_bound; lia. }
  destruct Q1 as (T1 & _), Q2 as (T2 & _), Q3 as (T3 & _). unfold elapsed in *.
  pose proof (mtime_nonneg w). rewrite E1, E3, !Hsmall by lia.
  destruct (Z.eqb_spec (mtime w1 / 2 ^ 32) (mtime w3 / 2 ^ 32)) as [E|E]; cbn [negb]; [|done].
  assert (Eh : mtime w3 / 2 ^ 32 = mtime w2 / 2 ^ 32).
  { apply Z.le_antisymm; [rewrite <-E|]; apply Z.div_le_mono; lia. }
  rewrite E2, Eh, join_halves.
  - do 2 f_equal. pose proof (Z.div_mod (mtime w2) (2 ^ 32)). lia.
  - split; [apply Z.div_pos; lia|]. apply Z.div_lt_upper_bound; lia.
  - apply Z.mod_pos_bound. lia.
Qed.

(** The time a read returns, and when. *)
Record time_read (v : Z) (w w' : W) : Prop := {
  tr_after : mtime w <= v;
  tr_before : v <= mtime w' <= v + ticks;
  tr_soon : mtime w' <= mtime w + 6 * ticks;
  tr_cmp : mtimecmp w' = mtimecmp w;
  tr_out : uart_out w' = uart_out w;
}.

Lemma mtime_read_ok w :
  ticks <= 2 ^ 29 -> mtime w + 6 * ticks < 2 ^ 63 -> exists v w', vams_mtime_read w = Ok (v, w') /\ time_read v w w'.
Proof.
  intros Ht Hmax. unfold vams_mtime_read. pose proof (ticks_nonneg w).
  destruct (mtime_read_round 1 w) as (w1 & w2 & w3 & Q1 & Q2 & Q3 & E); [lia|]. rewrite E. clear E.
  destruct (Z.eqb_spec (mtime w1 / 2 ^ 32) (mtime w3 / 2 ^ 32)) as [_|Hne].
  { exists (mtime w2), w3. split; [done|]. destruct Q1 as (T1 & C1 & O1), Q2 as (T2 & C2 & O2),
      Q3 as (T3 & C3 & O3). unfold elapsed in *. split; [lia|lia|lia|congruence|congruence]. }
  destruct Q1 as (T1 & C1 & O1), Q2 as (T2 & C2 & O2), Q3 as (T3 & C3 & O3). unfold elapsed in *.
  destruct (mtime_read_round 0 w3) as (w4 & w5 & w6 & Q4 & Q5 & Q6 & E); [lia|]. rewrite E. clear E.
  destruct Q4 as (T4 & C4 & O4), Q5 as (T5 & C5 & O5), Q6 as (T6 & C6 & O6). unfold elapsed in *.
  assert (Ed : mtime w4 / 2 ^ 32 = mtime w6 / 2 ^ 32).
  { pose proof (Z.div_mod (mtime w1) (2 ^ 32)). pose proof (Z.mod_pos_bound (mtime w1) (2 ^ 32)).
    pose proof (Z.div_mod (mtime w3) (2 ^ 32)). pose proof (Z.mod_pos_bound (mtime w3) (2 ^ 32)).
    assert (Hlow : mtime w3 mod 2 ^ 32 < 2 * ticks) by nia.
    transitivity (mtime w3 / 2 ^ 32).
    - symmetry. apply Z.div_unique with (mtime w4 - mtime w3 / 2 ^ 32 * 2 ^ 32); lia.
    - apply Z.div_unique with (mtime w6 - mtime w3 / 2 ^ 32 * 2 ^ 32); lia. }
  rewrite Ed, Z.eqb_refl. exists (mtime w5), w6. split; [done|]. split; [lia|lia|lia|congruence|congruence].
Qed.

(** ** Arming the timer *)

Lemma has_bits_set x m : m <> 0 -> has_bits (Z.lor x m) m = true.
Proof.
  intros Hm. unfold has_bits. rewrite Z.land_comm, Z.lor_comm.
  assert (E : Z.land m (Z.lor m x) = m).
  { apply Z.bits_inj'. intros n _. rewrite Z.land_spec, Z.lor_spec. by destruct (Z.testbit m n). }
  rewrite E. by apply negb_true_iff, Z.eqb_neq.
Qed.

Lemma has_bits_cleared x m : has_bits (Z.land x (Z.lnot m)) m = false.
Proof.
  unfold has_bits. rewrite <-Z.land_assoc, (Z.land_comm (Z.lnot m)), Z.land_lnot_diag.
  by rewrite Z.land_0_r.
Qed.

(** The comparator is never below the top half of its range while it is
    being written, and holds the value at the end. *)
Lemma mtimecmp_write_ok value w :
  is_u64 value ->
  let w1 := vams_mmio_write32 (VAMS_ACLINT_MTIMECMP + 4) U32_MAX w in
  let w2 := vams_mmio_write32 VAMS_ACLINT_MTIMECMP (u32 value) w1 in
  let w3 := vams_mtimecmp_write value w in
  2 ^ 64 - 2 ^ 32 <= mtimecmp w1 /\ 2 ^ 64 - 2 ^ 32 <= mtimecmp w2 /\ mtimecmp w3 = value /\
  elapsed (3 * ticks) w w3 /\ uart_out w3 = uart_out w.
Proof.
  intros Hv w1 w2 w3.
  pose proof (u32_range value) as U1. pose proof (u32_range (Z.shiftr value 32)) as U2.
  assert (C1 : mtimecmp w1 = U32_MAX * 2 ^ 32 + mtimecmp w mod 2 ^ 32) by by apply cmp_high.
  pose proof (Z.mod_pos_bound (mtimecmp w) (2 ^ 32) ltac:(lia)) as M1.
  assert (C2 : mtimecmp w2 = U32_MAX * 2 ^ 32 + u32 value).
  { unfold w2, vams_mmio_write32. rewrite cmp_low by done. rewrite C1.
    rewrite Z.div_add_l, (Z.div_small (mtimecmp w mod 2 ^ 32)) by lia. lia. }
  assert (C3 : mtimecmp w3 = value).
  { unfold w3, vams_mtimecmp_write. fold w1 w2. unfold vams_mmio_write32. rewrite cmp_high by done.
    rewrite C2, (Z.add_comm (_ * _) (u32 value)), Z.mod_add by lia.
    unfold u32. rewrite Z.shiftr_div_pow2 by lia. change 4294967296 with (2 ^ 32).
    rewrite Z.mod_mod by lia. rewrite (Z.mod_small (value / 2 ^ 32)).
    - pose proof (Z.div_mod value (2 ^ 32)). lia.
    - unfold is_u64 in Hv. split; [apply Z.div_pos; lia|]. apply Z.div_lt_upper_bound; lia. }
  rewrite C1, C2, C3. unfold is_u32, U32_MAX in *. split_and!; try lia.
  - assert (T1 : elapsed ticks w w1) by apply store32_elapsed.
    assert (T2 : elapsed ticks w1 w2) by apply store32_elapsed.
    assert (T3 : elapsed ticks w2 w3) by apply store32_elapsed. unfold elapsed in *. lia.
  - unfold w3, vams_mtimecmp_write, vams_mmio_write32. by rewrite !store32_out.
Qed.

(** ** The interrupt *)

Lemma interrupt_early c :
  mtime (c_world c) < mtimecmp (c_world c) -> interrupt trap_address c = Ok c.
Proof.
  intros Hc. unfold interrupt. rewrite pending_spec, (proj2 (Z.leb_gt _ _) Hc). by rewrite andb_false_r.
Qed.

Lemma interrupt_taken c :
  mtimecmp (c_world c) <= mtime (c_world c) -> c_mtvec c = trap_address ->
  has_bits (c_mstatus c) VAMS_MSTATUS_MIE = true -> has_bits (c_mie c) VAMS_MIE_MTIE = true ->
  exists w', interrupt trap_address c = Ok (set_world w' (set_timer_fired 1 c)) /\
    mtime (c_world c) <= mtime w' /\ mtimecmp w' = U64_MAX /\ uart_out w' = uart_out (c_world c).
Proof.
  intros Hc Hv Hs Hi. unfold interrupt.
  rewrite pending_spec, (proj2 (Z.leb_le _ _) Hc), Hs, Hi, Hv, Z.eqb_refl. simpl.
  eexists. split; [done|]. set (w := c_world c). unfold vams_mmio_write32.
  pose proof (store32_elapsed U32_MAX VAMS_ACLINT_MTIMECMP w) as T1.
  set (w1 := store32 U32_MAX VAMS_ACLINT_MTIMECMP w) in *.
  pose proof (store32_elapsed U32_MAX (VAMS_ACLINT_MTIMECMP + 4) w1) as T2. unfold elapsed in *.
  split; [lia|]. split; [|by unfold w1; rewrite !store32_out].
  rewrite cmp_high by done. unfold w1. rewrite cmp_low by done.
  rewrite Z.add_comm, (Z.add_comm _ U32_MAX), Z.mod_add by lia. done.
Qed.

(** The waiting loop before the interrupt, armed for [deadline]: and the state
    it leaves behind. *)
Record waiting (deadline : Z) (c : cpu W) : Prop := {
  wt_cmp : mtimecmp (c_world c) = deadline;
  wt_mtvec : c_mtvec c = trap_address;
  wt_fired : c_timer_fired c = 0;
  wt_mstatus : has_bits (c_mstatus c) VAMS_MSTATUS_MIE = true;
  wt_mie : has_bits (c_mie c) VAMS_MIE_MTIE = true;
}.
Record fired (deadline : Z) (c c' : cpu W) : Prop := {
  fi_state : c' = set_world (c_world c') (set_timer_fired 1 c);
  fi_time : deadline <= mtime (c_world c');
  fi_cmp : mtimecmp (c_world c') = U64_MAX;
  fi_out : uart_out (c_world c') = uart_out (c_world c);
}.

Lemma waiting_world deadline w c :
  waiting deadline c -> mtimecmp w = mtimecmp (c_world c) -> waiting deadline (set_world w c).
Proof. intros [H1 H2 H3 H4 H5] Hw. split; simpl; congruence. Qed.

Lemma fired_world deadline w c c' :
  uart_out w = uart_out (c_world c) -> fired deadline (set_world w c) c' -> fired deadline c c'.
Proof. intros Hw [H1 H2 H3 H4]. split; [exact H1|done|done|]. simpl in H4. congruence. Qed.

(** An instruction boundary either passes or fires. *)
Lemma interrupt_cases deadline c :
  waiting deadline c ->
  interrupt trap_address c = Ok c \/
  exists c', interrupt trap_address c = Ok c' /\ fired deadline c c'.
Proof.
  intros [Hc Hv Hf Hs Hi]. destruct (Z.lt_ge_cases (mtime (c_world c)) deadline) as [Hlt|Hge].
  - left. apply interrupt_early. lia.
  - right. destruct (interrupt_taken c) as (w' & E & Ht & Hm & Ho); [lia|done..|].
    eexists. split; [exact E|]. split; simpl; [done|lia|done|done].
Qed.

Lemma interrupt_fired deadline c c' :
  waiting deadline c -> fired deadline c c' ->
  exists c'', interrupt trap_address c' = Ok c'' /\ fired deadline c c''.
Proof.
  intros [Hc Hv Hf Hs Hi] [H1 H2 H3 H4].
  destruct (Z.lt_ge_cases (mtime (c_world c')) (mtimecmp (c_world c'))) as [Hlt|Hge].
  - exists c'. by split; [apply interrupt_early|split].
  - destruct (interrupt_taken c') as (w' & E & Ht & Hm & Ho);
      [done|by rewrite H1..|].
    eexists. split; [exact E|]. split; simpl; [by rewrite H1|lia|done|congruence].
Qed.

(** The loop ends when the interrupt has fired... *)
Lemma timer_wait_after deadline fuel c c' c'' :
  waiting deadline c -> fired deadline c c' ->
  timer_wait trap_address fuel c' = Ok c'' -> fired deadline c c''.
Proof.
  intros Hc Hf. destruct fuel as [|fuel]; cbn [timer_wait]; [done|].
  destruct (interrupt_fired deadline c c' Hc Hf) as (c1 & E & Hf1). rewrite E. cbn [mbind result_bind].
  assert (c_timer_fired c1 = 1) as -> by by rewrite (fi_state _ _ _ Hf1).
  cbn. by intros [= <-].
Qed.

(** ... and never before. *)
Lemma timer_wait_fired deadline fuel c c' :
  waiting deadline c -> timer_wait trap_address fuel c = Ok c' -> fired deadline c c'.
Proof.
  revert c. induction fuel as [|fuel IH]; intros c Hc E; [done|].
  cbn [timer_wait] in E.
  destruct (interrupt_cases deadline c Hc) as [Ei|(c1 & Ei & Hf)]; rewrite Ei in E;
    cbn [mbind result_bind] in E.
  2:{ rewrite (fi_state _ _ _ Hf) in E. cbn in E. injection E as <-.
      by rewrite (fi_state _ _ _ Hf) in Hf. }
  rewrite (wt_fired _ _ Hc) in E. cbn [Z.eqb negb] in E.
  pose proof (execute_quiet (c_world c)) as (_ & Ce & Oe).
  pose proof (waiting_world deadline _ c Hc Ce) as Hc1.
  destruct (interrupt_cases deadline _ Hc1) as [Ei1|(c1 & Ei1 & Hf)]; rewrite Ei1 in E;
    cbn [mbind result_bind] in E.
  - destruct (wfi _) as [w|] eqn:Ew; [|done]. apply wfi_frame in Ew as (Hw & Cw & Ow).
    cbn [c_world set_world] in Hw, Cw, Ow.
    apply (fired_world deadline w); [congruence|].
    apply IH; [|exact E]. apply waiting_world; [done|congruence].
  - destruct (wfi _) as [w|] eqn:Ew; [|done]. apply wfi_frame in Ew as (Hw & Cw & Ow).
    apply (fired_world deadline (execute (c_world c))); [done|].
    eapply timer_wait_after; [exact Hc1| |exact E]. destruct Hf as [H1 H2 H3 H4].
    simpl in H4. split; simpl; [by rewrite H1|lia|congruence|congruence].
Qed.

(** It does end when no early return of [wfi] lets the deadline fall between
    the test and the next [wfi]. *)
Lemma timer_wait_ends deadline fuel c :
  (forall w w', wfi w = Some w' -> mtimecmp w <= mtime w' \/ mtime w' + ticks < mtimecmp w) ->
  waiting deadline c -> deadline < 2 ^ 63 ->
  (S (early_wakes (c_world c)) < fuel)%nat -> mtime (c_world c) + ticks < deadline ->
  exists c', timer_wait trap_address fuel c = Ok c'.
Proof.
  intros Hearly. revert c. induction fuel as [|fuel IH]; intros c Hc Hd Hf Ht; [lia|].
  cbn [timer_wait]. pose proof (execute_quiet (c_world c)) as (Te & Ce & _). unfold elapsed in Te.
  pose proof (wt_cmp _ _ Hc) as Hcmp. pose proof (execute_wakes (c_world c)) as Hew.
  rewrite interrupt_early by lia. cbn [mbind result_bind]. rewrite (wt_fired _ _ Hc).
  cbn [Z.eqb negb]. rewrite interrupt_early by (simpl; lia). cbn [mbind result_bind c_world set_world].
  destruct (wfi_wakes (execute (c_world c))) as (w & Ew & Hw); [lia|]. rewrite Ew.
  pose proof (wfi_frame _ _ Ew) as (_ & Cw & _). specialize (Hearly _ _ Ew).
  assert (Hc1 : waiting deadline (set_world w c)) by (apply waiting_world; [done|congruence]).
  change (set_world w (set_world _ c)) with (set_world w c).
  destruct (Z.le_gt_cases deadline (mtime w)) as [Hge|Hlt].
  - destruct fuel as [|fuel]; [lia|]. cbn [timer_wait].
    destruct (interrupt_taken (set_world w c)) as (w' & E & _);
      [simpl; congruence || lia|apply Hc1..|]. rewrite E. by eexists.
  - apply IH; [done|done| |simpl; lia]. simpl. lia.
Qed.

Lemma timer_test_starts c :
  ticks <= 1000 -> mtime (c_world c) + 6 * ticks < 2 ^ 62 ->
  exists c1 deadline,
    waiting deadline c1 /\ mtime (c_world c1) + ticks < deadline /\ deadline < 2 ^ 63 /\
    mtime (c_world c) + 10000 <= deadline /\
    uart_out (c_world c1) = uart_out (c_world c) /\
    c1 = set_world (c_world c1) (Build_cpu (c_world c) trap_address (Z.lor (c_mie c) VAMS_MIE_MTIE)
           (Z.lor (c_mstatus c) VAMS_MSTATUS_MIE) 0) /\
    forall fuel, vams_timer_interrupt_test fuel trap_address c =
      (c' ← timer_wait trap_address fuel c1;
       Ok (set_mie (Z.land (c_mie c') (Z.lnot VAMS_MIE_MTIE)) c')).
Proof.
  intros Ht Hmax. unfold vams_timer_interrupt_test. pose proof (ticks_nonneg (c_world c)).
  destruct (mtime_read_ok (c_world c)) as (v & w1 & E & [Hv1 Hv2 Hv3 _ Ho1]); [lia..|].
  pose proof (mtime_nonneg (c_world c)).
  assert (Ev : u64 (v + 10000) = v + 10000 /\ is_u64 (v + 10000) /\ v + 10000 < 2 ^ 63).
  { unfold u64, is_u64. rewrite Z.mod_small by lia. lia. }
  destruct Ev as (Ev & Hu & Hs).
  destruct (mtimecmp_write_ok (v + 10000) w1 Hu) as (_ & _ & Hc & He & Ho). unfold elapsed in He.
  exists (Build_cpu (vams_mtimecmp_write (v + 10000) w1) trap_address
            (Z.lor (c_mie c) VAMS_MIE_MTIE) (Z.lor (c_mstatus c) VAMS_MSTATUS_MIE) 0), (v + 10000).
  split; [split; try done; by apply has_bits_set|]. simpl.
  split_and!; [lia|lia|lia|congruence|done|]. intros fuel. rewrite E. cbn [mbind result_bind].
  by rewrite Ev.
Qed.

(** What the timer test leaves when it ends. *)
Definition timer_tested (c c' : cpu W) : Prop :=
  c_timer_fired c' = 1 /\ mtime (c_world c) + 10000 <= mtime (c_world c') /\
  mtimecmp (c_world c') = U64_MAX /\ has_bits (c_mie c') VAMS_MIE_MTIE = false /\
  uart_out (c_world c') = uart_out (c_world c).

Lemma timer_test_done fuel c c' :
  ticks <= 1000 -> mtime (c_world c) + 6 * ticks < 2 ^ 62 ->
  vams_timer_interrupt_test fuel trap_address c = Ok c' -> timer_tested c c'.
Proof.
  intros Ht Hmax. destruct (timer_test_starts c Ht Hmax)
    as (c1 & deadline & Hc1 & _ & _ & Hd & Ho & _ & E). rewrite E. intros E'.
  apply result_bind_ok in E' as (c2 & E2 & [= <-]).
  destruct (timer_wait_fired deadline fuel c1 c2 Hc1 E2) as [H1 H2 H3 H4].
  unfold timer_tested. cbn [c_world c_mie c_timer_fired set_mie].
  split; [by rewrite H1|]. split; [lia|]. split; [done|].
  split; [apply has_bits_cleared|congruence].
Qed.

Lemma timer_test_ends c :
  (forall w w', wfi w = Some w' -> mtimecmp w <= mtime w' \/ mtime w' + ticks < mtimecmp w) ->
  ticks <= 1000 -> mtime (c_world c) + 6 * ticks < 2 ^ 62 ->
  exists c', vams_timer_interrupt_test (S (S wakes)) trap_address c = Ok c'.
Proof.
  intros Hearly Ht Hmax. destruct (timer_test_starts c Ht Hmax)
    as (c1 & deadline & Hc1 & Hm & Hd & _ & _ & _ & E). rewrite E.
  destruct (timer_wait_ends deadline (S (S wakes)) c1) as (c' & ->); [done..| |done|by eexists].
  pose proof (wakes_bounded (c_world c1)). lia.
Qed.

(** ** Start to end *)

(** The linker put the image where the platform has its SRAM. *)
Definition linked : bool :=
  (sram_start =? VAMS_SRAM_BASE) && (u32 (sram_end - sram_start) =? VAMS_SRAM_SIZE).

Lemma sram_test_ok w :
  exists w', vams_sram_test sram_start sram_end w = (linked, w') /\ sends (3 * ticks) [] w w'.
Proof.
  unfold vams_sram_test. rewrite <-negb_andb. fold linked. pose proof (ticks_nonneg w).
  destruct linked; cbn [negb].
  2:{ exists w. split; [done|]. eapply sends_weaken; [apply sends_refl|lia]. }
  pose proof (sram_works (W:=W) 0xa5c35a3c w) as Hw.
  pose proof (sends_nil _ _ (sram_store_quiet 0xa5c35a3c w)) as H1.
  set (w1 := sram_store 0xa5c35a3c w) in *.
  pose proof (sends_nil _ _ (sram_load_quiet w1)) as H2.
  destruct (sram_load w1) as [probe w2]. simpl in Hw, H2. rewrite Hw, Z.eqb_refl. cbn [negb].
  pose proof (sends_nil _ _ (sram_store_quiet 0 w2)) as H3.
  eexists. split; [done|].
  pose proof (sends_trans _ _ _ _ _ _ _ (sends_trans _ _ _ _ _ _ _ H1 H2) H3) as H4.
  eapply sends_weaken; [exact H4|lia].
Qed.

Lemma crlf_app l1 l2 : crlf (l1 ++ l2) = crlf l1 ++ crlf l2.
Proof. induction l1 as [|x l1 IH]; [done|]. simpl. by rewrite IH, app_assoc. Qed.

Lemma line_bytes s : Forall is_u8 (line s).
Proof.
  unfold line, text. apply Forall_app. split; [|by repeat constructor].
  apply Forall_fmap, Forall_true. intros a. unfold is_u8. simpl.
  pose proof (N_ascii_bounded a). lia.
Qed.

Definition banner : list Z :=
  line "Virtual Accelerator Management SoC firmware booting" ++ line "CPU: RV32".

Lemma puts_line s w :
  exists w', vams_uart_puts (S polls) (line s) w = Ok w' /\
    sends (Z.of_nat (length (crlf (line s))) * char_ticks) (crlf (line s)) w w'.
Proof. apply puts_ok, line_bytes. Qed.

(** Up to the SRAM test, and the line that reports it. *)
Lemma bring_up_front c :
  ticks <= 1000 -> mtime (c_world c) + 100 * char_ticks < 2 ^ 62 ->
  exists w3,
    (if linked then
       exists w4, vams_uart_puts (S polls) (line "SRAM: detected") w3 = Ok w4 /\
         mtime (c_world c) <= mtime w4 /\ mtime w4 + 6 * ticks < 2 ^ 62 /\
         uart_out w4 = uart_out (c_world c) ++ crlf banner ++ crlf (line "SRAM: detected")
     else
       exists w4, vams_uart_puts (S polls) (line "SRAM: error") w3 = Ok w4 /\
         uart_out w4 = uart_out (c_world c) ++ crlf (banner ++ line "SRAM: error")) /\
    forall fuel, vams_main (S polls) fuel trap_address sram_start sram_end c =
      if linked then
        w ← vams_uart_puts (S polls) (line "SRAM: detected") w3;
        c ← vams_timer_interrupt_test fuel trap_address (set_world w c);
        w ← vams_uart_puts (S polls) (line "UART: ready") (c_world c);
        Ok (halt_ready, set_world w c)
      else
        w ← vams_uart_puts (S polls) (line "SRAM: error") w3;
        Ok (halt_sram_error, set_world w c).
Proof.
  intros Ht Hm. pose proof (ticks_nonneg (c_world c)) as Hn.
  destruct (puts_line "Virtual Accelerator Management SoC firmware booting" (c_world c))
    as (w1 & E1 & S1).
  destruct (puts_line "CPU: RV32" w1) as (w2 & E2 & S2). destruct (sram_test_ok w2) as (w3 & E3 & S3).
  pose proof (sends_trans _ _ _ _ _ _ _ (sends_trans _ _ _ _ _ _ _ S1 S2) S3) as S123.
  rewrite app_nil_r in S123. exists w3. split.
  - destruct linked.
    + destruct (puts_line "SRAM: detected" w3) as (w4 & E4 & S4). exists w4. split; [done|].
      pose proof (sends_trans _ _ _ _ _ _ _ S123 S4) as (T4 & _ & O4). unfold elapsed in T4.
      assert (Hc : 2 * ticks <= char_ticks) by (unfold char_ticks; nia).
      change (length (crlf (line "Virtual Accelerator Management SoC firmware booting"))) with 53%nat in T4.
      change (length (crlf (line "CPU: RV32"))) with 11%nat in T4.
      change (length (crlf (line "SRAM: detected"))) with 16%nat in T4.
      split_and!; [lia|lia|]. rewrite O4. unfold banner. by rewrite !crlf_app.
    + destruct (puts_line "SRAM: error" w3) as (w4 & E4 & S4). exists w4. split; [done|].
      pose proof (sends_trans _ _ _ _ _ _ _ S123 S4) as (_ & _ & O4).
      rewrite O4. unfold banner. by rewrite !crlf_app.
  - intros fuel. unfold vams_main. rewrite E1. cbn [mbind result_bind]. rewrite E2.
    cbn [mbind result_bind]. rewrite E3. by destruct linked.
Qed.
End Proofs.

(** ** Intermediate states

    The same hardware with every value the comparator takes after a 32-bit
    store written down. *)
Section Trace.
Context {W : Type} `{!Soc W, !SocView W}.

Definition traced : Soc (list Z * W) := {|
  load8 a tw := let '(x, w) := load8 a tw.2 in (x, (tw.1, w));
  store8 v a tw := (tw.1, store8 v a tw.2);
  load32 a tw := let '(x, w) := load32 a tw.2 in (x, (tw.1, w));
  store32 v a tw := let w := store32 v a tw.2 in (tw.1 ++ [mtimecmp w], w);
  execute tw := (tw.1, execute tw.2);
  wfi tw := (fun w => (tw.1, w)) <$> wfi tw.2;
  timer_pending tw := timer_pending tw.2;
  sram_load tw := let '(x, w) := sram_load tw.2 in (x, (tw.1, w));
  sram_store v tw := (tw.1, sram_store v tw.2);
|}.

(** The values of the comparator during a write of it. *)
Definition mtimecmp_values (value : Z) (w : W) : list Z :=
  (vams_mtimecmp_write (Soc0 := traced) value ([], w)).1.
End Trace.

Section Properties.
Context {W : Type} `{!Soc W, !SocView W} (ticks : Z) (polls wakes : nat) `{!SocLaws W ticks polls wakes}.
Context (trap_address sram_start sram_end : Z).
Implicit Types (w : W) (c : cpu W).

(** C37: the timer is read and armed atomically although its registers are 64 bits
    wide and the accesses 32.  A read returns, after at most two rounds, a time
    between its start and its end.  A write leaves the comparator at its value,
    and every value the comparator has after one of the stores in between lies
    in the last 2^32 ticks of its range, so that no interrupt becomes pending
    that was not asked for. *)
Theorem timer_access_is_atomic w value :
  ticks <= 2 ^ 29 -> mtime w + 6 * ticks < 2 ^ 63 -> is_u64 value ->
  (exists v w', vams_mtime_read w = Ok (v, w') /\ mtime w <= v <= mtime w') /\
  mtimecmp (vams_mtimecmp_write value w) = value /\
  exists between, mtimecmp_values value w = between ++ [value] /\
    Forall (fun x => 2 ^ 64 - 2 ^ 32 <= x) between.
Proof.
  intros Ht Hm Hv. split.
  - destruct (mtime_read_ok ticks polls wakes w Ht Hm) as (v & w' & E & [H1 H2 _ _ _]).
    exists v, w'. split; [done|lia].
  - destruct (mtimecmp_write_ok ticks polls wakes value w Hv) as (H1 & H2 & H3 & _).
    split; [done|]. eexists [_; _].
    split; [rewrite <-H3 at 2; reflexivity|].
    constructor; [exact H1|]. constructor; [exact H2|constructor].
Qed.

(** C38: the bring-up program.  On hardware where an access takes at most 1000
    ticks it prints its banner and the result of the SRAM test.  Linked for
    another memory it reports the error and stops with interrupts as they were.
    Otherwise it does not go on to its last line before it has taken the timer
    interrupt: when it ends, whatever the early returns of [wfi], it has
    printed its four lines, the interrupt has been taken, at least 10000 ticks
    have passed since the start, the timer is disarmed and its interrupt
    disabled.  And it does end, if no early return of [wfi] comes so shortly
    before the deadline (one instruction time) that the interrupt falls
    between the test of the flag and the next [wfi]. *)
Theorem bring_up_completes c
    (Hticks : ticks <= 1000) (Hmax : mtime (c_world c) + 100 * char_ticks ticks polls < 2 ^ 62) :
  (forall fuel h c', vams_main (S polls) fuel trap_address sram_start sram_end c = Ok (h, c') ->
     if (sram_start =? 0x80000000) && (u32 (sram_end - sram_start) =? 0x80000) then
       h = halt_ready /\
       uart_out (c_world c') = uart_out (c_world c) ++
         crlf (banner ++ line "SRAM: detected" ++ line "UART: ready") /\
       c_timer_fired c' = 1 /\ mtime (c_world c) + 10000 <= mtime (c_world c') /\
       mtimecmp (c_world c') = U64_MAX /\ has_bits (c_mie c') VAMS_MIE_MTIE = false
     else
       h = halt_sram_error /\
       uart_out (c_world c') = uart_out (c_world c) ++ crlf (banner ++ line "SRAM: error") /\
       c_mie c' = c_mie c /\ c_mstatus c' = c_mstatus c) /\
  ((forall w w', wfi w = Some w' -> mtimecmp w <= mtime w' \/ mtime w' + ticks < mtimecmp w) ->
   exists h c', vams_main (S polls) (S (S wakes)) trap_address sram_start sram_end c = Ok (h, c')).
Proof.
  change ((sram_start =? 0x80000000) && (u32 (sram_end - sram_start) =? 0x80000))
    with (linked sram_start sram_end).
  destruct (bring_up_front ticks polls wakes trap_address sram_start sram_end c Hticks Hmax)
    as (w3 & O3 & Hfront). split.
  - intros fuel h c'. rewrite Hfront. destruct (linked sram_start sram_end).
    + destruct O3 as (w4 & E4 & T4 & M4 & O4). rewrite E4. cbn [mbind result_bind].
      intros E. apply result_bind_ok in E as (c5 & E5 & E).
      apply (timer_test_done ticks polls wakes) in E5 as (F5 & T5 & C5 & I5 & O5); [|done|exact M4].
      destruct (puts_line ticks polls wakes "UART: ready" (c_world c5)) as (w6 & E6 & S6).
      rewrite E6 in E. injection E as <- <-. destruct S6 as ([T6 _] & C6 & O6).
      cbn [c_world set_world c_timer_fired c_mie] in *. rewrite !crlf_app, O6, O5, O4, <-!app_assoc.
      split_and!; [done|done|done|lia|congruence|done].
    + destruct O3 as (w4 & E4 & O4). rewrite E4. intros [= <- <-]. by split_and!.
  - intros Hearly. rewrite Hfront. destruct (linked sram_start sram_end).
    + destruct O3 as (w4 & E4 & T4 & M4 & O4). rewrite E4. cbn [mbind result_bind].
      destruct (timer_test_ends ticks polls wakes trap_address (set_world w4 c)) as (c5 & ->);
        [exact Hearly|exact Hticks|exact M4|].
      cbn [mbind result_bind].
      destruct (puts_line ticks polls wakes "UART: ready" (c_world c5)) as (w6 & E6 & _).
      rewrite E6. by eexists _, _.
    + destruct O3 as (w4 & E4 & O4). rewrite E4. by eexists _, _.
Qed.
End Properties.


(** ** A board *)

Record board : Type := {
  b_time : Z;
  b_cmp : Z;
  b_out : list Z;
  b_busy : nat;
  b_probe : Z;
  b_wakes : nat;   (* early returns of wfi to come *)
}.

Definition tick (n : Z) (b : board) : board :=
  Build_board (b_time b + n) (b_cmp b) (b_out b) (b_busy b) (b_probe b) (b_wakes b).
Definition set_cmp (x : Z) (b : board) : board :=
  Build_board (b_time b) x (b_out b) (b_busy b) (b_probe b) (b_wakes b).

#[local] Instance board_view : SocView board := {
  mtime b := Z.max 0 (b_time b);
  mtimecmp b := u64 (b_cmp b);
  uart_out := b_out;
  uart_busy b := Nat.min (b_busy b) 1;
  early_wakes b := Nat.min (b_wakes b) 1;
}.

(** Accesses take one tick, other instructions [slow] ticks. *)
Definition board_soc (slow : Z) : Soc board := {|
  load8 a b :=
    if a =? VAMS_UART_BASE + VAMS_UART_LSR then
      (if bool_decide (uart_busy b = 0%nat) then VAMS_UART_LSR_THRE else 0,
       tick 1 (Build_board (b_time b) (b_cmp b) (b_out b) (pred (uart_busy b)) (b_probe b)
                 (b_wakes b)))
    else (0, tick 1 b);
  store8 v a b :=
    if a =? VAMS_UART_BASE + VAMS_UART_THR then
      tick 1 (Build_board (b_time b) (b_cmp b) (b_out b ++ [v]) 1 (b_probe b) (b_wakes b))
    else tick 1 b;
  load32 a b :=
    let b' := tick 1 b in
    (if a =? VAMS_ACLINT_MTIME then mtime b' mod 2 ^ 32
     else if a =? VAMS_ACLINT_MTIME + 4 then (mtime b' / 2 ^ 32) mod 2 ^ 32 else 0, b');
  store32 v a b :=
    tick 1 (if a =? VAMS_ACLINT_MTIMECMP then set_cmp (mtimecmp b / 2 ^ 32 * 2 ^ 32 + v) b
            else if a =? VAMS_ACLINT_MTIMECMP + 4 then set_cmp (v * 2 ^ 32 + mtimecmp b mod 2 ^ 32) b
            else b);
  execute := tick slow;
  wfi b :=
    if mtimecmp b <? 2 ^ 63 then
      if (0 <? b_wakes b)%nat && (mtime b + slow <? mtimecmp b) then
        Some (Build_board (b_time b) (b_cmp b) (b_out b) (b_busy b) (b_probe b)
                (pred (early_wakes b)))
      else Some (Build_board (Z.max (b_time b) (mtimecmp b)) (b_cmp b) (b_out b) (b_busy b)
                   (b_probe b) 0)
    else None;
  timer_pending b := mtimecmp b <=? mtime b;
  sram_load b := (b_probe b, b);
  sram_store v b := Build_board (b_time b) (b_cmp b) (b_out b) (b_busy b) v (b_wakes b);
|}.

Lemma tick_elapsed n m b : 0 <= n <= m -> elapsed m b (tick n b).
Proof. unfold elapsed. simpl. lia. Qed.

Lemma halves_u64 high low : is_u32 high -> is_u32 low -> u64 (high * 2 ^ 32 + low) = high * 2 ^ 32 + low.
Proof. unfold is_u32, u64. intros. apply Z.mod_small. lia. Qed.

Lemma board_laws slow : 1 <= slow -> @SocLaws board (board_soc slow) _ slow 1 1.
Proof.
  intros Hslow.
  assert (Hq : forall n b, 0 <= n <= slow -> quiet slow b (tick n b))
    by (intros n b Hn; split; [by apply tick_elapsed|done]).
  assert (Hcmp : forall b, is_u32 (mtimecmp b / 2 ^ 32) /\ is_u32 (mtimecmp b mod 2 ^ 32)).
  { intros b. pose proof (u64_range (b_cmp b)) as H. unfold is_u64, is_u32 in *. simpl.
    split; [split; [apply Z.div_pos; lia|apply Z.div_lt_upper_bound; lia]|]. apply Z.mod_pos_bound. lia. }
  split; try done.
  - intros b. simpl. lia.
  - intros b. apply u64_range.
  - intros a b. simpl. destruct (a =? _); [|apply Hq; lia]. split; [|done]. unfold elapsed. simpl. lia.
  - intros a b. apply (Hq 1). lia.
  - intros b. apply (Hq slow). lia.
  - intros b. unfold quiet, elapsed. simpl. split; [lia|done].
  - intros v b. unfold quiet, elapsed. simpl. split; [lia|done].
  - intros v a b. unfold elapsed. simpl. destruct (a =? _); [simpl; lia|]. destruct (a =? _); simpl; lia.
  - intros v a b. simpl. destruct (a =? _); [done|]. by destruct (a =? _).
  - intros v b Hv. apply halves_u64; [apply Hcmp|done].
  - intros v b Hv. apply halves_u64; [done|apply Hcmp].
  - intros b. simpl. by case_bool_decide.
  - intros b. simpl. lia.
  - intros b. simpl. lia.
  - intros v a b. unfold elapsed. simpl. destruct (a =? _); simpl; lia.
  - intros v a b. simpl. by destruct (a =? _).
  - intros b b'. simpl. destruct (u64 (b_cmp b) <? 2 ^ 63); [|done].
    destruct (_ && _); intros [= <-]; simpl; split_and!; (done || lia).
  - intros b Hb. simpl in *. rewrite (proj2 (Z.ltb_lt _ _) Hb).
    destruct (Nat.ltb_spec 0 (b_wakes b)); cbn [andb]; [|eexists; split; [done|left; simpl; lia]].
    destruct (_ <? _); (eexists; split; [done|]); simpl; [right; lia|left; lia].
  - intros b. simpl. lia.
Qed.

(** Early returns of this board keep clear of the deadline. *)
Lemma board_wakes slow b b' : 0 <= slow ->
  @wfi board (board_soc slow) b = Some b' ->
  mtimecmp b <= mtime b' \/ mtime b' + slow < mtimecmp b.
Proof.
  intros Hslow. simpl. destruct (u64 (b_cmp b) <? 2 ^ 63); [|done].
  destruct ((0 <? b_wakes b)%nat && _) eqn:E; intros [= <-]; simpl in *; [|left; lia].
  apply andb_true_iff in E as [_ E]. right. lia.
Qed.

#[local] Instance fast_board : Soc board := board_soc 1.

Definition reset_cpu : cpu board :=
  Build_cpu (Build_board 0 0 [] 0 0 1) 0 0 0 0.

Lemma timer_access_is_atomic_witness :
  (exists v w', vams_mtime_read (Build_board 4294967294 0 [] 0 0 0) = Ok (v, w') /\ 4294967294 <= v) /\
  mtimecmp (vams_mtimecmp_write 77 (Build_board 4294967294 0 [] 0 0 0)) = 77.
Proof.
  destruct (timer_access_is_atomic 1 1 1 (SocLaws0:=board_laws 1 ltac:(lia)) (Build_board 4294967294 0 [] 0 0 0) 77)
    as ((v & w' & E & H) & Hc & _); [lia|simpl; lia|by split|].
  split; [exists v, w'; split; [exact E|simpl in H; lia]|exact Hc].
Defined.

Lemma bring_up_completes_witness :
  exists c', vams_main 2 3 0x80000100 0x80000000 0x80080000 reset_cpu = Ok (halt_ready, c') /\
    c_timer_fired c' = 1 /\ 10000 <= mtime (c_world c').
Proof.
  destruct (bring_up_completes 1 1 1 (SocLaws0:=board_laws 1 ltac:(lia)) 0x80000100 0x80000000 0x80080000 reset_cpu)
    as [Hdone Hends]; [lia|by vm_compute|].
  destruct Hends as (h & c' & E).
  - intros b b'. by apply (board_wakes 1).
  - destruct (Hdone 3%nat h c' E) as (Hh & _ & Hf & Ht & _).
    exists c'. split; [rewrite <-Hh; exact E|]. simpl in Ht. by split.
Defined.

(** ** The lost wake-up

    The waiting loop tests [vams_timer_fired] and then sleeps, with interrupts
    enabled in between.  If the processor is held up there until the deadline
    has passed, the interrupt is taken before the [wfi], disarms the timer, and
    nothing ends the sleep. *)

(** In the loop, a few ticks after arming the timer. *)
Definition armed_cpu : cpu board :=
  Build_cpu (Build_board 6 10001 [] 0 0 0) 0x80000100 VAMS_MIE_MTIE VAMS_MSTATUS_MIE 0.

Theorem timer_wait_can_hang :
  let soc := board_soc 20000 in
  @SocLaws board soc _ 20000 1 1 /\
  (exists c, @interrupt board soc 0x80000100 (set_world (@execute board soc (c_world armed_cpu)) armed_cpu) = Ok c /\
     c_timer_fired c = 1 /\ @wfi board soc (c_world c) = None) /\
  forall fuel, @timer_wait board soc 0x80000100 fuel armed_cpu = Fault.
Proof.
  intros soc. split; [apply board_laws; lia|]. split.
  - exists (Build_cpu (Build_board 20008 U64_MAX [] 0 0 0) 0x80000100 VAMS_MIE_MTIE VAMS_MSTATUS_MIE 1).
    split; [vm_compute; reflexivity|]. split; vm_compute; reflexivity.
  - intros [|fuel]; vm_compute; reflexivity.
Qed.
