(* ===== verification/Linux.v ===== *)
(** * Interfaces of the Linux kernel under the PCI driver

    The driver calls MMIO accessors, coherent DMA memory, the allocator, user
    copies, page pinning and the scatter-gather DMA API.  These enter the model
    as the operations of a class over the world [W]; any of them may fail or let
    the device evolve.  XArrays and reference counts are data the driver shares
    between its objects and are modelled as the maps and counters they are.

    The second half is what the driver proofs share: sums over finite maps and
    the reference-counting discipline [counted]. *)

From stdpp Require Import sorting.
From S2P Require Import Prelude Abi.

(** ** The world of the driver *)

Class Kernel (W : Type) := {
  ioread32 : Z -> W -> Z * W;                    (* offset in BAR0 *)
  iowrite32 : Z -> Z -> W -> W;                  (* value, then offset *)
  cq_entry : Z -> W -> vams_completion;          (* coherent memory the device writes *)
  sq_entry : Z -> W -> vams_submission;          (* coherent memory the device reads *)
  sq_store : Z -> vams_submission -> W -> W;
  alloc_ok : W -> bool * W;                      (* a GFP_KERNEL allocation succeeds *)
  copy_to_user_ok : W -> bool * W;
  access_ok : Z -> Z -> W -> bool;
  pin_user_pages_fast : Z -> Z -> Z -> W -> (errno + Z) * W;   (* address, pages, flags *)
  sg_alloc_table_from_pages : Z -> Z -> Z -> W -> rc * W;   (* pages, offset, length *)
  dma_map_sg : W -> Z * W;
  sg_dma_len : W -> Z;
  sg_dma_address : W -> Z;
  pci_enable_device_mem : W -> rc * W;
  pci_resource_flags : W -> Z;                   (* of BAR0 *)
  pci_resource_len : W -> Z;
  pci_request_region : W -> rc * W;
  pci_iomap : W -> bool * W;                     (* the mapping is not NULL *)
  dma_set_mask_and_coherent : Z -> W -> rc * W;
  dma_alloc_coherent : Z -> W -> option Z * W;   (* size; the bus address *)
  pci_alloc_irq_vectors : Z -> Z -> W -> (errno + Z) * W;
  request_irq : Z -> W -> rc * W;                (* vector *)
  ida_alloc : W -> (errno + Z) * W;
  misc_register : W -> rc * W;
}.

(** What the driver relies on: registers are 32 bits wide and bus addresses 64;
    ring memory is memory, which only the driver's own stores change; page
    pinning returns an error or the number of pages it pinned; instance numbers
    are not negative. *)
Class KernelLaws (W : Type) `{!Kernel W} : Prop := {
  ioread32_u32 o w : is_u32 (ioread32 o w).1;
  sq_entry_store i s w : sq_entry i (sq_store i s w) = s;
  sq_entry_store_ne i j s w : i <> j -> sq_entry i (sq_store j s w) = sq_entry i w;
  sq_entry_write v o i w : sq_entry i (iowrite32 v o w) = sq_entry i w;
  sq_entry_read o i w : sq_entry i (ioread32 o w).2 = sq_entry i w;
  sg_dma_address_u64 w : is_u64 (sg_dma_address w);
  pin_user_pages_count a n flags w k : (pin_user_pages_fast a n flags w).1 = inr k -> 0 <= k;
  ida_alloc_nonneg w n : (ida_alloc w).1 = inr n -> 0 <= n;
}.

(** ** Error numbers as C integers *)

Definition errno_value (e : errno) : Z :=
  match e with
  | ENOENT => 2 | EIO => 5 | EAGAIN => 11 | ENOMEM => 12 | EACCES => 13 | EFAULT => 14
  | EBUSY => 16 | ENODEV => 19 | EINVAL => 22 | ENOTTY => 25 | ENOSPC => 28 | ERANGE => 34
  | ENOMSG => 42 | EPROTO => 71 | EOVERFLOW => 75 | EPROTONOSUPPORT => 93 | EOPNOTSUPP => 95
  | ETIMEDOUT => 110 | EALREADY => 114 | ECANCELED => 125 | ERESTARTSYS => 512
  end.

Definition rc_value (r : rc) : Z := match r with rc_ok => 0 | rc_err e => - errno_value e end.

(** ** XArrays *)

Section XArray.
Context {A : Type}.

Definition xa_load (m : gmap Z A) (index : Z) : option A := m !! index.

(** [-EBUSY] if the index is taken; the node allocation can fail. *)
Definition xa_insert (m : gmap Z A) (index : Z) (entry : A) (memory : bool) : rc * gmap Z A :=
  match m !! index with
  | Some _ => (rc_err EBUSY, m)
  | None => if memory then (rc_ok, <[index := entry]> m) else (rc_err ENOMEM, m)
  end.

Definition xa_erase (m : gmap Z A) (index : Z) : option A * gmap Z A :=
  (m !! index, delete index m).

(** The indices [xa_for_each] visits, in its order. *)
Definition xa_indices (m : gmap Z A) : list Z := merge_sort Z.le (map_to_list m).*1.

Definition is_later (after : option Z) (k : Z) : Prop := from_option (fun a => a < k) True after.
#[export] Instance is_later_dec after k : Decision (is_later after k).
Proof. destruct after; simpl; apply _. Defined.
Definition later (after : option Z) (l : list Z) : list Z := filter (is_later after) l.

(** One move of [xa_for_each]: [xa_find] from the start, [xa_find_after] from the
    index it stands at. *)
Definition xa_next (m : gmap Z A) (after : option Z) : option (Z * A) :=
  k ← head (later after (xa_indices m)); a ← m !! k; Some (k, a).

(** The lowest free index from 1 on. *)
Definition xa_first_free (m : gmap Z A) : Z :=
  match list_find (fun i => m !! i = None) (seqZ 1 (Z.of_nat (size m) + 1)) with
  | Some (_, i) => i
  | None => Z.of_nat (size m) + 1
  end.

(** [xa_alloc] with the limits [XA_LIMIT(1, UINT_MAX)]. *)
Definition xa_alloc (m : gmap Z A) (entry : A) (memory : bool) : rc * Z * gmap Z A :=
  let index := xa_first_free m in
  if U32_MAX <? index then (rc_err EBUSY, 0, m)
  else if memory then (rc_ok, index, <[index := entry]> m)
  else (rc_err ENOMEM, 0, m).

Lemma elem_of_xa_indices (m : gmap Z A) k : k ∈ xa_indices m <-> is_Some (m !! k).
Proof.
  unfold xa_indices. rewrite merge_sort_Permutation, list_elem_of_fmap. split.
  - intros ([k' a] & -> & Ha). apply elem_of_map_to_list in Ha. by exists a.
  - intros [a Ha]. exists (k, a). split; [done|]. by apply elem_of_map_to_list.
Qed.

Lemma length_xa_indices (m : gmap Z A) : length (xa_indices m) = size m.
Proof. unfold xa_indices. by rewrite merge_sort_Permutation, length_fmap, length_map_to_list. Qed.

Lemma StronglySorted_filter {B} (R : B -> B -> Prop) (P : B -> Prop) `{!forall x, Decision (P x)} l :
  StronglySorted R l -> StronglySorted R (filter P l).
Proof.
  induction 1 as [|x l Hl IH Hx]; [constructor|]. rewrite filter_cons. case_decide; [|done].
  constructor; [done|]. rewrite Forall_forall in *. intros y [_ Hy]%list_elem_of_filter. by apply Hx.
Qed.

Lemma xa_indices_sorted (m : gmap Z A) : StronglySorted Z.lt (xa_indices m).
Proof.
  assert (Hs : StronglySorted Z.le (xa_indices m)) by apply (StronglySorted_merge_sort Z.le).
  assert (Hn : NoDup (xa_indices m)).
  { unfold xa_indices. rewrite merge_sort_Permutation. apply NoDup_fst_map_to_list. }
  induction Hs as [|k l _ IH Hk]; constructor; apply NoDup_cons in Hn as [Hnk Hn]; [by apply IH|].
  rewrite Forall_forall in *. intros k' Hk'. specialize (Hk k' Hk').
  assert (k <> k') by congruence. lia.
Qed.

Lemma sorted_same (l l' : list Z) :
  StronglySorted Z.lt l -> StronglySorted Z.lt l' -> (forall k, k ∈ l <-> k ∈ l') -> l = l'.
Proof.
  intros Hl Hl' He.
  assert (Hnd : forall x : list Z, StronglySorted Z.lt x -> NoDup x).
  { induction 1 as [|k x _ IH Hk]; [constructor|]. apply NoDup_cons. split; [|done].
    intros Hin. rewrite Forall_forall in Hk. specialize (Hk k Hin). lia. }
  apply (StronglySorted_unique_strong Z.lt); [intros; lia|done..|]. apply NoDup_Permutation; auto.
Qed.

(** Past an index, it does not matter whether the index is still there. *)
Lemma later_next (m m' : gmap Z A) after k l :
  (forall j, j <> k -> is_Some (m' !! j) <-> is_Some (m !! j)) ->
  later after (xa_indices m) = k :: l -> later (Some k) (xa_indices m') = l.
Proof.
  intros Hm E. unfold later in *.
  pose proof (StronglySorted_filter _ (is_later after) _ (xa_indices_sorted m)) as Hs.
  assert (Hel : forall j, j ∈ k :: l <-> is_later after j /\ is_Some (m !! j)).
  { intros j. by rewrite <-E, list_elem_of_filter, elem_of_xa_indices. }
  rewrite E in Hs. apply StronglySorted_cons in Hs as [Hk Hs]. rewrite Forall_forall in Hk.
  apply sorted_same; [apply StronglySorted_filter, xa_indices_sorted|done|].
  intros j. rewrite list_elem_of_filter, elem_of_xa_indices. simpl. split.
  - intros [Hj Hin]. apply Hm in Hin; [|lia].
    assert (Ha : is_later after j).
    { assert (Ha : is_later after k) by (apply Hel; left). destruct after; simpl in *; [lia|done]. }
    apply (conj Ha), Hel, elem_of_cons in Hin as [?|?]; [lia|done].
  - intros Hj. specialize (Hk j Hj). split; [done|]. apply Hm; [lia|].
    apply Hel. by right.
Qed.

Lemma xa_next_cons (m : gmap Z A) after k l a :
  later after (xa_indices m) = k :: l -> m !! k = Some a -> xa_next m after = Some (k, a).
Proof. intros E Ha. unfold xa_next. rewrite E. simpl. by rewrite Ha. Qed.

Lemma xa_first_free_free (m : gmap Z A) : m !! xa_first_free m = None /\ 1 <= xa_first_free m.
Proof.
  unfold xa_first_free. destruct (list_find _ _) as [[i k]|] eqn:E.
  - apply list_find_Some in E as (Hk & Hn & _). split; [done|].
    apply lookup_seqZ in Hk. lia.
  - apply list_find_None in E. exfalso.
    assert (Hsub : list_to_set (seqZ 1 (Z.of_nat (size m) + 1)) ⊆ dom m).
    { intros k Hk. apply elem_of_list_to_set in Hk. rewrite Forall_forall in E.
      specialize (E k Hk). apply elem_of_dom. by destruct (m !! k). }
    apply subseteq_size in Hsub. rewrite size_dom in Hsub.
    rewrite size_list_to_set in Hsub by apply NoDup_seqZ.
    rewrite length_seqZ in Hsub. lia.
Qed.
End XArray.

(** ** Atomic counters *)

(** [atomic_t]: signed 32-bit, wrapping. *)
Definition atomic_inc_s32 (x : Z) : Z := s32 (x + 1).
Definition atomic_dec_s32 (x : Z) : Z := s32 (x - 1).
Definition atomic_dec_if_positive (x : Z) : Z := if 0 <? x then x - 1 else x.

(** ** Sums over finite maps *)

Section Sums.
Context {K A : Type} `{Countable K}.
Implicit Types (m : gmap K A) (f : A -> Z).

Definition msum (f : A -> Z) (m : gmap K A) : Z := map_fold (fun _ a acc => f a + acc) 0 m.

Lemma msum_empty f : msum f (∅ : gmap K A) = 0.
Proof. apply map_fold_empty. Qed.

Lemma msum_insert f m k a : m !! k = None -> msum f (<[k := a]> m) = f a + msum f m.
Proof. intros Hk. unfold msum. rewrite map_fold_insert_L; [done|intros; lia|done]. Qed.

Lemma msum_delete f m k a : m !! k = Some a -> msum f m = f a + msum f (delete k m).
Proof. intros Hk. unfold msum. rewrite (map_fold_delete_L _ _ k a m); [done|intros; lia|done]. Qed.

Lemma msum_delete_sub f m k a : m !! k = Some a -> msum f (delete k m) = msum f m - f a.
Proof. intros Hk. rewrite (msum_delete f m k a Hk). lia. Qed.

Lemma msum_update f m k a a' :
  m !! k = Some a -> msum f (<[k := a']> m) = msum f m - f a + f a'.
Proof.
  intros Hk. rewrite (msum_delete f m k a Hk).
  rewrite <-insert_delete_eq, msum_insert by apply lookup_delete_eq. lia.
Qed.

Lemma msum_same f m k a a' :
  m !! k = Some a -> f a' = f a -> msum f (<[k := a']> m) = msum f m.
Proof. intros Hk Hf. rewrite (msum_update f m k a a' Hk). lia. Qed.

Lemma msum_nonneg f m : (forall a, 0 <= f a) -> 0 <= msum f m.
Proof.
  intros Hf. unfold msum.
  apply (map_fold_weak_ind (fun r _ => 0 <= r)); [done|]. intros k a m' r _ Hr.
  specialize (Hf a). lia.
Qed.

Lemma msum_le f m k a : (forall a, 0 <= f a) -> m !! k = Some a -> f a <= msum f m.
Proof.
  intros Hf Hk. rewrite (msum_delete f m k a Hk). pose proof (msum_nonneg f (delete k m) Hf). lia.
Qed.

Lemma msum_pos f m :
  (forall a, 0 <= f a) -> 0 < msum f m -> exists k a, m !! k = Some a /\ 0 < f a.
Proof.
  intros Hf. induction m as [|k a m Hk IH] using map_ind; [rewrite msum_empty; lia|].
  rewrite msum_insert by done. intros Hs. destruct (decide (0 < f a)) as [Ha|Ha].
  - exists k, a. by rewrite lookup_insert_eq.
  - destruct IH as (k' & a' & Hk' & Ha'); [specialize (Hf a); lia|].
    exists k', a'. split; [|done]. rewrite lookup_insert_ne; [done|]. congruence.
Qed.

Lemma msum_ext f g m :
  (forall k a, m !! k = Some a -> f a = g a) -> msum f m = msum g m.
Proof.
  induction m as [|k a m Hk IH] using map_ind; [by rewrite !msum_empty|]. intros Hfg.
  rewrite !msum_insert by done. rewrite (Hfg k a) by apply lookup_insert_eq.
  rewrite IH; [done|]. intros k' a' Hk'. apply (Hfg k').
  rewrite lookup_insert_ne; [done|]. congruence.
Qed.

Lemma msum_zero f m : (forall k a, m !! k = Some a -> f a = 0) -> msum f m = 0.
Proof.
  induction m as [|k a m Hk IH] using map_ind; [by rewrite msum_empty|]. intros Hf.
  rewrite msum_insert by done. rewrite (Hf k a) by apply lookup_insert_eq. rewrite IH; [done|].
  intros k' a' Hk'. apply (Hf k'). rewrite lookup_insert_ne; [done|]. congruence.
Qed.
End Sums.

(** ** References *)

(** References a pointer field, a map of pointers or a list of pointers hold
    on the object at [p]. *)
Definition ref1 (p q : nat) : Z := if decide (q = p) then 1 else 0.
Definition ptr (o : option nat) (p : nat) : Z := from_option (ref1 p) 0 o.
Definition hold (m : gmap Z nat) (p : nat) : Z := msum (ref1 p) m.
Definition hits (l : list nat) (p : nat) : Z := foldr (fun q acc => ref1 p q + acc) 0 l.

Lemma ref1_eq p : ref1 p p = 1.
Proof. unfold ref1. by rewrite decide_True. Qed.
Lemma ref1_ne p q : q <> p -> ref1 p q = 0.
Proof. intros. unfold ref1. by rewrite decide_False. Qed.
Lemma ref1_nonneg p q : 0 <= ref1 p q.
Proof. unfold ref1. case_decide; lia. Qed.
Lemma ptr_nonneg o p : 0 <= ptr o p.
Proof. destruct o; simpl; [apply ref1_nonneg|lia]. Qed.
Lemma hold_nonneg m p : 0 <= hold m p.
Proof. apply msum_nonneg, ref1_nonneg. Qed.
Lemma hold_empty p : hold ∅ p = 0.
Proof. apply msum_empty. Qed.
Lemma hold_insert m id q p : m !! id = None -> hold (<[id := q]> m) p = ref1 p q + hold m p.
Proof. apply msum_insert. Qed.
Lemma hold_delete m id q p : m !! id = Some q -> hold m p = ref1 p q + hold (delete id m) p.
Proof. apply msum_delete. Qed.
Lemma hold_pos m p : 0 < hold m p -> exists id, m !! id = Some p.
Proof.
  intros H. apply msum_pos in H as (id & q & Hid & Hq); [|apply ref1_nonneg]. exists id.
  destruct (decide (q = p)) as [->|]; [done|]. rewrite ref1_ne in Hq by done. lia.
Qed.
Lemma hold_none m p : (forall id, m !! id <> Some p) -> hold m p = 0.
Proof.
  intros Hno. pose proof (hold_nonneg m p).
  destruct (decide (0 < hold m p)) as [[id Hid]%hold_pos|]; [by destruct (Hno id)|lia].
Qed.
Lemma hits_nonneg l p : 0 <= hits l p.
Proof.
  induction l as [|q l IH]; simpl; [lia|]. pose proof (ref1_nonneg p q). lia.
Qed.
Lemma hits_app l l' p : hits (l ++ l') p = hits l p + hits l' p.
Proof. induction l as [|q l IH]; simpl; [done|]. rewrite IH. lia. Qed.
Lemma hits_perm l l' p : l ≡ₚ l' -> hits l p = hits l' p.
Proof. induction 1; simpl; lia. Qed.
Lemma hits_elem l p : p ∈ l -> 0 < hits l p.
Proof.
  induction 1 as [q l|q q' l ? IH]; simpl.
  - rewrite ref1_eq. pose proof (hits_nonneg l q). lia.
  - pose proof (ref1_nonneg q q'). lia.
Qed.
Lemma hits_pos l p : 0 < hits l p -> p ∈ l.
Proof.
  induction l as [|q l IH]; simpl; [lia|]. destruct (decide (q = p)) as [->|Hne].
  - intros _. by left.
  - rewrite ref1_ne by done. intros. right. apply IH. lia.
Qed.

#[export] Hint Resolve ref1_nonneg ptr_nonneg hold_nonneg hits_nonneg : vams.

(** The reference-counting discipline: the live objects of [heap] are exactly
    those with references, and the counter of each is their number. *)
Definition counted {A} (refs : A -> Z) (heap : gmap nat A) (count : nat -> Z) : Prop :=
  forall p, match heap !! p with
            | Some a => refs a = count p /\ 0 < count p
            | None => count p = 0
            end.

Section Counted.
Context {A : Type} (refs : A -> Z).
Implicit Types (heap : gmap nat A) (count : nat -> Z).

Lemma counted_live heap count p :
  counted refs heap count -> 0 < count p -> exists a, heap !! p = Some a /\ refs a = count p.
Proof.
  intros Hc Hp. specialize (Hc p). destruct (heap !! p) as [a|]; [|lia]. exists a. by destruct Hc.
Qed.

Lemma counted_ext heap count count' :
  (forall p, count p = count' p) -> counted refs heap count -> counted refs heap count'.
Proof. intros He Hc p. rewrite <-He. apply Hc. Qed.

(** Changing an object's contents but not its counter. *)
Lemma counted_same heap count p a a' :
  heap !! p = Some a -> refs a' = refs a ->
  counted refs heap count -> counted refs (<[p := a']> heap) count.
Proof.
  intros Hp Hr Hc q. specialize (Hc q). destruct (decide (q = p)) as [->|Hne].
  - rewrite lookup_insert_eq. rewrite Hp in Hc. by rewrite Hr.
  - by rewrite lookup_insert_ne.
Qed.

(** Taking or dropping a reference that is not the last. *)
Lemma counted_adjust heap count count' p a a' :
  heap !! p = Some a -> refs a' = count' p -> 0 < count' p ->
  (forall q, q <> p -> count' q = count q) ->
  counted refs heap count -> counted refs (<[p := a']> heap) count'.
Proof.
  intros Hp Hr Hpos Hq Hc q. specialize (Hc q). destruct (decide (q = p)) as [->|Hne].
  - by rewrite lookup_insert_eq.
  - rewrite lookup_insert_ne by done. by rewrite (Hq q Hne).
Qed.

(** Allocating at a free address. *)
Lemma counted_alloc heap count count' p a :
  heap !! p = None -> refs a = count' p -> 0 < count' p ->
  (forall q, q <> p -> count' q = count q) ->
  counted refs heap count -> counted refs (<[p := a]> heap) count'.
Proof.
  intros Hp Hr Hpos Hq Hc q. specialize (Hc q). destruct (decide (q = p)) as [->|Hne].
  - by rewrite lookup_insert_eq.
  - rewrite lookup_insert_ne by done. by rewrite (Hq q Hne).
Qed.

(** Freeing with the last reference. *)
Lemma counted_free heap count count' p :
  count' p = 0 -> (forall q, q <> p -> count' q = count q) ->
  counted refs heap count -> counted refs (delete p heap) count'.
Proof.
  intros Hp Hq Hc q. specialize (Hc q). destruct (decide (q = p)) as [->|Hne].
  - by rewrite lookup_delete_eq.
  - rewrite lookup_delete_ne by done. by rewrite (Hq q Hne).
Qed.
End Counted.
