(* ===== verification/DriverState.v ===== *)
(** * State of the Linux PCI driver (kernel/vams_pci.c)

    The driver's heap objects ([vams_device], [vams_file], [vams_request],
    [vams_mapping]) live in one state, by address; a pointer field holds an
    address, and XArrays map indices to addresses.  Reading an object that is
    not in the heap is a use after free and a [Fault], and so is an MMIO access
    when BAR0 is not mapped.  Driver code is written in the state monad [K]. *)

From S2P Require Import Prelude Abi Linux.

(** ** Constants of kernel/vams_regs.h, kernel/vams_pci.c and the user API *)

Definition VAMS_REG_DEVICE_ID : Z := 0x000.
Definition VAMS_REG_HW_IF_VERSION : Z := 0x004.
Definition VAMS_REG_FW_VERSION : Z := 0x008.
Definition VAMS_REG_DESC_VERSION : Z := 0x00c.
Definition VAMS_REG_CAPABILITIES : Z := 0x010.
Definition VAMS_REG_DEVICE_STATUS : Z := 0x01c.
Definition VAMS_REG_DEVICE_CONTROL : Z := 0x020.
Definition VAMS_REG_ERROR_STATUS : Z := 0x024.
Definition VAMS_REG_RESET_GENERATION : Z := 0x028.
Definition VAMS_REG_LAST_FATAL : Z := 0x02c.
Definition VAMS_REG_SQ_BASE_LO : Z := 0x100.
Definition VAMS_REG_SQ_BASE_HI : Z := 0x104.
Definition VAMS_REG_SQ_DEPTH : Z := 0x108.
Definition VAMS_REG_SQ_HEAD : Z := 0x10c.
Definition VAMS_REG_SQ_DOORBELL : Z := 0x114.
Definition VAMS_REG_SQ_CONTROL : Z := 0x118.
Definition VAMS_REG_SQ_STATUS : Z := 0x11c.
Definition VAMS_REG_CQ_BASE_LO : Z := 0x200.
Definition VAMS_REG_CQ_BASE_HI : Z := 0x204.
Definition VAMS_REG_CQ_DEPTH : Z := 0x208.
Definition VAMS_REG_CQ_TAIL : Z := 0x210.
Definition VAMS_REG_CQ_DOORBELL : Z := 0x214.
Definition VAMS_REG_CQ_CONTROL : Z := 0x218.
Definition VAMS_REG_CQ_STATUS : Z := 0x21c.
Definition VAMS_REG_CQ_WATERMARK : Z := 0x220.
Definition VAMS_REG_INTR_STATUS : Z := 0x300.
Definition VAMS_REG_INTR_MASK : Z := 0x304.
Definition VAMS_REG_LAST_RESET_REASON : Z := 0x610.
Definition VAMS_DEVICE_ID_VALUE : Z := 0x11001b36.
Definition VAMS_HW_IF_MAJOR_SUPPORTED : Z := 1.
Definition VAMS_DESC_VERSION_SUPPORTED : Z := 1.
Definition VAMS_CAP_DMA : Z := BIT 0.
Definition VAMS_CAP_MSIX : Z := BIT 1.
Definition VAMS_CAP_CQ_WATERMARK : Z := BIT 7.
Definition VAMS_CAP_KNOWN : Z := 0xff.
Definition VAMS_STATUS_READY : Z := BIT 0.
Definition VAMS_STATUS_QUEUES_READY : Z := BIT 2.
Definition VAMS_STATUS_RESETTING : Z := BIT 4.
Definition VAMS_STATUS_FATAL : Z := BIT 5.
Definition VAMS_INTR_CQ : Z := BIT 0.
Definition VAMS_INTR_ERROR : Z := BIT 1.
Definition VAMS_INTR_FW_EVENT : Z := BIT 2.
Definition VAMS_INTR_RESET_DONE : Z := BIT 3.
Definition VAMS_INTR_ASYNC : Z := Z.lor (Z.lor VAMS_INTR_ERROR VAMS_INTR_FW_EVENT) VAMS_INTR_RESET_DONE.
Definition VAMS_INTR_ALL : Z := Z.lor VAMS_INTR_CQ VAMS_INTR_ASYNC.
Definition VAMS_DEVICE_ENABLE : Z := BIT 0.
Definition VAMS_DEVICE_QUIESCE : Z := BIT 2.
Definition VAMS_RESET_REASON_HOST_DEVICE : Z := 1.
Definition VAMS_RESET_REASON_HOST_QUEUE : Z := 2.
Definition VAMS_QUEUE_ENABLE : Z := BIT 0.
Definition VAMS_QUEUE_RESET : Z := BIT 1.
Definition VAMS_QUEUE_STATUS_ENABLED : Z := BIT 0.
Definition VAMS_QUEUE_DEPTH : Z := 16.
Definition VAMS_CQ_WATERMARK_HIGH : Z := 12.
Definition VAMS_CQ_WATERMARK_LOW : Z := 8.
Definition VAMS_MAX_TRANSFER : Z := 0x1000000.
Definition VAMS_UAPI_VERSION : Z := 1.
Definition VAMS_BUFFER_READ : Z := BIT 0.
Definition VAMS_BUFFER_WRITE : Z := BIT 1.
Definition VAMS_BUFFER_FLAGS : Z := Z.lor VAMS_BUFFER_READ VAMS_BUFFER_WRITE.
Definition VAMS_SUBMIT_VERIFY_CRC : Z := BIT 0.

(** ** Objects *)

Inductive dma_data_direction : Type := DMA_BIDIRECTIONAL | DMA_TO_DEVICE | DMA_FROM_DEVICE.

Record vams_mapping : Type := {
  m_refs : Z;
  m_dma_addr : Z;
  m_direction : dma_data_direction;
  m_npages : Z;
  m_user_address : Z;
  m_length : Z;
  m_flags : Z;
  m_handle : Z;
}.

Record vams_request : Type := {
  r_done : bool;   (* the completion has been signalled *)
  r_refs : Z;
  r_result : vams_completion;
  r_owner : option nat;
  r_source : option nat;
  r_destination : option nat;
  r_driver_status : rc;
  r_command_id : Z;
  r_reset_generation : Z;
}.

Record vams_file : Type := {
  vf_refs : Z;
  vf_mappings : gmap Z nat;
  vf_requests : gmap Z nat;   (* requests not yet reaped *)
  vf_completed_requests : Z;
  vf_closing : bool;
}.

Record vams_device : Type := {
  vd_refs : Z;
  vd_hw_if_version : Z;
  vd_fw_version : Z;
  vd_capabilities : Z;
  vd_reset_generation : Z;
  vd_reset_reason : Z;
  vd_sq_dma : Z;
  vd_cq_dma : Z;
  vd_sq_tail : Z;
  vd_cq_head : Z;
  vd_queues_ready : bool;
  vd_removing : bool;
  vd_requests : gmap Z nat;   (* the outstanding requests, by command id *)
  vd_next_command_id : Z;
  vd_pending_requests : Z;
  vd_poll_scheduled : bool;   (* cq_poll_work is queued *)
  vd_reset_scheduled : bool;   (* reset_work is queued *)
  vd_cq_interrupts : Z;
  vd_async_interrupts : Z;
  vd_instance : Z;   (* of the character device; negative without one *)
  vd_misc_name : bool;   (* the name is allocated *)
}.

(** What the driver holds of its PCI function, besides the mapped BAR0. *)
Record pci_resources : Type := {
  pci_enabled : bool;
  pci_region : bool;
  pci_sq : bool;   (* coherent memory of the submission ring *)
  pci_cq : bool;
  pci_vectors : bool;
  pci_cq_irq : bool;   (* vams_cq_irq is installed *)
  pci_async_irq : bool;
  pci_drvdata : bool;
  pci_master : bool;
  pci_misc : bool;   (* the character device is registered *)
}.

(** What the device object holds until it is freed. *)
Record host_resources : Type := {
  h_pdev : Z;   (* references to the PCI device *)
  h_instances : Z;   (* instance numbers *)
  h_names : Z;
}.

(** All of it, with the world and the user-memory resources the mappings
    hold. *)
Record kstate (W : Type) : Type := {
  k_world : W;
  k_bar0 : bool;   (* BAR0 is mapped *)
  k_dev : option vams_device;   (* None once freed *)
  k_files : gmap nat vams_file;
  k_requests : gmap nat vams_request;
  k_mappings : gmap nat vams_mapping;
  k_pinned : Z;   (* user pages pinned *)
  k_sg_tables : Z;   (* scatter tables allocated *)
  k_dma_maps : Z;   (* DMA mappings *)
  k_pci : pci_resources;
  k_host : host_resources;
}.
Arguments Build_kstate {W}.
Arguments k_world {W}.
Arguments k_bar0 {W}.
Arguments k_dev {W}.
Arguments k_files {W}.
Arguments k_requests {W}.
Arguments k_mappings {W}.
Arguments k_pinned {W}.
Arguments k_sg_tables {W}.
Arguments k_dma_maps {W}.
Arguments k_pci {W}.
Arguments k_host {W}.

(** ** Field updates *)

Definition set_m_refs (x : Z) (s : vams_mapping) : vams_mapping :=
  Build_vams_mapping x (m_dma_addr s) (m_direction s) (m_npages s) (m_user_address s) (m_length
    s) (m_flags s) (m_handle s).
Definition set_m_dma_addr (x : Z) (s : vams_mapping) : vams_mapping :=
  Build_vams_mapping (m_refs s) x (m_direction s) (m_npages s) (m_user_address s) (m_length s)
    (m_flags s) (m_handle s).
Definition set_m_handle (x : Z) (s : vams_mapping) : vams_mapping :=
  Build_vams_mapping (m_refs s) (m_dma_addr s) (m_direction s) (m_npages s) (m_user_address s)
    (m_length s) (m_flags s) x.
Definition set_r_done (x : bool) (s : vams_request) : vams_request :=
  Build_vams_request x (r_refs s) (r_result s) (r_owner s) (r_source s) (r_destination s)
    (r_driver_status s) (r_command_id s) (r_reset_generation s).
Definition set_r_refs (x : Z) (s : vams_request) : vams_request :=
  Build_vams_request (r_done s) x (r_result s) (r_owner s) (r_source s) (r_destination s)
    (r_driver_status s) (r_command_id s) (r_reset_generation s).
Definition set_r_result (x : vams_completion) (s : vams_request) : vams_request :=
  Build_vams_request (r_done s) (r_refs s) x (r_owner s) (r_source s) (r_destination s)
    (r_driver_status s) (r_command_id s) (r_reset_generation s).
Definition set_r_owner (x : option nat) (s : vams_request) : vams_request :=
  Build_vams_request (r_done s) (r_refs s) (r_result s) x (r_source s) (r_destination s)
    (r_driver_status s) (r_command_id s) (r_reset_generation s).
Definition set_r_source (x : option nat) (s : vams_request) : vams_request :=
  Build_vams_request (r_done s) (r_refs s) (r_result s) (r_owner s) x (r_destination s)
    (r_driver_status s) (r_command_id s) (r_reset_generation s).
Definition set_r_destination (x : option nat) (s : vams_request) : vams_request :=
  Build_vams_request (r_done s) (r_refs s) (r_result s) (r_owner s) (r_source s) x
    (r_driver_status s) (r_command_id s) (r_reset_generation s).
Definition set_r_driver_status (x : rc) (s : vams_request) : vams_request :=
  Build_vams_request (r_done s) (r_refs s) (r_result s) (r_owner s) (r_source s) (r_destination
    s) x (r_command_id s) (r_reset_generation s).
Definition set_r_command_id (x : Z) (s : vams_request) : vams_request :=
  Build_vams_request (r_done s) (r_refs s) (r_result s) (r_owner s) (r_source s) (r_destination
    s) (r_driver_status s) x (r_reset_generation s).
Definition set_r_reset_generation (x : Z) (s : vams_request) : vams_request :=
  Build_vams_request (r_done s) (r_refs s) (r_result s) (r_owner s) (r_source s) (r_destination
    s) (r_driver_status s) (r_command_id s) x.
Definition set_vf_refs (x : Z) (s : vams_file) : vams_file :=
  Build_vams_file x (vf_mappings s) (vf_requests s) (vf_completed_requests s) (vf_closing s).
Definition set_vf_mappings (x : gmap Z nat) (s : vams_file) : vams_file :=
  Build_vams_file (vf_refs s) x (vf_requests s) (vf_completed_requests s) (vf_closing s).
Definition set_vf_requests (x : gmap Z nat) (s : vams_file) : vams_file :=
  Build_vams_file (vf_refs s) (vf_mappings s) x (vf_completed_requests s) (vf_closing s).
Definition set_vf_completed_requests (x : Z) (s : vams_file) : vams_file :=
  Build_vams_file (vf_refs s) (vf_mappings s) (vf_requests s) x (vf_closing s).
Definition set_vf_closing (x : bool) (s : vams_file) : vams_file :=
  Build_vams_file (vf_refs s) (vf_mappings s) (vf_requests s) (vf_completed_requests s) x.
Definition set_vd_refs (x : Z) (s : vams_device) : vams_device :=
  Build_vams_device x (vd_hw_if_version s) (vd_fw_version s) (vd_capabilities s)
    (vd_reset_generation s) (vd_reset_reason s) (vd_sq_dma s) (vd_cq_dma s) (vd_sq_tail s)
    (vd_cq_head s) (vd_queues_ready s) (vd_removing s) (vd_requests s) (vd_next_command_id s)
    (vd_pending_requests s) (vd_poll_scheduled s) (vd_reset_scheduled s) (vd_cq_interrupts s)
    (vd_async_interrupts s) (vd_instance s) (vd_misc_name s).
Definition set_vd_hw_if_version (x : Z) (s : vams_device) : vams_device :=
  Build_vams_device (vd_refs s) x (vd_fw_version s) (vd_capabilities s) (vd_reset_generation s)
    (vd_reset_reason s) (vd_sq_dma s) (vd_cq_dma s) (vd_sq_tail s) (vd_cq_head s)
    (vd_queues_ready s) (vd_removing s) (vd_requests s) (vd_next_command_id s)
    (vd_pending_requests s) (vd_poll_scheduled s) (vd_reset_scheduled s) (vd_cq_interrupts s)
    (vd_async_interrupts s) (vd_instance s) (vd_misc_name s).
Definition set_vd_fw_version (x : Z) (s : vams_device) : vams_device :=
  Build_vams_device (vd_refs s) (vd_hw_if_version s) x (vd_capabilities s)
    (vd_reset_generation s) (vd_reset_reason s) (vd_sq_dma s) (vd_cq_dma s) (vd_sq_tail s)
    (vd_cq_head s) (vd_queues_ready s) (vd_removing s) (vd_requests s) (vd_next_command_id s)
    (vd_pending_requests s) (vd_poll_scheduled s) (vd_reset_scheduled s) (vd_cq_interrupts s)
    (vd_async_interrupts s) (vd_instance s) (vd_misc_name s).
Definition set_vd_capabilities (x : Z) (s : vams_device) : vams_device :=
  Build_vams_device (vd_refs s) (vd_hw_if_version s) (vd_fw_version s) x
    (vd_reset_generation s) (vd_reset_reason s) (vd_sq_dma s) (vd_cq_dma s) (vd_sq_tail s)
    (vd_cq_head s) (vd_queues_ready s) (vd_removing s) (vd_requests s) (vd_next_command_id s)
    (vd_pending_requests s) (vd_poll_scheduled s) (vd_reset_scheduled s) (vd_cq_interrupts s)
    (vd_async_interrupts s) (vd_instance s) (vd_misc_name s).
Definition set_vd_reset_generation (x : Z) (s : vams_device) : vams_device :=
  Build_vams_device (vd_refs s) (vd_hw_if_version s) (vd_fw_version s) (vd_capabilities s) x
    (vd_reset_reason s) (vd_sq_dma s) (vd_cq_dma s) (vd_sq_tail s) (vd_cq_head s)
    (vd_queues_ready s) (vd_removing s) (vd_requests s) (vd_next_command_id s)
    (vd_pending_requests s) (vd_poll_scheduled s) (vd_reset_scheduled s) (vd_cq_interrupts s)
    (vd_async_interrupts s) (vd_instance s) (vd_misc_name s).
Definition set_vd_reset_reason (x : Z) (s : vams_device) : vams_device :=
  Build_vams_device (vd_refs s) (vd_hw_if_version s) (vd_fw_version s) (vd_capabilities s)
    (vd_reset_generation s) x (vd_sq_dma s) (vd_cq_dma s) (vd_sq_tail s) (vd_cq_head s)
    (vd_queues_ready s) (vd_removing s) (vd_requests s) (vd_next_command_id s)
    (vd_pending_requests s) (vd_poll_scheduled s) (vd_reset_scheduled s) (vd_cq_interrupts s)
    (vd_async_interrupts s) (vd_instance s) (vd_misc_name s).
Definition set_vd_sq_dma (x : Z) (s : vams_device) : vams_device :=
  Build_vams_device (vd_refs s) (vd_hw_if_version s) (vd_fw_version s) (vd_capabilities s)
    (vd_reset_generation s) (vd_reset_reason s) x (vd_cq_dma s) (vd_sq_tail s) (vd_cq_head s)
    (vd_queues_ready s) (vd_removing s) (vd_requests s) (vd_next_command_id s)
    (vd_pending_requests s) (vd_poll_scheduled s) (vd_reset_scheduled s) (vd_cq_interrupts s)
    (vd_async_interrupts s) (vd_instance s) (vd_misc_name s).
Definition set_vd_cq_dma (x : Z) (s : vams_device) : vams_device :=
  Build_vams_device (vd_refs s) (vd_hw_if_version s) (vd_fw_version s) (vd_capabilities s)
    (vd_reset_generation s) (vd_reset_reason s) (vd_sq_dma s) x (vd_sq_tail s) (vd_cq_head s)
    (vd_queues_ready s) (vd_removing s) (vd_requests s) (vd_next_command_id s)
    (vd_pending_requests s) (vd_poll_scheduled s) (vd_reset_scheduled s) (vd_cq_interrupts s)
    (vd_async_interrupts s) (vd_instance s) (vd_misc_name s).
Definition set_vd_sq_tail (x : Z) (s : vams_device) : vams_device :=
  Build_vams_device (vd_refs s) (vd_hw_if_version s) (vd_fw_version s) (vd_capabilities s)
    (vd_reset_generation s) (vd_reset_reason s) (vd_sq_dma s) (vd_cq_dma s) x (vd_cq_head s)
    (vd_queues_ready s) (vd_removing s) (vd_requests s) (vd_next_command_id s)
    (vd_pending_requests s) (vd_poll_scheduled s) (vd_reset_scheduled s) (vd_cq_interrupts s)
    (vd_async_interrupts s) (vd_instance s) (vd_misc_name s).
Definition set_vd_cq_head (x : Z) (s : vams_device) : vams_device :=
  Build_vams_device (vd_refs s) (vd_hw_if_version s) (vd_fw_version s) (vd_capabilities s)
    (vd_reset_generation s) (vd_reset_reason s) (vd_sq_dma s) (vd_cq_dma s) (vd_sq_tail s) x
    (vd_queues_ready s) (vd_removing s) (vd_requests s) (vd_next_command_id s)
    (vd_pending_requests s) (vd_poll_scheduled s) (vd_reset_scheduled s) (vd_cq_interrupts s)
    (vd_async_interrupts s) (vd_instance s) (vd_misc_name s).
Definition set_vd_queues_ready (x : bool) (s : vams_device) : vams_device :=
  Build_vams_device (vd_refs s) (vd_hw_if_version s) (vd_fw_version s) (vd_capabilities s)
    (vd_reset_generation s) (vd_reset_reason s) (vd_sq_dma s) (vd_cq_dma s) (vd_sq_tail s)
    (vd_cq_head s) x (vd_removing s) (vd_requests s) (vd_next_command_id s)
    (vd_pending_requests s) (vd_poll_scheduled s) (vd_reset_scheduled s) (vd_cq_interrupts s)
    (vd_async_interrupts s) (vd_instance s) (vd_misc_name s).
Definition set_vd_removing (x : bool) (s : vams_device) : vams_device :=
  Build_vams_device (vd_refs s) (vd_hw_if_version s) (vd_fw_version s) (vd_capabilities s)
    (vd_reset_generation s) (vd_reset_reason s) (vd_sq_dma s) (vd_cq_dma s) (vd_sq_tail s)
    (vd_cq_head s) (vd_queues_ready s) x (vd_requests s) (vd_next_command_id s)
    (vd_pending_requests s) (vd_poll_scheduled s) (vd_reset_scheduled s) (vd_cq_interrupts s)
    (vd_async_interrupts s) (vd_instance s) (vd_misc_name s).
Definition set_vd_requests (x : gmap Z nat) (s : vams_device) : vams_device :=
  Build_vams_device (vd_refs s) (vd_hw_if_version s) (vd_fw_version s) (vd_capabilities s)
    (vd_reset_generation s) (vd_reset_reason s) (vd_sq_dma s) (vd_cq_dma s) (vd_sq_tail s)
    (vd_cq_head s) (vd_queues_ready s) (vd_removing s) x (vd_next_command_id s)
    (vd_pending_requests s) (vd_poll_scheduled s) (vd_reset_scheduled s) (vd_cq_interrupts s)
    (vd_async_interrupts s) (vd_instance s) (vd_misc_name s).
Definition set_vd_next_command_id (x : Z) (s : vams_device) : vams_device :=
  Build_vams_device (vd_refs s) (vd_hw_if_version s) (vd_fw_version s) (vd_capabilities s)
    (vd_reset_generation s) (vd_reset_reason s) (vd_sq_dma s) (vd_cq_dma s) (vd_sq_tail s)
    (vd_cq_head s) (vd_queues_ready s) (vd_removing s) (vd_requests s) x
    (vd_pending_requests s) (vd_poll_scheduled s) (vd_reset_scheduled s) (vd_cq_interrupts s)
    (vd_async_interrupts s) (vd_instance s) (vd_misc_name s).
Definition set_vd_pending_requests (x : Z) (s : vams_device) : vams_device :=
  Build_vams_device (vd_refs s) (vd_hw_if_version s) (vd_fw_version s) (vd_capabilities s)
    (vd_reset_generation s) (vd_reset_reason s) (vd_sq_dma s) (vd_cq_dma s) (vd_sq_tail s)
    (vd_cq_head s) (vd_queues_ready s) (vd_removing s) (vd_requests s) (vd_next_command_id s) x
    (vd_poll_scheduled s) (vd_reset_scheduled s) (vd_cq_interrupts s) (vd_async_interrupts s)
    (vd_instance s) (vd_misc_name s).
Definition set_vd_poll_scheduled (x : bool) (s : vams_device) : vams_device :=
  Build_vams_device (vd_refs s) (vd_hw_if_version s) (vd_fw_version s) (vd_capabilities s)
    (vd_reset_generation s) (vd_reset_reason s) (vd_sq_dma s) (vd_cq_dma s) (vd_sq_tail s)
    (vd_cq_head s) (vd_queues_ready s) (vd_removing s) (vd_requests s) (vd_next_command_id s)
    (vd_pending_requests s) x (vd_reset_scheduled s) (vd_cq_interrupts s)
    (vd_async_interrupts s) (vd_instance s) (vd_misc_name s).
Definition set_vd_reset_scheduled (x : bool) (s : vams_device) : vams_device :=
  Build_vams_device (vd_refs s) (vd_hw_if_version s) (vd_fw_version s) (vd_capabilities s)
    (vd_reset_generation s) (vd_reset_reason s) (vd_sq_dma s) (vd_cq_dma s) (vd_sq_tail s)
    (vd_cq_head s) (vd_queues_ready s) (vd_removing s) (vd_requests s) (vd_next_command_id s)
    (vd_pending_requests s) (vd_poll_scheduled s) x (vd_cq_interrupts s)
    (vd_async_interrupts s) (vd_instance s) (vd_misc_name s).
Definition set_vd_cq_interrupts (x : Z) (s : vams_device) : vams_device :=
  Build_vams_device (vd_refs s) (vd_hw_if_version s) (vd_fw_version s) (vd_capabilities s)
    (vd_reset_generation s) (vd_reset_reason s) (vd_sq_dma s) (vd_cq_dma s) (vd_sq_tail s)
    (vd_cq_head s) (vd_queues_ready s) (vd_removing s) (vd_requests s) (vd_next_command_id s)
    (vd_pending_requests s) (vd_poll_scheduled s) (vd_reset_scheduled s) x
    (vd_async_interrupts s) (vd_instance s) (vd_misc_name s).
Definition set_vd_async_interrupts (x : Z) (s : vams_device) : vams_device :=
  Build_vams_device (vd_refs s) (vd_hw_if_version s) (vd_fw_version s) (vd_capabilities s)
    (vd_reset_generation s) (vd_reset_reason s) (vd_sq_dma s) (vd_cq_dma s) (vd_sq_tail s)
    (vd_cq_head s) (vd_queues_ready s) (vd_removing s) (vd_requests s) (vd_next_command_id s)
    (vd_pending_requests s) (vd_poll_scheduled s) (vd_reset_scheduled s) (vd_cq_interrupts s) x
    (vd_instance s) (vd_misc_name s).
Definition set_vd_instance (x : Z) (s : vams_device) : vams_device :=
  Build_vams_device (vd_refs s) (vd_hw_if_version s) (vd_fw_version s) (vd_capabilities s)
    (vd_reset_generation s) (vd_reset_reason s) (vd_sq_dma s) (vd_cq_dma s) (vd_sq_tail s)
    (vd_cq_head s) (vd_queues_ready s) (vd_removing s) (vd_requests s) (vd_next_command_id s)
    (vd_pending_requests s) (vd_poll_scheduled s) (vd_reset_scheduled s) (vd_cq_interrupts s)
    (vd_async_interrupts s) x (vd_misc_name s).
Definition set_vd_misc_name (x : bool) (s : vams_device) : vams_device :=
  Build_vams_device (vd_refs s) (vd_hw_if_version s) (vd_fw_version s) (vd_capabilities s)
    (vd_reset_generation s) (vd_reset_reason s) (vd_sq_dma s) (vd_cq_dma s) (vd_sq_tail s)
    (vd_cq_head s) (vd_queues_ready s) (vd_removing s) (vd_requests s) (vd_next_command_id s)
    (vd_pending_requests s) (vd_poll_scheduled s) (vd_reset_scheduled s) (vd_cq_interrupts s)
    (vd_async_interrupts s) (vd_instance s) x.

Definition set_pci_enabled (x : bool) (s : pci_resources) : pci_resources :=
  Build_pci_resources x (pci_region s) (pci_sq s) (pci_cq s) (pci_vectors s) (pci_cq_irq s)
    (pci_async_irq s) (pci_drvdata s) (pci_master s) (pci_misc s).
Definition set_pci_region (x : bool) (s : pci_resources) : pci_resources :=
  Build_pci_resources (pci_enabled s) x (pci_sq s) (pci_cq s) (pci_vectors s) (pci_cq_irq s)
    (pci_async_irq s) (pci_drvdata s) (pci_master s) (pci_misc s).
Definition set_pci_sq (x : bool) (s : pci_resources) : pci_resources :=
  Build_pci_resources (pci_enabled s) (pci_region s) x (pci_cq s) (pci_vectors s) (pci_cq_irq
    s) (pci_async_irq s) (pci_drvdata s) (pci_master s) (pci_misc s).
Definition set_pci_cq (x : bool) (s : pci_resources) : pci_resources :=
  Build_pci_resources (pci_enabled s) (pci_region s) (pci_sq s) x (pci_vectors s) (pci_cq_irq
    s) (pci_async_irq s) (pci_drvdata s) (pci_master s) (pci_misc s).
Definition set_pci_vectors (x : bool) (s : pci_resources) : pci_resources :=
  Build_pci_resources (pci_enabled s) (pci_region s) (pci_sq s) (pci_cq s) x (pci_cq_irq s)
    (pci_async_irq s) (pci_drvdata s) (pci_master s) (pci_misc s).
Definition set_pci_cq_irq (x : bool) (s : pci_resources) : pci_resources :=
  Build_pci_resources (pci_enabled s) (pci_region s) (pci_sq s) (pci_cq s) (pci_vectors s) x
    (pci_async_irq s) (pci_drvdata s) (pci_master s) (pci_misc s).
Definition set_pci_async_irq (x : bool) (s : pci_resources) : pci_resources :=
  Build_pci_resources (pci_enabled s) (pci_region s) (pci_sq s) (pci_cq s) (pci_vectors s)
    (pci_cq_irq s) x (pci_drvdata s) (pci_master s) (pci_misc s).
Definition set_pci_drvdata (x : bool) (s : pci_resources) : pci_resources :=
  Build_pci_resources (pci_enabled s) (pci_region s) (pci_sq s) (pci_cq s) (pci_vectors s)
    (pci_cq_irq s) (pci_async_irq s) x (pci_master s) (pci_misc s).
Definition set_pci_master (x : bool) (s : pci_resources) : pci_resources :=
  Build_pci_resources (pci_enabled s) (pci_region s) (pci_sq s) (pci_cq s) (pci_vectors s)
    (pci_cq_irq s) (pci_async_irq s) (pci_drvdata s) x (pci_misc s).
Definition set_pci_misc (x : bool) (s : pci_resources) : pci_resources :=
  Build_pci_resources (pci_enabled s) (pci_region s) (pci_sq s) (pci_cq s) (pci_vectors s)
    (pci_cq_irq s) (pci_async_irq s) (pci_drvdata s) (pci_master s) x.

Section StateUpdates.
Context {W : Type}.
Definition set_k_world (x : W) (s : kstate W) : kstate W :=
  Build_kstate x (k_bar0 s) (k_dev s) (k_files s) (k_requests s) (k_mappings s) (k_pinned s)
    (k_sg_tables s) (k_dma_maps s) (k_pci s) (k_host s).
Definition set_k_bar0 (x : bool) (s : kstate W) : kstate W :=
  Build_kstate (k_world s) x (k_dev s) (k_files s) (k_requests s) (k_mappings s) (k_pinned s)
    (k_sg_tables s) (k_dma_maps s) (k_pci s) (k_host s).
Definition set_k_dev (x : option vams_device) (s : kstate W) : kstate W :=
  Build_kstate (k_world s) (k_bar0 s) x (k_files s) (k_requests s) (k_mappings s) (k_pinned s)
    (k_sg_tables s) (k_dma_maps s) (k_pci s) (k_host s).
Definition set_k_files (x : gmap nat vams_file) (s : kstate W) : kstate W :=
  Build_kstate (k_world s) (k_bar0 s) (k_dev s) x (k_requests s) (k_mappings s) (k_pinned s)
    (k_sg_tables s) (k_dma_maps s) (k_pci s) (k_host s).
Definition set_k_requests (x : gmap nat vams_request) (s : kstate W) : kstate W :=
  Build_kstate (k_world s) (k_bar0 s) (k_dev s) (k_files s) x (k_mappings s) (k_pinned s)
    (k_sg_tables s) (k_dma_maps s) (k_pci s) (k_host s).
Definition set_k_mappings (x : gmap nat vams_mapping) (s : kstate W) : kstate W :=
  Build_kstate (k_world s) (k_bar0 s) (k_dev s) (k_files s) (k_requests s) x (k_pinned s)
    (k_sg_tables s) (k_dma_maps s) (k_pci s) (k_host s).
Definition set_k_pinned (x : Z) (s : kstate W) : kstate W :=
  Build_kstate (k_world s) (k_bar0 s) (k_dev s) (k_files s) (k_requests s) (k_mappings s) x
    (k_sg_tables s) (k_dma_maps s) (k_pci s) (k_host s).
Definition set_k_sg_tables (x : Z) (s : kstate W) : kstate W :=
  Build_kstate (k_world s) (k_bar0 s) (k_dev s) (k_files s) (k_requests s) (k_mappings s)
    (k_pinned s) x (k_dma_maps s) (k_pci s) (k_host s).
Definition set_k_dma_maps (x : Z) (s : kstate W) : kstate W :=
  Build_kstate (k_world s) (k_bar0 s) (k_dev s) (k_files s) (k_requests s) (k_mappings s)
    (k_pinned s) (k_sg_tables s) x (k_pci s) (k_host s).
Definition set_k_pci (x : pci_resources) (s : kstate W) : kstate W :=
  Build_kstate (k_world s) (k_bar0 s) (k_dev s) (k_files s) (k_requests s) (k_mappings s)
    (k_pinned s) (k_sg_tables s) (k_dma_maps s) x (k_host s).
Definition set_k_host (x : host_resources) (s : kstate W) : kstate W :=
  Build_kstate (k_world s) (k_bar0 s) (k_dev s) (k_files s) (k_requests s) (k_mappings s)
    (k_pinned s) (k_sg_tables s) (k_dma_maps s) (k_pci s) x.
End StateUpdates.

(** ** The driver monad *)

Definition K (W A : Type) : Type := kstate W -> result (A * kstate W).

#[export] Instance K_ret {W} : MRet (K W) := fun A a s => Ok (a, s).
#[export] Instance K_bind {W} : MBind (K W) :=
  fun A B f m s => match m s with Ok (a, s') => f a s' | Fault => Fault end.

Section Monad.
Context {W : Type} `{!Kernel W}.

Definition fault {A} : K W A := fun _ => Fault.
Definition modify (f : kstate W -> kstate W) : K W unit := fun s => Ok (tt, f s).
Definition gets {A} (f : kstate W -> A) : K W A := fun s => Ok (f s, s).
Definition in_world {A} (f : W -> A * W) : K W A := fun s =>
  let '(a, w) := f (k_world s) in Ok (a, set_k_world w s).
Definition when (b : bool) (m : K W unit) : K W unit := if b then m else mret tt.

(** Objects through their address. *)
Definition read_device : K W vams_device := fun s =>
  match k_dev s with Some d => Ok (d, s) | None => Fault end.
Definition update_device (f : vams_device -> vams_device) : K W unit := fun s =>
  match k_dev s with Some d => Ok (tt, set_k_dev (Some (f d)) s) | None => Fault end.

Definition read_file (p : nat) : K W vams_file := fun s =>
  match k_files s !! p with Some f => Ok (f, s) | None => Fault end.
Definition update_file (p : nat) (u : vams_file -> vams_file) : K W unit := fun s =>
  match k_files s !! p with
  | Some f => Ok (tt, set_k_files (<[p := u f]> (k_files s)) s)
  | None => Fault
  end.

Definition read_request (p : nat) : K W vams_request := fun s =>
  match k_requests s !! p with Some r => Ok (r, s) | None => Fault end.
Definition update_request (p : nat) (u : vams_request -> vams_request) : K W unit := fun s =>
  match k_requests s !! p with
  | Some r => Ok (tt, set_k_requests (<[p := u r]> (k_requests s)) s)
  | None => Fault
  end.

Definition read_mapping (p : nat) : K W vams_mapping := fun s =>
  match k_mappings s !! p with Some m => Ok (m, s) | None => Fault end.
Definition update_mapping (p : nat) (u : vams_mapping -> vams_mapping) : K W unit := fun s =>
  match k_mappings s !! p with
  | Some m => Ok (tt, set_k_mappings (<[p := u m]> (k_mappings s)) s)
  | None => Fault
  end.

(** ** Registers *)

Definition vams_readl (offset : Z) : K W Z := fun s =>
  if k_bar0 s then in_world (ioread32 offset) s else Fault.

Definition vams_writel (offset value : Z) : K W unit := fun s =>
  if k_bar0 s then Ok (tt, set_k_world (iowrite32 value offset (k_world s)) s) else Fault.

Definition vams_mask_interrupts : K W unit :=
  _ ← vams_writel VAMS_REG_INTR_MASK VAMS_INTR_ALL;
  _ ← vams_readl VAMS_REG_INTR_MASK;
  mret tt.
End Monad.

(** ** Running the primitives *)

Section Run.
Context {W : Type} `{!Kernel W}.
Implicit Types (s : kstate W).

Lemma run_bind {A B} (m : K W A) (k : A -> K W B) s a s' :
  m s = Ok (a, s') -> (m ≫= k) s = k a s'.
Proof. intros E. unfold mbind, K_bind. by rewrite E. Qed.

Lemma run_ret {A} (a : A) s : (mret a : K W A) s = Ok (a, s).
Proof. done. Qed.

Lemma run_read_device s d : k_dev s = Some d -> read_device s = Ok (d, s).
Proof. unfold read_device. by intros ->. Qed.
Lemma run_update_device s d u :
  k_dev s = Some d -> update_device u s = Ok (tt, set_k_dev (Some (u d)) s).
Proof. unfold update_device. by intros ->. Qed.
Lemma run_read_file s f vf : k_files s !! f = Some vf -> read_file f s = Ok (vf, s).
Proof. unfold read_file. by intros ->. Qed.
Lemma run_update_file s f vf u :
  k_files s !! f = Some vf ->
  update_file f u s = Ok (tt, set_k_files (<[f := u vf]> (k_files s)) s).
Proof. unfold update_file. by intros ->. Qed.
Lemma run_read_request s p r : k_requests s !! p = Some r -> read_request p s = Ok (r, s).
Proof. unfold read_request. by intros ->. Qed.
Lemma run_update_request s p r u :
  k_requests s !! p = Some r ->
  update_request p u s = Ok (tt, set_k_requests (<[p := u r]> (k_requests s)) s).
Proof. unfold update_request. by intros ->. Qed.
Lemma run_read_mapping s q m : k_mappings s !! q = Some m -> read_mapping q s = Ok (m, s).
Proof. unfold read_mapping. by intros ->. Qed.
Lemma run_update_mapping s q m u :
  k_mappings s !! q = Some m ->
  update_mapping q u s = Ok (tt, set_k_mappings (<[q := u m]> (k_mappings s)) s).
Proof. unfold update_mapping. by intros ->. Qed.
Lemma run_in_world {A} (f : W -> A * W) s :
  in_world f s = Ok ((f (k_world s)).1, set_k_world (f (k_world s)).2 s).
Proof. unfold in_world. by destruct (f (k_world s)). Qed.
Lemma run_gets {A} (f : kstate W -> A) s : gets f s = Ok (f s, s).
Proof. done. Qed.
Lemma run_modify f s : modify f s = Ok (tt, f s).
Proof. done. Qed.
End Run.

(** [krun H] runs the first step of the goal's program by the equation [H]. *)
Ltac krun H := rewrite (run_bind _ _ _ _ _ H).

(** [kpure] runs a step that cannot fail. *)
Ltac kpure :=
  erewrite run_bind; [|first [apply run_gets | apply run_modify | apply run_in_world]];
  cbv beta.
