(* ===== verification/Driver.v ===== *)
(** * Requests, rings and resets of the Linux PCI driver (kernel/vams_pci.c)

    One definition per function of the driver's request path: reference
    counting of mappings, requests and files, tracking and submission, the
    completion ring, reset observation and cancellation, and the interrupt
    handlers.  [mutex_lock]/[spin_lock] bracket the whole body of these
    functions; the interleaving of critical sections is modelled in
    DriverSystem.v.  Message output, wake-ups and barriers have no effect on
    the state.  The code under [CONFIG_VAMS_PCI_TESTING] is compiled out. *)

From S2P Require Import Prelude Abi Linux DriverState.

Section Driver.
Context {W : Type} `{!Kernel W}.

(** ** Mappings *)

(** Unmap, free the table, unpin, free: the resources a mapping holds. *)
Definition vams_mapping_release (p : nat) : K W unit :=
  m ← read_mapping p;
  _ ← read_device;
  modify (fun s =>
    set_k_mappings (delete p (k_mappings s))
      (set_k_pinned (k_pinned s - m_npages m)
        (set_k_sg_tables (k_sg_tables s - 1) (set_k_dma_maps (k_dma_maps s - 1) s)))).

Definition vams_mapping_get (p : nat) : K W unit :=
  update_mapping p (fun m => set_m_refs (m_refs m + 1) m).

Definition vams_mapping_put (mapping : option nat) : K W unit :=
  match mapping with
  | None => mret tt
  | Some p =>
      m ← read_mapping p;
      if m_refs m =? 1 then vams_mapping_release p
      else update_mapping p (set_m_refs (m_refs m - 1))
  end.

(** ** Device and file references *)

(** The instance number goes back if there is one, and so do the name and the
    reference to the PCI device. *)
Definition release_host (d : vams_device) (h : host_resources) : host_resources :=
  {| h_pdev := h_pdev h - 1;
     h_instances := if 0 <=? vd_instance d then h_instances h - 1 else h_instances h;
     h_names := if vd_misc_name d then h_names h - 1 else h_names h |}.

Definition vams_device_release : K W unit :=
  d ← read_device;
  modify (fun s => set_k_dev None (set_k_host (release_host d (k_host s)) s)).

Definition device_get : K W unit := update_device (fun d => set_vd_refs (vd_refs d + 1) d).

Definition device_put : K W unit :=
  d ← read_device;
  if vd_refs d =? 1 then vams_device_release else update_device (set_vd_refs (vd_refs d - 1)).

Definition vams_file_release_refs (f : nat) : K W unit :=
  _ ← read_file f;
  _ ← device_put;
  modify (fun s => set_k_files (delete f (k_files s)) s).

Definition file_get (f : nat) : K W unit :=
  update_file f (fun vf => set_vf_refs (vf_refs vf + 1) vf).

Definition file_put (f : nat) : K W unit :=
  vf ← read_file f;
  if vf_refs vf =? 1 then vams_file_release_refs f
  else update_file f (set_vf_refs (vf_refs vf - 1)).

(** ** Requests *)

Definition new_request (owner : option nat) : vams_request :=
  {| r_done := false; r_refs := 1; r_result := zero_completion; r_owner := owner;
     r_source := None; r_destination := None; r_driver_status := rc_ok; r_command_id := 0;
     r_reset_generation := 0 |}.

Definition vams_request_alloc (owner : option nat) : K W (option nat) :=
  ok ← in_world alloc_ok;
  if negb ok then mret None else
  p ← gets (fun s => fresh (dom (k_requests s)));
  _ ← modify (fun s => set_k_requests (<[p := new_request owner]> (k_requests s)) s);
  _ ← from_option file_get (mret tt) owner;
  mret (Some p).

Definition vams_request_get (p : nat) : K W unit :=
  update_request p (fun r => set_r_refs (r_refs r + 1) r).

Definition free_request (p : nat) : K W unit :=
  modify (fun s => set_k_requests (delete p (k_requests s)) s).

Definition vams_request_put (p : nat) : K W unit :=
  r ← read_request p;
  if r_refs r =? 1 then
    _ ← vams_mapping_put (r_source r);
    _ ← vams_mapping_put (r_destination r);
    _ ← from_option file_put (mret tt) (r_owner r);
    free_request p
  else update_request p (set_r_refs (r_refs r - 1)).

(** The cache maintenance itself has no effect here; the objects it reads must
    be there. *)
Definition sync_mappings (p : nat) : K W unit :=
  r ← read_request p;
  match r_source r, r_destination r with
  | None, None => mret tt
  | source, destination =>
      match r_owner r with
      | None => fault
      | Some f =>
          _ ← read_file f;
          _ ← read_device;
          _ ← from_option (fun m => _ ← read_mapping m; mret tt) (mret tt) source;
          if negb (bool_decide (destination = source)) then
            from_option (fun m => _ ← read_mapping m; mret tt) (mret tt) destination
          else mret tt
      end
  end.

Definition vams_request_sync_for_cpu (p : nat) : K W unit := sync_mappings p.
Definition vams_request_sync_for_device (p : nat) : K W unit := sync_mappings p.

(** [if (request->owner && !READ_ONCE(request->owner->closing)) { ... }] *)
Definition notify_owner (p : nat) : K W unit :=
  r ← read_request p;
  match r_owner r with
  | None => mret tt
  | Some f =>
      vf ← read_file f;
      if vf_closing vf then mret tt
      else update_file f (fun vf =>
             set_vf_completed_requests (atomic_inc_s32 (vf_completed_requests vf)) vf)
  end.

(** Take the request out of the outstanding ones. *)
Definition erase_outstanding (command_id : Z) : K W (option nat) :=
  d ← read_device;
  let '(request, requests) := xa_erase (vd_requests d) command_id in
  _ ← update_device (set_vd_requests requests);
  mret request.

Definition dec_pending : K W unit :=
  update_device (fun d => set_vd_pending_requests (atomic_dec_s32 (vd_pending_requests d)) d).

Definition vams_finish_request (completion : vams_completion) : K W bool :=
  request ← erase_outstanding (c_command_id completion);
  match request with
  | None => mret false
  | Some p =>
      _ ← update_request p (fun r => set_r_driver_status rc_ok (set_r_result completion r));
      _ ← vams_request_sync_for_cpu p;
      _ ← update_request p (set_r_done true);
      _ ← notify_owner p;
      _ ← dec_pending;
      _ ← vams_request_put p;
      mret true
  end.

(** ** The completion ring *)

(** [while (vdev->cq_head != tail) { ... }]: the completions taken out. *)
Fixpoint drain_loop (fuel : nat) (tail : Z) : K W (list vams_completion) :=
  match fuel with
  | O => fault
  | S fuel' =>
      d ← read_device;
      if vd_cq_head d =? tail then mret [] else
      completion ← gets (fun s => cq_entry (vd_cq_head d) (k_world s));
      _ ← update_device (fun d =>
            set_vd_cq_head (Z.land (vd_cq_head d + 1) (VAMS_QUEUE_DEPTH - 1)) d);
      _ ← vams_finish_request completion;
      rest ← drain_loop fuel' tail;
      mret (completion :: rest)
  end.

Definition drain_fuel : nat := 16.

(** Returns the drained entries; the code returns their number. *)
Definition vams_drain_cq : K W (list vams_completion) :=
  d ← read_device;
  if negb (vd_queues_ready d) then mret [] else
  tail ← vams_readl VAMS_REG_CQ_TAIL;
  if VAMS_QUEUE_DEPTH <=? tail then mret [] else
  drained ← drain_loop drain_fuel tail;
  d ← read_device;
  _ ← when (negb (bool_decide (drained = []))) (vams_writel VAMS_REG_CQ_DOORBELL (vd_cq_head d));
  mret drained.

(** ** Resets *)

Definition vams_observe_reset : K W unit :=
  generation ← vams_readl VAMS_REG_RESET_GENERATION;
  d ← read_device;
  if generation =? vd_reset_generation d then mret tt else
  reason ← vams_readl VAMS_REG_LAST_RESET_REASON;
  d ← read_device;
  if negb (generation =? vd_reset_generation d) then
    update_device (fun d => set_vd_reset_scheduled true
      (set_vd_reset_generation generation (set_vd_reset_reason reason d)))
  else mret tt.

Definition vams_cq_poll_work : K W unit :=
  d ← read_device;
  if vd_removing d then mret tt else
  _ ← vams_observe_reset;
  _ ← vams_drain_cq;
  d ← read_device;
  when (0 <? vd_pending_requests d) (update_device (set_vd_poll_scheduled true)).

(** *** Cancellation

    [vams_cancel_requests] takes no lock that the interrupt handlers take, so its
    loop is in pieces between which they can run: moving the iterator, which
    leaves an entry in a local variable without a reference to it; the test of
    [stale_only], which follows that pointer; and the removal of the entry, which
    has the table's reference from then on. *)

Definition cancel_find (after : option Z) : K W (option (Z * nat)) :=
  d ← read_device; mret (xa_next (vd_requests d) after).

(** [stale_only && request->reset_generation == READ_ONCE(vdev->reset_generation)] *)
Definition cancel_skips (stale_only : bool) (p : nat) : K W bool :=
  if stale_only then
    r ← read_request p;
    d ← read_device;
    mret (r_reset_generation r =? vd_reset_generation d)
  else mret false.

Definition cancel_erase (status : rc) (command_id : Z) : K W unit :=
  request ← erase_outstanding command_id;
  match request with
  | None => mret tt
  | Some p =>
      _ ← update_request p (set_r_driver_status status);
      _ ← vams_request_sync_for_cpu p;
      _ ← update_request p (set_r_done true);
      _ ← notify_owner p;
      _ ← dec_pending;
      vams_request_put p
  end.

(** One round of the loop, and the loop, when nothing runs in between. *)
Definition cancel_request (status : rc) (stale_only : bool) (command_id : Z) (p : nat) : K W unit :=
  skips ← cancel_skips stale_only p;
  when (negb skips) (cancel_erase status command_id).

Fixpoint cancel_from (fuel : nat) (status : rc) (stale_only : bool) (after : option Z) : K W unit :=
  match fuel with
  | O => fault
  | S fuel' =>
      found ← cancel_find after;
      match found with
      | None => mret tt
      | Some (command_id, p) =>
          _ ← cancel_request status stale_only command_id p;
          cancel_from fuel' status stale_only (Some command_id)
      end
  end.

Definition vams_cancel_requests (status : rc) (stale_only : bool) : K W unit :=
  d ← read_device;
  cancel_from (S (size (vd_requests d))) status stale_only None.

(** Up to the loop: whether there is one. *)
Definition reset_begin : K W bool :=
  d ← read_device;
  if vd_removing d then mret false else
  _ ← when ((vd_reset_reason d =? VAMS_RESET_REASON_HOST_DEVICE) ||
            (vd_reset_reason d =? VAMS_RESET_REASON_HOST_QUEUE))
        (update_device (set_vd_queues_ready false));
  mret true.

Definition vams_reset_work : K W unit :=
  going_on ← reset_begin;
  when going_on (vams_cancel_requests (rc_err ECANCELED) true).

(** ** Queue configuration *)

Definition vams_disable_queues : K W unit :=
  d ← read_device;
  if negb (vd_queues_ready d) then mret tt else
  _ ← vams_writel VAMS_REG_DEVICE_CONTROL VAMS_DEVICE_QUIESCE;
  _ ← vams_writel VAMS_REG_SQ_CONTROL VAMS_QUEUE_RESET;
  _ ← vams_readl VAMS_REG_DEVICE_STATUS;
  update_device (set_vd_queues_ready false).

Definition lower_32_bits (x : Z) : Z := u32 x.
Definition upper_32_bits (x : Z) : Z := u32 (Z.shiftr x 32).

Definition vams_configure_queues : K W rc :=
  let err_reset : K W rc := _ ← vams_disable_queues; mret (rc_err EIO) in
  d ← read_device;
  _ ← vams_writel VAMS_REG_CQ_BASE_LO (lower_32_bits (vd_cq_dma d));
  _ ← vams_writel VAMS_REG_CQ_BASE_HI (upper_32_bits (vd_cq_dma d));
  _ ← vams_writel VAMS_REG_CQ_DEPTH VAMS_QUEUE_DEPTH;
  _ ← when (has_bits (vd_capabilities d) VAMS_CAP_CQ_WATERMARK)
        (vams_writel VAMS_REG_CQ_WATERMARK
           (Z.lor (Z.shiftl VAMS_CQ_WATERMARK_HIGH 16) VAMS_CQ_WATERMARK_LOW));
  _ ← vams_writel VAMS_REG_SQ_BASE_LO (lower_32_bits (vd_sq_dma d));
  _ ← vams_writel VAMS_REG_SQ_BASE_HI (upper_32_bits (vd_sq_dma d));
  _ ← vams_writel VAMS_REG_SQ_DEPTH VAMS_QUEUE_DEPTH;
  _ ← vams_writel VAMS_REG_CQ_CONTROL VAMS_QUEUE_ENABLE;
  _ ← vams_writel VAMS_REG_SQ_CONTROL VAMS_QUEUE_ENABLE;
  _ ← update_device (set_vd_queues_ready true);
  status ← vams_readl VAMS_REG_CQ_STATUS;
  if negb (has_bits status VAMS_QUEUE_STATUS_ENABLED) then err_reset else
  status ← vams_readl VAMS_REG_SQ_STATUS;
  if negb (has_bits status VAMS_QUEUE_STATUS_ENABLED) then err_reset else
  _ ← update_device (fun d => set_vd_cq_head 0 (set_vd_sq_tail 0 d));
  _ ← vams_writel VAMS_REG_DEVICE_CONTROL VAMS_DEVICE_ENABLE;
  status ← vams_readl VAMS_REG_DEVICE_STATUS;
  if negb (has_bits status VAMS_STATUS_QUEUES_READY) then err_reset else
  mret rc_ok.

(** ** Interrupt handlers (the result is [IRQ_HANDLED]) *)

Definition vams_cq_irq : K W bool :=
  status ← vams_readl VAMS_REG_INTR_STATUS;
  let pending := Z.land status VAMS_INTR_CQ in
  if pending =? 0 then mret false else
  _ ← vams_drain_cq;
  _ ← vams_writel VAMS_REG_INTR_STATUS pending;
  _ ← update_device (fun d => set_vd_cq_interrupts (u64 (vd_cq_interrupts d + 1)) d);
  mret true.

Definition vams_async_irq : K W bool :=
  status ← vams_readl VAMS_REG_INTR_STATUS;
  let pending := Z.land status VAMS_INTR_ASYNC in
  if pending =? 0 then mret false else
  _ ← when (has_bits pending VAMS_INTR_ERROR)
        (_ ← vams_readl VAMS_REG_ERROR_STATUS; _ ← vams_readl VAMS_REG_LAST_FATAL; mret tt);
  _ ← when (has_bits pending VAMS_INTR_RESET_DONE) vams_observe_reset;
  _ ← vams_writel VAMS_REG_INTR_STATUS pending;
  _ ← update_device (fun d => set_vd_async_interrupts (u64 (vd_async_interrupts d + 1)) d);
  mret true.

(** ** Endpoint validation *)

Definition vams_validate_endpoint : K W rc :=
  device_id ← vams_readl VAMS_REG_DEVICE_ID;
  if negb (device_id =? VAMS_DEVICE_ID_VALUE) then mret (rc_err ENODEV) else
  hw_if_version ← vams_readl VAMS_REG_HW_IF_VERSION;
  _ ← update_device (set_vd_hw_if_version hw_if_version);
  if negb (Z.shiftr hw_if_version 16 =? VAMS_HW_IF_MAJOR_SUPPORTED) then
    mret (rc_err EPROTONOSUPPORT) else
  desc_version ← vams_readl VAMS_REG_DESC_VERSION;
  if negb (desc_version =? VAMS_DESC_VERSION_SUPPORTED) then mret (rc_err EPROTONOSUPPORT) else
  capabilities ← vams_readl VAMS_REG_CAPABILITIES;
  _ ← update_device (set_vd_capabilities capabilities);
  if negb (has_bits capabilities VAMS_CAP_MSIX) then mret (rc_err ENODEV) else
  status ← vams_readl VAMS_REG_DEVICE_STATUS;
  if negb (has_bits status VAMS_STATUS_READY) ||
     has_bits status (Z.lor VAMS_STATUS_RESETTING VAMS_STATUS_FATAL) then mret (rc_err EBUSY) else
  fw_version ← vams_readl VAMS_REG_FW_VERSION;
  _ ← update_device (set_vd_fw_version fw_version);
  reset_generation ← vams_readl VAMS_REG_RESET_GENERATION;
  _ ← update_device (set_vd_reset_generation reset_generation);
  mret rc_ok.

(** ** Submission *)

(** [xa_insert(&request->owner->requests, command_id, request, GFP_KERNEL)] *)
Definition owner_insert (f p : nat) (command_id : Z) : K W rc :=
  memory ← in_world alloc_ok;
  vf ← read_file f;
  let '(ret, requests) := xa_insert (vf_requests vf) command_id p memory in
  _ ← update_file f (set_vf_requests requests);
  mret ret.

Definition owner_erase (f : nat) (command_id : Z) : K W (option nat) :=
  vf ← read_file f;
  let '(request, requests) := xa_erase (vf_requests vf) command_id in
  _ ← update_file f (set_vf_requests requests);
  mret request.

(** [xa_insert(&vdev->requests, command_id, request, GFP_KERNEL)] *)
Definition device_insert (p : nat) (command_id : Z) : K W rc :=
  memory ← in_world alloc_ok;
  d ← read_device;
  let '(ret, requests) := xa_insert (vd_requests d) command_id p memory in
  _ ← update_device (set_vd_requests requests);
  mret ret.

Fixpoint track_loop (attempts : nat) (p : nat) : K W rc :=
  match attempts with
  | O => mret (rc_err ENOSPC)
  | S attempts' =>
      d ← read_device;
      let command_id := u32 (vd_next_command_id d + 1) in
      _ ← update_device (set_vd_next_command_id command_id);
      if command_id =? 0 then track_loop attempts' p else
      _ ← update_request p (set_r_command_id command_id);
      r ← read_request p;
      ret ← from_option (fun f => owner_insert f p command_id) (mret rc_ok) (r_owner r);
      if rc_is EBUSY ret then track_loop attempts' p
      else if negb (rc_is_ok ret) then mret ret else
      _ ← vams_request_get p;
      ret ← device_insert p command_id;
      if rc_is_ok ret then mret rc_ok else
      _ ← vams_request_put p;
      _ ← from_option (fun f => _ ← owner_erase f command_id; mret tt) (mret tt) (r_owner r);
      if negb (rc_is EBUSY ret) then mret ret else track_loop attempts' p
  end.

Definition vams_track_request (p : nat) : K W rc := track_loop 32 p.

Definition with_command_id (command_id : Z) (s : vams_submission) : vams_submission :=
  {| s_version := s_version s; s_opcode := s_opcode s; s_flags := s_flags s;
     s_command_id := command_id; s_source_dma := s_source_dma s;
     s_destination_dma := s_destination_dma s; s_length := s_length s;
     s_timeout_ms := s_timeout_ms s; s_user_cookie := s_user_cookie s;
     s_expected_crc := s_expected_crc s; s_reserved0 := s_reserved0 s;
     s_reserved1 := s_reserved1 s; s_reserved2 := s_reserved2 s |}.

(** The second half of [vams_submit]: the tracked request goes into the
    submission ring and the device is told. *)
Definition submit_publish (p : nat) (descriptor : vams_submission) (next_tail : Z) : K W rc :=
  r ← read_request p;
  d ← read_device;
  _ ← modify (fun s => set_k_world
        (sq_store (vd_sq_tail d) (with_command_id (r_command_id r) descriptor) (k_world s)) s);
  _ ← vams_request_sync_for_device p;
  d ← read_device;
  _ ← update_request p (set_r_reset_generation (vd_reset_generation d));
  _ ← update_device (fun d =>
        set_vd_sq_tail next_tail
          (set_vd_pending_requests (atomic_inc_s32 (vd_pending_requests d)) d));
  _ ← vams_writel VAMS_REG_SQ_DOORBELL next_tail;
  d ← read_device;
  _ ← when (0 <? vd_pending_requests d) (update_device (set_vd_poll_scheduled true));
  mret rc_ok.

Definition vams_submit (p : nat) (descriptor : vams_submission) : K W rc :=
  d ← read_device;
  if vd_removing d then mret (rc_err ENODEV) else
  if negb (vd_queues_ready d) then mret (rc_err EOPNOTSUPP) else
  _ ← vams_drain_cq;
  sq_head ← vams_readl VAMS_REG_SQ_HEAD;
  if VAMS_QUEUE_DEPTH <=? sq_head then mret (rc_err EIO) else
  d ← read_device;
  let next_tail := Z.land (vd_sq_tail d + 1) (VAMS_QUEUE_DEPTH - 1) in
  if next_tail =? sq_head then mret (rc_err EAGAIN) else
  ret ← vams_track_request p;
  if negb (rc_is_ok ret) then mret ret else
  submit_publish p descriptor next_tail.

Definition vams_submit_nop (p : nat) (user_cookie timeout_ms : Z) : K W rc :=
  vams_submit p
    {| s_version := VAMS_DESC_VERSION_1; s_opcode := VAMS_OP_NOP; s_flags := 0; s_command_id := 0;
       s_source_dma := 0; s_destination_dma := 0; s_length := 0; s_timeout_ms := timeout_ms;
       s_user_cookie := user_cookie; s_expected_crc := 0; s_reserved0 := 0; s_reserved1 := 0;
       s_reserved2 := 0 |}.
End Driver.
