(* ===== verification/DriverApi.v ===== *)
(** * File operations of the Linux PCI driver (kernel/vams_pci.c)

    [open], [release], [poll] and the ioctls.  An ioctl that blocks, or that
    goes on after dropping into the device, is given in two halves, the point
    between them being where interrupts and other callers may run
    (DriverSystem.v).  The user's argument is [None] when [copy_from_user]
    faults; an output is [Some] when [copy_to_user] delivered it. *)

From S2P Require Import Prelude Abi Linux DriverState Driver.

(** ** The user API (kernel/include/uapi/linux/vams.h) *)

Record vams_ioc_info : Type := {
  ii_size : Z; ii_version : Z; ii_hw_if_version : Z; ii_fw_version : Z;
  ii_capabilities : Z; ii_queue_depth : Z; ii_reset_generation : Z; ii_reserved : Z;
}.

Record vams_ioc_nop : Type := {
  in_size : Z; in_version : Z; in_flags : Z; in_timeout_ms : Z; in_user_cookie : Z;
  in_command_id : Z; in_status : Z; in_error_code : Z; in_bytes_processed : Z;
  in_result_crc : Z; in_device_timestamp : Z; in_reserved : Z;
}.

Record vams_ioc_buffer_register : Type := {
  ir_size : Z; ir_version : Z; ir_flags : Z; ir_handle : Z; ir_user_address : Z;
  ir_length : Z; ir_reserved : Z;
}.

Record vams_ioc_buffer_unregister : Type := {
  iu_size : Z; iu_version : Z; iu_handle : Z; iu_flags : Z; iu_reserved : Z;
}.

Record vams_ioc_submit : Type := {
  is_size : Z; is_version : Z; is_opcode : Z; is_flags : Z; is_source_handle : Z;
  is_destination_handle : Z; is_length : Z; is_timeout_ms : Z; is_source_offset : Z;
  is_destination_offset : Z; is_user_cookie : Z; is_expected_crc : Z; is_command_id : Z;
}.

Record vams_ioc_wait : Type := {
  iw_size : Z; iw_version : Z; iw_command_id : Z; iw_flags : Z; iw_timeout_ms : Z;
  iw_driver_status : Z; iw_status : Z; iw_error_code : Z; iw_bytes_processed : Z;
  iw_result_crc : Z; iw_reserved0 : Z; iw_user_cookie : Z; iw_device_timestamp : Z;
  iw_reserved1 : Z;
}.

Definition sizeof_info : Z := 32.
Definition sizeof_nop : Z := 56.
Definition sizeof_buffer_register : Z := 40.
Definition sizeof_buffer_unregister : Z := 24.
Definition sizeof_submit : Z := 64.
Definition sizeof_wait : Z := 64.

Definition check_add_overflow (a b : Z) : bool := U64_MAX <? a + b.

Section Api.
Context {W : Type} `{!Kernel W}.

(** ** Open and release *)

Definition new_file : vams_file :=
  {| vf_refs := 1; vf_mappings := ∅; vf_requests := ∅; vf_completed_requests := 0;
     vf_closing := false |}.

(** The address of the new file, or the error. *)
Definition vams_open : K W (rc + nat) :=
  ok ← in_world alloc_ok;
  if negb ok then mret (inl (rc_err ENOMEM)) else
  d ← read_device;
  if vd_removing d then mret (inl (rc_err ENODEV)) else
  _ ← device_get;
  f ← gets (fun s => fresh (dom (k_files s)));
  _ ← modify (fun s => set_k_files (<[f := new_file]> (k_files s)) s);
  mret (inr f).

(** [xa_for_each(&vfile->requests, ...) { xa_erase; vams_request_put }] *)
Fixpoint release_requests (f : nat) (indices : list Z) : K W unit :=
  match indices with
  | [] => mret tt
  | index :: indices' =>
      request ← owner_erase f index;
      _ ← from_option vams_request_put (mret tt) request;
      release_requests f indices'
  end.

Definition mapping_erase (f : nat) (handle : Z) : K W (option nat) :=
  vf ← read_file f;
  let '(mapping, mappings) := xa_erase (vf_mappings vf) handle in
  _ ← update_file f (set_vf_mappings mappings);
  mret mapping.

Fixpoint release_mappings (f : nat) (indices : list Z) : K W unit :=
  match indices with
  | [] => mret tt
  | index :: indices' =>
      mapping ← mapping_erase f index;
      _ ← vams_mapping_put mapping;
      release_mappings f indices'
  end.

Definition vams_release (f : nat) : K W unit :=
  _ ← update_file f (set_vf_closing true);
  vf ← read_file f;
  _ ← release_requests f (xa_indices (vf_requests vf));
  vf ← read_file f;
  _ ← release_mappings f (xa_indices (vf_mappings vf));
  file_put f.

(** ** Registered buffers *)

Definition vams_mapping_direction (flags : Z) : dma_data_direction :=
  if flags =? VAMS_BUFFER_READ then DMA_TO_DEVICE
  else if flags =? VAMS_BUFFER_WRITE then DMA_FROM_DEVICE
  else DMA_BIDIRECTIONAL.

Definition PAGE_SHIFT : Z := 12.
Definition PAGE_MASK : Z := Z.lnot 4095.
Definition FOLL_WRITE : Z := 0x01.
Definition FOLL_LONGTERM : Z := 0x100.

Definition register_args_bad (input : vams_ioc_buffer_register) : bool :=
  negb (ir_size input =? sizeof_buffer_register) ||
  negb (ir_version input =? VAMS_UAPI_VERSION) || negb (ir_handle input =? 0) ||
  (ir_flags input =? 0) || has_bits (ir_flags input) (U32_MAX - VAMS_BUFFER_FLAGS) ||
  (ir_length input =? 0) || (VAMS_MAX_TRANSFER <? ir_length input) ||
  negb (ir_reserved input =? 0) || (U64_MAX <? ir_user_address input) ||
  (U64_MAX <? ir_length input).

Definition with_handle (handle : Z) (i : vams_ioc_buffer_register) : vams_ioc_buffer_register :=
  {| ir_size := ir_size i; ir_version := ir_version i; ir_flags := ir_flags i;
     ir_handle := handle; ir_user_address := ir_user_address i; ir_length := ir_length i;
     ir_reserved := ir_reserved i |}.

(** The undo steps of the error labels. *)
Definition undo_map : K W unit := modify (fun s => set_k_dma_maps (k_dma_maps s - 1) s).
Definition undo_sg : K W unit := modify (fun s => set_k_sg_tables (k_sg_tables s - 1) s).
Definition undo_pin (n : Z) : K W unit := modify (fun s => set_k_pinned (k_pinned s - n) s).

(** From [mapping->dma_addr = ...] on, with the mapping's fields filled in; the
    object enters the heap when it gets its address in the file's table.  On an
    error before that the caller unwinds. *)
Definition register_publish (f : nat) (m : vams_mapping) (input : vams_ioc_buffer_register)
    : K W (rc * option vams_ioc_buffer_register) :=
  p ← gets (fun s => fresh (dom (k_mappings s)));
  memory ← in_world alloc_ok;
  vf ← read_file f;
  let '(ret, handle, mappings) := xa_alloc (vf_mappings vf) p memory in
  if negb (rc_is_ok ret) then
    _ ← undo_map; _ ← undo_sg; _ ← undo_pin (m_npages m); mret (ret, None)
  else
    _ ← update_file f (set_vf_mappings mappings);
    _ ← modify (fun s => set_k_mappings (<[p := set_m_handle handle m]> (k_mappings s)) s);
    copied ← in_world copy_to_user_ok;
    if negb copied then
      _ ← mapping_erase f handle;
      _ ← vams_mapping_put (Some p);
      mret (rc_err EFAULT, None)
    else mret (rc_ok, Some (with_handle handle input)).

(** The scatter table and the DMA mapping of the [npages] pinned pages. *)
Definition register_map (f : nat) (input : vams_ioc_buffer_register) (npages : Z)
    : K W (rc * option vams_ioc_buffer_register) :=
  let first := ir_user_address input in
  ret ← in_world (sg_alloc_table_from_pages npages (Z.land first 4095) (ir_length input));
  if negb (rc_is_ok ret) then _ ← undo_pin npages; mret (ret, None) else
  _ ← modify (fun s => set_k_sg_tables (k_sg_tables s + 1) s);
  mapped ← in_world dma_map_sg;
  if mapped =? 0 then _ ← undo_sg; _ ← undo_pin npages; mret (rc_err EIO, None) else
  _ ← modify (fun s => set_k_dma_maps (k_dma_maps s + 1) s);
  dma_len ← gets (fun s => sg_dma_len (k_world s));
  if negb (mapped =? 1) || (dma_len <? ir_length input) then
    _ ← undo_map; _ ← undo_sg; _ ← undo_pin npages; mret (rc_err ERANGE, None)
  else
  dma_addr ← gets (fun s => sg_dma_address (k_world s));
  register_publish f
    {| m_refs := 1; m_dma_addr := dma_addr;
       m_direction := vams_mapping_direction (ir_flags input); m_npages := npages;
       m_user_address := first; m_length := ir_length input;
       m_flags := ir_flags input; m_handle := 0 |} input.

Definition vams_ioctl_buffer_register (f : nat) (argp : option vams_ioc_buffer_register)
    : K W (rc * option vams_ioc_buffer_register) :=
  match argp with
  | None => mret (rc_err EFAULT, None)
  | Some input =>
      if register_args_bad input then mret (rc_err EINVAL, None) else
      let first := ir_user_address input in
      user_ok ← gets (fun s => access_ok first (ir_length input) (k_world s));
      if check_add_overflow first (ir_length input) || negb user_ok then
        mret (rc_err EFAULT, None) else
      let last := first + ir_length input - 1 in
      let npages := Z.shiftr last PAGE_SHIFT - Z.shiftr first PAGE_SHIFT + 1 in
      vf ← read_file f;
      d ← read_device;
      if vf_closing vf || vd_removing d then mret (rc_err ENODEV, None) else
      mapping ← in_world alloc_ok;
      if negb mapping then mret (rc_err ENOMEM, None) else
      pages ← in_world alloc_ok;
      if negb pages then mret (rc_err ENOMEM, None) else
      let gup_flags := if has_bits (ir_flags input) VAMS_BUFFER_WRITE
                       then Z.lor FOLL_LONGTERM FOLL_WRITE else FOLL_LONGTERM in
      pinned ← in_world (pin_user_pages_fast (Z.land first PAGE_MASK) npages gup_flags);
      match pinned with
      | inl e => mret (rc_err e, None)
      | inr n =>
          _ ← modify (fun s => set_k_pinned (k_pinned s + n) s);
          if negb (n =? npages) then
            _ ← when (0 <? n) (undo_pin n);
            mret (rc_err EFAULT, None)
          else
          register_map f input npages
      end
  end.

Definition vams_ioctl_buffer_unregister (f : nat) (argp : option vams_ioc_buffer_unregister)
    : K W rc :=
  match argp with
  | None => mret (rc_err EFAULT)
  | Some input =>
      if negb (iu_size input =? sizeof_buffer_unregister) ||
         negb (iu_version input =? VAMS_UAPI_VERSION) || (iu_handle input =? 0) ||
         negb (iu_flags input =? 0) || negb (iu_reserved input =? 0)
      then mret (rc_err EINVAL) else
      vf ← read_file f;
      match xa_load (vf_mappings vf) (iu_handle input) with
      | None => mret (rc_err ENOENT)
      | Some p =>
          m ← read_mapping p;
          if negb (m_refs m =? 1) then mret (rc_err EBUSY) else
          _ ← mapping_erase f (iu_handle input);
          _ ← vams_mapping_put (Some p);
          mret rc_ok
      end
  end.

(** ** Asynchronous submission *)

(** The mapping with a reference taken and the bus address of the range. *)
Definition vams_mapping_lookup_locked (f : nat) (handle offset length required_flags : Z)
    : K W (rc + nat * Z) :=
  if (handle =? 0) || check_add_overflow offset length then mret (inl (rc_err EINVAL)) else
  let end_ := offset + length in
  vf ← read_file f;
  match xa_load (vf_mappings vf) handle with
  | None => mret (inl (rc_err ENOENT))
  | Some p =>
      m ← read_mapping p;
      if negb (Z.land (m_flags m) required_flags =? required_flags) then
        mret (inl (rc_err EACCES))
      else if m_length m <? end_ then mret (inl (rc_err ERANGE))
      else
        let dma_address := m_dma_addr m + offset in
        if check_add_overflow (m_dma_addr m) offset || (dma_address =? 0) ||
           check_add_overflow dma_address length
        then mret (inl (rc_err EOVERFLOW))
        else _ ← vams_mapping_get p; mret (inr (p, dma_address))
  end.

Definition submit_args_bad (input : vams_ioc_submit) : bool :=
  negb (is_size input =? sizeof_submit) || negb (is_version input =? VAMS_UAPI_VERSION) ||
  negb (is_command_id input =? 0) || (60000 <? is_timeout_ms input) ||
  (VAMS_MAX_TRANSFER <? is_length input) ||
  has_bits (is_flags input) (U32_MAX - VAMS_SUBMIT_VERIFY_CRC) ||
  (negb (is_opcode input =? VAMS_OP_CRC32) && negb (is_flags input =? 0)) ||
  (((is_flags input =? 0) || negb (is_opcode input =? VAMS_OP_CRC32)) &&
   negb (is_expected_crc input =? 0)).

(** The [switch (input.opcode)]: [source_access], [destination_access] and
    [source_length], or [-EINVAL]. *)
Definition submit_access (input : vams_ioc_submit) : option (Z * Z * Z) :=
  let op := is_opcode input in
  let no_source := is_source_handle input =? 0 in
  let no_destination := is_destination_handle input =? 0 in
  if op =? VAMS_OP_NOP then
    if negb no_source || negb no_destination || negb (is_source_offset input =? 0) ||
       negb (is_destination_offset input =? 0) || negb (is_length input =? 0)
    then None else Some (0, 0, 0)
  else if op =? VAMS_OP_MEM_COPY then
    if (is_length input =? 0) || no_source || no_destination then None
    else Some (VAMS_BUFFER_READ, VAMS_BUFFER_WRITE, is_length input)
  else if op =? VAMS_OP_MEM_FILL then
    if (is_length input =? 0) || no_source || no_destination then None
    else Some (VAMS_BUFFER_READ, VAMS_BUFFER_WRITE, 1)
  else if op =? VAMS_OP_CRC32 then
    if (is_length input =? 0) || no_source || negb no_destination ||
       negb (is_destination_offset input =? 0)
    then None else Some (VAMS_BUFFER_READ, 0, is_length input)
  else if op =? VAMS_OP_VECTOR_ADD then
    if (is_length input <? 4) || has_bits (is_length input) 3 || no_source || no_destination
    then None
    else Some (VAMS_BUFFER_READ, Z.lor VAMS_BUFFER_READ VAMS_BUFFER_WRITE, is_length input)
  else None.

(** [source_dma < destination_dma + input.length && ...], modulo 2^64. *)
Definition submit_overlaps (input : vams_ioc_submit) (source_dma destination_dma : Z) : bool :=
  negb (source_dma =? 0) && negb (destination_dma =? 0) &&
  negb (is_opcode input =? VAMS_OP_MEM_FILL) &&
  (source_dma <? u64 (destination_dma + is_length input)) &&
  (destination_dma <? u64 (source_dma + is_length input)).

Definition submit_descriptor (input : vams_ioc_submit) (source_dma destination_dma : Z)
    : vams_submission :=
  {| s_version := VAMS_DESC_VERSION_1; s_opcode := u8 (is_opcode input);
     s_flags := u8 (is_flags input); s_command_id := 0; s_source_dma := source_dma;
     s_destination_dma := destination_dma; s_length := is_length input;
     s_timeout_ms := is_timeout_ms input; s_user_cookie := is_user_cookie input;
     s_expected_crc := is_expected_crc input; s_reserved0 := 0; s_reserved1 := 0;
     s_reserved2 := 0 |}.

(** A lookup that is skipped when the opcode does not use the buffer. *)
Definition optional_lookup (f : nat) (handle offset length access : Z)
    : K W (rc + option nat * Z) :=
  if access =? 0 then mret (inr (None, 0)) else
  found ← vams_mapping_lookup_locked f handle offset length access;
  mret (match found with inl e => inl e | inr (p, dma) => inr (Some p, dma) end).

(** [out_put_mappings]: drop both lookups. *)
Definition put_mappings (source destination : option nat) : K W unit :=
  _ ← vams_mapping_put destination; vams_mapping_put source.

(** From [vams_request_alloc] on: the request takes over the references of the
    lookups and goes to the device. *)
Definition submit_request (f : nat) (source destination : option nat)
    (descriptor : vams_submission) : K W (rc + nat * vams_submission) :=
  request ← vams_request_alloc (Some f);
  match request with
  | None => _ ← put_mappings source destination; mret (inl (rc_err ENOMEM))
  | Some p =>
      _ ← update_request p (fun r => set_r_destination destination (set_r_source source r));
      ret ← vams_submit p descriptor;
      if negb (rc_is_ok ret) then _ ← vams_request_put p; mret (inl ret)
      else mret (inr (p, descriptor))
  end.

(** Up to [vams_submit]: the request in flight, or the error. *)
Definition submit_begin (f : nat) (argp : option vams_ioc_submit)
    : K W (rc + nat * vams_submission) :=
  match argp with
  | None => mret (inl (rc_err EFAULT))
  | Some input =>
      if submit_args_bad input then mret (inl (rc_err EINVAL)) else
      match submit_access input with
      | None => mret (inl (rc_err EINVAL))
      | Some (source_access, destination_access, source_length) =>
          vf ← read_file f;
          if vf_closing vf then mret (inl (rc_err ENODEV)) else
          source ← optional_lookup f (is_source_handle input) (is_source_offset input)
                     source_length source_access;
          match source with
          | inl e => mret (inl e)
          | inr (source, source_dma) =>
              destination ← optional_lookup f (is_destination_handle input)
                              (is_destination_offset input) (is_length input)
                              destination_access;
              match destination with
              | inl e => _ ← vams_mapping_put source; mret (inl e)
              | inr (destination, destination_dma) =>
                  if submit_overlaps input source_dma destination_dma then
                    _ ← put_mappings source destination; mret (inl (rc_err EINVAL))
                  else
                    submit_request f source destination
                      (submit_descriptor input source_dma destination_dma)
              end
          end
      end
  end.

(** From [input.command_id = request->command_id] on; the id the user gets. *)
Definition submit_end (f p : nat) : K W (rc * option Z) :=
  r ← read_request p;
  copied ← in_world copy_to_user_ok;
  if negb copied then
    _ ← owner_erase f (r_command_id r);
    r ← read_request p;
    _ ← when (r_done r) (update_file f (fun vf =>
          set_vf_completed_requests (atomic_dec_if_positive (vf_completed_requests vf)) vf));
    _ ← vams_request_put p;
    mret (rc_err EFAULT, None)
  else mret (rc_ok, Some (r_command_id r)).

Definition vams_ioctl_submit (f : nat) (argp : option vams_ioc_submit) : K W (rc * option Z) :=
  begun ← submit_begin f argp;
  match begun with
  | inl e => mret (e, None)
  | inr (p, _) => submit_end f p
  end.

(** ** Waiting *)

Definition wait_args_bad (o : vams_ioc_wait) : bool :=
  negb (iw_size o =? sizeof_wait) || negb (iw_version o =? VAMS_UAPI_VERSION) ||
  (iw_command_id o =? 0) || negb (iw_flags o =? 0) || (60000 <? iw_timeout_ms o) ||
  negb (iw_driver_status o =? 0) || negb (iw_status o =? 0) ||
  negb (iw_error_code o =? 0) || negb (iw_bytes_processed o =? 0) ||
  negb (iw_result_crc o =? 0) || negb (iw_reserved0 o =? 0) || negb (iw_user_cookie o =? 0) ||
  negb (iw_device_timestamp o =? 0) || negb (iw_reserved1 o =? 0).

(** The request with a reference taken, or the error. *)
Definition wait_begin (f : nat) (argp : option vams_ioc_wait) : K W (rc + nat) :=
  match argp with
  | None => mret (inl (rc_err EFAULT))
  | Some output =>
      if wait_args_bad output then mret (inl (rc_err EINVAL)) else
      vf ← read_file f;
      match xa_load (vf_requests vf) (iw_command_id output) with
      | None => mret (inl (rc_err ENOENT))
      | Some p => _ ← vams_request_get p; mret (inr p)
      end
  end.

(** How [wait_for_completion_interruptible_timeout] ended. *)
Inductive waited : Type := w_completed | w_timed_out | w_interrupted.

Definition wait_error (timeout_ms : Z) (how : waited) (done : bool) : option rc :=
  if timeout_ms =? 0 then if done then None else Some (rc_err EAGAIN)
  else match how with
       | w_interrupted => Some (rc_err ERESTARTSYS)
       | w_timed_out => Some (rc_err ETIMEDOUT)
       | w_completed => None
       end.

Definition wait_output (o : vams_ioc_wait) (r : vams_request) : vams_ioc_wait :=
  {| iw_size := iw_size o; iw_version := iw_version o; iw_command_id := iw_command_id o;
     iw_flags := iw_flags o; iw_timeout_ms := iw_timeout_ms o;
     iw_driver_status := rc_value (r_driver_status r); iw_status := c_status (r_result r);
     iw_error_code := c_error_code (r_result r);
     iw_bytes_processed := c_bytes_processed (r_result r);
     iw_result_crc := c_result_crc (r_result r); iw_reserved0 := iw_reserved0 o;
     iw_user_cookie := c_user_cookie (r_result r);
     iw_device_timestamp := c_device_timestamp (r_result r); iw_reserved1 := iw_reserved1 o |}.

Definition wait_end (f p : nat) (output : vams_ioc_wait) (how : waited)
    : K W (rc * option vams_ioc_wait) :=
  r ← read_request p;
  result ← match wait_error (iw_timeout_ms output) how (r_done r) with
           | Some e => mret (e, None)
           | None =>
               let output := wait_output output r in
               vf ← read_file f;
               if negb (bool_decide (xa_load (vf_requests vf) (iw_command_id output) = Some p))
               then mret (rc_err EALREADY, None) else
               copied ← in_world copy_to_user_ok;
               if negb copied then mret (rc_err EFAULT, None) else
               _ ← owner_erase f (iw_command_id output);
               _ ← update_file f (fun vf => set_vf_completed_requests
                     (atomic_dec_if_positive (vf_completed_requests vf)) vf);
               _ ← vams_request_put p;
               mret (rc_ok, Some output)
           end;
  _ ← vams_request_put p;
  mret result.

(** ** Device information and the synchronous NOP *)

Definition vams_ioctl_info (argp : option vams_ioc_info) : K W (rc * option vams_ioc_info) :=
  match argp with
  | None => mret (rc_err EFAULT, None)
  | Some info =>
      if negb (ii_size info =? sizeof_info) || negb (ii_version info =? VAMS_UAPI_VERSION) ||
         negb (ii_reserved info =? 0)
      then mret (rc_err EINVAL, None) else
      d ← read_device;
      if vd_removing d then mret (rc_err ENODEV, None) else
      copied ← in_world copy_to_user_ok;
      if negb copied then mret (rc_err EFAULT, None) else
      mret (rc_ok, Some
        {| ii_size := ii_size info; ii_version := ii_version info;
           ii_hw_if_version := vd_hw_if_version d; ii_fw_version := vd_fw_version d;
           ii_capabilities := Z.land (vd_capabilities d) VAMS_CAP_KNOWN;
           ii_queue_depth := if vd_queues_ready d then VAMS_QUEUE_DEPTH else 0;
           ii_reset_generation := vd_reset_generation d; ii_reserved := ii_reserved info |})
  end.

Definition nop_begin (argp : option vams_ioc_nop) : K W (rc + nat) :=
  match argp with
  | None => mret (inl (rc_err EFAULT))
  | Some nop =>
      if negb (in_size nop =? sizeof_nop) || negb (in_version nop =? VAMS_UAPI_VERSION) ||
         negb (in_flags nop =? 0) || negb (in_reserved nop =? 0) || (60000 <? in_timeout_ms nop)
      then mret (inl (rc_err EINVAL)) else
      request ← vams_request_alloc None;
      match request with
      | None => mret (inl (rc_err ENOMEM))
      | Some p =>
          ret ← vams_submit_nop p (in_user_cookie nop) (in_timeout_ms nop);
          if negb (rc_is_ok ret) then _ ← vams_request_put p; mret (inl ret)
          else mret (inr p)
      end
  end.

Definition nop_output (nop : vams_ioc_nop) (r : vams_request) : vams_ioc_nop :=
  {| in_size := in_size nop; in_version := in_version nop; in_flags := in_flags nop;
     in_timeout_ms := in_timeout_ms nop; in_user_cookie := in_user_cookie nop;
     in_command_id := r_command_id r; in_status := c_status (r_result r);
     in_error_code := c_error_code (r_result r);
     in_bytes_processed := c_bytes_processed (r_result r);
     in_result_crc := c_result_crc (r_result r);
     in_device_timestamp := c_device_timestamp (r_result r); in_reserved := in_reserved nop |}.

Definition nop_end (p : nat) (nop : vams_ioc_nop) (how : waited)
    : K W (rc * option vams_ioc_nop) :=
  r ← read_request p;
  result ← match how with
           | w_interrupted => mret (rc_err ERESTARTSYS, None)
           | w_timed_out => mret (rc_err ETIMEDOUT, None)
           | w_completed =>
               if negb (rc_is_ok (r_driver_status r)) then mret (r_driver_status r, None) else
               copied ← in_world copy_to_user_ok;
               if negb copied then mret (rc_err EFAULT, None)
               else mret (rc_ok, Some (nop_output nop r))
           end;
  _ ← vams_request_put p;
  mret result.

(** ** Poll *)

Definition EPOLLIN : Z := 0x001.
Definition EPOLLOUT : Z := 0x004.
Definition EPOLLERR : Z := 0x008.
Definition EPOLLHUP : Z := 0x010.
Definition EPOLLRDNORM : Z := 0x040.
Definition EPOLLWRNORM : Z := 0x100.

(** Up to the checks of the flags, none under a lock: the mask so far, and
    whether the code goes on to read the ring head. *)
Definition poll_check (f : nat) : K W (Z * bool) :=
  vf ← read_file f;
  d ← read_device;
  let mask := if 0 <? vf_completed_requests vf then Z.lor EPOLLIN EPOLLRDNORM else 0 in
  if vf_closing vf || vd_removing d then mret (Z.lor (Z.lor mask EPOLLERR) EPOLLHUP, false) else
  if negb (vd_queues_ready d) then mret (Z.lor mask EPOLLERR, false) else
  mret (mask, true).

Definition poll_read (mask : Z) : K W Z :=
  sq_head ← vams_readl VAMS_REG_SQ_HEAD;
  d ← read_device;
  let next_tail := Z.land (vd_sq_tail d + 1) (VAMS_QUEUE_DEPTH - 1) in
  mret (if (sq_head <? VAMS_QUEUE_DEPTH) && negb (next_tail =? sq_head)
        then Z.lor mask (Z.lor EPOLLOUT EPOLLWRNORM) else mask).

Definition vams_poll (f : nat) : K W Z :=
  checked ← poll_check f;
  if snd (A:=Z) (B:=bool) checked then poll_read (fst checked) else mret (fst checked).
End Api.
