(* ===== verification/DriverIoctl.v ===== *)
(** * The ioctl entry of the Linux PCI driver
    (kernel/include/uapi/linux/vams.h and [vams_ioctl] of kernel/vams_pci.c)

    What user space and the driver agree on byte for byte: the layout the C
    compiler gives each argument structure, the ioctl numbers, which contain the
    size of the structure, and the dispatch on them.  A structure in user memory
    is read and written field by field at its offsets; padding is whatever the
    user left there.

    The layout depends on the alignment of 64-bit integers, which is 8 for the
    native (LP64) caller and 4 for an i386 process that comes in through
    [compat_ioctl]. *)

From S2P Require Import Prelude Abi Linux DriverState Driver DriverApi.

(** ** Structure layout *)

Inductive c_abi : Type := abi_lp64 | abi_i386.

Definition field_align (abi : c_abi) (width : nat) : nat :=
  match abi with abi_i386 => Nat.min width 4 | abi_lp64 => width end.

Definition align_up (offset align : nat) : nat :=
  ((offset + (align - 1)) / align * align)%nat.

(** Offset and width of every field, with the next free offset. *)
Fixpoint place (abi : c_abi) (offset : nat) (widths : list nat) : list (nat * nat) * nat :=
  match widths with
  | [] => ([], offset)
  | w :: ws =>
      let at_ := align_up offset (field_align abi w) in
      let '(fields, end_) := place abi (at_ + w) ws in
      ((at_, w) :: fields, end_)
  end.

Definition struct_fields (abi : c_abi) (widths : list nat) : list (nat * nat) :=
  (place abi 0 widths).1.
Definition struct_size (abi : c_abi) (widths : list nat) : nat :=
  align_up (place abi 0 widths).2 (foldr Nat.max 1%nat (field_align abi <$> widths)).

(** ** Structures in memory *)

Fixpoint load_fields (fields : list (nat * nat)) (bs : list Z) : list Z :=
  match fields with
  | [] => []
  | (offset, w) :: fields' => le_value (take w (drop offset bs)) :: load_fields fields' bs
  end.

Definition store_field (offset w : nat) (x : Z) (bs : list Z) : list Z :=
  take offset bs ++ le_bytes w x ++ drop (offset + w) bs.

Fixpoint store_fields (fields : list (nat * nat)) (xs : list Z) (bs : list Z) : list Z :=
  match fields, xs with
  | (offset, w) :: fields', x :: xs' => store_fields fields' xs' (store_field offset w x bs)
  | _, _ => bs
  end.

(** A structure of the user API: the widths of its fields, and its values as
    unsigned integers.  [us_wf]: the fields are in the range of their types. *)
Class UserStruct (A : Type) := {
  us_widths : list nat;
  us_values : A -> list Z;
  us_of_values : list Z -> option A;
  us_wf : A -> Prop;
  us_fits a : us_wf a -> Forall2 fits us_widths (us_values a);
  us_inverse a : us_wf a -> us_of_values (us_values a) = Some a;
}.
Arguments us_widths A {_}.

Definition sizeof (A : Type) `{!UserStruct A} : nat := struct_size abi_lp64 (us_widths A).
Definition of_bytes {A} `{!UserStruct A} (bs : list Z) : option A :=
  us_of_values (load_fields (struct_fields abi_lp64 (us_widths A)) bs).
Definition into_bytes {A} `{!UserStruct A} (a : A) (bs : list Z) : list Z :=
  store_fields (struct_fields abi_lp64 (us_widths A)) (us_values a) bs.

Definition info_widths : list nat := replicate 8 4%nat.
Definition info_values (i : vams_ioc_info) : list Z :=
  [ii_size i; ii_version i; ii_hw_if_version i; ii_fw_version i; ii_capabilities i;
   ii_queue_depth i; ii_reset_generation i; ii_reserved i].
#[export] Instance info_struct : UserStruct vams_ioc_info.
Proof.
  refine {| us_widths := info_widths; us_values := info_values;
    us_of_values l := match l with
      | [a; b; c; d; e; f; g; h] => Some (Build_vams_ioc_info a b c d e f g h)
      | _ => None end;
    us_wf i := Forall2 fits info_widths (info_values i) |}; [done|by intros []].
Defined.

Definition nop_widths : list nat := [4; 4; 4; 4; 8; 4; 2; 2; 4; 4; 8; 8]%nat.
Definition nop_values (i : vams_ioc_nop) : list Z :=
  [in_size i; in_version i; in_flags i; in_timeout_ms i; in_user_cookie i;
   in_command_id i; in_status i; in_error_code i; in_bytes_processed i; in_result_crc i;
   in_device_timestamp i; in_reserved i].
#[export] Instance nop_struct : UserStruct vams_ioc_nop.
Proof.
  refine {| us_widths := nop_widths; us_values := nop_values;
    us_of_values l := match l with
      | [a; b; c; d; e; f; g; h; i; j; k; m] => Some (Build_vams_ioc_nop a b c d e f g h i j k m)
      | _ => None end;
    us_wf i := Forall2 fits nop_widths (nop_values i) |}; [done|by intros []].
Defined.

Definition register_widths : list nat := [4; 4; 4; 4; 8; 8; 8]%nat.
Definition register_values (i : vams_ioc_buffer_register) : list Z :=
  [ir_size i; ir_version i; ir_flags i; ir_handle i; ir_user_address i; ir_length i;
   ir_reserved i].
#[export] Instance register_struct : UserStruct vams_ioc_buffer_register.
Proof.
  refine {| us_widths := register_widths; us_values := register_values;
    us_of_values l := match l with
      | [a; b; c; d; e; f; g] => Some (Build_vams_ioc_buffer_register a b c d e f g)
      | _ => None end;
    us_wf i := Forall2 fits register_widths (register_values i) |}; [done|by intros []].
Defined.

Definition unregister_widths : list nat := [4; 4; 4; 4; 8]%nat.
Definition unregister_values (i : vams_ioc_buffer_unregister) : list Z :=
  [iu_size i; iu_version i; iu_handle i; iu_flags i; iu_reserved i].
#[export] Instance unregister_struct : UserStruct vams_ioc_buffer_unregister.
Proof.
  refine {| us_widths := unregister_widths; us_values := unregister_values;
    us_of_values l := match l with
      | [a; b; c; d; e] => Some (Build_vams_ioc_buffer_unregister a b c d e)
      | _ => None end;
    us_wf i := Forall2 fits unregister_widths (unregister_values i) |}; [done|by intros []].
Defined.

Definition submit_widths : list nat := [4; 4; 2; 2; 4; 4; 4; 4; 8; 8; 8; 4; 4]%nat.
Definition submit_values (i : vams_ioc_submit) : list Z :=
  [is_size i; is_version i; is_opcode i; is_flags i; is_source_handle i;
   is_destination_handle i; is_length i; is_timeout_ms i; is_source_offset i;
   is_destination_offset i; is_user_cookie i; is_expected_crc i; is_command_id i].
#[export] Instance submit_struct : UserStruct vams_ioc_submit.
Proof.
  refine {| us_widths := submit_widths; us_values := submit_values;
    us_of_values l := match l with
      | [a; b; c; d; e; f; g; h; i; j; k; m; n] =>
          Some (Build_vams_ioc_submit a b c d e f g h i j k m n)
      | _ => None end;
    us_wf i := Forall2 fits submit_widths (submit_values i) |}; [done|by intros []].
Defined.

(** [driver_status] is a signed 32-bit field. *)
Definition wait_widths : list nat := [4; 4; 4; 4; 4; 4; 2; 2; 4; 4; 4; 8; 8; 8]%nat.
Definition wait_values (i : vams_ioc_wait) : list Z :=
  [iw_size i; iw_version i; iw_command_id i; iw_flags i; iw_timeout_ms i; u32 (iw_driver_status i);
   iw_status i; iw_error_code i; iw_bytes_processed i; iw_result_crc i; iw_reserved0 i;
   iw_user_cookie i; iw_device_timestamp i; iw_reserved1 i].

Lemma s32_u32 x : -2147483648 <= x < 2147483648 -> s32 (u32 x) = x.
Proof.
  intros Hx. unfold s32, u32. rewrite Z.add_mod_idemp_l by done. rewrite Z.mod_small by lia. lia.
Qed.

#[export] Instance wait_struct : UserStruct vams_ioc_wait.
Proof.
  refine {| us_widths := wait_widths; us_values := wait_values;
    us_of_values l := match l with
      | [a; b; c; d; e; f; g; h; i; j; k; m; n; o] =>
          Some (Build_vams_ioc_wait a b c d e (s32 f) g h i j k m n o)
      | _ => None end;
    us_wf i := Forall2 fits wait_widths (wait_values i) /\
      -2147483648 <= iw_driver_status i < 2147483648 |}; [by intros i [Hw _]|].
  intros [] [_ Hs]. simpl in *. by rewrite s32_u32.
Defined.

(** ** Command numbers *)

Definition VAMS_IOCTL_MAGIC : Z := 0x56.

(** Linux's [_IOC]: direction, size, type and number. *)
Definition IOC (dir nr : Z) (size : nat) : Z :=
  Z.lor (Z.lor (Z.shiftl dir 30) (Z.shiftl (Z.of_nat size) 16)) (Z.lor (Z.shiftl VAMS_IOCTL_MAGIC 8) nr).
Definition IOW : Z -> nat -> Z := IOC 1.
Definition IOWR : Z -> nat -> Z := IOC 3.

Section Numbers.
Context (abi : c_abi).
#[local] Abbreviation size_of widths := (struct_size abi widths).
Definition VAMS_IOCTL_GET_INFO : Z := IOWR 0x00 (size_of info_widths).
Definition VAMS_IOCTL_NOP : Z := IOWR 0x01 (size_of nop_widths).
Definition VAMS_IOCTL_BUFFER_REGISTER : Z := IOWR 0x02 (size_of register_widths).
Definition VAMS_IOCTL_BUFFER_UNREGISTER : Z := IOW 0x03 (size_of unregister_widths).
Definition VAMS_IOCTL_SUBMIT : Z := IOWR 0x04 (size_of submit_widths).
Definition VAMS_IOCTL_WAIT : Z := IOWR 0x05 (size_of wait_widths).
End Numbers.

(** ** Dispatch *)

(** The bytes at the user's argument; [None] where they cannot be read. *)
Definition user_memory : Type := nat -> option (list Z).

Definition copy_from_user {A} `{!UserStruct A} (user : user_memory) : option A :=
  bs ← user (sizeof A); of_bytes bs.
Definition copy_to_user {A} `{!UserStruct A} (user : user_memory) (out : option A) : option (list Z) :=
  a ← out; bs ← user (sizeof A); Some (into_bytes a bs).

Definition with_submit_id (command_id : Z) (i : vams_ioc_submit) : vams_ioc_submit :=
  {| is_size := is_size i; is_version := is_version i; is_opcode := is_opcode i;
     is_flags := is_flags i; is_source_handle := is_source_handle i;
     is_destination_handle := is_destination_handle i; is_length := is_length i;
     is_timeout_ms := is_timeout_ms i; is_source_offset := is_source_offset i;
     is_destination_offset := is_destination_offset i; is_user_cookie := is_user_cookie i;
     is_expected_crc := is_expected_crc i; is_command_id := command_id |}.

Section Ioctl.
Context {W : Type} `{!Kernel W}.

(** The two halves in a row, the sleep between them ending [how]. *)
Definition vams_ioctl_wait (f : nat) (argp : option vams_ioc_wait) (how : waited)
    : K W (rc * option vams_ioc_wait) :=
  begun ← wait_begin f argp;
  match begun, argp with
  | inr p, Some output => wait_end f p output how
  | inl e, _ => mret (e, None)
  | inr _, None => fault
  end.

Definition vams_ioctl_nop (argp : option vams_ioc_nop) (how : waited)
    : K W (rc * option vams_ioc_nop) :=
  begun ← nop_begin argp;
  match begun, argp with
  | inr p, Some nop => nop_end p nop how
  | inl e, _ => mret (e, None)
  | inr _, None => fault
  end.

(** The status and the bytes written back to the user. *)
Definition vams_ioctl (f : nat) (command : Z) (user : user_memory) (how : waited)
    : K W (rc * option (list Z)) :=
  if command =? VAMS_IOCTL_GET_INFO abi_lp64 then
    '(ret, out) ← vams_ioctl_info (copy_from_user user); mret (ret, copy_to_user user out)
  else if command =? VAMS_IOCTL_NOP abi_lp64 then
    '(ret, out) ← vams_ioctl_nop (copy_from_user user) how; mret (ret, copy_to_user user out)
  else if command =? VAMS_IOCTL_BUFFER_REGISTER abi_lp64 then
    '(ret, out) ← vams_ioctl_buffer_register f (copy_from_user user);
    mret (ret, copy_to_user user out)
  else if command =? VAMS_IOCTL_BUFFER_UNREGISTER abi_lp64 then
    ret ← vams_ioctl_buffer_unregister f (copy_from_user user); mret (ret, None)
  else if command =? VAMS_IOCTL_SUBMIT abi_lp64 then
    let input := copy_from_user user in
    '(ret, id) ← vams_ioctl_submit f input;
    mret (ret, copy_to_user user (id ← id; i ← input; Some (with_submit_id id i)))
  else if command =? VAMS_IOCTL_WAIT abi_lp64 then
    '(ret, out) ← vams_ioctl_wait f (copy_from_user user) how; mret (ret, copy_to_user user out)
  else mret (rc_err ENOTTY, None).
End Ioctl.

(** ** Layout lemmas *)

Lemma store_field_length offset w x bs :
  (offset + w <= length bs)%nat -> length (store_field offset w x bs) = length bs.
Proof.
  intros Hl. unfold store_field. rewrite !length_app, length_take, length_drop, le_bytes_length. lia.
Qed.

Lemma load_stored offset w x bs :
  (offset + w <= length bs)%nat -> fits w x ->
  le_value (take w (drop offset (store_field offset w x bs))) = x.
Proof.
  intros Hl Hx. unfold store_field. rewrite drop_app_length' by (rewrite length_take; lia).
  rewrite take_app_length' by (by rewrite le_bytes_length). by rewrite le_value_bytes, Z.mod_small.
Qed.

Lemma load_stored_after o v offset w x bs :
  (o + v <= offset)%nat -> (offset + w <= length bs)%nat ->
  take v (drop o (store_field offset w x bs)) = take v (drop o bs).
Proof.
  intros Ho Hl. unfold store_field. rewrite drop_app_le by (rewrite length_take; lia).
  rewrite take_app_le by (rewrite length_drop, length_take; lia).
  rewrite !take_drop_commute, take_take. do 2 f_equal. lia.
Qed.

(** Fields that follow one another between two offsets. *)
Fixpoint ordered (low high : nat) (fields : list (nat * nat)) : Prop :=
  match fields with
  | [] => (low <= high)%nat
  | (offset, w) :: fields' => (low <= offset)%nat /\ ordered (offset + w) high fields'
  end.

Lemma ordered_le low high fields : ordered low high fields -> (low <= high)%nat.
Proof.
  revert low. induction fields as [|[o w] fields IH]; intros low; [done|].
  intros [Hl Ho%IH]. lia.
Qed.

Lemma ordered_mono low high high' fields :
  ordered low high fields -> (high <= high')%nat -> ordered low high' fields.
Proof.
  intros Ho Hh. revert low Ho. induction fields as [|[o w] fields IH]; simpl; intros low; [lia|].
  intros [Hl Ho]. auto.
Qed.

Lemma align_up_ge offset align : (0 < align)%nat -> (offset <= align_up offset align)%nat.
Proof.
  intros Ha. unfold align_up.
  pose proof (Nat.div_mod_eq (offset + (align - 1)) align) as E.
  pose proof (Nat.mod_upper_bound (offset + (align - 1)) align ltac:(lia)). lia.
Qed.

Lemma field_align_pos abi w : (0 < w)%nat -> (0 < field_align abi w)%nat.
Proof. destruct abi; simpl; lia. Qed.

Lemma place_ordered abi offset widths :
  Forall (fun w => 0 < w)%nat widths ->
  ordered offset (place abi offset widths).2 (place abi offset widths).1.
Proof.
  intros Hw. revert offset. induction Hw as [|w ws Hw Hws IH]; intros offset; [simpl; lia|]. cbn [place].
  specialize (IH (align_up offset (field_align abi w) + w)%nat).
  destruct (place abi _ ws) as [fields end_]. simpl in *. split; [|done].
  by apply align_up_ge, field_align_pos.
Qed.

Lemma place_widths abi offset widths : (place abi offset widths).1.*2 = widths.
Proof.
  revert offset. induction widths as [|w ws IH]; intros offset; [done|]. cbn [place].
  specialize (IH (align_up offset (field_align abi w) + w)%nat).
  destruct (place abi _ ws) as [fields end_]. by apply (f_equal (cons w)).
Qed.

Lemma foldr_max_pos l : (0 < foldr Nat.max 1%nat l)%nat.
Proof. induction l; simpl; lia. Qed.

Lemma struct_ordered abi widths :
  Forall (fun w => 0 < w)%nat widths ->
  ordered 0 (struct_size abi widths) (struct_fields abi widths).
Proof.
  intros Hw. eapply ordered_mono; [by apply place_ordered|]. apply align_up_ge, foldr_max_pos.
Qed.

Lemma store_fields_below low fields xs bs o v :
  ordered low (length bs) fields -> (o + v <= low)%nat ->
  length (store_fields fields xs bs) = length bs /\
  take v (drop o (store_fields fields xs bs)) = take v (drop o bs).
Proof.
  revert low xs bs. induction fields as [|[f w] fields IH]; intros low xs bs Ho Hv; [done|].
  destruct xs as [|x xs]; [done|]. destruct Ho as [Hl Ho]. pose proof (ordered_le _ _ _ Ho).
  cbn [store_fields]. pose proof (store_field_length f w x bs ltac:(lia)) as El.
  destruct (IH (f + w)%nat xs (store_field f w x bs)) as [E1 E2]; [by rewrite El|lia|].
  rewrite E1, E2, El. split; [done|]. apply load_stored_after; lia.
Qed.

Lemma load_store low fields xs bs :
  ordered low (length bs) fields -> Forall2 (fun f x => fits f.2 x) fields xs ->
  load_fields fields (store_fields fields xs bs) = xs.
Proof.
  intros Ho Hx. revert low bs Ho. induction Hx as [|[f w] x fields xs Hf Hx IH]; intros low bs Ho; [done|].
  destruct Ho as [Hl Ho]. pose proof (ordered_le _ _ _ Ho). cbn [store_fields load_fields].
  pose proof (store_field_length f w x bs ltac:(lia)) as El.
  destruct (store_fields_below (f + w) fields xs (store_field f w x bs) f w) as [_ ->]; [by rewrite El|lia|].
  rewrite load_stored by (simpl in *; done || lia). f_equal. apply (IH (f + w)%nat). by rewrite El.
Qed.

(** A structure written into user memory of its size is read back. *)
Lemma of_into_bytes {A} `{!UserStruct A} (a : A) bs :
  Forall (fun w => 0 < w)%nat (us_widths A) -> us_wf a -> length bs = sizeof A ->
  of_bytes (into_bytes a bs) = Some a.
Proof.
  intros Hw Ha Hb. unfold of_bytes, into_bytes. rewrite (load_store 0); [by apply us_inverse| |].
  - rewrite Hb. by apply struct_ordered.
  - apply (proj1 (Forall2_fmap_l snd fits _ _)). unfold struct_fields. rewrite place_widths. by apply us_fits.
Qed.

(** ** Typed calls *)

(** A call a program makes with one of the structures of the header. *)
Inductive uapi_call : Type :=
  | call_info (a : vams_ioc_info)
  | call_nop (a : vams_ioc_nop)
  | call_register (a : vams_ioc_buffer_register)
  | call_unregister (a : vams_ioc_buffer_unregister)
  | call_submit (a : vams_ioc_submit)
  | call_wait (a : vams_ioc_wait).

(** The number the program's compiler puts into the call. *)
Definition call_number (abi : c_abi) (c : uapi_call) : Z :=
  match c with
  | call_info _ => VAMS_IOCTL_GET_INFO abi
  | call_nop _ => VAMS_IOCTL_NOP abi
  | call_register _ => VAMS_IOCTL_BUFFER_REGISTER abi
  | call_unregister _ => VAMS_IOCTL_BUFFER_UNREGISTER abi
  | call_submit _ => VAMS_IOCTL_SUBMIT abi
  | call_wait _ => VAMS_IOCTL_WAIT abi
  end.

Definition uapi_numbers (abi : c_abi) : list Z :=
  [VAMS_IOCTL_GET_INFO abi; VAMS_IOCTL_NOP abi; VAMS_IOCTL_BUFFER_REGISTER abi;
   VAMS_IOCTL_BUFFER_UNREGISTER abi; VAMS_IOCTL_SUBMIT abi; VAMS_IOCTL_WAIT abi].

Definition call_widths (c : uapi_call) : list nat :=
  match c with
  | call_info _ => info_widths | call_nop _ => nop_widths | call_register _ => register_widths
  | call_unregister _ => unregister_widths | call_submit _ => submit_widths
  | call_wait _ => wait_widths
  end.

Definition call_wf (c : uapi_call) : Prop :=
  match c with
  | call_info a => us_wf a | call_nop a => us_wf a | call_register a => us_wf a
  | call_unregister a => us_wf a | call_submit a => us_wf a | call_wait a => us_wf a
  end.

(** The structure in memory that held [bs]. *)
Definition call_bytes (c : uapi_call) (bs : list Z) : list Z :=
  match c with
  | call_info a => into_bytes a bs | call_nop a => into_bytes a bs
  | call_register a => into_bytes a bs | call_unregister a => into_bytes a bs
  | call_submit a => into_bytes a bs | call_wait a => into_bytes a bs
  end.

(** The size checks of vams_pci.c. *)
Definition asserted_size (c : uapi_call) : Z :=
  match c with
  | call_info _ => sizeof_info | call_nop _ => sizeof_nop
  | call_register _ => sizeof_buffer_register | call_unregister _ => sizeof_buffer_unregister
  | call_submit _ => sizeof_submit | call_wait _ => sizeof_wait
  end.

Section Calls.
Context {W : Type} `{!Kernel W}.

(** The handler on the structure itself. *)
Definition call_handler (f : nat) (c : uapi_call) (user : user_memory) (how : waited)
    : K W (rc * option (list Z)) :=
  match c with
  | call_info a => '(ret, out) ← vams_ioctl_info (Some a); mret (ret, copy_to_user user out)
  | call_nop a => '(ret, out) ← vams_ioctl_nop (Some a) how; mret (ret, copy_to_user user out)
  | call_register a =>
      '(ret, out) ← vams_ioctl_buffer_register f (Some a); mret (ret, copy_to_user user out)
  | call_unregister a => ret ← vams_ioctl_buffer_unregister f (Some a); mret (ret, None)
  | call_submit a =>
      '(ret, id) ← vams_ioctl_submit f (Some a);
      mret (ret, copy_to_user user (id ← id; Some (with_submit_id id a)))
  | call_wait a => '(ret, out) ← vams_ioctl_wait f (Some a) how; mret (ret, copy_to_user user out)
  end.

(** The header is consistent with the driver's assertions and its numbers tell
    the calls apart. *)
Lemma uapi_sizes c : Z.of_nat (struct_size abi_lp64 (call_widths c)) = asserted_size c.
Proof. by destruct c. Qed.

Lemma call_number_injective c c' :
  call_number abi_lp64 c = call_number abi_lp64 c' -> call_widths c = call_widths c'.
Proof. destruct c, c'; try done; intros H; by vm_compute in H. Qed.

(** C36: an ioctl does what its structure says.  For each of the six calls of the
    header, with arguments in the range of their types and any bytes in the
    padding, the driver's dispatch on the number and its reading of user memory
    lead to the handler of that call, with the program's structure; a number
    that is none of the six is answered [-ENOTTY] and changes nothing. *)
Theorem ioctl_reaches_handler f user how (s : kstate W) :
  (forall c bs, call_wf c -> length bs = struct_size abi_lp64 (call_widths c) ->
     user (struct_size abi_lp64 (call_widths c)) = Some (call_bytes c bs) ->
     vams_ioctl f (call_number abi_lp64 c) user how s = call_handler f c user how s) /\
  (forall command, command ∉ uapi_numbers abi_lp64 ->
     vams_ioctl f command user how s = Ok ((rc_err ENOTTY, None), s)).
Proof.
  split.
  - intros c bs Hwf Hl Hu.
    assert (Hin : forall A (HS : UserStruct A) (a : A), Forall (fun w => 0 < w)%nat (us_widths A) ->
      us_widths A = call_widths c -> us_wf a -> into_bytes a bs = call_bytes c bs ->
      copy_from_user user = Some a).
    { intros A HS a Hp Hw Ha Hb. unfold copy_from_user, sizeof. rewrite Hw, Hu. simpl.
      rewrite <-Hb. apply of_into_bytes; [done..|]. unfold sizeof. by rewrite Hw. }
    destruct c as [a|a|a|a|a|a]; unfold vams_ioctl, call_number, call_handler;
      repeat match goal with |- context [?x =? ?y] =>
        change (x =? y) with true || change (x =? y) with false end;
      cbv iota zeta; rewrite (Hin _ _ a); try done; repeat constructor; lia.
  - intros command Hne. unfold uapi_numbers in Hne. rewrite !not_elem_of_cons in Hne.
    destruct Hne as (H1 & H2 & H3 & H4 & H5 & H6 & _). unfold vams_ioctl.
    by rewrite (proj2 (Z.eqb_neq _ _) H1), (proj2 (Z.eqb_neq _ _) H2), (proj2 (Z.eqb_neq _ _) H3),
      (proj2 (Z.eqb_neq _ _) H4), (proj2 (Z.eqb_neq _ _) H5), (proj2 (Z.eqb_neq _ _) H6).
Qed.

(** Five of the six structures have the same layout and number for an i386
    process, but not the submission: its 64-bit offsets move up to offset 28
    there, the structure has 60 bytes, and the number that contains this size is
    answered [-ENOTTY].  Such a process cannot submit. *)
Theorem compat_submit_is_refused f user how a (s : kstate W) :
  (forall c, (forall a, c <> call_submit a) ->
     struct_fields abi_i386 (call_widths c) = struct_fields abi_lp64 (call_widths c) /\
     call_number abi_i386 c = call_number abi_lp64 c) /\
  struct_size abi_i386 submit_widths = 60%nat /\
  vams_ioctl f (call_number abi_i386 (call_submit a)) user how s = Ok ((rc_err ENOTTY, None), s).
Proof.
  split; [|done]. intros c Hc. destruct c; try done. by destruct (Hc a0).
Qed.
End Calls.
