(* ===== verification/DriverProbe.v ===== *)
(** * Probe and remove of the Linux PCI driver (kernel/vams_pci.c)

    Probe acquires the PCI function's resources one after the other; each error
    label releases what was acquired before it and falls through to the next.
    Remove is given in the three phases between which interrupts, work items and
    file operations can still run: marking the device as going away, quiescing
    it, and tearing it down.

    The test hook [vams_maybe_fail_probe] is the parameter [inject]: the steps
    after which it fails; without [CONFIG_VAMS_PCI_TESTING] there are none.  The
    self tests of that option are compiled out. *)

From S2P Require Import Prelude Abi Linux DriverState Driver.

Definition VAMS_BAR0_SIZE : Z := 0x1000.
Definition VAMS_MSIX_VECTORS : Z := 2.
Definition VAMS_MSIX_CQ_VECTOR : Z := 0.
Definition VAMS_MSIX_ASYNC_VECTOR : Z := 1.
Definition IORESOURCE_MEM : Z := 0x200.
Definition DMA_BIT_MASK (n : Z) : Z := Z.ones n.

Inductive vams_probe_step : Type :=
  | VAMS_PROBE_AFTER_ENABLE | VAMS_PROBE_AFTER_REGION | VAMS_PROBE_AFTER_IOMAP
  | VAMS_PROBE_AFTER_DMA_MASK | VAMS_PROBE_AFTER_RINGS | VAMS_PROBE_AFTER_VECTORS
  | VAMS_PROBE_AFTER_CQ_IRQ | VAMS_PROBE_AFTER_ASYNC_IRQ | VAMS_PROBE_AFTER_CHARDEV.

Definition no_pci : pci_resources :=
  {| pci_enabled := false; pci_region := false; pci_sq := false; pci_cq := false;
     pci_vectors := false; pci_cq_irq := false; pci_async_irq := false; pci_drvdata := false;
     pci_master := false; pci_misc := false |}.

Section Probe.
Context {W : Type} `{!Kernel W}.

Definition update_pci (u : pci_resources -> pci_resources) : K W unit :=
  modify (fun s => set_k_pci (u (k_pci s)) s).

(** ** Rings *)

Definition ring_bytes (entry : nat) : Z := VAMS_QUEUE_DEPTH * Z.of_nat entry.

Definition vams_free_queues : K W unit := update_pci (fun r => set_pci_sq false (set_pci_cq false r)).

Definition vams_alloc_queues : K W rc :=
  sq ← in_world (dma_alloc_coherent (ring_bytes VAMS_SUBMISSION_SIZE));
  match sq with
  | None => mret (rc_err ENOMEM)
  | Some sq_dma =>
      _ ← update_pci (set_pci_sq true);
      _ ← update_device (set_vd_sq_dma sq_dma);
      cq ← in_world (dma_alloc_coherent (ring_bytes VAMS_COMPLETION_SIZE));
      match cq with
      | None => _ ← update_pci (set_pci_sq false); mret (rc_err ENOMEM)
      | Some cq_dma =>
          _ ← update_pci (set_pci_cq true);
          _ ← update_device (set_vd_cq_dma cq_dma);
          if has_bits sq_dma 63 || has_bits cq_dma 63 then
            _ ← update_pci (set_pci_cq false);
            _ ← update_pci (set_pci_sq false);
            mret (rc_err EFAULT)
          else mret rc_ok
      end
  end.

Definition vams_set_dma_mask : K W rc :=
  ret ← in_world (dma_set_mask_and_coherent (DMA_BIT_MASK 64));
  if rc_is_ok ret then mret rc_ok else
  in_world (dma_set_mask_and_coherent (DMA_BIT_MASK 32)).

(** ** The character device *)

Definition add_instances (n : Z) (h : host_resources) : host_resources :=
  {| h_pdev := h_pdev h; h_instances := h_instances h + n; h_names := h_names h |}.
Definition add_names (n : Z) (h : host_resources) : host_resources :=
  {| h_pdev := h_pdev h; h_instances := h_instances h; h_names := h_names h + n |}.
Definition add_pdev (n : Z) (h : host_resources) : host_resources :=
  {| h_pdev := h_pdev h + n; h_instances := h_instances h; h_names := h_names h |}.

Definition update_host (u : host_resources -> host_resources) : K W unit :=
  modify (fun s => set_k_host (u (k_host s)) s).

Definition err_free_instance (ret : rc) : K W rc :=
  _ ← update_host (add_instances (-1));
  _ ← update_device (set_vd_instance (-1));
  mret ret.
Definition err_free_name (ret : rc) : K W rc :=
  _ ← update_host (add_names (-1));
  _ ← update_device (set_vd_misc_name false);
  err_free_instance ret.

Definition vams_register_chardev : K W rc :=
  instance ← in_world ida_alloc;
  match instance with
  | inl e => _ ← update_device (set_vd_instance (rc_value (rc_err e))); mret (rc_err e)
  | inr n =>
      _ ← update_host (add_instances 1);
      _ ← update_device (set_vd_instance n);
      name ← in_world alloc_ok;
      if negb name then err_free_instance (rc_err ENOMEM) else
      _ ← update_host (add_names 1);
      _ ← update_device (set_vd_misc_name true);
      ret ← in_world misc_register;
      if negb (rc_is_ok ret) then err_free_name ret else
      _ ← update_pci (set_pci_misc true);
      mret rc_ok
  end.

(** ** Tear-down, innermost label first *)

Definition err_free_device (ret : rc) : K W rc := _ ← device_put; mret ret.
Definition err_disable_device (ret : rc) : K W rc :=
  _ ← update_pci (set_pci_enabled false); err_free_device ret.
Definition err_release_region (ret : rc) : K W rc :=
  _ ← update_pci (set_pci_region false); err_disable_device ret.
Definition err_iounmap (ret : rc) : K W rc :=
  _ ← modify (set_k_bar0 false); err_release_region ret.
Definition err_free_queues (ret : rc) : K W rc := _ ← vams_free_queues; err_iounmap ret.
Definition err_free_vectors (ret : rc) : K W rc :=
  _ ← update_pci (set_pci_vectors false); err_free_queues ret.
Definition err_free_cq_irq (ret : rc) : K W rc :=
  _ ← update_pci (set_pci_cq_irq false);
  _ ← update_device (set_vd_reset_scheduled false);
  _ ← vams_cancel_requests (rc_err ENODEV) false;
  err_free_vectors ret.
Definition err_free_async_irq (ret : rc) : K W rc :=
  _ ← update_pci (set_pci_async_irq false); err_free_cq_irq ret.
Definition err_clear_master (ret : rc) : K W rc :=
  _ ← vams_mask_interrupts;
  _ ← vams_disable_queues;
  _ ← update_pci (fun r => set_pci_drvdata false (set_pci_master false r));
  err_free_async_irq ret.
Definition err_deregister_misc (ret : rc) : K W rc :=
  _ ← update_device (set_vd_removing true);
  _ ← update_pci (set_pci_misc false);
  _ ← update_device (set_vd_poll_scheduled false);
  err_clear_master ret.

(** ** Probe *)

Definition new_device : vams_device :=
  {| vd_refs := 1; vd_hw_if_version := 0; vd_fw_version := 0; vd_capabilities := 0;
     vd_reset_generation := 0; vd_reset_reason := 0; vd_sq_dma := 0; vd_cq_dma := 0;
     vd_sq_tail := 0; vd_cq_head := 0; vd_queues_ready := false; vd_removing := false;
     vd_requests := ∅; vd_next_command_id := 0; vd_pending_requests := 0;
     vd_poll_scheduled := false; vd_reset_scheduled := false; vd_cq_interrupts := 0;
     vd_async_interrupts := 0; vd_instance := -1; vd_misc_name := false |}.

Section Steps.
Context (inject : vams_probe_step -> bool).

Definition vams_maybe_fail_probe (step : vams_probe_step) : rc :=
  if inject step then rc_err EIO else rc_ok.

(** [if (ret) goto label;] *)
Definition or_goto (ret : rc) (label : rc -> K W rc) (next : K W rc) : K W rc :=
  if rc_is_ok ret then next else label ret.

(** From [pci_set_drvdata] on. *)
Definition probe_activate : K W rc :=
  _ ← update_pci (fun r => set_pci_master true (set_pci_drvdata true r));
  d ← read_device;
  ret ← (if has_bits (vd_capabilities d) VAMS_CAP_DMA then vams_configure_queues else mret rc_ok);
  or_goto ret err_clear_master (
  _ ← vams_writel VAMS_REG_INTR_MASK 0;
  _ ← vams_readl VAMS_REG_INTR_MASK;
  ret ← vams_register_chardev;
  or_goto ret err_clear_master
  (or_goto (vams_maybe_fail_probe VAMS_PROBE_AFTER_CHARDEV) err_deregister_misc (mret rc_ok))).

(** From [pci_alloc_irq_vectors] on. *)
Definition probe_interrupts : K W rc :=
  vectors ← in_world (pci_alloc_irq_vectors VAMS_MSIX_VECTORS VAMS_MSIX_VECTORS);
  match vectors with
  | inl e => err_free_queues (rc_err e)
  | inr n =>
      _ ← update_pci (set_pci_vectors true);
      if negb (n =? VAMS_MSIX_VECTORS) then err_free_vectors (rc_err ENOSPC) else
      or_goto (vams_maybe_fail_probe VAMS_PROBE_AFTER_VECTORS) err_free_vectors (
      ret ← in_world (request_irq VAMS_MSIX_CQ_VECTOR);
      or_goto ret err_free_vectors (
      _ ← update_pci (set_pci_cq_irq true);
      or_goto (vams_maybe_fail_probe VAMS_PROBE_AFTER_CQ_IRQ) err_free_cq_irq (
      ret ← in_world (request_irq VAMS_MSIX_ASYNC_VECTOR);
      or_goto ret err_free_cq_irq (
      _ ← update_pci (set_pci_async_irq true);
      or_goto (vams_maybe_fail_probe VAMS_PROBE_AFTER_ASYNC_IRQ) err_free_async_irq
        probe_activate))))
  end.

(** From the mapping of BAR0 on. *)
Definition probe_mapped : K W rc :=
  or_goto (vams_maybe_fail_probe VAMS_PROBE_AFTER_IOMAP) err_iounmap (
  _ ← vams_mask_interrupts;
  _ ← vams_writel VAMS_REG_INTR_STATUS VAMS_INTR_ALL;
  ret ← vams_validate_endpoint;
  or_goto ret err_iounmap (
  ret ← vams_set_dma_mask;
  or_goto ret err_iounmap
  (or_goto (vams_maybe_fail_probe VAMS_PROBE_AFTER_DMA_MASK) err_iounmap (
  d ← read_device;
  ret ← (if has_bits (vd_capabilities d) VAMS_CAP_DMA then vams_alloc_queues else mret rc_ok);
  or_goto ret err_iounmap
  (or_goto (vams_maybe_fail_probe VAMS_PROBE_AFTER_RINGS) err_free_queues probe_interrupts))))).

Definition vams_probe : K W rc :=
  memory ← in_world alloc_ok;
  if negb memory then mret (rc_err ENOMEM) else
  _ ← modify (set_k_dev (Some new_device));
  _ ← update_host (add_pdev 1);
  ret ← in_world pci_enable_device_mem;
  or_goto ret err_free_device (
  _ ← update_pci (set_pci_enabled true);
  or_goto (vams_maybe_fail_probe VAMS_PROBE_AFTER_ENABLE) err_disable_device (
  flags ← gets (fun s => pci_resource_flags (k_world s));
  len ← gets (fun s => pci_resource_len (k_world s));
  if negb (has_bits flags IORESOURCE_MEM) || (len <? VAMS_BAR0_SIZE) then
    err_disable_device (rc_err ENODEV) else
  ret ← in_world pci_request_region;
  or_goto ret err_disable_device (
  _ ← update_pci (set_pci_region true);
  or_goto (vams_maybe_fail_probe VAMS_PROBE_AFTER_REGION) err_release_region (
  mapped ← in_world pci_iomap;
  if negb mapped then err_release_region (rc_err ENOMEM) else
  _ ← modify (set_k_bar0 true);
  probe_mapped)))).
End Steps.

(** ** Remove *)

(** [vdev->removing = true] and [misc_deregister]. *)
Definition remove_begin : K W unit :=
  _ ← update_device (set_vd_removing true);
  update_pci (set_pci_misc false).

(** From [cancel_delayed_work_sync] to [pci_clear_master]. *)
Definition remove_quiesce : K W unit :=
  _ ← update_device (set_vd_poll_scheduled false);
  _ ← vams_mask_interrupts;
  _ ← vams_writel VAMS_REG_INTR_STATUS VAMS_INTR_ALL;
  _ ← vams_disable_queues;
  update_pci (set_pci_master false).

(** From the first [free_irq] on. *)
Definition remove_end : K W unit :=
  _ ← update_pci (set_pci_async_irq false);
  _ ← update_pci (set_pci_cq_irq false);
  _ ← update_device (set_vd_reset_scheduled false);
  _ ← vams_cancel_requests (rc_err ENODEV) false;
  _ ← update_pci (set_pci_vectors false);
  _ ← vams_free_queues;
  _ ← modify (set_k_bar0 false);
  _ ← update_pci (fun r => set_pci_drvdata false (set_pci_enabled false (set_pci_region false r)));
  device_put.

Definition vams_remove : K W unit := _ ← remove_begin; _ ← remove_quiesce; remove_end.
End Probe.
