(* ===== verification/DriverFrame.v ===== *)
(** * What driver code leaves alone

    A syntax-directed analysis of driver programs: which of them can change the
    PCI resources, the BAR0 mapping, the [removing] flag, the scheduling of the
    two work items and the accounting of what the device object holds.  [Keeps lvl m] says that [m] changes none of these, up
    to the level: [L_all] keeps every flag, [L_irq] may schedule the reset work,
    [L_any] may schedule both work items. *)

From S2P Require Import Prelude Abi Linux DriverState Driver DriverApi DriverProbe.

Inductive level : Type := L_all | L_irq | L_any.

Definition same_flags (lvl : level) (d d' : vams_device) : Prop :=
  vd_removing d' = vd_removing d /\
  (vd_instance d' = vd_instance d /\ vd_misc_name d' = vd_misc_name d) /\
  match lvl with
  | L_all => vd_poll_scheduled d' = vd_poll_scheduled d /\
             vd_reset_scheduled d' = vd_reset_scheduled d
  | L_irq => vd_poll_scheduled d' = vd_poll_scheduled d
  | L_any => True
  end.

#[export] Instance same_flags_preorder lvl : PreOrder (same_flags lvl).
Proof.
  split.
  - intros d. by destruct lvl.
  - intros d1 d2 d3 (H1 & [I1 N1] & H1') (H2 & [I2 N2] & H2').
    split; [congruence|]. split; [split; congruence|]. destruct lvl; [|congruence|done].
    destruct H1', H2'. split; congruence.
Qed.

Section Frame.
Context {W : Type} `{!Kernel W}.
Implicit Types (s : kstate W).

(** Every mapping is an old one at its bus address, or has a 64-bit one. *)
Definition mapped_from (ms ms' : gmap nat vams_mapping) : Prop :=
  forall q m', ms' !! q = Some m' ->
    is_u64 (m_dma_addr m') \/ exists m, ms !! q = Some m /\ m_dma_addr m' = m_dma_addr m.

#[global] Instance mapped_from_preorder : PreOrder mapped_from.
Proof.
  split.
  - intros ms q m Hm. right. by exists m.
  - intros m1 m2 m3 H12 H23 q m Hm. destruct (H23 q m Hm) as [?|(m' & Hm' & E)]; [by left|].
    rewrite E. destruct (H12 q m' Hm') as [?|(m'' & Hm'' & E')]; [by left|]. right. by exists m''.
Qed.

Lemma mapped_from_delete ms p : mapped_from ms (delete p ms).
Proof. intros q m [_ Hm]%lookup_delete_Some. right. by exists m. Qed.

Lemma mapped_from_insert ms p m : is_u64 (m_dma_addr m) -> mapped_from ms (<[p := m]> ms).
Proof.
  intros Ha q m' Hm. destruct (decide (q = p)) as [->|Hne].
  - rewrite lookup_insert_eq in Hm. injection Hm as <-. by left.
  - rewrite lookup_insert_ne in Hm by done. right. by exists m'.
Qed.

Lemma mapped_from_update ms p m m' :
  ms !! p = Some m -> m_dma_addr m' = m_dma_addr m -> mapped_from ms (<[p := m']> ms).
Proof.
  intros Hp Ha q x Hx. right. destruct (decide (q = p)) as [->|Hne].
  - rewrite lookup_insert_eq in Hx. injection Hx as <-. by exists m.
  - rewrite lookup_insert_ne in Hx by done. by exists x.
Qed.

(** The host resources are exactly those of the device object. *)
Definition no_host : host_resources := {| h_pdev := 0; h_instances := 0; h_names := 0 |}.
Definition host_of (d : vams_device) : host_resources :=
  {| h_pdev := 1; h_instances := Z.b2z (0 <=? vd_instance d); h_names := Z.b2z (vd_misc_name d) |}.
Definition host_ok (s : kstate W) : Prop := k_host s = from_option host_of no_host (k_dev s).

Lemma release_host_of d : release_host d (host_of d) = no_host.
Proof. unfold release_host, host_of. simpl. by destruct (0 <=? vd_instance d), (vd_misc_name d). Qed.

(** The device may be freed, never replaced. *)
Record kept (lvl : level) (s s' : kstate W) : Prop := {
  kp_pci : k_pci s' = k_pci s;
  kp_bar0 : k_bar0 s' = k_bar0 s;
  kp_dev d' : k_dev s' = Some d' -> exists d, k_dev s = Some d /\ same_flags lvl d d';
  kp_mappings : mapped_from (k_mappings s) (k_mappings s');
  kp_host : host_ok s -> host_ok s';
}.

#[global] Instance kept_preorder lvl : PreOrder (kept lvl).
Proof.
  split.
  - intros s. split; [done..| |reflexivity|done]. intros d Hd. exists d. by split.
  - intros s1 s2 s3 [P1 B1 D1 M1 O1] [P2 B2 D2 M2 O2].
    split; [congruence|congruence| |by etransitivity|by auto].
    intros d3 H3. destruct (D2 d3 H3) as (d2 & H2 & F2). destruct (D1 d2 H2) as (d1 & H1 & F1).
    exists d1. split; [done|]. by transitivity d2.
Qed.

Definition Keeps (lvl : level) {A} (m : K W A) : Prop :=
  forall s a s', m s = Ok (a, s') -> kept lvl s s'.

Lemma keeps_mono lvl {A} (m : K W A) : Keeps L_all m -> Keeps lvl m.
Proof.
  intros H s a s' E. destruct (H s a s' E) as [P B D M O]. split; [done..| |done|done].
  intros d' Hd'. destruct (D d' Hd') as (d & Hd & Hr & Hi & Hp & Hs). exists d. split; [done|].
  split; [done|]. split; [done|]. by destruct lvl.
Qed.

Lemma keeps_any {A} (m : K W A) : Keeps L_irq m -> Keeps L_any m.
Proof.
  intros H s a s' E. destruct (H s a s' E) as [P B D M O]. split; [done..| |done|done].
  intros d' Hd'. destruct (D d' Hd') as (d & Hd & Hr & Hi & _). by exists d.
Qed.

Section Rules.
Context (lvl : level).

Lemma keeps_ret {A} (a : A) : Keeps lvl (mret a : K W A).
Proof. intros s a' s' [= <- <-]. reflexivity. Qed.

Lemma keeps_bind {A B} (m : K W A) (k : A -> K W B) :
  Keeps lvl m -> (forall a, Keeps lvl (k a)) -> Keeps lvl (m ≫= k).
Proof.
  intros Hm Hk s b s' E. unfold mbind, K_bind in E.
  destruct (m s) as [[a s1]|] eqn:E1; [|done]. transitivity s1; [by eapply Hm|by eapply Hk].
Qed.

(** Steps that do not touch the device. *)
Definition off_device (u : kstate W -> kstate W) : Prop :=
  forall s, k_pci (u s) = k_pci s /\ k_bar0 (u s) = k_bar0 s /\ k_dev (u s) = k_dev s /\
    k_host (u s) = k_host s /\ mapped_from (k_mappings s) (k_mappings (u s)).

Lemma kept_off_device u s : off_device u -> kept lvl s (u s).
Proof.
  intros Hu. destruct (Hu s) as (P & B & D & O & M). split; [done..| |done|].
  - intros d' Hd'. rewrite D in Hd'. exists d'. by split.
  - unfold host_ok. by rewrite O, D.
Qed.

Lemma kept_same u s :
  (forall s, k_pci (u s) = k_pci s /\ k_bar0 (u s) = k_bar0 s /\ k_dev (u s) = k_dev s /\
     k_host (u s) = k_host s /\ k_mappings (u s) = k_mappings s) -> kept lvl s (u s).
Proof.
  intros Hu. apply kept_off_device. intros s1. destruct (Hu s1) as (P & B & D & O & M). rewrite M.
  by split_and!.
Qed.

Lemma keeps_modify u : off_device u -> Keeps lvl (modify u : K W unit).
Proof. intros Hu s a s' [= <- <-]. by apply kept_off_device. Qed.

(** What is read from the state is known to be from a state. *)
Lemma keeps_gets_bind {A B} (g : kstate W -> A) (k : A -> K W B) :
  (forall s, Keeps lvl (k (g s))) -> Keeps lvl (gets g ≫= k).
Proof. intros Hk s b s' E. exact (Hk s s b s' E). Qed.

Lemma keeps_gets {A} (g : kstate W -> A) : Keeps lvl (gets g).
Proof. intros s a s' [= <- <-]. reflexivity. Qed.

Lemma keeps_in_world {A} (g : W -> A * W) : Keeps lvl (in_world g).
Proof.
  intros s a s' E. unfold in_world in E. destruct (g (k_world s)) as [x w]. injection E as <- <-.
  by apply (kept_same (set_k_world w)).
Qed.

Lemma keeps_fault {A} : Keeps lvl (fault : K W A).
Proof. by intros s a s' E. Qed.

Lemma keeps_read_device : Keeps lvl read_device.
Proof. intros s a s' E. unfold read_device in E. by repeat case_match; simplify_eq. Qed.
Lemma keeps_read_file f : Keeps lvl (read_file f).
Proof. intros s a s' E. unfold read_file in E. by repeat case_match; simplify_eq. Qed.
Lemma keeps_read_request p : Keeps lvl (read_request p).
Proof. intros s a s' E. unfold read_request in E. by repeat case_match; simplify_eq. Qed.
Lemma keeps_read_mapping q : Keeps lvl (read_mapping q).
Proof. intros s a s' E. unfold read_mapping in E. by repeat case_match; simplify_eq. Qed.

Lemma keeps_update_file f u : Keeps lvl (update_file f u).
Proof.
  intros s a s' E. unfold update_file in E. repeat case_match; simplify_eq.
  by apply (kept_same (fun s => set_k_files _ s)).
Qed.
Lemma keeps_update_request p u : Keeps lvl (update_request p u).
Proof.
  intros s a s' E. unfold update_request in E. repeat case_match; simplify_eq.
  by apply (kept_same (fun s => set_k_requests _ s)).
Qed.
Lemma keeps_update_mapping q u :
  (forall m, m_dma_addr (u m) = m_dma_addr m) -> Keeps lvl (update_mapping q u).
Proof.
  intros Hu s a s' E. unfold update_mapping in E. destruct (k_mappings s !! q) as [m|] eqn:Hm; [|done].
  injection E as <- <-. split; [done..| |by eapply mapped_from_update|done].
  intros d Hd. exists d. by split.
Qed.

Lemma keeps_update_device u : (forall d, same_flags lvl d (u d)) -> Keeps lvl (update_device u).
Proof.
  intros Hu s a s' E. unfold update_device in E. destruct (k_dev s) as [d|] eqn:Hd; [|done].
  injection E as <- <-. split; [done..| |reflexivity|].
  - intros d' [= <-]. by exists d.
  - unfold host_ok, host_of. simpl. rewrite Hd. destruct (Hu d) as (_ & [-> ->] & _). done.
Qed.

Lemma keeps_device_release : Keeps lvl vams_device_release.
Proof.
  intros s a s' E. unfold vams_device_release, mbind, K_bind, read_device in E.
  destruct (k_dev s) as [d|] eqn:Hd; [|done]. injection E as <- <-. split; [done..|reflexivity|].
  unfold host_ok. simpl. rewrite Hd. simpl. intros ->. apply release_host_of.
Qed.

Lemma keeps_readl o : Keeps lvl (vams_readl o).
Proof.
  intros s a s' E. unfold vams_readl in E. destruct (k_bar0 s); [|done]. by eapply keeps_in_world.
Qed.
Lemma keeps_writel o v : Keeps lvl (vams_writel o v).
Proof.
  intros s a s' E. unfold vams_writel in E. destruct (k_bar0 s); [|done]. injection E as <- <-.
  by apply (kept_same (set_k_world _)).
Qed.
End Rules.
End Frame.

Create HintDb frame.
#[export] Hint Resolve keeps_ret keeps_gets keeps_in_world keeps_fault keeps_read_device
  keeps_read_file keeps_read_request keeps_read_mapping keeps_update_file keeps_update_request
  keeps_device_release keeps_readl keeps_writel : frame.

(** [frame] walks over a program. *)
Ltac frame :=
  repeat first
    [ solve [eauto 1 with frame nocore]
    | progress intros
    | match goal with |- Keeps _ (gets _ ≫= _) => apply keeps_gets_bind end
    | apply keeps_bind
    | apply keeps_modify; intros ?; repeat (split; [done|]);
      first [reflexivity | apply mapped_from_delete | apply mapped_from_insert; by simpl; auto]
    | apply keeps_update_mapping; done
    | apply keeps_update_device; intros ?;
      match goal with |- same_flags ?l _ _ => try (is_var l; destruct l); by repeat split end
    | match goal with
      | |- Keeps _ (when ?b _) => destruct b
      | |- Keeps _ (from_option _ _ ?o) => destruct o; cbn [from_option]
      | |- Keeps _ (if ?b then _ else _) => destruct b
      | |- Keeps _ (match ?x with _ => _ end) => destruct x
      | |- Keeps _ (let _ := _ in _) => cbv zeta
      end ].

Section Programs.
Context {W : Type} `{!Kernel W}.
Context (lvl : level).

Lemma keeps_mapping_get p : Keeps (W:=W) lvl (vams_mapping_get p).
Proof. unfold vams_mapping_get. frame. Qed.
Lemma keeps_mapping_put q : Keeps (W:=W) lvl (vams_mapping_put q).
Proof. unfold vams_mapping_put, vams_mapping_release. frame. Qed.
Lemma keeps_device_get : Keeps (W:=W) lvl device_get.
Proof. unfold device_get. frame. Qed.
Lemma keeps_device_put : Keeps (W:=W) lvl device_put.
Proof. unfold device_put. frame. Qed.

#[local] Hint Resolve keeps_mapping_get keeps_mapping_put keeps_device_get keeps_device_put : frame.

Lemma keeps_file_get f : Keeps (W:=W) lvl (file_get f).
Proof. unfold file_get. frame. Qed.
Lemma keeps_file_put f : Keeps (W:=W) lvl (file_put f).
Proof. unfold file_put, vams_file_release_refs. frame. Qed.
#[local] Hint Resolve keeps_file_get keeps_file_put : frame.

Lemma keeps_request_alloc o : Keeps (W:=W) lvl (vams_request_alloc o).
Proof. unfold vams_request_alloc. frame. Qed.
Lemma keeps_request_get p : Keeps (W:=W) lvl (vams_request_get p).
Proof. unfold vams_request_get. frame. Qed.
Lemma keeps_request_put p : Keeps (W:=W) lvl (vams_request_put p).
Proof. unfold vams_request_put, free_request. frame. Qed.
Lemma keeps_sync p : Keeps (W:=W) lvl (sync_mappings p).
Proof. unfold sync_mappings. frame. Qed.
Lemma keeps_notify p : Keeps (W:=W) lvl (notify_owner p).
Proof. unfold notify_owner. frame. Qed.
Lemma keeps_erase_outstanding id : Keeps (W:=W) lvl (erase_outstanding id).
Proof. unfold erase_outstanding. frame. Qed.
Lemma keeps_dec_pending : Keeps (W:=W) lvl dec_pending.
Proof. unfold dec_pending. frame. Qed.
#[local] Hint Resolve keeps_request_alloc keeps_request_get keeps_request_put keeps_sync
  keeps_notify keeps_erase_outstanding keeps_dec_pending : frame.

Lemma keeps_finish c : Keeps (W:=W) lvl (vams_finish_request c).
Proof. unfold vams_finish_request, vams_request_sync_for_cpu. frame. Qed.
#[local] Hint Resolve keeps_finish : frame.

Lemma keeps_drain_loop n tail : Keeps (W:=W) lvl (drain_loop n tail).
Proof. induction n; cbn [drain_loop]; frame. Qed.
#[local] Hint Resolve keeps_drain_loop : frame.

Lemma keeps_drain_cq : Keeps (W:=W) lvl vams_drain_cq.
Proof. unfold vams_drain_cq. frame. Qed.

Lemma keeps_cancel_find after : Keeps (W:=W) lvl (cancel_find after).
Proof. unfold cancel_find. frame. Qed.
Lemma keeps_cancel_skips stale p : Keeps (W:=W) lvl (cancel_skips stale p).
Proof. unfold cancel_skips. destruct stale; frame. Qed.
Lemma keeps_cancel_erase status id : Keeps (W:=W) lvl (cancel_erase status id).
Proof. unfold cancel_erase, vams_request_sync_for_cpu. frame. Qed.
#[local] Hint Resolve keeps_drain_cq keeps_cancel_find keeps_cancel_skips keeps_cancel_erase : frame.

Lemma keeps_cancel_request status stale id p : Keeps (W:=W) lvl (cancel_request status stale id p).
Proof. unfold cancel_request. frame. Qed.
#[local] Hint Resolve keeps_cancel_request : frame.
Lemma keeps_cancel_from n status stale after : Keeps (W:=W) lvl (cancel_from n status stale after).
Proof. revert after. induction n; intros after; cbn [cancel_from]; frame. Qed.
#[local] Hint Resolve keeps_cancel_from : frame.
Lemma keeps_cancel_requests status stale : Keeps (W:=W) lvl (vams_cancel_requests status stale).
Proof. unfold vams_cancel_requests. frame. Qed.
#[local] Hint Resolve keeps_cancel_requests : frame.

Lemma keeps_reset_begin : Keeps (W:=W) lvl reset_begin.
Proof. unfold reset_begin. frame. Qed.
Lemma keeps_cq_irq : Keeps (W:=W) lvl vams_cq_irq.
Proof. unfold vams_cq_irq. frame. Qed.

Lemma keeps_owner_erase f id : Keeps (W:=W) lvl (owner_erase f id).
Proof. unfold owner_erase. frame. Qed.
Lemma keeps_mapping_erase f h : Keeps (W:=W) lvl (mapping_erase f h).
Proof. unfold mapping_erase. frame. Qed.
#[local] Hint Resolve keeps_owner_erase keeps_mapping_erase : frame.

(** ** File operations *)

Lemma keeps_open : Keeps (W:=W) lvl vams_open.
Proof. unfold vams_open. frame. Qed.
Lemma keeps_release_requests f ids : Keeps (W:=W) lvl (release_requests f ids).
Proof. induction ids; cbn [release_requests]; frame. Qed.
Lemma keeps_release_mappings f ids : Keeps (W:=W) lvl (release_mappings f ids).
Proof. induction ids; cbn [release_mappings]; frame. Qed.
#[local] Hint Resolve keeps_release_requests keeps_release_mappings : frame.
Lemma keeps_release f : Keeps (W:=W) lvl (vams_release f).
Proof. unfold vams_release. frame. Qed.
Lemma keeps_register `{!KernelLaws W} f argp : Keeps (W:=W) lvl (vams_ioctl_buffer_register f argp).
Proof.
  unfold vams_ioctl_buffer_register, register_map, register_publish, undo_map, undo_sg, undo_pin.
  pose proof sg_dma_address_u64. frame.
Qed.
Lemma keeps_unregister f argp : Keeps (W:=W) lvl (vams_ioctl_buffer_unregister f argp).
Proof. unfold vams_ioctl_buffer_unregister. frame. Qed.
Lemma keeps_submit_end f p : Keeps (W:=W) lvl (submit_end f p).
Proof. unfold submit_end. frame. Qed.
Lemma keeps_wait_begin f argp : Keeps (W:=W) lvl (wait_begin f argp).
Proof. unfold wait_begin. frame. Qed.
Lemma keeps_wait_end f p o how : Keeps (W:=W) lvl (wait_end f p o how).
Proof. unfold wait_end. frame. Qed.
Lemma keeps_nop_end p nop how : Keeps (W:=W) lvl (nop_end p nop how).
Proof. unfold nop_end. frame. Qed.
Lemma keeps_info argp : Keeps (W:=W) lvl (vams_ioctl_info argp).
Proof. unfold vams_ioctl_info. frame. Qed.
Lemma keeps_poll_read mask : Keeps (W:=W) lvl (poll_read mask).
Proof. unfold poll_read. frame. Qed.
Lemma keeps_disable_queues : Keeps (W:=W) lvl vams_disable_queues.
Proof. unfold vams_disable_queues. frame. Qed.
Lemma keeps_optional_lookup f h o l a : Keeps (W:=W) lvl (optional_lookup f h o l a).
Proof. unfold optional_lookup, vams_mapping_lookup_locked. frame. Qed.
End Programs.
#[export] Hint Resolve keeps_request_alloc keeps_request_put keeps_sync keeps_drain_cq
  keeps_request_get keeps_mapping_put keeps_owner_erase keeps_optional_lookup keeps_cancel_requests
  keeps_device_put keeps_disable_queues : frame.

(** ** Programs that schedule work *)

Section Schedulers.
Context {W : Type} `{!Kernel W}.

Lemma keeps_observe_reset : Keeps (W:=W) L_irq vams_observe_reset.
Proof. unfold vams_observe_reset. frame. Qed.
#[local] Hint Resolve keeps_observe_reset : frame.
Lemma keeps_async_irq : Keeps (W:=W) L_irq vams_async_irq.
Proof. unfold vams_async_irq. frame. Qed.
Lemma keeps_observe_reset_any : Keeps (W:=W) L_any vams_observe_reset.
Proof. apply keeps_any, keeps_observe_reset. Qed.
#[local] Hint Resolve keeps_observe_reset_any : frame.
Lemma keeps_cq_poll_work : Keeps (W:=W) L_any vams_cq_poll_work.
Proof. unfold vams_cq_poll_work. frame. Qed.

Lemma keeps_track_loop n p : Keeps (W:=W) L_any (track_loop n p).
Proof. induction n; cbn [track_loop]; unfold owner_insert, device_insert; frame. Qed.
#[local] Hint Resolve keeps_track_loop : frame.

Lemma keeps_submit p descriptor : Keeps (W:=W) L_any (vams_submit p descriptor).
Proof. unfold vams_submit, submit_publish, vams_track_request, vams_request_sync_for_device. frame. Qed.
#[local] Hint Resolve keeps_submit : frame.
Lemma keeps_submit_begin f argp : Keeps (W:=W) L_any (submit_begin f argp).
Proof. unfold submit_begin, submit_request, put_mappings. frame. Qed.
Lemma keeps_nop_begin argp : Keeps (W:=W) L_any (nop_begin argp).
Proof. unfold nop_begin, vams_submit_nop. frame. Qed.

(** ** A device that is going away

    It takes no submissions, so its work items stay unscheduled. *)

Definition going (s : kstate W) : Prop := forall d, k_dev s = Some d -> vd_removing d = true.

Definition KeepsGoing {A} (m : K W A) : Prop :=
  forall s a s', going s -> m s = Ok (a, s') -> kept L_all s s'.

Lemma kept_going lvl s s' : kept lvl s s' -> going s -> going s'.
Proof.
  intros [_ _ D _ _] Hg d' Hd'. destruct (D d' Hd') as (d & Hd & Hr & _). rewrite Hr. by apply Hg.
Qed.

Lemma going_keeps {A} (m : K W A) : Keeps L_all m -> KeepsGoing m.
Proof. intros H s a s' _. apply H. Qed.

Lemma going_bind {A B} (m : K W A) (k : A -> K W B) :
  KeepsGoing m -> (forall a, KeepsGoing (k a)) -> KeepsGoing (m ≫= k).
Proof.
  intros Hm Hk s b s' Hg E. unfold mbind, K_bind in E.
  destruct (m s) as [[a s1]|] eqn:E1; [|done]. pose proof (Hm s a s1 Hg E1) as H1.
  transitivity s1; [done|]. eapply Hk; [|done]. by eapply kept_going.
Qed.

Lemma going_submit p descriptor : KeepsGoing (vams_submit p descriptor).
Proof.
  intros s a s' Hg. unfold vams_submit. destruct (k_dev s) as [d|] eqn:Hd.
  - krun (run_read_device _ _ Hd). rewrite (Hg d Hd). intros [= _ <-]. reflexivity.
  - unfold mbind at 1, K_bind at 1, read_device at 1. by rewrite Hd.
Qed.
End Schedulers.

Ltac frame_going :=
  intros;
  lazymatch goal with
  | |- KeepsGoing (vams_submit _ _) => apply going_submit
  | |- KeepsGoing (mbind _ _) => apply going_bind; [|intros ?]; frame_going
  | |- KeepsGoing (if ?b then _ else _) => destruct b; frame_going
  | |- KeepsGoing (match ?x with _ => _ end) => destruct x; frame_going
  | |- _ => apply going_keeps; frame
  end.

Section Going.
Context {W : Type} `{!Kernel W}.

Lemma going_submit_begin f argp : KeepsGoing (W:=W) (submit_begin f argp).
Proof. unfold submit_begin, submit_request, put_mappings. frame_going. Qed.
Lemma going_nop_begin argp : KeepsGoing (W:=W) (nop_begin argp).
Proof. unfold nop_begin, vams_submit_nop. frame_going. Qed.
End Going.

(** ** What a submission does to the request tables

    Up to the moment a submission is in the ring, files may be freed but not
    made, and entries may be added to the request table of a file but none is
    lost or replaced: a failed attempt takes back its own entry only. *)

Section Tables.
Context {W : Type} `{!Kernel W}.
Implicit Types (s : kstate W).

Definition grows (s s' : kstate W) : Prop :=
  forall f vf', k_files s' !! f = Some vf' ->
    exists vf, k_files s !! f = Some vf /\ vf_requests vf ⊆ vf_requests vf'.

#[global] Instance grows_preorder : PreOrder grows.
Proof.
  split.
  - intros s f vf Hf. by exists vf.
  - intros s1 s2 s3 H12 H23 f vf3 H3. destruct (H23 f vf3 H3) as (vf2 & H2 & Hs2).
    destruct (H12 f vf2 H2) as (vf1 & H1 & Hs1). exists vf1. split; [done|]. by etransitivity.
Qed.

Definition Grows {A} (m : K W A) : Prop := forall s a s', m s = Ok (a, s') -> grows s s'.

Lemma grows_files s s' : k_files s' = k_files s -> grows s s'.
Proof. intros E f vf Hf. rewrite E in Hf. by exists vf. Qed.

Lemma grows_bind {A B} (m : K W A) (k : A -> K W B) :
  Grows m -> (forall a, Grows (k a)) -> Grows (m ≫= k).
Proof.
  intros Hm Hk s b s' E. unfold mbind, K_bind in E.
  destruct (m s) as [[a s1]|] eqn:E1; [|done]. transitivity s1; [by eapply Hm|by eapply Hk].
Qed.

Lemma grows_ret {A} (a : A) : Grows (mret a : K W A).
Proof. intros s a' s' [= <- <-]. reflexivity. Qed.
Lemma grows_gets {A} (g : kstate W -> A) : Grows (gets g).
Proof. intros s a s' [= <- <-]. reflexivity. Qed.
Lemma grows_fault {A} : Grows (fault : K W A).
Proof. by intros s a s' E. Qed.
Lemma grows_modify u : (forall s, k_files (u s) = k_files s) -> Grows (modify u : K W unit).
Proof. intros Hu s a s' [= <- <-]. by apply grows_files. Qed.
Lemma grows_in_world {A} (g : W -> A * W) : Grows (in_world g).
Proof.
  intros s a s' E. unfold in_world in E. destruct (g (k_world s)) as [x w]. injection E as <- <-.
  by apply grows_files.
Qed.

Ltac grow_prim := intros s a s' E; unfold read_device, read_file, read_request, read_mapping,
  update_device, update_request, update_mapping, vams_readl, vams_writel, in_world in E;
  repeat case_match; simplify_eq; by apply grows_files.

Lemma grows_read_device : Grows read_device.
Proof. grow_prim. Qed.
Lemma grows_read_file f : Grows (read_file f).
Proof. grow_prim. Qed.
Lemma grows_read_request p : Grows (read_request p).
Proof. grow_prim. Qed.
Lemma grows_read_mapping q : Grows (read_mapping q).
Proof. grow_prim. Qed.
Lemma grows_update_device u : Grows (update_device u).
Proof. grow_prim. Qed.
Lemma grows_update_request p u : Grows (update_request p u).
Proof. grow_prim. Qed.
Lemma grows_update_mapping q u : Grows (update_mapping q u).
Proof. grow_prim. Qed.
Lemma grows_readl o : Grows (vams_readl o).
Proof. grow_prim. Qed.
Lemma grows_writel o v : Grows (vams_writel o v).
Proof. grow_prim. Qed.

Lemma grows_update_file f u :
  (forall vf, vf_requests (u vf) = vf_requests vf) -> Grows (update_file f u).
Proof.
  intros Hu s a s' E. unfold update_file in E. destruct (k_files s !! f) as [vf|] eqn:Hf; [|done].
  injection E as <- <-. intros g vg. simpl. destruct (decide (g = f)) as [->|Hne].
  - rewrite lookup_insert_eq. intros [= <-]. exists vf. by rewrite Hu.
  - rewrite lookup_insert_ne by done. intros Hg. by exists vg.
Qed.

Lemma grows_free_file f : Grows (modify (fun s => set_k_files (delete f (k_files s)) s) : K W unit).
Proof. intros s a s' [= <- <-] g vg Hg. simpl in Hg. apply lookup_delete_Some in Hg as [_ Hg]. by exists vg. Qed.
End Tables.

Create HintDb grow.
#[export] Hint Resolve grows_ret grows_gets grows_fault grows_in_world grows_read_device grows_read_file
  grows_read_request grows_read_mapping grows_update_device grows_update_request grows_update_mapping
  grows_readl grows_writel grows_free_file : grow.

(** [grow] walks over a program. *)
Ltac grow :=
  repeat first
    [ solve [eauto 1 with grow nocore]
    | progress intros
    | apply grows_bind
    | apply grows_modify; done
    | apply grows_update_file; done
    | match goal with
      | |- Grows (when ?b _) => destruct b
      | |- Grows (from_option _ _ ?o) => destruct o; cbn [from_option]
      | |- Grows (if ?b then _ else _) => destruct b
      | |- Grows (match ?x with _ => _ end) => destruct x
      | |- Grows (let _ := _ in _) => cbv zeta
      end ].

Section GrowingPrograms.
Context {W : Type} `{!Kernel W}.
Implicit Types (s : kstate W).

Lemma grows_mapping_put q : Grows (W:=W) (vams_mapping_put q).
Proof. unfold vams_mapping_put, vams_mapping_release. grow. Qed.
Lemma grows_device_put : Grows (W:=W) device_put.
Proof. unfold device_put, vams_device_release. grow. Qed.
#[local] Hint Resolve grows_mapping_put grows_device_put : grow.
Lemma grows_file_put f : Grows (W:=W) (file_put f).
Proof. unfold file_put, vams_file_release_refs. grow. Qed.
#[local] Hint Resolve grows_file_put : grow.
Lemma grows_request_put p : Grows (W:=W) (vams_request_put p).
Proof. unfold vams_request_put, free_request. grow. Qed.
Lemma grows_request_alloc o : Grows (W:=W) (vams_request_alloc o).
Proof. unfold vams_request_alloc, file_get. grow. Qed.
Lemma grows_sync p : Grows (W:=W) (sync_mappings p).
Proof. unfold sync_mappings. grow. Qed.
Lemma grows_notify p : Grows (W:=W) (notify_owner p).
Proof. unfold notify_owner. grow. Qed.
#[local] Hint Resolve grows_request_put grows_request_alloc grows_sync grows_notify : grow.
Lemma grows_finish c : Grows (W:=W) (vams_finish_request c).
Proof.
  unfold vams_finish_request, erase_outstanding, vams_request_sync_for_cpu, dec_pending. grow.
Qed.
#[local] Hint Resolve grows_finish : grow.
Lemma grows_drain_loop n tail : Grows (W:=W) (drain_loop n tail).
Proof. induction n; cbn [drain_loop]; grow. Qed.
#[local] Hint Resolve grows_drain_loop : grow.
Lemma grows_drain_cq : Grows (W:=W) vams_drain_cq.
Proof. unfold vams_drain_cq. grow. Qed.
Lemma grows_device_insert p id : Grows (W:=W) (device_insert p id).
Proof. unfold device_insert. grow. Qed.
Lemma grows_publish p descriptor t : Grows (W:=W) (submit_publish p descriptor t).
Proof. unfold submit_publish, vams_request_sync_for_device. grow. Qed.
Lemma grows_lookup f h o l a : Grows (W:=W) (optional_lookup f h o l a).
Proof. unfold optional_lookup, vams_mapping_lookup_locked, vams_mapping_get. grow. Qed.
#[local] Hint Resolve grows_drain_cq grows_device_insert grows_publish grows_lookup : grow.

(** An entry added, then perhaps taken back. *)
Lemma grows_owner_insert f p id s ret s' :
  owner_insert f p id s = Ok (ret, s') ->
  grows s s' /\ (rc_is_ok ret = true -> forall vf, k_files s !! f = Some vf -> vf_requests vf !! id = None).
Proof.
  unfold owner_insert. rewrite (run_bind _ _ _ _ _ (run_in_world _ _)).
  destruct (alloc_ok (k_world s)) as [memory w]. cbn [fst snd]. set (s1 := set_k_world w s).
  unfold mbind at 1, K_bind at 1. unfold read_file at 1. change (k_files s1) with (k_files s).
  destruct (k_files s !! f) as [vf|] eqn:Hf; [|done].
  destruct (xa_insert _ _ _ _) as [ret' m] eqn:Ex.
  krun (run_update_file s1 f vf (set_vf_requests m) Hf). intros [= <- <-].
  assert (Hm : vf_requests vf ⊆ m /\ (rc_is_ok ret' = true -> vf_requests vf !! id = None)).
  { unfold xa_insert in Ex. destruct (vf_requests vf !! id) eqn:Eid; [by injection Ex as <- <-|].
    destruct memory; injection Ex as <- <-; [|done]. split; [|done]. by apply insert_subseteq. }
  destruct Hm as [Hsub Hnone]. split; [|intros Hok vf0 [= <-]; by apply Hnone].
  intros g vg. simpl. destruct (decide (g = f)) as [->|Hne].
  - rewrite lookup_insert_eq. intros [= <-]. by exists vf.
  - rewrite lookup_insert_ne by done. intros Hg. by exists vg.
Qed.

(** Erasing an index that was free before. *)
Lemma grows_owner_erase f id s0 s x s' :
  grows s0 s -> (forall vf, k_files s0 !! f = Some vf -> vf_requests vf !! id = None) ->
  owner_erase f id s = Ok (x, s') -> grows s0 s'.
Proof.
  intros H0 Hfree. unfold owner_erase, mbind at 1, K_bind at 1. unfold read_file at 1.
  destruct (k_files s !! f) as [vf|] eqn:Hf; [|done]. unfold xa_erase.
  krun (run_update_file s f vf (set_vf_requests (delete id (vf_requests vf))) Hf). intros [= _ <-].
  intros g vg. simpl. destruct (decide (g = f)) as [->|Hne].
  - rewrite lookup_insert_eq. intros [= <-]. destruct (H0 f vf Hf) as (vf0 & Hf0 & Hs).
    exists vf0. split; [done|]. simpl. apply map_subseteq_spec. intros k q Hk.
    assert (k <> id) by (intros ->; by rewrite (Hfree vf0 Hf0) in Hk).
    rewrite lookup_delete_ne by done. by eapply lookup_weaken.
  - rewrite lookup_insert_ne by done. apply H0.
Qed.

(** Running the first step of a program that returned. *)
Lemma bind_ran {A B} (m : K W A) (k : A -> K W B) s b s' :
  (m ≫= k) s = Ok (b, s') -> exists a s1, m s = Ok (a, s1) /\ k a s1 = Ok (b, s').
Proof. unfold mbind, K_bind. destruct (m s) as [[a s1]|]; [|done]. eauto. Qed.

Lemma grows_track_loop n p : Grows (W:=W) (track_loop n p).
Proof.
  induction n as [|n IH]; cbn [track_loop]; [grow|].
  apply grows_bind; [grow|]. intros d. apply grows_bind; [grow|]. intros _. cbv zeta.
  set (id := u32 _). destruct (id =? 0); [done|].
  apply grows_bind; [grow|]. intros _. apply grows_bind; [grow|]. intros r.
  destruct (r_owner r) as [f|]; cbn [from_option].
  2:{ unfold vams_request_get. grow. }
  intros s a s' (ret & s1 & E1 & E)%bind_ran. apply grows_owner_insert in E1 as [H1 Hfree].
  destruct (rc_is EBUSY ret); [transitivity s1; [done|by eapply IH]|].
  destruct (rc_is_ok ret) eqn:Eok; cbn [negb] in E; [|by injection E as _ <-].
  apply bind_ran in E as (u & s2 & E2 & E). apply grows_update_request in E2.
  apply bind_ran in E as (ret2 & s3 & E3 & E). apply grows_device_insert in E3.
  assert (H3 : grows s s3) by (etransitivity; [exact H1|]; by transitivity s2).
  destruct (rc_is_ok ret2); [by injection E as _ <-|].
  apply bind_ran in E as (u' & s4 & E4 & E). apply grows_request_put in E4.
  apply bind_ran in E as (u2 & s5 & E5 & E). apply bind_ran in E5 as (x & s5' & E5 & E5').
  injection E5' as _ <-.
  assert (H5 : grows s s5').
  { eapply (grows_owner_erase f id s s4); [by transitivity s3|by apply Hfree|exact E5]. }
  destruct (rc_is EBUSY ret2); cbn [negb] in E; [|by injection E as _ <-].
  transitivity s5'; [done|by eapply IH].
Qed.
#[local] Hint Resolve grows_track_loop : grow.

Lemma grows_submit p descriptor : Grows (W:=W) (vams_submit p descriptor).
Proof. unfold vams_submit, vams_track_request. grow. Qed.
#[local] Hint Resolve grows_submit : grow.
Lemma grows_submit_begin f argp : Grows (W:=W) (submit_begin f argp).
Proof. unfold submit_begin, submit_request, put_mappings. grow. Qed.
End GrowingPrograms.
