(* ===== verification/DriverInv.v ===== *)
(** * The driver's ownership invariant

    [dinv] says who holds which reference: every request, mapping and file in
    the heap is referenced, its counter is the number of references to it, and
    no table or field points outside the heap.  Code in the middle of an
    operation holds references in local variables; the invariant lists them, so
    that each driver function is a step from one list of loans to another. *)

From S2P Require Import Prelude Abi Linux DriverState Driver.

(** ** The invariant *)

Section Invariant.
Context {W : Type} `{!Kernel W}.

Definition outstanding (s : kstate W) : gmap Z nat := from_option vd_requests ∅ (k_dev s).

Definition table_refs (s : kstate W) (p : nat) : Z :=
  msum (fun vf => hold (vf_requests vf) p) (k_files s).
Definition request_refs (lr : list nat) (s : kstate W) (p : nat) : Z :=
  hold (outstanding s) p + table_refs s p + hits lr p.
Definition mapping_refs (lm : list nat) (s : kstate W) (p : nat) : Z :=
  msum (fun vf => hold (vf_mappings vf) p) (k_files s) +
  msum (fun r => ptr (r_source r) p + ptr (r_destination r) p) (k_requests s) + hits lm p.
Definition file_refs (lf : list nat) (s : kstate W) (p : nat) : Z :=
  msum (fun r => ptr (r_owner r) p) (k_requests s) + hits lf p.

(** [lo]: the open files.  [ls]: submissions between their two halves.
    [bound]: probe's reference to the device is held.
    [lf], [lr], [lm]: references to files, requests and mappings held by open
    descriptors and local variables.
    [ln]: requests that are neither done nor outstanding.
    [lu]: requests not in the table of their owner.
    [pd]: outstanding requests not yet counted in [pending_requests]. *)
Record dinv (lo : list nat) (ls : list (nat * nat)) (bound : bool)
    (lf lr lm ln lu : list nat) (pd : Z) (s : kstate W) : Prop := {
  di_req : counted r_refs (k_requests s) (request_refs lr s);
  di_map : counted m_refs (k_mappings s) (mapping_refs lm s);
  di_file : counted vf_refs (k_files s) (file_refs lf s);
  di_dev : match k_dev s with
           | Some d => vd_refs d = Z.of_nat (size (k_files s)) + Z.b2z bound /\ 0 < vd_refs d
           | None => k_files s = ∅ /\ bound = false
           end;
  di_bound : if bound then k_bar0 s = true
             else outstanding s = ∅ /\
                  from_option (fun d => vd_removing d = true) True (k_dev s);
  di_ids id p : outstanding s !! id = Some p ->
    exists r, k_requests s !! p = Some r /\ r_command_id r = id /\ id <> 0;
  di_own f vf id p : k_files s !! f = Some vf -> vf_requests vf !! id = Some p ->
    exists r, k_requests s !! p = Some r /\ r_owner r = Some f /\ r_command_id r = id;
  di_src p r : k_requests s !! p = Some r ->
    r_owner r = None -> r_source r = None /\ r_destination r = None;
  di_undone p r : k_requests s !! p = Some r ->
    if r_done r then hold (outstanding s) p = 0
    else outstanding s !! r_command_id r = Some p \/ p ∈ ln;
  di_new p : p ∈ ln -> hold (outstanding s) p = 0;
  di_unp p : p ∈ lu -> table_refs s p = 0;
  di_closed f vf : k_files s !! f = Some vf -> f ∉ lo ->
    vf_requests vf = ∅ /\ vf_mappings vf = ∅;
  di_pending d : k_dev s = Some d ->
    vd_pending_requests d = s32 (Z.of_nat (size (vd_requests d)) - pd);
  di_ring d : k_dev s = Some d -> 0 <= vd_sq_tail d < 16 /\ 0 <= vd_cq_head d < 16;
  di_sub f p : (f, p) ∈ ls -> f ∈ lo /\ exists vf r, k_files s !! f = Some vf /\
    k_requests s !! p = Some r /\ vf_requests vf !! r_command_id r = Some p;
  di_res : k_pinned s = msum m_npages (k_mappings s) /\
    k_sg_tables s = Z.of_nat (size (k_mappings s)) /\
    k_dma_maps s = Z.of_nat (size (k_mappings s));
}.

(** ** Who is alive *)

Section Facts.
Context (lo : list nat) (ls : list (nat * nat)) (bound : bool).
#[local] Abbreviation inv := (dinv lo ls bound).

Lemma table_refs_nonneg s p : 0 <= table_refs s p.
Proof. apply msum_nonneg. auto with vams. Qed.

Lemma source_refs_nonneg (m : gmap nat vams_request) p :
  0 <= msum (fun r => ptr (r_source r) p + ptr (r_destination r) p) m.
Proof.
  apply msum_nonneg. intros r.
  pose proof (ptr_nonneg (r_source r) p). pose proof (ptr_nonneg (r_destination r) p). lia.
Qed.

Lemma owner_refs_nonneg (m : gmap nat vams_request) p :
  0 <= msum (fun r => ptr (r_owner r) p) m.
Proof. apply msum_nonneg. auto with vams. Qed.

Lemma mapping_table_nonneg (m : gmap nat vams_file) p :
  0 <= msum (fun vf => hold (vf_mappings vf) p) m.
Proof. apply msum_nonneg. auto with vams. Qed.

Lemma hold_lookup (m : gmap Z nat) id p : m !! id = Some p -> 0 < hold m p.
Proof.
  intros Hm. pose proof (msum_le (ref1 p) m id p (ref1_nonneg p) Hm) as H.
  rewrite ref1_eq in H. unfold hold. lia.
Qed.

Lemma hold_zero (m : gmap Z nat) id p : hold m p = 0 -> m !! id <> Some p.
Proof. intros H0 Hm. apply hold_lookup in Hm. lia. Qed.

Lemma table_lookup s f vf id p :
  k_files s !! f = Some vf -> vf_requests vf !! id = Some p -> 0 < table_refs s p.
Proof.
  intros Hf Hid. apply hold_lookup in Hid.
  pose proof (msum_le (fun vf => hold (vf_requests vf) p) (k_files s) f vf
                (fun vf => hold_nonneg (vf_requests vf) p) Hf) as H.
  simpl in H. unfold table_refs. lia.
Qed.

Lemma loan_alive s lf lr lm ln lu pd p :
  inv lf lr lm ln lu pd s -> p ∈ lr -> exists r, k_requests s !! p = Some r.
Proof.
  intros [Hreq _ _ _ _ _ _ _ _ _ _ _ _ _ _ _] Hp. apply hits_elem in Hp.
  destruct (counted_live _ _ _ p Hreq) as (r & Hr & _); [|by exists r]. unfold request_refs.
  pose proof (hold_nonneg (outstanding s) p). pose proof (table_refs_nonneg s p). lia.
Qed.

Lemma owner_alive s lf lr lm ln lu pd p r f :
  inv lf lr lm ln lu pd s -> k_requests s !! p = Some r -> r_owner r = Some f ->
  exists vf, k_files s !! f = Some vf.
Proof.
  intros [_ _ Hfile _ _ _ _ _ _ _ _ _ _ _ _ _] Hp Ho.
  destruct (counted_live _ _ _ f Hfile) as (vf & Hf & _); [|by exists vf]. unfold file_refs.
  pose proof (msum_le (fun r => ptr (r_owner r) f) (k_requests s) p r
                (fun r => ptr_nonneg (r_owner r) f) Hp) as H.
  simpl in H. rewrite Ho in H. cbn [ptr from_option] in H. rewrite ref1_eq in H.
  pose proof (hits_nonneg lf f). lia.
Qed.

Lemma open_alive s lf lr lm ln lu pd f :
  inv lf lr lm ln lu pd s -> f ∈ lf -> exists vf, k_files s !! f = Some vf.
Proof.
  intros [_ _ Hfile _ _ _ _ _ _ _ _ _ _ _ _ _] Hf. apply hits_elem in Hf.
  destruct (counted_live _ _ _ f Hfile) as (vf & E & _); [|by exists vf]. unfold file_refs.
  pose proof (owner_refs_nonneg (k_requests s) f). lia.
Qed.

Lemma device_alive s lf lr lm ln lu pd f vf :
  inv lf lr lm ln lu pd s -> k_files s !! f = Some vf -> exists d, k_dev s = Some d.
Proof.
  intros [_ _ _ Hdev _ _ _ _ _ _ _ _ _ _ _ _] Hf.
  destruct (k_dev s) as [d|]; [by exists d|]. destruct Hdev as [He _].
  by rewrite He, lookup_empty in Hf.
Qed.

Lemma bound_alive s lf lr lm ln lu pd :
  inv lf lr lm ln lu pd s -> bound = true -> exists d, k_dev s = Some d.
Proof.
  intros [_ _ _ Hdev _ _ _ _ _ _ _ _ _ _ _ _] ->.
  destruct (k_dev s) as [d|]; [by exists d|]. by destruct Hdev as [_ ?].
Qed.

Lemma source_refs_pos (m : gmap nat vams_request) p r q :
  m !! p = Some r -> r_source r = Some q \/ r_destination r = Some q ->
  0 < msum (fun r => ptr (r_source r) q + ptr (r_destination r) q) m.
Proof.
  intros Hp Hq. set (f := fun r => ptr (r_source r) q + ptr (r_destination r) q).
  assert (Hf : forall r, 0 <= f r).
  { intros r0. unfold f. pose proof (ptr_nonneg (r_source r0) q).
    pose proof (ptr_nonneg (r_destination r0) q). lia. }
  pose proof (msum_le f m p r Hf Hp) as H. enough (0 < f r) by lia. unfold f.
  pose proof (ptr_nonneg (r_source r) q). pose proof (ptr_nonneg (r_destination r) q).
  destruct Hq as [Hq|Hq]; rewrite Hq in *; cbn [ptr from_option] in *; rewrite ref1_eq in *; lia.
Qed.

Lemma source_alive s lf lr lm ln lu pd p r q :
  inv lf lr lm ln lu pd s -> k_requests s !! p = Some r ->
  r_source r = Some q \/ r_destination r = Some q -> exists m, k_mappings s !! q = Some m.
Proof.
  intros [_ Hmap _ _ _ _ _ _ _ _ _ _ _ _ _ _] Hp Hq.
  destruct (counted_live _ _ _ q Hmap) as (m & Hm & _); [|by exists m]. unfold mapping_refs.
  pose proof (source_refs_pos _ p r q Hp Hq).
  pose proof (mapping_table_nonneg (k_files s) q). pose proof (hits_nonneg lm q). lia.
Qed.

(** A registered buffer that a request uses has a second reference. *)
Lemma used_buffer_refs s lf lr lm ln lu pd f vf h p r q :
  inv lf lr lm ln lu pd s -> k_files s !! f = Some vf -> vf_mappings vf !! h = Some q ->
  k_requests s !! p = Some r -> r_source r = Some q \/ r_destination r = Some q ->
  exists m, k_mappings s !! q = Some m /\ 2 <= m_refs m.
Proof.
  intros H Hf Hh Hp Hq. destruct (source_alive s _ _ _ _ _ _ p r q H Hp Hq) as [m Hm].
  exists m. split; [done|]. pose proof (di_map _ _ _ _ _ _ _ _ _ _ H q) as Hc. rewrite Hm in Hc.
  pose proof (source_refs_pos _ p r q Hp Hq).
  pose proof (msum_le (fun vf => hold (vf_mappings vf) q) (k_files s) f vf
                (fun vf => hold_nonneg (vf_mappings vf) q) Hf) as Hle.
  apply hold_lookup in Hh. simpl in Hle. pose proof (hits_nonneg lm q).
  destruct Hc as [-> _]. unfold mapping_refs. lia.
Qed.

Lemma registered_alive s lf lr lm ln lu pd f vf h q :
  inv lf lr lm ln lu pd s -> k_files s !! f = Some vf -> vf_mappings vf !! h = Some q ->
  exists m, k_mappings s !! q = Some m.
Proof.
  intros [_ Hmap _ _ _ _ _ _ _ _ _ _ _ _ _ _] Hf Hq.
  destruct (counted_live _ _ _ q Hmap) as (m & Hm & _); [|by exists m]. unfold mapping_refs.
  pose proof (msum_le (fun vf => hold (vf_mappings vf) q) (k_files s) f vf
                (fun vf => hold_nonneg (vf_mappings vf) q) Hf) as H.
  apply hold_lookup in Hq. simpl in H.
  pose proof (source_refs_nonneg (k_requests s) q). pose proof (hits_nonneg lm q). lia.
Qed.

Lemma mapping_loan_alive s lf lr lm ln lu pd q :
  inv lf lr lm ln lu pd s -> q ∈ lm -> exists m, k_mappings s !! q = Some m.
Proof.
  intros [_ Hmap _ _ _ _ _ _ _ _ _ _ _ _ _ _] Hq. apply hits_elem in Hq.
  destruct (counted_live _ _ _ q Hmap) as (m & Hm & _); [|by exists m]. unfold mapping_refs.
  pose proof (mapping_table_nonneg (k_files s) q).
  pose proof (source_refs_nonneg (k_requests s) q). lia.
Qed.
End Facts.
End Invariant.
