(* ===== verification/DriverMoves.v ===== *)
(** * State changes that keep the driver's ownership invariant

    One lemma per kind of change to the driver state: an object rewritten in
    place, a reference taken or dropped, an object allocated or freed.  The
    driver functions are sequences of these changes. *)

From S2P Require Import Prelude Abi Linux DriverState Driver DriverInv.

Ltac open_inv H :=
  destruct H as [Hreq Hmap Hfile Hdev Hbound Hids Hown Hsrc Hund Hnew Hunp Hcl Hpend Hring Hsub Hres].

Section Moves.
Context {W : Type} `{!Kernel W}.
Context (lo : list nat) (ls : list (nat * nat)) (bound : bool).
#[local] Abbreviation inv := (dinv lo ls bound).
Implicit Types (s : kstate W).

Lemma dinv_world lf lr lm ln lu pd s w : inv lf lr lm ln lu pd s -> inv lf lr lm ln lu pd (set_k_world w s).
Proof. intros H. open_inv H. by split. Qed.

Lemma dinv_perm lf lr lr' lm lm' ln lu pd s :
  (forall q, hits lr' q = hits lr q) -> (forall q, hits lm' q = hits lm q) ->
  inv lf lr lm ln lu pd s -> inv lf lr' lm' ln lu pd s.
Proof.
  intros Hr Hm H. open_inv H. split; try done.
  - eapply counted_ext; [|done]. intros q. unfold request_refs. by rewrite Hr.
  - eapply counted_ext; [|done]. intros q. unfold mapping_refs. by rewrite Hm.
Qed.

(** ** Requests in place *)

(** A request that keeps its owner, and its id unless it is the one looked for. *)
Lemma request_relook (m : gmap nat vams_request) p r r' q r0 :
  m !! p = Some r -> r_owner r' = r_owner r -> m !! q = Some r0 ->
  r_command_id r' = r_command_id r \/ q <> p ->
  exists r1, <[p := r']> m !! q = Some r1 /\ r_owner r1 = r_owner r0 /\
             r_command_id r1 = r_command_id r0.
Proof.
  intros Hp Ho Hq Hc. destruct (decide (q = p)) as [->|Hne].
  - rewrite Hp in Hq. simplify_eq. exists r'. rewrite lookup_insert_eq. by destruct Hc.
  - exists r0. by rewrite lookup_insert_ne.
Qed.

Lemma dinv_request_set lf lr lr' lm lm' ln ln' lu pd s p r r' :
  inv lf lr lm ln lu pd s -> k_requests s !! p = Some r ->
  r_refs r' - hits lr' p = r_refs r - hits lr p -> 0 < r_refs r' ->
  (forall q, q <> p -> hits lr' q = hits lr q) -> r_owner r' = r_owner r ->
  (forall q, ptr (r_source r') q + ptr (r_destination r') q + hits lm' q =
             ptr (r_source r) q + ptr (r_destination r) q + hits lm q) ->
  (r_owner r' = None -> r_source r' = None /\ r_destination r' = None) ->
  (r_command_id r' = r_command_id r \/ hold (outstanding s) p = 0 /\ table_refs s p = 0) ->
  (if r_done r' then hold (outstanding s) p = 0
   else outstanding s !! r_command_id r' = Some p \/ p ∈ ln') ->
  (forall q, q ∈ ln' -> q ∈ ln) -> (forall q, q <> p -> q ∈ ln -> q ∈ ln') ->
  inv lf lr' lm' ln' lu pd (set_k_requests (<[p := r']> (k_requests s)) s).
Proof.
  intros H Hp Hrefs Hpos Hlr Hown' Hsrcs Hnone Hid Hdone Hin Hout. open_inv H.
  pose proof (fun q r0 => request_relook (k_requests s) p r r' q r0 Hp Hown') as Hlook.
  split; simpl; try done.
  - pose proof (Hreq p) as Hc. rewrite Hp in Hc. destruct Hc as [Hc _].
    apply (counted_adjust r_refs (k_requests s) (request_refs lr s) _ p r); auto;
      unfold request_refs in *; change (outstanding (set_k_requests _ s)) with (outstanding s);
      change (table_refs (set_k_requests _ s)) with (table_refs s); try lia.
    intros q Hne. by rewrite (Hlr q Hne).
  - eapply counted_ext; [|exact Hmap]. intros q. unfold mapping_refs. simpl.
    rewrite (msum_update _ _ p r r' Hp). specialize (Hsrcs q). lia.
  - eapply counted_ext; [|exact Hfile]. intros q. unfold file_refs. simpl.
    rewrite (msum_same _ _ p r r' Hp); [done|]. by rewrite Hown'.
  - intros id q Hq. destruct (Hids id q Hq) as (r0 & Hr0 & <- & Hz).
    destruct (Hlook q r0 Hr0) as (r1 & Hr1 & _ & Hc).
    { destruct Hid as [?|[H0 _]]; [by left|]. right. intros ->. by eapply hold_zero. }
    exists r1. by rewrite Hc.
  - intros f vf id q Hf Hq. destruct (Hown f vf id q Hf Hq) as (r0 & Hr0 & <- & <-).
    destruct (Hlook q r0 Hr0) as (r1 & Hr1 & Ho & Hc); [|by exists r1].
    destruct Hid as [?|[_ H0]]; [by left|]. right. intros ->.
    pose proof (table_lookup _ _ _ _ _ Hf Hq). lia.
  - intros q r0 Hq. destruct (decide (q = p)) as [->|Hne].
    + rewrite lookup_insert_eq in Hq. by simplify_eq.
    + rewrite lookup_insert_ne in Hq by done. by apply (Hsrc q).
  - intros q r0 Hq. change (outstanding (set_k_requests _ s)) with (outstanding s).
    destruct (decide (q = p)) as [->|Hne].
    + rewrite lookup_insert_eq in Hq. by simplify_eq.
    + rewrite lookup_insert_ne in Hq by done. specialize (Hund q r0 Hq).
      destruct (r_done r0); [done|]. destruct Hund; auto.
  - intros q Hq. apply Hnew. auto.
  - intros f q Hfq. destruct (Hsub f q Hfq) as (Hf & vf & r0 & Hvf & Hr0 & Ht). split; [done|].
    destruct (Hlook q r0 Hr0) as (r1 & Hr1 & _ & Hc).
    { destruct Hid as [?|[_ H0]]; [by left|]. right. intros ->.
      pose proof (table_lookup _ _ _ _ _ Hvf Ht). lia. }
    exists vf, r1. by rewrite Hc.
Qed.

Lemma dinv_refs_pos lf lr lm ln lu pd s p r :
  inv lf lr lm ln lu pd s -> k_requests s !! p = Some r -> 0 < r_refs r.
Proof. intros H Hp. open_inv H. specialize (Hreq p). rewrite Hp in Hreq. lia. Qed.

(** Fields no invariant mentions. *)
Lemma dinv_request_neutral lf lr lm ln lu pd s p r r' :
  inv lf lr lm ln lu pd s -> k_requests s !! p = Some r ->
  r_refs r' = r_refs r -> r_owner r' = r_owner r -> r_source r' = r_source r ->
  r_destination r' = r_destination r -> r_command_id r' = r_command_id r ->
  r_done r' = r_done r ->
  inv lf lr lm ln lu pd (set_k_requests (<[p := r']> (k_requests s)) s).
Proof.
  intros H Hp E1 E2 E3 E4 E5 E6. apply (dinv_request_set lf lr lr lm lm ln ln lu pd s p r r'); auto.
  - by rewrite E1.
  - rewrite E1. by eapply dinv_refs_pos.
  - intros q. by rewrite E3, E4.
  - rewrite E2, E3, E4. by eapply di_src.
  - pose proof (di_undone _ _ _ _ _ _ _ _ _ _ H p r Hp) as Hu. by rewrite E5, E6.
Qed.

(** ** Request references *)

Lemma dinv_request_refs lf lr lr' lm ln lu pd s p r n :
  inv lf lr lm ln lu pd s -> k_requests s !! p = Some r ->
  n - hits lr' p = r_refs r - hits lr p -> 0 < n ->
  (forall q, q <> p -> hits lr' q = hits lr q) ->
  inv lf lr' lm ln lu pd (set_k_requests (<[p := set_r_refs n r]> (k_requests s)) s).
Proof.
  intros H Hp Hn Hpos Hq.
  apply (dinv_request_set lf lr lr' lm lm ln ln lu pd s p r (set_r_refs n r)); auto; simpl.
  - by eapply di_src.
  - by pose proof (di_undone _ _ _ _ _ _ _ _ _ _ H p r Hp).
Qed.

(** ** Requests allocated and freed *)

(** The new request takes over a reference to its owner. *)
Lemma dinv_request_alloc lf lr lm ln lu pd s p owner :
  inv (option_list owner ++ lf) lr lm ln lu pd s -> k_requests s !! p = None ->
  inv lf (p :: lr) lm (p :: ln) (p :: lu) pd
    (set_k_requests (<[p := new_request owner]> (k_requests s)) s).
Proof.
  intros H Hp. open_inv H.
  pose proof (Hreq p) as Hc. rewrite Hp in Hc. unfold request_refs in Hc.
  pose proof (hold_nonneg (outstanding s) p). pose proof (table_refs_nonneg s p).
  pose proof (hits_nonneg lr p).
  assert (Hne : forall q r, k_requests s !! q = Some r -> q <> p) by congruence.
  split; simpl; try done.
  - apply (counted_alloc _ _ (request_refs lr s)); auto; unfold request_refs; simpl;
      change (outstanding (set_k_requests _ s)) with (outstanding s);
      change (table_refs (set_k_requests _ s)) with (table_refs s);
      rewrite ?ref1_eq; try lia. intros q Hq. rewrite ref1_ne by done. lia.
  - eapply counted_ext; [|exact Hmap]. intros q. unfold mapping_refs. simpl.
    rewrite (msum_insert _ _ p) by done. simpl. lia.
  - eapply counted_ext; [|exact Hfile]. intros q. unfold file_refs. simpl.
    rewrite (msum_insert _ _ p), hits_app by done. simpl. destruct owner; simpl; lia.
  - intros id q Hq. destruct (Hids id q Hq) as (r0 & Hr0 & ?). exists r0.
    rewrite lookup_insert_ne; [done|]. apply not_eq_sym. eauto.
  - intros f vf id q Hf Hq. destruct (Hown f vf id q Hf Hq) as (r0 & Hr0 & ?). exists r0.
    rewrite lookup_insert_ne; [done|]. apply not_eq_sym. eauto.
  - intros q r0 Hq. destruct (decide (q = p)) as [->|Hqp].
    + rewrite lookup_insert_eq in Hq. by simplify_eq.
    + rewrite lookup_insert_ne in Hq by done. eauto.
  - intros q r0 Hq. change (outstanding (set_k_requests _ s)) with (outstanding s).
    destruct (decide (q = p)) as [->|Hqp].
    + rewrite lookup_insert_eq in Hq. simplify_eq. simpl. right. by left.
    + rewrite lookup_insert_ne in Hq by done. specialize (Hund q r0 Hq).
      destruct (r_done r0); [done|]. destruct Hund; [by left|right; by right].
  - intros q [->|Hq]%elem_of_cons; [|by apply Hnew].
    change (outstanding (set_k_requests _ s)) with (outstanding s). lia.
  - intros q [->|Hq]%elem_of_cons; [|by apply Hunp].
    change (table_refs (set_k_requests _ s)) with (table_refs s). lia.
  - intros f q Hfq. destruct (Hsub f q Hfq) as (Hf & vf & r0 & Hvf & Hr0 & Ht). split; [done|].
    exists vf, r0. rewrite lookup_insert_ne; [done|]. apply not_eq_sym. eauto.
Qed.

(** The last reference: the request's own references become loans. *)
Lemma dinv_request_free lf lr lm ln ln' lu lu' pd s p r :
  inv lf (p :: lr) lm ln lu pd s -> k_requests s !! p = Some r -> r_refs r = 1 ->
  (forall q, q ∈ ln' -> q ∈ ln) -> (forall q, q <> p -> q ∈ ln -> q ∈ ln') ->
  (forall q, q ∈ lu' -> q ∈ lu) ->
  inv (option_list (r_owner r) ++ lf) lr
    (option_list (r_source r) ++ option_list (r_destination r) ++ lm) ln' lu' pd
    (set_k_requests (delete p (k_requests s)) s).
Proof.
  intros H Hp Hone Hin Hout Hlu. open_inv H.
  pose proof (Hreq p) as Hc. rewrite Hp in Hc. destruct Hc as [Hc _]. unfold request_refs in Hc.
  simpl in Hc. rewrite ref1_eq in Hc.
  pose proof (hold_nonneg (outstanding s) p). pose proof (table_refs_nonneg s p).
  pose proof (hits_nonneg lr p).
  assert (Ho : hold (outstanding s) p = 0) by lia. assert (Ht : table_refs s p = 0) by lia.
  split; simpl; try done.
  - apply (counted_free _ _ (request_refs (p :: lr) s)); auto; unfold request_refs; simpl;
      change (outstanding (set_k_requests _ s)) with (outstanding s);
      change (table_refs (set_k_requests _ s)) with (table_refs s); [lia|].
    intros q Hq. rewrite ref1_ne by done. lia.
  - eapply counted_ext; [|exact Hmap]. intros q. unfold mapping_refs. simpl.
    rewrite (msum_delete _ _ p r Hp), !hits_app.
    destruct (r_source r), (r_destination r); simpl; lia.
  - eapply counted_ext; [|exact Hfile]. intros q. unfold file_refs. simpl.
    rewrite (msum_delete _ _ p r Hp), hits_app. destruct (r_owner r); simpl; lia.
  - intros id q Hq. destruct (Hids id q Hq) as (r0 & Hr0 & ?). exists r0.
    rewrite lookup_delete_ne; [done|]. intros <-. by eapply hold_zero.
  - intros f vf id q Hf Hq. destruct (Hown f vf id q Hf Hq) as (r0 & Hr0 & ?). exists r0.
    rewrite lookup_delete_ne; [done|]. intros <-.
    pose proof (table_lookup _ _ _ _ _ Hf Hq). lia.
  - intros q r0 Hq. apply lookup_delete_Some in Hq as [_ Hq]. eauto.
  - intros q r0 Hq. apply lookup_delete_Some in Hq as [Hqp Hq]. specialize (Hund q r0 Hq).
    change (outstanding (set_k_requests _ s)) with (outstanding s).
    destruct (r_done r0); [done|]. destruct Hund; auto.
  - intros q Hq. apply Hnew. auto.
  - intros q Hq. apply Hunp. auto.
  - intros f q Hfq. destruct (Hsub f q Hfq) as (Hf & vf & r0 & Hvf & Hr0 & Htab). split; [done|].
    exists vf, r0. rewrite lookup_delete_ne; [done|]. intros <-.
    pose proof (table_lookup _ _ _ _ _ Hvf Htab). lia.
Qed.

(** ** Mappings *)

Lemma dinv_mapping_refs lf lr lm lm' ln lu pd s q m n :
  inv lf lr lm ln lu pd s -> k_mappings s !! q = Some m ->
  n - hits lm' q = m_refs m - hits lm q -> 0 < n ->
  (forall p, p <> q -> hits lm' p = hits lm p) ->
  inv lf lr lm' ln lu pd (set_k_mappings (<[q := set_m_refs n m]> (k_mappings s)) s).
Proof.
  intros H Hq Hn Hpos Hp. open_inv H. pose proof (Hmap q) as Hc. rewrite Hq in Hc.
  split; simpl; try done.
  - apply (counted_adjust _ _ (mapping_refs lm s) _ q m); auto; unfold mapping_refs in *; simpl;
      [lia|lia|]. intros p Hne. by rewrite (Hp p Hne).
  - destruct Hres as (Hpin & Hsg & Hdma). rewrite (msum_same _ _ q m) by done.
    by rewrite map_size_insert_Some by eauto.
Qed.

Definition drop_mapping (q : nat) (m : vams_mapping) (s : kstate W) : kstate W :=
  set_k_mappings (delete q (k_mappings s))
    (set_k_pinned (k_pinned s - m_npages m)
      (set_k_sg_tables (k_sg_tables s - 1) (set_k_dma_maps (k_dma_maps s - 1) s))).

Lemma dinv_mapping_free lf lr lm ln lu pd s q m :
  inv lf lr (q :: lm) ln lu pd s -> k_mappings s !! q = Some m -> m_refs m = 1 ->
  inv lf lr lm ln lu pd (drop_mapping q m s).
Proof.
  intros H Hq Hone. open_inv H. pose proof (Hmap q) as Hc. rewrite Hq in Hc.
  unfold mapping_refs in Hc. simpl in Hc. rewrite ref1_eq in Hc.
  pose proof (mapping_table_nonneg (k_files s) q). pose proof (hits_nonneg lm q).
  pose proof (source_refs_nonneg (k_requests s) q).
  split; simpl; try done.
  - apply (counted_free _ _ (mapping_refs (q :: lm) s)); auto; unfold mapping_refs; simpl; [lia|].
    intros p Hne. rewrite ref1_ne by done. lia.
  - destruct Hres as (Hpin & Hsg & Hdma). rewrite (msum_delete_sub _ _ q m) by done.
    rewrite map_size_delete_Some by eauto.
    assert (size (k_mappings s) <> 0%nat) by (apply map_size_non_empty_iff; intros E;
      by rewrite E, lookup_empty in Hq).
    split_and!; lia.
Qed.

Definition add_mapping (q : nat) (m : vams_mapping) (s : kstate W) : kstate W :=
  set_k_mappings (<[q := m]> (k_mappings s))
    (set_k_dma_maps (k_dma_maps s + 1)
      (set_k_sg_tables (k_sg_tables s + 1) (set_k_pinned (k_pinned s + m_npages m) s))).

Lemma dinv_mapping_alloc lf lr lm ln lu pd s q m :
  inv lf lr lm ln lu pd s -> k_mappings s !! q = None -> m_refs m = 1 ->
  inv lf lr (q :: lm) ln lu pd (add_mapping q m s).
Proof.
  intros H Hq Hone. open_inv H. pose proof (Hmap q) as Hc. rewrite Hq in Hc.
  unfold mapping_refs in Hc.
  split; simpl; try done.
  - apply (counted_alloc _ _ (mapping_refs lm s)); auto; unfold mapping_refs; simpl;
      rewrite ?ref1_eq; try lia. intros p Hne. rewrite ref1_ne by done. lia.
  - destruct Hres as (Hpin & Hsg & Hdma). rewrite msum_insert by done.
    rewrite map_size_insert_None by done. split_and!; lia.
Qed.

(** ** Files in place *)

Lemma dinv_file_set lf lf' lr lr' lm lm' ln lu lu' pd s f vf vf' :
  inv lf lr lm ln lu pd s -> k_files s !! f = Some vf ->
  vf_refs vf' - hits lf' f = vf_refs vf - hits lf f -> 0 < vf_refs vf' ->
  (forall q, q <> f -> hits lf' q = hits lf q) ->
  (forall q, hold (vf_requests vf') q + hits lr' q = hold (vf_requests vf) q + hits lr q) ->
  (forall q, hold (vf_mappings vf') q + hits lm' q = hold (vf_mappings vf) q + hits lm q) ->
  (forall id q, vf_requests vf' !! id = Some q ->
     exists r, k_requests s !! q = Some r /\ r_owner r = Some f /\ r_command_id r = id) ->
  (forall q, q ∈ lu' -> table_refs s q - hold (vf_requests vf) q + hold (vf_requests vf') q = 0) ->
  (f ∉ lo -> vf_requests vf' = ∅ /\ vf_mappings vf' = ∅) ->
  (forall q r, (f, q) ∈ ls -> k_requests s !! q = Some r ->
     vf_requests vf !! r_command_id r = Some q -> vf_requests vf' !! r_command_id r = Some q) ->
  inv lf' lr' lm' ln lu' pd (set_k_files (<[f := vf']> (k_files s)) s).
Proof.
  intros H Hf Hrefs Hpos Hlf Hlr Hlm Hown' Hlu Hcl' Hsub'. open_inv H.
  assert (Ht : forall q, table_refs (set_k_files (<[f := vf']> (k_files s)) s) q =
    table_refs s q - hold (vf_requests vf) q + hold (vf_requests vf') q).
  { intros q. unfold table_refs. simpl. by rewrite (msum_update _ _ f vf). }
  split; simpl; try done.
  - eapply counted_ext; [|exact Hreq]. intros q. unfold request_refs. rewrite Ht.
    change (outstanding (set_k_files _ s)) with (outstanding s). specialize (Hlr q). lia.
  - eapply counted_ext; [|exact Hmap]. intros q. unfold mapping_refs. simpl.
    rewrite (msum_update _ _ f vf vf' Hf). specialize (Hlm q). lia.
  - pose proof (Hfile f) as Hc. rewrite Hf in Hc. unfold file_refs in Hc.
    apply (counted_adjust _ _ (file_refs lf s) _ f vf); auto; unfold file_refs; simpl;
      try lia. intros q Hne. by rewrite (Hlf q Hne).
  - rewrite map_size_insert_Some by eauto. destruct (k_dev s); [done|].
    destruct Hdev as [He _]. by rewrite He, lookup_empty in Hf.
  - intros g vf0 id q Hg. destruct (decide (g = f)) as [->|Hne].
    + rewrite lookup_insert_eq in Hg. simplify_eq. apply Hown'.
    + rewrite lookup_insert_ne in Hg by done. by apply Hown.
  - intros q Hq. rewrite Ht. auto.
  - intros g vf0 Hg. destruct (decide (g = f)) as [->|Hne].
    + rewrite lookup_insert_eq in Hg. simplify_eq. done.
    + rewrite lookup_insert_ne in Hg by done. eauto.
  - intros g q Hgq. destruct (Hsub g q Hgq) as (Hg & vf0 & r0 & Hvf & Hr0 & Htab). split; [done|].
    destruct (decide (g = f)) as [->|Hne].
    + rewrite Hf in Hvf. simplify_eq. exists vf', r0. rewrite lookup_insert_eq. eauto.
    + exists vf0, r0. by rewrite lookup_insert_ne.
Qed.

Lemma dinv_file_refs_pos lf lr lm ln lu pd s f vf :
  inv lf lr lm ln lu pd s -> k_files s !! f = Some vf -> 0 < vf_refs vf.
Proof. intros H Hf. open_inv H. specialize (Hfile f). rewrite Hf in Hfile. lia. Qed.

Lemma dinv_file_refs lf lf' lr lm ln lu pd s f vf vf' :
  inv lf lr lm ln lu pd s -> k_files s !! f = Some vf ->
  vf_requests vf' = vf_requests vf -> vf_mappings vf' = vf_mappings vf ->
  vf_refs vf' - hits lf' f = vf_refs vf - hits lf f -> 0 < vf_refs vf' ->
  (forall p, p <> f -> hits lf' p = hits lf p) ->
  inv lf' lr lm ln lu pd (set_k_files (<[f := vf']> (k_files s)) s).
Proof.
  intros H Hf Hr Hm Hn Hpos Hp.
  apply (dinv_file_set lf lf' lr lr lm lm ln lu lu pd s f vf vf'); auto;
    rewrite ?Hr, ?Hm; try done.
  - intros id q Hq. by eapply di_own.
  - intros q Hq. pose proof (di_unp _ _ _ _ _ _ _ _ _ _ H q Hq). lia.
  - by eapply di_closed.
Qed.

(** Fields no invariant mentions. *)
Lemma dinv_file_neutral lf lr lm ln lu pd s f vf vf' :
  inv lf lr lm ln lu pd s -> k_files s !! f = Some vf -> vf_refs vf' = vf_refs vf ->
  vf_requests vf' = vf_requests vf -> vf_mappings vf' = vf_mappings vf ->
  inv lf lr lm ln lu pd (set_k_files (<[f := vf']> (k_files s)) s).
Proof.
  intros H Hf Hrefs Hr Hm. apply (dinv_file_refs lf lf _ _ _ _ _ s f vf vf'); auto.
  - by rewrite Hrefs.
  - rewrite Hrefs. by eapply dinv_file_refs_pos.
Qed.

(** ** The device in place *)

Lemma dinv_device_set lf lr lr' lm ln ln' lu pd pd' s d d' :
  inv lf lr lm ln lu pd s -> k_dev s = Some d -> vd_refs d' = vd_refs d ->
  (bound = false -> vd_requests d' = ∅ /\ vd_removing d' = true) ->
  (forall q, hold (vd_requests d') q + hits lr' q = hold (vd_requests d) q + hits lr q) ->
  (forall id q, vd_requests d' !! id = Some q ->
     exists r, k_requests s !! q = Some r /\ r_command_id r = id /\ id <> 0) ->
  (forall q r, k_requests s !! q = Some r ->
     if r_done r then hold (vd_requests d') q = 0
     else vd_requests d' !! r_command_id r = Some q \/ q ∈ ln') ->
  (forall q, q ∈ ln' -> hold (vd_requests d') q = 0) ->
  vd_pending_requests d' = s32 (Z.of_nat (size (vd_requests d')) - pd') ->
  0 <= vd_sq_tail d' < 16 /\ 0 <= vd_cq_head d' < 16 ->
  inv lf lr' lm ln' lu pd' (set_k_dev (Some d') s).
Proof.
  intros H Hd Hrefs Hunb Hlr Hids' Hund' Hnew' Hpend' Hring'. open_inv H.
  assert (Ho : outstanding s = vd_requests d) by (unfold outstanding; by rewrite Hd).
  rewrite Ho in *. rewrite Hd in *.
  split; simpl; try done.
  - eapply counted_ext; [|exact Hreq]. intros q. unfold request_refs. rewrite Ho.
    change (outstanding (set_k_dev _ s)) with (vd_requests d').
    change (table_refs (set_k_dev _ s)) with (table_refs s). specialize (Hlr q). lia.
  - by rewrite Hrefs.
  - destruct bound; [done|]. by apply Hunb.
  - by intros d0 [= <-].
  - by intros d0 [= <-].
Qed.

(** Fields no invariant mentions. *)
Lemma dinv_device_neutral lf lr lm ln lu pd s d d' :
  inv lf lr lm ln lu pd s -> k_dev s = Some d -> vd_refs d' = vd_refs d ->
  (bound = false -> vd_removing d' = true) -> vd_requests d' = vd_requests d ->
  vd_pending_requests d' = vd_pending_requests d ->
  0 <= vd_sq_tail d' < 16 /\ 0 <= vd_cq_head d' < 16 ->
  inv lf lr lm ln lu pd (set_k_dev (Some d') s).
Proof.
  intros H Hd Hrefs Hrem Hreq' Hpend' Hring'.
  assert (Ho : outstanding s = vd_requests d) by (unfold outstanding; by rewrite Hd).
  apply (dinv_device_set lf lr lr lm ln ln lu pd pd s d d'); auto; rewrite ?Hreq', <-?Ho; auto.
  - intros ->. split; [|auto]. by destruct (di_bound _ _ _ _ _ _ _ _ _ _ H).
  - by eapply di_ids.
  - by eapply di_undone.
  - by eapply di_new.
  - rewrite Hpend', Ho. by eapply di_pending.
Qed.

(** ** Files freed with their device reference *)

(** The state after [device_put], and after the removal of file [f] too. *)
Definition put_device (d : vams_device) (s : kstate W) : kstate W :=
  set_k_host (if vd_refs d =? 1 then release_host d (k_host s) else k_host s)
    (set_k_dev (if vd_refs d =? 1 then None else Some (set_vd_refs (vd_refs d - 1) d)) s).
Definition close_file (f : nat) (d : vams_device) (s : kstate W) : kstate W :=
  set_k_files (delete f (k_files s)) (put_device d s).

Lemma run_device_put s d : k_dev s = Some d -> device_put s = Ok (tt, put_device d s).
Proof.
  intros Hd. unfold device_put, put_device. krun (run_read_device _ _ Hd).
  destruct (vd_refs d =? 1).
  - unfold vams_device_release. by krun (run_read_device _ _ Hd).
  - rewrite (run_update_device _ _ _ Hd). by destruct s.
Qed.

Lemma dinv_file_free lf lr lm ln lu pd s f vf d :
  inv (f :: lf) lr lm ln lu pd s -> k_files s !! f = Some vf -> k_dev s = Some d ->
  vf_refs vf = 1 -> f ∉ lo -> inv lf lr lm ln lu pd (close_file f d s).
Proof.
  intros H Hf Hd Hone Hopen. open_inv H.
  destruct (Hcl f vf Hf Hopen) as [Hnr Hnm].
  pose proof (Hfile f) as Hc. rewrite Hf in Hc. unfold file_refs in Hc. simpl in Hc.
  rewrite ref1_eq in Hc.
  pose proof (owner_refs_nonneg (k_requests s) f). pose proof (hits_nonneg lf f).
  assert (Hsz : size (delete f (k_files s)) = (size (k_files s) - 1)%nat)
    by (rewrite map_size_delete_Some by eauto; lia).
  assert (size (k_files s) <> 0%nat) by (apply map_size_non_empty_iff; intros E;
    by rewrite E, lookup_empty in Hf).
  rewrite Hd in Hdev. destruct Hdev as [Hdr Hdp].
  assert (Hlast : vd_refs d = 1 -> bound = false /\ delete f (k_files s) = ∅).
  { intros E. destruct bound; simpl in Hdr; [lia|]. split; [done|].
    apply map_size_empty_inv. lia. }
  assert (Hout : outstanding (close_file f d s) = outstanding s).
  { unfold outstanding, close_file. simpl. rewrite Hd. simpl.
    destruct (Z.eqb_spec (vd_refs d) 1) as [E|]; [|done].
    destruct (Hlast E) as [-> _]. destruct Hbound as [Hb _]. unfold outstanding in Hb.
    by rewrite Hd in Hb. }
  assert (Ht : forall q, table_refs (close_file f d s) q = table_refs s q).
  { intros q. unfold table_refs. simpl. rewrite (msum_delete_sub _ _ f vf Hf), Hnr, hold_empty. lia. }
  split; rewrite ?Hout; simpl; try done.
  - eapply counted_ext; [|exact Hreq]. intros q. unfold request_refs. by rewrite Hout, Ht.
  - eapply counted_ext; [|exact Hmap]. intros q. unfold mapping_refs. simpl.
    rewrite (msum_delete_sub _ _ f vf Hf), Hnm, hold_empty. lia.
  - apply (counted_free _ _ (file_refs (f :: lf) s)); auto; unfold file_refs; simpl; [lia|].
    intros q Hq. rewrite ref1_ne by done. lia.
  - destruct (Z.eqb_spec (vd_refs d) 1) as [E|].
    + by destruct (Hlast E) as [-> ->].
    + simpl. rewrite Hsz. lia.
  - destruct bound; [done|]. destruct Hbound as [Hb Hr]. split; [done|]. rewrite Hd in Hr.
    by destruct (vd_refs d =? 1).
  - intros g vg id q Hg. apply lookup_delete_Some in Hg as [_ Hg]. by apply Hown.
  - intros q Hq. rewrite Ht. auto.
  - intros g vg Hg. apply lookup_delete_Some in Hg as [_ Hg]. by apply Hcl.
  - intros d0. destruct (vd_refs d =? 1); [done|]. intros [= <-]. by apply (Hpend d).
  - intros d0. destruct (vd_refs d =? 1); [done|]. intros [= <-]. by apply (Hring d).
  - intros g q Hgq. destruct (Hsub g q Hgq) as (Hg & vf0 & r0 & Hvf & Hr0 & Htab). split; [done|].
    exists vf0, r0. rewrite lookup_delete_ne; [done|]. congruence.
Qed.
End Moves.
