(* ===== verification/DriverRefs.v ===== *)
(** * Reference counting and tables of the driver, function by function

    Each driver function runs without a fault from a state of the invariant,
    and moves the references its name says. *)

From S2P Require Import Prelude Abi Linux DriverState Driver DriverApi DriverInv DriverMoves.

Section Refs.
Context {W : Type} `{!Kernel W}.
Context (lo : list nat) (ls : list (nat * nat)) (bound : bool).
#[local] Abbreviation inv := (dinv lo ls bound).
Implicit Types (s : kstate W).

(** ** Mappings *)

Lemma mapping_get_ok lf lr lm ln lu pd q s :
  inv lf lr lm ln lu pd s -> is_Some (k_mappings s !! q) ->
  exists s', vams_mapping_get q s = Ok (tt, s') /\ inv lf lr (q :: lm) ln lu pd s' /\
    k_files s' = k_files s /\ k_requests s' = k_requests s /\ k_dev s' = k_dev s.
Proof.
  intros H [m Hq]. eexists. split; [exact (run_update_mapping s q m _ Hq)|]. split; [|done].
  apply (dinv_mapping_refs _ _ _ _ _ lm (q :: lm) _ _ _ s q m); auto; simpl.
  - rewrite ref1_eq. lia.
  - pose proof (di_map _ _ _ _ _ _ _ _ _ _ H q) as Hc. rewrite Hq in Hc. lia.
  - intros p Hp. by rewrite ref1_ne.
Qed.

Lemma mapping_put_ok lf lr lm ln lu pd q s d :
  inv lf lr (option_list q ++ lm) ln lu pd s -> k_dev s = Some d ->
  exists s', vams_mapping_put q s = Ok (tt, s') /\ inv lf lr lm ln lu pd s' /\
    k_files s' = k_files s /\ k_requests s' = k_requests s /\ k_dev s' = k_dev s.
Proof.
  intros H Hd. destruct q as [q|]; [|by exists s]. simpl in H.
  destruct (mapping_loan_alive _ _ _ _ _ _ _ _ _ _ q H) as [m Hq]; [by left|].
  unfold vams_mapping_put. krun (run_read_mapping _ _ _ Hq).
  pose proof (di_map _ _ _ _ _ _ _ _ _ _ H q) as Hc. rewrite Hq in Hc.
  destruct (Z.eqb_spec (m_refs m) 1) as [E|E].
  - unfold vams_mapping_release. krun (run_read_mapping _ _ _ Hq). krun (run_read_device _ _ Hd).
    eexists. split; [done|]. split; [|done]. by apply (dinv_mapping_free _ _ _ _ _ _ _ _ _ s q m).
  - eexists. split; [by apply run_update_mapping|]. split; [|done].
    apply (dinv_mapping_refs _ _ _ _ _ (q :: lm) lm _ _ _ s q m); auto; simpl.
    + rewrite ref1_eq. lia.
    + lia.
    + intros p Hp. by rewrite ref1_ne.
Qed.

(** ** Files *)

Lemma file_get_ok lf lr lm ln lu pd f s :
  inv lf lr lm ln lu pd s -> is_Some (k_files s !! f) ->
  exists vf, k_files s !! f = Some vf /\
    file_get f s = Ok (tt, set_k_files (<[f := set_vf_refs (vf_refs vf + 1) vf]> (k_files s)) s) /\
    inv (f :: lf) lr lm ln lu pd
      (set_k_files (<[f := set_vf_refs (vf_refs vf + 1) vf]> (k_files s)) s).
Proof.
  intros H [vf Hf]. exists vf. split; [done|]. split; [exact (run_update_file s f vf _ Hf)|].
  apply (dinv_file_refs _ _ _ lf (f :: lf) _ _ _ _ _ s f vf); auto; simpl.
  - rewrite ref1_eq. lia.
  - pose proof (dinv_file_refs_pos _ _ _ _ _ _ _ _ _ s f vf H Hf). lia.
  - intros p Hp. by rewrite ref1_ne.
Qed.

Lemma file_put_ok lf lr lm ln lu pd f s :
  inv (f :: lf) lr lm ln lu pd s -> (f ∈ lo -> f ∈ lf) ->
  exists s', file_put f s = Ok (tt, s') /\ inv lf lr lm ln lu pd s' /\
    k_requests s' = k_requests s.
Proof.
  intros H Hopen. destruct (open_alive _ _ _ _ _ _ _ _ _ _ f H) as [vf Hf]; [by left|].
  destruct (device_alive _ _ _ _ _ _ _ _ _ _ f vf H Hf) as [d Hd].
  unfold file_put. krun (run_read_file _ _ _ Hf).
  pose proof (di_file _ _ _ _ _ _ _ _ _ _ H f) as Hc. rewrite Hf in Hc.
  destruct (Z.eqb_spec (vf_refs vf) 1) as [E|E].
  - assert (Hnl : f ∉ lo).
    { intros Hin%Hopen%hits_elem. destruct Hc as [Hc _]. unfold file_refs in Hc. simpl in Hc.
      rewrite ref1_eq in Hc. pose proof (owner_refs_nonneg (k_requests s) f). lia. }
    exists (close_file f d s). split; [|split; [|done]].
    + unfold vams_file_release_refs. krun (run_read_file _ _ _ Hf).
      by krun (run_device_put _ _ Hd).
    + by apply (dinv_file_free _ _ _ _ _ _ _ _ _ s f vf d).
  - eexists. split; [by apply run_update_file|]. split; [|done].
    apply (dinv_file_refs _ _ _ (f :: lf) lf _ _ _ _ _ s f vf); auto; simpl.
    + rewrite ref1_eq. lia.
    + lia.
    + intros p Hp. by rewrite ref1_ne.
Qed.

(** ** Requests *)

Lemma request_get_ok lf lr lm ln lu pd p r s :
  inv lf lr lm ln lu pd s -> k_requests s !! p = Some r ->
  vams_request_get p s
    = Ok (tt, set_k_requests (<[p := set_r_refs (r_refs r + 1) r]> (k_requests s)) s) /\
  inv lf (p :: lr) lm ln lu pd
    (set_k_requests (<[p := set_r_refs (r_refs r + 1) r]> (k_requests s)) s).
Proof.
  intros H Hp. split; [exact (run_update_request s p r _ Hp)|].
  apply (dinv_request_refs _ _ _ lf lr (p :: lr) _ _ _ _ s p r); auto; simpl.
  - rewrite ref1_eq. lia.
  - pose proof (dinv_refs_pos _ _ _ _ _ _ _ _ _ s p r H Hp). lia.
  - intros q Hq. by rewrite ref1_ne.
Qed.

(** Releasing mappings and files does not look at the requests. *)
Lemma mapping_put_requests q s s' x :
  vams_mapping_put q s = Ok (tt, s') ->
  vams_mapping_put q (set_k_requests x s) = Ok (tt, set_k_requests x s').
Proof.
  destruct q as [q|]; [|by intros [= ->]].
  unfold vams_mapping_put, vams_mapping_release, read_mapping, update_mapping, read_device,
    mbind, K_bind.
  change (k_mappings (set_k_requests x s)) with (k_mappings s).
  destruct (k_mappings s !! q) as [m|] eqn:Eq; [|done]. destruct (m_refs m =? 1).
  - change (k_mappings (set_k_requests x s)) with (k_mappings s). rewrite Eq.
    change (k_dev (set_k_requests x s)) with (k_dev s).
    destruct (k_dev s); [|done]. by intros [= <-].
  - change (k_mappings (set_k_requests x s)) with (k_mappings s). rewrite Eq. by intros [= <-].
Qed.

Lemma file_put_requests f s s' x :
  file_put f s = Ok (tt, s') -> file_put f (set_k_requests x s) = Ok (tt, set_k_requests x s').
Proof.
  unfold file_put, vams_file_release_refs, read_file, update_file, mbind, K_bind.
  change (k_files (set_k_requests x s)) with (k_files s).
  destruct (k_files s !! f) as [vf|] eqn:Ef; [|done]. destruct (vf_refs vf =? 1).
  - change (k_files (set_k_requests x s)) with (k_files s). rewrite Ef.
    destruct (k_dev s) as [d|] eqn:Ed.
    + rewrite (run_device_put s d), (run_device_put (set_k_requests x s) d) by done. by intros [= <-].
    + unfold device_put, mbind, K_bind, read_device. by rewrite Ed.
  - change (k_files (set_k_requests x s)) with (k_files s). rewrite Ef. by intros [= <-].
Qed.

(** What the last [vams_request_put] drops before freeing the request. *)
Definition drop_references (r : vams_request) : K W unit :=
  _ ← vams_mapping_put (r_source r);
  _ ← vams_mapping_put (r_destination r);
  from_option file_put (mret tt) (r_owner r).

Lemma drop_references_requests r s s' x :
  drop_references r s = Ok (tt, s') ->
  drop_references r (set_k_requests x s) = Ok (tt, set_k_requests x s').
Proof.
  unfold drop_references, mbind, K_bind.
  destruct (vams_mapping_put (r_source r) s) as [[[] s1]|] eqn:E1; [|done].
  rewrite (mapping_put_requests _ _ _ x E1).
  destruct (vams_mapping_put (r_destination r) s1) as [[[] s2]|] eqn:E2; [|done].
  rewrite (mapping_put_requests _ _ _ x E2).
  destruct (r_owner r) as [f|]; simpl; [apply file_put_requests|]. by intros [= ->].
Qed.

Lemma drop_references_ok lr lm ln lu pd r s :
  inv (option_list (r_owner r) ++ lo) lr
    (option_list (r_source r) ++ option_list (r_destination r) ++ lm) ln lu pd s ->
  (r_owner r = None -> r_source r = None /\ r_destination r = None) ->
  exists s', drop_references r s = Ok (tt, s') /\ inv lo lr lm ln lu pd s' /\
    k_requests s' = k_requests s.
Proof.
  intros H Hnone. unfold drop_references. destruct (r_owner r) as [f|] eqn:Ho.
  - destruct (open_alive _ _ _ _ _ _ _ _ _ _ f H) as [vf Hf]; [by left|].
    destruct (device_alive _ _ _ _ _ _ _ _ _ _ f vf H Hf) as [d Hd].
    destruct (mapping_put_ok _ _ _ _ _ _ _ _ d H Hd) as (s1 & E1 & H1 & _ & R1 & D1). krun E1.
    rewrite <-D1 in Hd.
    destruct (mapping_put_ok _ _ _ _ _ _ _ _ d H1 Hd) as (s2 & E2 & H2 & _ & R2 & _). krun E2.
    destruct (file_put_ok _ _ _ _ _ _ f s2 H2) as (s3 & E3 & H3 & R3); [done|].
    exists s3. split; [done|]. split; [done|]. congruence.
  - destruct Hnone as [Es Ed]; [done|]. rewrite Es, Ed in *. by exists s.
Qed.

Lemma request_put_last p r s s' :
  k_requests s !! p = Some r -> r_refs r = 1 -> drop_references r s = Ok (tt, s') ->
  vams_request_put p s = Ok (tt, set_k_requests (delete p (k_requests s')) s').
Proof.
  intros Hp E. unfold vams_request_put. krun (run_read_request _ _ _ Hp).
  rewrite (proj2 (Z.eqb_eq _ _) E). unfold drop_references, free_request, modify, mbind, K_bind.
  destruct (vams_mapping_put (r_source r) s) as [[[] s1]|]; [|done].
  destruct (vams_mapping_put (r_destination r) s1) as [[[] s2]|]; [|done].
  by intros ->.
Qed.

(** The requests after dropping a reference to [p]. *)
Definition drop_ref (p : nat) (m : gmap nat vams_request) : gmap nat vams_request :=
  match m !! p with
  | Some r => if r_refs r =? 1 then delete p m else <[p := set_r_refs (r_refs r - 1) r]> m
  | None => m
  end.

Lemma drop_ref_ne p q m : q <> p -> drop_ref p m !! q = m !! q.
Proof.
  intros Hne. unfold drop_ref. destruct (m !! p); [|done].
  case_match; [by apply lookup_delete_ne|by apply lookup_insert_ne].
Qed.

Lemma drop_ref_eq p m r r' :
  m !! p = Some r -> drop_ref p m !! p = Some r' -> r' = set_r_refs (r_refs r - 1) r.
Proof.
  intros Hp. unfold drop_ref. rewrite Hp. case_match; [by rewrite lookup_delete_eq|].
  rewrite lookup_insert_eq. congruence.
Qed.

(** Dropping a reference; the last one frees the request and what it holds. *)
Lemma request_put_ok lr lm ln lu pd p s :
  inv lo (p :: lr) lm ln lu pd s ->
  exists s', vams_request_put p s = Ok (tt, s') /\ inv lo lr lm ln lu pd s' /\
    k_requests s' = drop_ref p (k_requests s).
Proof.
  intros H. destruct (loan_alive _ _ _ _ _ _ _ _ _ _ p H) as [r Hp]; [by left|].
  destruct (Z.eqb_spec (r_refs r) 1) as [E|E].
  - pose proof (dinv_request_free _ _ _ lo lr lm ln ln lu lu pd s p r H Hp E) as Hfree.
    specialize (Hfree ltac:(auto) ltac:(auto) ltac:(auto)).
    destruct (drop_references_ok _ _ _ _ _ _ _ Hfree) as (s' & E' & H' & R').
    { by apply (di_src _ _ _ _ _ _ _ _ _ _ H p r). }
    apply (drop_references_requests _ _ _ (k_requests s)) in E'.
    replace (set_k_requests (k_requests s) _) with s in E' by (by destruct s).
    exists s'. split; [|split; [done|]].
    + rewrite (request_put_last p r s _ Hp E E'). simpl.
      f_equal. f_equal. simpl in R'. rewrite <-R'. by destruct s'.
    + unfold drop_ref. by rewrite Hp, (proj2 (Z.eqb_eq _ _) E).
  - unfold vams_request_put. krun (run_read_request _ _ _ Hp).
    rewrite (proj2 (Z.eqb_neq _ _) E). eexists.
    split; [exact (run_update_request s p r _ Hp)|].
    split; [|unfold drop_ref; by rewrite Hp, (proj2 (Z.eqb_neq _ _) E)].
    pose proof (dinv_refs_pos _ _ _ _ _ _ _ _ _ s p r H Hp).
    apply (dinv_request_refs _ _ _ lo (p :: lr) lr _ _ _ _ s p r); auto; simpl.
    + rewrite ref1_eq. lia.
    + lia.
    + intros q Hq. by rewrite ref1_ne.
Qed.

(** Forgetting a request that is gone. *)
Lemma dinv_forget lf lr lm ln lu pd p s :
  inv lf lr lm (p :: ln) (p :: lu) pd s -> p ∉ lr -> inv lf lr lm ln lu pd s.
Proof.
  intros H Hp. open_inv H.
  assert (Hgone : k_requests s !! p = None).
  { pose proof (Hreq p) as Hc. destruct (k_requests s !! p); [|done].
    unfold request_refs in Hc. rewrite (Hnew p), (Hunp p) in Hc by by left.
    destruct (decide (0 < hits lr p)) as [Hh|Hh]; [by apply hits_pos in Hh|].
    lia. }
  split; try done.
  - intros q r Hq. specialize (Hund q r Hq). destruct (r_done r); [done|].
    destruct Hund as [?|[->|?]%elem_of_cons]; [by left|congruence|by right].
  - intros q Hq. apply Hnew. by right.
  - intros q Hq. apply Hunp. by right.
Qed.

Lemma request_alloc_ok lr lm ln lu pd owner s :
  inv lo lr lm ln lu pd s -> (forall f, owner = Some f -> is_Some (k_files s !! f)) ->
  exists o s', vams_request_alloc owner s = Ok (o, s') /\ k_dev s' = k_dev s /\
    match o with
    | None => inv lo lr lm ln lu pd s'
    | Some p => inv lo (p :: lr) lm (p :: ln) (p :: lu) pd s' /\ (p ∉ lr) /\
                k_requests s' !! p = Some (new_request owner) /\ k_requests s !! p = None
    end.
Proof.
  intros H Howner. unfold vams_request_alloc. krun (run_in_world alloc_ok s).
  destruct (alloc_ok (k_world s)) as [ok w]. cbn [fst snd].
  apply (dinv_world _ _ _ _ _ _ _ _ _ _ w) in H. set (s1 := set_k_world w s) in *.
  destruct ok; cbn [negb]; [|by exists None, s1].
  set (p := fresh (dom (k_requests s1))).
  assert (Hp : k_requests s1 !! p = None) by (apply not_elem_of_dom, is_fresh).
  assert (Hlr : p ∉ lr).
  { intros Hin. destruct (loan_alive _ _ _ _ _ _ _ _ _ _ p H Hin) as [r Hr]. congruence. }
  assert (Hs2 : exists s2, from_option file_get (mret tt) owner
      (set_k_requests (<[p := new_request owner]> (k_requests s1)) s1)
      = Ok (tt, set_k_requests (<[p := new_request owner]> (k_requests s1)) s2) /\
    inv (option_list owner ++ lo) lr lm ln lu pd s2 /\ k_requests s2 = k_requests s1 /\
    k_dev s2 = k_dev s1).
  { destruct owner as [f|]; [|by exists s1].
    destruct (file_get_ok _ _ _ _ _ _ f s1 H) as (vf & Hf & E & H2); [by apply Howner|].
    exists (set_k_files (<[f := set_vf_refs (vf_refs vf + 1) vf]> (k_files s1)) s1).
    split; [|by split_and!]. cbn [from_option]. unfold file_get.
    by rewrite (run_update_file _ f vf) by done. }
  destruct Hs2 as (s2 & E2 & H2 & R2 & D2). exists (Some p). eexists. split.
  { kpure. kpure. fold p. by krun E2. }
  assert (Hp0 : k_requests s !! p = None) by done.
  split; [done|]. rewrite <-R2 in *. split; [by apply dinv_request_alloc|]. split; [done|].
  split; [apply lookup_insert_eq|exact Hp0].
Qed.
End Refs.
