(* ===== verification/DriverRequests.v ===== *)
(** * Completing requests and draining the ring keep the invariant

    The views of the state a completion leaves alone, [vams_finish_request] and
    the drain loop over the completion ring. *)

From S2P Require Import Prelude Abi Linux DriverState Driver DriverApi DriverInv DriverMoves.
From S2P Require Import DriverRefs.

(** ** Signed 32-bit counters *)

Lemma s32_s32 x y : s32 (s32 x + y) = s32 (x + y).
Proof.
  unfold s32. f_equal.
  replace ((x + 2147483648) mod 4294967296 - 2147483648 + y + 2147483648)
    with ((x + 2147483648) mod 4294967296 + y) by lia.
  rewrite Zplus_mod_idemp_l. f_equal. lia.
Qed.

Lemma s32_range x : -2147483648 <= s32 x < 2147483648.
Proof. unfold s32. pose proof (Z.mod_pos_bound (x + 2147483648) 4294967296). lia. Qed.

Lemma s32_id x : -2147483648 <= x < 2147483648 -> s32 x = x.
Proof. intros. unfold s32. rewrite Z.mod_small by lia. lia. Qed.

Section Requests.
Context {W : Type} `{!Kernel W}.
Context (lo : list nat) (ls : list (nat * nat)) (bound : bool).
#[local] Abbreviation inv := (dinv lo ls bound).
Implicit Types (s : kstate W).

(** The device apart from its reference count. *)
Definition dev_view (d : vams_device) : vams_device := set_vd_refs 0 d.

(** What releasing references leaves alone. *)
Record quiet (s s' : kstate W) : Prop := {
  q_world : k_world s' = k_world s;
  q_bar0 : k_bar0 s' = k_bar0 s;
  q_dev : k_dev s' = None \/ dev_view <$> k_dev s' = dev_view <$> k_dev s;
}.

(** The device apart from its reference count and its outstanding requests,
    and what completing a request leaves alone. *)
Definition dev_core (d : vams_device) : vams_device :=
  set_vd_refs 0 (set_vd_pending_requests 0 (set_vd_requests ∅ d)).

Record calm (s s' : kstate W) : Prop := {
  c_world : k_world s' = k_world s;
  c_bar0 : k_bar0 s' = k_bar0 s;
  c_dev : k_dev s' = None \/ dev_core <$> k_dev s' = dev_core <$> k_dev s;
}.

Lemma calm_refl s : calm s s.
Proof. split; auto. Qed.

Lemma calm_trans s1 s2 s3 : calm s1 s2 -> calm s2 s3 -> calm s1 s3.
Proof.
  intros [Hw Hb Hd] [Hw' Hb' Hd']. split; [congruence|congruence|].
  destruct Hd' as [?|E]; [by left|]. destruct Hd as [E'|E']; [|right; congruence].
  rewrite E' in E. left. by destruct (k_dev s3).
Qed.

Lemma calm_device s s' d d' :
  calm s s' -> k_dev s = Some d -> k_dev s' = Some d' -> dev_core d' = dev_core d.
Proof. intros [_ _ [E|E]] Hd Hd'; rewrite Hd' in E; [done|]. rewrite Hd in E. by apply (inj Some) in E. Qed.

Lemma quiet_calm s s' : quiet s s' -> calm s s'.
Proof.
  intros [Hw Hb Hd]. split; [done..|]. destruct Hd as [?|E]; [by left|]. right.
  destruct (k_dev s') as [d'|], (k_dev s) as [d|]; try done. simpl in *.
  apply (inj Some) in E. f_equal. change (dev_core d') with (dev_core (dev_view d')).
  by rewrite E.
Qed.

Lemma quiet_refl s : quiet s s.
Proof. split; auto. Qed.

Lemma quiet_trans s1 s2 s3 : quiet s1 s2 -> quiet s2 s3 -> quiet s1 s3.
Proof.
  intros [Hw Hb Hd] [Hw' Hb' Hd']. split; [congruence|congruence|].
  destruct Hd' as [?|E]; [by left|]. destruct Hd as [E'|E']; [|right; congruence].
  rewrite E' in E. left. by destruct (k_dev s3).
Qed.

Ltac quiet_step := repeat (case_match; simplify_eq/=); split; simpl; auto.

Lemma mapping_put_quiet q s s' : vams_mapping_put q s = Ok (tt, s') -> quiet s s'.
Proof.
  unfold vams_mapping_put, vams_mapping_release, read_mapping, update_mapping, read_device,
    modify, mret, K_ret, mbind, K_bind. intros E. quiet_step.
Qed.

Lemma file_put_quiet f s s' : file_put f s = Ok (tt, s') -> quiet s s'.
Proof.
  unfold file_put, vams_file_release_refs, read_file, update_file, device_put,
    vams_device_release, read_device, update_device, modify, mbind, K_bind. intros E. quiet_step.
  right. by match goal with H : k_dev _ = Some _ |- _ => rewrite H end.
Qed.

Lemma request_put_quiet p s s' : vams_request_put p s = Ok (tt, s') -> quiet s s'.
Proof.
  unfold vams_request_put, free_request, modify, mbind, K_bind, read_request.
  destruct (k_requests s !! p) as [r|] eqn:Ep; [|done]. destruct (r_refs r =? 1).
  - destruct (vams_mapping_put (r_source r) s) as [[[] s1]|] eqn:E1; [|done].
    destruct (vams_mapping_put (r_destination r) s1) as [[[] s2]|] eqn:E2; [|done].
    destruct (from_option file_put (mret tt) (r_owner r) s2) as [[[] s3]|] eqn:E3; [|done].
    intros [= <-].
    apply mapping_put_quiet in E1. apply mapping_put_quiet in E2.
    assert (quiet s2 s3).
    { destruct (r_owner r); simpl in E3; [by eapply file_put_quiet|].
      injection E3 as <-. apply quiet_refl. }
    assert (quiet s s3) as [] by eauto using quiet_trans. by split.
  - unfold update_request. rewrite Ep. intros [= <-]. split; simpl; auto.
Qed.

(** The tables of the file [f]. *)
Definition tables_of (s : kstate W) (f : nat) : option (gmap Z nat * gmap Z nat) :=
  (fun vf => (vf_requests vf, vf_mappings vf)) <$> k_files s !! f.

Lemma mapping_put_tables q s s' f :
  vams_mapping_put q s = Ok (tt, s') -> tables_of s' f = tables_of s f.
Proof.
  destruct q as [q|]; [|by intros [= ->]].
  unfold vams_mapping_put, vams_mapping_release, read_mapping, update_mapping, read_device,
    modify, mbind, K_bind.
  intros E. by repeat (case_match; simplify_eq/=).
Qed.

Lemma file_put_tables g s s' f :
  file_put g s = Ok (tt, s') -> tables_of s' f = tables_of s f \/ tables_of s' f = None.
Proof.
  unfold file_put, vams_file_release_refs, device_put, vams_device_release, read_file, update_file,
    read_device, update_device, modify, mbind, K_bind, tables_of.
  destruct (k_files s !! g) as [vf|] eqn:Eg; [|done].
  intros E. repeat (case_match; simplify_eq/=); destruct (decide (f = g)) as [->|Hne];
    rewrite ?lookup_delete_eq, ?lookup_insert_eq, ?lookup_delete_ne, ?lookup_insert_ne, ?Eg by done;
    auto.
  all: left; match goal with E : k_files _ !! _ = Some _ |- _ => by rewrite E end.
Qed.

Lemma request_put_tables p s s' f :
  vams_request_put p s = Ok (tt, s') -> tables_of s' f = tables_of s f \/ tables_of s' f = None.
Proof.
  unfold vams_request_put, free_request, modify, mbind, K_bind, read_request.
  destruct (k_requests s !! p) as [r|] eqn:Ep; [|done]. destruct (r_refs r =? 1).
  - destruct (vams_mapping_put (r_source r) s) as [[[] s1]|] eqn:E1; [|done].
    destruct (vams_mapping_put (r_destination r) s1) as [[[] s2]|] eqn:E2; [|done].
    destruct (from_option file_put (mret tt) (r_owner r) s2) as [[[] s3]|] eqn:E3; [|done].
    intros [= <-]. rewrite <-(mapping_put_tables _ _ _ f E1), <-(mapping_put_tables _ _ _ f E2).
    change (tables_of s3 f = tables_of s2 f \/ tables_of s3 f = None).
    destruct (r_owner r) as [g|]; simpl in E3; [by eapply file_put_tables|].
    injection E3 as <-. by left.
  - unfold update_request. rewrite Ep. intros [= <-]. by left.
Qed.

(** ** The pieces of a completion *)

Lemma erase_outstanding_ok lr lm ln lu pd id s d :
  inv lo lr lm ln lu pd s -> k_dev s = Some d ->
  let d' := set_vd_requests (delete id (vd_requests d)) d in
  let s' := set_k_dev (Some d') s in
  erase_outstanding id s = Ok (vd_requests d !! id, s') /\
  match vd_requests d !! id with
  | None => inv lo lr lm ln lu pd s'
  | Some p => inv lo (p :: lr) lm (p :: ln) lu (pd - 1) s'
  end.
Proof.
  intros H Hd d' s'. split.
  { unfold erase_outstanding. krun (run_read_device _ _ Hd). simpl.
    by krun (run_update_device _ _ (set_vd_requests (delete id (vd_requests d))) Hd). }
  pose proof H as H0. open_inv H0.
  assert (Ho : outstanding s = vd_requests d) by (unfold outstanding; by rewrite Hd).
  rewrite Ho in *.
  destruct (vd_requests d !! id) as [p|] eqn:Eid.
  - destruct (Hids id p Eid) as (rp & Hrp & Hidp & Hz).
    assert (Hdel : hold (delete id (vd_requests d)) p = 0).
    { apply hold_none. intros k [Hne Hk]%lookup_delete_Some.
      destruct (Hids k p Hk) as (r' & Hr' & Hk' & _). congruence. }
    assert (Hle : forall q, hold (delete id (vd_requests d)) q <= hold (vd_requests d) q).
    { intros q. rewrite (hold_delete _ id p q Eid). pose proof (ref1_nonneg q p). lia. }
    apply (dinv_device_set _ _ _ lo lr (p :: lr) lm ln (p :: ln) lu pd (pd - 1) s d d'); auto; simpl.
    + intros ->. destruct Hbound as [Hb Hr]. rewrite Hb, delete_empty. by rewrite Hd in Hr.
    + intros q. rewrite (hold_delete _ id p q Eid). lia.
    + intros k q Hk. apply lookup_delete_Some in Hk as [_ Hk]. by apply Hids.
    + intros q r Hq. specialize (Hund q r Hq). pose proof (Hle q).
      pose proof (hold_nonneg (delete id (vd_requests d)) q). destruct (r_done r); [lia|].
      destruct Hund as [Hk|Hin]; [|right; by right].
      destruct (decide (q = p)) as [->|Hne]; [right; by left|]. left.
      rewrite lookup_delete_ne; [done|]. intros E. rewrite <-E, Eid in Hk. congruence.
    + intros q [->|Hq]%elem_of_cons; [done|]. specialize (Hnew q Hq). pose proof (Hle q).
      pose proof (hold_nonneg (delete id (vd_requests d)) q). lia.
    + rewrite (Hpend d Hd). rewrite map_size_delete_Some by eauto.
      assert (size (vd_requests d) <> 0%nat) by (apply map_size_non_empty_iff; intros E;
        by rewrite E, lookup_empty in Eid).
      f_equal. lia.
    + by apply Hring.
  - assert (Es : delete id (vd_requests d) = vd_requests d) by by apply delete_id.
    apply (dinv_device_neutral _ _ _ lo lr lm ln lu pd s d d'); auto; simpl; try done.
    + intros ->. destruct Hbound as [_ Hr]. by rewrite Hd in Hr.
    + by apply Hring.
Qed.

Lemma sync_ok_alive lr lm ln lu pd p r s :
  inv lo lr lm ln lu pd s -> k_requests s !! p = Some r -> sync_mappings p s = Ok (tt, s).
Proof.
  intros H Hr. unfold sync_mappings. krun (run_read_request _ _ _ Hr).
  destruct (r_owner r) as [f|] eqn:Ho.
  - destruct (owner_alive _ _ _ _ _ _ _ _ _ _ p r f H Hr Ho) as [vf Hf].
    destruct (device_alive _ _ _ _ _ _ _ _ _ _ f vf H Hf) as [d Hd].
    assert (Hm : forall q, r_source r = Some q \/ r_destination r = Some q ->
      ((fun m => _ ← read_mapping m; mret tt) q : K W unit) s = Ok (tt, s)).
    { intros q Hq. destruct (source_alive _ _ _ _ _ _ _ _ _ _ p r q H Hr Hq) as [m Hm].
      by krun (run_read_mapping _ _ _ Hm). }
    destruct (r_source r) as [a|]; destruct (r_destination r) as [b|]; try done;
      krun (run_read_file _ _ _ Hf); krun (run_read_device _ _ Hd); cbn [from_option].
    + krun (Hm a (or_introl eq_refl)). destruct (bool_decide _); cbn [negb]; [done|].
      apply Hm. by right.
    + krun (Hm a (or_introl eq_refl)). by rewrite bool_decide_eq_false_2.
    + erewrite run_bind by done. rewrite bool_decide_eq_false_2 by done. cbn [negb].
      apply Hm. by right.
  - by destruct (di_src _ _ _ _ _ _ _ _ _ _ H p r Hr Ho) as [-> ->].
Qed.

Lemma sync_ok lr lm ln lu pd p s :
  inv lo lr lm ln lu pd s -> p ∈ lr -> sync_mappings p s = Ok (tt, s).
Proof.
  intros H Hp. destruct (loan_alive _ _ _ _ _ _ _ _ _ _ p H Hp) as [r Hr].
  by eapply sync_ok_alive.
Qed.

Lemma notify_owner_ok lr lm ln lu pd p s :
  inv lo lr lm ln lu pd s -> p ∈ lr ->
  exists s', notify_owner p s = Ok (tt, s') /\ inv lo lr lm ln lu pd s' /\
    k_dev s' = k_dev s /\ k_requests s' = k_requests s /\ quiet s s'.
Proof.
  intros H Hp. destruct (loan_alive _ _ _ _ _ _ _ _ _ _ p H Hp) as [r Hr].
  unfold notify_owner. krun (run_read_request _ _ _ Hr).
  destruct (r_owner r) as [f|] eqn:Ho; [|exists s; auto using quiet_refl].
  destruct (owner_alive _ _ _ _ _ _ _ _ _ _ p r f H Hr Ho) as [vf Hf].
  krun (run_read_file _ _ _ Hf). destruct (vf_closing vf); [exists s; auto using quiet_refl|].
  eexists. split; [exact (run_update_file s f vf _ Hf)|]. split; [|split_and!; [done|done|]].
  - by apply (dinv_file_neutral _ _ _ _ _ _ _ _ _ s f vf).
  - split; simpl; auto.
Qed.

Lemma dec_pending_ok lr lm ln lu pd s d :
  inv lo lr lm ln lu pd s -> k_dev s = Some d ->
  let d' := set_vd_pending_requests (atomic_dec_s32 (vd_pending_requests d)) d in
  dec_pending s = Ok (tt, set_k_dev (Some d') s) /\
  inv lo lr lm ln lu (pd + 1) (set_k_dev (Some d') s).
Proof.
  intros H Hd d'. split; [exact (run_update_device s d _ Hd)|].
  assert (Ho : outstanding s = vd_requests d) by (unfold outstanding; by rewrite Hd).
  pose proof H as H0. open_inv H0. rewrite Ho in *.
  apply (dinv_device_set _ _ _ lo lr lr lm ln ln lu pd (pd + 1) s d d'); auto; simpl; try done.
  - intros ->. destruct Hbound as [Hb Hr]. split; [done|]. by rewrite Hd in Hr.
  - rewrite (Hpend d Hd). unfold atomic_dec_s32. unfold Z.sub at 1. rewrite s32_s32. f_equal. lia.
  - by apply Hring.
Qed.

(** The tail shared by completion and cancellation: signal, notify, account
    and drop the table's reference. *)
Definition retire (p : nat) (u : vams_request -> vams_request) : K W unit :=
  _ ← update_request p u;
  _ ← vams_request_sync_for_cpu p;
  _ ← update_request p (set_r_done true);
  _ ← notify_owner p;
  _ ← dec_pending;
  vams_request_put p.

(** [u] writes the outcome. *)
Definition outcome_only (u : vams_request -> vams_request) : Prop :=
  forall r, r_refs (u r) = r_refs r /\ r_owner (u r) = r_owner r /\ r_source (u r) = r_source r /\
    r_destination (u r) = r_destination r /\ r_command_id (u r) = r_command_id r /\
    r_done (u r) = r_done r.

Lemma retire_request_ok lr lm ln lu pd p u s d :
  inv lo (p :: lr) lm (p :: ln) lu (pd - 1) s -> k_dev s = Some d -> outcome_only u ->
  exists s' r, retire p u s = Ok (tt, s') /\ inv lo lr lm ln lu pd s' /\ calm s s' /\
    (forall d', k_dev s' = Some d' -> vd_requests d' = vd_requests d) /\
    k_requests s !! p = Some r /\
    k_requests s' = drop_ref p (<[p := set_r_done true (u r)]> (k_requests s)).
Proof.
  intros H Hd Hu. destruct (loan_alive _ _ _ _ _ _ _ _ _ _ p H) as [r Hr]; [by left|].
  destruct (Hu r) as (U1 & U2 & U3 & U4 & U5 & U6). unfold retire.
  krun (run_update_request s p r u Hr).
  pose proof (dinv_request_neutral _ _ _ _ _ _ _ _ _ s p r (u r) H Hr U1 U2 U3 U4 U5 U6) as H1.
  set (s1 := set_k_requests _ s) in *.
  assert (Hr1 : k_requests s1 !! p = Some (u r)) by apply lookup_insert_eq.
  unfold vams_request_sync_for_cpu. krun (sync_ok _ _ _ _ _ p s1 H1 (list_elem_of_here p lr)).
  krun (run_update_request s1 p (u r) (set_r_done true) Hr1).
  assert (H2 : inv lo (p :: lr) lm ln lu (pd - 1)
    (set_k_requests (<[p := set_r_done true (u r)]> (k_requests s1)) s1)).
  { apply (dinv_request_set _ _ _ lo (p :: lr) (p :: lr) lm lm (p :: ln) ln lu (pd - 1) s1 p (u r));
      auto; simpl; try done.
    - by eapply dinv_refs_pos.
    - by apply (di_src _ _ _ _ _ _ _ _ _ _ H1 p).
    - apply (di_new _ _ _ _ _ _ _ _ _ _ H1). by left.
    - intros q Hq. by right.
    - by intros q Hq [->|?]%elem_of_cons. }
  set (s2 := set_k_requests _ s1) in *.
  destruct (notify_owner_ok _ _ _ _ _ p s2 H2) as (s3 & E3 & H3 & D3 & R3 & Q3); [by left|].
  krun E3. assert (Hd3 : k_dev s3 = Some d) by (rewrite D3; done).
  destruct (dec_pending_ok _ _ _ _ _ s3 d H3 Hd3) as [E4 H4]. krun E4.
  replace (pd - 1 + 1) with pd in H4 by lia. set (s4 := set_k_dev _ s3) in *.
  destruct (request_put_ok _ _ _ _ _ _ _ _ p s4 H4) as (s5 & E5 & H5 & R5).
  exists s5, r. split; [done|]. split; [done|].
  pose proof (request_put_quiet _ _ _ E5) as [_ _ Hv].
  apply request_put_quiet, quiet_calm in E5. apply quiet_calm in Q3.
  split; [|split; [|split; [done|]]].
  1: eapply calm_trans; [|eapply calm_trans; [exact Q3|eapply calm_trans; [|exact E5]]].
  - by split; simpl; auto.
  - split; simpl; auto. right. by rewrite Hd3.
  - intros d' Hd'. rewrite Hd' in Hv. destruct Hv as [?|Hv]; [done|].
    apply (inj Some) in Hv. exact (f_equal vd_requests Hv).
  - rewrite R5. f_equal. unfold s4. simpl. rewrite R3. unfold s2, s1. simpl.
    by rewrite insert_insert_eq.
Qed.

Lemma finish_run c s p s1 s2 :
  erase_outstanding (c_command_id c) s = Ok (Some p, s1) ->
  retire p (fun r => set_r_driver_status rc_ok (set_r_result c r)) s1 = Ok (tt, s2) ->
  vams_finish_request c s = Ok (true, s2).
Proof.
  intros E1 E2. unfold vams_finish_request. krun E1. revert E2. unfold retire, mbind, K_bind.
  intros E2. repeat (case_match; simplify_eq/=); done.
Qed.

(** The requests after the completion [c] of the request [p]: its result is
    written before the table's reference to it goes. *)
Definition completed (c : vams_completion) (p : nat) (r : vams_request)
    (m : gmap nat vams_request) : gmap nat vams_request :=
  drop_ref p (<[p := set_r_done true (set_r_driver_status rc_ok (set_r_result c r))]> m).

Lemma finish_spec lr lm ln lu pd c s d :
  inv lo lr lm ln lu pd s -> k_dev s = Some d ->
  exists b s', vams_finish_request c s = Ok (b, s') /\ inv lo lr lm ln lu pd s' /\ calm s s' /\
    (forall d', k_dev s' = Some d' ->
       vd_requests d' = delete (c_command_id c) (vd_requests d)) /\
    match vd_requests d !! c_command_id c with
    | None => b = false /\ k_requests s' = k_requests s
    | Some p => b = true /\ exists r, k_requests s !! p = Some r /\
        k_requests s' = completed c p r (k_requests s)
    end.
Proof.
  intros H Hd. destruct (erase_outstanding_ok _ _ _ _ _ (c_command_id c) s d H Hd) as [E1 H1].
  set (s1 := set_k_dev _ s) in *.
  assert (Hc : calm s s1) by (split; simpl; auto; right; by rewrite Hd).
  destruct (vd_requests d !! c_command_id c) as [p|] eqn:Eid.
  - destruct (retire_request_ok _ _ _ _ _ p (fun r => set_r_driver_status rc_ok (set_r_result c r)) s1 _ H1
      eq_refl) as (s2 & r & E2 & H2 & C2 & D2 & Hr & R2); [by intros r|].
    exists true, s2. split; [by eapply finish_run|]. split; [done|]. split; [by eapply calm_trans|].
    split; [exact D2|]. split; [done|]. by exists r.
  - exists false, s1. split; [unfold vams_finish_request; by krun E1|]. split_and!; try done.
    by intros d' [= <-].
Qed.

Lemma finish_ok lr lm ln lu pd c s d :
  inv lo lr lm ln lu pd s -> k_dev s = Some d ->
  exists b s', vams_finish_request c s = Ok (b, s') /\ inv lo lr lm ln lu pd s' /\ calm s s' /\
    forall q, q ∈ ln -> k_requests s' !! q = k_requests s !! q.
Proof.
  intros H Hd. destruct (finish_spec _ _ _ _ _ c s d H Hd) as (b & s' & E & H' & C & _ & Hreq).
  exists b, s'. split_and!; try done. intros q Hq.
  destruct (vd_requests d !! c_command_id c) as [p|] eqn:Eid; [|by destruct Hreq as [_ ->]].
  destruct Hreq as (_ & r & _ & ->). assert (q <> p).
  { intros ->. pose proof (di_new _ _ _ _ _ _ _ _ _ _ H p Hq) as Hz.
    apply (hold_zero _ (c_command_id c)) in Hz. unfold outstanding in Hz. by rewrite Hd in Hz. }
  unfold completed. rewrite drop_ref_ne by done. by apply lookup_insert_ne.
Qed.

(** ** Draining the completion ring *)

(** The indices from [head] up to [tail] in the ring. *)
Definition ring_distance (head tail : Z) : nat := Z.to_nat ((tail - head) mod 16).
Definition ring_slots (head : Z) (n : nat) : list Z :=
  (fun i => (head + Z.of_nat i) mod 16) <$> seq 0 n.

Lemma ring_next h : 0 <= h < 16 -> Z.land (h + 1) (VAMS_QUEUE_DEPTH - 1) = (h + 1) mod 16.
Proof. intros. change (VAMS_QUEUE_DEPTH - 1) with (Z.ones 4). by rewrite Z.land_ones. Qed.

Lemma ring_slots_S h n : ring_slots h (S n) = h mod 16 :: ring_slots ((h + 1) mod 16) n.
Proof.
  unfold ring_slots. cbn [seq fmap list_fmap]. f_equal; [f_equal; lia|].
  rewrite <-seq_shift, <-list_fmap_compose. apply list_fmap_ext. intros i x _.
  unfold compose. rewrite Zplus_mod_idemp_l. f_equal. lia.
Qed.

Lemma ring_distance_0 h t : 0 <= h < 16 -> 0 <= t < 16 -> ring_distance h t = 0%nat <-> h = t.
Proof.
  intros Hh Ht. unfold ring_distance. split; [|intros ->; by rewrite Z.sub_diag].
  intros E. pose proof (Z.mod_pos_bound (t - h) 16 ltac:(lia)).
  assert (Em : (t - h) mod 16 = 0) by lia. apply Z.mod_divide in Em as [k Hk]; lia.
Qed.

Lemma ring_distance_S h t n :
  0 <= h < 16 -> 0 <= t < 16 -> ring_distance h t = S n -> ring_distance ((h + 1) mod 16) t = n.
Proof.
  intros Hh Ht. unfold ring_distance. intros E.
  pose proof (Z.mod_pos_bound (t - h) 16 ltac:(lia)).
  rewrite Zminus_mod_idemp_r. replace (t - (h + 1)) with (t - h - 1) by lia.
  rewrite <-Zminus_mod_idemp_l, Z.mod_small by lia. lia.
Qed.

Lemma drain_loop_ok lr lm ln lu pd n fuel s d tail :
  bound = true -> inv lo lr lm ln lu pd s -> k_dev s = Some d -> 0 <= tail < 16 ->
  ring_distance (vd_cq_head d) tail = n -> (n < fuel)%nat ->
  exists s' d', drain_loop fuel tail s
      = Ok ((fun i => cq_entry i (k_world s)) <$> ring_slots (vd_cq_head d) n, s') /\
    inv lo lr lm ln lu pd s' /\ k_world s' = k_world s /\ k_bar0 s' = k_bar0 s /\
    k_dev s' = Some d' /\ dev_core d' = dev_core (set_vd_cq_head tail d) /\
    forall q, q ∈ ln -> k_requests s' !! q = k_requests s !! q.
Proof.
  intros Hb. revert fuel s d. induction n as [|n IH]; intros fuel s d H Hd Ht Hn Hf.
  all: destruct fuel as [|fuel]; [lia|]; cbn [drain_loop].
  all: destruct (di_ring _ _ _ _ _ _ _ _ _ _ H d Hd) as [Hsq Hcq].
  all: krun (run_read_device _ _ Hd).
  - apply ring_distance_0 in Hn; [|done..]. rewrite (proj2 (Z.eqb_eq _ _) Hn).
    exists s, d. split; [done|]. split_and!; try done. rewrite <-Hn. by destruct d.
  - assert (Hne : vd_cq_head d <> tail).
    { intros E. apply (ring_distance_0 (vd_cq_head d) tail) in E; [lia|done..]. }
    rewrite (proj2 (Z.eqb_neq _ _) Hne). kpure.
    krun (run_update_device s d (fun d =>
      set_vd_cq_head (Z.land (vd_cq_head d + 1) (VAMS_QUEUE_DEPTH - 1)) d) Hd).
    rewrite (ring_next _ Hcq). set (h := (vd_cq_head d + 1) mod 16).
    assert (Hh : 0 <= h < 16) by (apply Z.mod_pos_bound; lia).
    assert (H1 : inv lo lr lm ln lu pd (set_k_dev (Some (set_vd_cq_head h d)) s)).
    { apply (dinv_device_neutral _ _ _ lo lr lm ln lu pd s d); auto; simpl; try done.
      intros Hb'. congruence. }
    set (s1 := set_k_dev _ s) in *.
    destruct (finish_ok _ _ _ _ _ (cq_entry (vd_cq_head d) (k_world s)) s1 _ H1 eq_refl)
      as (b & s2 & E2 & H2 & C2 & N2). krun E2.
    destruct (bound_alive _ _ _ _ _ _ _ _ _ _ H2 Hb) as [d2 Hd2].
    pose proof (calm_device _ _ _ _ C2 eq_refl Hd2) as Hcore.
    assert (Hcq2 : vd_cq_head d2 = h) by exact (f_equal vd_cq_head Hcore).
    destruct (IH fuel s2 d2 H2 Hd2 Ht) as (s3 & d3 & E3 & H3 & W3 & B3 & D3 & K3 & N3).
    { rewrite Hcq2. by apply ring_distance_S. }
    { lia. }
    krun E3. destruct C2 as [CW CB _]. exists s3, d3. split_and!; try done.
    + rewrite ring_slots_S, Hcq2, CW. cbn [fmap list_fmap]. by rewrite (Z.mod_small (vd_cq_head d)).
    + by rewrite W3, CW.
    + by rewrite B3, CB.
    + rewrite K3. pose proof (f_equal (set_vd_cq_head tail) Hcore) as Hcore'.
      by destruct d, d2.
    + intros q Hq. by rewrite (N3 q Hq), (N2 q Hq).
Qed.
End Requests.
