(* ===== verification/DriverOps.v ===== *)
(** * Ring, reset and work items keep the driver's invariant

    Register accesses, [vams_drain_cq], [vams_observe_reset], the cancellation
    of requests and the two work items. *)

From S2P Require Import Prelude Abi Linux DriverState Driver DriverApi DriverInv DriverMoves.
From S2P Require Import DriverRefs DriverRequests.

Section Ops.
Context {W : Type} `{!Kernel W, !KernelLaws W}.
Context (lo : list nat) (ls : list (nat * nat)) (bound : bool).
#[local] Abbreviation inv := (dinv lo ls bound).
Implicit Types (s : kstate W).

(** ** Registers *)

Lemma readl_ok lr lm ln lu pd o s :
  bound = true -> inv lo lr lm ln lu pd s ->
  exists v w, vams_readl o s = Ok (v, set_k_world w s) /\ is_u32 v /\
    v = (ioread32 o (k_world s)).1 /\ w = (ioread32 o (k_world s)).2 /\
    inv lo lr lm ln lu pd (set_k_world w s).
Proof.
  intros Hb H. pose proof (di_bound _ _ _ _ _ _ _ _ _ _ H) as Hbar. rewrite Hb in Hbar.
  eexists _, _. split_and!; [|apply (ioread32_u32 o (k_world s))|done|done|by apply dinv_world].
  unfold vams_readl. rewrite Hbar. apply run_in_world.
Qed.

Lemma writel_ok lr lm ln lu pd o v s :
  bound = true -> inv lo lr lm ln lu pd s ->
  vams_writel o v s = Ok (tt, set_k_world (iowrite32 v o (k_world s)) s) /\
  inv lo lr lm ln lu pd (set_k_world (iowrite32 v o (k_world s)) s).
Proof.
  intros Hb H. pose proof (di_bound _ _ _ _ _ _ _ _ _ _ H) as Hbar. rewrite Hb in Hbar.
  split; [|by apply dinv_world]. unfold vams_writel. by rewrite Hbar.
Qed.

(** ** The completion ring *)

(** The device apart from references, requests and ring head. *)
Definition dev_rest (d : vams_device) : vams_device := dev_core (set_vd_cq_head 0 d).

Lemma core_rest d d' : dev_core d' = dev_core d -> dev_rest d' = dev_rest d.
Proof. intros E. exact (f_equal (set_vd_cq_head 0) E). Qed.

(** What [vams_drain_cq] consumes when the ring is usable. *)
Definition drained_entries (d : vams_device) (tail : Z) (w : W) : list vams_completion :=
  (fun i => cq_entry i w) <$> ring_slots (vd_cq_head d) (ring_distance (vd_cq_head d) tail).

Lemma drain_cq_spec lr lm ln lu pd s d :
  bound = true -> inv lo lr lm ln lu pd s -> k_dev s = Some d ->
  let '(tail, w) := ioread32 VAMS_REG_CQ_TAIL (k_world s) in
  exists l s' d', vams_drain_cq s = Ok (l, s') /\ inv lo lr lm ln lu pd s' /\
    k_dev s' = Some d' /\ dev_rest d' = dev_rest d /\
    (forall q, q ∈ ln -> k_requests s' !! q = k_requests s !! q) /\
    (if vd_queues_ready d && (tail <? VAMS_QUEUE_DEPTH) then
       l = drained_entries d tail w /\ vd_cq_head d' = tail
     else l = [] /\ vd_cq_head d' = vd_cq_head d).
Proof.
  intros Hb H Hd. destruct (ioread32 _ _) as [tail w] eqn:Er. unfold vams_drain_cq.
  krun (run_read_device _ _ Hd).
  destruct (vd_queues_ready d) eqn:Eq; cbn [negb andb]; [|by exists [], s, d].
  destruct (readl_ok _ _ _ _ _ VAMS_REG_CQ_TAIL s Hb H) as (v & w' & E & Hu & Ev & Ew & H1).
  rewrite Er in Ev, Ew. simpl in Ev, Ew. subst v w'. krun E. clear E.
  unfold VAMS_QUEUE_DEPTH. destruct (Z.leb_spec 16 tail) as [Hge|Hlt].
  { rewrite (proj2 (Z.ltb_ge _ _) Hge). by exists [], (set_k_world w s), d. }
  rewrite (proj2 (Z.ltb_lt _ _) Hlt).
  assert (Ht : 0 <= tail < 16) by word_lia.
  destruct (di_ring _ _ _ _ _ _ _ _ _ _ H d Hd) as [_ Hcq].
  destruct (drain_loop_ok lo ls bound lr lm ln lu pd _ drain_fuel (set_k_world w s) d tail Hb H1 Hd Ht
    eq_refl) as (s2 & d2 & E2 & H2 & W2 & _ & D2 & K2 & N2).
  { unfold ring_distance, drain_fuel. pose proof (Z.mod_pos_bound (tail - vd_cq_head d) 16). lia. }
  krun E2. krun (run_read_device _ _ D2).
  assert (Hrest : dev_rest d2 = dev_rest d) by exact (f_equal (set_vd_cq_head 0) K2).
  assert (Hhead : vd_cq_head d2 = tail) by exact (f_equal vd_cq_head K2).
  set (l := _ <$> _). destruct (bool_decide (l = [])) eqn:El; cbn [negb when].
  - by exists l, s2, d2.
  - destruct (writel_ok _ _ _ _ _ VAMS_REG_CQ_DOORBELL (vd_cq_head d2) s2 Hb H2) as [E3 H3].
    krun E3. by exists l, (set_k_world (iowrite32 (vd_cq_head d2) VAMS_REG_CQ_DOORBELL (k_world s2)) s2), d2.
Qed.

Lemma drain_cq_ok lr lm ln lu pd s d :
  bound = true -> inv lo lr lm ln lu pd s -> k_dev s = Some d ->
  exists l s' d', vams_drain_cq s = Ok (l, s') /\ inv lo lr lm ln lu pd s' /\
    k_dev s' = Some d' /\ dev_rest d' = dev_rest d /\
    forall q, q ∈ ln -> k_requests s' !! q = k_requests s !! q.
Proof.
  intros Hb H Hd. pose proof (drain_cq_spec lr lm ln lu pd s d Hb H Hd) as Hs.
  destruct (ioread32 _ _) as [tail w]. destruct Hs as (l & s' & d' & E & H' & D' & R' & N' & _).
  by exists l, s', d'.
Qed.

(** ** Resets *)

Lemma device_unbound lr lm ln lu pd s d :
  inv lo lr lm ln lu pd s -> k_dev s = Some d -> bound = false -> vd_removing d = true.
Proof.
  intros H Hd ->. destruct (di_bound _ _ _ _ _ _ _ _ _ _ H) as [_ Hr]. by rewrite Hd in Hr.
Qed.

(** Updates of device fields no invariant mentions. *)
Lemma update_device_ok lr lm ln lu pd s d u :
  inv lo lr lm ln lu pd s -> k_dev s = Some d ->
  vd_refs (u d) = vd_refs d -> vd_removing (u d) = vd_removing d ->
  vd_requests (u d) = vd_requests d -> vd_pending_requests (u d) = vd_pending_requests d ->
  vd_sq_tail (u d) = vd_sq_tail d -> vd_cq_head (u d) = vd_cq_head d ->
  update_device u s = Ok (tt, set_k_dev (Some (u d)) s) /\
  inv lo lr lm ln lu pd (set_k_dev (Some (u d)) s).
Proof.
  intros H Hd E1 E2 E3 E4 E5 E6. split; [exact (run_update_device s d u Hd)|].
  apply (dinv_device_neutral _ _ _ lo lr lm ln lu pd s d); auto.
  - intros Hb. rewrite E2. by eapply device_unbound.
  - rewrite E5, E6. by eapply di_ring.
Qed.

Lemma observe_reset_ok lr lm ln lu pd s :
  bound = true -> inv lo lr lm ln lu pd s ->
  exists s', vams_observe_reset s = Ok (tt, s') /\ inv lo lr lm ln lu pd s'.
Proof.
  intros Hb H. unfold vams_observe_reset.
  destruct (readl_ok _ _ _ _ _ VAMS_REG_RESET_GENERATION s Hb H) as (g & w & E & _ & _ & _ & H1).
  krun E. destruct (bound_alive _ _ _ _ _ _ _ _ _ _ H1 Hb) as [d Hd].
  krun (run_read_device _ _ Hd). destruct (g =? vd_reset_generation d) eqn:Eg; [by eexists|].
  destruct (readl_ok _ _ _ _ _ VAMS_REG_LAST_RESET_REASON _ Hb H1) as (r & w' & E' & _ & _ & _ & H2).
  krun E'. krun (run_read_device (set_k_world w' (set_k_world w s)) d Hd). rewrite Eg. cbn [negb].
  eexists. by apply (update_device_ok lr lm ln lu pd _ d (fun d => set_vd_reset_scheduled true
    (set_vd_reset_generation g (set_vd_reset_reason r d))) H2 Hd).
Qed.

Lemma cq_poll_work_ok lr lm ln lu pd s :
  bound = true -> inv lo lr lm ln lu pd s ->
  exists s', vams_cq_poll_work s = Ok (tt, s') /\ inv lo lr lm ln lu pd s'.
Proof.
  intros Hb H. unfold vams_cq_poll_work. destruct (bound_alive _ _ _ _ _ _ _ _ _ _ H Hb) as [d Hd].
  krun (run_read_device _ _ Hd). destruct (vd_removing d); [by eexists|].
  destruct (observe_reset_ok _ _ _ _ _ s Hb H) as (s1 & E1 & H1). krun E1.
  destruct (bound_alive _ _ _ _ _ _ _ _ _ _ H1 Hb) as [d1 Hd1].
  destruct (drain_cq_ok _ _ _ _ _ s1 d1 Hb H1 Hd1) as (l & s2 & d2 & E2 & H2 & D2 & _). krun E2.
  krun (run_read_device _ _ D2). destruct (0 <? _); cbn [when]; [|by eexists].
  eexists. by apply (update_device_ok lr lm ln lu pd _ d2 (set_vd_poll_scheduled true) H2 D2).
Qed.

(** ** Cancellation *)

(** A round of the loop at the index [id], if there is an entry, and the loop over
    a list of indices. *)
Definition cancel_index (status : rc) (stale : bool) (id : Z) : K W unit :=
  d ← read_device;
  match xa_load (vd_requests d) id with
  | None => mret tt
  | Some p => cancel_request status stale id p
  end.

Fixpoint cancel_loop (status : rc) (stale : bool) (ids : list Z) : K W unit :=
  match ids with
  | [] => mret tt
  | id :: ids' => _ ← cancel_index status stale id; cancel_loop status stale ids'
  end.

Lemma cancel_skips_run stale s d p r :
  k_dev s = Some d -> k_requests s !! p = Some r ->
  cancel_skips stale p s = Ok (stale && (r_reset_generation r =? vd_reset_generation d), s).
Proof.
  intros Hd Hr. unfold cancel_skips. destruct stale; [|done].
  krun (run_read_request _ _ _ Hr). by krun (run_read_device _ _ Hd).
Qed.

Lemma cancel_find_run s d after :
  k_dev s = Some d -> cancel_find after s = Ok (xa_next (vd_requests d) after, s).
Proof. intros Hd. unfold cancel_find. by krun (run_read_device _ _ Hd). Qed.

Lemma cancel_run status stale id s d p r s1 s2 :
  k_dev s = Some d -> vd_requests d !! id = Some p -> k_requests s !! p = Some r ->
  stale && (r_reset_generation r =? vd_reset_generation d) = false ->
  erase_outstanding id s = Ok (Some p, s1) ->
  retire p (set_r_driver_status status) s1 = Ok (tt, s2) ->
  cancel_index status stale id s = Ok (tt, s2).
Proof.
  intros Hd Hid Hr Hst E1 E2. unfold cancel_index. krun (run_read_device _ _ Hd).
  unfold xa_load. rewrite Hid. unfold cancel_request. krun (cancel_skips_run stale s d p r Hd Hr).
  rewrite Hst. cbn [negb when]. unfold cancel_erase. by krun E1.
Qed.

(** The request is of the device's current generation and only stale ones go. *)
Definition spared (stale : bool) (d : vams_device) (s : kstate W) (p : nat) : Prop :=
  stale = true /\ exists r, k_requests s !! p = Some r /\
    r_reset_generation r = vd_reset_generation d.

(** Whoever still holds a cancelled request finds it signalled with [status]. *)
Definition cancelled (status : rc) (s : kstate W) (p : nat) : Prop :=
  forall r, k_requests s !! p = Some r -> r_done r = true /\ r_driver_status r = status.

(** A removal on its own: the entry may be gone by now. *)
Lemma cancel_erase_ok lr lm ln lu pd status id s d :
  inv lo lr lm ln lu pd s -> k_dev s = Some d ->
  exists s', cancel_erase status id s = Ok (tt, s') /\ inv lo lr lm ln lu pd s'.
Proof.
  intros H Hd. destruct (erase_outstanding_ok lo ls bound _ _ _ _ _ id s d H Hd) as [E1 H1].
  unfold cancel_erase. krun E1. destruct (vd_requests d !! id) as [p|]; [|by eexists].
  destruct (retire_request_ok lo ls bound _ _ _ _ _ p (set_r_driver_status status) _ _ H1 eq_refl)
    as (s2 & r0 & E2 & H2 & _); [by intros r0|]. by exists s2.
Qed.

Lemma cancel_index_ok lr lm ln lu pd status stale id s d :
  bound = true -> inv lo lr lm ln lu pd s -> k_dev s = Some d ->
  exists s' d', cancel_index status stale id s = Ok (tt, s') /\ inv lo lr lm ln lu pd s' /\
    calm s s' /\ k_dev s' = Some d' /\
    ((vd_requests d' = vd_requests d /\ k_requests s' = k_requests s /\
      forall p, vd_requests d !! id = Some p -> spared stale d s p) \/
     exists p, vd_requests d !! id = Some p /\ vd_requests d' = delete id (vd_requests d) /\
       ~ spared stale d s p /\ cancelled status s' p /\
       forall q, q <> p -> k_requests s' !! q = k_requests s !! q).
Proof.
  intros Hb H Hd. destruct (vd_requests d !! id) as [p|] eqn:Eid.
  2:{ exists s, d. unfold cancel_index. krun (run_read_device _ _ Hd). unfold xa_load.
      rewrite Eid. split; [done|]. split; [done|]. split; [apply calm_refl|]. split; [done|]. by left. }
  assert (Hout : outstanding s !! id = Some p) by (unfold outstanding; by rewrite Hd).
  destruct (di_ids _ _ _ _ _ _ _ _ _ _ H id p Hout) as (r & Hr & _ & _).
  destruct (stale && (r_reset_generation r =? vd_reset_generation d)) eqn:Est.
  - exists s, d. unfold cancel_index. krun (run_read_device _ _ Hd). unfold xa_load.
    rewrite Eid. unfold cancel_request. krun (cancel_skips_run stale s d p r Hd Hr). rewrite Est.
    split; [done|]. split; [done|]. split; [apply calm_refl|]. split; [done|]. left.
    split; [done|]. split; [done|]. intros p' [= <-]. bool_to_prop. split; [done|]. by exists r.
  - destruct (erase_outstanding_ok lo ls bound _ _ _ _ _ id s d H Hd) as [E1 H1].
    rewrite Eid in E1, H1. set (s1 := set_k_dev _ s) in *.
    assert (Hc : calm s s1) by (split; simpl; auto; right; by rewrite Hd).
    destruct (retire_request_ok lo ls bound _ _ _ _ _ p (set_r_driver_status status) s1 _ H1 eq_refl)
      as (s2 & r0 & E2 & H2 & C2 & V2 & Hr0 & R2); [by intros r0|].
    destruct (bound_alive _ _ _ _ _ _ _ _ _ _ H2 Hb) as [d2 Hd2].
    exists s2, d2. split; [exact (cancel_run status stale id s d p r s1 s2 Hd Eid Hr Est E1 E2)|]. split; [done|].
    split; [by eapply calm_trans|]. split; [done|]. right. exists p.
    split; [done|]. split; [by rewrite (V2 d2 Hd2)|]. split_and!.
    + intros [Hs (r' & Hr' & Hg)]. rewrite Hr in Hr'. simplify_eq.
      by rewrite Hg, Z.eqb_refl in Est.
    + intros r' Hr'. rewrite R2 in Hr'.
      by rewrite (drop_ref_eq p _ (set_r_done true (set_r_driver_status status r0)) r'
        (lookup_insert_eq _ _ _) Hr').
    + intros q Hq. rewrite R2, drop_ref_ne by done. by apply lookup_insert_ne.
Qed.

Lemma outstanding_injective lr lm ln lu pd s d k k' p :
  inv lo lr lm ln lu pd s -> k_dev s = Some d ->
  vd_requests d !! k = Some p -> vd_requests d !! k' = Some p -> k = k'.
Proof.
  intros H Hd Hk Hk'.
  assert (Ho : outstanding s = vd_requests d) by (unfold outstanding; by rewrite Hd).
  rewrite <-Ho in *.
  destruct (di_ids _ _ _ _ _ _ _ _ _ _ H k p Hk) as (r & Hr & <- & _).
  destruct (di_ids _ _ _ _ _ _ _ _ _ _ H k' p Hk') as (r' & Hr' & <- & _). congruence.
Qed.

(** What cancelling the ids [ids] does to the outstanding requests. *)
Record cancels (status : rc) (stale : bool) (ids : list Z) (s s' : kstate W)
    (d d' : vams_device) : Prop := {
  cs_kept k p : vd_requests d' !! k = Some p <->
    vd_requests d !! k = Some p /\ (k ∈ ids -> spared stale d s p);
  cs_same k p : vd_requests d' !! k = Some p -> k_requests s' !! p = k_requests s !! p;
  cs_gone k p : vd_requests d !! k = Some p -> k ∈ ids -> ~ spared stale d s p ->
    cancelled status s' p;
  cs_other q : hold (vd_requests d) q = 0 -> k_requests s' !! q = k_requests s !! q;
}.

(** One id more, spared or not outstanding. *)
Lemma cancels_skip status stale id ids s s1 s2 d d1 d2 :
  vd_requests d1 = vd_requests d -> k_requests s1 = k_requests s ->
  vd_reset_generation d1 = vd_reset_generation d ->
  (forall p, vd_requests d !! id = Some p -> spared stale d s p) ->
  cancels status stale ids s1 s2 d1 d2 -> cancels status stale (id :: ids) s s2 d d2.
Proof.
  intros Er Eq Hgen Hsp [Kk Ks Kg Ko].
  assert (Hspared : forall p, spared stale d1 s1 p <-> spared stale d s p)
    by (intros p; unfold spared; by rewrite Eq, Hgen).
  rewrite Er in *. split.
  - intros k p. rewrite Kk, Hspared, elem_of_cons. split.
    + intros [Hk Hk']. split; [done|]. intros [->|?]; auto.
    + intros [Hk Hk']. split; [done|]. auto.
  - intros k p Hk. by rewrite (Ks k p Hk), Eq.
  - intros k p Hk [->|Hin]%elem_of_cons Hn; [by destruct (Hn (Hsp p Hk))|].
    apply (Kg k); auto. by rewrite Hspared.
  - intros q Hq. by rewrite (Ko q Hq), Eq.
Qed.

(** One id more, cancelled. *)
Lemma cancels_cons status stale id p0 ids s s1 s2 d d1 d2 :
  (forall k, vd_requests d !! k = Some p0 -> k = id) ->
  vd_requests d !! id = Some p0 -> vd_requests d1 = delete id (vd_requests d) ->
  vd_reset_generation d1 = vd_reset_generation d -> ~ spared stale d s p0 ->
  cancelled status s1 p0 -> (forall q, q <> p0 -> k_requests s1 !! q = k_requests s !! q) ->
  cancels status stale ids s1 s2 d1 d2 -> cancels status stale (id :: ids) s s2 d d2.
Proof.
  intros Hinj Hp0 Er Hgen Hns Hcan Hsame [Kk Ks Kg Ko].
  assert (Hne : forall k p, vd_requests d !! k = Some p -> k <> id -> p <> p0)
    by (intros k p Hk Hki ->; auto).
  assert (Hspared : forall p, p <> p0 -> spared stale d1 s1 p <-> spared stale d s p)
    by (intros p Hp; unfold spared; by rewrite (Hsame p Hp), Hgen).
  rewrite Er in *. split.
  - intros k p. rewrite Kk, elem_of_cons, lookup_delete_Some. split.
    + intros [[Hki Hk] Hk']. split; [done|]. intros [->|Hin]; [done|]. rewrite <-Hspared; eauto.
    + intros [Hk Hk']. assert (Hki : id <> k).
      { intros <-. rewrite Hp0 in Hk. simplify_eq. apply Hns, Hk'. by left. }
      split; [done|]. intros Hin. rewrite Hspared; eauto.
  - intros k p Hk. rewrite (Ks k p Hk). apply Hsame.
    apply Kk in Hk as [Hk _]. apply lookup_delete_Some in Hk as [Hki Hk]. eauto.
  - intros k p Hk Hin Hn. destruct (decide (k = id)) as [->|Hki].
    + assert (p = p0) as -> by congruence. intros r Hr. rewrite Ko in Hr; [by apply Hcan|].
      apply hold_none. intros k [Hki Hkq]%lookup_delete_Some. by apply Hki, eq_sym, Hinj.
    + apply elem_of_cons in Hin as [->|Hin]; [done|].
      apply (Kg k); [by rewrite lookup_delete_ne|done|]. rewrite Hspared; eauto.
  - intros q Hq. pose proof (hold_delete _ _ _ q Hp0) as Hh.
    pose proof (ref1_nonneg q p0). pose proof (hold_nonneg (delete id (vd_requests d)) q).
    rewrite Ko by lia. apply Hsame. intros ->. rewrite ref1_eq in Hh. lia.
Qed.

Lemma cancel_loop_ok lr lm ln lu pd status stale ids s d :
  bound = true -> inv lo lr lm ln lu pd s -> k_dev s = Some d ->
  exists s' d', cancel_loop status stale ids s = Ok (tt, s') /\ inv lo lr lm ln lu pd s' /\
    calm s s' /\ k_dev s' = Some d' /\ cancels status stale ids s s' d d'.
Proof.
  intros Hb. revert s d. induction ids as [|id ids IH]; intros s d H Hd.
  { exists s, d. split; [done|]. split; [done|]. split; [apply calm_refl|]. split; [done|].
    split; try done.
    - intros k p. split; [|by intros []]. intros Hk. split; [done|]. by intros ?%not_elem_of_nil.
    - intros k p _ []%not_elem_of_nil. }
  cbn [cancel_loop].
  destruct (cancel_index_ok _ _ _ _ _ status stale id s d Hb H Hd)
    as (s1 & d1 & E1 & H1 & C1 & Hd1 & Hcase). krun E1.
  destruct (IH s1 d1 H1 Hd1) as (s2 & d2 & E2 & H2 & C2 & Hd2 & K).
  exists s2, d2. split; [done|]. split; [done|]. split; [by eapply calm_trans|]. split; [done|].
  assert (Hgen : vd_reset_generation d1 = vd_reset_generation d)
    by exact (f_equal vd_reset_generation (calm_device _ _ _ _ C1 Hd Hd1)).
  destruct Hcase as [(Er & Eq & Hsp)|(p0 & Hp0 & Er & Hns & Hcan & Hsame)].
  - by eapply cancels_skip.
  - eapply cancels_cons; eauto. intros k Hk.
    exact (outstanding_injective _ _ _ _ _ s d k id p0 H Hd Hk Hp0).
Qed.

(** The loop visits the entries it would find at its start. *)
Lemma cancel_from_loop lr lm ln lu pd status stale ids fuel after s d :
  bound = true -> inv lo lr lm ln lu pd s -> k_dev s = Some d ->
  later after (xa_indices (vd_requests d)) = ids -> (length ids < fuel)%nat ->
  cancel_from fuel status stale after s = cancel_loop status stale ids s.
Proof.
  intros Hb. revert fuel after s d. induction ids as [|id ids IH]; intros fuel after s d H Hd E Hf.
  all: destruct fuel as [|fuel]; [simpl in Hf; lia|]; cbn [cancel_from cancel_loop].
  all: krun (cancel_find_run s d after Hd).
  - unfold xa_next. by rewrite E.
  - assert (Hin : id ∈ xa_indices (vd_requests d)).
    { assert (Hid : id ∈ later after (xa_indices (vd_requests d))) by (rewrite E; by left).
      by apply list_elem_of_filter in Hid as [_ ?]. }
    apply elem_of_xa_indices in Hin as [p Hp]. rewrite (xa_next_cons _ _ _ _ _ E Hp).
    destruct (cancel_index_ok _ _ _ _ _ status stale id s d Hb H Hd)
      as (s1 & d1 & E1 & H1 & _ & Hd1 & Hcase). krun E1.
    assert (E1' : cancel_request status stale id p s = Ok (tt, s1)).
    { revert E1. unfold cancel_index. rewrite (run_bind _ _ _ _ _ (run_read_device _ _ Hd)).
      unfold xa_load. by rewrite Hp. }
    krun E1'. apply (IH fuel (Some id) s1 d1 H1 Hd1); [|simpl in Hf; lia].
    apply (later_next (vd_requests d) _ after); [|done]. intros j Hj.
    destruct Hcase as [(-> & _)|(p0 & _ & -> & _)]; [done|]. by rewrite lookup_delete_ne.
Qed.

Lemma cancel_requests_ok lr lm ln lu pd status stale s d :
  bound = true -> inv lo lr lm ln lu pd s -> k_dev s = Some d ->
  exists s' d', vams_cancel_requests status stale s = Ok (tt, s') /\
    inv lo lr lm ln lu pd s' /\ calm s s' /\ k_dev s' = Some d' /\
    cancels status stale (xa_indices (vd_requests d)) s s' d d'.
Proof.
  intros Hb H Hd. unfold vams_cancel_requests. krun (run_read_device _ _ Hd).
  assert (El : later None (xa_indices (vd_requests d)) = xa_indices (vd_requests d)).
  { apply sorted_same; [apply StronglySorted_filter|..]; try apply xa_indices_sorted.
    intros k. unfold later. rewrite list_elem_of_filter. simpl. tauto. }
  rewrite (cancel_from_loop _ _ _ _ _ status stale _ _ None s d Hb H Hd El);
    [by apply cancel_loop_ok|].
  rewrite length_xa_indices. lia.
Qed.

(** The reset work up to its loop. *)
Lemma reset_begin_ok lr lm ln lu pd s d :
  inv lo lr lm ln lu pd s -> k_dev s = Some d ->
  exists d', reset_begin s = Ok (negb (vd_removing d), set_k_dev (Some d') s) /\
    inv lo lr lm ln lu pd (set_k_dev (Some d') s) /\
    vd_requests d' = vd_requests d /\ vd_reset_generation d' = vd_reset_generation d /\
    vd_removing d' = vd_removing d /\ (vd_removing d = true -> d' = d) /\
    vd_queues_ready d' = vd_queues_ready d && (vd_removing d ||
      negb ((vd_reset_reason d =? VAMS_RESET_REASON_HOST_DEVICE) ||
            (vd_reset_reason d =? VAMS_RESET_REASON_HOST_QUEUE))).
Proof.
  intros H Hd. assert (Es : s = set_k_dev (Some d) s) by (destruct s; simpl in *; by subst).
  unfold reset_begin. krun (run_read_device _ _ Hd). destruct (vd_removing d) eqn:Erm.
  { exists d. rewrite <-Es, andb_true_r. by split_and!. }
  destruct (_ || _) eqn:Eb; cbn [when negb orb].
  - destruct (update_device_ok lr lm ln lu pd s d (set_vd_queues_ready false) H Hd) as [E1 H1];
      [done..|]. krun E1. exists (set_vd_queues_ready false d). rewrite andb_false_r. by split_and!.
  - exists d. rewrite (run_bind _ _ _ tt s) by done. rewrite <-Es, andb_true_r. by split_and!.
Qed.

(** [vams_reset_work] on a device that is not being removed. *)
Lemma reset_work_ok lr lm ln lu pd s d :
  bound = true -> inv lo lr lm ln lu pd s -> k_dev s = Some d ->
  exists s' d', vams_reset_work s = Ok (tt, s') /\ inv lo lr lm ln lu pd s' /\
    k_dev s' = Some d' /\ vd_removing d' = vd_removing d /\
    (vd_removing d = true -> s' = s) /\
    (vd_removing d = false ->
       cancels (rc_err ECANCELED) true (xa_indices (vd_requests d)) s s' d d' /\
       vd_queues_ready d' = vd_queues_ready d &&
         negb ((vd_reset_reason d =? VAMS_RESET_REASON_HOST_DEVICE) ||
               (vd_reset_reason d =? VAMS_RESET_REASON_HOST_QUEUE))).
Proof.
  intros Hb H Hd. unfold vams_reset_work.
  destruct (reset_begin_ok _ _ _ _ _ s d H Hd) as (d1 & E1 & H1 & Er & Eg & Erm1 & Esame & Eqr). krun E1.
  destruct (vd_removing d) eqn:Erm; cbn [negb when orb] in *.
  { rewrite (Esame eq_refl) in *. exists (set_k_dev (Some d) s), d. split_and!; try done.
    intros _. destruct s; simpl in *; by subst. }
  destruct (cancel_requests_ok lr lm ln lu pd (rc_err ECANCELED) true _ d1 Hb H1 eq_refl)
    as (s2 & d2 & E2 & H2 & C2 & Hd2 & Hcan).
  pose proof (calm_device _ _ _ _ C2 eq_refl Hd2) as Hcore.
  exists s2, d2. split; [done|]. split; [done|]. split; [done|].
  split; [rewrite (f_equal vd_removing Hcore : vd_removing d2 = vd_removing d1); congruence|].
  split; [done|]. intros _. rewrite Er in Hcan. split.
  - destruct Hcan as [Kk Ks Kg Ko]. unfold spared in *. simpl in *. rewrite Eg, Er in *. by split.
  - rewrite <-Eqr. exact (f_equal vd_queues_ready Hcore).
Qed.
End Ops.
