(* ===== verification/DriverSubmit.v ===== *)
(** * Interrupt handlers and the submission path keep the driver's invariant

    The handlers, the tables a request enters when it is tracked, and
    [vams_submit] with what its success means for the ring. *)

From S2P Require Import Prelude Abi Linux DriverState Driver DriverApi DriverInv DriverMoves.
From S2P Require Import DriverRefs DriverRequests DriverOps.

Section Submit.
Context {W : Type} `{!Kernel W, !KernelLaws W}.
Context (lo : list nat) (ls : list (nat * nat)) (bound : bool).
#[local] Abbreviation inv := (dinv lo ls bound).
Implicit Types (s : kstate W).

(** ** Interrupt handlers *)

Lemma cq_irq_ok lr lm ln lu pd s :
  bound = true -> inv lo lr lm ln lu pd s ->
  exists b s', vams_cq_irq s = Ok (b, s') /\ inv lo lr lm ln lu pd s'.
Proof.
  intros Hb H. unfold vams_cq_irq.
  destruct (readl_ok lo ls bound _ _ _ _ _ VAMS_REG_INTR_STATUS s Hb H)
    as (v & w & E & _ & _ & _ & H1). krun E.
  destruct (_ =? 0); [by eexists _, _|].
  destruct (bound_alive _ _ _ _ _ _ _ _ _ _ H1 Hb) as [d Hd].
  destruct (drain_cq_ok lo ls bound _ _ _ _ _ _ d Hb H1 Hd) as (l & s2 & d2 & E2 & H2 & D2 & _).
  krun E2.
  destruct (writel_ok lo ls bound _ _ _ _ _ VAMS_REG_INTR_STATUS (Z.land v VAMS_INTR_CQ) s2 Hb H2)
    as [E3 H3]. krun E3.
  destruct (update_device_ok lo ls bound lr lm ln lu pd _ d2
    (fun d => set_vd_cq_interrupts (u64 (vd_cq_interrupts d + 1)) d) H3 D2) as [E4 H4]; [done..|].
  krun E4. by eexists _, _.
Qed.

Lemma async_irq_ok lr lm ln lu pd s :
  bound = true -> inv lo lr lm ln lu pd s ->
  exists b s', vams_async_irq s = Ok (b, s') /\ inv lo lr lm ln lu pd s'.
Proof.
  intros Hb H. unfold vams_async_irq.
  destruct (readl_ok lo ls bound _ _ _ _ _ VAMS_REG_INTR_STATUS s Hb H)
    as (v & w & E & _ & _ & _ & H1). krun E.
  destruct (_ =? 0); [by eexists _, _|]. set (s1 := set_k_world w s) in *.
  assert (Hs2 : exists s2, (when (has_bits (Z.land v VAMS_INTR_ASYNC) VAMS_INTR_ERROR)
      (_ ← vams_readl VAMS_REG_ERROR_STATUS; _ ← vams_readl VAMS_REG_LAST_FATAL; mret tt) : K W unit) s1
      = Ok (tt, s2) /\ inv lo lr lm ln lu pd s2).
  { destruct (has_bits _ _); cbn [when]; [|by exists s1].
    destruct (readl_ok lo ls bound _ _ _ _ _ VAMS_REG_ERROR_STATUS s1 Hb H1)
      as (v2 & w2 & E2 & _ & _ & _ & H2). krun E2.
    destruct (readl_ok lo ls bound _ _ _ _ _ VAMS_REG_LAST_FATAL _ Hb H2)
      as (v3 & w3 & E3 & _ & _ & _ & H3). krun E3. by eexists. }
  destruct Hs2 as (s2 & E2 & H2). krun E2.
  assert (Hs3 : exists s3, (when (has_bits (Z.land v VAMS_INTR_ASYNC) VAMS_INTR_RESET_DONE)
      vams_observe_reset : K W unit) s2 = Ok (tt, s3) /\ inv lo lr lm ln lu pd s3).
  { destruct (has_bits _ VAMS_INTR_RESET_DONE); cbn [when]; [by apply observe_reset_ok|by exists s2]. }
  destruct Hs3 as (s3 & E3 & H3). krun E3.
  destruct (writel_ok lo ls bound _ _ _ _ _ VAMS_REG_INTR_STATUS (Z.land v VAMS_INTR_ASYNC) s3 Hb H3)
    as [E4 H4]. krun E4.
  destruct (bound_alive _ _ _ _ _ _ _ _ _ _ H4 Hb) as [d Hd].
  destruct (update_device_ok lo ls bound lr lm ln lu pd _ d
    (fun d => set_vd_async_interrupts (u64 (vd_async_interrupts d + 1)) d) H4 Hd) as [E5 H5]; [done..|].
  krun E5. by eexists _, _.
Qed.

(** ** The owner's table *)

Lemma owner_erase_ok lr lm ln lu pd f vf id s :
  inv lo lr lm ln lu pd s -> k_files s !! f = Some vf ->
  (forall q, (f, q) ∈ ls -> vf_requests vf !! id <> Some q) ->
  let s' := set_k_files (<[f := set_vf_requests (delete id (vf_requests vf)) vf]> (k_files s)) s in
  owner_erase f id s = Ok (vf_requests vf !! id, s') /\
  match vf_requests vf !! id with
  | None => inv lo lr lm ln lu pd s'
  | Some p => inv lo (p :: lr) lm ln (p :: lu) pd s'
  end.
Proof.
  intros H Hf Hls s'. split.
  { unfold owner_erase. krun (run_read_file _ _ _ Hf). simpl.
    by krun (run_update_file _ _ _ (set_vf_requests (delete id (vf_requests vf))) Hf). }
  pose proof H as H0. open_inv H0.
  destruct (vf_requests vf !! id) as [p|] eqn:Eid.
  - destruct (Hown f vf id p Hf Eid) as (r & Hr & Ho & Hid).
    assert (Hp0 : table_refs s p - hold (vf_requests vf) p + hold (delete id (vf_requests vf)) p = 0).
    { assert (Ht : table_refs s p - hold (vf_requests vf) p + hold (delete id (vf_requests vf)) p
        = table_refs s' p) by (unfold table_refs, s'; simpl; by rewrite (msum_update _ _ f vf)).
      rewrite Ht. pose proof (table_refs_nonneg s' p).
      destruct (decide (0 < table_refs s' p)) as [Hpos|]; [exfalso|lia].
      apply msum_pos in Hpos as (g & vg & Hg & [k Hk]%hold_pos); [|auto with vams].
      unfold s' in Hg. simpl in Hg. destruct (decide (g = f)) as [->|Hne].
      - rewrite lookup_insert_eq in Hg. simplify_eq. simpl in Hk.
        apply lookup_delete_Some in Hk as [Hki Hk].
        destruct (Hown f vf k p Hf Hk) as (r' & Hr' & _ & Hk'). congruence.
      - rewrite lookup_insert_ne in Hg by done.
        destruct (Hown g vg k p Hg Hk) as (r' & Hr' & Ho' & _). congruence. }
    apply (dinv_file_set _ _ _ lo lo lr (p :: lr) lm lm ln lu (p :: lu) pd s f vf); auto; simpl.
    + by eapply dinv_file_refs_pos.
    + intros q. rewrite (hold_delete _ id p q Eid). lia.
    + intros k q Hk. apply lookup_delete_Some in Hk as [_ Hk]. by eapply Hown.
    + intros q [->|Hq]%elem_of_cons; [done|]. specialize (Hunp q Hq).
      pose proof (hold_delete _ id p q Eid) as Hd. pose proof (ref1_nonneg q p).
      pose proof (hold_nonneg (delete id (vf_requests vf)) q).
      pose proof (msum_le (fun vf => hold (vf_requests vf) q) (k_files s) f vf
        (fun vf => hold_nonneg (vf_requests vf) q) Hf) as Hle. simpl in Hle.
      unfold table_refs in *. lia.
    + intros Hn. destruct (Hcl f vf Hf Hn) as [-> ->]. by rewrite delete_empty.
    + intros q r' Hq Hr' Hk. rewrite lookup_delete_ne; [done|]. intros E. rewrite <-E in Hk.
      destruct (Hls q Hq). congruence.
  - apply (dinv_file_neutral _ _ _ _ _ _ _ _ _ s f vf); auto; simpl. by apply delete_id.
Qed.

Lemma owner_insert_ok lr lm ln pd f p id r s :
  inv lo (p :: lr) lm ln [p] pd s -> k_requests s !! p = Some r -> r_owner r = Some f ->
  r_command_id r = id -> f ∈ lo ->
  exists ret s', owner_insert f p id s = Ok (ret, s') /\
    k_requests s' = k_requests s /\ k_dev s' = k_dev s /\ k_bar0 s' = k_bar0 s /\
    if rc_is_ok ret then
      inv lo lr lm ln [] pd s' /\
      exists vf, k_files s' !! f = Some vf /\ vf_requests vf !! id = Some p
    else inv lo (p :: lr) lm ln [p] pd s'.
Proof.
  intros H Hr Ho Hid Hf. unfold owner_insert. kpure.
  destruct (alloc_ok (k_world s)) as [memory w]. cbn [fst snd].
  apply (dinv_world _ _ _ _ _ _ _ _ _ _ w) in H. set (s1 := set_k_world w s) in *.
  destruct (open_alive _ _ _ _ _ _ _ _ _ _ f H Hf) as [vf Hvf].
  krun (run_read_file _ _ _ Hvf). unfold xa_insert.
  assert (Hsame : forall m, m = vf_requests vf ->
    inv lo (p :: lr) lm ln [p] pd
      (set_k_files (<[f := set_vf_requests m vf]> (k_files s1)) s1)).
  { intros m ->. by apply (dinv_file_neutral _ _ _ _ _ _ _ _ _ s1 f vf). }
  destruct (vf_requests vf !! id) as [q|] eqn:Eid.
  { krun (run_update_file s1 f vf (set_vf_requests (vf_requests vf)) Hvf).
    eexists _, _. split; [done|]. split_and!; try done. by apply Hsame. }
  destruct memory.
  2:{ krun (run_update_file s1 f vf (set_vf_requests (vf_requests vf)) Hvf).
      eexists _, _. split; [done|]. split_and!; try done. by apply Hsame. }
  krun (run_update_file s1 f vf (set_vf_requests (<[id := p]> (vf_requests vf))) Hvf).
  eexists _, _. split; [done|]. split_and!; try done; simpl. split.
  - pose proof H as H0. open_inv H0.
    apply (dinv_file_set _ _ _ lo lo (p :: lr) lr lm lm ln [p] [] pd s1 f vf); auto; simpl.
    + by eapply dinv_file_refs_pos.
    + intros q. rewrite hold_insert by done. lia.
    + intros k q. destruct (decide (k = id)) as [->|Hne].
      * rewrite lookup_insert_eq. intros [= <-]. by exists r.
      * rewrite lookup_insert_ne by done. by apply (Hown f vf).
    + by intros q ?%not_elem_of_nil.
    + done.
    + intros q r' _ _ Hk. rewrite lookup_insert_ne; [done|]. congruence.
  - eexists. split; [apply lookup_insert_eq|]. simpl. apply lookup_insert_eq.
Qed.

Lemma device_insert_ok lr lm lu pd p id r s d :
  bound = true -> inv lo (p :: lr) lm [p] lu pd s -> k_requests s !! p = Some r ->
  r_command_id r = id -> id <> 0 -> r_done r = false -> k_dev s = Some d ->
  exists ret s', device_insert p id s = Ok (ret, s') /\
    k_requests s' = k_requests s /\ k_files s' = k_files s /\ k_bar0 s' = k_bar0 s /\
    if rc_is_ok ret then
      inv lo lr lm [] lu (pd + 1) s' /\ vd_requests d !! id = None /\
      k_dev s' = Some (set_vd_requests (<[id := p]> (vd_requests d)) d)
    else inv lo (p :: lr) lm [p] lu pd s' /\ k_dev s' = Some d.
Proof.
  intros Hb H Hr Hid Hz Hdone Hd. unfold device_insert. kpure.
  destruct (alloc_ok (k_world s)) as [memory w]. cbn [fst snd].
  apply (dinv_world _ _ _ _ _ _ _ _ _ _ w) in H. set (s1 := set_k_world w s) in *.
  krun (run_read_device s1 d Hd). unfold xa_insert.
  assert (Hdd : set_vd_requests (vd_requests d) d = d) by by destruct d.
  destruct (vd_requests d !! id) as [q|] eqn:Eid.
  { krun (run_update_device s1 d (set_vd_requests (vd_requests d)) Hd). rewrite Hdd.
    eexists _, _. split; [done|]. split_and!; try done.
    replace (set_k_dev (Some d) s1) with s1 by (destruct s; simpl in *; by subst). done. }
  destruct memory.
  2:{ krun (run_update_device s1 d (set_vd_requests (vd_requests d)) Hd). rewrite Hdd.
      eexists _, _. split; [done|]. split_and!; try done.
      replace (set_k_dev (Some d) s1) with s1 by (destruct s; simpl in *; by subst). done. }
  krun (run_update_device s1 d (set_vd_requests (<[id := p]> (vd_requests d))) Hd).
  eexists _, _. split; [done|]. split_and!; try done; simpl. split; [|done].
  pose proof H as H0. open_inv H0.
  assert (Ho : outstanding s1 = vd_requests d) by (unfold outstanding, s1; simpl; by rewrite Hd).
  rewrite Ho in *.
  assert (Hne : forall q, q ∈ [p] -> q = p) by (intros q ?%list_elem_of_singleton; done).
  apply (dinv_device_set _ _ _ lo (p :: lr) lr lm [p] [] lu pd (pd + 1) s1 d); auto; simpl.
  - congruence.
  - intros q. rewrite hold_insert by done. lia.
  - intros k q. destruct (decide (k = id)) as [->|Hk].
    + rewrite lookup_insert_eq. intros [= <-]. by exists r.
    + rewrite lookup_insert_ne by done. by apply Hids.
  - intros q r' Hq. specialize (Hund q r' Hq). destruct (decide (q = p)) as [->|Hqp].
    + assert (r' = r) as -> by (unfold s1 in Hq; simpl in Hq; congruence).
      rewrite Hdone, Hid. left. apply lookup_insert_eq.
    + rewrite hold_insert, ref1_ne by (done || congruence). destruct (r_done r'); [lia|].
      left. destruct Hund as [Hk|?%Hne]; [|done]. rewrite lookup_insert_ne; [done|]. congruence.
  - by intros q ?%not_elem_of_nil.
  - rewrite (Hpend d Hd), map_size_insert_None by done. f_equal. lia.
  - by apply Hring.
Qed.

(** ** Tracking *)

Lemma request_put_shared p r s :
  k_requests s !! p = Some r -> r_refs r <> 1 ->
  vams_request_put p s
    = Ok (tt, set_k_requests (<[p := set_r_refs (r_refs r - 1) r]> (k_requests s)) s).
Proof.
  intros Hp Hne. unfold vams_request_put. krun (run_read_request _ _ _ Hp).
  rewrite (proj2 (Z.eqb_neq _ _) Hne). exact (run_update_request s p r _ Hp).
Qed.

Lemma dinv_published lf lr lm ln lu pd s : inv lf lr lm ln lu pd s -> inv lf lr lm ln [] pd s.
Proof. intros H. open_inv H. split; try done. by intros p ?%not_elem_of_nil. Qed.

(** The references the caller still holds once the owner's table has one. *)
Definition kept_refs (owner : option nat) (p : nat) (lr : list nat) : list nat :=
  match owner with Some _ => lr | None => p :: lr end.

(** The request is in the table of its owner under its id. *)
Definition in_owner_table (s : kstate W) (p : nat) (r : vams_request) : Prop :=
  forall f, r_owner r = Some f ->
    exists vf, k_files s !! f = Some vf /\ vf_requests vf !! r_command_id r = Some p.

(** Insertion into the owner's table, if there is an owner. *)
Lemma publish_ok lr lm pd p r s :
  inv lo (p :: lr) lm [p] [p] pd s -> k_requests s !! p = Some r ->
  (forall f, r_owner r = Some f -> f ∈ lo) ->
  exists ret s',
    from_option (fun f => owner_insert f p (r_command_id r)) (mret rc_ok) (r_owner r) s = Ok (ret, s') /\
    k_requests s' = k_requests s /\ k_dev s' = k_dev s /\ k_bar0 s' = k_bar0 s /\
    if rc_is_ok ret then inv lo (kept_refs (r_owner r) p lr) lm [p] [] pd s' /\ in_owner_table s' p r
    else inv lo (p :: lr) lm [p] [p] pd s'.
Proof.
  intros H Hr Hopen. unfold in_owner_table. destruct (r_owner r) as [f|] eqn:Ho; simpl.
  - destruct (owner_insert_ok _ _ _ _ f p (r_command_id r) r s H Hr Ho eq_refl (Hopen f eq_refl))
      as (ret & s' & E & Er & Ed & Eb & Hc).
    exists ret, s'. split; [done|]. split_and!; try done. destruct (rc_is_ok ret); [|done].
    destruct Hc as [Hc Hin]. split; [done|]. by intros g [= <-].
  - exists rc_ok, s. split; [done|]. split_and!; try done. simpl.
    split; [by eapply dinv_published|done].
Qed.

(** Requests without an owner are in no file's table. *)
Lemma unowned_table lf lr lm ln lu pd p r s :
  inv lf lr lm ln lu pd s -> k_requests s !! p = Some r -> r_owner r = None -> table_refs s p = 0.
Proof.
  intros H Hr Ho. pose proof (table_refs_nonneg s p).
  destruct (decide (0 < table_refs s p)) as [Hpos|]; [exfalso|lia].
  apply msum_pos in Hpos as (g & vg & Hg & [k Hk]%hold_pos); [|auto with vams].
  destruct (di_own _ _ _ _ _ _ _ _ _ _ H g vg k p Hg Hk) as (r' & Hr' & Ho' & _). congruence.
Qed.

(** Taking a published request back out of its owner's table. *)
Lemma unpublish_ok lr lm pd p r s :
  inv lo (kept_refs (r_owner r) p lr) lm [p] [] pd s -> k_requests s !! p = Some r ->
  in_owner_table s p r -> p ∉ ls.*2 ->
  exists s',
    (from_option (fun f => _ ← owner_erase f (r_command_id r); mret tt) (mret tt) (r_owner r)
      : K W unit) s = Ok (tt, s') /\
    inv lo (p :: lr) lm [p] [p] pd s' /\ k_requests s' = k_requests s /\ k_dev s' = k_dev s /\
    k_bar0 s' = k_bar0 s.
Proof.
  intros H Hr Hin Hls. destruct (r_owner r) as [f|] eqn:Ho; simpl in *.
  - destruct (Hin f Ho) as (vf & Hf & Hk).
    destruct (owner_erase_ok _ _ _ _ _ f vf (r_command_id r) s H Hf) as [E H'].
    { intros q Hq Hk'. apply Hls. rewrite Hk in Hk'. injection Hk' as <-.
      apply list_elem_of_fmap. by exists (f, p). }
    rewrite Hk in E, H'. eexists. split; [by krun E|]. by split_and!.
  - exists s. split; [done|]. split_and!; try done.
    pose proof (unowned_table _ _ _ _ _ _ p r s H Hr Ho). open_inv H. split; try done.
    by intros q ->%list_elem_of_singleton.
Qed.

(** The device apart from what tracking changes. *)
Definition dev_untracked (d : vams_device) : vams_device :=
  set_vd_next_command_id 0 (set_vd_requests ∅ d).
(** The request apart from its id and references. *)
Definition request_rest (r : vams_request) : vams_request :=
  set_r_command_id 0 (set_r_refs 0 r).

Record track_post (lr lm : list nat) (pd : Z) (p : nat) (r : vams_request) (s : kstate W)
    (d : vams_device) (ret : rc) (s' : kstate W) : Prop := {
  tp_bar0 : k_bar0 s' = k_bar0 s;
  tp_dev : exists d', k_dev s' = Some d' /\ dev_untracked d' = dev_untracked d;
  tp_req : exists r', k_requests s' !! p = Some r' /\ request_rest r' = request_rest r /\
    if rc_is_ok ret then
      inv lo (kept_refs (r_owner r) p lr) lm [] [] (pd + 1) s' /\ in_owner_table s' p r' /\
      r_command_id r' <> 0 /\ outstanding s' !! r_command_id r' = Some p /\
      vd_requests d !! r_command_id r' = None
    else inv lo (p :: lr) lm [p] [p] pd s';
}.

Lemma sub_tables lf lr lm ln lu pd p s : inv lf lr lm ln (p :: lu) pd s -> p ∉ ls.*2.
Proof.
  intros H Hin. apply list_elem_of_fmap in Hin as ([f q] & -> & Hfq).
  destruct (di_sub _ _ _ _ _ _ _ _ _ _ H f q Hfq) as (_ & vf & r & Hvf & Hr & Hk).
  pose proof (table_lookup _ _ _ _ _ Hvf Hk).
  pose proof (di_unp _ _ _ _ _ _ _ _ _ _ H q ltac:(by left)). simpl in *. lia.
Qed.

(** One attempt with the id [id]: the insertion into both tables. *)
Definition track_attempt (p : nat) (id : Z) (again : K W rc) : K W rc :=
  _ ← update_request p (set_r_command_id id);
  r ← read_request p;
  ret ← from_option (fun f => owner_insert f p id) (mret rc_ok) (r_owner r);
  if rc_is EBUSY ret then again
  else if negb (rc_is_ok ret) then mret ret else
  _ ← vams_request_get p;
  ret ← device_insert p id;
  if rc_is_ok ret then mret rc_ok else
  _ ← vams_request_put p;
  _ ← from_option (fun f => _ ← owner_erase f id; mret tt) (mret tt) (r_owner r);
  if negb (rc_is EBUSY ret) then mret ret else again.

(** Giving the request a new id while it is in no table. *)
Lemma assign_id_ok lr lm pd p r s id :
  inv lo (p :: lr) lm [p] [p] pd s -> k_requests s !! p = Some r -> r_done r = false ->
  inv lo (p :: lr) lm [p] [p] pd
    (set_k_requests (<[p := set_r_command_id id r]> (k_requests s)) s).
Proof.
  intros H Hr Hdone.
  apply (dinv_request_set _ _ _ lo (p :: lr) (p :: lr) lm lm [p] [p] [p] pd s p r
           (set_r_command_id id r)); auto; simpl.
  - by eapply dinv_refs_pos.
  - by apply (di_src _ _ _ _ _ _ _ _ _ _ H p).
  - right. split; [apply (di_new _ _ _ _ _ _ _ _ _ _ H)|apply (di_unp _ _ _ _ _ _ _ _ _ _ H)];
      by left.
  - rewrite Hdone. right. by left.
Qed.

(** Taking a request whose insertion into the device's table failed back:
    its reference is dropped and its owner's entry erased, which gives the
    state before the publication. *)
Lemma track_undo_ok lr lm pd p r s s2 :
  inv lo (p :: kept_refs (r_owner r) p lr) lm [p] [] pd s2 -> k_requests s !! p = Some r ->
  0 < r_refs r ->
  k_requests s2 = <[p := set_r_refs (r_refs r + 1) r]> (k_requests s) ->
  in_owner_table s2 p r -> p ∉ ls.*2 ->
  exists s3 s', vams_request_put p s2 = Ok (tt, s3) /\
    (from_option (fun f => _ ← owner_erase f (r_command_id r); mret tt) (mret tt) (r_owner r)
      : K W unit) s3 = Ok (tt, s') /\
    inv lo (p :: lr) lm [p] [p] pd s' /\ k_requests s' = k_requests s /\
    k_dev s' = k_dev s2 /\ k_bar0 s' = k_bar0 s2.
Proof.
  intros H Hr Hpos R2 Hin Hls. set (r2 := set_r_refs (r_refs r + 1) r) in *.
  assert (Hr2 : k_requests s2 !! p = Some r2) by (rewrite R2; apply lookup_insert_eq).
  destruct (request_put_ok _ _ _ _ _ _ _ _ p s2 H) as (s3 & E3 & H3 & _).
  pose proof (request_put_shared p r2 s2 Hr2 ltac:(unfold r2; simpl in *; lia)) as E3'.
  rewrite E3 in E3'. injection E3' as Hs3.
  assert (R3 : k_requests s3 = k_requests s).
  { rewrite Hs3. simpl. rewrite R2, insert_insert_eq. apply insert_id. rewrite Hr. f_equal.
    unfold r2. simpl. rewrite Z.add_simpl_r. clear. by destruct r. }
  destruct (unpublish_ok lr lm pd p r s3 H3) as (s4 & E4 & H4 & R4 & D4 & B4).
  { by rewrite R3. }
  { intros f Hf. rewrite Hs3. by apply Hin. }
  { done. }
  exists s3, s4. split; [exact E3|]. split; [exact E4|].
  rewrite R4, D4, B4, R3, Hs3. by split_and!.
Qed.

Lemma track_attempt_ok lr lm pd p r s d id again :
  bound = true -> inv lo (p :: lr) lm [p] [p] pd s -> k_requests s !! p = Some r ->
  r_done r = false -> (forall f, r_owner r = Some f -> f ∈ lo) -> k_dev s = Some d -> id <> 0 ->
  (forall r1 s1, inv lo (p :: lr) lm [p] [p] pd s1 -> k_requests s1 !! p = Some r1 ->
     request_rest r1 = request_rest r -> k_dev s1 = Some d -> k_bar0 s1 = k_bar0 s ->
     exists ret s', again s1 = Ok (ret, s') /\ track_post lr lm pd p r1 s1 d ret s') ->
  exists ret s', track_attempt p id again s = Ok (ret, s') /\ track_post lr lm pd p r s d ret s'.
Proof.
  intros Hb H Hr Hdone Hopen Hd Hid Hagain. unfold track_attempt.
  krun (run_update_request s p r (set_r_command_id id) Hr).
  set (r1 := set_r_command_id id r). set (s1 := set_k_requests _ s).
  assert (Hr1 : k_requests s1 !! p = Some r1) by apply lookup_insert_eq.
  pose proof (assign_id_ok lr lm pd p r s id H Hr Hdone : inv lo (p :: lr) lm [p] [p] pd s1) as H1.
  pose proof (sub_tables _ _ _ _ _ _ _ _ H1) as Hls.
  assert (Hend : forall ret s2, inv lo (p :: lr) lm [p] [p] pd s2 -> k_requests s2 = k_requests s1 ->
    k_dev s2 = k_dev s1 -> k_bar0 s2 = k_bar0 s1 -> rc_is_ok ret = false ->
    exists ret' s', (if rc_is EBUSY ret then again else (mret ret : K W rc)) s2 = Ok (ret', s') /\
      track_post lr lm pd p r s d ret' s').
  { intros ret s2 H2 R2 D2 B2 Hret. destruct (rc_is EBUSY ret).
    - destruct (Hagain r1 s2) as (ret' & s' & E & [T1 T2 T3]); auto; [by rewrite R2|by rewrite D2|].
      exists ret', s'. split; [done|]. split; [by rewrite T1, B2|done|].
      destruct T3 as (r' & Hr' & Hrest & Hc). by exists r'.
    - exists ret, s2. split; [done|]. split; [done|exists d; split; [by rewrite D2|done]|].
      exists r1. rewrite R2, Hret. by split_and!. }
  krun (run_read_request _ _ _ Hr1).
  destruct (publish_ok lr lm pd p r1 s1 H1 Hr1 Hopen) as (ret & s2 & E2 & R2 & D2 & B2 & H2).
  change (r_command_id r1) with id in E2. krun E2. clear E2.
  destruct (rc_is_ok ret) eqn:Eok.
  2:{ pose proof (Hend ret s2 H2 R2 D2 B2 Eok) as He. by destruct (rc_is EBUSY ret). }
  apply bool_decide_eq_true in Eok as ->. change (rc_is EBUSY rc_ok) with false. cbn [negb].
  destruct H2 as [H2 Hin]. pose proof Hr1 as Hr2. rewrite <-R2 in Hr2.
  destruct (request_get_ok _ _ _ _ _ _ _ _ _ p r1 s2 H2 Hr2) as [E3 H3]. krun E3. clear E3.
  set (s3 := set_k_requests _ s2) in *. set (r3 := set_r_refs (r_refs r1 + 1) r1) in *.
  assert (Hr3 : k_requests s3 !! p = Some r3) by apply lookup_insert_eq.
  assert (Hd3 : k_dev s3 = Some d) by (unfold s3; simpl; by rewrite D2).
  destruct (device_insert_ok _ _ _ _ p id r3 s3 d Hb H3 Hr3 eq_refl Hid Hdone Hd3)
    as (ret & s4 & E4 & R4 & F4 & B4 & H4). krun E4. clear E4.
  assert (Hin4 : in_owner_table s4 p r1) by (intros f Hf; rewrite F4; by apply Hin).
  destruct (rc_is_ok ret) eqn:Eok.
  { destruct H4 as (H4 & Hnone & D4). exists rc_ok, s4. split; [done|].
    split; [by rewrite B4; unfold s3; simpl; rewrite B2|eexists; by split|].
    exists r3. rewrite R4. split; [done|]. split; [done|]. simpl.
    split_and!; [done|done|done| |done]. unfold outstanding. rewrite D4. apply lookup_insert_eq. }
  destruct H4 as [H4 D4].
  destruct (track_undo_ok lr lm pd p r1 s1 s4 H4 Hr1) as (s5 & s6 & E5 & E6 & H6 & R6 & D6 & B6);
    [exact (dinv_refs_pos _ _ _ _ _ _ _ _ _ _ _ _ H1 Hr1)|by rewrite R4; unfold s3; simpl; rewrite R2|done..|].
  krun E5. change (r_command_id r1) with id in E6. change (r_owner r1) with (r_owner r) in E6.
  krun E6. pose proof (Hend ret s6) as He.
  destruct (rc_is EBUSY ret); cbn [negb]; apply He; auto; by rewrite ?D6, ?D4, ?B6, ?B4.
Qed.

Lemma track_loop_ok n lr lm pd p r s d :
  bound = true -> inv lo (p :: lr) lm [p] [p] pd s -> k_requests s !! p = Some r ->
  r_done r = false -> (forall f, r_owner r = Some f -> f ∈ lo) -> k_dev s = Some d ->
  exists ret s', track_loop n p s = Ok (ret, s') /\ track_post lr lm pd p r s d ret s'.
Proof.
  intros Hb. revert r s d. induction n as [|n IH]; intros r s d H Hr Hdone Hopen Hd.
  { exists (rc_err ENOSPC), s. split; [done|]. split; [done|by exists d|]. by exists r. }
  cbn [track_loop]. krun (run_read_device _ _ Hd).
  set (id := u32 (vd_next_command_id d + 1)).
  destruct (update_device_ok lo ls bound _ _ _ _ _ s d (set_vd_next_command_id id) H Hd)
    as [E1 H1]; [done..|]. krun E1. set (d1 := set_vd_next_command_id id d) in *.
  set (s1 := set_k_dev _ s) in *.
  assert (Hgo : exists ret s', (if id =? 0 then track_loop n p else
      track_attempt p id (track_loop n p)) s1 = Ok (ret, s') /\ track_post lr lm pd p r s1 d1 ret s').
  { destruct (Z.eqb_spec id 0) as [Hz|Hz]; [by apply IH|].
    apply track_attempt_ok; auto. intros r1 s2 H2 Hr1 Hrest Hd2 _. apply IH; auto.
    - by rewrite (f_equal r_done Hrest : r_done r1 = r_done r).
    - intros f. rewrite (f_equal r_owner Hrest : r_owner r1 = r_owner r). apply Hopen. }
  destruct Hgo as (ret & s' & E & [T1 T2 T3]). exists ret, s'. split; [exact E|]. by split.
Qed.

(** ** Submission *)

Lemma removing_bound lr lm ln lu pd s d :
  inv lo lr lm ln lu pd s -> k_dev s = Some d -> vd_removing d = false -> bound = true.
Proof.
  intros H Hd Hr. destruct bound eqn:Eb; [done|].
  assert (vd_removing d = true); [|congruence].
  destruct (di_bound _ _ _ _ _ _ _ _ _ _ H) as [_ Hx]. by rewrite Hd in Hx.
Qed.

Record submit_post (lr lm : list nat) (p : nat) (r : vams_request) (descriptor : vams_submission)
    (d : vams_device) (ret : rc) (s' : kstate W) : Prop := {
  sp_req : exists r', k_requests s' !! p = Some r' /\
    set_r_reset_generation 0 (request_rest r') = set_r_reset_generation 0 (request_rest r) /\
    if rc_is_ok ret then
      inv lo (kept_refs (r_owner r) p lr) lm [] [] 0 s' /\ in_owner_table s' p r' /\
      r_command_id r' <> 0 /\ outstanding s' !! r_command_id r' = Some p /\
      sq_entry (vd_sq_tail d) (k_world s') = with_command_id (r_command_id r') descriptor /\
      exists d', k_dev s' = Some d' /\ vd_sq_tail d' = (vd_sq_tail d + 1) mod 16 /\
        r_reset_generation r' = vd_reset_generation d'
    else inv lo (p :: lr) lm [p] [p] 0 s';
}.

(** Publishing a tracked request to the device. *)
Lemma ring_doorbell_ok lr lm p r s d t :
  bound = true -> inv lo lr lm [] [] 1 s -> k_requests s !! p = Some r -> k_dev s = Some d ->
  0 <= t < 16 ->
  let d1 := set_vd_sq_tail t (set_vd_pending_requests (atomic_inc_s32 (vd_pending_requests d)) d) in
  let s1 := set_k_dev (Some d1) (set_k_requests
              (<[p := set_r_reset_generation (vd_reset_generation d) r]> (k_requests s)) s) in
  inv lo lr lm [] [] 0 s1.
Proof.
  intros Hb H Hr Hd Ht d1 s1.
  pose proof (dinv_request_neutral _ _ _ _ _ _ _ _ _ s p r
    (set_r_reset_generation (vd_reset_generation d) r) H Hr) as H1.
  specialize (H1 ltac:(done) ltac:(done) ltac:(done) ltac:(done) ltac:(done) ltac:(done)).
  set (s0 := set_k_requests _ s) in *. pose proof H1 as H0. open_inv H0.
  assert (Ho : outstanding s0 = vd_requests d) by (unfold outstanding, s0; simpl; by rewrite Hd).
  rewrite Ho in *. apply (dinv_device_set _ _ _ lo lr lr lm [] [] [] 1 0 s0 d d1); auto; simpl.
  - congruence.
  - rewrite (Hpend d Hd). unfold atomic_inc_s32. rewrite s32_s32. f_equal. lia.
  - split; [done|]. by apply Hring.
Qed.

(** The second half of a submission, from a tracked request. *)
Lemma submit_publish_ok lr lm p r descriptor s d t :
  bound = true -> inv lo lr lm [] [] 1 s -> k_requests s !! p = Some r -> k_dev s = Some d ->
  0 <= t < 16 ->
  exists s' d', submit_publish p descriptor t s = Ok (rc_ok, s') /\
    inv lo lr lm [] [] 0 s' /\ k_files s' = k_files s /\
    k_requests s' = <[p := set_r_reset_generation (vd_reset_generation d) r]> (k_requests s) /\
    sq_entry (vd_sq_tail d) (k_world s') = with_command_id (r_command_id r) descriptor /\
    k_dev s' = Some d' /\ vd_requests d' = vd_requests d /\ vd_sq_tail d' = t /\
    vd_reset_generation d' = vd_reset_generation d.
Proof.
  intros Hb H Hr Hd Ht. unfold submit_publish.
  krun (run_read_request s p r Hr). krun (run_read_device s d Hd). kpure.
  apply (dinv_world _ _ _ _ _ _ _ _ _ _
    (sq_store (vd_sq_tail d) (with_command_id (r_command_id r) descriptor) (k_world s))) in H.
  set (s1 := set_k_world _ s) in *.
  unfold vams_request_sync_for_device. krun (sync_ok_alive _ _ _ _ _ _ _ _ p r s1 H Hr).
  krun (run_read_device s1 d Hd).
  krun (run_update_request s1 p r (set_r_reset_generation (vd_reset_generation d)) Hr).
  set (s2 := set_k_requests _ s1).
  krun (run_update_device s2 d (fun d => set_vd_sq_tail t
    (set_vd_pending_requests (atomic_inc_s32 (vd_pending_requests d)) d)) Hd).
  pose proof (ring_doorbell_ok _ _ p r s1 d t Hb H Hr Hd Ht) as H3.
  set (d3 := set_vd_sq_tail t _) in *. set (s3 := set_k_dev (Some d3) s2) in *.
  destruct (writel_ok lo ls bound _ _ _ _ _ VAMS_REG_SQ_DOORBELL t s3 Hb H3) as [E4 H4].
  krun E4. set (s4 := set_k_world _ s3) in *. krun (run_read_device s4 d3 eq_refl).
  assert (Hsq : sq_entry (vd_sq_tail d) (k_world s4) = with_command_id (r_command_id r) descriptor).
  { unfold s4. simpl. rewrite sq_entry_write. apply sq_entry_store. }
  destruct (0 <? vd_pending_requests d3); cbn [when].
  - destruct (update_device_ok lo ls bound _ _ _ _ _ s4 d3 (set_vd_poll_scheduled true) H4 eq_refl)
      as [E5 H5]; [done..|]. krun E5. by eexists _, _.
  - erewrite run_bind by done. by exists s4, d3.
Qed.

Lemma submit_fails lr lm p r r1 descriptor d ret s :
  rc_is_ok ret = false -> inv lo (p :: lr) lm [p] [p] 0 s -> k_requests s !! p = Some r1 ->
  request_rest r1 = request_rest r -> submit_post lr lm p r descriptor d ret s.
Proof.
  intros Eret H Hr Hrest. split. exists r1. rewrite Eret. split_and!; [done|by rewrite Hrest|done].
Qed.

Lemma submit_tracked_ok lr lm p r r3 descriptor s d t :
  bound = true -> inv lo (kept_refs (r_owner r) p lr) lm [] [] 1 s -> k_requests s !! p = Some r3 ->
  request_rest r3 = request_rest r -> k_dev s = Some d -> 0 <= t < 16 -> t = (vd_sq_tail d + 1) mod 16 ->
  in_owner_table s p r3 -> r_command_id r3 <> 0 -> outstanding s !! r_command_id r3 = Some p ->
  exists s', submit_publish p descriptor t s = Ok (rc_ok, s') /\
    submit_post lr lm p r descriptor d rc_ok s'.
Proof.
  intros Hb H Hr Hrest Hd Ht -> Hin Hid Hout.
  destruct (submit_publish_ok _ _ p r3 descriptor s d _ Hb H Hr Hd Ht)
    as (s4 & d4 & E4 & H4 & F4 & R4 & Q4 & D4 & Vq4 & Vt4 & Vg4).
  exists s4. split; [exact E4|]. split.
  exists (set_r_reset_generation (vd_reset_generation d) r3).
  rewrite R4, lookup_insert_eq. split; [done|].
  split; [exact (f_equal (set_r_reset_generation 0) Hrest)|]. simpl.
  assert (outstanding s4 = outstanding s) as -> by (unfold outstanding; by rewrite Hd, D4).
  split_and!; try done; [|by exists d4]. intros f Hf. rewrite F4. by apply Hin.
Qed.

Lemma submit_ok lr lm p r descriptor s d :
  inv lo (p :: lr) lm [p] [p] 0 s -> k_requests s !! p = Some r -> r_done r = false ->
  (forall f, r_owner r = Some f -> f ∈ lo) -> k_dev s = Some d ->
  exists ret s', vams_submit p descriptor s = Ok (ret, s') /\
    submit_post lr lm p r descriptor d ret s'.
Proof.
  intros H Hr Hdone Hopen Hd. unfold vams_submit. krun (run_read_device _ _ Hd).
  destruct (vd_removing d) eqn:Erm; [by eexists _, _; split; [|eapply submit_fails]|].
  pose proof (removing_bound _ _ _ _ _ s d H Hd Erm) as Hb.
  destruct (vd_queues_ready d); cbn [negb]; [|by eexists _, _; split; [|eapply submit_fails]].
  destruct (drain_cq_ok lo ls bound _ _ _ _ _ s d Hb H Hd) as (l & s1 & d1 & E1 & H1 & D1 & V1 & N1).
  krun E1. clear E1.
  assert (Hr1 : k_requests s1 !! p = Some r) by (rewrite N1; [done|by left]).
  assert (Ht1 : vd_sq_tail d1 = vd_sq_tail d) by exact (f_equal vd_sq_tail V1).
  destruct (readl_ok lo ls bound _ _ _ _ _ VAMS_REG_SQ_HEAD s1 Hb H1)
    as (sq_head & w & E2 & _ & _ & _ & H2). krun E2. clear E2. set (s2 := set_k_world w s1) in *.
  destruct (VAMS_QUEUE_DEPTH <=? sq_head); [by eexists _, _; split; [|eapply submit_fails]|].
  krun (run_read_device s2 d1 D1). rewrite Ht1.
  destruct (di_ring _ _ _ _ _ _ _ _ _ _ H d Hd) as [Hsq _]. rewrite (ring_next _ Hsq).
  set (t := (vd_sq_tail d + 1) mod 16). assert (Ht : 0 <= t < 16) by (apply Z.mod_pos_bound; lia).
  destruct (t =? sq_head); [by eexists _, _; split; [|eapply submit_fails]|].
  destruct (track_loop_ok 32 lr lm 0 p r s2 d1 Hb H2 Hr1 Hdone Hopen D1)
    as (ret & s3 & E3 & [T1 (d3 & D3 & V3) (r3 & Hr3 & Hrest & T3)]).
  unfold vams_track_request. krun E3. clear E3.
  destruct (rc_is_ok ret) eqn:Eok; cbn [negb].
  2:{ exists ret, s3. split; [done|]. by eapply submit_fails. }
  destruct T3 as (H3 & Hin3 & Hid3 & Hout3 & _).
  assert (Ht3 : vd_sq_tail d3 = vd_sq_tail d)
    by (rewrite <-Ht1; exact (f_equal vd_sq_tail V3)).
  destruct (submit_tracked_ok lr lm p r r3 descriptor s3 d3 t Hb H3 Hr3 Hrest D3 Ht
              ltac:(by rewrite Ht3) Hin3 Hid3 Hout3)
    as (s4 & E4 & [Hpost]). exists rc_ok, s4. split; [exact E4|]. split. by rewrite <-Ht3.
Qed.
End Submit.
