(* ===== verification/DriverFiles.v ===== *)
(** * File operations keep the driver's invariant

    The ioctls, half by half: what each does to the references of the file,
    its requests and its mappings, and the checks it makes on the user's
    arguments before anything reaches the device. *)

From S2P Require Import Prelude Abi Linux DriverState Driver DriverApi DriverInv DriverMoves.
From S2P Require Import DriverRefs DriverRequests DriverOps DriverSubmit.

Section Files.
Context {W : Type} `{!Kernel W, !KernelLaws W}.
Context (lo : list nat) (ls : list (nat * nat)) (bound : bool).
#[local] Abbreviation inv := (dinv lo ls bound).
Implicit Types (s : kstate W).

Lemma open_device lr lm ln lu pd f s :
  inv lo lr lm ln lu pd s -> f ∈ lo ->
  exists vf d, k_files s !! f = Some vf /\ k_dev s = Some d.
Proof.
  intros H Hf. destruct (open_alive _ _ _ _ _ _ _ _ _ _ f H Hf) as [vf Hvf].
  destruct (device_alive _ _ _ _ _ _ _ _ _ _ f vf H Hvf) as [d Hd]. eauto.
Qed.

(** ** Buffer lookup *)

(** Nothing changed but reference counts of mappings. *)
Record same_tables (s s' : kstate W) : Prop := {
  st_files : k_files s' = k_files s;
  st_requests : k_requests s' = k_requests s;
  st_dev : k_dev s' = k_dev s;
  st_mappings q : set_m_refs 0 <$> k_mappings s' !! q = set_m_refs 0 <$> k_mappings s !! q;
}.

Lemma same_tables_refl s : same_tables s s.
Proof. done. Qed.

Lemma same_tables_get q m s :
  k_mappings s !! q = Some m ->
  same_tables s (set_k_mappings (<[q := set_m_refs (m_refs m + 1) m]> (k_mappings s)) s).
Proof.
  intros Hm. split; try done. intros p. simpl. destruct (decide (p = q)) as [->|Hne].
  - by rewrite lookup_insert_eq, Hm.
  - by rewrite lookup_insert_ne.
Qed.

(** What a successful lookup promises about the range. *)
Record range_ok (s : kstate W) (f : nat) (handle offset length access : Z) (p : nat)
    (dma : Z) : Prop := {
  ro_range : exists vf m, k_files s !! f = Some vf /\ vf_mappings vf !! handle = Some p /\
    k_mappings s !! p = Some m /\ Z.land (m_flags m) access = access /\
    offset + length <= m_length m /\ dma = m_dma_addr m + offset;
  ro_nonzero : dma <> 0;
  ro_bus : dma + length <= U64_MAX;
}.

Lemma range_ok_same s s' f handle offset length access p dma :
  same_tables s s' -> range_ok s' f handle offset length access p dma ->
  range_ok s f handle offset length access p dma.
Proof.
  intros [F _ _ M] [(vf & m & Hf & Hh & Hm & Ha & Hl & Hd) Hz Hb]. split; [|done..].
  specialize (M p). rewrite Hm in M. destruct (k_mappings s !! p) as [m0|] eqn:E0; [|done].
  injection M as Hv. rewrite F in Hf. exists vf, m0. split_and!; try done; congruence.
Qed.

Lemma lookup_ok lr lm ln lu pd f handle offset length access s :
  inv lo lr lm ln lu pd s -> f ∈ lo ->
  exists res s', vams_mapping_lookup_locked f handle offset length access s = Ok (res, s') /\
    same_tables s s' /\
    match res with
    | inl e => s' = s /\ rc_is_ok e = false
    | inr (p, dma) => inv lo lr (p :: lm) ln lu pd s' /\
                      range_ok s f handle offset length access p dma
    end.
Proof.
  intros H Hf. unfold vams_mapping_lookup_locked.
  destruct (_ || _) eqn:E0; [by eexists _, s; split_and!; auto using same_tables_refl|]. apply orb_false_iff in E0 as [E0 _].
  destruct (open_device _ _ _ _ _ f s H Hf) as (vf & d & Hvf & Hd).
  krun (run_read_file _ _ _ Hvf). unfold xa_load.
  destruct (vf_mappings vf !! handle) as [p|] eqn:Ep; [|by eexists _, s; split_and!; auto using same_tables_refl].
  destruct (registered_alive _ _ _ _ _ _ _ _ _ _ f vf handle p H Hvf Ep) as [m Hm].
  krun (run_read_mapping _ _ _ Hm).
  destruct (Z.eqb_spec (Z.land (m_flags m) access) access) as [Ea|]; cbn [negb]; [|by eexists _, s; split_and!; auto using same_tables_refl].
  destruct (Z.ltb_spec (m_length m) (offset + length)); [by eexists _, s; split_and!; auto using same_tables_refl|].
  destruct (_ || _) eqn:E1; [by eexists _, s; split_and!; auto using same_tables_refl|].
  apply orb_false_iff in E1 as [[_ E1]%orb_false_iff E2]. apply Z.ltb_ge in E2.
  destruct (mapping_get_ok _ _ _ _ _ _ _ _ _ p s H ltac:(by exists m)) as (s' & E & H' & _).
  krun E. pose proof (run_update_mapping s p m (fun m => set_m_refs (m_refs m + 1) m) Hm) as E'.
  unfold vams_mapping_get in E. rewrite E in E'. injection E' as ->.
  eexists _, _. split; [done|]. split; [by apply same_tables_get|]. split; [done|].
  split; [by exists vf, m| |done]. by apply Z.eqb_neq.
Qed.

Lemma optional_lookup_ok lr lm ln lu pd f handle offset length access s :
  inv lo lr lm ln lu pd s -> f ∈ lo ->
  exists res s', optional_lookup f handle offset length access s = Ok (res, s') /\
    same_tables s s' /\
    match res with
    | inl e => s' = s /\ rc_is_ok e = false
    | inr (q, dma) => inv lo lr (option_list q ++ lm) ln lu pd s' /\
        if access =? 0 then q = None /\ dma = 0
        else exists p, q = Some p /\ range_ok s f handle offset length access p dma
    end.
Proof.
  intros H Hf. unfold optional_lookup. destruct (access =? 0); [by eexists _, s; split_and!; auto using same_tables_refl|].
  destruct (lookup_ok lr lm ln lu pd f handle offset length access s H Hf)
    as (res & s' & E & F & Hres). krun E.
  destruct res as [e|[p dma]]; eexists _, s'; (split; [done|]); (split; [done|]);
    destruct Hres; eauto.
Qed.

(** ** Submission *)

Lemma put_mappings_ok lr lm ln lu pd source destination s d :
  inv lo lr (option_list destination ++ option_list source ++ lm) ln lu pd s ->
  k_dev s = Some d ->
  exists s', put_mappings source destination s = Ok (tt, s') /\ inv lo lr lm ln lu pd s'.
Proof.
  intros H Hd. unfold put_mappings.
  destruct (mapping_put_ok _ _ _ _ _ _ _ _ _ destination s d H Hd) as (s1 & E1 & H1 & _ & _ & D1).
  krun E1. rewrite <-D1 in Hd.
  destruct (mapping_put_ok _ _ _ _ _ _ _ _ _ source s1 d H1 Hd) as (s2 & E2 & H2 & _).
  by exists s2.
Qed.

(** The request takes over the references of the lookups. *)
Lemma attach_ok lr lm p r source destination s :
  inv lo (p :: lr) (option_list destination ++ option_list source ++ lm) [p] [p] 0 s ->
  k_requests s !! p = Some r -> r_source r = None -> r_destination r = None ->
  r_owner r <> None -> r_done r = false ->
  inv lo (p :: lr) lm [p] [p] 0
    (set_k_requests (<[p := set_r_destination destination (set_r_source source r)]> (k_requests s)) s).
Proof.
  intros H Hr Hs Hd Ho Hdone.
  apply (dinv_request_set _ _ _ lo (p :: lr) (p :: lr)
    (option_list destination ++ option_list source ++ lm) lm [p] [p] [p] 0 s p r); auto; simpl.
  - by eapply dinv_refs_pos.
  - intros q. rewrite Hs, Hd, !hits_app. unfold ptr.
    destruct source, destination; simpl; lia.
  - done.
  - rewrite Hdone. right. by left.
Qed.

(** A submission between its halves: the entry is in the ring, the request in
    both tables. *)
Record submitted (f : nat) (d : vams_device) (p : nat) (descriptor : vams_submission)
    (source destination : option nat) (s' : kstate W) : Prop := {
  sb_request : exists r, k_requests s' !! p = Some r /\ r_owner r = Some f /\
    r_source r = source /\ r_destination r = destination /\
    sq_entry (vd_sq_tail d) (k_world s') = with_command_id (r_command_id r) descriptor /\
    r_command_id r <> 0 /\ outstanding s' !! r_command_id r = Some p;
  sb_tail : exists d', k_dev s' = Some d' /\ vd_sq_tail d' = (vd_sq_tail d + 1) mod 16;
}.

Lemma submit_request_ok lr lm f source destination descriptor s d :
  inv lo lr (option_list destination ++ option_list source ++ lm) [] [] 0 s -> f ∈ lo ->
  k_dev s = Some d ->
  exists res s', submit_request f source destination descriptor s = Ok (res, s') /\
    match res with
    | inl e => inv lo lr lm [] [] 0 s' /\ rc_is_ok e = false
    | inr (p, descriptor') => dinv lo ((f, p) :: ls) bound lo lr lm [] [] 0 s' /\
        descriptor' = descriptor /\ submitted f d p descriptor source destination s' /\
        k_requests s !! p = None
    end.
Proof.
  intros H Hf Hd. unfold submit_request.
  destruct (open_device _ _ _ _ _ f s H Hf) as (vf & _ & Hvf & _).
  destruct (request_alloc_ok _ _ _ _ _ _ _ _ (Some f) s H) as (o & s1 & E1 & D1 & H1).
  { intros ? [= <-]. by exists vf. }
  rewrite Hd in D1. krun E1. destruct o as [p|].
  2:{ destruct (put_mappings_ok _ _ _ _ _ source destination s1 d H1 D1) as (s2 & E2 & H2).
      krun E2. by eexists _, s2. }
  destruct H1 as (H1 & Hlr & Hr1 & Hfresh).
  krun (run_update_request s1 p _
    (fun r => set_r_destination destination (set_r_source source r)) Hr1).
  apply (attach_ok _ _ p (new_request (Some f)) source destination s1) in H1; try done.
  set (r2 := set_r_destination destination _) in *. set (s2 := set_k_requests _ s1) in *.
  assert (Hr2 : k_requests s2 !! p = Some r2) by apply lookup_insert_eq.
  destruct (submit_ok lo ls bound lr lm p r2 descriptor s2 d H1 Hr2) as (ret & s3 & E3 & [Hpost]);
    [done| |done|].
  { by intros ? [= <-]. }
  krun E3. destruct Hpost as (r3 & Hr3 & Hrest & Hpost).
  destruct (rc_is_ok ret) eqn:Eret; cbn [negb].
  - destruct Hpost as (H3 & Hin & Hid & Hout & Hsq & d3 & D3 & T3 & _).
    eexists _, s3. split; [done|]. split; [|split; [done|]].
    + destruct (Hin f) as (vf3 & Hf3 & Hk3); [exact (f_equal r_owner Hrest)|].
      open_inv H3. split; try done.
      intros g q [[= -> ->]|?]%elem_of_cons; [|by apply Hsub]. split; [done|]. by exists vf3, r3.
    + split; [|done]. split; [|by exists d3]. exists r3. split; [done|].
      split; [exact (f_equal r_owner Hrest)|]. split; [exact (f_equal r_source Hrest)|].
      split; [exact (f_equal r_destination Hrest)|]. done.
  - destruct (request_put_ok _ _ _ _ _ _ _ _ p s3 Hpost) as (s4 & E4 & H4 & _). krun E4.
    eexists _, s4. split; [done|]. split; [|done]. by apply (dinv_forget _ _ _ _ _ _ _ _ _ p).
Qed.

(** A buffer argument: absent when the opcode does not use it, else a range of
    one of the file's registered buffers with the rights the opcode needs. *)
Definition buffer_ok (s : kstate W) (f : nat) (handle offset length access : Z)
    (q : option nat) (dma : Z) : Prop :=
  if access =? 0 then q = None /\ dma = 0
  else exists p, q = Some p /\ range_ok s f handle offset length access p dma.

(** What the driver has checked when a submission reaches the device. *)
Record submit_checked (s : kstate W) (f : nat) (input : vams_ioc_submit) (p : nat)
    (descriptor : vams_submission) (s' : kstate W) : Prop := {
  sc_args : submit_args_bad input = false;
  sc_fresh : k_requests s !! p = None;   (* the request object is new *)
  sc_access : exists source_access destination_access source_length source destination
      source_dma destination_dma d,
    submit_access input = Some (source_access, destination_access, source_length) /\
    buffer_ok s f (is_source_handle input) (is_source_offset input) source_length source_access
      source source_dma /\
    buffer_ok s f (is_destination_handle input) (is_destination_offset input) (is_length input)
      destination_access destination destination_dma /\
    submit_overlaps input source_dma destination_dma = false /\
    descriptor = submit_descriptor input source_dma destination_dma /\
    k_dev s = Some d /\ submitted f d p descriptor source destination s';
}.

Lemma submit_begin_ok lr lm f argp s :
  inv lo lr lm [] [] 0 s -> f ∈ lo ->
  exists res s', submit_begin f argp s = Ok (res, s') /\
    match res with
    | inl e => inv lo lr lm [] [] 0 s' /\ rc_is_ok e = false
    | inr (p, descriptor) => dinv lo ((f, p) :: ls) bound lo lr lm [] [] 0 s' /\
        exists input, argp = Some input /\ submit_checked s f input p descriptor s'
    end.
Proof.
  intros H Hf. destruct (open_device _ _ _ _ _ f s H Hf) as (vf & d & Hvf & Hd).
  assert (Hsame : forall e, rc_is_ok e = false ->
    exists res s', Ok (inl e, s) = Ok (res, s') /\
    match res with
    | inl e => inv lo lr lm [] [] 0 s' /\ rc_is_ok e = false
    | inr (p, descriptor) => dinv lo ((f, p) :: ls) bound lo lr lm [] [] 0 s' /\
        exists input, argp = Some input /\ submit_checked s f input p descriptor s'
    end) by (intros e He; by exists (inl e), s).
  unfold submit_begin. destruct argp as [input|]; [|by apply Hsame].
  destruct (submit_args_bad input) eqn:Eargs; [by apply Hsame|].
  destruct (submit_access input) as [[[sa da] sl]|] eqn:Eacc; [|by apply Hsame].
  krun (run_read_file _ _ _ Hvf). destruct (vf_closing vf); [by apply Hsame|].
  destruct (optional_lookup_ok _ _ _ _ _ f (is_source_handle input) (is_source_offset input)
    sl sa s H Hf) as (src & s1 & E1 & T1 & H1). krun E1.
  destruct src as [e|[source source_dma]]; [destruct H1 as [-> He]; by apply Hsame|].
  destruct H1 as [H1 Hsrc].
  destruct (optional_lookup_ok _ _ _ _ _ f (is_destination_handle input)
    (is_destination_offset input) (is_length input) da s1 H1 Hf)
    as (dst & s2 & E2 & T2 & H2). krun E2.
  assert (D1 : k_dev s1 = Some d) by (rewrite <-Hd; apply T1).
  destruct dst as [e|[destination destination_dma]].
  { destruct H2 as [-> He].
    destruct (mapping_put_ok _ _ _ _ _ _ _ _ _ source s1 d H1 D1) as (s3 & E3 & H3 & _).
    krun E3. by exists (inl e), s3. }
  destruct H2 as [H2 Hdst]. assert (D2 : k_dev s2 = Some d) by (rewrite <-D1; apply T2).
  destruct (submit_overlaps input source_dma destination_dma) eqn:Eov.
  { destruct (put_mappings_ok _ _ _ _ _ source destination s2 d H2 D2) as (s3 & E3 & H3).
    krun E3. by eexists (inl _), s3. }
  destruct (submit_request_ok _ _ f source destination
    (submit_descriptor input source_dma destination_dma) s2 d H2 Hf D2) as (res & s3 & E3 & H3).
  exists res, s3. split; [exact E3|]. destruct res as [e|[p descriptor]]; [done|].
  destruct H3 as (H3 & -> & Hsub & Hfresh). split; [done|]. exists input. split; [done|].
  split; [done|by rewrite <-(st_requests _ _ T1), <-(st_requests _ _ T2)|].
  exists sa, da, sl, source, destination, source_dma, destination_dma, d. split_and!; try done.
  unfold buffer_ok. destruct (da =? 0); [done|]. destruct Hdst as (q & -> & Hq).
  exists q. split; [done|]. by eapply range_ok_same.
Qed.

(** The request leaves its owner's table; the caller has the table's reference. *)
Lemma reap_ok lr lm f vf p id s :
  inv lo lr lm [] [] 0 s -> k_files s !! f = Some vf -> vf_requests vf !! id = Some p ->
  f ∉ ls.*1 ->
  let s' := set_k_files (<[f := set_vf_requests (delete id (vf_requests vf)) vf]> (k_files s)) s in
  owner_erase f id s = Ok (Some p, s') /\ inv lo (p :: lr) lm [] [] 0 s'.
Proof.
  intros H Hf Hid Hls s'.
  destruct (owner_erase_ok lo ls bound _ _ _ _ _ f vf id s H Hf) as [E H'].
  { intros q Hq _. apply Hls. apply list_elem_of_fmap. by exists (f, q). }
  rewrite Hid in E, H'. split; [done|]. by eapply dinv_published.
Qed.

(** Updating the counter of completed requests. *)
Lemma update_completed_ok lr lm ln lu pd f vf u s :
  inv lo lr lm ln lu pd s -> k_files s !! f = Some vf ->
  let s' := set_k_files (<[f := set_vf_completed_requests (u vf) vf]> (k_files s)) s in
  update_file f (fun vf => set_vf_completed_requests (u vf) vf) s = Ok (tt, s') /\
  inv lo lr lm ln lu pd s'.
Proof.
  intros H Hf s'. split; [exact (run_update_file s f vf (fun vf => set_vf_completed_requests (u vf) vf) Hf)|].
  by apply (dinv_file_neutral _ _ _ _ _ _ _ _ _ s f vf).
Qed.

Lemma dinv_sub_weaken ls' lf lr lm ln lu pd s :
  (forall x, x ∈ ls -> x ∈ ls') -> dinv lo ls' bound lf lr lm ln lu pd s -> inv lf lr lm ln lu pd s.
Proof. intros Hl H. open_inv H. split; try done. intros f p Hx. by apply Hsub, Hl. Qed.

Lemma submit_end_ok lr lm f p s :
  dinv lo ((f, p) :: ls) bound lo lr lm [] [] 0 s -> f ∉ ls.*1 ->
  exists res s', submit_end f p s = Ok (res, s') /\ inv lo lr lm [] [] 0 s'.
Proof.
  intros H Hls. destruct (di_sub _ _ _ _ _ _ _ _ _ _ H f p) as (_ & vf & r & Hf & Hr & Hk);
    [by left|].
  apply (dinv_sub_weaken ((f, p) :: ls)) in H; [|intros; by right].
  unfold submit_end. krun (run_read_request _ _ _ Hr). kpure.
  destruct (copy_to_user_ok (k_world s)) as [copied w]. cbn [fst snd].
  apply (dinv_world _ _ _ _ _ _ _ _ _ _ w) in H. set (s1 := set_k_world w s) in *.
  destruct copied; cbn [negb]; [by eexists _, s1|].
  destruct (reap_ok _ _ f vf p (r_command_id r) s1 H Hf Hk Hls) as [E2 H2]. krun E2. clear E2.
  set (vf2 := set_vf_requests _ vf) in *. set (s2 := set_k_files _ s1) in *.
  krun (run_read_request s2 p r Hr).
  assert (Hs3 : exists s3, (when (r_done r) (update_file f (fun vf =>
      set_vf_completed_requests (atomic_dec_if_positive (vf_completed_requests vf)) vf)) : K W unit) s2
      = Ok (tt, s3) /\ inv lo (p :: lr) lm [] [] 0 s3).
  { destruct (r_done r); cbn [when]; [|by exists s2].
    destruct (update_completed_ok _ _ _ _ _ f vf2
      (fun vf => atomic_dec_if_positive (vf_completed_requests vf)) s2 H2) as [E3 H3];
      [apply lookup_insert_eq|]. eauto. }
  destruct Hs3 as (s3 & E3 & H3). krun E3.
  destruct (request_put_ok _ _ _ _ _ _ _ _ p s3 H3) as (s4 & E4 & H4 & _). krun E4.
  by eexists _, s4.
Qed.

(** ** Waiting *)

Lemma wait_begin_ok lr lm f argp s :
  inv lo lr lm [] [] 0 s -> f ∈ lo ->
  exists res s', wait_begin f argp s = Ok (res, s') /\
    match res with
    | inl e => s' = s /\ rc_is_ok e = false
    | inr p => inv lo (p :: lr) lm [] [] 0 s' /\ exists output vf,
        argp = Some output /\ wait_args_bad output = false /\ k_files s' = k_files s /\
        k_files s !! f = Some vf /\ vf_requests vf !! iw_command_id output = Some p
    end.
Proof.
  intros H Hf. unfold wait_begin. destruct argp as [output|]; [|by eexists _, s].
  destruct (wait_args_bad output) eqn:Ebad; [by eexists _, s|].
  destruct (open_device _ _ _ _ _ f s H Hf) as (vf & _ & Hvf & _).
  krun (run_read_file _ _ _ Hvf). unfold xa_load.
  destruct (vf_requests vf !! iw_command_id output) as [p|] eqn:Ep; [|by eexists _, s].
  destruct (di_own _ _ _ _ _ _ _ _ _ _ H f vf _ p Hvf Ep) as (r & Hr & _).
  destruct (request_get_ok _ _ _ _ _ _ _ _ _ p r s H Hr) as [E H']. krun E.
  eexists _, _. split; [done|]. split; [done|]. by exists output, vf.
Qed.

(** The outcome of the second half of a wait on [p] through [f]: the result is
    delivered, and the request leaves the file's table, or neither. *)
Record wait_outcome (s : kstate W) (f p : nat) (output : vams_ioc_wait) (how : waited) (ret : rc)
    (out : option vams_ioc_wait) (s' : kstate W) : Prop := {
  wo_ret : rc_is_ok ret = true <-> out <> None;
  wo_out o : out = Some o -> exists r requests mappings,
    k_requests s !! p = Some r /\ o = wait_output output r /\
    wait_error (iw_timeout_ms output) how (r_done r) = None /\
    tables_of s f = Some (requests, mappings) /\ requests !! iw_command_id output = Some p /\
    tables_of s' f = Some (delete (iw_command_id output) requests, mappings);
}.

Lemma put_open_tables lr lm ln lu pd f p s s' :
  vams_request_put p s = Ok (tt, s') -> inv lo lr lm ln lu pd s' -> f ∈ lo ->
  tables_of s' f = tables_of s f.
Proof.
  intros E H Hf. destruct (request_put_tables p s s' f E) as [?|Hn]; [done|].
  destruct (open_alive _ _ _ _ _ _ _ _ _ _ f H Hf) as [vf Hvf]. unfold tables_of in Hn.
  by rewrite Hvf in Hn.
Qed.

(** The critical section of a wait whose request is done. *)
Definition wait_reap (f p : nat) (output : vams_ioc_wait) : K W (rc * option vams_ioc_wait) :=
  vf ← read_file f;
  if negb (bool_decide (xa_load (vf_requests vf) (iw_command_id output) = Some p))
  then mret (rc_err EALREADY, None) else
  copied ← in_world copy_to_user_ok;
  if negb copied then mret (rc_err EFAULT, None) else
  _ ← owner_erase f (iw_command_id output);
  _ ← update_file f (fun vf => set_vf_completed_requests
        (atomic_dec_if_positive (vf_completed_requests vf)) vf);
  _ ← vams_request_put p;
  mret (rc_ok, Some output).

Lemma wait_reap_ok lr lm f p output s :
  inv lo (p :: lr) lm [] [] 0 s -> f ∈ lo -> f ∉ ls.*1 ->
  exists ret out s', wait_reap f p output s = Ok ((ret, out), s') /\
    inv lo (p :: lr) lm [] [] 0 s' /\ (rc_is_ok ret = true <-> out <> None) /\
    forall o, out = Some o -> o = output /\ exists requests mappings,
      tables_of s f = Some (requests, mappings) /\ requests !! iw_command_id output = Some p /\
      tables_of s' f = Some (delete (iw_command_id output) requests, mappings).
Proof.
  intros H Hf Hls. destruct (open_device _ _ _ _ _ f s H Hf) as (vf & _ & Hvf & _).
  unfold wait_reap. krun (run_read_file _ _ _ Hvf). unfold xa_load.
  case_bool_decide as Hk; cbn [negb]; [|by eexists _, _, s].
  kpure. destruct (copy_to_user_ok (k_world s)) as [copied w]. cbn [fst snd].
  apply (dinv_world _ _ _ _ _ _ _ _ _ _ w) in H. set (s1 := set_k_world w s) in *.
  destruct copied; cbn [negb]; [|by eexists _, _, s1].
  destruct (reap_ok _ _ f vf p _ s1 H Hvf Hk Hls) as [E2 H2]. krun E2. clear E2.
  set (vf2 := set_vf_requests _ vf) in *. set (s2 := set_k_files _ s1) in *.
  destruct (update_completed_ok _ _ _ _ _ f vf2
    (fun vf => atomic_dec_if_positive (vf_completed_requests vf)) s2 H2) as [E3 H3];
    [apply lookup_insert_eq|]. krun E3. clear E3. set (s3 := set_k_files _ s2) in *.
  destruct (request_put_ok _ _ _ _ _ _ _ _ p _ H3) as (s4 & E4 & H4 & _). krun E4.
  exists rc_ok, (Some output), s4. split; [done|]. split; [done|]. split; [done|].
  intros o [= <-]. split; [done|]. exists (vf_requests vf), (vf_mappings vf).
  split; [unfold tables_of; by rewrite Hvf|]. split; [done|].
  rewrite (put_open_tables _ _ _ _ _ f _ _ _ E4 H4 Hf).
  unfold tables_of, s3. simpl. by rewrite lookup_insert_eq.
Qed.

Lemma wait_end_ok lr lm f p output how s :
  inv lo (p :: lr) lm [] [] 0 s -> f ∈ lo -> f ∉ ls.*1 ->
  exists ret out s', wait_end f p output how s = Ok ((ret, out), s') /\ inv lo lr lm [] [] 0 s' /\
    wait_outcome s f p output how ret out s'.
Proof.
  intros H Hf Hls. destruct (loan_alive _ _ _ _ _ _ _ _ _ _ p H) as [r Hr]; [by left|].
  unfold wait_end. krun (run_read_request _ _ _ Hr).
  destruct (wait_error (iw_timeout_ms output) how (r_done r)) as [e|] eqn:Ee.
  - rewrite (run_bind _ _ s (e, None) s) by done.
    destruct (request_put_ok _ _ _ _ _ _ _ _ p s H) as (s2 & E2 & H2 & _). krun E2.
    exists e, None, s2. split; [done|]. split; [done|]. split; [|done].
    unfold wait_error in Ee. destruct e; [|done]. by repeat case_match.
  - destruct (wait_reap_ok lr lm f p (wait_output output r) s H Hf Hls)
      as (ret & out & s1 & E1 & H1 & Hret & Hout).
    krun (E1 : _ = Ok ((ret, out), s1)).
    destruct (request_put_ok _ _ _ _ _ _ _ _ p s1 H1) as (s2 & E2 & H2 & _). krun E2.
    exists ret, out, s2. split; [done|]. split; [done|]. split; [done|].
    intros o Ho. destruct (Hout o Ho) as (-> & rq & mp & T0 & Hk & T1). exists r, rq, mp.
    split_and!; try done. by rewrite (put_open_tables _ _ _ _ _ f _ _ _ E2 H2 Hf).
Qed.

(** ** NOP, information and poll *)

Lemma nop_begin_ok lr lm argp s d :
  inv lo lr lm [] [] 0 s -> k_dev s = Some d ->
  exists res s', nop_begin argp s = Ok (res, s') /\
    match res with
    | inl e => inv lo lr lm [] [] 0 s' /\ rc_is_ok e = false
    | inr p => inv lo (p :: lr) lm [] [] 0 s' /\
        exists r, k_requests s' !! p = Some r /\ r_owner r = None /\ r_command_id r <> 0 /\
          outstanding s' !! r_command_id r = Some p
    end.
Proof.
  intros H Hd. unfold nop_begin. destruct argp as [nop|]; [|by eexists (inl _), s].
  destruct (_ || _); [by eexists (inl _), s|].
  destruct (request_alloc_ok _ _ _ _ _ _ _ _ None s H) as (o & s1 & E1 & D1 & H1); [done|].
  rewrite Hd in D1. krun E1. destruct o as [p|]; [|by eexists (inl _), s1].
  destruct H1 as (H1 & Hlr & Hr1 & _). unfold vams_submit_nop.
  match goal with |- context [vams_submit p ?x] => set (descriptor := x) end.
  destruct (submit_ok lo ls bound lr lm p _ descriptor s1 d H1 Hr1) as (ret & s2 & E2 & [Hpost]);
    [done..|].
  krun E2. destruct Hpost as (r2 & Hr2 & Hrest & Hpost).
  destruct (rc_is_ok ret) eqn:Eret; cbn [negb].
  - destruct Hpost as (H2 & _ & Hid & Hout & _). eexists _, s2. split; [done|]. split; [done|].
    exists r2. split; [done|]. split; [exact (f_equal r_owner Hrest)|]. done.
  - destruct (request_put_ok _ _ _ _ _ _ _ _ p s2 Hpost) as (s3 & E3 & H3 & _). krun E3.
    eexists _, s3. split; [done|]. split; [|done]. by apply (dinv_forget _ _ _ _ _ _ _ _ _ p).
Qed.

Lemma nop_end_ok lr lm p nop how s :
  inv lo (p :: lr) lm [] [] 0 s ->
  exists res s', nop_end p nop how s = Ok (res, s') /\ inv lo lr lm [] [] 0 s'.
Proof.
  intros H. destruct (loan_alive _ _ _ _ _ _ _ _ _ _ p H) as [r Hr]; [by left|].
  unfold nop_end. krun (run_read_request _ _ _ Hr).
  match goal with |- context [(?m ≫= ?k) s] =>
    assert (Hm : exists res w, m s = Ok (res, set_k_world w s))
  end.
  { assert (Es : s = set_k_world (k_world s) s) by by destruct s.
    destruct how; [|eexists _, (k_world s); by rewrite <-Es..].
    destruct (rc_is_ok (r_driver_status r)); cbn [negb];
      [|eexists _, (k_world s); by rewrite <-Es].
    kpure. destruct (copy_to_user_ok (k_world s)) as [[] w]; by eexists _, w. }
  destruct Hm as (res & w & Em). krun Em.
  apply (dinv_world _ _ _ _ _ _ _ _ _ _ w) in H.
  destruct (request_put_ok _ _ _ _ _ _ _ _ p _ H) as (s2 & E2 & H2 & _). krun E2.
  by exists res, s2.
Qed.

Lemma info_ok lr lm ln lu pd argp s d :
  inv lo lr lm ln lu pd s -> k_dev s = Some d ->
  exists res s', vams_ioctl_info argp s = Ok (res, s') /\ inv lo lr lm ln lu pd s'.
Proof.
  intros H Hd. unfold vams_ioctl_info. destruct argp as [info|]; [|by eexists _, s].
  destruct (_ || _); [by eexists _, s|]. krun (run_read_device _ _ Hd).
  destruct (vd_removing d); [by eexists _, s|].
  kpure. destruct (copy_to_user_ok (k_world s)) as [[] w]; cbn [fst snd negb];
    (eexists _, _; split; [done|]); by apply dinv_world.
Qed.

Lemma poll_check_ok lr lm ln lu pd f s :
  inv lo lr lm ln lu pd s -> f ∈ lo -> exists mask reads, poll_check f s = Ok ((mask, reads), s).
Proof.
  intros H Hf. destruct (open_device _ _ _ _ _ f s H Hf) as (vf & d & Hvf & Hd). unfold poll_check.
  krun (run_read_file _ _ _ Hvf). krun (run_read_device _ _ Hd).
  destruct (vf_closing vf || vd_removing d); [by eexists _, _|].
  destruct (vd_queues_ready d); by eexists _, _.
Qed.

(** The register read is all that can go wrong. *)
Lemma poll_read_ok lr lm ln lu pd f mask s :
  inv lo lr lm ln lu pd s -> f ∈ lo ->
  if k_bar0 s then exists v w, poll_read mask s = Ok (v, set_k_world w s) else poll_read mask s = Fault.
Proof.
  intros H Hf. destruct (open_device _ _ _ _ _ f s H Hf) as (vf & d & Hvf & Hd).
  unfold poll_read, mbind, K_bind, vams_readl. destruct (k_bar0 s); [|done]. unfold in_world.
  destruct (ioread32 VAMS_REG_SQ_HEAD (k_world s)) as [head w].
  rewrite (run_read_device (set_k_world w s) d) by done. by eexists _, w.
Qed.
End Files.
