(* ===== verification/DriverBuffers.v ===== *)
(** * Buffers, open and release keep the driver's invariant

    Registration either leaves the driver as it was or adds one mapping with its
    pinned pages, scatter table and DMA mapping; releasing a file gives back
    everything its tables held. *)

From S2P Require Import Prelude Abi Linux DriverState Driver DriverApi DriverInv DriverMoves.
From S2P Require Import DriverRefs DriverRequests DriverOps DriverSubmit DriverFiles.

Section Buffers.
Context {W : Type} `{!Kernel W, !KernelLaws W}.
Context (lo : list nat) (ls : list (nat * nat)) (bound : bool).
#[local] Abbreviation inv := (dinv lo ls bound).
Implicit Types (s : kstate W).

(** ** Registration *)

(** The resources of a mapping of [n] pages, counted. *)
Definition with_resources (n : Z) (s : kstate W) : kstate W :=
  set_k_dma_maps (k_dma_maps s + 1)
    (set_k_sg_tables (k_sg_tables s + 1) (set_k_pinned (k_pinned s + n) s)).

(** The file table with the new handle and the mapping in the heap. *)
Definition with_mapping (f : nat) (vf : vams_file) (handle : Z) (p : nat) (m : vams_mapping)
    (s : kstate W) : kstate W :=
  set_k_files (<[f := set_vf_mappings (<[handle := p]> (vf_mappings vf)) vf]> (k_files s))
    (add_mapping p m s).

Lemma undo_all {A} n (a : A) s :
  (_ ← undo_map; _ ← undo_sg; _ ← undo_pin n; mret a) (with_resources n s) = Ok (a, s).
Proof.
  destruct s. unfold mbind, K_bind, undo_map, undo_sg, undo_pin, modify, with_resources. simpl.
  unfold set_k_dma_maps, set_k_sg_tables, set_k_pinned. simpl. by rewrite !Z.add_simpl_r.
Qed.

Lemma drop_add_mapping p m s :
  k_mappings s !! p = None -> drop_mapping p m (add_mapping p m s) = s.
Proof.
  destruct s as [w b d fs rs ms n sg dm pci].
  cbv [drop_mapping add_mapping set_k_mappings set_k_dma_maps set_k_sg_tables set_k_pinned
    k_world k_bar0 k_dev k_files k_requests k_mappings k_pinned k_sg_tables k_dma_maps k_pci].
  intros Hp. by rewrite (delete_insert_id ms p m Hp), !Z.add_simpl_r.
Qed.

(** The outcome of a registration from [s]. *)
Definition registration (s : kstate W) (f : nat) (npages : Z) (input : vams_ioc_buffer_register)
    (ret : rc) (out : option vams_ioc_buffer_register) (s' : kstate W) : Prop :=
  match out with
  | None => rc_is_ok ret = false /\ exists w, s' = set_k_world w s
  | Some o => ret = rc_ok /\ exists w vf handle p m,
      k_files s !! f = Some vf /\ vf_mappings vf !! handle = None /\
      1 <= handle <= U32_MAX /\ k_mappings s !! p = None /\ o = with_handle handle input /\
      s' = with_mapping f vf handle p m (set_k_world w s) /\
      m_refs m = 1 /\ m_handle m = handle /\ m_length m = ir_length input /\
      m_flags m = ir_flags input /\ m_user_address m = ir_user_address input /\
      m_npages m = npages
  end.

Lemma xa_alloc_ok (m : gmap Z nat) p :
  xa_first_free m <= U32_MAX -> xa_alloc m p true = (rc_ok, xa_first_free m, <[xa_first_free m := p]> m).
Proof. intros H. unfold xa_alloc. by rewrite (proj2 (Z.ltb_ge _ _) H). Qed.

(** Taking a mapping that user space was not told about back. *)
Lemma rollback_mapping f vf d h p m s :
  k_files s !! f = Some vf -> k_dev s = Some d -> m_refs m = 1 -> k_mappings s !! p = None ->
  vf_mappings vf !! h = None ->
  mapping_erase f h (with_mapping f vf h p m s) = Ok (Some p, add_mapping p m s) /\
  vams_mapping_put (Some p) (add_mapping p m s) = Ok (tt, s).
Proof.
  intros Hf Hd Hrefs Hp Hfree. split.
  - unfold mapping_erase. set (vf2 := set_vf_mappings (<[h := p]> (vf_mappings vf)) vf).
    assert (Hf2 : k_files (with_mapping f vf h p m s) !! f = Some vf2) by apply lookup_insert_eq.
    krun (run_read_file _ _ _ Hf2). simpl. rewrite lookup_insert_eq.
    krun (run_update_file _ f vf2 (set_vf_mappings (delete h (<[h := p]> (vf_mappings vf)))) Hf2).
    unfold with_mapping. simpl. rewrite insert_insert_eq, delete_insert_id by done.
    replace (<[f:=_]> (k_files s)) with (k_files s); [by destruct s|].
    symmetry. apply insert_id. by rewrite Hf; destruct vf.
  - assert (Hm : k_mappings (add_mapping p m s) !! p = Some m) by apply lookup_insert_eq.
    unfold vams_mapping_put. krun (run_read_mapping _ _ _ Hm). rewrite Hrefs. cbn.
    unfold vams_mapping_release. krun (run_read_mapping _ _ _ Hm).
    assert (Hd2 : k_dev (add_mapping p m s) = Some d) by done.
    krun (run_read_device _ _ Hd2). unfold modify.
    change (set_k_mappings _ _) with (drop_mapping p m (add_mapping p m s)).
    by rewrite drop_add_mapping.
Qed.

Lemma publish_mapping_ok f vf d m input s :
  k_files s !! f = Some vf -> k_dev s = Some d -> m_refs m = 1 ->
  m_length m = ir_length input -> m_flags m = ir_flags input ->
  m_user_address m = ir_user_address input ->
  exists ret out s', register_publish f m input (with_resources (m_npages m) s) = Ok ((ret, out), s') /\
    registration s f (m_npages m) input ret out s'.
Proof.
  intros Hf Hd Hrefs Hl Hfl Hu. unfold register_publish. kpure.
  change (k_mappings (with_resources (m_npages m) s)) with (k_mappings s).
  set (p := fresh (dom (k_mappings s))).
  assert (Hp : k_mappings s !! p = None) by (apply not_elem_of_dom, is_fresh).
  kpure. change (k_world (with_resources (m_npages m) s)) with (k_world s).
  destruct (alloc_ok (k_world s)) as [memory w]. cbn [fst snd].
  change (set_k_world w (with_resources (m_npages m) s))
    with (with_resources (m_npages m) (set_k_world w s)).
  set (s1 := set_k_world w s).
  assert (Hf1 : k_files (with_resources (m_npages m) s1) !! f = Some vf) by done.
  krun (run_read_file _ _ _ Hf1).
  set (h := xa_first_free (vf_mappings vf)).
  destruct (xa_first_free_free (vf_mappings vf)) as [Hfree Hh]. fold h in Hfree, Hh.
  assert (Hundo : forall e, exists ret out s', (_ ← undo_map; _ ← undo_sg; _ ← undo_pin (m_npages m);
      mret (rc_err e, None)) (with_resources (m_npages m) s1) = Ok ((ret, out), s') /\
      registration s f (m_npages m) input ret out s').
  { intros e. exists (rc_err e), None, s1. split; [apply undo_all|].
    split; [done|by exists w]. }
  unfold xa_alloc. fold h. destruct (Z.ltb_spec U32_MAX h); [apply Hundo|].
  destruct memory; [|apply Hundo]. cbv beta iota zeta.
  change (negb (rc_is_ok rc_ok)) with false. cbv iota.
  set (m' := set_m_handle h m).
  krun (run_update_file _ f vf (set_vf_mappings (<[h := p]> (vf_mappings vf))) Hf1). kpure.
  change (set_k_mappings _ _) with (with_mapping f vf h p m' s1). kpure.
  change (k_world (with_mapping f vf h p m' s1)) with w.
  destruct (copy_to_user_ok w) as [copied w']. cbn [fst snd].
  change (set_k_world w' (with_mapping f vf h p m' s1))
    with (with_mapping f vf h p m' (set_k_world w' s)).
  set (s2 := set_k_world w' s). destruct copied; cbn [negb].
  { eexists _, _, _. split; [done|]. split; [done|]. exists w', vf, h, p, m'. by split_and!. }
  destruct (rollback_mapping f vf d h p m' s2) as [Ee Ep]; [done..|].
  krun Ee. krun Ep. eexists _, None, s2. split; [done|]. split; [done|]. by exists w'.
Qed.

(** The pages of a user range. *)
Definition register_npages (input : vams_ioc_buffer_register) : Z :=
  Z.shiftr (ir_user_address input + ir_length input - 1) PAGE_SHIFT -
  Z.shiftr (ir_user_address input) PAGE_SHIFT + 1.

Lemma unpin_id s w n :
  set_k_pinned (k_pinned s + n - n) (set_k_pinned (k_pinned s + n) (set_k_world w s))
    = set_k_world w s.
Proof. rewrite Z.add_simpl_r. by destruct s. Qed.

Lemma registration_none s f input e w (m : K W (rc * option vams_ioc_buffer_register)) s1 :
  m s1 = Ok ((rc_err e, None), set_k_world w s) ->
  exists ret out s', m s1 = Ok ((ret, out), s') /\
    registration s f (register_npages input) input ret out s'.
Proof. intros E. eexists _, _, _. split; [done|]. split; [done|]. by exists w. Qed.

(** Only the world of the starting state may differ. *)
Lemma registration_world s f n input ret out s' w :
  registration (set_k_world w s) f n input ret out s' -> registration s f n input ret out s'.
Proof.
  unfold registration. destruct out as [o|].
  - intros (-> & w' & H). split; [done|]. by exists w'.
  - intros (? & w' & ->). split; [done|]. by exists w'.
Qed.

Lemma register_map_ok f vf d input s :
  k_files s !! f = Some vf -> k_dev s = Some d ->
  exists ret out s', register_map f input (register_npages input)
      (set_k_pinned (k_pinned s + register_npages input) s) = Ok ((ret, out), s') /\
    registration s f (register_npages input) input ret out s'.
Proof.
  intros Hvf Hd. unfold register_map. kpure. change (k_world (set_k_pinned _ _)) with (k_world s).
  match goal with |- context [sg_alloc_table_from_pages ?a ?n ?fl ?w] =>
    destruct (sg_alloc_table_from_pages a n fl w) as [[|e] w4]; cbn [fst snd]
  end.
  2:{ change (negb (rc_is_ok (rc_err e))) with true. cbv iota.
      apply (registration_none _ _ _ e w4). unfold undo_pin. kpure. simpl.
      by rewrite <-(unpin_id s w4 (register_npages input)). }
  change (negb (rc_is_ok rc_ok)) with false. cbv iota. kpure. kpure.
  match goal with |- context [dma_map_sg ?w] => change w with w4 end.
  destruct (dma_map_sg w4) as [mapped w5]; cbn [fst snd].
  destruct (mapped =? 0).
  { apply (registration_none _ _ _ EIO w5). unfold undo_sg, undo_pin. kpure. kpure.
    cbv [set_k_sg_tables set_k_pinned set_k_world k_world k_bar0 k_dev k_files k_requests k_mappings
      k_pinned k_sg_tables k_dma_maps k_pci]. by rewrite !Z.add_simpl_r. }
  kpure. kpure. match goal with |- context [set_k_dma_maps ?x ?y] =>
    change (set_k_dma_maps x y) with (with_resources (register_npages input) (set_k_world w5 s)) end.
  destruct (_ || _); [apply (registration_none _ _ _ ERANGE w5); apply undo_all|].
  kpure. match goal with |- context [register_publish f ?m input] => set (m0 := m) end.
  destruct (publish_mapping_ok f vf d m0 input (set_k_world w5 s) Hvf Hd)
    as (ret & out & s' & E & Hreg); [done..|].
  exists ret, out, s'. split; [exact E|]. exact (registration_world _ _ _ _ _ _ _ _ Hreg).
Qed.

Lemma register_ok lr lm ln lu pd f input s :
  inv lo lr lm ln lu pd s -> f ∈ lo ->
  exists ret out s', vams_ioctl_buffer_register f (Some input) s = Ok ((ret, out), s') /\
    registration s f (register_npages input) input ret out s'.
Proof.
  intros H Hf. destruct (open_device _ _ _ _ _ _ _ _ f s H Hf) as (vf & d & Hvf & Hd). clear H.
  assert (Es : s = set_k_world (k_world s) s) by by destruct s.
  pose proof (registration_none s f input) as Hno. unfold vams_ioctl_buffer_register.
  destruct (register_args_bad input); [apply (Hno EINVAL (k_world s)); by rewrite <-Es|].
  kpure. destruct (_ || _); [apply (Hno EFAULT (k_world s)); by rewrite <-Es|].
  fold (register_npages input). krun (run_read_file _ _ _ Hvf). krun (run_read_device _ _ Hd).
  destruct (_ || _); [apply (Hno ENODEV (k_world s)); by rewrite <-Es|].
  kpure. destruct (alloc_ok (k_world s)) as [[] w1]; cbn [fst snd negb]; [|by apply (Hno ENOMEM w1)].
  kpure. change (k_world (set_k_world w1 s)) with w1.
  destruct (alloc_ok w1) as [[] w2]; cbn [fst snd negb]; [|by apply (Hno ENOMEM w2)].
  kpure. change (k_world (set_k_world w2 (set_k_world w1 s))) with w2.
  set (gup_flags := if has_bits _ _ then _ else _).
  match goal with |- context [pin_user_pages_fast ?a ?n ?fl ?w] =>
    pose proof (pin_user_pages_count a n fl w) as Hpin;
    destruct (pin_user_pages_fast a n fl w) as [[e|n'] w3]; cbn [fst snd]; [by apply (Hno e w3)|]
  end.
  specialize (Hpin n' eq_refl).
  change (set_k_world w3 (set_k_world w2 (set_k_world w1 s))) with (set_k_world w3 s). kpure.
  destruct (Z.eqb_spec n' (register_npages input)) as [->|Hn]; cbn [negb].
  - destruct (register_map_ok f vf d input (set_k_world w3 s) Hvf Hd) as (ret & out & s' & E & Hreg).
    exists ret, out, s'. split; [exact E|]. exact (registration_world _ _ _ _ _ _ _ _ Hreg).
  - apply (Hno EFAULT w3). destruct (Z.ltb_spec 0 n'); cbn [when].
    + unfold undo_pin. kpure. simpl. by rewrite unpin_id.
    + erewrite run_bind by done. assert (n' = 0) as -> by lia. simpl.
      rewrite Z.add_0_r. by destruct s.
Qed.

(** Moving references between a file's mapping table and the caller. *)
Lemma dinv_mapping_table lr lm lm' ln lu pd f vf mappings s :
  inv lo lr lm ln lu pd s -> k_files s !! f = Some vf -> f ∈ lo ->
  (forall q, hold mappings q + hits lm' q = hold (vf_mappings vf) q + hits lm q) ->
  inv lo lr lm' ln lu pd (set_k_files (<[f := set_vf_mappings mappings vf]> (k_files s)) s).
Proof.
  intros H Hf Hin Hm. pose proof H as H0. open_inv H0.
  apply (dinv_file_set _ _ _ lo lo lr lr lm lm' ln lu lu pd s f vf); auto; simpl; try done.
  - by eapply dinv_file_refs_pos.
  - intros id q. by apply (Hown f vf).
  - intros q Hq. specialize (Hunp q Hq). lia.
Qed.

Lemma registration_keeps lr lm ln lu pd f n input ret out s s' :
  inv lo lr lm ln lu pd s -> f ∈ lo -> registration s f n input ret out s' ->
  inv lo lr lm ln lu pd s'.
Proof.
  intros H Hf Hreg. unfold registration in Hreg. destruct out as [o|].
  - destruct Hreg as (_ & w & vf & h & p & m & Hvf & Hh & _ & Hp & _ & -> & Hrefs & _).
    apply (dinv_world _ _ _ _ _ _ _ _ _ _ w) in H.
    pose proof (dinv_mapping_alloc _ _ _ _ _ _ _ _ _ _ p m H Hp Hrefs) as H1.
    apply (dinv_mapping_table lr (p :: lm) lm _ _ _ f vf _ _ H1); [done..|].
    intros q. rewrite hold_insert by done. simpl. lia.
  - destruct Hreg as (_ & w & ->). by apply dinv_world.
Qed.

Lemma mapping_erase_ok lr lm ln lu pd f vf handle s :
  inv lo lr lm ln lu pd s -> k_files s !! f = Some vf -> f ∈ lo ->
  let s' := set_k_files (<[f := set_vf_mappings (delete handle (vf_mappings vf)) vf]> (k_files s)) s in
  mapping_erase f handle s = Ok (vf_mappings vf !! handle, s') /\
  inv lo lr (option_list (vf_mappings vf !! handle) ++ lm) ln lu pd s'.
Proof.
  intros H Hf Hin s'. split.
  { unfold mapping_erase. krun (run_read_file _ _ _ Hf). simpl.
    by krun (run_update_file _ _ _ (set_vf_mappings (delete handle (vf_mappings vf))) Hf). }
  apply (dinv_mapping_table lr lm _ _ _ _ f vf _ _ H); [done..|]. intros q.
  destruct (vf_mappings vf !! handle) as [p|] eqn:Ep; simpl.
  - rewrite (hold_delete _ handle p q Ep). lia.
  - by rewrite delete_id.
Qed.

Lemma unregister_ok lr lm ln lu pd f argp s :
  inv lo lr lm ln lu pd s -> f ∈ lo ->
  exists ret s', vams_ioctl_buffer_unregister f argp s = Ok (ret, s') /\ inv lo lr lm ln lu pd s'.
Proof.
  intros H Hf. unfold vams_ioctl_buffer_unregister. destruct argp as [input|]; [|by eexists _, s].
  destruct (_ || _); [by eexists _, s|].
  destruct (open_device _ _ _ _ _ _ _ _ f s H Hf) as (vf & d & Hvf & Hd).
  krun (run_read_file _ _ _ Hvf). unfold xa_load.
  destruct (vf_mappings vf !! iu_handle input) as [p|] eqn:Ep; [|by eexists _, s].
  destruct (registered_alive _ _ _ _ _ _ _ _ _ _ f vf _ p H Hvf Ep) as [m Hm].
  krun (run_read_mapping _ _ _ Hm). destruct (m_refs m =? 1); cbn [negb]; [|by eexists _, s].
  destruct (mapping_erase_ok _ _ _ _ _ f vf (iu_handle input) s H Hvf Hf) as [E1 H1]. krun E1.
  rewrite Ep in H1.
  destruct (mapping_put_ok _ _ _ _ _ _ _ _ _ (Some p) _ d H1 Hd) as (s2 & E2 & H2 & _). krun E2.
  by eexists _, s2.
Qed.

(** ** Releasing a file *)

Lemma release_requests_ok lr lm f ids requests mappings s :
  inv lo lr lm [] [] 0 s -> f ∈ lo -> f ∉ ls.*1 -> tables_of s f = Some (requests, mappings) ->
  exists s', release_requests f ids s = Ok (tt, s') /\ inv lo lr lm [] [] 0 s' /\
    tables_of s' f = Some (foldr delete requests ids, mappings).
Proof.
  intros H Hf Hls. revert requests s H. induction ids as [|id ids IH]; intros requests s H Ht.
  { by exists s. }
  cbn [release_requests]. unfold tables_of in Ht. apply fmap_Some in Ht as (vf & Hvf & [= -> ->]).
  destruct (owner_erase_ok lo ls bound _ _ _ _ _ f vf id s H Hvf) as [E1 H1].
  { intros q Hq _. apply Hls, list_elem_of_fmap. by exists (f, q). }
  krun E1. clear E1. set (s1 := set_k_files _ s) in *.
  assert (Hput : exists s2, from_option vams_request_put (mret tt) (vf_requests vf !! id) s1
      = Ok (tt, s2) /\ inv lo lr lm [] [] 0 s2 /\ (tables_of s2 f = tables_of s1 f \/
      tables_of s2 f = None)).
  { destruct (vf_requests vf !! id) as [p|]; [|by exists s1; auto].
    destruct (request_put_ok _ _ _ _ _ _ _ _ p s1 H1) as (s2 & E2 & H2 & _). exists s2.
    split; [done|]. split; [by eapply dinv_published|]. by eapply request_put_tables. }
  destruct Hput as (s2 & E2 & H2 & Ht). krun E2.
  destruct (open_alive _ _ _ _ _ _ _ _ _ _ f H2 Hf) as [vf2 Hvf2].
  destruct Ht as [Ht|Ht]; [|unfold tables_of in Ht; by rewrite Hvf2 in Ht].
  destruct (IH (delete id (vf_requests vf)) s2 H2) as (s3 & E3 & H3 & Ht3).
  { rewrite Ht. unfold tables_of, s1. simpl. by rewrite lookup_insert_eq. }
  exists s3. split; [done|]. split; [done|]. rewrite Ht3. cbn [foldr].
  by rewrite delete_foldr_delete.
Qed.

Lemma release_mappings_ok lr lm ln lu pd f ids requests mappings s :
  inv lo lr lm ln lu pd s -> f ∈ lo -> tables_of s f = Some (requests, mappings) ->
  exists s', release_mappings f ids s = Ok (tt, s') /\ inv lo lr lm ln lu pd s' /\
    tables_of s' f = Some (requests, foldr delete mappings ids).
Proof.
  intros H Hf. revert mappings s H. induction ids as [|id ids IH]; intros mappings s H Ht.
  { by exists s. }
  cbn [release_mappings]. unfold tables_of in Ht. apply fmap_Some in Ht as (vf & Hvf & [= -> ->]).
  destruct (device_alive _ _ _ _ _ _ _ _ _ _ f vf H Hvf) as [d Hd].
  destruct (mapping_erase_ok _ _ _ _ _ f vf id s H Hvf Hf) as [E1 H1].
  krun E1. clear E1. set (s1 := set_k_files _ s) in *.
  destruct (mapping_put_ok _ _ _ _ _ _ _ _ _ _ s1 d H1 Hd) as (s2 & E2 & H2 & F2 & _). krun E2.
  destruct (IH (delete id (vf_mappings vf)) s2 H2) as (s3 & E3 & H3 & Ht3).
  { unfold tables_of. rewrite F2. unfold s1. simpl. by rewrite lookup_insert_eq. }
  exists s3. split; [done|]. split; [done|]. rewrite Ht3. cbn [foldr].
  by rewrite delete_foldr_delete.
Qed.

(** [xa_for_each] with [xa_erase] empties the array. *)
Lemma erase_indices (m : gmap Z nat) : foldr delete m (xa_indices m) = ∅.
Proof.
  apply map_eq. intros k. rewrite lookup_empty. destruct (decide (k ∈ xa_indices m)) as [Hk|Hk].
  - by apply lookup_foldr_delete.
  - rewrite lookup_foldr_delete_not_elem_of by done.
    rewrite elem_of_xa_indices in Hk. by apply eq_None_not_Some.
Qed.

(** Descriptors are counted, not ordered. *)
Lemma dinv_open_perm lf lf' lr lm ln lu pd s :
  (forall g, hits lf' g = hits lf g) -> inv lf lr lm ln lu pd s -> inv lf' lr lm ln lu pd s.
Proof.
  intros Hh H. open_inv H. split; try done. eapply counted_ext; [|exact Hfile].
  intros g. unfold file_refs. by rewrite Hh.
Qed.

(** The last descriptor of an emptied file goes. *)
Lemma dinv_closing lo' lf lr lm ln lu pd f s :
  inv lf lr lm ln lu pd s -> tables_of s f = Some (∅, ∅) -> f ∉ ls.*1 ->
  (forall g, g ∈ lo <-> g = f \/ g ∈ lo') -> dinv lo' ls bound lf lr lm ln lu pd s.
Proof.
  intros H Ht Hls Hlo. open_inv H. split; try done.
  - intros g vg Hg Hn. destruct (decide (g = f)) as [->|Hne].
    + unfold tables_of in Ht. rewrite Hg in Ht. by injection Ht as -> ->.
    + apply (Hcl g vg Hg). rewrite Hlo. by intros [?|?].
  - intros g p Hgp. destruct (Hsub g p Hgp) as [Hin Hx]. split; [|done].
    apply Hlo in Hin as [->|?]; [|done]. destruct Hls. apply list_elem_of_fmap. by exists (f, p).
Qed.

Lemma release_ok lo' lr lm f s :
  inv lo lr lm [] [] 0 s -> lo ≡ₚ f :: lo' -> f ∉ ls.*1 ->
  exists s', vams_release f s = Ok (tt, s') /\ dinv lo' ls bound lo' lr lm [] [] 0 s'.
Proof.
  intros H Hperm Hls. assert (Hf : f ∈ lo) by (rewrite Hperm; by left).
  destruct (open_device _ _ _ _ _ _ _ _ f s H Hf) as (vf & _ & Hvf & _). unfold vams_release.
  krun (run_update_file s f vf (set_vf_closing true) Hvf).
  apply (dinv_file_neutral _ _ _ _ _ _ _ _ _ s f vf (set_vf_closing true vf)) in H; try done.
  set (s1 := set_k_files _ s) in *.
  assert (Hvf1 : k_files s1 !! f = Some (set_vf_closing true vf)) by apply lookup_insert_eq.
  krun (run_read_file _ _ _ Hvf1).
  destruct (release_requests_ok _ _ f (xa_indices (vf_requests vf)) (vf_requests vf)
    (vf_mappings vf) s1 H Hf Hls) as (s2 & E2 & H2 & T2).
  { unfold tables_of. by rewrite Hvf1. }
  rewrite erase_indices in T2. krun E2. pose proof T2 as T2'. unfold tables_of in T2'.
  apply fmap_Some in T2' as (vf2 & Hvf2 & [= Er Em]). krun (run_read_file _ _ _ Hvf2).
  destruct (release_mappings_ok _ _ _ _ _ f (xa_indices (vf_mappings vf2)) ∅
    (vf_mappings vf) s2 H2 Hf T2) as (s3 & E3 & H3 & T3).
  rewrite Em, erase_indices in T3. rewrite <-Em in *. krun E3.
  apply (dinv_closing lo' _ _ _ _ _ _ f) in H3; [|done..|].
  2:{ intros g. by rewrite Hperm, elem_of_cons. }
  destruct (file_put_ok lo' ls bound lo' lr lm [] [] 0 f s3) as (s4 & E4 & H4 & _); [|done|by exists s4].
  open_inv H3. split; try done. eapply counted_ext; [|exact Hfile].
  intros g. unfold file_refs. by rewrite (hits_perm lo (f :: lo') g Hperm).
Qed.

(** ** Opening *)

(** A new file: its creator's reference and one on the device. *)
Lemma dinv_file_new lr lm ln lu pd f s d :
  inv lo lr lm ln lu pd s -> k_dev s = Some d -> k_files s !! f = None ->
  dinv (f :: lo) ls bound (f :: lo) lr lm ln lu pd
    (set_k_files (<[f := new_file]> (k_files s))
       (set_k_dev (Some (set_vd_refs (vd_refs d + 1) d)) s)).
Proof.
  intros H Hd Hf.
  assert (Hnf : forall (g : vams_file -> Z), g new_file = 0 ->
    msum g (<[f := new_file]> (k_files s)) = msum g (k_files s)).
  { intros g Hg. rewrite msum_insert by done. lia. }
  pose proof H as H0. open_inv H0.
  assert (Hfz : file_refs lo s f = 0) by (specialize (Hfile f); by rewrite Hf in Hfile).
  assert (Hlo : f ∉ lo).
  { intros Hin%hits_elem. unfold file_refs in Hfz. pose proof (owner_refs_nonneg (k_requests s) f). lia. }
  assert (Hout : forall x, outstanding (set_k_files x (set_k_dev (Some (set_vd_refs (vd_refs d + 1) d)) s))
    = outstanding s) by (intros x; unfold outstanding; simpl; by rewrite Hd).
  split; simpl; try done.
  - eapply counted_ext; [|exact Hreq]. intros q. unfold request_refs, table_refs. rewrite Hout.
    simpl. rewrite Hnf; [done|apply hold_empty].
  - eapply counted_ext; [|exact Hmap]. intros q. unfold mapping_refs. simpl.
    rewrite Hnf; [done|apply hold_empty].
  - apply (counted_alloc _ (k_files s) (file_refs lo s)); auto; unfold file_refs in *; simpl in *.
    + rewrite ref1_eq. lia.
    + rewrite ref1_eq. lia.
    + intros g Hg. by rewrite ref1_ne by congruence.
  - rewrite Hd in Hdev.
    rewrite map_size_insert_None by done. simpl in *. lia.
  - rewrite Hout. rewrite Hd in Hbound. by destruct bound.
  - by rewrite Hout.
  - intros g vg id p. destruct (decide (g = f)) as [->|Hne].
    + rewrite lookup_insert_eq. intros [= <-] Hx. simpl in Hx. by rewrite lookup_empty in Hx.
    + rewrite lookup_insert_ne by done. apply Hown.
  - by rewrite Hout.
  - by rewrite Hout.
  - intros p Hp. unfold table_refs. simpl. rewrite Hnf; [by apply Hunp|apply hold_empty].
  - intros g vg. destruct (decide (g = f)) as [->|Hne].
    + intros _ []. by left.
    + rewrite lookup_insert_ne by done. intros Hg Hn. apply (Hcl g vg Hg). intros Hin. apply Hn.
      by right.
  - intros d' [= <-]. exact (Hpend d Hd).
  - intros d' [= <-]. exact (Hring d Hd).
  - intros g p Hgp. destruct (Hsub g p Hgp) as (Hin & vg & r & Hg & Hr & Hk).
    split; [by right|]. exists vg, r. split; [|done]. rewrite lookup_insert_ne; [done|]. congruence.
Qed.

Lemma open_ok lr lm ln lu pd s d :
  inv lo lr lm ln lu pd s -> k_dev s = Some d ->
  exists res s', vams_open s = Ok (res, s') /\
    match res with
    | inl e => inv lo lr lm ln lu pd s' /\ rc_is_ok e = false
    | inr f => dinv (f :: lo) ls bound (f :: lo) lr lm ln lu pd s' /\ k_files s !! f = None /\
               k_files s' !! f = Some new_file
    end.
Proof.
  intros H Hd. unfold vams_open. kpure. destruct (alloc_ok (k_world s)) as [ok w]. cbn [fst snd].
  apply (dinv_world _ _ _ _ _ _ _ _ _ _ w) in H. set (s1 := set_k_world w s) in *.
  destruct ok; cbn [negb]; [|by eexists (inl _), s1].
  krun (run_read_device s1 d Hd). destruct (vd_removing d); [by eexists (inl _), s1|].
  unfold device_get. krun (run_update_device s1 d (fun d => set_vd_refs (vd_refs d + 1) d) Hd).
  kpure. kpure. set (f := fresh _). eexists (inr f), _. split; [done|].
  assert (Hf : k_files s1 !! f = None) by (apply not_elem_of_dom, is_fresh).
  split; [exact (dinv_file_new _ _ _ _ _ f s1 d H Hd Hf)|]. split; [done|apply lookup_insert_eq].
Qed.
End Buffers.
