(* ===== verification/DriverTeardown.v ===== *)
(** * Removing the device

    The three phases of [vams_remove] from a bound device: nothing they do
    touches a freed object or unmapped registers, every outstanding request is
    cancelled, and what is left is held by open files only. *)

From S2P Require Import Prelude Abi Linux DriverState Driver DriverApi DriverProbe DriverFrame.
From S2P Require Import DriverInv DriverMoves DriverRefs DriverRequests DriverOps.

Section Teardown.
Context {W : Type} `{!Kernel W, !KernelLaws W}.
Context (lo : list nat) (ls : list (nat * nat)).
#[local] Abbreviation inv := (dinv lo ls true).
Implicit Types (s : kstate W).

Lemma dinv_pci bound lf lr lm ln lu pd s x :
  dinv lo ls bound lf lr lm ln lu pd s -> dinv lo ls bound lf lr lm ln lu pd (set_k_pci x s).
Proof. intros H. open_inv H. by split. Qed.

Lemma run_update_pci u s : update_pci u s = Ok (tt, set_k_pci (u (k_pci s)) s).
Proof. done. Qed.

Lemma remove_begin_ok lr lm ln lu pd s d :
  inv lo lr lm ln lu pd s -> k_dev s = Some d ->
  let s' := set_k_pci (set_pci_misc false (k_pci s)) (set_k_dev (Some (set_vd_removing true d)) s) in
  remove_begin s = Ok (tt, s') /\ inv lo lr lm ln lu pd s'.
Proof.
  intros H Hd s'. split.
  - unfold remove_begin. by krun (run_update_device s d (set_vd_removing true) Hd).
  - apply dinv_pci. apply (dinv_device_neutral _ _ _ _ _ _ _ _ _ s d); auto.
    by apply (di_ring _ _ _ _ _ _ _ _ _ _ H d).
Qed.

Lemma mask_interrupts_ok lr lm ln lu pd s :
  inv lo lr lm ln lu pd s ->
  exists w, vams_mask_interrupts s = Ok (tt, set_k_world w s) /\ inv lo lr lm ln lu pd (set_k_world w s).
Proof.
  intros H. unfold vams_mask_interrupts.
  destruct (writel_ok lo ls true _ _ _ _ _ VAMS_REG_INTR_MASK VAMS_INTR_ALL s eq_refl H) as [E1 H1].
  krun E1.
  destruct (readl_ok lo ls true _ _ _ _ _ VAMS_REG_INTR_MASK _ eq_refl H1) as (v & w & E2 & _ & _ & _ & H2).
  krun E2. by exists w.
Qed.

Lemma disable_queues_ok lr lm ln lu pd s d :
  inv lo lr lm ln lu pd s -> k_dev s = Some d ->
  exists w, let s' := set_k_dev (Some (set_vd_queues_ready false d)) (set_k_world w s) in
    vams_disable_queues s = Ok (tt, s') /\ inv lo lr lm ln lu pd s'.
Proof.
  intros H Hd. unfold vams_disable_queues. krun (run_read_device _ _ Hd).
  destruct (vd_queues_ready d) eqn:Eq; cbn [negb].
  - destruct (writel_ok lo ls true _ _ _ _ _ VAMS_REG_DEVICE_CONTROL VAMS_DEVICE_QUIESCE s eq_refl H)
      as [E1 H1]. krun E1.
    destruct (writel_ok lo ls true _ _ _ _ _ VAMS_REG_SQ_CONTROL VAMS_QUEUE_RESET _ eq_refl H1)
      as [E2 H2]. krun E2.
    destruct (readl_ok lo ls true _ _ _ _ _ VAMS_REG_DEVICE_STATUS _ eq_refl H2)
      as (v & w & E3 & _ & _ & _ & H3). krun E3. exists w.
    destruct (update_device_ok lo ls true _ _ _ _ _ _ d (set_vd_queues_ready false) H3 Hd)
      as [E4 H4]; [done..|]. by split.
  - exists (k_world s). simpl. assert (Es : s = set_k_dev (Some (set_vd_queues_ready false d))
      (set_k_world (k_world s) s)) by (destruct s; simpl in *; rewrite Hd; by destruct d; simpl in *; subst).
    rewrite <-Es. by split.
Qed.

Lemma remove_quiesce_ok lr lm ln lu pd s d :
  inv lo lr lm ln lu pd s -> k_dev s = Some d ->
  exists w, let s' := set_k_pci (set_pci_master false (k_pci s))
      (set_k_dev (Some (set_vd_queues_ready false (set_vd_poll_scheduled false d))) (set_k_world w s)) in
    remove_quiesce s = Ok (tt, s') /\ inv lo lr lm ln lu pd s'.
Proof.
  intros H Hd. unfold remove_quiesce.
  destruct (update_device_ok lo ls true _ _ _ _ _ s d (set_vd_poll_scheduled false) H Hd)
    as [E1 H1]; [done..|]. krun E1.
  destruct (mask_interrupts_ok _ _ _ _ _ _ H1) as (w & E2 & H2). krun E2.
  destruct (writel_ok lo ls true _ _ _ _ _ VAMS_REG_INTR_STATUS VAMS_INTR_ALL _ eq_refl H2) as [E3 H3].
  krun E3.
  destruct (disable_queues_ok _ _ _ _ _ _ (set_vd_poll_scheduled false d) H3 eq_refl) as (w' & E4 & H4).
  krun E4. exists w'. split; [done|]. by apply dinv_pci.
Qed.

(** ** The last phase *)

(** Probe's reference goes: the device is freed, or stays for open files. *)
Lemma dinv_unbind lf lr lm ln lu pd s d :
  inv lf lr lm ln lu pd s -> k_dev s = Some d -> vd_requests d = ∅ -> vd_removing d = true ->
  exists s', device_put (set_k_bar0 false s) = Ok (tt, s') /\
    dinv lo ls false lf lr lm ln lu pd s' /\ k_requests s' = k_requests s /\
    k_pci s' = k_pci s /\ k_mappings s' = k_mappings s /\
    forall d', k_dev s' = Some d' -> d' = set_vd_refs (vd_refs d - 1) d.
Proof.
  intros H Hd Hreqs Hrm. exists (put_device d (set_k_bar0 false s)).
  split; [by apply run_device_put|]. pose proof H as H0. open_inv H0.
  rewrite Hd in Hdev. destruct Hdev as [Hrefs Hpos]. change (Z.b2z true) with 1 in Hrefs.
  assert (Ho : outstanding s = ∅) by (unfold outstanding; by rewrite Hd).
  assert (Ho' : outstanding (put_device d (set_k_bar0 false s)) = ∅)
    by (unfold outstanding; simpl; by destruct (vd_refs d =? 1)).
  split; [split; rewrite ?Ho'; try done; simpl|].
  - eapply counted_ext; [|exact Hreq]. intros q. unfold request_refs. by rewrite Ho', Ho.
  - destruct (Z.eqb_spec (vd_refs d) 1); simpl; [|lia].
    split; [|done]. apply map_size_empty_iff. simpl in Hrefs. lia.
  - split; [done|]. by destruct (vd_refs d =? 1).
  - intros p r Hr. specialize (Hund p r Hr). by rewrite Ho in Hund.
  - intros d'. destruct (vd_refs d =? 1); [done|]. intros [= <-]. by apply (Hpend d).
  - intros d'. destruct (vd_refs d =? 1); [done|]. intros [= <-]. by apply (Hring d).
  - split_and!; try done. simpl. intros d'. destruct (vd_refs d =? 1); [done|]. by intros [= <-].
Qed.

Record removed (s : kstate W) (d : vams_device) (s' : kstate W) : Prop := {
  rm_cancelled k p : vd_requests d !! k = Some p -> cancelled (rc_err ENODEV) s' p;
  rm_others q : hold (vd_requests d) q = 0 -> k_requests s' !! q = k_requests s !! q;
  rm_pci : k_pci s' = set_pci_drvdata false (set_pci_enabled false (set_pci_region false
    (set_pci_sq false (set_pci_cq false (set_pci_vectors false (set_pci_cq_irq false
      (set_pci_async_irq false (k_pci s))))))));
  rm_bar0 : k_bar0 s' = false;
  rm_flags d' : k_dev s' = Some d' -> vd_removing d' = true /\ vd_reset_scheduled d' = false /\
    vd_poll_scheduled d' = vd_poll_scheduled d;
  rm_mappings : mapped_from (k_mappings s) (k_mappings s');
  rm_host : host_ok s -> host_ok s';
}.

Lemma remove_end_ok lr lm ln lu pd s d :
  inv lo lr lm ln lu pd s -> k_dev s = Some d -> vd_removing d = true ->
  exists s', remove_end s = Ok (tt, s') /\ dinv lo ls false lo lr lm ln lu pd s' /\ removed s d s'.
Proof.
  intros H Hd Hrm. unfold remove_end. krun (run_update_pci (set_pci_async_irq false) s).
  krun (run_update_pci (set_pci_cq_irq false) (set_k_pci (set_pci_async_irq false (k_pci s)) s)).
  apply (dinv_pci _ _ _ _ _ _ _ _ (set_pci_cq_irq false (set_pci_async_irq false (k_pci s)))) in H.
  set (s1 := set_k_pci _ s) in H. change (set_k_pci _ (set_k_pci _ s)) with s1.
  destruct (update_device_ok lo ls true _ _ _ _ _ s1 d (set_vd_reset_scheduled false) H Hd)
    as [E1 H1]; [done..|]. krun E1. clear E1. set (d1 := set_vd_reset_scheduled false d) in *.
  set (s2 := set_k_dev (Some d1) s1) in *.
  destruct (cancel_requests_ok lo ls true _ _ _ _ _ (rc_err ENODEV) false s2 d1 eq_refl H1 eq_refl)
    as (s3 & d3 & E3 & H3 & _ & D3 & C3). krun E3.
  pose proof (keeps_cancel_requests L_all _ _ _ _ _ E3) as [P3 _ F3 M3 O3].
  destruct (F3 d3 D3) as (? & [= <-] & Hr3 & _ & Hp3 & Hs3).
  assert (Hempty : vd_requests d3 = ∅).
  { apply map_eq. intros k. rewrite lookup_empty. destruct (vd_requests d3 !! k) as [p|] eqn:Ek; [|done].
    apply (cs_kept _ _ _ _ _ _ _ C3) in Ek as [Ek Hsp].
    destruct Hsp as [? _]; [|done]. apply elem_of_xa_indices. by exists p. }
  unfold vams_free_queues. rewrite !(run_bind _ _ _ _ _ (run_update_pci _ _)).
  rewrite (run_bind _ _ _ _ _ (run_modify _ _)), (run_bind _ _ _ _ _ (run_update_pci _ _)).
  match goal with |- context [device_put ?x] =>
    change x with (set_k_bar0 false (set_k_pci (k_pci x) s3)); set (pci := k_pci x) end.
  apply (dinv_pci _ _ _ _ _ _ _ _ pci) in H3. set (s4 := set_k_pci pci s3) in *.
  destruct (dinv_unbind _ _ _ _ _ _ s4 d3 H3 D3 Hempty) as (s5 & E5 & H5 & R5 & P5 & M5 & D5);
    [by rewrite Hr3|].
  exists s5. split; [exact E5|]. split; [done|]. split.
  - intros k p Hk r Hr. rewrite R5 in Hr. eapply (cs_gone _ _ _ _ _ _ _ C3 k p); [done| |by intros [? _]|done].
    apply elem_of_xa_indices. by exists p.
  - intros q Hq. rewrite R5. by apply (cs_other _ _ _ _ _ _ _ C3).
  - rewrite P5. simpl. unfold pci. simpl. by rewrite P3.
  - by rewrite (kp_bar0 _ _ _ (keeps_device_put L_all _ _ _ E5)).
  - intros d' Hd'. rewrite (D5 d' Hd'). simpl. by rewrite Hr3, Hp3, Hs3.
  - rewrite M5. exact M3.
  - intros Hs. apply (kp_host _ _ _ (keeps_device_put L_all _ _ _ E5)), O3.
    unfold host_ok in *. simpl. by rewrite Hd in Hs.
Qed.
End Teardown.
