(* ===== verification/DriverProbeThms.v ===== *)
(** * Probe acquires everything or nothing

    Each error label of [vams_probe] releases exactly what was acquired before
    it: a failed probe leaves the host as it was, and a successful one leaves a
    bound device that satisfies the driver's invariant. *)

From S2P Require Import Prelude Abi Linux DriverState Driver DriverApi DriverProbe DriverFrame.
From S2P Require Import DriverInv DriverMoves DriverRefs DriverRequests DriverOps DriverTeardown.

Section ProbeThms.
Context {W : Type} `{!Kernel W, !KernelLaws W}.
Implicit Types (s : kstate W).

(** No device: nothing allocated, nothing mapped. *)
Record idle (s : kstate W) : Prop := {
  id_bar0 : k_bar0 s = false;
  id_dev : k_dev s = None;
  id_files : k_files s = ∅;
  id_requests : k_requests s = ∅;
  id_mappings : k_mappings s = ∅;
  id_user : k_pinned s = 0 /\ k_sg_tables s = 0 /\ k_dma_maps s = 0;
  id_pci : k_pci s = no_pci;
  id_host : k_host s = no_host;
}.

(** A device with probe's reference only, before any command. *)
Definition pristine (removing : bool) (d : vams_device) : Prop :=
  vd_removing d = removing /\ vd_refs d = 1 /\ vd_requests d = ∅ /\ vd_pending_requests d = 0 /\ vd_sq_tail d = 0 /\
  vd_cq_head d = 0 /\ vd_poll_scheduled d = false /\ vd_reset_scheduled d = false.

Section From.
Context (s0 : kstate W) (Hidle : idle s0).

(** The character device is not registered yet. *)
Definition nameless (d : vams_device) : Prop := vd_instance d < 0 /\ vd_misc_name d = false.

(** In the middle of a probe that started in [s0]. *)
Definition probing (removing bar0 : bool) (pci : pci_resources) (s : kstate W) : Prop :=
  exists w d, s = set_k_world w (set_k_bar0 bar0 (set_k_dev (Some d)
    (set_k_pci pci (set_k_host (host_of d) s0)))) /\
    pristine removing d /\ (removing = false -> pci_misc pci = false -> nameless d).

(** [m] runs to the end within the current stage. *)
Definition in_stage {A} (m : K W A) : Prop :=
  forall r pci s, probing r true pci s -> exists a s', m s = Ok (a, s') /\ probing r true pci s'.

Lemma stage_ret {A} (a : A) : in_stage (mret a).
Proof. intros r pci s H. by exists a, s. Qed.
Lemma stage_bind {A B} (m : K W A) (k : A -> K W B) :
  in_stage m -> (forall a, in_stage (k a)) -> in_stage (m ≫= k).
Proof.
  intros Hm Hk r pci s H. destruct (Hm r pci s H) as (a & s1 & E & H1). krun E. by apply Hk.
Qed.
Lemma stage_read_device : in_stage read_device.
Proof. intros r pci s (w & d & -> & Hd). eexists d, _. split; [done|]. by exists w, d. Qed.
Lemma stage_update_device u :
  (forall r d, pristine r d -> pristine r (u d) /\ vd_instance (u d) = vd_instance d /\
     vd_misc_name (u d) = vd_misc_name d) -> in_stage (update_device u).
Proof.
  intros Hu r pci s (w & d & -> & Hd & Hn). eexists tt, _. split; [done|]. exists w, (u d).
  destruct (Hu r d Hd) as (Hp & Hi & Hm). unfold host_of, nameless. by rewrite Hi, Hm.
Qed.
Lemma stage_in_world {A} (g : W -> A * W) : in_stage (in_world g).
Proof.
  intros r pci s (w & d & -> & Hd). eexists _, _. split; [apply run_in_world|]. by eexists _, d.
Qed.
Lemma stage_readl o : in_stage (vams_readl o).
Proof.
  intros r pci s H. destruct (stage_in_world (ioread32 o) r pci s H) as (a & s' & E & H').
  exists a, s'. split; [|done]. unfold vams_readl. by destruct H as (w & d & -> & _).
Qed.
Lemma stage_writel o v : in_stage (vams_writel o v).
Proof. intros r pci s (w & d & -> & Hd). eexists tt, _. split; [done|]. by eexists _, d. Qed.
Lemma stage_when b m : in_stage m -> in_stage (when b m).
Proof. destruct b; [done|]. intros _. apply stage_ret. Qed.
End From.
End ProbeThms.

(** [stage] walks over a program that stays within its stage. *)
Ltac stage :=
  lazymatch goal with
  | |- in_stage _ (mbind _ _) => apply stage_bind; [|intros ?]; stage
  | |- in_stage _ (mret _) => apply stage_ret
  | |- in_stage _ read_device => apply stage_read_device
  | |- in_stage _ (update_device _) => apply stage_update_device; by intros ? ? (? & ? & ? & ? & ? & ? & ? & ?)
  | |- in_stage _ (in_world _) => apply stage_in_world
  | |- in_stage _ (vams_readl _) => apply stage_readl
  | |- in_stage _ (vams_writel _ _) => apply stage_writel
  | |- in_stage _ (when _ _) => apply stage_when; stage
  | |- in_stage _ (if ?b then _ else _) => destruct b; stage
  | |- _ => idtac
  end.

Section ProbeSteps.
Context {W : Type} `{!Kernel W, !KernelLaws W}.
Implicit Types (s : kstate W).
Context (s0 : kstate W) (Hidle : idle s0).
#[local] Abbreviation probing := (probing s0).
#[local] Abbreviation in_stage := (in_stage s0).

Lemma stage_mask_interrupts : in_stage vams_mask_interrupts.
Proof. unfold vams_mask_interrupts. stage. Qed.
Lemma stage_disable_queues : in_stage vams_disable_queues.
Proof. unfold vams_disable_queues. stage. Qed.
Lemma stage_validate_endpoint : in_stage vams_validate_endpoint.
Proof. unfold vams_validate_endpoint. stage. Qed.
Lemma stage_set_dma_mask : in_stage vams_set_dma_mask.
Proof. unfold vams_set_dma_mask. stage. Qed.
Lemma stage_configure_queues : in_stage vams_configure_queues.
Proof. unfold vams_configure_queues. stage; apply stage_disable_queues. Qed.
Lemma stage_cancel_requests status stale : in_stage (vams_cancel_requests status stale).
Proof.
  intros r pci s (w & d & -> & Hd). unfold vams_cancel_requests. rewrite (run_bind _ _ _ d _) by done.
  pose proof Hd as ((_ & _ & Hr & _) & _). rewrite Hr, map_size_empty. cbn [cancel_from].
  erewrite run_bind; [|unfold cancel_find; rewrite (run_bind _ _ _ d _) by done; by rewrite Hr].
  eexists tt, _. split; [done|]. by exists w, d.
Qed.

(** ** What is held after each stage *)

Definition enabled_pci : pci_resources := set_pci_enabled true no_pci.
Definition region_pci : pci_resources := set_pci_region true enabled_pci.
Definition rings_pci (q : bool) : pci_resources := set_pci_cq q (set_pci_sq q region_pci).
Definition vectors_pci (q : bool) : pci_resources := set_pci_vectors true (rings_pci q).
Definition cq_irq_pci (q : bool) : pci_resources := set_pci_cq_irq true (vectors_pci q).
Definition async_irq_pci (q : bool) : pci_resources := set_pci_async_irq true (cq_irq_pci q).
Definition active_pci (q : bool) : pci_resources :=
  set_pci_master true (set_pci_drvdata true (async_irq_pci q)).
(** A bound device; [q]: with DMA rings. *)
Definition bound_pci (q : bool) : pci_resources := set_pci_misc true (active_pci q).

(** ** The error labels *)

(** [label] releases everything: only the world differs from the start. *)
Definition unwinds (bar0 : bool) (pci : pci_resources) (label : rc -> K W rc) : Prop :=
  forall ret r s, probing r bar0 pci s -> exists w, label ret s = Ok (ret, set_k_world w s0).

Lemma unwinds_pci bar0 pci u label :
  pci_misc (u pci) = pci_misc pci -> unwinds bar0 (u pci) label ->
  unwinds bar0 pci (fun ret => _ ← update_pci u; label ret).
Proof.
  intros Hu Hl ret r s (w & d & -> & Hd). apply (Hl ret r). exists w, d. by rewrite Hu.
Qed.

Lemma unwinds_stage {A} pci (m : K W A) label :
  in_stage m -> unwinds true pci label -> unwinds true pci (fun ret => _ ← m; label ret).
Proof. intros Hm Hl ret r s H. destruct (Hm r pci s H) as (a & s1 & E & H1). krun E. by apply (Hl ret r). Qed.

Lemma unwinds_free_device : unwinds false no_pci err_free_device.
Proof.
  intros ret r s (w & d & -> & Hd). exists w. unfold err_free_device.
  destruct Hd as ((_ & Hrefs & _) & _). rewrite (run_bind _ _ _ tt (set_k_world w s0)); [done|].
  rewrite (run_device_put _ d) by done. unfold put_device. rewrite Hrefs. simpl.
  rewrite release_host_of. destruct Hidle as [Hb Hd _ _ _ _ Hp Ho]. destruct s0; simpl in *. by subst.
Qed.
Lemma unwinds_disable_device : unwinds false enabled_pci err_disable_device.
Proof. apply unwinds_pci; [done|]. apply unwinds_free_device. Qed.
Lemma unwinds_release_region : unwinds false region_pci err_release_region.
Proof. apply unwinds_pci; [done|]. apply unwinds_disable_device. Qed.
Lemma unwinds_iounmap : unwinds true region_pci err_iounmap.
Proof.
  intros ret r s (w & d & -> & Hd). unfold err_iounmap. kpure.
  apply (unwinds_release_region ret r). by exists w, d.
Qed.
Lemma unwinds_free_queues q : unwinds true (rings_pci q) err_free_queues.
Proof. apply unwinds_pci; [done|]. apply unwinds_iounmap. Qed.
Lemma unwinds_free_vectors q : unwinds true (vectors_pci q) err_free_vectors.
Proof. apply unwinds_pci; [done|]. apply (unwinds_free_queues q). Qed.
Lemma unwinds_free_cq_irq q : unwinds true (cq_irq_pci q) err_free_cq_irq.
Proof.
  apply unwinds_pci; [done|]. apply unwinds_stage; [stage|].
  apply unwinds_stage; [apply stage_cancel_requests|]. apply (unwinds_free_vectors q).
Qed.
Lemma unwinds_free_async_irq q : unwinds true (async_irq_pci q) err_free_async_irq.
Proof. apply unwinds_pci; [done|]. apply (unwinds_free_cq_irq q). Qed.
Lemma unwinds_clear_master q : unwinds true (active_pci q) err_clear_master.
Proof.
  apply unwinds_stage; [apply stage_mask_interrupts|].
  apply unwinds_stage; [apply stage_disable_queues|]. apply unwinds_pci; [done|].
  apply (unwinds_free_async_irq q).
Qed.
Lemma unwinds_deregister_misc q : unwinds true (bound_pci q) err_deregister_misc.
Proof.
  intros ret r s (w & d & -> & (_ & Hd) & _). unfold err_deregister_misc.
  rewrite (run_bind _ _ _ tt _) by done. rewrite (run_bind _ _ _ _ _ (run_update_pci _ _)).
  apply (unwinds_stage (active_pci q) (update_device (set_vd_poll_scheduled false)) err_clear_master)
    with true; [stage|apply unwinds_clear_master|].
  exists w, (set_vd_removing true d). split; [done|]. by split.
Qed.

(** ** The stages *)

(** From here probe binds the device or releases everything. *)
Definition all_or_nothing (r : result (rc * kstate W)) : Prop :=
  exists ret s', r = Ok (ret, s') /\
    if rc_is_ok ret then exists q, probing false true (bound_pci q) s'
    else exists w, s' = set_k_world w s0.

Definition acquires (bar0 : bool) (pci : pci_resources) (m : K W rc) : Prop :=
  forall s, probing false bar0 pci s -> all_or_nothing (m s).

Lemma acquires_goto bar0 pci ret label next :
  unwinds bar0 pci label -> acquires bar0 pci next -> acquires bar0 pci (or_goto ret label next).
Proof.
  intros Hl Hn s H. unfold or_goto. destruct (rc_is_ok ret) eqn:E; [by apply Hn|].
  destruct (Hl ret _ s H) as [w Ew]. exists ret, (set_k_world w s0). rewrite E. eauto.
Qed.

Lemma acquires_label bar0 pci label e :
  unwinds bar0 pci label -> acquires bar0 pci (label (rc_err e)).
Proof.
  intros Hl s H. destruct (Hl (rc_err e) _ s H) as [w Ew]. exists (rc_err e), (set_k_world w s0).
  split; [done|]. by exists w.
Qed.

Lemma acquires_stage {A} pci (m : K W A) k :
  in_stage m -> (forall a, acquires true pci (k a)) -> acquires true pci (m ≫= k).
Proof.
  intros Hm Hk s H. destruct (Hm _ pci s H) as (a & s1 & E & H1). krun E. by apply Hk.
Qed.

Lemma acquires_world {A} bar0 pci (g : W -> A * W) k :
  (forall a, acquires bar0 pci (k a)) -> acquires bar0 pci (in_world g ≫= k).
Proof.
  intros Hk s (w & d & -> & Hd). kpure. apply Hk. by eexists _, d.
Qed.

Lemma acquires_pci bar0 pci u k :
  pci_misc (u pci) = pci_misc pci -> acquires bar0 (u pci) (k tt) ->
  acquires bar0 pci (update_pci u ≫= k).
Proof. intros Hu Hk s (w & d & -> & Hd). apply Hk. exists w, d. by rewrite Hu. Qed.

Context (inject : vams_probe_step -> bool).

Lemma host_nameless d : nameless d -> host_of d = {| h_pdev := 1; h_instances := 0; h_names := 0 |}.
Proof. intros [Hi Hn]. unfold host_of. by rewrite Hn, (proj2 (Z.leb_gt 0 (vd_instance d)) Hi). Qed.

Lemma rc_value_neg e : rc_value (rc_err e) < 0.
Proof. by destruct e. Qed.

(** The states of [vams_register_chardev]. *)
Definition named (w : W) (d : vams_device) (q : bool) (instances names : Z) : kstate W :=
  set_k_world w (set_k_bar0 true (set_k_dev (Some d) (set_k_pci (active_pci q)
    (set_k_host {| h_pdev := 1; h_instances := instances; h_names := names |} s0)))).

Lemma named_probing w d q : pristine false d -> nameless d -> probing false true (active_pci q) (named w d q 0 0).
Proof. intros Hd Hn. exists w, d. unfold named. by rewrite (host_nameless d Hn). Qed.

Lemma chardev_ok q s :
  probing false true (active_pci q) s ->
  exists ret s', vams_register_chardev s = Ok (ret, s') /\
    probing false true (if rc_is_ok ret then bound_pci q else active_pci q) s'.
Proof.
  intros (w & d & -> & Hd & Hn). specialize (Hn eq_refl eq_refl). rewrite (host_nameless d Hn).
  fold (named w d q 0 0). unfold vams_register_chardev. kpure. change (k_world (named _ _ _ _ _)) with w.
  pose proof (ida_alloc_nonneg w) as Hid.
  destruct (ida_alloc w) as [[e|n] w1]; cbn [fst snd] in *.
  { eexists (rc_err e), (named w1 (set_vd_instance (rc_value (rc_err e)) d) q 0 0). split; [done|].
    apply named_probing; [done|]. split; [apply rc_value_neg|apply Hn]. }
  specialize (Hid n eq_refl).
  assert (Hfree : nameless (set_vd_misc_name false (set_vd_instance (-1) d))) by done.
  rewrite (run_bind _ _ _ tt (named w1 d q 1 0)) by done.
  rewrite (run_bind _ _ _ tt (named w1 (set_vd_instance n d) q 1 0)) by done.
  kpure. change (k_world (named _ _ _ _ _)) with w1. destruct (alloc_ok w1) as [[] w2]; cbn [fst snd negb].
  2:{ eexists (rc_err ENOMEM), (named w2 (set_vd_instance (-1) d) q 0 0). split; [done|].
      apply named_probing; [done|]. split; [done|apply Hn]. }
  rewrite (run_bind _ _ _ tt (named w2 (set_vd_instance n d) q 1 1)) by done.
  rewrite (run_bind _ _ _ tt (named w2 (set_vd_misc_name true (set_vd_instance n d)) q 1 1)) by done.
  kpure. change (k_world (named _ _ _ _ _)) with w2. destruct (misc_register w2) as [[|e] w3]; cbn [fst snd].
  2:{ eexists (rc_err e), (named w3 (set_vd_misc_name false (set_vd_instance (-1) d)) q 0 0).
      split; [done|]. by apply named_probing. }
  eexists rc_ok, _. split; [done|]. exists w3, (set_vd_misc_name true (set_vd_instance n d)).
  split; [|by split]. unfold host_of, named. simpl. by rewrite (proj2 (Z.leb_le 0 n) Hid).
Qed.

Lemma acquires_activate q : acquires true (async_irq_pci q) (probe_activate inject).
Proof.
  apply acquires_pci; [done|]. apply acquires_stage; [stage|]. intros d.
  apply acquires_stage; [destruct (has_bits _ _); [apply stage_configure_queues|stage]|].
  intros ret. apply acquires_goto; [apply (unwinds_clear_master q)|].
  apply acquires_stage; [stage|]. intros _. apply acquires_stage; [stage|]. intros _.
  assert (Hlast : acquires true (bound_pci q) (or_goto (vams_maybe_fail_probe inject
    VAMS_PROBE_AFTER_CHARDEV) err_deregister_misc (mret rc_ok))).
  { apply acquires_goto; [apply unwinds_deregister_misc|].
    intros s H. exists rc_ok, s. split; [done|]. by exists q. }
  intros s H. destruct (chardev_ok q s H) as (ret' & s1 & E & H1). krun E. unfold or_goto at 1.
  destruct ret' as [|e]; [|by apply (acquires_label true (active_pci q)); [apply unwinds_clear_master|]].
  by apply Hlast.
Qed.

Lemma acquires_interrupts q : acquires true (rings_pci q) (probe_interrupts inject).
Proof.
  apply acquires_world. intros [e|n]; [apply acquires_label, unwinds_free_queues|].
  apply acquires_pci; [done|]. destruct (n =? VAMS_MSIX_VECTORS); cbn [negb].
  2:{ apply acquires_label, (unwinds_free_vectors q). }
  apply acquires_goto; [apply (unwinds_free_vectors q)|]. apply acquires_world. intros r1.
  apply acquires_goto; [apply (unwinds_free_vectors q)|]. apply acquires_pci; [done|].
  apply acquires_goto; [apply (unwinds_free_cq_irq q)|]. apply acquires_world. intros r2.
  apply acquires_goto; [apply (unwinds_free_cq_irq q)|]. apply acquires_pci; [done|].
  apply acquires_goto; [apply (unwinds_free_async_irq q)|]. apply (acquires_activate q).
Qed.

Lemma alloc_queues_ok s :
  probing false true region_pci s ->
  exists ret s', vams_alloc_queues s = Ok (ret, s') /\
    probing false true (rings_pci (rc_is_ok ret)) s'.
Proof.
  intros (w & d & -> & Hd). unfold vams_alloc_queues. kpure. cbn [k_world set_k_world set_k_dev set_k_pci].
  destruct (dma_alloc_coherent _ w) as [[sq|] w1]; cbn [fst snd]; [|by eexists _, _; split; [|exists w1, d]].
  rewrite (run_bind _ _ _ _ _ (run_update_pci _ _)), (run_bind _ _ _ tt _) by done.
  kpure. cbn [k_world set_k_world set_k_dev set_k_pci]. set (d1 := set_vd_sq_dma sq d).
  destruct (dma_alloc_coherent _ w1) as [[cq|] w2]; cbn [fst snd].
  2:{ eexists (rc_err ENOMEM), _. split; [done|]. by exists w2, d1. }
  rewrite (run_bind _ _ _ _ _ (run_update_pci _ _)), (run_bind _ _ _ tt _) by done.
  set (d2 := set_vd_cq_dma cq d1). destruct (_ || _).
  - eexists (rc_err EFAULT), _. split; [done|]. by exists w2, d2.
  - eexists rc_ok, _. split; [done|]. by exists w2, d2.
Qed.

Lemma acquires_rings (b : bool) k :
  (forall e, acquires true region_pci (k (rc_err e))) ->
  (forall q, acquires true (rings_pci q) (k rc_ok)) ->
  acquires true region_pci ((if b then vams_alloc_queues else mret rc_ok) ≫= k).
Proof.
  intros Hbad Hok s H. destruct b; [|by apply (Hok false)].
  destruct (alloc_queues_ok s H) as (ret & s1 & E & H1). krun E.
  destruct ret as [|e]; [by apply (Hok true)|by apply Hbad].
Qed.

Lemma acquires_mapped : acquires true region_pci (probe_mapped inject).
Proof.
  apply acquires_goto; [apply unwinds_iounmap|].
  apply acquires_stage; [apply stage_mask_interrupts|]. intros _.
  apply acquires_stage; [stage|]. intros _.
  apply acquires_stage; [apply stage_validate_endpoint|]. intros r1.
  apply acquires_goto; [apply unwinds_iounmap|].
  apply acquires_stage; [apply stage_set_dma_mask|]. intros r2.
  apply acquires_goto; [apply unwinds_iounmap|]. apply acquires_goto; [apply unwinds_iounmap|].
  apply acquires_stage; [stage|]. intros d. apply acquires_rings.
  - intros e. apply (acquires_label true region_pci err_iounmap e), unwinds_iounmap.
  - intros q. unfold or_goto at 1. change (rc_is_ok rc_ok) with true. cbv iota.
    apply acquires_goto; [apply unwinds_free_queues|]. apply acquires_interrupts.
Qed.

Lemma probe_outcome : all_or_nothing (vams_probe inject s0).
Proof.
  unfold vams_probe. kpure. destruct (alloc_ok (k_world s0)) as [[] w]; cbn [fst snd negb].
  2:{ exists (rc_err ENOMEM), (set_k_world w s0). split; [done|]. by exists w. }
  kpure. unfold update_host. kpure.
  match goal with |- all_or_nothing (?m ?s) => cut (acquires false no_pci m) end.
  { intros Hm. apply Hm. exists w, new_device. split; [|done].
    destruct Hidle as [Hb Hd _ _ _ _ Hp Ho]. destruct s0; simpl in *. by subst. }
  apply acquires_world. intros r1. apply acquires_goto; [apply unwinds_free_device|].
  apply acquires_pci; [done|]. apply acquires_goto; [apply unwinds_disable_device|].
  intros s Hs. kpure. kpure. revert s Hs.
  match goal with |- forall s, _ -> all_or_nothing ((if @?b s then ?m1 else ?m2) s) =>
    cut (acquires false enabled_pci m1 /\ acquires false enabled_pci m2) end.
  { intros [H1 H2] s Hs. destruct (_ || _); auto. }
  split; [apply acquires_label, unwinds_disable_device|].
  apply acquires_world. intros r2. apply acquires_goto; [apply unwinds_disable_device|].
  apply acquires_pci; [done|]. apply acquires_goto; [apply unwinds_release_region|].
  apply acquires_world. intros [|]; cbn [negb]; [|apply acquires_label, unwinds_release_region].
  intros s (w' & d & -> & Hd). kpure. apply acquires_mapped. by exists w', d.
Qed.

(** A bound device starts in the invariant. *)
Lemma probing_dinv q s :
  probing false true (bound_pci q) s -> dinv [] [] true [] [] [] [] [] 0 s.
Proof.
  intros (w & d & -> & (Hr & Hrefs & Hreqs & Hp & Ht & Hh & _) & _).
  destruct Hidle as [Hb Hd Hf Hrq Hm (H1 & H2 & H3) Hpci _].
  split; unfold outstanding; simpl; rewrite ?Hf, ?Hrq, ?Hm, ?Hreqs; try done;
    try (by intros ? ?%not_elem_of_nil); try (by intros ? ? ?%not_elem_of_nil).
  - intros p. rewrite lookup_empty. unfold request_refs, outstanding, table_refs. simpl.
    by rewrite Hf, Hreqs, hold_empty, msum_empty.
  - intros p. rewrite lookup_empty. unfold mapping_refs. simpl.
    by rewrite Hf, Hrq, !msum_empty.
  - intros p. rewrite lookup_empty. unfold file_refs. simpl. by rewrite Hrq, msum_empty.
  - rewrite Hrefs. by rewrite map_size_empty.
  - intros d' [= <-]. by rewrite Hreqs, Hp, map_size_empty.
  - intros d' [= <-]. rewrite Ht, Hh. lia.
Qed.
End ProbeSteps.
