(* ===== verification/DriverSystem.v ===== *)
(** * The driver as a concurrent system

    Processes hold file descriptors and run system calls; interrupts, work items
    and the removal of the device happen in between.  A step is one critical
    section: a system call that sleeps, or that leaves a reference behind in a
    local variable, is two steps with a thread in between, and so is [vams_poll],
    which takes no lock between its check and its register read.  The loop of
    [vams_reset_work] takes no lock the interrupt handlers take: it is one step
    for each move of the iterator, each look at the request it stands at and each
    removal, and everything that does not need [submit_lock] can run in between.
    [enabled] says when the kernel can take a step: an ioctl runs on an open
    descriptor, a second ioctl that needs the file's mutex waits for the first,
    [release] comes after the last ioctl of the file, whoever takes [submit_lock]
    waits for the reset work to end, and interrupts and work items run while they
    are installed or queued. *)

From S2P Require Import Prelude Abi Linux DriverState Driver DriverApi DriverProbe.

(** A system call between its two halves. *)
Inductive thread : Type :=
  | T_submit (f p : nat)   (* holds the file's mutex *)
  | T_wait (f p : nat) (output : vams_ioc_wait)
  | T_nop (f p : nat) (nop : vams_ioc_nop)
  | T_poll (f : nat) (mask : Z).   (* about to read the ring head *)

Definition thread_file (t : thread) : nat :=
  match t with T_submit f _ | T_wait f _ _ | T_nop f _ _ | T_poll f _ => f end.
Definition thread_submit (t : thread) : list (nat * nat) :=
  match t with T_submit f p => [(f, p)] | _ => [] end.
(** The request reference a sleeping thread holds. *)
Definition thread_loan (t : thread) : list nat :=
  match t with T_submit _ _ | T_poll _ _ => [] | T_wait _ p _ | T_nop _ p _ => [p] end.

(** Where the loop of a running [vams_reset_work] stands; [request] in
    [R_check] is a pointer without a reference. *)
Inductive reset_pc : Type :=
  | R_find (after : option Z)
  | R_check (command_id : Z) (request : nat)
  | R_erase (command_id : Z).

Inductive phase : Type := P_bound | P_removing | P_quiesced | P_removed.

Record system (W : Type) : Type := {
  sy_k : kstate W;
  sy_open : list nat;   (* open descriptors, by the file they refer to *)
  sy_threads : list thread;
  sy_phase : phase;
  sy_reset : option reset_pc;   (* the reset work is running and holds [submit_lock] *)
}.
Arguments Build_system {W}.
Arguments sy_k {W}.
Arguments sy_open {W}.
Arguments sy_threads {W}.
Arguments sy_phase {W}.
Arguments sy_reset {W}.

Inductive event (W : Type) : Type :=
  | E_open
  | E_release (i : nat)   (* the descriptor at this position *)
  | E_register (f : nat) (argp : option vams_ioc_buffer_register)
  | E_unregister (f : nat) (argp : option vams_ioc_buffer_unregister)
  | E_submit (f : nat) (argp : option vams_ioc_submit)
  | E_submit_end (i : nat)   (* the thread at this position *)
  | E_wait (f : nat) (argp : option vams_ioc_wait)
  | E_wait_end (i : nat) (how : waited)
  | E_nop (f : nat) (argp : option vams_ioc_nop)
  | E_nop_end (i : nat) (how : waited)
  | E_info (f : nat) (argp : option vams_ioc_info)
  | E_poll (f : nat)
  | E_poll_end (i : nat)
  | E_cq_irq
  | E_async_irq
  | E_poll_work
  | E_reset_work   (* up to its loop *)
  | E_reset_step
  | E_remove   (* the next phase of [vams_remove] *)
  | E_world (w : W).   (* the device or the rest of the kernel runs *)
Arguments E_open {W}.
Arguments E_release {W}.
Arguments E_register {W}.
Arguments E_unregister {W}.
Arguments E_submit {W}.
Arguments E_submit_end {W}.
Arguments E_wait {W}.
Arguments E_wait_end {W}.
Arguments E_nop {W}.
Arguments E_nop_end {W}.
Arguments E_info {W}.
Arguments E_poll {W}.
Arguments E_poll_end {W}.
Arguments E_cq_irq {W}.
Arguments E_async_irq {W}.
Arguments E_poll_work {W}.
Arguments E_reset_work {W}.
Arguments E_reset_step {W}.
Arguments E_remove {W}.
Arguments E_world {W}.

Section System.
Context {W : Type} `{!Kernel W}.
Implicit Types (sy : system W).

Definition submits (l : list thread) : list (nat * nat) := l ≫= thread_submit.
Definition loans (l : list thread) : list nat := l ≫= thread_loan.

(** Nobody holds the mutex of [f]. *)
Definition unlocked (sy : system W) (f : nat) : bool :=
  bool_decide (f ∉ (submits (sy_threads sy)).*1).
Definition opened (sy : system W) (f : nat) : bool := bool_decide (f ∈ sy_open sy).
(** No system call is in progress on [f]. *)
Definition unused (sy : system W) (f : nat) : bool :=
  bool_decide (f ∉ thread_file <$> sy_threads sy).

(** The reset work is not running: [submit_lock] is free between steps. *)
Definition submit_free (sy : system W) : bool :=
  match sy_reset sy with None => true | Some _ => false end.

Definition request_done (s : kstate W) (p : nat) : bool :=
  from_option r_done false (k_requests s !! p).

Definition wait_possible (s : kstate W) (p : nat) (how : waited) : bool :=
  match how with w_completed => request_done s p | _ => true end.

Definition enabled (ev : event W) (sy : system W) : bool :=
  let s := sy_k sy in
  match ev with
  | E_open => pci_misc (k_pci s) && submit_free sy
  | E_release i => from_option (unused sy) false (sy_open sy !! i)
  | E_register f _ | E_submit f _ => opened sy f && unlocked sy f && submit_free sy
  | E_unregister f _ | E_wait f _ => opened sy f && unlocked sy f
  | E_nop f _ | E_info f _ => opened sy f && submit_free sy
  | E_poll f => opened sy f
  | E_submit_end i =>
      match sy_threads sy !! i with Some (T_submit _ _) => true | _ => false end
  | E_wait_end i how =>
      match sy_threads sy !! i with
      | Some (T_wait f p o) =>
          unlocked sy f && ((iw_timeout_ms o =? 0) || wait_possible s p how)
      | _ => false
      end
  | E_nop_end i how =>
      match sy_threads sy !! i with Some (T_nop _ p _) => wait_possible s p how | _ => false end
  | E_poll_end i =>
      match sy_threads sy !! i with Some (T_poll _ _) => true | _ => false end
  | E_cq_irq => pci_cq_irq (k_pci s)
  | E_async_irq => pci_async_irq (k_pci s)
  | E_poll_work => from_option vd_poll_scheduled false (k_dev s)
  | E_reset_work => from_option vd_reset_scheduled false (k_dev s) && submit_free sy
  | E_reset_step => negb (submit_free sy)
  | E_remove => match sy_phase sy with P_removed => false | _ => submit_free sy end
  | E_world _ => true
  end.

(** ** Steps *)

Definition set_state (s : kstate W) (sy : system W) : system W :=
  Build_system s (sy_open sy) (sy_threads sy) (sy_phase sy) (sy_reset sy).
Definition set_open (l : list nat) (sy : system W) : system W :=
  Build_system (sy_k sy) l (sy_threads sy) (sy_phase sy) (sy_reset sy).
Definition set_threads (l : list thread) (sy : system W) : system W :=
  Build_system (sy_k sy) (sy_open sy) l (sy_phase sy) (sy_reset sy).
Definition set_phase (p : phase) (sy : system W) : system W :=
  Build_system (sy_k sy) (sy_open sy) (sy_threads sy) p (sy_reset sy).
Definition set_reset (pc : option reset_pc) (sy : system W) : system W :=
  Build_system (sy_k sy) (sy_open sy) (sy_threads sy) (sy_phase sy) pc.

(** Run [m] on the driver state, then [k] on the rest. *)
Definition call {A} (m : K W A) (k : A -> system W -> system W) (sy : system W)
    : result (system W) :=
  match m (sy_k sy) with
  | Ok (a, s') => Ok (k a (set_state s' sy))
  | Fault => Fault
  end.

Definition spawn (t : thread) (sy : system W) : system W := set_threads (t :: sy_threads sy) sy.

(** A queued work item leaves the queue before it runs. *)
Definition run_poll_work : K W unit :=
  _ ← update_device (set_vd_poll_scheduled false); vams_cq_poll_work.
Definition run_reset_begin : K W bool :=
  _ ← update_device (set_vd_reset_scheduled false); reset_begin.

(** The next step of the loop of the reset work. *)
Definition reset_step (pc : reset_pc) : K W (option reset_pc) :=
  match pc with
  | R_find after =>
      found ← cancel_find after;
      mret match found with Some (id, p) => Some (R_check id p) | None => None end
  | R_check id p =>
      skips ← cancel_skips true p;
      mret (Some (if negb skips then R_erase id else R_find (Some id)))
  | R_erase id => _ ← cancel_erase (rc_err ECANCELED) id; mret (Some (R_find (Some id)))
  end.

Definition remove_step (p : phase) : K W unit * phase :=
  match p with
  | P_bound => (remove_begin, P_removing)
  | P_removing => (remove_quiesce, P_quiesced)
  | _ => (remove_end, P_removed)
  end.

Definition run_event (ev : event W) (sy : system W) : result (system W) :=
  match ev with
  | E_open => call vams_open (fun res sy =>
      match res with inl _ => sy | inr f => set_open (f :: sy_open sy) sy end) sy
  | E_release i =>
      match sy_open sy !! i with
      | Some f => call (vams_release f) (fun _ sy => set_open (delete i (sy_open sy)) sy) sy
      | None => Fault
      end
  | E_register f argp => call (vams_ioctl_buffer_register f argp) (fun _ sy => sy) sy
  | E_unregister f argp => call (vams_ioctl_buffer_unregister f argp) (fun _ sy => sy) sy
  | E_submit f argp => call (submit_begin f argp) (fun res sy =>
      match res with inl _ => sy | inr (p, _) => spawn (T_submit f p) sy end) sy
  | E_submit_end i =>
      match sy_threads sy !! i with
      | Some (T_submit f p) =>
          call (submit_end f p) (fun _ sy => set_threads (delete i (sy_threads sy)) sy) sy
      | _ => Fault
      end
  | E_wait f argp => call (wait_begin f argp) (fun res sy =>
      match res, argp with inr p, Some o => spawn (T_wait f p o) sy | _, _ => sy end) sy
  | E_wait_end i how =>
      match sy_threads sy !! i with
      | Some (T_wait f p o) =>
          call (wait_end f p o how) (fun _ sy => set_threads (delete i (sy_threads sy)) sy) sy
      | _ => Fault
      end
  | E_nop f argp => call (nop_begin argp) (fun res sy =>
      match res, argp with inr p, Some n => spawn (T_nop f p n) sy | _, _ => sy end) sy
  | E_nop_end i how =>
      match sy_threads sy !! i with
      | Some (T_nop f p n) =>
          call (nop_end p n how) (fun _ sy => set_threads (delete i (sy_threads sy)) sy) sy
      | _ => Fault
      end
  | E_info _ argp => call (vams_ioctl_info argp) (fun _ sy => sy) sy
  | E_poll f => call (poll_check f) (fun '(mask, reads) sy =>
      if reads then spawn (T_poll f mask) sy else sy) sy
  | E_poll_end i =>
      match sy_threads sy !! i with
      | Some (T_poll _ mask) =>
          call (poll_read mask) (fun _ sy => set_threads (delete i (sy_threads sy)) sy) sy
      | _ => Fault
      end
  | E_cq_irq => call vams_cq_irq (fun _ sy => sy) sy
  | E_async_irq => call vams_async_irq (fun _ sy => sy) sy
  | E_poll_work => call run_poll_work (fun _ sy => sy) sy
  | E_reset_work => call run_reset_begin (fun going_on sy =>
      if going_on then set_reset (Some (R_find None)) sy else sy) sy
  | E_reset_step =>
      match sy_reset sy with
      | Some pc => call (reset_step pc) set_reset sy
      | None => Fault
      end
  | E_remove =>
      let '(m, p) := remove_step (sy_phase sy) in call m (fun _ sy => set_phase p sy) sy
  | E_world w => Ok (set_state (set_k_world w (sy_k sy)) sy)
  end.
End System.
