(* ===== verification/DriverThms.v ===== *)
(** * Safety of the driver under every interleaving

    [sys_inv] ties the driver's ownership invariant to the descriptors and the
    sleeping threads of the system: every reference is accounted for.  It holds
    of a freshly bound device and is kept by every step, and from it no step
    faults: no use after free, no access to unmapped registers, no loop without
    end. *)

From S2P Require Import Prelude Abi Linux DriverState Driver DriverApi DriverProbe DriverFrame.
From S2P Require Import DriverInv DriverMoves DriverRefs DriverRequests DriverOps DriverSubmit.
From S2P Require Import DriverFiles DriverBuffers DriverTeardown DriverProbeThms DriverSystem.

Definition bound_in (p : phase) : bool := match p with P_removed => false | _ => true end.

Section Safety.
Context {W : Type} `{!Kernel W, !KernelLaws W}.
Implicit Types (s : kstate W) (sy : system W).

(** ** Phases of removal *)

Definition no_poll (s : kstate W) : Prop := forall d, k_dev s = Some d -> vd_poll_scheduled d = false.
Definition no_reset (s : kstate W) : Prop := forall d, k_dev s = Some d -> vd_reset_scheduled d = false.

(** Mappings are at 64-bit bus addresses. *)
Definition mappings_ok (s : kstate W) : Prop :=
  forall q m, k_mappings s !! q = Some m -> is_u64 (m_dma_addr m).

Definition phase_flags (p : phase) (s : kstate W) : Prop :=
  exists q, match p with
  | P_bound => k_pci s = bound_pci q
  | P_removing => k_pci s = active_pci q /\ going s
  | P_quiesced => k_pci s = set_pci_master false (active_pci q) /\ going s /\ no_poll s
  | P_removed => k_pci s = no_pci /\ k_bar0 s = false /\ going s /\ no_poll s /\ no_reset s
  end.

Definition phase_ok (p : phase) (s : kstate W) : Prop :=
  mappings_ok s /\ phase_flags p s /\ host_ok s.

(** The frame a step may use in a phase. *)
Definition level_ok (lvl : level) (p : phase) : bool :=
  match lvl, p with
  | L_all, _ | L_any, P_bound | L_irq, (P_bound | P_removing | P_quiesced) => true
  | _, _ => false
  end.

Lemma kept_no_poll lvl s s' : lvl <> L_any -> kept lvl s s' -> no_poll s -> no_poll s'.
Proof.
  intros Hl [_ _ D _ _] Hn d' Hd'. destruct (D d' Hd') as (d & Hd & _ & _ & Hf).
  destruct lvl; [destruct Hf as [Hf _]|..]; [..|done]; rewrite Hf; by apply Hn.
Qed.

Lemma kept_no_reset s s' : kept L_all s s' -> no_reset s -> no_reset s'.
Proof.
  intros [_ _ D _ _] Hn d' Hd'. destruct (D d' Hd') as (d & Hd & _ & _ & _ & Hf). rewrite Hf. by apply Hn.
Qed.

Lemma mapped_ok s s' :
  mapped_from (k_mappings s) (k_mappings s') -> mappings_ok s -> mappings_ok s'.
Proof.
  intros Hf Hm q m' Hq. destruct (Hf q m' Hq) as [?|(m & Hq' & ->)]; [done|]. by eapply Hm.
Qed.

Lemma phase_kept lvl p s s' :
  level_ok lvl p = true -> kept lvl s s' -> phase_ok p s -> phase_ok p s'.
Proof.
  intros Hl Hk (Hm & [q Hp] & Ho). split; [by eapply mapped_ok; [apply (kp_mappings _ _ _ Hk)|]|].
  split; [|by apply (kp_host _ _ _ Hk)]. exists q. rewrite (kp_pci _ _ _ Hk), (kp_bar0 _ _ _ Hk).
  destruct p; [done|..]; destruct lvl; try done;
    repeat match goal with H : _ /\ _ |- _ => destruct H end; split_and!;
    eauto using kept_going, kept_no_reset; by eapply (kept_no_poll _ s); [|exact Hk|].
Qed.

Lemma host_same s s' d d' :
  host_ok s -> k_dev s = Some d -> k_host s' = k_host s -> k_dev s' = Some d' ->
  vd_instance d' = vd_instance d -> vd_misc_name d' = vd_misc_name d -> host_ok s'.
Proof.
  unfold host_ok. intros Ho Hd -> -> Hi Hn. rewrite Ho, Hd. simpl. unfold host_of. by rewrite Hi, Hn.
Qed.

(** ** The invariant *)

Record sys_inv (sy : system W) : Prop := {
  si_dinv : dinv (sy_open sy) (submits (sy_threads sy)) (bound_in (sy_phase sy)) (sy_open sy)
              (loans (sy_threads sy)) [] [] [] 0 (sy_k sy);
  si_threads t : t ∈ sy_threads sy -> thread_file t ∈ sy_open sy;
  si_locks : NoDup (submits (sy_threads sy)).*1;
  si_phase : phase_ok (sy_phase sy) (sy_k sy);
  si_reset : submit_free sy = false -> sy_phase sy = P_bound;
}.

(** From [sy] the step returns, in the invariant. *)
Definition safe (r : result (system W)) : Prop := exists sy', r = Ok sy' /\ sys_inv sy'.

(** The driver state changes, the rest does not. *)
Lemma safe_call {A} (m : K W A) lvl sy :
  sys_inv sy -> level_ok lvl (sy_phase sy) = true -> Keeps lvl m ->
  (exists a s', m (sy_k sy) = Ok (a, s') /\
     dinv (sy_open sy) (submits (sy_threads sy)) (bound_in (sy_phase sy)) (sy_open sy)
       (loans (sy_threads sy)) [] [] [] 0 s') ->
  safe (call m (fun _ sy => sy) sy).
Proof.
  intros [Hd Ht Hl Hp Hrs] Hlvl Hk (a & s' & E & Hd'). eexists. unfold call. rewrite E.
  split; [done|]. split; simpl; auto. eapply phase_kept; eauto.
Qed.

(** ** Threads *)

Lemma submits_cons t l : submits (t :: l) = thread_submit t ++ submits l.
Proof. done. Qed.
Lemma loans_cons t l : loans (t :: l) = thread_loan t ++ loans l.
Proof. done. Qed.

Lemma submits_delete l i t : l !! i = Some t -> submits l ≡ₚ thread_submit t ++ submits (delete i l).
Proof. intros Hi. unfold submits. by rewrite (delete_Permutation l i t Hi) at 1. Qed.
Lemma loans_delete l i t : l !! i = Some t -> loans l ≡ₚ thread_loan t ++ loans (delete i l).
Proof. intros Hi. unfold loans. by rewrite (delete_Permutation l i t Hi) at 1. Qed.

(** A thread ends: its file's mutex and its reference are free again. *)
Lemma sys_inv_end sy i t s' :
  sys_inv sy -> sy_threads sy !! i = Some t -> phase_ok (sy_phase sy) s' ->
  dinv (sy_open sy) (submits (delete i (sy_threads sy))) (bound_in (sy_phase sy)) (sy_open sy)
    (loans (delete i (sy_threads sy))) [] [] [] 0 s' ->
  sys_inv (set_threads (delete i (sy_threads sy)) (set_state s' sy)).
Proof.
  intros [Hd Ht Hl Hp Hrs] Hi Hp' Hd'. split; simpl; auto.
  - intros t' Ht'. apply Ht. rewrite (delete_Permutation _ _ _ Hi). by right.
  - rewrite (submits_delete _ _ _ Hi) in Hl. rewrite fmap_app in Hl. by apply NoDup_app in Hl as (_ & _ & ?).
Qed.

(** A thread starts. *)
Lemma sys_inv_spawn sy t s' :
  sys_inv sy -> thread_file t ∈ sy_open sy -> NoDup (submits (t :: sy_threads sy)).*1 ->
  phase_ok (sy_phase sy) s' ->
  dinv (sy_open sy) (submits (t :: sy_threads sy)) (bound_in (sy_phase sy)) (sy_open sy)
    (loans (t :: sy_threads sy)) [] [] [] 0 s' ->
  sys_inv (spawn t (set_state s' sy)).
Proof.
  intros [Hd Ht Hl Hp Hrs] Hf Hn Hp' Hd'. split; simpl; auto.
  intros t' [->|Ht']%elem_of_cons; [done|by apply Ht].
Qed.

Lemma opened_spec sy f : opened sy f = true -> f ∈ sy_open sy.
Proof. apply bool_decide_eq_true. Qed.
Lemma unlocked_spec sy f : unlocked sy f = true -> f ∉ (submits (sy_threads sy)).*1.
Proof. apply bool_decide_eq_true. Qed.

(** ** One lemma per kind of step *)

Lemma safe_open sy : sys_inv sy -> enabled E_open sy = true -> safe (run_event E_open sy).
Proof.
  intros Hi He. simpl in He. pose proof Hi as [Hd Ht Hl Hp Hrs].
  assert (Hb : bound_in (sy_phase sy) = true).
  { destruct Hp as (_ & [q Hp] & _). destruct (sy_phase sy); try done. destruct Hp as [Hp _].
    by rewrite Hp in He. }
  destruct (bound_alive _ _ _ _ _ _ _ _ _ _ Hd Hb) as [d Hdev].
  destruct (open_ok _ _ _ _ _ _ _ _ _ d Hd Hdev) as (res & s' & E & Hres). simpl.
  unfold call. rewrite E. eexists. split; [done|].
  pose proof (phase_kept L_all _ _ _ eq_refl (keeps_open L_all _ _ _ E) Hp) as Hp'.
  destruct res as [e|f]; [destruct Hres as [Hd' _]|destruct Hres as (Hd' & _ & _)]; split; simpl; auto.
  intros t Hin. right. by apply Ht.
Qed.

Lemma safe_release sy i : sys_inv sy -> enabled (E_release i) sy = true -> safe (run_event (E_release i) sy).
Proof.
  intros [Hd Ht Hl Hp Hrs] He. simpl in *. destruct (sy_open sy !! i) as [f|] eqn:Ef; [|done].
  simpl in He. apply bool_decide_eq_true in He.
  assert (Hls : f ∉ (submits (sy_threads sy)).*1).
  { intros ([g p] & -> & Hin)%list_elem_of_fmap. apply list_elem_of_bind in Hin as (t & Hin & Hth).
    apply He. destruct t; simpl in Hin; try by apply not_elem_of_nil in Hin.
    apply list_elem_of_singleton in Hin as [= -> ->]. apply list_elem_of_fmap. by eexists (T_submit _ _). }
  destruct (release_ok _ _ _ (delete i (sy_open sy)) _ _ f _ Hd) as (s' & E & Hd'); [|done|].
  { by apply delete_Permutation. }
  unfold call. rewrite E. eexists. split; [done|]. split; simpl; auto.
  - intros t Hin. pose proof (Ht t Hin) as Hf. rewrite (delete_Permutation _ _ _ Ef) in Hf.
    apply elem_of_cons in Hf as [Hf|?]; [|done]. destruct He. apply list_elem_of_fmap. by exists t.
  - eapply (phase_kept L_all); [done| |done]. by eapply keeps_release.
Qed.

Lemma safe_register sy f argp :
  sys_inv sy -> opened sy f = true -> safe (run_event (E_register f argp) sy).
Proof.
  intros Hi Ho. apply (safe_call _ L_all); [done..|by apply keeps_register|].
  apply opened_spec in Ho. pose proof (si_dinv _ Hi) as Hd. destruct argp as [input|].
  - destruct (register_ok _ _ _ _ _ _ _ _ f input _ Hd Ho) as (ret & out & s' & E & Hreg).
    eexists _, s'. split; [done|]. by eapply registration_keeps.
  - by eexists _, (sy_k sy).
Qed.

Lemma safe_unregister sy f argp :
  sys_inv sy -> opened sy f = true -> safe (run_event (E_unregister f argp) sy).
Proof.
  intros Hi Ho. apply (safe_call _ L_all); [done..|apply keeps_unregister|].
  apply opened_spec in Ho. by apply unregister_ok; [apply si_dinv|].
Qed.

(** A submission on a device that may be going away. *)
Lemma phase_scheduler {A} (m : K W A) sy a s' :
  sys_inv sy -> Keeps L_any m -> KeepsGoing m -> m (sy_k sy) = Ok (a, s') ->
  phase_ok (sy_phase sy) s'.
Proof.
  intros Hi Hk Hg E. pose proof (si_phase _ Hi) as Hp. destruct (sy_phase sy) eqn:Eph.
  1: by eapply (phase_kept L_any); [|by eapply Hk|].
  all: assert (going (sy_k sy)) by (destruct Hp as (_ & [q Hp] & _); tauto).
  all: eapply (phase_kept L_all); [done|by eapply Hg|done].
Qed.

Lemma safe_submit sy f argp :
  sys_inv sy -> opened sy f = true -> unlocked sy f = true -> safe (run_event (E_submit f argp) sy).
Proof.
  intros Hi Ho Hu. apply opened_spec in Ho. apply unlocked_spec in Hu. simpl. unfold call.
  destruct (submit_begin_ok _ _ _ _ _ f argp _ (si_dinv _ Hi) Ho) as (res & s' & E & Hres).
  pose proof (phase_scheduler _ sy _ _ Hi (keeps_submit_begin f argp) (going_submit_begin f argp) E)
    as Hp. rewrite E. eexists. split; [done|]. destruct res as [e|[p descriptor]].
  - destruct Hres as [Hd' _]. destruct Hi as [_ Ht Hl _ Hrs]. by split.
  - destruct Hres as [Hd' _]. apply sys_inv_spawn; auto.
    rewrite submits_cons. simpl. apply NoDup_cons. split; [done|apply Hi].
Qed.

Lemma safe_submit_end sy i f p :
  sys_inv sy -> sy_threads sy !! i = Some (T_submit f p) -> safe (run_event (E_submit_end i) sy).
Proof.
  intros Hi Hth. simpl. rewrite Hth. unfold call. pose proof Hi as [Hd Ht Hl Hp Hrs].
  pose proof (submits_delete _ _ _ Hth) as Hs. pose proof (loans_delete _ _ _ Hth) as Hlo.
  simpl in Hs, Hlo.
  destruct (submit_end_ok (sy_open sy) (submits (delete i (sy_threads sy)))
    (bound_in (sy_phase sy)) (loans (delete i (sy_threads sy))) [] f p (sy_k sy))
    as (res & s' & E & Hd').
  - apply (dinv_sub_weaken _ _ _ (submits (sy_threads sy))); [intros x Hx; by rewrite Hs|].
    eapply dinv_perm; [|done|exact Hd]. intros q. by rewrite (hits_perm _ _ q Hlo).
  - rewrite Hs in Hl. simpl in Hl. by apply NoDup_cons in Hl as [? _].
  - rewrite E. eexists. split; [done|]. apply (sys_inv_end sy i (T_submit f p) s'); auto.
    eapply (phase_kept L_all); [done| |done]. by eapply keeps_submit_end.
Qed.

Lemma safe_wait sy f argp :
  sys_inv sy -> opened sy f = true -> safe (run_event (E_wait f argp) sy).
Proof.
  intros Hi Ho. apply opened_spec in Ho. simpl. unfold call.
  destruct (wait_begin_ok _ _ _ _ _ f argp _ (si_dinv _ Hi) Ho) as (res & s' & E & Hres).
  pose proof (phase_kept L_all _ _ _ eq_refl (keeps_wait_begin L_all _ _ _ _ _ E) (si_phase _ Hi)) as Hp.
  rewrite E. eexists. split; [done|]. destruct res as [e|p].
  - destruct Hres as [-> _]. by destruct Hi.
  - destruct Hres as (Hd' & o & vf & -> & _). apply sys_inv_spawn; auto. apply Hi.
Qed.

(** The end of a thread that held a request reference. *)
Lemma loan_ends sy i t p :
  sys_inv sy -> sy_threads sy !! i = Some t -> thread_submit t = [] -> thread_loan t = [p] ->
  dinv (sy_open sy) (submits (delete i (sy_threads sy))) (bound_in (sy_phase sy)) (sy_open sy)
    (p :: loans (delete i (sy_threads sy))) [] [] [] 0 (sy_k sy) /\
  forall f, unlocked sy f = true -> f ∉ (submits (delete i (sy_threads sy))).*1.
Proof.
  intros [Hd Ht Hl Hp Hrs] Hth Hs Hlo. pose proof (submits_delete _ _ _ Hth) as Es.
  pose proof (loans_delete _ _ _ Hth) as El. rewrite Hs in Es. rewrite Hlo in El. simpl in Es, El.
  split.
  - apply (dinv_sub_weaken _ _ _ (submits (sy_threads sy))); [intros x Hx; by rewrite Es|].
    eapply dinv_perm; [|done|exact Hd]. intros q. by rewrite (hits_perm _ _ q El).
  - intros f Hf. apply unlocked_spec in Hf. by rewrite Es in Hf.
Qed.

Lemma safe_wait_end sy i how f p o :
  sys_inv sy -> sy_threads sy !! i = Some (T_wait f p o) -> unlocked sy f = true ->
  safe (run_event (E_wait_end i how) sy).
Proof.
  intros Hi Hth Hu. simpl. rewrite Hth. unfold call.
  destruct (loan_ends sy i _ p Hi Hth eq_refl eq_refl) as [Hd Hls].
  pose proof (si_threads _ Hi _ (list_elem_of_lookup_2 _ _ _ Hth)) as Ho.
  destruct (wait_end_ok _ _ _ _ _ f p o how _ Hd Ho (Hls f Hu)) as (ret & out & s' & E & Hd' & _).
  rewrite E. eexists. split; [done|]. apply (sys_inv_end sy i (T_wait f p o) s'); auto.
  eapply (phase_kept L_all); [done| |apply Hi]. by eapply keeps_wait_end.
Qed.

Lemma open_dev sy f : sys_inv sy -> opened sy f = true -> exists d, k_dev (sy_k sy) = Some d.
Proof.
  intros Hi Ho%opened_spec.
  destruct (open_device _ _ _ _ _ _ _ _ f _ (si_dinv _ Hi) Ho) as (_ & d & _ & Hd). eauto.
Qed.

Lemma safe_nop sy f argp :
  sys_inv sy -> opened sy f = true -> safe (run_event (E_nop f argp) sy).
Proof.
  intros Hi Ho. destruct (open_dev sy f Hi Ho) as [d Hdev]. apply opened_spec in Ho. simpl. unfold call.
  destruct (nop_begin_ok _ _ _ _ _ argp _ d (si_dinv _ Hi) Hdev) as (res & s' & E & Hres).
  pose proof (phase_scheduler _ sy _ _ Hi (keeps_nop_begin argp) (going_nop_begin argp) E) as Hp.
  rewrite E. eexists. split; [done|]. destruct res as [e|p].
  - destruct Hres as [Hd' _]. destruct Hi as [_ Ht Hl _ Hrs]. by split.
  - destruct Hres as [Hd' _]. destruct argp as [n|]; [|done]. apply sys_inv_spawn; auto. apply Hi.
Qed.

Lemma safe_nop_end sy i how f p n :
  sys_inv sy -> sy_threads sy !! i = Some (T_nop f p n) -> safe (run_event (E_nop_end i how) sy).
Proof.
  intros Hi Hth. simpl. rewrite Hth. unfold call.
  destruct (loan_ends sy i _ p Hi Hth eq_refl eq_refl) as [Hd _].
  destruct (nop_end_ok _ _ _ _ _ p n how _ Hd) as (res & s' & E & Hd').
  rewrite E. eexists. split; [done|]. apply (sys_inv_end sy i (T_nop f p n) s'); auto.
  eapply (phase_kept L_all); [done| |apply Hi]. by eapply keeps_nop_end.
Qed.

Lemma safe_info sy f argp : sys_inv sy -> opened sy f = true -> safe (run_event (E_info f argp) sy).
Proof.
  intros Hi Ho. destruct (open_dev sy f Hi Ho) as [d Hdev].
  apply (safe_call _ L_all); [done..|apply keeps_info|]. by eapply info_ok; [apply si_dinv|].
Qed.

Lemma safe_poll sy f : sys_inv sy -> opened sy f = true -> safe (run_event (E_poll f) sy).
Proof.
  intros Hi Ho%opened_spec. simpl. unfold call.
  destruct (poll_check_ok _ _ _ _ _ _ _ _ f _ (si_dinv _ Hi) Ho) as (mask & reads & E). rewrite E.
  destruct Hi as [Hd Ht Hl Hp Hrs]. eexists. split; [done|]. destruct reads; [|by split].
  by apply (sys_inv_spawn sy (T_poll f mask)).
Qed.

(** A poll that passed its check before the device was removed. *)
Definition stale_poll (ev : event W) (sy : system W) : Prop :=
  sy_phase sy = P_removed /\
  exists i f mask, ev = E_poll_end i /\ sy_threads sy !! i = Some (T_poll f mask).

Lemma safe_poll_end sy i f mask :
  sys_inv sy -> sy_threads sy !! i = Some (T_poll f mask) ->
  safe (run_event (E_poll_end i) sy) \/
  run_event (E_poll_end i) sy = Fault /\ stale_poll (E_poll_end i) sy.
Proof.
  intros Hi Hth. pose proof Hi as [Hd Ht Hl Hp Hrs].
  pose proof (Ht _ (list_elem_of_lookup_2 _ _ _ Hth)) as Ho. simpl in Ho |- *. rewrite Hth. unfold call.
  pose proof (poll_read_ok _ _ _ _ _ _ _ _ f mask _ Hd Ho) as Hr.
  destruct (k_bar0 (sy_k sy)) eqn:Hb.
  - left. destruct Hr as (v & w & E). rewrite E. eexists. split; [done|].
    apply (sys_inv_end sy i (T_poll f mask)); [done|done| |].
    + eapply (phase_kept L_all); [done| |exact Hp]. by eapply keeps_poll_read.
    + apply dinv_world.
      apply (dinv_sub_weaken _ _ _ (submits (sy_threads sy)));
        [intros x Hx; by rewrite (submits_delete _ _ _ Hth)|].
      eapply dinv_perm; [|done|exact Hd]. intros q. by rewrite (hits_perm _ _ q (loans_delete _ _ _ Hth)).
  - right. rewrite Hr. split; [done|]. split; [|by eexists _, _, _].
    pose proof (di_bound _ _ _ _ _ _ _ _ _ _ Hd) as Hbo. destruct (sy_phase sy); [..|done]; simpl in Hbo; congruence.
Qed.

(** ** Interrupts and work *)

(** Interrupts are gone before the device is unbound. *)
Lemma irq_bound sy :
  sys_inv sy -> pci_cq_irq (k_pci (sy_k sy)) = true \/ pci_async_irq (k_pci (sy_k sy)) = true ->
  bound_in (sy_phase sy) = true /\ level_ok L_irq (sy_phase sy) = true.
Proof.
  intros Hi Hirq. destruct (si_phase _ Hi) as (_ & [q Hp] & _). destruct (sy_phase sy); try done.
  destruct Hp as [Hp _]. rewrite Hp in Hirq. by destruct Hirq.
Qed.

Lemma safe_cq_irq sy : sys_inv sy -> enabled E_cq_irq sy = true -> safe (run_event E_cq_irq sy).
Proof.
  intros Hi He. destruct (irq_bound sy Hi (or_introl He)) as [Hb _].
  apply (safe_call _ L_all); [done..|apply keeps_cq_irq|].
  by apply cq_irq_ok; [|apply si_dinv].
Qed.

Lemma safe_async_irq sy : sys_inv sy -> enabled E_async_irq sy = true -> safe (run_event E_async_irq sy).
Proof.
  intros Hi He. destruct (irq_bound sy Hi (or_intror He)) as [Hb Hl].
  apply (safe_call _ L_irq); [done..|apply keeps_async_irq|].
  by apply async_irq_ok; [|apply si_dinv].
Qed.

(** A work item off the queue. *)
Lemma dequeue_ok sy d u :
  sys_inv sy -> k_dev (sy_k sy) = Some d ->
  u = set_vd_poll_scheduled false \/ u = set_vd_reset_scheduled false ->
  update_device u (sy_k sy) = Ok (tt, set_k_dev (Some (u d)) (sy_k sy)) /\
  sys_inv (set_state (set_k_dev (Some (u d)) (sy_k sy)) sy).
Proof.
  intros Hi Hd Hu.
  destruct (update_device_ok _ _ _ _ _ _ _ _ _ d u (si_dinv _ Hi) Hd) as [E Hd'];
    [by destruct Hu as [->| ->]..|].
  split; [done|]. destruct Hi as [_ Ht Hl (Hm & [q Hp] & Ho) Hrs]. split; simpl; auto. split; [exact Hm|].
  split; [exists q|by eapply (host_same (sy_k sy)); [| |done..| |]; destruct Hu as [->| ->]].
  unfold going, no_poll, no_reset in *. simpl in *.
  destruct (sy_phase sy); repeat match goal with H : _ /\ _ |- _ => destruct H end; repeat apply conj; try done;
    intros d' [= <-]; destruct Hu as [->| ->]; simpl; auto.
Qed.

Lemma safe_poll_work sy : sys_inv sy -> enabled E_poll_work sy = true -> safe (run_event E_poll_work sy).
Proof.
  intros Hi He. simpl in He. destruct (k_dev (sy_k sy)) as [d|] eqn:Hd; [|done]. simpl in He.
  destruct (dequeue_ok sy d (set_vd_poll_scheduled false) Hi Hd) as [E Hi']; [by left|].
  simpl. unfold call, run_poll_work. krun E. set (sy1 := set_state _ sy) in *.
  change (set_k_dev _ _) with (sy_k sy1).
  assert (Hb : bound_in (sy_phase sy) = true /\ (going (sy_k sy) \/ level_ok L_any (sy_phase sy) = true)).
  { destruct (si_phase _ Hi) as (_ & [q Hp] & _). destruct (sy_phase sy); try by auto.
    - destruct Hp as [_ Hg]. auto.
    - destruct Hp as (_ & _ & Hn). rewrite (Hn d Hd) in He. done.
    - destruct Hp as (_ & _ & _ & Hn & _). rewrite (Hn d Hd) in He. done. }
  destruct Hb as [Hb Hcase].
  destruct (cq_poll_work_ok _ _ _ _ _ _ _ _ _ Hb (si_dinv _ Hi')) as (s' & E' & Hd'). rewrite E'.
  eexists. split; [done|]. destruct Hi' as [_ Ht Hl Hp Hrs]. split; simpl; auto.
  destruct Hcase as [Hg|Hlv].
  - unfold vams_cq_poll_work in E'. rewrite (run_bind _ _ _ (set_vd_poll_scheduled false d) (sy_k sy1)) in E'
      by done. simpl in E'. rewrite (Hg d Hd) in E'. by injection E' as <-.
  - eapply (phase_kept L_any); [done| |done]. by eapply keeps_cq_poll_work.
Qed.

(** A step inside the critical section of the reset work. *)
Lemma sys_inv_reset sy s' pc :
  sys_inv sy -> sy_phase sy = P_bound -> phase_ok (sy_phase sy) s' ->
  dinv (sy_open sy) (submits (sy_threads sy)) (bound_in (sy_phase sy)) (sy_open sy)
    (loans (sy_threads sy)) [] [] [] 0 s' ->
  sys_inv (set_reset pc (set_state s' sy)).
Proof. intros [Hd Ht Hl Hp Hrs] Hb Hp' Hd'. by split; simpl. Qed.

Lemma safe_reset_work sy : sys_inv sy -> enabled E_reset_work sy = true -> safe (run_event E_reset_work sy).
Proof.
  intros Hi [He _]%andb_true_iff. destruct (k_dev (sy_k sy)) as [d|] eqn:Hd; [|done]. simpl in He.
  destruct (dequeue_ok sy d (set_vd_reset_scheduled false) Hi Hd) as [E Hi']; [by right|].
  simpl. unfold call, run_reset_begin. krun E. set (sy1 := set_state _ sy) in *.
  change (set_k_dev _ _) with (sy_k sy1).
  destruct (reset_begin_ok _ _ _ _ _ _ _ _ _ _ (si_dinv _ Hi') eq_refl) as (d' & E' & Hd' & _).
  pose proof (phase_kept L_all _ _ _ eq_refl (keeps_reset_begin L_all _ _ _ E') (si_phase _ Hi')) as Hp'.
  rewrite E'. eexists. split; [done|].
  destruct (vd_removing (set_vd_reset_scheduled false d)) eqn:Erm; cbn [negb].
  - destruct Hi' as [_ Ht Hl Hp Hrs]. by split.
  - apply (sys_inv_reset sy1); [done| |done..].
    destruct (si_phase _ Hi) as (_ & [q Hp] & _). simpl in Erm. destruct (sy_phase sy) eqn:Eph; [done|..];
      exfalso; assert (Hg : going (sy_k sy)) by tauto; by rewrite (Hg d Hd) in Erm.
Qed.

(** The reset work follows a pointer to a request that is gone. *)
Definition stale_cancel (ev : event W) (sy : system W) : Prop :=
  ev = E_reset_step /\
  exists id p, sy_reset sy = Some (R_check id p) /\ k_requests (sy_k sy) !! p = None.

Lemma safe_reset_step sy :
  sys_inv sy -> enabled E_reset_step sy = true ->
  safe (run_event E_reset_step sy) \/
  run_event E_reset_step sy = Fault /\ stale_cancel E_reset_step sy.
Proof.
  intros Hi He. assert (Hb : sy_phase sy = P_bound) by (by apply (si_reset _ Hi), negb_true_iff).
  simpl in He |- *. unfold submit_free in He. destruct (sy_reset sy) as [pc|] eqn:Epc; [|done].
  pose proof (si_dinv _ Hi) as Hd. destruct (bound_alive _ _ _ _ _ _ _ _ _ _ Hd) as [d Hdev];
    [by rewrite Hb|]. unfold call. destruct pc as [after|id p|id]; cbn [reset_step].
  - left. krun (cancel_find_run (sy_k sy) d after Hdev). eexists. split; [done|].
    apply sys_inv_reset; [done..|apply Hi|done].
  - destruct (k_requests (sy_k sy) !! p) as [r|] eqn:Hr.
    + left. krun (cancel_skips_run true (sy_k sy) d p r Hdev Hr). eexists. split; [done|].
      apply sys_inv_reset; [done..|apply Hi|done].
    + right. split; [|by split; [|by exists id, p]]. unfold cancel_skips, read_request, mbind, K_bind.
      by rewrite Hr.
  - left. destruct (cancel_erase_ok _ _ _ _ _ _ _ _ (rc_err ECANCELED) id _ d Hd Hdev) as (s' & E & Hd').
    krun E. eexists. split; [done|]. apply sys_inv_reset; [done..| |done].
    eapply (phase_kept L_all); [done| |apply Hi]. by eapply keeps_cancel_erase.
Qed.

(** ** Removal *)

Lemma safe_remove sy : sys_inv sy -> enabled E_remove sy = true -> safe (run_event E_remove sy).
Proof.
  intros Hi He. pose proof Hi as [Hd Ht Hl (Hm & [q Hp] & Ho) Hrs]. simpl in He |- *. unfold call.
  destruct (sy_phase sy) eqn:Eph; [| | |done]; cbn [remove_step];
    destruct (bound_alive _ _ _ _ _ _ _ _ _ _ Hd eq_refl) as [d Hdev].
  - destruct (remove_begin_ok _ _ _ _ _ _ _ _ d Hd Hdev) as [E Hd']. rewrite E.
    eexists. split; [done|]. split; simpl; auto; [|unfold submit_free in *; simpl in *; congruence].
    split; [exact Hm|].
    split; [exists q; simpl; rewrite Hp|by eapply (host_same (sy_k sy))].
    split; [done|]. by intros d' [= <-].
  - destruct (remove_quiesce_ok _ _ _ _ _ _ _ _ d Hd Hdev) as (w & E & Hd'). rewrite E.
    destruct Hp as [Hp Hg]. eexists. split; [done|]. split; simpl; auto; [|unfold submit_free in *; simpl in *; congruence].
    split; [exact Hm|]. split; [exists q; simpl|by eapply (host_same (sy_k sy))].
    rewrite Hp. split; [done|]. split; intros d' [= <-]; [by apply (Hg d Hdev)|done].
  - destruct Hp as (Hp & Hg & Hn).
    destruct (remove_end_ok _ _ _ _ _ _ _ _ d Hd Hdev (Hg d Hdev)) as (s' & E & Hd' & [_ _ Hpci Hbar Hf Hmf Hho]).
    rewrite E. eexists. split; [done|]. split; simpl; auto; [|unfold submit_free in *; simpl in *; congruence].
    split; [by eapply mapped_ok|]. split; [exists false; simpl|by apply Hho]. rewrite Hpci, Hp.
    split; [done|]. split_and!; [done|..]; intros d' Hd''; destruct (Hf d' Hd'') as (H1 & H2 & H3); [done| |done].
    rewrite H3. by apply Hn.
Qed.

(** ** Every step *)

Lemma step_safe ev sy :
  sys_inv sy -> enabled ev sy = true ->
  safe (run_event ev sy) \/ run_event ev sy = Fault /\ (stale_poll ev sy \/ stale_cancel ev sy).
Proof.
  intros Hi He. destruct ev; simpl in He;
    lazymatch goal with
    | |- safe (run_event (E_poll_end _) _) \/ _ => idtac
    | |- safe (run_event E_reset_step _) \/ _ => idtac
    | |- _ => left
    end;
    repeat match type of He with (_ && _) = true => apply andb_true_iff in He as [He ?] end.
  - apply safe_open; [done|]. simpl. by apply andb_true_iff.
  - by apply safe_release.
  - by apply safe_register.
  - by apply safe_unregister.
  - by apply safe_submit.
  - destruct (sy_threads sy !! i) as [[]|] eqn:Hth; try done. by eapply safe_submit_end.
  - by apply safe_wait.
  - destruct (sy_threads sy !! i) as [[]|] eqn:Hth; try done.
    apply andb_true_iff in He as [Hu _]. by eapply safe_wait_end.
  - by apply safe_nop.
  - destruct (sy_threads sy !! i) as [[]|] eqn:Hth; try done. by eapply safe_nop_end.
  - by apply safe_info.
  - by apply safe_poll.
  - destruct (sy_threads sy !! i) as [[]|] eqn:Hth; try done.
    destruct (safe_poll_end sy i _ _ Hi Hth) as [?|[? ?]]; auto.
  - by apply safe_cq_irq.
  - by apply safe_async_irq.
  - by apply safe_poll_work.
  - apply safe_reset_work; [done|]. simpl. by apply andb_true_iff.
  - destruct (safe_reset_step sy Hi) as [?|[? ?]]; auto.
  - by apply safe_remove.
  - destruct Hi as [Hd Ht Hl (Hm & [q Hp] & Ho) Hrs]. eexists. split; [done|]. split; simpl; auto.
    + by apply dinv_world.
    + split; [exact Hm|]. split; [by exists q|done].
Qed.

(** The two exceptions do fault. *)
Lemma stale_faults ev sy :
  sys_inv sy -> stale_poll ev sy \/ stale_cancel ev sy -> run_event ev sy = Fault.
Proof.
  intros Hi [[Hph (i & f & mask & -> & Hth)]|[-> (id & p & Hpc & Hr)]]; simpl; unfold call.
  - rewrite Hth. pose proof Hi as [Hd Ht Hl (_ & [q Hp] & _) Hrs]. rewrite Hph in Hp.
    pose proof (Ht _ (list_elem_of_lookup_2 _ _ _ Hth)) as Ho. simpl in Ho.
    pose proof (poll_read_ok _ _ _ _ _ _ _ _ f mask _ Hd Ho) as Hpr.
    destruct Hp as (_ & Hb & _). rewrite Hb in Hpr. by rewrite Hpr.
  - rewrite Hpc. cbn [reset_step]. unfold cancel_skips, read_request, mbind, K_bind. by rewrite Hr.
Qed.
End Safety.
