(* ===== verification/DriverReach.v ===== *)
(** * Runs of the driver and a concrete host

    [reachable]: the states of the system after a successful probe and any
    sequence of enabled steps.  [sim] is a small host in which the driver can be
    run: registers are a map, the rings are memory, every service succeeds
    except user copies, which a flag controls. *)

From S2P Require Import Prelude Abi Linux DriverState Driver DriverApi DriverProbe DriverFrame.
From S2P Require Import DriverInv DriverProbeThms DriverSystem DriverThms.

Section Reach.
Context {W : Type} `{!Kernel W, !KernelLaws W}.
Context (inject : vams_probe_step -> bool).

Inductive reachable : system W -> Prop :=
  | reach_probe s0 s :
      idle s0 -> vams_probe inject s0 = Ok (rc_ok, s) ->
      reachable (Build_system s [] [] P_bound None)
  | reach_step sy ev sy' :
      reachable sy -> enabled ev sy = true -> run_event ev sy = Ok sy' -> reachable sy'.

Lemma reachable_inv sy : reachable sy -> sys_inv sy.
Proof.
  induction 1 as [s0 s H0 E|sy ev sy' _ IH He E].
  - destruct (probe_outcome s0 H0 inject) as (ret & s' & E' & Hret). rewrite E in E'.
    injection E' as <- <-. destruct Hret as (q & Hp). split; simpl.
    + by eapply probing_dinv.
    + by intros t ?%not_elem_of_nil.
    + constructor.
    + destruct Hp as (w & d & -> & _). split; [|split; [by exists q|done]].
      intros p m. simpl. by rewrite (id_mappings _ H0), lookup_empty.
    + done.
  - destruct (step_safe ev sy IH He) as [(sy1 & E1 & Hi)|[E1 _]]; [|by rewrite E in E1].
    by rewrite E in E1; injection E1 as <-.
Qed.

(** ** Running a list of events *)

Fixpoint run_events (l : list (event W)) (sy : system W) : option (system W) :=
  match l with
  | [] => Some sy
  | ev :: l' =>
      if enabled ev sy then
        match run_event ev sy with Ok sy' => run_events l' sy' | Fault => None end
      else None
  end.

Lemma run_events_reachable l sy sy' : reachable sy -> run_events l sy = Some sy' -> reachable sy'.
Proof.
  revert sy. induction l as [|ev l IH]; intros sy H E; simpl in E; [by injection E as <-|].
  destruct (enabled ev sy) eqn:He; [|done].
  destruct (run_event ev sy) as [sy1|] eqn:E1; [|done]. eapply IH; [|done]. by eapply reach_step.
Qed.

(** ** The reset work with nothing in between *)

Fixpoint repeat_event (n : nat) (ev : event W) : list (event W) :=
  match n with O => [] | S n' => ev :: repeat_event n' ev end.

Lemma run_events_app l l' sy sy' :
  run_events l sy = Some sy' -> run_events (l ++ l') sy = run_events l' sy'.
Proof.
  revert sy. induction l as [|ev l IH]; intros sy; simpl; [by intros [= ->]|].
  destruct (enabled ev sy); [|done]. destruct (run_event ev sy); [|done]. apply IH.
Qed.

Lemma reset_step_run sy pc pc' s' :
  sy_reset sy = Some pc -> reset_step pc (sy_k sy) = Ok (pc', s') ->
  run_events [E_reset_step] sy = Some (set_reset pc' (set_state s' sy)).
Proof.
  intros Hpc E. cbn [run_events enabled run_event]. unfold submit_free, call. by rewrite Hpc, E.
Qed.

(** The steps of the loop make up [vams_cancel_requests]. *)
Lemma cancel_from_steps fuel after sy s' :
  sy_reset sy = Some (R_find after) ->
  cancel_from fuel (rc_err ECANCELED) true after (sy_k sy) = Ok (tt, s') ->
  exists n, run_events (repeat_event n E_reset_step) sy = Some (set_reset None (set_state s' sy)).
Proof.
  revert after sy. induction fuel as [|fuel IH]; intros after sy Hpc; cbn [cancel_from]; [done|].
  unfold mbind, K_bind. destruct (cancel_find after (sy_k sy)) as [[found s1]|] eqn:E1; [|done].
  assert (R1 := reset_step_run sy (R_find after)
    (match found with Some (id, p) => Some (R_check id p) | None => None end) s1 Hpc).
  cbn [reset_step] in R1. rewrite (run_bind _ _ _ _ _ E1) in R1. specialize (R1 eq_refl).
  destruct found as [[id p]|]; [|by intros [= <-]; exists 1%nat].
  unfold cancel_request, mbind, K_bind.
  destruct (cancel_skips true p s1) as [[skips s2]|] eqn:E2; [|done].
  set (sy1 := set_reset (Some (R_check id p)) (set_state s1 sy)) in *.
  assert (R2 := reset_step_run sy1 (R_check id p)
    (Some (if negb skips then R_erase id else R_find (Some id))) s2 eq_refl).
  cbn [reset_step] in R2. rewrite (run_bind _ _ (sy_k sy1) _ _ E2) in R2. specialize (R2 eq_refl).
  destruct skips; cbn [negb when] in R2 |- *.
  - intros E. destruct (IH (Some id) (set_reset (Some (R_find (Some id))) (set_state s2 sy1)) eq_refl E)
      as [n Hn].
    exists (S (S n)). exact (eq_trans (run_events_app [E_reset_step] _ _ _ R1)
      (eq_trans (run_events_app [E_reset_step] _ _ _ R2) Hn)).
  - destruct (cancel_erase (rc_err ECANCELED) id s2) as [[[] s3]|] eqn:E3; [|done]. intros E.
    set (sy2 := set_reset (Some (R_erase id)) (set_state s2 sy1)) in *.
    assert (R3 := reset_step_run sy2 (R_erase id) (Some (R_find (Some id))) s3 eq_refl).
    cbn [reset_step] in R3. rewrite (run_bind _ _ (sy_k sy2) _ _ E3) in R3. specialize (R3 eq_refl).
    destruct (IH (Some id) (set_reset (Some (R_find (Some id))) (set_state s3 sy2)) eq_refl E) as [n Hn].
    exists (S (S (S n))). exact (eq_trans (run_events_app [E_reset_step] _ _ _ R1)
      (eq_trans (run_events_app [E_reset_step] _ _ _ R2)
        (eq_trans (run_events_app [E_reset_step] _ _ _ R3) Hn))).
Qed.

(** The reset work off its queue, to the end. *)
Definition run_reset_work : K W unit :=
  _ ← update_device (set_vd_reset_scheduled false); vams_reset_work.

Lemma reset_work_steps sy s' :
  enabled E_reset_work sy = true -> run_reset_work (sy_k sy) = Ok (tt, s') ->
  exists n, run_events (E_reset_work :: repeat_event n E_reset_step) sy = Some (set_state s' sy).
Proof.
  intros He. unfold run_reset_work, vams_reset_work. cbn [run_events]. rewrite He.
  cbn [run_event]. unfold call, run_reset_begin, mbind, K_bind.
  apply andb_true_iff in He as [_ He]. unfold submit_free in He.
  destruct (sy_reset sy) eqn:Epc; [done|].
  destruct (update_device _ _) as [[[] s1]|]; [|done].
  destruct (reset_begin s1) as [[going_on s2]|]; [|done].
  assert (Es : forall s, set_reset None (set_state s sy) = set_state s sy)
    by (intros s; unfold set_reset, set_state; simpl; by rewrite Epc).
  destruct going_on; cbn [when]; [|by intros [= <-]; exists 0%nat].
  unfold vams_cancel_requests, mbind, K_bind. destruct (read_device s2) as [[d s3]|] eqn:Ed; [|done].
  assert (s3 = s2) as -> by (unfold read_device in Ed; by case_match; simplify_eq).
  intros E. destruct (cancel_from_steps _ None (set_reset (Some (R_find None)) (set_state s2 sy)) s' eq_refl E)
    as [n Hn].
  exists n. rewrite Hn. by rewrite <-(Es s').
Qed.
End Reach.

(** ** The concrete host *)

Record sim : Type := {
  sm_regs : gmap Z Z;
  sm_cq : gmap Z vams_completion;
  sm_sq : gmap Z vams_submission;
  sm_copy : bool;   (* user copies succeed *)
}.

Definition set_reg (o v : Z) (w : sim) : sim :=
  {| sm_regs := <[o := v]> (sm_regs w); sm_cq := sm_cq w; sm_sq := sm_sq w; sm_copy := sm_copy w |}.
Definition set_copy (b : bool) (w : sim) : sim :=
  {| sm_regs := sm_regs w; sm_cq := sm_cq w; sm_sq := sm_sq w; sm_copy := b |}.
(** The device posts a completion and moves its tail. *)
Definition post_completion (i : Z) (c : vams_completion) (w : sim) : sim :=
  {| sm_regs := <[VAMS_REG_CQ_TAIL := (i + 1) mod 16]> (sm_regs w); sm_cq := <[i := c]> (sm_cq w);
     sm_sq := sm_sq w; sm_copy := sm_copy w |}.

#[export] Instance sim_kernel : Kernel sim := {
  ioread32 o w := (u32 (default 0 (sm_regs w !! o)), w);
  iowrite32 v o w := set_reg o v w;
  cq_entry i w := default zero_completion (sm_cq w !! i);
  sq_entry i w := default zero_submission (sm_sq w !! i);
  sq_store i s w := {| sm_regs := sm_regs w; sm_cq := sm_cq w; sm_sq := <[i := s]> (sm_sq w);
                       sm_copy := sm_copy w |};
  alloc_ok w := (true, w);
  copy_to_user_ok w := (sm_copy w, w);
  access_ok _ _ _ := true;
  pin_user_pages_fast _ n _ w := (inr (Z.max 0 n), w);
  sg_alloc_table_from_pages _ _ _ w := (rc_ok, w);
  dma_map_sg w := (1, w);
  sg_dma_len _ := 0x01000000;
  sg_dma_address _ := 0x40000000;
  pci_enable_device_mem w := (rc_ok, w);
  pci_resource_flags _ := IORESOURCE_MEM;
  pci_resource_len _ := VAMS_BAR0_SIZE;
  pci_request_region w := (rc_ok, w);
  pci_iomap w := (true, w);
  dma_set_mask_and_coherent _ w := (rc_ok, w);
  dma_alloc_coherent _ w := (Some 0x80000000, w);
  pci_alloc_irq_vectors _ n w := (inr n, w);
  request_irq _ w := (rc_ok, w);
  ida_alloc w := (inr 0, w);
  misc_register w := (rc_ok, w);
}.

#[export] Instance sim_laws : KernelLaws sim.
Proof.
  split; simpl; intros.
  - apply u32_range.
  - by rewrite lookup_insert_eq.
  - by rewrite lookup_insert_ne.
  - done.
  - done.
  - done.
  - simplify_eq. lia.
  - by simplify_eq.
Qed.

(** A device that is ready for queues. *)
Definition ready_regs : gmap Z Z :=
  list_to_map [(VAMS_REG_DEVICE_ID, VAMS_DEVICE_ID_VALUE); (VAMS_REG_HW_IF_VERSION, 0x10000);
    (VAMS_REG_DESC_VERSION, 1); (VAMS_REG_CAPABILITIES, 0xff); (VAMS_REG_DEVICE_STATUS, 5);
    (VAMS_REG_CQ_STATUS, VAMS_QUEUE_STATUS_ENABLED); (VAMS_REG_SQ_STATUS, VAMS_QUEUE_STATUS_ENABLED);
    (VAMS_REG_RESET_GENERATION, 1)].

Definition sim_idle : kstate sim :=
  {| k_world := {| sm_regs := ready_regs; sm_cq := ∅; sm_sq := ∅; sm_copy := true |};
     k_bar0 := false; k_dev := None; k_files := ∅; k_requests := ∅; k_mappings := ∅;
     k_pinned := 0; k_sg_tables := 0; k_dma_maps := 0; k_pci := no_pci;
     k_host := no_host |}.

Definition no_inject (_ : vams_probe_step) : bool := false.

Definition sim_bound : system sim :=
  match vams_probe no_inject sim_idle with
  | Ok (_, s) => Build_system s [] [] P_bound None
  | Fault => Build_system sim_idle [] [] P_bound None
  end.

Lemma sim_idle_ok : idle sim_idle.
Proof. by split. Qed.

Lemma sim_bound_reachable : reachable no_inject sim_bound.
Proof.
  unfold sim_bound.
  destruct (vams_probe no_inject sim_idle) as [[ret s]|] eqn:E; [|by vm_compute in E].
  apply (reach_probe _ sim_idle); [apply sim_idle_ok|].
  assert (Hret : ret = rc_ok).
  { assert (H : match vams_probe no_inject sim_idle with Ok (r, _) => r | Fault => rc_err EIO end = rc_ok)
      by by vm_compute. by rewrite E in H. }
  by rewrite E, Hret.
Qed.

(** The state after a run from the bound device. *)
Definition after (l : list (event sim)) : system sim := default sim_bound (run_events l sim_bound).
(** The run is possible. *)
Definition runs (l : list (event sim)) : bool := bool_decide (is_Some (run_events l sim_bound)).

Lemma after_reachable l : runs l = true -> reachable no_inject (after l).
Proof.
  intros [sy E]%bool_decide_eq_true. unfold after. rewrite E.
  eapply run_events_reachable; [apply sim_bound_reachable|done].
Qed.

(** ** A scenario: a buffer, a CRC command, its completion *)

Definition read_buffer : vams_ioc_buffer_register :=
  {| ir_size := sizeof_buffer_register; ir_version := VAMS_UAPI_VERSION;
     ir_flags := VAMS_BUFFER_READ; ir_handle := 0; ir_user_address := 0x7f0000000010;
     ir_length := 8192; ir_reserved := 0 |}.

Definition crc_command : vams_ioc_submit :=
  {| is_size := sizeof_submit; is_version := VAMS_UAPI_VERSION; is_opcode := VAMS_OP_CRC32;
     is_flags := 0; is_source_handle := 1; is_destination_handle := 0; is_length := 4096;
     is_timeout_ms := 1000; is_source_offset := 16; is_destination_offset := 0;
     is_user_cookie := 77; is_expected_crc := 0; is_command_id := 0 |}.

Definition wait_for (id timeout : Z) : vams_ioc_wait :=
  {| iw_size := sizeof_wait; iw_version := VAMS_UAPI_VERSION; iw_command_id := id; iw_flags := 0;
     iw_timeout_ms := timeout; iw_driver_status := 0; iw_status := 0; iw_error_code := 0;
     iw_bytes_processed := 0; iw_result_crc := 0; iw_reserved0 := 0; iw_user_cookie := 0;
     iw_device_timestamp := 0; iw_reserved1 := 0 |}.

Definition crc_result : vams_completion :=
  {| c_command_id := 1; c_status := VAMS_STATUS_SUCCESS; c_error_code := VAMS_ERR_NONE;
     c_bytes_processed := 4096; c_result_crc := 0xabcdef; c_user_cookie := 77;
     c_device_timestamp := 5 |}.

(** Open a file, register a buffer. *)
Definition evs_buffer : list (event sim) := [E_open; E_register 0 (Some read_buffer)].
(** Submit the command; the thread has not returned yet. *)
Definition evs_submit : list (event sim) := evs_buffer ++ [E_submit 0 (Some crc_command)].
(** The submission returned and a thread waits for its completion. *)
Definition evs_wait : list (event sim) :=
  evs_submit ++ [E_submit_end 0; E_wait 0 (Some (wait_for 1 100))].
Definition world_of (l : list (event sim)) : sim := k_world (sy_k (after l)).
(** The device completes it and raises the interrupt. *)
Definition evs_done : list (event sim) :=
  evs_wait ++ [E_world (set_reg VAMS_REG_INTR_STATUS VAMS_INTR_CQ
                 (post_completion 0 crc_result (world_of evs_wait))); E_cq_irq].
Definition evs_reaped : list (event sim) := evs_done ++ [E_wait_end 0 w_completed].

Lemma is_accepted {A B C} (r : result ((A + B * C) * kstate sim)) :
  match r with Ok (inr _, _) => true | _ => false end = true ->
  exists b c s', r = Ok (inr (b, c), s').
Proof. destruct r as [[[a|[b c]] s']|]; [done| |done]. by exists b, c, s'. Qed.
