(* ===== verification/DriverProps.v ===== *)
(** * What the driver guarantees in every run

    The theorems about the Linux driver, over the states [reachable] after a
    successful probe under any interleaving of system calls, interrupts, work
    items, device activity and removal. *)

From S2P Require Import Prelude Abi Linux DriverState Driver DriverApi DriverIoctl DriverProbe DriverFrame.
From S2P Require Import DriverInv DriverMoves DriverRefs DriverRequests DriverOps DriverSubmit.
From S2P Require Import DriverFiles DriverBuffers DriverTeardown DriverProbeThms DriverSystem.
From S2P Require Import DriverThms DriverReach.

Section Props.
Context {W : Type} `{!Kernel W, !KernelLaws W}.
Context (inject : vams_probe_step -> bool).
Implicit Types (s : kstate W) (sy : system W).

(** C3: the driver is memory safe with two exceptions, both stale reads.  In
    every reachable state a step that can be taken returns, so that no function
    of the driver reads or writes a freed file, request, mapping or device, none
    touches BAR0 once it is unmapped and every loop ends, unless it is one of
    two: a poll that passed its check of [removing], taken without a lock, before
    the device was removed; or the reset work following the pointer its iterator
    loaded, without a lock or a reference, after an interrupt completed the
    request and its waiter freed it.  Those two steps do fault. *)
Theorem driver_faults_only_on_stale_reads sy ev :
  reachable inject sy -> enabled ev sy = true ->
  run_event ev sy = Fault <-> stale_poll ev sy \/ stale_cancel ev sy.
Proof.
  intros Hr He. pose proof (reachable_inv _ _ Hr) as Hi. split; [|by apply stale_faults].
  intros E. destruct (step_safe ev sy Hi He) as [(sy' & E' & _)|[_ Hs]]; [congruence|done].
Qed.

(** C4: reference counts are exact.  In every reachable state an object is
    allocated if and only if it is referenced, and its counter is the number of
    references: a request by the outstanding table, its owner's table and the
    threads that wait for it; a mapping by the handle tables and the requests
    that use it; a file by its open descriptors and its requests; the device by
    its files and its binding. *)
Theorem driver_refcounts_exact sy :
  reachable inject sy ->
  let s := sy_k sy in
  counted r_refs (k_requests s) (request_refs (loans (sy_threads sy)) s) /\
  counted m_refs (k_mappings s) (mapping_refs [] s) /\
  counted vf_refs (k_files s) (file_refs (sy_open sy) s) /\
  match k_dev s with
  | Some d => vd_refs d = Z.of_nat (size (k_files s)) + Z.b2z (bound_in (sy_phase sy)) /\ 0 < vd_refs d
  | None => k_files s = ∅ /\ sy_phase sy = P_removed
  end.
Proof.
  intros Hr s. pose proof (si_dinv _ (reachable_inv _ _ Hr)) as H. split_and!.
  - apply (di_req _ _ _ _ _ _ _ _ _ _ H).
  - apply (di_map _ _ _ _ _ _ _ _ _ _ H).
  - apply (di_file _ _ _ _ _ _ _ _ _ _ H).
  - pose proof (di_dev _ _ _ _ _ _ _ _ _ _ H) as Hd. fold s in Hd.
    destruct (k_dev s); [done|]. destruct Hd as [? Hb]. split; [done|]. by destruct (sy_phase sy).
Qed.

(** ** No leaks *)

Lemma counted_none {A} (refs : A -> Z) (heap : gmap nat A) (count : nat -> Z) :
  counted refs heap count -> (forall p, count p = 0) -> heap = ∅.
Proof.
  intros Hc Hz. apply map_eq. intros p. rewrite lookup_empty. specialize (Hc p).
  destruct (heap !! p); [|done]. rewrite Hz in Hc. lia.
Qed.

(** Files nobody has open hold nothing. *)
Lemma closed_tables sy p :
  sys_inv sy -> sy_open sy = [] ->
  table_refs (sy_k sy) p = 0 /\ msum (fun vf => hold (vf_mappings vf) p) (k_files (sy_k sy)) = 0.
Proof.
  intros Hi Ho. pose proof (di_closed _ _ _ _ _ _ _ _ _ _ (si_dinv _ Hi)) as Hc. rewrite Ho in Hc.
  assert (He : forall f vf, k_files (sy_k sy) !! f = Some vf -> vf_requests vf = ∅ /\ vf_mappings vf = ∅)
    by (intros f vf Hf; apply (Hc f vf Hf); apply not_elem_of_nil).
  unfold table_refs. split; apply msum_zero; intros f vf Hf; destruct (He f vf Hf) as [Er Em];
    rewrite ?Er, ?Em; apply hold_empty.
Qed.

(** C8: nothing leaks.  Once the device is removed and every descriptor is
    closed, no request, mapping, file or device object is left, every pinned
    page, scatter table and DMA mapping is released, and so are every PCI
    resource, the instance number and name of the character device and the
    reference to the PCI device. *)
Theorem removal_leaks_nothing sy :
  reachable inject sy -> sy_phase sy = P_removed -> sy_open sy = [] ->
  let s := sy_k sy in
  k_requests s = ∅ /\ k_mappings s = ∅ /\ k_files s = ∅ /\ k_dev s = None /\
  k_pinned s = 0 /\ k_sg_tables s = 0 /\ k_dma_maps s = 0 /\ k_pci s = no_pci /\ k_host s = no_host.
Proof.
  intros Hr Hph Ho s. pose proof (reachable_inv _ _ Hr) as Hi.
  assert (Hth : sy_threads sy = []).
  { destruct (sy_threads sy) as [|t l] eqn:E; [done|].
    pose proof (si_threads _ Hi t ltac:(rewrite E; by left)) as Hf. rewrite Ho in Hf.
    by apply not_elem_of_nil in Hf. }
  pose proof (closed_tables sy) as Ht. pose proof (si_dinv _ Hi) as H.
  rewrite Hph, Ho, Hth in H. fold s in H. open_inv H. destruct Hbound as [Hout _].
  assert (Er : k_requests s = ∅).
  { eapply counted_none; [exact Hreq|]. intros p. unfold request_refs.
    destruct (Ht p Hi Ho) as [Hz _]. fold s in Hz. by rewrite Hout, hold_empty, Hz. }
  assert (Ef : k_files s = ∅).
  { eapply counted_none; [exact Hfile|]. intros p. unfold file_refs. by rewrite Er, msum_empty. }
  assert (Em : k_mappings s = ∅).
  { eapply counted_none; [exact Hmap|]. intros p. unfold mapping_refs. by rewrite Er, Ef, !msum_empty. }
  destruct Hres as (H1 & H2 & H3). rewrite Em in H1, H2, H3.
  assert (Ed : k_dev s = None).
  { destruct (k_dev s) as [d|]; [|done]. rewrite Ef, map_size_empty in Hdev. simpl in Hdev. lia. }
  destruct (si_phase _ Hi) as (_ & [q Hp] & Ho'). rewrite Hph in Hp. unfold host_ok in Ho'.
  fold s in Ho'. rewrite Ed in Ho'. split_and!; try done. by destruct Hp.
Qed.

(** C9: probe acquires everything or nothing.  Starting with no device, probe
    returns; if it succeeds the device is bound with its registers mapped, its
    interrupts installed and the character device registered, and holds one
    reference; if any step fails, at whatever point, the state is what it was
    before: no memory, ring, vector, interrupt, region or mapping is left
    behind. *)
Theorem probe_acquires_all_or_nothing s0 :
  idle s0 ->
  exists ret s, vams_probe inject s0 = Ok (ret, s) /\
    if rc_is_ok ret then
      k_bar0 s = true /\ (exists q, k_pci s = bound_pci q) /\
      exists d, k_dev s = Some d /\ vd_refs d = 1 /\ vd_requests d = ∅ /\ vd_removing d = false
    else exists w, s = set_k_world w s0.
Proof.
  intros H0. destruct (probe_outcome s0 H0 inject) as (ret & s & E & Hret). exists ret, s.
  split; [done|]. destruct (rc_is_ok ret); [|done].
  destruct Hret as (q & w & d & -> & (Hr & Hrefs & Hreqs & _) & _). split; [done|]. split; [by exists q|].
  by exists d.
Qed.

(** C22: the last phase of removal completes every outstanding request with
    [-ENODEV] for whoever still waits for it, leaves the others alone and
    releases the PCI resources; nothing is outstanding afterwards. *)
Theorem removal_cancels_outstanding sy d :
  reachable inject sy -> sy_phase sy = P_quiesced -> k_dev (sy_k sy) = Some d ->
  exists sy', run_event E_remove sy = Ok sy' /\ sy_phase sy' = P_removed /\
    outstanding (sy_k sy') = ∅ /\ k_pci (sy_k sy') = no_pci /\
    (forall id p r, vd_requests d !! id = Some p -> k_requests (sy_k sy') !! p = Some r ->
       r_done r = true /\ r_driver_status r = rc_err ENODEV) /\
    (forall q, hold (vd_requests d) q = 0 -> k_requests (sy_k sy') !! q = k_requests (sy_k sy) !! q).
Proof.
  intros Hr Hph Hd. pose proof (reachable_inv _ _ Hr) as [H Ht Hl (_ & [q Hp] & _) _].
  rewrite Hph in *. destruct Hp as (Hp & Hg & Hn).
  destruct (remove_end_ok _ _ _ _ _ _ _ _ d H Hd (Hg d Hd)) as (s' & E & H' & [Hc Hoth Hpci _ _ _ _]).
  simpl. unfold call. rewrite Hph. cbn [remove_step]. rewrite E. eexists. split; [done|]. simpl.
  split; [done|]. split; [by destruct (di_bound _ _ _ _ _ _ _ _ _ _ H')|].
  split; [by rewrite Hpci, Hp|]. split; [|done]. intros id p r Hid. by apply (Hc id p Hid).
Qed.

(** ** Commands *)

(** C6: the memory the device may access stays mapped.  In every reachable state
    the buffers of every request, in flight or not yet reaped, are live mappings,
    the pinned pages are exactly those of the live mappings, and a process that
    unregisters a buffer some request uses is refused with [-EBUSY], without
    any change. *)
Theorem buffers_outlive_their_requests sy p r q :
  reachable inject sy -> k_requests (sy_k sy) !! p = Some r ->
  r_source r = Some q \/ r_destination r = Some q ->
  is_Some (k_mappings (sy_k sy) !! q) /\ k_pinned (sy_k sy) = msum m_npages (k_mappings (sy_k sy)) /\
  forall f vf handle, k_files (sy_k sy) !! f = Some vf -> vf_mappings vf !! handle = Some q ->
    handle <> 0 ->
    vams_ioctl_buffer_unregister f
      (Some (Build_vams_ioc_buffer_unregister sizeof_buffer_unregister VAMS_UAPI_VERSION handle 0 0))
      (sy_k sy) = Ok (rc_err EBUSY, sy_k sy).
Proof.
  intros Hr Hp Hq. pose proof (si_dinv _ (reachable_inv _ _ Hr)) as H.
  split; [destruct (source_alive _ _ _ _ _ _ _ _ _ _ p r q H Hp Hq) as [m Hm]; by exists m|].
  split; [apply (di_res _ _ _ _ _ _ _ _ _ _ H)|]. intros f vf handle Hf Hh Hz.
  destruct (used_buffer_refs _ _ _ _ _ _ _ _ _ _ f vf handle p r q H Hf Hh Hp Hq) as (m & Hm & H2).
  unfold vams_ioctl_buffer_unregister. simpl. rewrite (proj2 (Z.eqb_neq _ _) Hz). simpl.
  krun (run_read_file _ _ _ Hf). unfold xa_load. rewrite Hh. krun (run_read_mapping _ _ _ Hm).
  by rewrite (proj2 (Z.eqb_neq (m_refs m) 1)) by lia.
Qed.

(** C23: registration leaks nothing on any path.  The ioctl returns; when it
    reports an error the driver state is what it was (pages, scatter table, DMA
    mapping and handle are given back wherever it failed), and when it succeeds
    the file has one new nonzero handle for one new mapping of exactly the
    requested range and rights. *)
Theorem registration_leaks_nothing sy f input :
  reachable inject sy -> opened sy f = true ->
  exists ret out s', vams_ioctl_buffer_register f (Some input) (sy_k sy) = Ok ((ret, out), s') /\
    registration (sy_k sy) f (register_npages input) input ret out s'.
Proof.
  intros Hr Ho%opened_spec. by eapply register_ok; [apply si_dinv, (reachable_inv _ _ Hr)|].
Qed.

(** C18: draining the completion ring takes exactly the entries between the
    driver's head and the device's tail, in ring order and each once, and leaves
    the head at the tail; with a tail outside the ring, or queues that are not
    ready, it takes nothing.  It returns: the ring's 16 slots bound the loop. *)
Theorem drain_takes_ring_entries sy d :
  reachable inject sy -> bound_in (sy_phase sy) = true -> k_dev (sy_k sy) = Some d ->
  let '(tail, w) := ioread32 VAMS_REG_CQ_TAIL (k_world (sy_k sy)) in
  exists l s' d', vams_drain_cq (sy_k sy) = Ok (l, s') /\ k_dev s' = Some d' /\
    if vd_queues_ready d && (tail <? VAMS_QUEUE_DEPTH) then
      l = drained_entries d tail w /\ vd_cq_head d' = tail
    else l = [] /\ vd_cq_head d' = vd_cq_head d.
Proof.
  intros Hr Hb Hd. pose proof (si_dinv _ (reachable_inv _ _ Hr)) as H.
  pose proof (drain_cq_spec _ _ _ _ _ _ _ _ _ d Hb H Hd) as Hs.
  destruct (ioread32 _ _) as [tail w]. destruct Hs as (l & s' & d' & E & _ & D & _ & _ & Hl). eauto 10.
Qed.

(** C17: a completion entry finishes the one request it names.  If its command id
    is outstanding, that request leaves the outstanding table and is signalled
    with the entry as its result (or freed, if nobody holds it any more), and no
    other request changes; an entry with an unknown id changes no request. *)
Theorem completion_finishes_its_request sy d c :
  reachable inject sy -> k_dev (sy_k sy) = Some d ->
  exists b s', vams_finish_request c (sy_k sy) = Ok (b, s') /\
    (forall d', k_dev s' = Some d' -> vd_requests d' = delete (c_command_id c) (vd_requests d)) /\
    match vd_requests d !! c_command_id c with
    | None => b = false /\ k_requests s' = k_requests (sy_k sy)
    | Some p => b = true /\
        (forall q, q <> p -> k_requests s' !! q = k_requests (sy_k sy) !! q) /\
        (forall r, k_requests s' !! p = Some r ->
           r_done r = true /\ r_result r = c /\ r_driver_status r = rc_ok)
    end.
Proof.
  intros Hr Hd. pose proof (si_dinv _ (reachable_inv _ _ Hr)) as H.
  destruct (finish_spec _ _ _ _ _ _ _ _ c _ d H Hd) as (b & s' & E & _ & _ & D & Hc).
  exists b, s'. split; [done|]. split; [done|].
  destruct (vd_requests d !! c_command_id c) as [p|]; [|done]. destruct Hc as (-> & r & Hr0 & ->).
  unfold completed. split; [done|]. split.
  - intros q Hq. rewrite drop_ref_ne by done. by apply lookup_insert_ne.
  - intros r' Hr'. apply (drop_ref_eq _ _ _ _ (lookup_insert_eq _ _ _)) in Hr' as ->. done.
Qed.

(** C21: a reset cancels exactly the stale commands.  The reset work, taken off
    its queue and run to its end with nothing in between, does nothing when the
    device is being removed.  Otherwise it takes out of the outstanding table the
    requests submitted under another reset generation than the current one, and
    only those; each is signalled with [-ECANCELED], and no other request
    changes.  It closes the queues when the last reset reason the driver recorded
    is a host-requested device or queue reset, and leaves them alone otherwise. *)
Theorem reset_cancels_stale_requests sy d :
  reachable inject sy -> enabled E_reset_work sy = true -> k_dev (sy_k sy) = Some d ->
  exists n sy' d', run_events (E_reset_work :: repeat_event n E_reset_step) sy = Some sy' /\
    sy_reset sy' = None /\ k_dev (sy_k sy') = Some d' /\
    if vd_removing d then
      sy_k sy' = set_k_dev (Some (set_vd_reset_scheduled false d)) (sy_k sy)
    else
      cancels (rc_err ECANCELED) true (xa_indices (vd_requests d)) (sy_k sy) (sy_k sy') d d' /\
      vd_queues_ready d' = vd_queues_ready d &&
        negb ((vd_reset_reason d =? VAMS_RESET_REASON_HOST_DEVICE) ||
              (vd_reset_reason d =? VAMS_RESET_REASON_HOST_QUEUE)).
Proof.
  intros Hr He Hd. pose proof (reachable_inv _ _ Hr) as Hi.
  destruct (dequeue_ok sy d (set_vd_reset_scheduled false) Hi Hd) as [E Hi1]; [by right|].
  assert (Hb : bound_in (sy_phase sy) = true).
  { apply andb_true_iff in He as [He _]. rewrite Hd in He. simpl in He. destruct (si_phase _ Hi) as (_ & [q Hp] & _).
    destruct (sy_phase sy); try done. destruct Hp as (_ & _ & _ & _ & Hn). by rewrite (Hn d Hd) in He. }
  destruct (reset_work_ok _ _ _ _ _ _ _ _ _ _ Hb (si_dinv _ Hi1) eq_refl)
    as (s' & d' & E' & _ & D & _ & Hno & Hc).
  assert (Er : run_reset_work (sy_k sy) = Ok (tt, s')) by (unfold run_reset_work; by krun E).
  destruct (reset_work_steps sy s' He Er) as [n Hn]. exists n, (set_state s' sy), d'.
  split; [done|]. split; [|split; [done|]].
  - simpl. apply andb_true_iff in He as [_ He]. unfold submit_free in He. by destruct (sy_reset sy).
  - simpl in Hno, Hc. destruct (vd_removing d); [by apply Hno|]. destruct (Hc eq_refl) as [[Kk Ks Kg Ko] Hq].
    split; [by split|exact Hq].
Qed.

(** C19: ring indices stay inside the ring, command ids of outstanding requests
    are nonzero and the request under an id carries it, and the pending counter
    is the number of outstanding requests. *)
Theorem device_state_well_formed sy d :
  reachable inject sy -> k_dev (sy_k sy) = Some d ->
  0 <= vd_sq_tail d < 16 /\ 0 <= vd_cq_head d < 16 /\
  vd_pending_requests d = s32 (Z.of_nat (size (vd_requests d))) /\
  (forall id p, vd_requests d !! id = Some p ->
     id <> 0 /\ exists r, k_requests (sy_k sy) !! p = Some r /\ r_command_id r = id /\ r_done r = false) /\
  (forall p r, k_requests (sy_k sy) !! p = Some r -> r_done r = false ->
     vd_requests d !! r_command_id r = Some p).
Proof.
  intros Hr Hd. pose proof (si_dinv _ (reachable_inv _ _ Hr)) as H. open_inv H.
  assert (Ho : outstanding (sy_k sy) = vd_requests d) by (unfold outstanding; by rewrite Hd).
  rewrite Ho in *. destruct (Hring d Hd). split_and!; try lia.
  - rewrite (Hpend d Hd). f_equal. lia.
  - intros id p Hid. destruct (Hids id p Hid) as (r & Hp & Hc & Hz). split; [done|].
    exists r. split; [done|]. split; [done|]. specialize (Hund p r Hp). destruct (r_done r); [|done].
    by apply (hold_zero _ id) in Hund.
  - intros p r Hp Hdone. specialize (Hund p r Hp). rewrite Hdone in Hund.
    by destruct Hund as [?|?%not_elem_of_nil].
Qed.

(** C20: a wait delivers a result once.  The second half of a wait returns; it
    reports success exactly when it copied an output, which is the outcome of a
    request that is done; the request was in the file's table under the waited
    id and is not any more, so no other wait can deliver it. *)
Theorem wait_delivers_once sy i how f p o :
  reachable inject sy -> sy_threads sy !! i = Some (T_wait f p o) ->
  enabled (E_wait_end i how) sy = true ->
  exists ret out s', wait_end f p o how (sy_k sy) = Ok ((ret, out), s') /\
    (rc_is_ok ret = true <-> out <> None) /\
    forall o', out = Some o' -> exists r requests mappings,
      k_requests (sy_k sy) !! p = Some r /\ r_done r = true /\ o' = wait_output o r /\
      tables_of (sy_k sy) f = Some (requests, mappings) /\ requests !! iw_command_id o = Some p /\
      tables_of s' f = Some (delete (iw_command_id o) requests, mappings).
Proof.
  intros Hr Hth He. pose proof (reachable_inv _ _ Hr) as Hi. simpl in He. rewrite Hth in He.
  apply andb_true_iff in He as [Hu Hw].
  destruct (loan_ends sy i _ p Hi Hth eq_refl eq_refl) as [Hd Hls].
  pose proof (si_threads _ Hi _ (list_elem_of_lookup_2 _ _ _ Hth)) as Ho.
  destruct (wait_end_ok _ _ _ _ _ f p o how _ Hd Ho (Hls f Hu)) as (ret & out & s' & E & _ & [Hret Hout]).
  exists ret, out, s'. split; [done|]. split; [done|]. intros o' Ho'.
  destruct (Hout o' Ho') as (r & rq & mp & Hrq & -> & Hok & Ht & Hk & Ht'). exists r, rq, mp.
  split_and!; try done. unfold wait_error in Hok.
  destruct (iw_timeout_ms o =? 0); [by destruct (r_done r)|].
  destruct how; [|done..]. simpl in Hw. unfold request_done in Hw. by rewrite Hrq in Hw.
Qed.
End Props.

(** ** Races the code has *)

(** A file is polled while the device is removed. *)
Definition evs_race : list (event sim) := [E_open; E_poll 0; E_remove; E_remove; E_remove].

(** [vams_poll] checks [removing] without a lock and then reads a register; when
    the device is removed between the check and the read, the read goes to the
    unmapped BAR0: here with one open file on an idle device. *)
Example poll_races_with_removal :
  reachable no_inject (after evs_race) /\ enabled (E_poll_end 0) (after evs_race) = true /\
  run_event (E_poll_end 0) (after evs_race) = Fault.
Proof. split; [apply after_reachable; by vm_compute|]. by split; vm_compute. Qed.

(** The driver has seen a reset with a command outstanding, and the iterator of
    the reset work stands at its request. *)
Definition evs_reset : list (event sim) :=
  evs_wait ++ [E_world (set_reg VAMS_REG_INTR_STATUS VAMS_INTR_RESET_DONE
    (set_reg VAMS_REG_RESET_GENERATION 2 (world_of evs_wait))); E_async_irq].
Definition evs_iterating : list (event sim) := evs_reset ++ [E_reset_work; E_reset_step].
(** Now the completion interrupt finishes the command and its waiter frees it. *)
Definition evs_cancel_race : list (event sim) :=
  evs_iterating ++ [E_world (set_reg VAMS_REG_INTR_STATUS VAMS_INTR_CQ
    (post_completion 0 crc_result (world_of evs_iterating))); E_cq_irq; E_wait_end 0 w_completed].

Example reset_races_with_completion :
  reachable no_inject (after evs_cancel_race) /\ enabled E_reset_step (after evs_cancel_race) = true /\
  run_event E_reset_step (after evs_cancel_race) = Fault.
Proof. split; [apply after_reachable; by vm_compute|]. by split; vm_compute. Qed.

(** The command id cannot be copied out, and the command completes later. *)
Definition evs_orphan : list (event sim) :=
  evs_submit ++ [E_world (set_copy false (world_of evs_submit)); E_submit_end 0;
    E_world (set_reg VAMS_REG_INTR_STATUS VAMS_INTR_CQ (post_completion 0 crc_result
      (world_of evs_submit))); E_cq_irq].

(** A submission whose command id could not be copied to the user leaves
    its request without a table entry but with its owner.  When the device
    completes it, the file's counter of completed requests goes up although
    there is nothing to reap: poll reports the file readable while every wait
    fails with [-ENOENT]. *)
Theorem orphaned_completion_stays_readable :
  runs evs_orphan = true /\
  (forall o, exists e s', wait_begin 0 (Some o) (sy_k (after evs_orphan)) = Ok (inl e, s') /\
     rc_is_ok e = false) /\
  exists mask s', vams_poll 0 (sy_k (after evs_orphan)) = Ok (mask, s') /\
    has_bits mask EPOLLIN = true.
Proof.
  split; [by vm_compute|]. split.
  - assert (E : match k_files (sy_k (after evs_orphan)) !! 0%nat with
      | Some vf => bool_decide (vf_requests vf = ∅) | None => false end = true) by by vm_compute.
    revert E. generalize (sy_k (after evs_orphan)). intros s E o.
    destruct (k_files s !! 0%nat) as [vf|] eqn:Hf; [|done]. apply bool_decide_eq_true in E as Hempty.
    unfold wait_begin.
    destruct (wait_args_bad o); [by eexists _, _|]. krun (run_read_file _ _ _ Hf). rewrite Hempty.
    by eexists _, _.
  - assert (E : match vams_poll 0 (sy_k (after evs_orphan)) with
      Ok (mask, _) => has_bits mask EPOLLIN | Fault => false end = true) by by vm_compute.
    revert E. generalize (sy_k (after evs_orphan)). intros s E.
    destruct (vams_poll 0 s) as [[mask s']|]; [|done]. by exists mask, s'.
Qed.

(** ** Witnesses: the scenario of [DriverReach] *)

#[local] Opaque after.

Definition dev_of (l : list (event sim)) : vams_device := default new_device (k_dev (sy_k (after l))).
(** Marked for removal and quiesced with the command outstanding. *)
Definition evs_quiesced : list (event sim) := evs_wait ++ [E_remove; E_remove].
(** Removed, the waiter gone, the file closed. *)
Definition evs_gone : list (event sim) :=
  evs_quiesced ++ [E_remove; E_wait_end 0 w_completed; E_release 0].

Lemma driver_faults_only_on_stale_reads_witness :
  (exists sy', run_event E_remove (after evs_wait) = Ok sy') /\
  run_event E_reset_step (after evs_cancel_race) = Fault.
Proof.
  split.
  - pose proof (driver_faults_only_on_stale_reads no_inject (after evs_wait) E_remove
      (after_reachable evs_wait ltac:(by vm_compute)) ltac:(by vm_compute)) as [H _].
    destruct (run_event E_remove (after evs_wait)) as [sy'|]; [by exists sy'|].
    destruct (H eq_refl) as [[Hph _]|[Hev _]]; [by vm_compute in Hph|discriminate Hev].
  - apply (driver_faults_only_on_stale_reads no_inject (after evs_cancel_race) E_reset_step
      (after_reachable evs_cancel_race ltac:(by vm_compute)) ltac:(by vm_compute)).
    right. split; [done|]. exists 1, 0%nat. by split; vm_compute.
Defined.

Lemma driver_refcounts_exact_witness :
  counted r_refs (k_requests (sy_k (after evs_done)))
    (request_refs (loans (sy_threads (after evs_done))) (sy_k (after evs_done))).
Proof.
  exact (proj1 (driver_refcounts_exact no_inject (after evs_done)
    (after_reachable evs_done ltac:(by vm_compute)))).
Defined.

Lemma removal_leaks_nothing_witness :
  k_requests (sy_k (after evs_gone)) = ∅ /\ k_pinned (sy_k (after evs_gone)) = 0.
Proof.
  pose proof (removal_leaks_nothing no_inject (after evs_gone)
    (after_reachable evs_gone ltac:(by vm_compute)) ltac:(by vm_compute) ltac:(by vm_compute))
    as (H1 & _ & _ & _ & H2 & _).
  exact (conj H1 H2).
Defined.

Lemma probe_acquires_all_or_nothing_witness :
  exists ret s, vams_probe (fun step => match step with VAMS_PROBE_AFTER_CQ_IRQ => true | _ => false end)
      sim_idle = Ok (ret, s).
Proof.
  destruct (probe_acquires_all_or_nothing
    (fun step => match step with VAMS_PROBE_AFTER_CQ_IRQ => true | _ => false end) sim_idle sim_idle_ok)
    as (ret & s & E & _).
  by exists ret, s.
Defined.

Lemma removal_cancels_outstanding_witness :
  vd_requests (dev_of evs_quiesced) !! 1 = Some 0%nat /\
  exists sy', run_event E_remove (after evs_quiesced) = Ok sy' /\
    forall r, k_requests (sy_k sy') !! 0%nat = Some r -> r_driver_status r = rc_err ENODEV.
Proof.
  assert (H1 : vd_requests (dev_of evs_quiesced) !! 1 = Some 0%nat) by by vm_compute.
  split; [done|].
  destruct (removal_cancels_outstanding no_inject (after evs_quiesced) (dev_of evs_quiesced)
    (after_reachable evs_quiesced ltac:(by vm_compute)) ltac:(by vm_compute) ltac:(by vm_compute))
    as (sy' & E & _ & _ & _ & Hc & _).
  exists sy'. split; [exact E|]. intros r Hr. by destruct (Hc 1 0%nat r H1 Hr).
Defined.

Lemma registration_leaks_nothing_witness :
  exists ret out s', registration (sy_k (after [E_open])) 0 3 read_buffer ret out s'.
Proof.
  destruct (registration_leaks_nothing no_inject (after [E_open]) 0 read_buffer
    (after_reachable [E_open] ltac:(by vm_compute)) ltac:(by vm_compute)) as (ret & out & s' & _ & H).
  exists ret, out, s'. exact H.
Defined.

(** A completion entry waits in the ring. *)
Definition evs_posted : list (event sim) :=
  evs_wait ++ [E_world (post_completion 0 crc_result (world_of evs_wait))].

Lemma drain_takes_ring_entries_witness :
  exists s', vams_drain_cq (sy_k (after evs_posted)) = Ok ([crc_result], s').
Proof.
  pose proof (drain_takes_ring_entries no_inject (after evs_posted) (dev_of evs_posted)
    (after_reachable evs_posted ltac:(by vm_compute)) ltac:(by vm_compute) ltac:(by vm_compute)) as H.
  assert (Hd : vd_queues_ready (dev_of evs_posted) = true) by by vm_compute.
  assert (Ht : fst (ioread32 VAMS_REG_CQ_TAIL (k_world (sy_k (after evs_posted)))) = 1) by by vm_compute.
  assert (Hl : drained_entries (dev_of evs_posted) 1
    (snd (ioread32 VAMS_REG_CQ_TAIL (k_world (sy_k (after evs_posted))))) = [crc_result]) by by vm_compute.
  destruct (ioread32 VAMS_REG_CQ_TAIL _) as [tail w]. simpl in Ht, Hl. subst tail.
  destruct H as (l & s' & d' & E & _ & Hc). rewrite Hd in Hc. cbn in Hc. destruct Hc as [-> _].
  exists s'. by rewrite <-Hl.
Defined.

Lemma completion_finishes_its_request_witness :
  exists s', vams_finish_request crc_result (sy_k (after evs_wait)) = Ok (true, s') /\
    forall r, k_requests s' !! 0%nat = Some r -> r_result r = crc_result.
Proof.
  destruct (completion_finishes_its_request no_inject (after evs_wait) (dev_of evs_wait) crc_result
    (after_reachable evs_wait ltac:(by vm_compute)) ltac:(by vm_compute)) as (b & s' & E & _ & Hc).
  assert (H1 : vd_requests (dev_of evs_wait) !! c_command_id crc_result = Some 0%nat) by by vm_compute.
  rewrite H1 in Hc. destruct Hc as (-> & _ & Hr). exists s'. split; [exact E|].
  intros r Hr'. by apply Hr.
Defined.

Lemma reset_cancels_stale_requests_witness :
  exists n sy', run_events (E_reset_work :: repeat_event n E_reset_step) (after evs_reset) = Some sy' /\
    forall r, k_requests (sy_k sy') !! 0%nat = Some r -> r_driver_status r = rc_err ECANCELED.
Proof.
  destruct (reset_cancels_stale_requests no_inject (after evs_reset) (dev_of evs_reset)
    (after_reachable evs_reset ltac:(by vm_compute)) ltac:(by vm_compute) ltac:(by vm_compute))
    as (n & sy' & d' & E & _ & _ & Hc).
  assert (H0 : vd_removing (dev_of evs_reset) = false) by by vm_compute.
  rewrite H0 in Hc. destruct Hc as [Hc _]. exists n, sy'. split; [exact E|]. intros r Hr.
  assert (H1 : vd_requests (dev_of evs_reset) !! 1 = Some 0%nat) by by vm_compute.
  assert (H2 : match k_requests (sy_k (after evs_reset)) !! 0%nat with
    Some r => r_reset_generation r =? vd_reset_generation (dev_of evs_reset) | None => true end = false)
    by by vm_compute.
  apply (cs_gone _ _ _ _ _ _ _ Hc 1 0%nat H1); [|intros (_ & r0 & Hr0 & Hg)|done].
  - apply elem_of_xa_indices. exists 0%nat. exact H1.
  - rewrite Hr0 in H2. apply Z.eqb_neq in H2. exact (H2 Hg).
Defined.

Lemma device_state_well_formed_witness :
  0 <= vd_sq_tail (dev_of evs_submit) < 16 /\ vd_sq_tail (dev_of evs_submit) = 1.
Proof.
  pose proof (device_state_well_formed no_inject (after evs_submit) (dev_of evs_submit)
    (after_reachable evs_submit ltac:(by vm_compute)) ltac:(by vm_compute)) as [H _].
  split; [exact H|by vm_compute].
Defined.

Lemma wait_delivers_once_witness :
  exists ret out s', wait_end 0 0 (wait_for 1 100) w_completed (sy_k (after evs_done)) = Ok ((ret, out), s') /\
    (rc_is_ok ret = true <-> out <> None).
Proof.
  destruct (wait_delivers_once no_inject (after evs_done) 0 w_completed 0 0 (wait_for 1 100)
    (after_reachable evs_done ltac:(by vm_compute)) ltac:(by vm_compute) ltac:(by vm_compute))
    as (ret & out & s' & E & Hret & _).
  exists ret, out, s'. split; [exact E|exact Hret].
Defined.

(** A submission with something in its padding. *)
Lemma ioctl_reaches_handler_witness :
  let c := call_submit crc_command in
  let user := fun _ : nat => Some (call_bytes c (replicate 64 0xa5)) in
  vams_ioctl 0 (call_number abi_lp64 c) user w_timed_out (sy_k (after evs_buffer)) =
  call_handler 0 c user w_timed_out (sy_k (after evs_buffer)).
Proof.
  intros c user.
  apply (proj1 (ioctl_reaches_handler 0 user w_timed_out (sy_k (after evs_buffer))) c (replicate 64 0xa5));
    [|done|done].
  repeat (apply Forall2_cons; split; [by vm_compute|]). apply Forall2_nil_2.
Defined.

Definition request_of (l : list (event sim)) : vams_request :=
  default (new_request None) (k_requests (sy_k (after l)) !! 0%nat).
Definition file_of (l : list (event sim)) : vams_file :=
  default new_file (k_files (sy_k (after l)) !! 0%nat).

Lemma buffers_outlive_their_requests_witness :
  is_Some (k_mappings (sy_k (after evs_submit)) !! 0%nat) /\
  vams_ioctl_buffer_unregister 0 (Some (Build_vams_ioc_buffer_unregister 24 1 1 0 0))
    (sy_k (after evs_submit)) = Ok (rc_err EBUSY, sy_k (after evs_submit)).
Proof.
  destruct (buffers_outlive_their_requests no_inject (after evs_submit) 0 (request_of evs_submit) 0
    (after_reachable evs_submit ltac:(by vm_compute)) ltac:(by vm_compute) ltac:(left; by vm_compute))
    as (H1 & _ & H3).
  split; [exact H1|].
  exact (H3 0%nat (file_of evs_submit) 1 ltac:(by vm_compute) ltac:(by vm_compute) ltac:(done)).
Defined.
