(* ===== verification/DriverFirmware.v ===== *)
(** * From the user's ioctl to the firmware's validator

    The driver checks a submission and builds a descriptor in the ring; the
    firmware fetches it and validates it again.  Here is what the driver promises
    of a submission it lets through, and the two ends meet: the firmware accepts
    it. *)

From S2P Require Import Prelude Abi Linux Command DriverState Driver DriverApi DriverProbe DriverFrame.
From S2P Require Import DriverInv DriverSubmit DriverFiles DriverSystem DriverThms DriverReach.

(** The fields of the user's structure at their C widths. *)
Definition wf_submit (i : vams_ioc_submit) : Prop :=
  is_u32 (is_opcode i) /\ is_u32 (is_flags i) /\ is_u32 (is_length i) /\ is_u32 (is_timeout_ms i) /\
  is_u64 (is_source_offset i) /\ is_u64 (is_destination_offset i) /\ is_u64 (is_user_cookie i) /\
  is_u32 (is_expected_crc i).

Lemma land_even_mask f : is_u32 f -> has_bits f (U32_MAX - VAMS_SUBMIT_VERIFY_CRC) = false -> f = 0 \/ f = 1.
Proof.
  intros Hf H. unfold has_bits in H. apply negb_false_iff, Z.eqb_eq in H.
  assert (E : f = Z.land f 1).
  { rewrite <-(Z.mod_small f (2 ^ 32)) at 1 by (unfold is_u32 in Hf; lia).
    rewrite <-Z.land_ones by lia.
    change (Z.ones 32) with (Z.lor (U32_MAX - VAMS_SUBMIT_VERIFY_CRC) 1).
    by rewrite Z.land_lor_distr_r, H. }
  assert (Hm : Z.land f 1 = f mod 2) by (change 1 with (Z.ones 1); by rewrite Z.land_ones).
  pose proof (Z.mod_pos_bound f 2). lia.
Qed.

(** The fixed part of an accepted submission. *)
Lemma submit_args_ok i :
  wf_submit i -> submit_args_bad i = false ->
  is_timeout_ms i <= VAMS_MAX_TIMEOUT_MS /\ is_length i <= VAMS_MAX_TRANSFER_SIZE /\
  ((is_opcode i = VAMS_OP_CRC32 /\ is_flags i = VAMS_SUB_F_VERIFY_CRC) \/
   (is_flags i = 0 /\ is_expected_crc i = 0)).
Proof.
  intros (_ & Hf & _) H. unfold submit_args_bad in H.
  repeat (apply orb_false_iff in H as [H ?]).
  unfold VAMS_MAX_TIMEOUT_MS, VAMS_MAX_TRANSFER_SIZE, VAMS_MAX_TRANSFER in *.
  destruct (land_even_mask (is_flags i) Hf) as [Ef|Ef]; [done|..]; rewrite Ef in *;
    destruct (Z.eqb_spec (is_opcode i) VAMS_OP_CRC32); simpl in *; bool_to_prop; try lia. auto.
Qed.

Section Compose.
Context {W : Type} `{!Kernel W, !KernelLaws W}.
Implicit Types (s : kstate W).

(** A buffer argument as the validator sees it. *)
Lemma buffer_in_bus s f handle offset length access q dma :
  mappings_ok s -> is_u64 offset -> 0 <= length ->
  buffer_ok s f handle offset length access q dma ->
  if access =? 0 then dma = 0 else dma <> 0 /\ 0 <= dma /\ dma + length <= U64_MAX.
Proof.
  intros Hm Ho Hl. unfold buffer_ok. destruct (access =? 0); [by intros [_ ->]|].
  intros (p & _ & [(vf & m & _ & _ & Hmp & _ & _ & ->) Hz Hb]). specialize (Hm p m Hmp).
  unfold is_u64 in *. lia.
Qed.

Lemma u64_small x : is_u64 x -> u64 x = x.
Proof. intros Hx. unfold u64, is_u64 in *. by rewrite Z.mod_small. Qed.

(** No overlap was found, and the sums did not wrap. *)
Lemma overlaps_disjoint i source destination :
  submit_overlaps i source destination = false -> is_opcode i <> VAMS_OP_MEM_FILL ->
  source <> 0 -> destination <> 0 -> 0 <= source -> 0 <= destination -> 0 <= is_length i ->
  source + is_length i <= U64_MAX -> destination + is_length i <= U64_MAX ->
  ranges_disjoint source destination (is_length i).
Proof.
  intros H Hop Hs Hd Hs0 Hd0 Hl Hsl Hdl a [Ha1 Ha2] [Hb1 Hb2]. unfold submit_overlaps in H.
  rewrite !u64_small in H by (unfold is_u64, U64_MAX in *; lia).
  rewrite (proj2 (Z.eqb_neq _ _) Hs), (proj2 (Z.eqb_neq _ _) Hd), (proj2 (Z.eqb_neq _ _) Hop) in H.
  simpl in H. apply andb_false_iff in H as [H|H]; apply Z.ltb_ge in H; lia.
Qed.

(** The opcodes with the accesses and lengths they need. *)
Lemma submit_access_cases i sa da sl :
  submit_access i = Some (sa, da, sl) ->
  let op := is_opcode i in let n := is_length i in
  (op = VAMS_OP_NOP /\ n = 0 /\ sa = 0 /\ da = 0) \/
  (op = VAMS_OP_MEM_COPY /\ n <> 0 /\ sa <> 0 /\ da <> 0 /\ sl = n) \/
  (op = VAMS_OP_MEM_FILL /\ n <> 0 /\ sa <> 0 /\ da <> 0 /\ sl = 1) \/
  (op = VAMS_OP_CRC32 /\ n <> 0 /\ sa <> 0 /\ da = 0 /\ sl = n) \/
  (op = VAMS_OP_VECTOR_ADD /\ 4 <= n /\ n mod 4 = 0 /\ sa <> 0 /\ da <> 0 /\ sl = n).
Proof.
  intros H op n. unfold submit_access in H. fold op n in H.
  destruct (Z.eqb_spec op VAMS_OP_NOP) as [->|_].
  { destruct (_ || _) eqn:E; [done|]. bool_to_prop. injection H as <- <- <-. left. by split_and!. }
  destruct (Z.eqb_spec op VAMS_OP_MEM_COPY) as [->|_].
  { destruct (_ || _) eqn:E; [done|]. bool_to_prop. injection H as <- <- <-. right; left. by split_and!. }
  destruct (Z.eqb_spec op VAMS_OP_MEM_FILL) as [->|_].
  { destruct (_ || _) eqn:E; [done|]. bool_to_prop. injection H as <- <- <-. do 2 right; left.
    by split_and!. }
  destruct (Z.eqb_spec op VAMS_OP_CRC32) as [->|_].
  { destruct (_ || _) eqn:E; [done|]. bool_to_prop. injection H as <- <- <-. do 3 right; left.
    by split_and!. }
  destruct (Z.eqb_spec op VAMS_OP_VECTOR_ADD) as [->|_]; [|done].
  destruct (_ || _) eqn:E; [done|]. bool_to_prop. injection H as <- <- <-. do 4 right.
  rewrite has_bits_3 in *. bool_to_prop. by split_and!.
Qed.

Lemma descriptor_wf i source destination :
  wf_submit i -> is_u64 source -> is_u64 destination -> wf_submission (submit_descriptor i source destination).
Proof.
  intros (H1 & H2 & H3 & H4 & H5 & H6 & H7 & H8) Hs Hd.
  unfold wf_submission, submission_layout, submission_fields, fits, submit_descriptor. simpl.
  pose proof (u8_range (is_opcode i)). pose proof (u8_range (is_flags i)).
  repeat constructor; unfold is_u8, is_u32, is_u64, VAMS_DESC_VERSION_1 in *; simpl; lia.
Qed.

(** The payload of an accepted submission, up to the alignment of vectors. *)
Lemma checked_payload s f i sa da sl source destination qs qd :
  mappings_ok s -> wf_submit i -> submit_access i = Some (sa, da, sl) ->
  is_length i <= VAMS_MAX_TRANSFER_SIZE ->
  buffer_ok s f (is_source_handle i) (is_source_offset i) sl sa qs source ->
  buffer_ok s f (is_destination_handle i) (is_destination_offset i) (is_length i) da qd destination ->
  submit_overlaps i source destination = false ->
  is_u64 source /\ is_u64 destination /\
  ((is_opcode i = VAMS_OP_VECTOR_ADD -> (4 | source) /\ (4 | destination)) ->
   payload_ok (submit_descriptor i source destination)).
Proof.
  intros Hm (Hop & _ & Hl & _ & Hso & Hdo & _) Hacc Hmax Hs Hd Hov.
  assert (Hsl : 0 <= sl) by (destruct (submit_access_cases i sa da sl Hacc) as [?|[?|[?|[?|?]]]];
    unfold is_u32 in *; destruct_and?; unfold submit_access in Hacc; repeat case_match; simplify_eq; lia).
  pose proof (buffer_in_bus _ _ _ _ _ _ _ _ Hm Hso Hsl Hs) as Bs.
  pose proof (buffer_in_bus _ _ _ _ _ _ _ _ Hm Hdo (proj1 Hl) Hd) as Bd.
  assert (Hfit : forall b, 0 <= b -> b + is_length i <= U64_MAX -> range_fits b (is_length i))
    by (intros b ?; unfold range_fits; lia).
  assert (Hu8 : forall op, is_opcode i = op -> 0 <= op < 256 -> u8 (is_opcode i) = op)
    by (intros op -> ?; unfold u8; by apply Z.mod_small).
  pose proof (overlaps_disjoint i source destination Hov) as Hdis.
  unfold payload_ok, transfer_length. simpl.
  destruct (submit_access_cases i sa da sl Hacc)
    as [(Eop & En & -> & ->)|[(Eop & En & Ha & Hb & ->)|[(Eop & En & Ha & Hb & ->)|
       [(Eop & En & Ha & -> & ->)|(Eop & En & Hmod & Ha & Hb & ->)]]]];
    rewrite ?(proj2 (Z.eqb_neq sa 0)) in Bs by done; rewrite ?(proj2 (Z.eqb_neq da 0)) in Bd by done;
    simpl in Bs, Bd; rewrite (Hu8 _ Eop) by done;
    (split; [unfold is_u64, is_u32, U64_MAX in *; lia|]);
    (split; [unfold is_u64, is_u32, U64_MAX in *; lia|]); intros Hal.
  - by left.
  - right; left. destruct Bs as (?&?&?), Bd as (?&?&?). split_and!; auto; unfold is_u32 in *; try lia.
    apply Hdis; try done; try lia. by rewrite Eop.
  - do 2 right; left. destruct Bs as (?&?&?), Bd as (?&?&?). split_and!; auto; unfold is_u32 in *; lia.
  - do 3 right; left. destruct Bs as (?&?&?). split_and!; auto; unfold is_u32 in *; lia.
  - do 4 right. destruct Bs as (?&?&?), Bd as (?&?&?). destruct (Hal Eop).
    split_and!; auto; unfold is_u32 in *; try lia.
    + by apply Z.mod_divide.
    + apply Hdis; try done; try lia. by rewrite Eop.
Qed.

Lemma validate_misaligned i source destination :
  is_opcode i = VAMS_OP_VECTOR_ADD -> is_flags i = 0 -> is_expected_crc i = 0 ->
  is_timeout_ms i <= VAMS_MAX_TIMEOUT_MS -> 4 <= is_length i <= VAMS_MAX_TRANSFER_SIZE ->
  is_length i mod 4 = 0 -> source <> 0 -> destination <> 0 ->
  has_bits (Z.lor source destination) 3 = true ->
  vams_validate_command (submit_descriptor i source destination) = VAMS_ERR_INVALID_ALIGNMENT.
Proof.
  intros Eop Ef Ec Ht Hl Hm Hs Hd Hal. unfold vams_validate_command, submit_descriptor. simpl.
  rewrite Eop, Ef, Ec. change (u8 VAMS_OP_VECTOR_ADD) with VAMS_OP_VECTOR_ADD. change (u8 0) with 0.
  change (4 - 1) with 3. rewrite has_bits_3, Hm, Hal.
  rewrite (proj2 (Z.ltb_ge _ _) Ht), (proj2 (Z.ltb_ge _ 4) (proj1 Hl)), (proj2 (Z.ltb_ge _ _) (proj2 Hl)).
  by rewrite (proj2 (Z.eqb_neq _ _) Hs), (proj2 (Z.eqb_neq _ _) Hd).
Qed.

Lemma checked_validates s f i p descriptor s' :
  mappings_ok s -> wf_submit i -> submit_checked s f i p descriptor s' ->
  vams_validate_command descriptor = VAMS_ERR_NONE \/
  (is_opcode i = VAMS_OP_VECTOR_ADD /\ vams_validate_command descriptor = VAMS_ERR_INVALID_ALIGNMENT).
Proof.
  intros Hm Hwf [Hargs _ (sa & da & sl & qs & qd & source & destination & d & Hacc & Hs & Hd & Hov & -> & _)].
  destruct (submit_args_ok i Hwf Hargs) as (Ht & Hmax & Hfl).
  destruct (checked_payload s f i sa da sl source destination qs qd) as (Us & Ud & Hpay); auto.
  assert (Hok : (is_opcode i = VAMS_OP_VECTOR_ADD -> (4 | source) /\ (4 | destination)) ->
    vams_validate_command (submit_descriptor i source destination) = VAMS_ERR_NONE).
  { intros Hal. apply validate_none_valid; [by apply descriptor_wf|]. split; [done|].
    specialize (Hpay Hal). split_and!; try done. unfold flags_ok. simpl.
    destruct Hfl as [[-> ->]|[-> ->]]; auto. }
  destruct (Z.eq_dec (is_opcode i) VAMS_OP_VECTOR_ADD) as [Eop|Hne]; [|by left; apply Hok].
  destruct (has_bits (Z.lor source destination) 3) eqn:Eal.
  2:{ left. apply Hok. intros _. apply aligned_lor in Eal; [done|unfold is_u64 in *; lia..]. }
  right. split; [done|].
  destruct (submit_access_cases i sa da sl Hacc) as [[E _]|[[E _]|[[E _]|[[E _]|(_ & En & Hmod & Ha & Hb & _)]]]];
    [by rewrite Eop in E..|].
  destruct Hfl as [[E _]|[Ef Ec]]; [by rewrite Eop in E|].
  destruct Hwf as (_ & _ & Hlen & _ & Hso & Hdo & _).
  assert (Hsl : 0 <= sl).
  { unfold submit_access in Hacc. unfold is_u32 in Hlen. repeat case_match; simplify_eq; lia. }
  pose proof (buffer_in_bus _ _ _ _ _ _ _ _ Hm Hso Hsl Hs) as Bs.
  pose proof (buffer_in_bus _ _ _ _ _ _ _ _ Hm Hdo (proj1 Hlen) Hd) as Bd.
  rewrite (proj2 (Z.eqb_neq _ _) Ha) in Bs. rewrite (proj2 (Z.eqb_neq _ _) Hb) in Bd.
  by apply validate_misaligned; [..|apply Bs|apply Bd|].
Qed.
End Compose.

(** ** What an accepted submission is

    With the numbers of the user interface written out: opcodes 0 no operation,
    1 copy, 2 fill, 3 CRC, 4 vector addition; rights 1 read, 2 write; flag 1
    verifies the CRC. *)

Definition arguments_ok (i : vams_ioc_submit) : Prop :=
  is_size i = 64 /\ is_version i = 1 /\ is_command_id i = 0 /\
  is_timeout_ms i <= 60000 /\ is_length i <= 16777216 /\
  ((is_flags i = 0 /\ is_expected_crc i = 0) \/ (is_opcode i = 3 /\ is_flags i = 1)).

(** What an opcode asks of the arguments, the rights it needs on each buffer (0:
    no buffer) and the length of the source range. *)
Definition opcode_ok (i : vams_ioc_submit) (sa da sl : Z) : Prop :=
  let source := is_source_handle i in let destination := is_destination_handle i in
  match is_opcode i with
  | 0 => source = 0 /\ destination = 0 /\ is_source_offset i = 0 /\
         is_destination_offset i = 0 /\ is_length i = 0 /\ sa = 0 /\ da = 0
  | 1 => is_length i <> 0 /\ source <> 0 /\ destination <> 0 /\
         sa = 1 /\ da = 2 /\ sl = is_length i
  | 2 => is_length i <> 0 /\ source <> 0 /\ destination <> 0 /\ sa = 1 /\ da = 2 /\ sl = 1
  | 3 => is_length i <> 0 /\ source <> 0 /\ destination = 0 /\ is_destination_offset i = 0 /\
         sa = 1 /\ da = 0 /\ sl = is_length i
  | 4 => 4 <= is_length i /\ is_length i mod 4 = 0 /\ source <> 0 /\ destination <> 0 /\
         sa = 1 /\ da = 3 /\ sl = is_length i
  | _ => False
  end.

(** The entry the device finds in the ring. *)
Record entry_ok (i : vams_ioc_submit) (id source destination : Z) (e : vams_submission) : Prop := {
  en_kind : s_version e = 1 /\ s_opcode e = is_opcode i /\ s_flags e = is_flags i;
  en_id : s_command_id e = id;
  en_source : s_source_dma e = source;
  en_destination : s_destination_dma e = destination;
  en_rest : s_length e = is_length i /\ s_timeout_ms e = is_timeout_ms i /\
    s_user_cookie e = is_user_cookie i /\ s_expected_crc e = is_expected_crc i;
  en_reserved : s_reserved0 e = 0 /\ s_reserved1 e = 0 /\ s_reserved2 e = 0;
}.

Section Promise.
Context {W : Type} `{!Kernel W, !KernelLaws W}.
Implicit Types (s : kstate W).

(** The id of the new request: in no use that an answer could be confused with. *)
Record id_fresh (s : kstate W) (f p : nat) (id : Z) (s' : kstate W) : Prop := {
  if_nonzero : id <> 0;
  if_new : k_requests s !! p = None;
  if_owner : exists vf, k_files s !! f = Some vf /\ vf_requests vf !! id = None;
  if_tables : outstanding s' !! id = Some p /\
    exists vf, k_files s' !! f = Some vf /\ vf_requests vf !! id = Some p;
  if_unique q r : q <> p -> k_requests s' !! q = Some r -> r_done r = false -> r_command_id r <> id;
}.

Lemma submit_access_opcode i sa da sl : submit_access i = Some (sa, da, sl) -> opcode_ok i sa da sl.
Proof.
  unfold submit_access, opcode_ok, VAMS_OP_NOP, VAMS_OP_MEM_COPY, VAMS_OP_MEM_FILL, VAMS_OP_CRC32,
    VAMS_OP_VECTOR_ADD.
  repeat match goal with |- (if is_opcode i =? ?n then _ else _) = _ -> _ =>
    destruct (Z.eqb_spec (is_opcode i) n) as [->|_] end; [..|done];
    (destruct (_ || _) eqn:E; [done|]); bool_to_prop; intros [= <- <- <-]; try by split_and!.
  rewrite has_bits_3 in *. bool_to_prop. by split_and!.
Qed.

Lemma opcode_small i sa da sl : opcode_ok i sa da sl -> 0 <= is_opcode i <= 4.
Proof.
  unfold opcode_ok. destruct (is_opcode i) as [|[[]|[[]|[]|]|]|]; try done; lia.
Qed.

Lemma submit_args_spec i : wf_submit i -> submit_args_bad i = false -> arguments_ok i.
Proof.
  intros Hwf H. destruct (submit_args_ok i Hwf H) as (Ht & Hl & Hf). unfold submit_args_bad in H.
  repeat (apply orb_false_iff in H as [H ?]). bool_to_prop.
  unfold arguments_ok, sizeof_submit, VAMS_UAPI_VERSION, VAMS_MAX_TIMEOUT_MS, VAMS_MAX_TRANSFER_SIZE,
    VAMS_OP_CRC32, VAMS_SUB_F_VERIFY_CRC in *.
  split_and!; try done; tauto.
Qed.

(** No other unfinished request has the id of an outstanding one. *)
Lemma id_unique lo ls bound lf lr lm lu pd s id p q r :
  dinv lo ls bound lf lr lm [] lu pd s -> outstanding s !! id = Some p -> q <> p ->
  k_requests s !! q = Some r -> r_done r = false -> r_command_id r <> id.
Proof.
  intros H Hid Hq Hr Hdone <-. pose proof (di_undone _ _ _ _ _ _ _ _ _ _ H q r Hr) as Hu.
  rewrite Hdone in Hu. destruct Hu as [Hu|Hu%not_elem_of_nil]; [|done]. congruence.
Qed.

(** Tables only grow, so an id the owner has used is not given out again. *)
Lemma id_was_free lo ls bound lf lr lm ln lu pd s s' f vf' id p :
  dinv lo ls bound lf lr lm ln lu pd s -> grows s s' -> k_requests s !! p = None ->
  k_files s' !! f = Some vf' -> vf_requests vf' !! id = Some p ->
  exists vf, k_files s !! f = Some vf /\ vf_requests vf !! id = None.
Proof.
  intros H Hg Hp Hf' Hid. destruct (Hg f vf' Hf') as (vf & Hf & Hsub). exists vf. split; [done|].
  destruct (vf_requests vf !! id) as [q|] eqn:Eq; [|done].
  pose proof (lookup_weaken _ _ _ _ Eq Hsub) as Eq'.
  destruct (di_own _ _ _ _ _ _ _ _ _ _ H f vf id q Hf Eq) as (r & Hr & _). congruence.
Qed.
End Promise.

(** C16: an accepted submission is sound.  When the ioctl gets past its first
    half, the argument structure had the right size, version and flags, and
    length and timeout within their limits; the opcode is known and its
    arguments are as it needs them; every buffer it uses is a range inside a
    buffer this file registered, with the rights the opcode needs, at a nonzero
    bus address that does not wrap, and source and destination do not overlap
    (except for a fill).  The entry in the submission ring at the old tail says
    just this.  It carries a fresh nonzero command id: the request is a new
    object, outstanding under that id and in the file's table, where the id was
    free before, and no other unfinished request has it.  The tail has moved by
    one slot. *)
Theorem submission_is_checked {W} `{!Kernel W, !KernelLaws W} inject (sy : system W)
    f input p descriptor s' d :
  reachable inject sy -> opened sy f = true -> wf_submit input -> k_dev (sy_k sy) = Some d ->
  submit_begin f (Some input) (sy_k sy) = Ok (inr (p, descriptor), s') ->
  arguments_ok input /\
  exists sa da sl source destination source_dma destination_dma r d',
    opcode_ok input sa da sl /\
    buffer_ok (sy_k sy) f (is_source_handle input) (is_source_offset input) sl sa source source_dma /\
    buffer_ok (sy_k sy) f (is_destination_handle input) (is_destination_offset input)
      (is_length input) da destination destination_dma /\
    (sa <> 0 -> da <> 0 -> is_opcode input <> 2 ->
     ranges_disjoint source_dma destination_dma (is_length input)) /\
    k_requests s' !! p = Some r /\ r_owner r = Some f /\
    r_source r = source /\ r_destination r = destination /\
    entry_ok input (r_command_id r) source_dma destination_dma (sq_entry (vd_sq_tail d) (k_world s')) /\
    id_fresh (sy_k sy) f p (r_command_id r) s' /\
    k_dev s' = Some d' /\ vd_sq_tail d' = (vd_sq_tail d + 1) mod 16.
Proof.
  intros Hr Ho%opened_spec Hwf Hd E. pose proof (reachable_inv _ _ Hr) as Hi.
  pose proof (si_dinv _ Hi) as Hinv. destruct (si_phase _ Hi) as [Hm _].
  destruct (submit_begin_ok _ _ _ _ _ f (Some input) _ Hinv Ho) as (res & s1 & E1 & Hres).
  rewrite E in E1. injection E1 as <- <-. destruct Hres as (H' & i & [= <-] & [Hargs Hnew Hc]).
  destruct Hc as (sa & da & sl & qs & qd & src & dst & d0 & Hacc & Hs & Hdb & Hov & -> & Hd0 & Hsub).
  rewrite Hd in Hd0. injection Hd0 as <-.
  destruct Hsub as [(r & Hrq & Hown & Hqs & Hqd & Hsq & Hid & Hout) (d' & Hd' & Ht)].
  split; [by apply submit_args_spec|]. pose proof (submit_access_opcode _ _ _ _ Hacc) as Hop.
  exists sa, da, sl, qs, qd, src, dst, r, d'.
  destruct (checked_payload _ f input sa da sl src dst qs qd Hm Hwf Hacc) as (Us & Ud & _);
    [by destruct (submit_args_ok input Hwf Hargs) as (_ & ? & _)|done..|].
  destruct (di_sub _ _ _ _ _ _ _ _ _ _ H' f p ltac:(by left)) as (_ & vf' & r' & Hf' & Hr' & Hin).
  rewrite Hrq in Hr'. injection Hr' as <-.
  destruct (submit_args_ok input Hwf Hargs) as (_ & _ & Hfl).
  split_and!; try done.
  - intros Ha Hb H2. unfold buffer_ok in Hs, Hdb.
    rewrite (proj2 (Z.eqb_neq _ _) Ha) in Hs. rewrite (proj2 (Z.eqb_neq _ _) Hb) in Hdb.
    destruct Hs as (q1 & _ & [_ Hz1 Hb1]), Hdb as (q2 & _ & [_ Hz2 Hb2]).
    destruct Hwf as (_ & _ & Hlen & _). unfold is_u64, is_u32 in *.
    apply (overlaps_disjoint input); try done; try lia.
    destruct (submit_access_cases _ _ _ _ Hacc)
      as [(_ & _ & ? & _)|[(_ & _ & _ & _ & ->)|[(? & _)|[(_ & _ & _ & ? & _)|(_ & _ & _ & _ & _ & ->)]]]];
      by lia || done.
  - rewrite Hsq. pose proof (opcode_small _ _ _ _ Hop) as Hsm.
    assert (Hfl' : 0 <= is_flags input <= 1) by (unfold VAMS_SUB_F_VERIFY_CRC in *; lia).
    split; unfold with_command_id, submit_descriptor; simpl; try done.
    split_and!; [done|..]; unfold u8; by rewrite Z.mod_small by lia.
  - split; [done|done| |split; [done|by exists vf']|].
    + eapply id_was_free; [exact Hinv|by eapply grows_submit_begin|done..].
    + intros q r0 Hq Hr0 Hdone. by eapply id_unique.
Qed.

Lemma submission_is_checked_witness :
  exists p descriptor s', submit_begin 0 (Some crc_command) (sy_k (after evs_buffer))
      = Ok (inr (p, descriptor), s') /\
    exists r : vams_request, k_requests s' !! p = Some r /\
      id_fresh (sy_k (after evs_buffer)) 0 p (r_command_id r) s'.
Proof.
  assert (H : match submit_begin 0 (Some crc_command) (sy_k (after evs_buffer)) with
    Ok (inr _, _) => true | _ => false end = true) by by vm_compute.
  apply is_accepted in H as (p & descriptor & s' & E). exists p, descriptor, s'.
  assert (Hwf : wf_submit crc_command) by (vm_compute; by split_and!).
  destruct (submission_is_checked no_inject (after evs_buffer) 0 crc_command p descriptor s'
    (default new_device (k_dev (sy_k (after evs_buffer))))
    (after_reachable evs_buffer ltac:(by vm_compute)) ltac:(by vm_compute) Hwf ltac:(by vm_compute) E)
    as (_ & sa & da & sl & qs & qd & src & dst & r & d' & _ & _ & _ & _ & Hr & _ & _ & _ & _ & Hid & _).
  split; [exact E|]. exists r. exact (conj Hr Hid).
Defined.

(** C7: what the driver puts into the submission ring, the firmware accepts.
    For every submission the driver lets through, the descriptor in the ring
    passes [vams_validate_command], with one exception the driver does not
    check: a vector addition at addresses that are not 4-byte aligned, which
    the firmware answers with [VAMS_ERR_INVALID_ALIGNMENT]. *)
Theorem driver_descriptors_validate {W} `{!Kernel W, !KernelLaws W} inject (sy : system W)
    f input p descriptor s' d :
  reachable inject sy -> opened sy f = true -> wf_submit input -> k_dev (sy_k sy) = Some d ->
  submit_begin f (Some input) (sy_k sy) = Ok (inr (p, descriptor), s') ->
  let entry := sq_entry (vd_sq_tail d) (k_world s') in
  vams_validate_command entry = VAMS_ERR_NONE \/
  (is_opcode input = VAMS_OP_VECTOR_ADD /\
   vams_validate_command entry = VAMS_ERR_INVALID_ALIGNMENT).
Proof.
  intros Hr Ho%opened_spec Hwf Hd E entry. pose proof (reachable_inv _ _ Hr) as Hi.
  destruct (submit_begin_ok _ _ _ _ _ f (Some input) _ (si_dinv _ Hi) Ho) as (res & s1 & E1 & Hres).
  rewrite E in E1. injection E1 as <- <-. destruct Hres as (_ & i & [= <-] & Hc).
  destruct (si_phase _ Hi) as [Hm _].
  pose proof (checked_validates _ _ _ _ _ _ Hm Hwf Hc) as Hv.
  destruct Hc as [_ _ (sa & da & sl & qs & qd & src & dst & d' & _ & _ & _ & _ & _ & Hd' & Hsub)].
  rewrite Hd in Hd'. injection Hd' as <-. destruct Hsub as [(r & _ & _ & _ & _ & Hsq & _) _].
  unfold entry. rewrite Hsq. exact Hv.
Qed.

Lemma driver_descriptors_validate_witness :
  exists p descriptor s' d,
    submit_begin 0 (Some crc_command) (sy_k (after evs_buffer)) = Ok (inr (p, descriptor), s') /\
    vams_validate_command (sq_entry (vd_sq_tail d) (k_world s')) = VAMS_ERR_NONE.
Proof.
  assert (H : match submit_begin 0 (Some crc_command) (sy_k (after evs_buffer)) with
    Ok (inr _, _) => true | _ => false end = true) by by vm_compute.
  apply is_accepted in H as (p & descriptor & s' & E). exists p, descriptor, s'.
  assert (Hwf : wf_submit crc_command) by (vm_compute; by split_and!).
  destruct (driver_descriptors_validate no_inject (after evs_buffer) 0 crc_command p descriptor s'
    (default new_device (k_dev (sy_k (after evs_buffer))))
    (after_reachable evs_buffer ltac:(by vm_compute)) ltac:(by vm_compute) Hwf ltac:(by vm_compute) E)
    as [Hv|[Hv _]]; [|discriminate Hv].
  eexists. exact (conj E Hv).
Defined.
